(* ===== verification/_CoqProject ===== *)
-Q . S2P
Prelude.v
Stream.v
RustStd.v
Hdlc.v
Packet.v
Io.v
Forward.v
Delivery.v
Fortinet.v
PppEngine.v
Net.v
NetStack.v
ToyStack.v
Config.v
Http.v
Portal.v
RouteTable.v
NetPlan.v
Dns.v
Socks5.v
Runtime.v
ProxyLink.v
ProxyLoop.v
ProxyDns.v
ProxyTurn.v
NetApply.v
Login.v
Pinentry.v
Console.v
Tls.v
Session.v
ProxyMode.v
Negotiation.v
Pppd.v
Saml.v
Main.v
Program.v
Client.v
Diagnostics.v
Conformance.v
