(* ===== verification/Prelude.v ===== *)
(** * openfortivpn_rs: verification library

    openfortivpn_rs is a client for Fortinet VPN gateways: it logs in over
    HTTPS, asks the portal for the configuration of a tunnel, and then carries
    PPP packets over TLS, either between the gateway and a local pppd (the
    normal mode, which also installs routes and name servers in the host) or
    between the gateway and a PPP engine of its own that serves a SOCKS5 proxy
    (the proxy mode).  The source files named here are those of [src/src/].

    ** Files

    The ground:
    - [Prelude]: the error type of [error.rs] ([OpenfortivpnError]), results
      that also know a panic and a loop that does not end ([result]: [Ok],
      [Err], [Panic], [Diverge]), their binds ([let*] for pure code, [let!] for
      code that threads a state), slices and indices that panic out of range,
      machine integers (a width is a range of [Z]; where the code can leave it the
      wrap or the panic is written out, as in [usub]), big-endian fields, IPv4 addresses, record update, and the
      automation ([len_lia], [zbool], [bitwise], the hint base [rust] and the
      rewrite base [len]).
    - [Stream]: [std::io::Read] and [std::io::Write].  A reader is the script
      of what its calls will return (bytes that arrive together, or an error),
      a writer what it accepted and the script of what each call takes; a
      theorem about all scripts holds of every stream, blocking or not.
      [StreamDecoder] and [LawfulDecoder] are the interface of the incremental
      decoders: that pushing a stream in pieces is pushing it at once.
    - [RustStd]: the string and number methods of the standard library the
      program calls, on strings of UTF-8 bytes.
    - [Net]: [std::net], [Instant] and [thread::sleep]: TCP streams, listeners
      and a clock that never runs backwards, as scripts again.

    Packets and the normal mode's forwarding:
    - [Hdlc] ([hdlc.rs]): the framing of packets for the pty of pppd.
    - [Packet] ([tunnel/packet.rs]): packets and their TLS frames.
    - [Io] ([tunnel/io.rs]): packets on the blocking TLS stream and the decoder
      of the pty stream.
    - [Forward] ([tunnel/forward.rs]): the poll loop of the normal mode, with
      its write queues and the decoder of the TLS stream; [Delivery]: what
      arrives when both ends stay up.

    The proxy mode:
    - [Fortinet] ([tunnel/fortinet.rs]): the packet transport.
    - [PppEngine] ([tunnel/ppp_engine.rs]): LCP and IPCP.
    - [NetStack] ([proxy/netstack.rs]): the device and the sockets of the TCP
      stack.  The smoltcp library is the class [Smoltcp] of the operations the
      source calls, with the laws of [SmoltcpLaws] about the streams of its
      sockets ([SmoltcpView]); [ToyStack] is an instance on which examples run.
    - [RouteTable] ([proxy/route_table.rs]), [Dns] ([proxy/dns.rs]) and
      [Socks5] ([proxy/socks5.rs]): destinations and protocols of the proxy.
    - [Runtime] and [ProxyLoop] ([proxy/runtime.rs]): sessions and the pumps
      that move their bytes; names, new clients, a turn of the loop and [run].
      What they do is shown in [Runtime] (one session), [ProxyLink] (the
      tunnel's side), [ProxyDns] (names) and [ProxyTurn] (the whole loop).
    - [ProxyMode] ([proxy/mod.rs]): the negotiation and the mode around the
      loop; [Negotiation]: the gateways that the negotiation succeeds with.

    The gateway and the user:
    - [Config] ([config.rs] and the options of [cli.rs]): defaults, the file
      format, the merge of file and command line.
    - [Http] ([http.rs]): requests, responses, cookies, percent-encoding;
      [Diagnostics]: what is written to the debug log about them.
    - [Portal] ([auth/portal.rs]): the allocation of a tunnel and its
      configuration document.
    - [Login] ([auth/login.rs], and [secret_hint] of [user_input.rs]): the
      login exchange with its forms and second factors.
    - [Saml] ([auth/saml.rs]): the server that waits for a browser's login.
    - [Pinentry] ([pinentry.rs]) and [Console] ([user_input.rs], [logger.rs]):
      secrets from a dialogue program or the terminal, and log lines.
    - [Tls] ([tls.rs]): whom to trust, and the connection below TLS.
    - [Session] ([tunnel/session.rs]): from an address to an open tunnel.

    The host:
    - [NetPlan] ([net_plan.rs]): the actions on routes and name servers.
    - [NetApply] ([net_apply.rs]): performing a plan on the host and undoing it.
    - [Pppd] ([tunnel/pppd.rs], [tunnel/interface.rs]): the PPP process and
      the interface it brings up.
    - [Main] ([main.rs]): completing the configuration, the tunnel mode, and
      the attempts; [Program]: a run of the program and its repetition, on any
      world; [Client]: the program on the world that the two modes act on.

    [Conformance] evaluates the unit tests of the source files on these
    definitions.

    ** How the parts interact

    [Main.configure] makes a complete [Config], with [Pinentry.read_secret] and
    [Saml.wait_for_session_id] where they are needed, and
    [Main.run_with_persistence] runs a mode on it.  Both modes begin with
    [Session.prepare]: [Tls.connect] for two connections,
    [Login.authenticate] through [Http.do_http_request] for a session cookie,
    [Portal.request_vpn_allocation] and [Portal.get_vpn_config] for a
    [VpnConfigXml]; and both end with [Session.logout].  [Main.run_tunnel]
    moves packets between the pty ([Io.push_bytes], [Hdlc.encode]) and the
    tunnel ([Forward.tls_push_bytes], [Packet.encode_for_tls]) in
    [Forward.forward_with_callbacks], whose callback starts the thread that
    waits for the interface ([Pppd.wait_for_up_ppp_interface]) and performs the
    plan of [NetPlan.plan_network_actions] ([NetApply.apply_network_plan]);
    then it undoes the plan ([NetApply.rollback]) and ends the process
    ([Pppd.terminate_pppd]).  [ProxyMode.run_mode] makes the table of the proxy
    ([RouteTable.from_config]), negotiates ([ProxyMode.establish_ppp]:
    [Fortinet.read_packet] feeds [PppEngine.handle_incoming]) and runs
    [ProxyLoop.run].

    Definitions keep the names of the source; a loop of a function is a
    Fixpoint of its own, named after it.  Code that changes an object takes it
    as its last argument and returns it; where two objects of the code change
    together (a session and the TCP stack, a connection and the record of all
    connections) a small record holds both.  A part of a function that is a
    definition of its own has the lines of the function in the map.

    ** What the theorems show

    - The program: however the forwarding ends, the tunnel mode takes back what
      an applied plan installed (as far as resolv.conf can be read and written,
      and apart from what a failed plan leaves), puts the PPP process to its end
      and logs out ([Main.run_tunnel_cleans_up]); the proxy mode logs out
      ([ProxyMode.run_mode_logs_out]); no mode starts on an incomplete
      configuration ([Main.configure_complete]); the number of attempts is
      bounded ([Main.persistence_bounded]); the program ends well after as many
      runs as the user wants ([Program.main_runs]), but with the library's one
      handler of Ctrl-C only the first of them reaches a mode
      ([Program.reconnecting_in_vain]); and when it is over, every connection
      that was made to the gateway was dropped and every PPP process that was
      started got the signals it took until it was over, unless [waitpid]
      failed ([Client.client_settles]).
    - Trust and consent: a connection is only made with a trusted certificate,
      and the two places that decide on it agree ([Tls.connect_stream_trusts],
      [Tls.trust_decisions_agree]); a login succeeds exactly with the answers of
      the gateway that consent to it, received on its connection
      ([Login.authenticate_needs_consent]); a prepared tunnel is the one that
      was agreed ([Session.prepare_opens]), and no connection is leaked
      ([Session.connections_dropped]).
    - Transport of packets: framing is lossless for every packet and every way
      the stream is cut ([Hdlc.encode_find_decode], [Packet.tls_frame_roundtrip],
      [Io.pty_stream_transparent], [Forward.tls_stream_transparent]); the
      checksum is the CRC it is meant to be and detects a changed byte
      ([Hdlc.frame_checksum_is_crc], [Hdlc.decode_detects_corrupt_byte]); the
      queues lose nothing ([Forward.write_available_conserves]); the whole loop
      carries exactly the packets of both sides ([Forward.forward_transparent])
      and, while both ends stay up, brings all of them to the other end, however
      they are delayed and refused ([Delivery.forward_delivers]);
      the proxy's transport accounts for every byte, returns a packet that is on
      hand, and delivers
      ([Fortinet.read_packet_accounts], [Fortinet.read_packet_delivers]).
    - The PPP engine refines an abstract link automaton and answers every packet
      ([PppEngine.engine_refines_link_automaton],
      [PppEngine.handle_incoming_events], [PppEngine.ipcp_negotiation_completes]).
      A negotiation that succeeds has an open link ([ProxyMode.establish_ppp_opens]),
      and it does succeed with every gateway that answers what it is asked,
      whatever else that gateway says ([Negotiation.establish_ppp_completes]).
    - The proxy: the runtime receives and sends what a reference that handles
      whole lists of packets does ([ProxyLink.tunnel_packets_received],
      [ProxyLink.tunnel_packets_sent]), all that is on hand in one turn; the
      bytes of a session are carried in order both ways, and as far as the
      socket and the client take them ([Runtime.pump_out_carries], [Runtime.pump_in_delivers],
      [Runtime.pump_direct_relays]); the table alone decides what goes through
      the tunnel ([ProxyTurn.serve_client_splits], [RouteTable.can_route_spec]);
      names are resolved within their time, with an address that a name server
      sent ([ProxyDns.resolve_domain_answers], [ProxyDns.dns_cache_holds]); a
      turn keeps all of this ([ProxyTurn.turn_preserves]) and the proxy ends
      without a panic on every link whose address is unicast
      ([ProxyTurn.run_ends]); over a
      whole run, what the tunnel accepted of a session is a beginning of what
      its client sent, and a direct session relays both ways
      ([ProxyTurn.run_is_transparent]);
      requests are understood or refused with the right reply, and addresses
      are found in responses ([Socks5], [Dns]).
    - The host: a plan protects the route to the gateway first and routes the
      same networks as the proxy, but for split routes without a gateway
      ([NetPlan.plan_protects_endpoint_first],
      [NetPlan.plan_matches_route_table]); what was applied is recorded and
      undone ([NetApply.apply_records_route_commands],
      [NetApply.rollback_undoes_everything], [NetApply.apply_failure_rolls_back],
      [NetApply.configure_dns_restored]); the PPP process is ended with the
      weakest signal that does, and its interface is found
      ([Pppd.terminate_pppd_escalates], [Pppd.wait_for_interface_finds]).
    - Requests to the gateway are what they should be, responses are received
      as sent, forms decode to what was configured, the configuration document
      is read as meant (the theorems of [Http], [Login] and [Portal]); the log
      of a request hides the values of its cookies
      ([Diagnostics.request_log_hides_cookies]); a
      browser's identifier is taken from the right requests only, and the wait
      for it ends unless a client that connects stays silent ([Saml]).
    - The user: a dialogue gives the password and leaves no process
      ([Pinentry]), the echo of the terminal comes back, and the verbosity
      decides what is logged ([Console]).
    - The configuration ([Config]): file and command line layer as documented,
      and every resulting configuration is well formed.
    - Robustness: functions that read foreign bytes answer a value or an error
      on all of them: no panic, no endless loop ([Hdlc.decode_find_frame_return],
      [Http.http_receive_returns], [Dns.parse_tcp_response_returns] and others).
      Where the code does panic the theorem says so
      ([Login.portal_redirect_panics], [Login.unclosed_input_panics],
      [RouteTable.ipv4_mask_to_prefix_overflows],
      [ProxyTurn.multicast_address_panics]).

    ** Fuel and bounds

    A loop that is not structural runs on fuel computed from its input, and
    [Diverge] is its answer when the fuel is spent, so a theorem that a
    function returns [Ok] or [returns] shows the fuel is enough.  The measure is the
    length of the remaining text for scanners ([Hdlc.find_frame], the walkers of
    [Portal] and [Login]), the size of the script for loops over a stream
    ([reader_fuel], [Fortinet.transport_fuel]), the bytes left in a queue
    ([Forward.queue_fuel], the queues of [Runtime]), the octets a socket holds
    ([Runtime.receive_fuel]), and the milliseconds until a deadline for loops
    that watch the clock and sleep ([ProxyLoop.DNS_FUEL], [Saml.wait_fuel], the
    grace of [Pppd.terminate_pppd], the wait for an interface); the attempts of
    [Main.run_with_persistence] are bounded by [max_reconnects].
    Two loops have no bound in the code and run over a list of the answers that
    their environment gives at each turn: the poll loop of [Forward] (a list of
    ticks) and the loop of the proxy (a list of the answers of the stop flag).
    Each is left as [Diverge] with its state when the list is over.
    Lengths are [Z]; a [usize] is not bounded where the code only adds lengths
    of buffers in memory, and machine integers wrap or panic where the code can
    reach their bounds.  Additions and subtractions are those of a build with
    overflow checks; the 64-bit counters of the proxy's sessions stay below
    their bound as long as the turns times the size of a socket buffer do,
    which is a hypothesis of the theorems on the loop ([ProxyTurn]).

    ** Parameters

    Code outside the repository is an argument of the definitions that use it:
    smoltcp ([Smoltcp]); the TLS handshake, the roots and the client
    certificates ([Tls.library], with [Tls.honest]: a handshake that succeeds
    asked the verifier about the certificate it reports, and obeyed it), the
    public key infrastructure and SHA-256 ([pki], [sha256]); the resolver and
    the sockets below ([Tls.network]); [forkpty], [execvp] and the child that
    runs a program image ([Pppd.spawn_pppd]); what [waitpid],
    [getifaddrs], [poll], [fcntl] and the terminal answer, call by call.
    Every theorem with such a hypothesis has a witness at concrete functions.

    ** What is not modelled

    The option parser (clap) with its help texts; the signal handler itself (the stop flag is a script of the
    answers it gives); the text of log lines other than those of
    [Diagnostics].  Code that has a variant for systems other than Unix has a
    definition for it too, with the suffix [_elsewhere] ([Console],
    [Forward], [Pppd], [Main]), or takes the system as an argument ([unix] in
    [Console]); the theorems are about the Unix variant where they do not name
    the other.
    The thread of [Main.run_tunnel] touches only the host and is joined before
    anything else does, so it is computed where it is joined.  A blocking read
    that is never answered is represented where the code waits for a stranger,
    in the callback server ([Net.tcp_read_waiting]); elsewhere a script that is
    over is the end of the stream.  A write of resolv.conf that fails may leave
    any text in the file ([NetApply.write_resolv_conf]).  The attempts of
    [Client] find surroundings that are fixed in advance, one for each attempt;
    a theorem about all of them covers those that depend on what was done
    before. *)

From stdpp Require Export prelude strings list pretty.
From Stdlib Require Export ZArith Lia Ascii.

Declare Scope rust_scope.
Delimit Scope rust_scope with rust.
#[global] Open Scope Z_scope.
#[global] Open Scope rust_scope.

#[global] Arguments Z.eqb : simpl never.
#[global] Arguments Ascii.eqb : simpl never.
#[global] Arguments Z.ltb : simpl never.
#[global] Arguments Z.leb : simpl never.
#[global] Arguments Z.gtb : simpl never.
#[global] Arguments Z.geb : simpl never.
#[global] Arguments Z.add : simpl never.
#[global] Arguments Z.sub : simpl never.
#[global] Arguments Z.mul : simpl never.
#[global] Arguments Z.div : simpl never.
#[global] Arguments Z.modulo : simpl never.
#[global] Arguments Z.land : simpl never.
#[global] Arguments Z.lor : simpl never.
#[global] Arguments Z.lxor : simpl never.
#[global] Arguments Z.shiftl : simpl never.
#[global] Arguments Z.shiftr : simpl never.
#[global] Arguments Z.to_nat : simpl never.
#[global] Arguments Z.of_nat : simpl never.
#[global] Arguments Z.max : simpl never.
#[global] Arguments Z.min : simpl never.

(** ** Machine types

    A Rust unsigned integer is a [Z]; the width is kept where the code wraps
    or narrows.  [usize] values are lengths and indices. *)

Abbreviation u8 := Z.
Abbreviation u16 := Z.
Abbreviation u32 := Z.
Abbreviation u64 := Z.
Abbreviation usize := Z.
Abbreviation bytes := (list Z).

Definition is_u8 (b : Z) : Prop := 0 <= b < 256.
Definition is_u16 (n : Z) : Prop := 0 <= n < 65536.
Definition is_u32 (n : Z) : Prop := 0 <= n < 4294967296.

Abbreviation is_bytes := (Forall is_u8).

(** The low bits kept by a narrowing cast [as u8], [as u16]. *)
Definition as_u8 (n : Z) : u8 := n mod 256.
Definition as_u16 (n : Z) : u16 := n mod 65536.

(** ** Errors: [error.rs] and [std::io::Error] *)

Inductive ErrorKind :=
  | WouldBlock | TimedOut | UnexpectedEof | Interrupted | WriteZero
  | NotFound | InvalidInput | InvalidData | OtherKind.

#[export] Instance ErrorKind_eq_dec : EqDecision ErrorKind.
Proof. solve_decision. Defined.

Inductive OpenfortivpnError :=
  | Io (kind : ErrorKind) (message : string)
  | TlsHandshake (message : string)
  | MissingPeerCertificate
  | CertificateVerification (message : string)
  | HttpProtocol (message : string)
  | PermissionDenied
  | Auth (message : string)
  | Pppd (message : string)
  | Network (message : string)
  | BadBoolean (value : string)
  | BadInteger (key value : string)
  | BadPort (key value : string)
  | BadTlsVersion (value : string)
  | BadCertificateDigest (value : string)
  | UnknownConfigKey (key : string)
  | HdlcBufferTooSmall
  | HdlcNoFrameFound
  | HdlcInvalidFrame
  | HdlcBadChecksum.

#[export] Instance OpenfortivpnError_eq_dec : EqDecision OpenfortivpnError.
Proof. solve_decision. Defined.

(** ** Outcomes of a Rust function

    [Ok] and [Err] are the two constructors of [Result]; [Panic] is an
    out-of-range index or an arithmetic overflow (with overflow checks on) and
    [Diverge] a loop whose fuel ran out.  A theorem that a function [returns]
    rules out both. *)

Inductive result (A : Type) : Type :=
  | Ok (a : A)
  | Err (e : OpenfortivpnError)
  | Panic
  | Diverge.
Arguments Ok {A} a.
Arguments Err {A} e.
Arguments Panic {A}.
Arguments Diverge {A}.

#[export] Instance result_eq_dec {A} `{EqDecision A} : EqDecision (result A).
Proof. solve_decision. Defined.

Definition bind {A B} (c : result A) (f : A → result B) : result B :=
  match c with
  | Ok a => f a
  | Err e => Err e
  | Panic => Panic
  | Diverge => Diverge
  end.

Notation "'let*' x ':=' c 'in' k" := (bind c (λ x, k))
  (at level 10, x binder, c at level 200, k at level 200) : rust_scope.

Definition returns {A} (r : result A) : Prop :=
  match r with Ok _ | Err _ => True | Panic | Diverge => False end.

Definition is_ok {A} (r : result A) : bool :=
  match r with Ok _ => true | _ => false end.

(** [Option::ok_or] *)
Definition ok_or {A} (o : option A) (e : OpenfortivpnError) : result A :=
  match o with Some a => Ok a | None => Err e end.

Lemma bind_ok_inv {A B} (c : result A) (f : A → result B) y :
  bind c f = Ok y → ∃ x, c = Ok x ∧ f x = Ok y.
Proof. destruct c; simpl; intros; [eauto|done..]. Qed.

Lemma returns_bind {A B} (c : result A) (f : A → result B) :
  returns c → (∀ x, c = Ok x → returns (f x)) → returns (bind c f).
Proof. destruct c; simpl; auto. Qed.

Lemma returns_ok {A} (a : A) : returns (Ok a).
Proof. exact I. Qed.

Lemma returns_err {A} e : returns (A := A) (Err e).
Proof. exact I. Qed.

Create HintDb rust.
#[export] Hint Resolve returns_ok returns_err returns_bind : rust.

(** ** Slices

    [len], indexing and slicing of a [&[T]]; out of range they panic. *)

Definition len {A} (l : list A) : usize := Z.of_nat (length l).

Definition index {A} (l : list A) (i : usize) : result A :=
  if (0 <=? i) then
    match l !! Z.to_nat i with Some x => Ok x | None => Panic end
  else Panic.

(** [&l[a..b]] *)
Definition slice {A} (l : list A) (a b : usize) : result (list A) :=
  if (0 <=? a) && (a <=? b) && (b <=? len l)
  then Ok (take (Z.to_nat (b - a)) (drop (Z.to_nat a) l))
  else Panic.

(** [&l[a..]] *)
Definition slice_from {A} (l : list A) (a : usize) : result (list A) :=
  slice l a (len l).

(** [a - b] on [usize], with overflow checks. *)
Definition usub (a b : usize) : result usize :=
  if b <=? a then Ok (a - b) else Panic.

Arguments len : simpl never.
Arguments index : simpl never.
Arguments slice : simpl never.
Arguments slice_from : simpl never.
Arguments usub : simpl never.

Lemma len_nonneg {A} (l : list A) : 0 <= len l.
Proof. unfold len. lia. Qed.

Lemma len_nil {A} : len (@nil A) = 0.
Proof. done. Qed.

Lemma len_cons {A} (x : A) l : len (x :: l) = 1 + len l.
Proof. unfold len. simpl. lia. Qed.

Lemma len_app {A} (l k : list A) : len (l ++ k) = len l + len k.
Proof. unfold len. rewrite length_app. lia. Qed.

Lemma len_take {A} n (l : list A) : len (take n l) = Z.min (Z.of_nat n) (len l).
Proof. unfold len. rewrite length_take. lia. Qed.

Lemma len_drop {A} n (l : list A) : len (drop n l) = Z.max 0 (len l - Z.of_nat n).
Proof. unfold len. rewrite length_drop. lia. Qed.

Lemma len_replicate {A} n (x : A) : len (replicate n x) = Z.of_nat n.
Proof. unfold len. by rewrite length_replicate. Qed.

Lemma len_zero {A} (l : list A) : len l = 0 → l = [].
Proof. destruct l; [done|]. rewrite len_cons. pose proof (len_nonneg l). lia. Qed.

Create Rewrite HintDb len.
#[export] Hint Rewrite @len_nil @len_cons @len_app @len_take @len_drop @len_replicate : len.
Ltac simpl_len := autorewrite with len in *.

(** [lia] after the lengths of appended, taken and dropped lists are opened. *)
Ltac len_lia :=
  simpl_len;
  repeat match goal with
  | |- context [len ?l] => learn_nonneg l
  | H : context [len ?l] |- _ => learn_nonneg l
  end; lia
with learn_nonneg l :=
  lazymatch goal with
  | _ : 0 <= len l |- _ => fail
  | _ => pose proof (len_nonneg l)
  end.

(** Decides the integer comparisons of the goal that the context settles. *)
Ltac zbool :=
  rewrite ?Z.gtb_ltb, ?Z.geb_leb;
  repeat (match goal with
  | |- context [?a <? ?b] =>
      first [ rewrite (proj2 (Z.ltb_lt a b)) by len_lia
            | rewrite (proj2 (Z.ltb_ge a b)) by len_lia ]
  | |- context [?a <=? ?b] =>
      first [ rewrite (proj2 (Z.leb_le a b)) by len_lia
            | rewrite (proj2 (Z.leb_gt a b)) by len_lia ]
  | |- context [?a =? ?b] =>
      first [ rewrite (proj2 (Z.eqb_eq a b)) by len_lia
            | rewrite (proj2 (Z.eqb_neq a b)) by len_lia ]
  end; cbn [negb andb orb bind]).

Lemma index_lookup {A} (l : list A) i x :
  0 <= i → l !! Z.to_nat i = Some x → index l i = Ok x.
Proof. intros Hi Hx. unfold index. rewrite Hx. by destruct (Z.leb_spec 0 i); [|lia]. Qed.

Lemma index_in_range {A} (l : list A) i :
  0 <= i < len l → ∃ x, index l i = Ok x ∧ l !! Z.to_nat i = Some x.
Proof.
  intros [H1 H2]. unfold len in H2.
  destruct (lookup_lt_is_Some_2 l (Z.to_nat i)) as [x Hx]; [lia|].
  exists x. auto using index_lookup.
Qed.

Lemma returns_index {A} (l : list A) i : 0 <= i < len l → returns (index l i).
Proof. intros (x & -> & _)%index_in_range. exact I. Qed.

Lemma slice_ok {A} (l : list A) a b :
  0 <= a → a <= b → b <= len l →
  slice l a b = Ok (take (Z.to_nat (b - a)) (drop (Z.to_nat a) l)).
Proof.
  intros. unfold slice.
  rewrite (proj2 (Z.leb_le 0 a)), (proj2 (Z.leb_le a b)), (proj2 (Z.leb_le b (len l))); done.
Qed.

Lemma slice_app_middle {A} (p m s : list A) :
  slice (p ++ m ++ s) (len p) (len p + len m) = Ok m.
Proof.
  rewrite slice_ok by len_lia. f_equal.
  replace (len p + len m - len p) with (len m) by lia.
  unfold len. rewrite !Nat2Z.id, drop_app_length, take_app_length. done.
Qed.

Lemma slice_app_middle_n {A} (p m s : list A) l i j :
  l = p ++ m ++ s → i = len p → j = len p + len m → slice l i j = Ok m.
Proof. intros -> -> ->. apply slice_app_middle. Qed.

Lemma slice_from_ok {A} (l : list A) a :
  0 <= a <= len l → slice_from l a = Ok (drop (Z.to_nat a) l).
Proof.
  intros. unfold slice_from. rewrite slice_ok by lia. f_equal.
  apply take_ge. rewrite length_drop. unfold len. lia.
Qed.

Lemma slice_from_app {A} (p s : list A) : slice_from (p ++ s) (len p) = Ok s.
Proof.
  rewrite slice_from_ok by len_lia. f_equal.
  unfold len. by rewrite Nat2Z.id, drop_app_length.
Qed.

Lemma slice_from_app_n {A} n (l p s : list A) :
  l = p ++ s → n = len p → slice_from l n = Ok s.
Proof. intros -> ->. apply slice_from_app. Qed.

Lemma returns_slice {A} (l : list A) a b :
  0 <= a → a <= b → b <= len l → returns (slice l a b).
Proof. intros. rewrite slice_ok by done. exact I. Qed.

Lemma returns_slice_from {A} (l : list A) a :
  0 <= a <= len l → returns (slice_from l a).
Proof. intros. rewrite slice_from_ok by done. exact I. Qed.

#[export] Hint Extern 2 (_ <= _ < _) => lia : rust.
#[export] Hint Extern 2 (_ <= _) => lia : rust.
#[export] Hint Extern 2 (_ < _) => lia : rust.
#[export] Hint Resolve returns_index returns_slice returns_slice_from : rust.

(** ** Big-endian integers: [to_be_bytes] and [from_be_bytes] *)

Definition u16_to_be (n : u16) : bytes := [n / 256 mod 256; n mod 256].
Definition u16_from_be (hi lo : u8) : u16 := hi * 256 + lo.
Definition u32_to_be (n : u32) : bytes :=
  [n / 16777216 mod 256; n / 65536 mod 256; n / 256 mod 256; n mod 256].

Arguments u16_to_be : simpl never.
Arguments u16_from_be : simpl never.
Arguments u32_to_be : simpl never.

Lemma u16_from_be_to_be n : is_u16 n → u16_from_be (n / 256 mod 256) (n mod 256) = n.
Proof.
  unfold is_u16, u16_from_be. intros.
  rewrite (Z.mod_small (n / 256) 256) by (split; [apply Z.div_pos|apply Z.div_lt_upper_bound]; lia).
  pose proof (Z.div_mod n 256). lia.
Qed.

Lemma u16_from_be_range hi lo : is_u8 hi → is_u8 lo → is_u16 (u16_from_be hi lo).
Proof. unfold is_u8, is_u16, u16_from_be. lia. Qed.

Lemma u16_to_be_from_be hi lo :
  is_u8 hi → is_u8 lo → u16_to_be (u16_from_be hi lo) = [hi; lo].
Proof.
  unfold is_u8, u16_to_be, u16_from_be. intros.
  rewrite Z.div_add_l, (Z.div_small lo 256), Z.add_0_r by lia.
  rewrite (Z.mod_small hi), Z.add_comm, Z.mod_add, (Z.mod_small lo) by lia. done.
Qed.

Lemma u16_to_be_bytes n : is_bytes (u16_to_be n).
Proof. repeat constructor; apply Z.mod_pos_bound; lia. Qed.

Lemma as_u16_small n : is_u16 n → as_u16 n = n.
Proof. apply Z.mod_small. Qed.

#[export] Hint Resolve u16_to_be_bytes u16_from_be_range : rust.

(** ** Bytes of an ASCII literal, [b"..."] and [str::as_bytes] *)

Definition u8_of_ascii (c : ascii) : u8 := Z.of_N (N_of_ascii c).
Definition ascii_of_u8 (b : u8) : ascii := ascii_of_N (Z.to_N b).

Fixpoint as_bytes (s : string) : bytes :=
  match s with
  | EmptyString => []
  | String c s => u8_of_ascii c :: as_bytes s
  end.

Fixpoint string_of_bytes (l : bytes) : string :=
  match l with
  | [] => EmptyString
  | b :: l => String (ascii_of_u8 b) (string_of_bytes l)
  end.

Lemma u8_of_ascii_range c : is_u8 (u8_of_ascii c).
Proof.
  unfold is_u8, u8_of_ascii. pose proof (N_ascii_bounded c). lia.
Qed.

Lemma ascii_of_u8_of_ascii c : ascii_of_u8 (u8_of_ascii c) = c.
Proof.
  unfold ascii_of_u8, u8_of_ascii. by rewrite N2Z.id, ascii_N_embedding.
Qed.

Lemma u8_of_ascii_of_u8 b : is_u8 b → u8_of_ascii (ascii_of_u8 b) = b.
Proof.
  unfold ascii_of_u8, u8_of_ascii, is_u8. intros.
  rewrite N_ascii_embedding, Z2N.id by lia. done.
Qed.

(** Octets, checked. *)
Lemma is_bytes_check l : forallb (λ b, (0 <=? b) && (b <? 256)) l = true → is_bytes l.
Proof.
  induction l as [|b l IH]; cbn; [done|]. rewrite !andb_true_iff, Z.leb_le, Z.ltb_lt. intros [? ?].
  constructor; [done|auto].
Qed.

Lemma as_bytes_range s : is_bytes (as_bytes s).
Proof. induction s; constructor; auto using u8_of_ascii_range. Qed.

Lemma string_of_as_bytes s : string_of_bytes (as_bytes s) = s.
Proof. induction s; simpl; [done|]. by rewrite ascii_of_u8_of_ascii, IHs. Qed.

Lemma as_bytes_of_bytes l : is_bytes l → as_bytes (string_of_bytes l) = l.
Proof. induction 1; simpl; [done|]. by rewrite u8_of_ascii_of_u8, IHForall. Qed.

#[export] Hint Resolve as_bytes_range : rust.

(** ** Finite checks over all byte values *)

Definition all_u8 (P : Z → bool) : bool := forallb P (seqZ 0 256).

Lemma all_u8_spec P b : all_u8 P = true → is_u8 b → P b = true.
Proof.
  unfold all_u8, is_u8. rewrite forallb_forall. intros H Hb. apply H.
  apply list_elem_of_In, elem_of_seqZ. lia.
Qed.

(** Proves a goal about one byte [b] by evaluating it on all 256 values; [P]
    is the goal as a boolean test. *)
Ltac by_all_u8 P b := apply (all_u8_spec P b); [vm_compute; reflexivity | assumption].

(** Bitwise equalities between integers, bit by bit. *)
Ltac bitwise :=
  apply Z.bits_inj'; intros ? ?;
  repeat first [rewrite Z.lxor_spec | rewrite Z.land_spec | rewrite Z.lor_spec | rewrite Z.bits_0];
  repeat match goal with |- context [Z.testbit ?a ?n] => destruct (Z.testbit a n) end;
  reflexivity.

Lemma lxor_cancel_r a b : Z.lxor (Z.lxor a b) b = a.
Proof. by rewrite Z.lxor_assoc, Z.lxor_nilpotent, Z.lxor_0_r. Qed.

Lemma lxor_inj_l a b c : Z.lxor a b = Z.lxor a c → b = c.
Proof.
  intros H. apply (f_equal (Z.lxor a)) in H.
  by rewrite <- !Z.lxor_assoc, !Z.lxor_nilpotent, !Z.lxor_0_l in H.
Qed.

(** A non-negative integer is below [2^n] when no bit from [n] on is set. *)
Lemma bits_bounded x n :
  0 <= n → 0 <= x → (∀ i, n <= i → Z.testbit x i = false) → x < 2 ^ n.
Proof.
  intros Hn Hx Hb. destruct (Z.eq_dec x 0) as [->|Hne]; [apply Z.pow_pos_nonneg; lia|].
  apply Z.log2_lt_pow2; [lia|].
  destruct (Z.lt_ge_cases (Z.log2 x) n) as [|Hge]; [done|].
  specialize (Hb (Z.log2 x) Hge). rewrite Z.bit_log2 in Hb; [done|lia].
Qed.

Lemma bounded_bits x n i : 0 <= x < 2 ^ n → n <= i → Z.testbit x i = false.
Proof.
  intros [H0 H1] Hi. destruct (Z.eq_dec x 0) as [->|Hne]; [apply Z.bits_0|].
  apply Z.bits_above_log2; [lia|].
  apply Z.log2_lt_pow2 in H1; lia.
Qed.

Lemma lxor_bounded a b n :
  0 <= n → 0 <= a < 2 ^ n → 0 <= b < 2 ^ n → 0 <= Z.lxor a b < 2 ^ n.
Proof.
  intros Hn Ha Hb. assert (0 <= Z.lxor a b) as H0 by (apply Z.lxor_nonneg; lia).
  split; [done|]. apply bits_bounded; [done..|].
  intros i Hi. by rewrite Z.lxor_spec, (bounded_bits a n), (bounded_bits b n).
Qed.

(** ** State passing

    A Rust method on [&mut self] returning [Result] is a function to a pair of
    its outcome and the state it leaves, errors included. *)

Definition sbind {S A B} (c : result A * S) (f : A → S → result B * S) : result B * S :=
  match c with
  | (Ok a, s) => f a s
  | (Err e, s) => (Err e, s)
  | (Panic, s) => (Panic, s)
  | (Diverge, s) => (Diverge, s)
  end.

Notation "'let!' x '&' s ':=' c 'in' k" := (sbind c (λ x s, k))
  (at level 10, x binder, s binder, c at level 200, k at level 200) : rust_scope.

Lemma sbind_returns {S A B} (c : result A * S) (f : A → S → result B * S) :
  returns (fst c) → (∀ x s, c = (Ok x, s) → returns (fst (f x s))) → returns (fst (sbind c f)).
Proof. destruct c as [[] s]; simpl; auto. Qed.

(** A computation that ends without a panic leaves a state that is in order. *)
Definition keeps {S A} (I : S → Prop) (x : result A * S) : Prop := returns (fst x) → I (snd x).

Lemma keeps_now {S A} (I : S → Prop) (r : result A) s : I s → keeps I (r, s).
Proof. by intros H _. Qed.

Lemma sbind_ok_inv {S A B} (c : result A * S) (f : A → S → result B * S) y s' :
  sbind c f = (Ok y, s') → ∃ x s, c = (Ok x, s) ∧ f x s = (Ok y, s').
Proof. destruct c as [[] s]; simpl; intros; [eauto|done..]. Qed.

(** ** Short-circuit conditions over indexed slices *)

Definition rand (a b : result bool) : result bool :=
  match a with Ok true => b | r => r end.
Definition ror (a b : result bool) : result bool :=
  match a with Ok false => b | r => r end.
Infix "&&&" := rand (at level 40, left associativity) : rust_scope.
Infix "|||" := ror (at level 50, left associativity) : rust_scope.

(** [l[i] == v] *)
Definition index_eq (l : bytes) (i : usize) (v : u8) : result bool :=
  let* b := index l i in Ok (b =? v).

Lemma returns_rand a b : returns a → (a = Ok true → returns b) → returns (a &&& b).
Proof. destruct a as [[]| | |]; simpl; auto. Qed.

Lemma returns_ror a b : returns a → (a = Ok false → returns b) → returns (a ||| b).
Proof. destruct a as [[]| | |]; simpl; auto. Qed.

Lemma returns_index_eq l i v : 0 <= i < len l → returns (index_eq l i v).
Proof. intros. apply returns_bind; auto with rust. Qed.

#[export] Hint Resolve returns_rand returns_ror returns_index_eq : rust.

(** ** IPv4 addresses: [std::net::Ipv4Addr] *)

Inductive Ipv4Addr := Ipv4 (a b c d : u8).

#[export] Instance Ipv4Addr_eq_dec : EqDecision Ipv4Addr.
Proof. solve_decision. Defined.

Definition UNSPECIFIED : Ipv4Addr := Ipv4 0 0 0 0.

Definition octets (ip : Ipv4Addr) : bytes :=
  let '(Ipv4 a b c d) := ip in [a; b; c; d].

Definition ipv4_wf (ip : Ipv4Addr) : Prop := is_bytes (octets ip).

(** [u32::from] and [Ipv4Addr::from] *)
Definition u32_of_ipv4 (ip : Ipv4Addr) : u32 :=
  let '(Ipv4 a b c d) := ip in a * 16777216 + b * 65536 + c * 256 + d.

Definition ipv4_of_u32 (n : u32) : Ipv4Addr :=
  Ipv4 (n / 16777216 mod 256) (n / 65536 mod 256) (n / 256 mod 256) (n mod 256).

Lemma u32_of_ipv4_of_u32 n : is_u32 n → u32_of_ipv4 (ipv4_of_u32 n) = n.
Proof.
  unfold is_u32. intros Hn. unfold u32_of_ipv4, ipv4_of_u32.
  rewrite (Z.mod_small (n / 16777216)) by
    (split; [apply Z.div_pos|apply Z.div_lt_upper_bound]; lia).
  replace (n / 16777216) with (n / 256 / 256 / 256) by (rewrite !Z.div_div by lia; f_equal; lia).
  replace (n / 65536) with (n / 256 / 256) by (rewrite !Z.div_div by lia; f_equal; lia).
  pose proof (Z.div_mod n 256). pose proof (Z.div_mod (n / 256) 256).
  pose proof (Z.div_mod (n / 256 / 256) 256). lia.
Qed.

Lemma ipv4_of_u32_of_ipv4 ip : ipv4_wf ip → ipv4_of_u32 (u32_of_ipv4 ip) = ip.
Proof.
  destruct ip as [a b c d]. unfold ipv4_wf, octets. rewrite !Forall_cons.
  unfold is_u8. intros (? & ? & ? & ? & _). unfold u32_of_ipv4, ipv4_of_u32.
  f_equal.
  - rewrite Z.mod_small; [|split; [apply Z.div_pos; lia|apply Z.div_lt_upper_bound; lia]].
    symmetry. apply (Z.div_unique _ _ _ (b * 65536 + c * 256 + d)); lia.
  - replace ((_ + _) / 65536) with (a * 256 + b).
    + rewrite Z.add_comm, Z.mod_add, Z.mod_small; lia.
    + apply (Z.div_unique _ _ _ (c * 256 + d)); lia.
  - replace ((_ + _) / 256) with ((a * 256 + b) * 256 + c).
    + rewrite Z.add_comm, Z.mod_add, Z.mod_small; lia.
    + apply (Z.div_unique _ _ _ d); lia.
  - symmetry. apply (Z.mod_unique _ _ (a * 65536 + b * 256 + c)); lia.
Qed.

Lemma u32_of_ipv4_range ip : ipv4_wf ip → is_u32 (u32_of_ipv4 ip).
Proof.
  destruct ip as [a b c d]. unfold ipv4_wf, octets. rewrite !Forall_cons.
  unfold is_u8, is_u32, u32_of_ipv4. lia.
Qed.

(** ** Related lists *)

Lemma Forall2_weaken {A B} (R : A → Prop) (P Q : A → B → Prop) l k :
  Forall2 P l k → (∀ x, x ∈ l → R x) → (∀ x y, R x → P x y → Q x y) → Forall2 Q l k.
Proof.
  induction 1 as [|x y l k Hxy Hlk IH]; intros HR HQ; constructor.
  - apply HQ; [apply HR; by left|done].
  - apply IH; [intros z Hz; apply HR; by right|done].
Qed.

(** ** Counters *)

(** [a + b] on [u64], with overflow checks. *)
Definition u64_add (a b : u64) : result u64 :=
  if a + b <? 2 ^ 64 then Ok (a + b) else Panic.

Arguments u64_add : simpl never.

(** A computed outcome inside a stateful function: [?] on a [Result] whose
    computation does not touch the state. *)
Definition lift {S A} (c : result A) (s : S) : result A * S := (c, s).

(** ** Assignment to one field of a record

    [r <| f := v |>] is [r.f = v].  A record declares its eta-expansion once;
    the setter of a field is that expansion with the projection replaced. *)

Class Eta (R : Type) := eta : R → R.
Class Setter {R T : Type} (f : R → T) := set_field : T → R → R.

Ltac derive_setter f :=
  match type of f with
  | ?R → _ =>
      let e := constr:(_ : Eta R) in
      let e := eval red in e in
      let g := (lazymatch (eval pattern f in e) with ?g _ => g end) in
      let set := constr:(λ v r, g (λ _, v) r) in
      let set := eval cbv beta in set in
      exact set
  end.

#[export] Hint Extern 0 (Setter ?f) => derive_setter f : typeclass_instances.

Notation "r <| f := v |>" := (@set_field _ _ f _ v r)
  (at level 12, f at level 9, v at level 200, left associativity) : rust_scope.
