(* ===== verification/Stream.v ===== *)
(** * [std::io::Read] and [std::io::Write]

    A reader is the script of what its [read] calls will return: bytes that
    arrive together, or an error; when the script is over the stream is at its
    end.  A writer is what it has accepted so far and the script of how much
    each call takes.  Quantifying over scripts covers every blocking and
    non-blocking source and sink the program reads and writes. *)

From S2P Require Import Prelude.

Inductive read_event :=
  | RBytes (l : bytes)
  | RError (k : ErrorKind).

Abbreviation reader := (list read_event).

Definition io_error (k : ErrorKind) : OpenfortivpnError := Io k EmptyString.

(** [read] with a buffer of [n] bytes; an empty answer is the end of file. *)
Definition read (n : usize) (r : reader) : result bytes * reader :=
  match r with
  | [] => (Ok [], [])
  | RError k :: r => (Err (io_error k), r)
  | RBytes l :: r =>
      if len l <=? n then (Ok l, r)
      else (Ok (take (Z.to_nat n) l), RBytes (drop (Z.to_nat n) l) :: r)
  end.

(** [read_exact]: [read] until the buffer is full, retrying [Interrupted]. *)
Fixpoint read_exact (n : usize) (r : reader) : result bytes * reader :=
  if n <=? 0 then (Ok [], r) else
  match r with
  | [] => (Err (Io UnexpectedEof "failed to fill whole buffer"), [])
  | RError Interrupted :: r => read_exact n r
  | RError k :: r => (Err (io_error k), r)
  | RBytes l :: r =>
      if len l =? 0 then (Err (Io UnexpectedEof "failed to fill whole buffer"), r)
      else if len l <=? n then
        let! rest & r := read_exact (n - len l) r in (Ok (l ++ rest), r)
      else (Ok (take (Z.to_nat n) l), RBytes (drop (Z.to_nat n) l) :: r)
  end.

Inductive write_event :=
  | WAccept (n : usize)
  | WError (k : ErrorKind)
  | WFlushError (k : ErrorKind).

Record writer := { written : bytes; w_script : list write_event }.

(** One [write] call: how many of the bytes were accepted.  A finished script
    accepts everything; flush errors are for [flush]. *)
Fixpoint write_script (buf : bytes) (out : bytes) (s : list write_event)
    : result usize * writer :=
  match s with
  | [] => (Ok (len buf), {| written := out ++ buf; w_script := [] |})
  | WAccept n :: s =>
      let n := Z.max 0 (Z.min n (len buf)) in
      (Ok n, {| written := out ++ take (Z.to_nat n) buf; w_script := s |})
  | WError k :: s => (Err (io_error k), {| written := out; w_script := s |})
  | WFlushError _ :: s => write_script buf out s
  end.

Definition write (buf : bytes) (w : writer) : result usize * writer :=
  write_script buf (written w) (w_script w).

(** [write_all]: [write] until everything is accepted, retrying [Interrupted]. *)
Fixpoint write_all_script (buf : bytes) (out : bytes) (s : list write_event)
    : result unit * writer :=
  if len buf =? 0 then (Ok tt, {| written := out; w_script := s |}) else
  match s with
  | [] => (Ok tt, {| written := out ++ buf; w_script := [] |})
  | WAccept n :: s =>
      let n := Z.max 0 (Z.min n (len buf)) in
      if n =? 0 then
        (Err (Io WriteZero "failed to write whole buffer"), {| written := out; w_script := s |})
      else
        write_all_script (drop (Z.to_nat n) buf) (out ++ take (Z.to_nat n) buf) s
  | WError Interrupted :: s => write_all_script buf out s
  | WError k :: s => (Err (io_error k), {| written := out; w_script := s |})
  | WFlushError _ :: s => write_all_script buf out s
  end.

Definition write_all (buf : bytes) (w : writer) : result unit * writer :=
  write_all_script buf (written w) (w_script w).

Definition flush (w : writer) : result unit * writer :=
  match w_script w with
  | WFlushError k :: s => (Err (io_error k), {| written := written w; w_script := s |})
  | _ => (Ok tt, w)
  end.

(** A [Vec<u8>] as a writer, and a [Cursor] as a reader. *)
Definition vec_writer (out : bytes) : writer := {| written := out; w_script := [] |}.
Definition cursor (l : bytes) : reader := [RBytes l].

(** A stream that delivers non-empty chunks, then ends. *)
Definition chunked (chunks : list bytes) : reader := map RBytes chunks.
Abbreviation nonempty_chunks cs := (Forall (λ c : bytes, c ≠ []) cs).

(** Both halves of a stream that is read and written. *)
Record connection := { conn_r : reader; conn_w : writer }.

(** A method of one half as an operation of the whole stream. *)
Definition on_reader {A} (f : reader → result A * reader) (s : connection) : result A * connection :=
  let '(a, r) := f (conn_r s) in (a, {| conn_r := r; conn_w := conn_w s |}).
Definition on_writer {A} (f : writer → result A * writer) (s : connection) : result A * connection :=
  let '(a, w) := f (conn_w s) in (a, {| conn_r := conn_r s; conn_w := w |}).

(** A read loop ends at the latest when the script of the reader does. *)
Fixpoint reader_fuel (r : reader) : nat :=
  match r with
  | [] => 1
  | RBytes l :: r => S (length l + reader_fuel r)
  | RError _ :: r => S (reader_fuel r)
  end.

(** ** Laws *)

Lemma read_exact_le0 n r : n <= 0 → read_exact n r = (Ok [], r).
Proof. intros Hn. destruct r; simpl; by rewrite (proj2 (Z.leb_le n 0)). Qed.

Lemma len_pos {A} (l : list A) : l ≠ [] → 0 < len l.
Proof. destruct l; [done|]. intros _. rewrite len_cons. pose proof (len_nonneg l). lia. Qed.

(** [read_exact] on a chunked stream takes the first bytes of the stream,
    however they were cut. *)
Lemma read_exact_chunked (a b : bytes) cs :
  nonempty_chunks cs → concat cs = a ++ b →
  ∃ cs', read_exact (len a) (chunked cs) = (Ok a, chunked cs') ∧
    concat cs' = b ∧ nonempty_chunks cs'.
Proof.
  intros Hne. revert a. induction Hne as [|c cs Hc Hne IH]; intros a Hcat; simpl in Hcat.
  - symmetry in Hcat. apply app_eq_nil in Hcat as [-> ->]. by exists [].
  - destruct (decide (a = [])) as [->|Ha].
    { exists (c :: cs). rewrite read_exact_le0 by done. auto. }
    apply len_pos in Ha as Hl. simpl. rewrite (proj2 (Z.leb_gt _ 0)) by lia.
    apply len_pos in Hc as Hcl. rewrite (proj2 (Z.eqb_neq _ 0)) by lia.
    destruct (Z.leb_spec (len c) (len a)) as [Hle|Hgt].
    + assert (∃ a', a = c ++ a' ∧ concat cs = a' ++ b) as (a' & -> & Hcat').
      { exists (drop (length c) a). unfold len in Hle.
        assert (take (length c) a = c) as Ht.
        { apply (f_equal (take (length c))) in Hcat.
          rewrite take_app_length, take_app_le in Hcat by lia. done. }
        split; [by rewrite <- Ht at 1; rewrite take_drop|].
        apply (f_equal (drop (length c))) in Hcat.
        by rewrite drop_app_length, drop_app_le in Hcat by lia. }
      rewrite len_app. replace (len c + len a' - len c) with (len a') by lia.
      destruct (IH a' Hcat') as (cs' & -> & ? & ?). exists cs'. auto.
    + unfold len in *. rewrite Nat2Z.id.
      assert (take (length a) c = a) as Ht.
      { apply (f_equal (take (length a))) in Hcat.
        rewrite take_app_length, take_app_le in Hcat by lia. done. }
      exists (drop (length a) c :: cs). rewrite Ht. split; [done|].
      apply (f_equal (drop (length a))) in Hcat.
      rewrite drop_app_length, drop_app_le in Hcat by lia. split; [done|].
      constructor; [|done]. intros Hd%(f_equal length). rewrite length_drop in Hd.
      simpl in Hd. lia.
Qed.

(** A stream that ends too early is an error, whatever it delivered. *)
Lemma read_exact_short n cs :
  nonempty_chunks cs → len (concat cs) < n →
  fst (read_exact n (chunked cs)) = Err (Io UnexpectedEof "failed to fill whole buffer").
Proof.
  intros Hne. revert n. induction Hne as [|c cs Hc Hne IH]; intros n Hl; simpl; simpl in Hl.
  - rewrite len_nil in Hl. by zbool.
  - apply len_pos in Hc. simpl_len. pose proof (len_nonneg (concat cs)).
    zbool. specialize (IH (n - len c)). destruct (read_exact _ _) as [o r]. simpl in *.
    by rewrite IH by lia.
Qed.

Lemma read_exact_len n r l r' : 0 <= n → read_exact n r = (Ok l, r') → len l = n.
Proof.
  revert n l r'. induction r as [|[c|k] r IH]; intros n l r' Hn; simpl.
  - destruct (Z.leb_spec n 0); [|done]. intros [= <- <-]. rewrite len_nil. lia.
  - destruct (Z.leb_spec n 0); [intros [= <- <-]; rewrite len_nil; lia|].
    destruct (Z.eqb_spec (len c) 0); [done|]. destruct (Z.leb_spec (len c) n).
    + intros (rest & r2 & Hr & [= <- <-])%sbind_ok_inv. apply IH in Hr; len_lia.
    + intros [= <- <-]. len_lia.
  - destruct (Z.leb_spec n 0); [intros [= <- <-]; rewrite len_nil; lia|].
    destruct k; try done. by apply IH.
Qed.

Lemma returns_read_exact n r : returns (fst (read_exact n r)).
Proof.
  revert n. induction r as [|[c|k] r IH]; intros n; simpl; case_match; try done.
  - repeat case_match; try done. specialize (IH (n - len c)).
    by destruct (read_exact _ r) as [[] ?].
  - by destruct k.
Qed.

(** Whatever [write] answers, it appended exactly what it counted. *)
Lemma write_spec buf w :
  match write buf w with
  | (Ok n, w') => 0 <= n <= len buf ∧ written w' = written w ++ take (Z.to_nat n) buf
  | (Err _, w') => written w' = written w
  | _ => False
  end.
Proof.
  unfold write. destruct w as [out s]. simpl. pose proof (len_nonneg buf).
  induction s as [|[n|k|k] s IH]; simpl; [|split; [lia|done]|done|done].
  split; [lia|]. by rewrite take_ge by (unfold len; lia).
Qed.

(** A writer that does not take everything uses up a part of its script. *)
Definition shorter (w w' : writer) : Prop := (length (w_script w') < length (w_script w))%nat.

Lemma write_short buf w : let '(r, w') := write buf w in
  (length (w_script w') <= length (w_script w))%nat ∧ (r = Ok (len buf) ∨ shorter w w').
Proof.
  unfold write, shorter. generalize (written w). intros out.
  induction (w_script w) as [|[n|k|k] s IH]; cbn [write_script]; [by eauto|cbn; split; [lia|right; lia]..|].
  destruct (write_script buf out s) as [r w']. cbn. destruct IH as [H1 [->|H2]]; (split; [lia|]); [by left|right; lia].
Qed.

Lemma write_all_ok buf w w' : write_all buf w = (Ok tt, w') → written w' = written w ++ buf.
Proof.
  unfold write_all. destruct w as [out s]. simpl. revert buf out.
  induction s as [|[n|k|k] s IH]; intros buf out; simpl;
    (destruct (Z.eqb_spec (len buf) 0) as [->%len_zero|];
      [intros [= <-]; simpl; by rewrite app_nil_r|]).
  - by intros [= <-].
  - case_match; [done|]. intros ->%IH. by rewrite <- app_assoc, take_drop.
  - destruct k; try done. apply IH.
  - apply IH.
Qed.

Lemma returns_write_all buf w : returns (fst (write_all buf w)).
Proof.
  unfold write_all. destruct w as [out s]. simpl. revert buf out.
  induction s as [|[n|k|k] s IH]; intros buf out; simpl; (destruct (Z.eqb_spec (len buf) 0); [done|]).
  - done.
  - case_match; [done|apply IH].
  - by destruct k.
  - apply IH.
Qed.

Lemma returns_flush w : returns (fst (flush w)).
Proof. unfold flush. by repeat case_match. Qed.

Lemma flush_written w : written (snd (flush w)) = written w.
Proof. unfold flush. by repeat case_match. Qed.

#[export] Hint Resolve returns_read_exact : rust.

(** ** Incremental decoders

    The interface of a decoder that is fed a byte stream in pieces and hands
    back the items completed so far.  The law says that feeding a piece in two
    halves gives the same items and leaves the same state, whenever feeding it
    whole succeeds. *)

Class StreamDecoder (D P : Type) := push : D → bytes → result (list P) * D.

Class LawfulDecoder (D P : Type) `{StreamDecoder D P} :=
  push_app : ∀ (d : D) (a b : bytes) (ps : list P) (d' : D),
    push d (a ++ b) = (Ok ps, d') →
    ∃ p1 d1 p2, push d a = (Ok p1, d1) ∧ push d1 b = (Ok p2, d') ∧ ps = p1 ++ p2.

(** Feeding the pieces one after the other. *)
Fixpoint push_all {D P} `{StreamDecoder D P} (d : D) (pieces : list bytes)
    : result (list P) * D :=
  match pieces with
  | [] => (Ok [], d)
  | piece :: pieces =>
      let! ps & d := push d piece in
      let! qs & d := push_all d pieces in
      (Ok (ps ++ qs), d)
  end.

(** How a stream is cut into pieces does not matter. *)
Lemma push_all_concat {D P} `{LawfulDecoder D P} (d : D) piece pieces (ps : list P) d' :
  push d (concat (piece :: pieces)) = (Ok ps, d') →
  push_all d (piece :: pieces) = (Ok ps, d').
Proof.
  revert d piece ps. induction pieces as [|next pieces IH]; intros d piece ps.
  - simpl. rewrite app_nil_r. intros ->. simpl. by rewrite app_nil_r.
  - intros (p1 & d1 & p2 & H1 & H2 & ->)%push_app. cbn [push_all]. rewrite H1. cbn [sbind].
    apply IH in H2. cbn [push_all] in H2. by rewrite H2.
Qed.

Lemma push_all_cons {D P} `{StreamDecoder D P} (d d1 d2 : D) piece pieces (ps qs : list P) :
  push d piece = (Ok ps, d1) → push_all d1 pieces = (Ok qs, d2) →
  push_all d (piece :: pieces) = (Ok (ps ++ qs), d2).
Proof. intros H1 H2. cbn [push_all]. rewrite H1. cbn [sbind]. by rewrite H2. Qed.

Lemma push_all_app {D P} `{StreamDecoder D P} (d d1 d2 : D) a b (ps qs : list P) :
  push_all d a = (Ok ps, d1) → push_all d1 b = (Ok qs, d2) →
  push_all d (a ++ b) = (Ok (ps ++ qs), d2).
Proof.
  revert d ps. induction a as [|piece a IH]; intros d ps; cbn [push_all app].
  - by intros [= <- ->].
  - intros (p1 & d' & H1 & (p2 & d'' & H2 & [= <- ->])%sbind_ok_inv)%sbind_ok_inv Hb.
    rewrite H1. cbn [sbind]. rewrite (IH _ _ H2 Hb). cbn [sbind]. by rewrite app_assoc.
Qed.

Lemma push_all_app_inv {D P} `{StreamDecoder D P} (d d2 : D) a b (ps : list P) :
  push_all d (a ++ b) = (Ok ps, d2) →
  ∃ p1 d1 p2, push_all d a = (Ok p1, d1) ∧ push_all d1 b = (Ok p2, d2) ∧ ps = p1 ++ p2.
Proof.
  revert d ps. induction a as [|piece a IH]; intros d ps; cbn [push_all app]; [by exists [], d, ps|].
  intros (p1 & d' & H1 & (p2 & d'' & H2 & [= <- ->])%sbind_ok_inv)%sbind_ok_inv.
  apply IH in H2 as (q1 & d3 & q2 & H3 & H4 & ->). exists (p1 ++ q1), d3, q2.
  rewrite H1. cbn [sbind]. rewrite H3. cbn [sbind]. by rewrite app_assoc.
Qed.

(** The bytes that can be read before the next error or the end. *)
Fixpoint available (r : reader) : bytes :=
  match r with
  | RBytes (b :: l) :: r => (b :: l) ++ available r
  | _ => []
  end.

Lemma read_available n r : 0 < n →
  match read n r with
  | (Ok l, r') => available r = l ++ (if decide (l = []) then [] else available r')
  | _ => available r = []
  end.
Proof.
  intros Hn. destruct r as [|[[|b l]|k] r]; cbn [read available]; try done.
  - change (len []) with 0. by rewrite (proj2 (Z.leb_le 0 n)) by lia.
  - destruct (Z.leb_spec (len (b :: l)) n) as [|Hl]; [done|]. destruct (Z.to_nat n) as [|k] eqn:E; [lia|].
    cbn [take drop]. rewrite decide_False by done. cbn [app]. f_equal.
    assert (drop k l ≠ []) as Hd.
    { intros H%(f_equal length). rewrite length_drop in H. cbn in H. unfold len in Hl. cbn in Hl. lia. }
    destruct (drop k l) as [|c d] eqn:Ed; [done|]. cbn [available app]. rewrite <- (take_drop k l) at 1.
    by rewrite Ed, <- app_assoc.
Qed.

(** The bytes a script will deliver. *)
Fixpoint delivered (r : reader) : bytes :=
  match r with
  | [] => []
  | RBytes l :: r => l ++ delivered r
  | RError _ :: r => delivered r
  end.

Lemma read_delivered n r :
  delivered r =
    match read n r with (Ok l, r') => l ++ delivered r' | (_, r') => delivered r' end.
Proof.
  destruct r as [|[l|k] r]; cbn [read delivered]; [done| |done].
  destruct (len l <=? n); cbn [delivered]; [done|]. by rewrite app_assoc, take_drop.
Qed.

Lemma read_exact_delivered n r : ∃ taken, delivered r = taken ++ delivered (snd (read_exact n r)).
Proof.
  revert n. induction r as [|[l|k] r IH]; intros n; cbn [read_exact]; (case_match; [by exists []|]); [by exists []| |].
  - case_match; [by exists l|]. case_match.
    + destruct (IH (n - len l)) as (t & Ht). destruct (read_exact (n - len l) r) as [[] r'] eqn:E; cbn [sbind snd delivered] in *;
        exists (l ++ t); by rewrite Ht, <- app_assoc.
    + exists (take (Z.to_nat n) l). cbn. by rewrite app_assoc, take_drop.
  - destruct k; cbn [snd delivered]; try (by exists []). destruct (IH n) as (t & Ht). by exists t.
Qed.

Lemma read_fuel_len n r l r' : 0 <= n → read n r = (Ok l, r') → (reader_fuel r' + length l <= reader_fuel r)%nat.
Proof.
  intros Hn. destruct r as [|[c|k] r]; simpl; [by intros [= <- <-]| |done].
  destruct (Z.leb_spec (len c) n) as [|Hl]; intros [= <- <-]; simpl; [lia|].
  rewrite length_take, length_drop. lia.
Qed.

Lemma read_fuel n r x l r' :
  0 < n → read n r = (Ok (x :: l), r') → (reader_fuel r' < reader_fuel r)%nat.
Proof.
  intros Hn. destruct r as [|[c|k] r]; simpl; [done| |done].
  destruct (Z.leb_spec (len c) n) as [|Hl]; intros [= Hc <-]; simpl.
  - subst c. simpl. lia.
  - rewrite length_drop. unfold len in Hl. lia.
Qed.

Lemma returns_read n r : returns (fst (read n r)).
Proof. destruct r as [|[l|k] r]; simpl; [done| |done]. by destruct (len l <=? n). Qed.

Lemma read_len n r l r' : 0 <= n → read n r = (Ok l, r') → len l <= n.
Proof.
  intros Hn. destruct r as [|[c|k] r]; simpl; [intros [= <- _]; rewrite len_nil; lia| |done].
  destruct (Z.leb_spec (len c) n) as [|Hl]; intros [= <- _]; [done|]. len_lia.
Qed.

Lemma delivered_chunked cs : delivered (chunked cs) = concat cs.
Proof. induction cs as [|c cs IH]; [done|]. simpl. by rewrite IH. Qed.

Lemma read_chunked n cs :
  0 < n → nonempty_chunks cs → cs ≠ [] →
  ∃ piece cs', read n (chunked cs) = (Ok piece, chunked cs') ∧ piece ≠ [] ∧
    concat cs = piece ++ concat cs' ∧ nonempty_chunks cs'.
Proof.
  intros Hn Hcs Hne. destruct Hcs as [|c cs Hc Hcs]; [done|]. simpl.
  destruct (Z.leb_spec (len c) n); [by exists c, cs|].
  exists (take (Z.to_nat n) c), (drop (Z.to_nat n) c :: cs). split; [done|].
  split. { destruct c; [done|]. destruct (Z.to_nat n) eqn:E; [lia|done]. }
  split; [cbn [concat]; by rewrite app_assoc, take_drop|]. constructor; [|done].
  intros H0%(f_equal len). revert H0. len_lia.
Qed.

(** One byte of a stream that has one. *)
Lemma read_1_chunked b l cs : nonempty_chunks cs → concat cs = b :: l →
  ∃ cs', read 1 (chunked cs) = (Ok [b], chunked cs') ∧ concat cs' = l ∧ nonempty_chunks cs'.
Proof.
  intros Hcs Hcat. destruct (read_chunked 1 cs) as (piece & cs' & Hr & Hne & Hc & Hcs'); [lia|done|by intros ->|].
  pose proof (read_len 1 (chunked cs) piece (chunked cs') ltac:(lia) Hr) as Hl.
  destruct piece as [|x [|y piece]]; [done| |revert Hl; len_lia].
  rewrite Hcat in Hc. injection Hc as <- ->. exists cs'. by rewrite Hr.
Qed.

Lemma write_all_vec buf out : write_all buf (vec_writer out) = (Ok tt, vec_writer (out ++ buf)).
Proof. unfold write_all, vec_writer. cbn. by destruct buf; [rewrite app_nil_r|]. Qed.
