(* ===== verification/RustStd.v ===== *)
(** * The string and number methods of the Rust standard library the program uses

    A [&str] is a [string] of bytes; a character that is not ASCII is the
    sequence of its UTF-8 bytes.  Methods that search for an ASCII character or
    for a string work on bytes as they do in Rust; [trim] knows the multi-byte
    white space characters. *)

From S2P Require Import Prelude.

#[local] Open Scope string_scope.
#[local] Open Scope Z_scope.

Abbreviation str := string.

(** ** Characters *)

Definition in_range (lo hi c : u8) : bool := (lo <=? c) && (c <=? hi).
Definition is_ascii_digit (c : ascii) : bool := in_range 48 57 (u8_of_ascii c).
Definition is_ascii_upper (c : ascii) : bool := in_range 65 90 (u8_of_ascii c).
Definition is_ascii_lower (c : ascii) : bool := in_range 97 122 (u8_of_ascii c).
Definition is_ascii_hexdigit (c : ascii) : bool :=
  is_ascii_digit c || in_range 65 70 (u8_of_ascii c) || in_range 97 102 (u8_of_ascii c).
Definition is_ascii_whitespace (c : ascii) : bool :=
  let b := u8_of_ascii c in
  (b =? 32) || (b =? 9) || (b =? 10) || (b =? 12) || (b =? 13).

Definition to_ascii_lowercase_char (c : ascii) : ascii :=
  if is_ascii_upper c then ascii_of_u8 (u8_of_ascii c + 32) else c.

(** ** Strings *)

Definition str_len (s : str) : usize := Z.of_nat (String.length s).
Definition str_is_empty (s : str) : bool := match s with EmptyString => true | _ => false end.

Fixpoint all_chars (p : ascii → bool) (s : str) : bool :=
  match s with EmptyString => true | String c s => p c && all_chars p s end.

Fixpoint any_char (p : ascii → bool) (s : str) : bool :=
  match s with EmptyString => false | String c s => p c || any_char p s end.

Fixpoint to_ascii_lowercase (s : str) : str :=
  match s with
  | EmptyString => EmptyString
  | String c s => String (to_ascii_lowercase_char c) (to_ascii_lowercase s)
  end.

Definition eq_ignore_ascii_case (a b : str) : bool :=
  String.eqb (to_ascii_lowercase a) (to_ascii_lowercase b).

(** [strip_prefix], [starts_with] *)
Fixpoint strip_prefix (p s : str) : option str :=
  match p, s with
  | EmptyString, s => Some s
  | String a p, String b s => if Ascii.eqb a b then strip_prefix p s else None
  | String _ _, EmptyString => None
  end.

Definition starts_with (p s : str) : bool :=
  match strip_prefix p s with Some _ => true | None => false end.

Fixpoint str_rev (s acc : str) : str :=
  match s with EmptyString => acc | String c s => str_rev s (String c acc) end.

Definition ends_with (p s : str) : bool :=
  starts_with (str_rev p EmptyString) (str_rev s EmptyString).

(** [s.find(pat)] as the two sides of the first match. *)
Fixpoint split_at_str (pat s : str) : option (str * str) :=
  match strip_prefix pat s with
  | Some rest => Some (EmptyString, rest)
  | None =>
      match s with
      | EmptyString => None
      | String c s =>
          match split_at_str pat s with
          | Some (a, b) => Some (String c a, b)
          | None => None
          end
      end
  end.

Definition str_contains (pat s : str) : bool :=
  match split_at_str pat s with Some _ => true | None => false end.

(** The text before the first character that satisfies [p], and from it on. *)
Fixpoint span_until (p : ascii → bool) (s : str) : str * str :=
  match s with
  | EmptyString => (EmptyString, EmptyString)
  | String c t =>
      if p c then (EmptyString, s)
      else let '(a, b) := span_until p t in (String c a, b)
  end.

Fixpoint split_once (sep : ascii) (s : str) : option (str * str) :=
  match s with
  | EmptyString => None
  | String c s =>
      if Ascii.eqb c sep then Some (EmptyString, s)
      else match split_once sep s with
           | Some (a, b) => Some (String c a, b)
           | None => None
           end
  end.

Fixpoint rsplit_once (sep : ascii) (s : str) : option (str * str) :=
  match s with
  | EmptyString => None
  | String c s =>
      match rsplit_once sep s with
      | Some (a, b) => Some (String c a, b)
      | None => if Ascii.eqb c sep then Some (EmptyString, s) else None
      end
  end.

(** [s.split(c)]: never empty. *)
Fixpoint str_split (sep : ascii) (s : str) : list str :=
  match s with
  | EmptyString => [EmptyString]
  | String c s =>
      if Ascii.eqb c sep then EmptyString :: str_split sep s
      else match str_split sep s with
           | piece :: pieces => String c piece :: pieces
           | [] => [String c EmptyString]
           end
  end.

(** [s.split(pat)] for a string; [fuel] bounds the matches by the length. *)
Fixpoint split_str_fuel (fuel : nat) (pat s : str) : list str :=
  match fuel with
  | O => [s]
  | S fuel =>
      match split_at_str pat s with
      | Some (a, b) => a :: split_str_fuel fuel pat b
      | None => [s]
      end
  end.
Definition split_str (pat s : str) : list str := split_str_fuel (S (String.length s)) pat s.

(** [s.replace(pat, by)] *)
Definition str_replace (pat by_ s : str) : str :=
  match split_str pat s with
  | [] => s
  | piece :: pieces => piece +:+ foldr (λ p acc, by_ +:+ p +:+ acc) EmptyString pieces
  end.

(** [v.join(sep)] *)
Fixpoint str_join (sep : str) (l : list str) : str :=
  match l with
  | [] => EmptyString
  | [s] => s
  | s :: l => s +:+ sep +:+ str_join sep l
  end.

Definition newline : ascii := ascii_of_u8 10.
Definition carriage_return : ascii := ascii_of_u8 13.

Fixpoint strip_cr (s : str) : str :=
  match s with
  | EmptyString => EmptyString
  | String c EmptyString => if Ascii.eqb c carriage_return then EmptyString else s
  | String c s => String c (strip_cr s)
  end.

(** [s.lines()]: split at newlines, without an empty last line, and without the
    carriage return before a newline. *)
Fixpoint lines_of (pieces : list str) : list str :=
  match pieces with
  | [] => []
  | [last] => if str_is_empty last then [] else [last]
  | piece :: pieces => strip_cr piece :: lines_of pieces
  end.
Definition str_lines (s : str) : list str := lines_of (str_split newline s).

(** ** White space: [char::is_whitespace] and [trim] *)

(** How many bytes the white space character at the front takes, 0 if there is
    none: the ASCII ones, then the two- and three-byte ones of Unicode. *)
Definition white3 (a b c : u8) : bool :=
  ((a =? 0xe1) && (b =? 0x9a) && (c =? 0x80)) ||
  ((a =? 0xe2) && (b =? 0x80) && (in_range 0x80 0x8a c || (c =? 0xa8) || (c =? 0xa9) || (c =? 0xaf))) ||
  ((a =? 0xe2) && (b =? 0x81) && (c =? 0x9f)) ||
  ((a =? 0xe3) && (b =? 0x80) && (c =? 0x80)).
Definition white2 (a b : u8) : bool := (a =? 0xc2) && ((b =? 0x85) || (b =? 0xa0)).
Definition white1 (a : u8) : bool := in_range 9 13 a || (a =? 32).

Definition white_prefix (l : bytes) : nat :=
  let a := nth 0 l 0 in let b := nth 1 l 0 in let c := nth 2 l 0 in
  if white1 a then 1%nat else if white2 a b then 2%nat else if white3 a b c then 3%nat else 0%nat.

(** The same at the back, on the reversed bytes. *)
Definition white_suffix (l : bytes) : nat :=
  let a := nth 0 l 0 in let b := nth 1 l 0 in let c := nth 2 l 0 in
  if white1 a then 1%nat else if white2 b a then 2%nat else if white3 c b a then 3%nat else 0%nat.

Fixpoint drop_white (fuel : nat) (white : bytes → nat) (l : bytes) : bytes :=
  match fuel with
  | O => l
  | S fuel => match white l with O => l | n => drop_white fuel white (drop n l) end
  end.

Definition trim_start_bytes (l : bytes) : bytes := drop_white (length l) white_prefix l.
Definition trim_end_bytes (l : bytes) : bytes :=
  reverse (drop_white (length l) white_suffix (reverse l)).

Definition trim_start (s : str) : str := string_of_bytes (trim_start_bytes (as_bytes s)).
Definition trim_end (s : str) : str := string_of_bytes (trim_end_bytes (as_bytes s)).
Definition trim (s : str) : str := trim_end (trim_start s).

(** [s.split_once(char::is_whitespace)] *)
Fixpoint split_once_white_bytes (l : bytes) : option (bytes * bytes) :=
  match l with
  | [] => None
  | b :: t =>
      match white_prefix l with
      | O => match split_once_white_bytes t with
             | Some (x, y) => Some (b :: x, y)
             | None => None
             end
      | n => Some ([], drop n l)
      end
  end.
Definition split_once_whitespace (s : str) : option (str * str) :=
  match split_once_white_bytes (as_bytes s) with
  | Some (a, b) => Some (string_of_bytes a, string_of_bytes b)
  | None => None
  end.

Fixpoint trim_end_matches (c : ascii) (s : str) : str :=
  match s with
  | EmptyString => EmptyString
  | String d s =>
      match trim_end_matches c s with
      | EmptyString => if Ascii.eqb d c then EmptyString else String d EmptyString
      | t => String d t
      end
  end.

(** ** Numbers *)

Definition digit_value (c : ascii) : option Z :=
  if is_ascii_digit c then Some (u8_of_ascii c - 48) else None.

Fixpoint parse_digits (max : Z) (acc : Z) (s : str) : option Z :=
  match s with
  | EmptyString => Some acc
  | String c s =>
      match digit_value c with
      | Some d => if acc * 10 + d <=? max then parse_digits max (acc * 10 + d) s else None
      | None => None
      end
  end.

(** [s.parse::<uN>()]: an optional plus sign, at least one digit, no overflow. *)
Definition parse_uint (max : Z) (s : str) : option Z :=
  match s with
  | EmptyString => None
  | String c t =>
      if Ascii.eqb c "+"%char then
        match t with EmptyString => None | _ => parse_digits max 0 t end
      else parse_digits max 0 s
  end.

Definition parse_u8 : str → option u8 := parse_uint 255.
Definition parse_u16 : str → option u16 := parse_uint 65535.
Definition parse_u32 : str → option u32 := parse_uint 4294967295.
Definition parse_usize : str → option usize := parse_uint 18446744073709551615.

(** [n.to_string()] *)
Definition digit_char (d : Z) : ascii := ascii_of_u8 (48 + d).

Fixpoint print_digits (fuel : nat) (n : Z) (acc : str) : str :=
  match fuel with
  | O => acc
  | S fuel =>
      let acc := String (digit_char (n mod 10)) acc in
      if n / 10 =? 0 then acc else print_digits fuel (n / 10) acc
  end.

Definition print_uint (n : Z) : str := print_digits (S (Z.to_nat (Z.log2 n))) n EmptyString.

(** ** Addresses: the parser of [std::net]

    A parser takes the rest of the text and answers a value and what follows
    it; a failing parser consumes nothing. *)

Definition digit_of (radix : Z) (c : ascii) : option Z :=
  let b := u8_of_ascii c in
  let d := if in_range 48 57 b then b - 48
           else if in_range 97 102 b then b - 87
           else if in_range 65 70 b then b - 55 else radix in
  if d <? radix then Some d else None.

(** The digit loop of [read_number]: value and count so far. *)
Fixpoint read_digits (radix max : Z) (max_digits : option nat) (value : Z) (count : nat) (s : str)
    : option (Z * nat * str) :=
  match s with
  | EmptyString => Some (value, count, s)
  | String c t =>
      match digit_of radix c with
      | None => Some (value, count, s)
      | Some d =>
          let count := S count in
          if match max_digits with Some m => (m <? count)%nat | None => false end then None
          else if value * radix + d <=? max
          then read_digits radix max max_digits (value * radix + d) count t
          else None
      end
  end.

Definition read_number (radix max : Z) (max_digits : option nat) (allow_zero_prefix : bool) (s : str)
    : option (Z * str) :=
  match read_digits radix max max_digits 0 0 s with
  | Some (value, count, rest) =>
      if (count =? 0)%nat then None
      else if negb allow_zero_prefix && starts_with "0" s && (1 <? count)%nat then None
      else Some (value, rest)
  | None => None
  end.

Definition read_char (c : ascii) (s : str) : option str :=
  match s with
  | String d t => if Ascii.eqb d c then Some t else None
  | EmptyString => None
  end.

Definition read_octet : str → option (Z * str) := read_number 10 255 (Some 3%nat) false.

Definition read_ipv4_addr (s : str) : option (Ipv4Addr * str) :=
  '(a, s) ← read_octet s; s ← read_char "."%char s;
  '(b, s) ← read_octet s; s ← read_char "."%char s;
  '(c, s) ← read_octet s; s ← read_char "."%char s;
  '(d, s) ← read_octet s; Some (Ipv4 a b c d, s).

(** [read_groups]: up to [limit] 16-bit groups from index [i] on, the last two
    possibly written as an IPv4 address; whether they were. *)
Fixpoint read_groups (limit i : nat) (s : str) : list u16 * bool * str :=
  match limit with
  | O => ([], false, s)
  | S rest =>
      let after_sep := match i with O => Some s | _ => read_char ":"%char s end in
      match (if (0 <? rest)%nat then after_sep ≫= read_ipv4_addr else None) with
      | Some (Ipv4 a b c d, s) => ([u16_from_be a b; u16_from_be c d], true, s)
      | None =>
          match after_sep ≫= read_number 16 65535 (Some 4%nat) true with
          | Some (g, s) => let '(gs, v4, s) := read_groups rest (S i) s in (g :: gs, v4, s)
          | None => ([], false, s)
          end
      end
  end.

Definition read_ipv6_addr (s : str) : option (list u16 * str) :=
  let '(head, head_ipv4, s) := read_groups 8 0 s in
  if (length head =? 8)%nat then Some (head, s)
  else if head_ipv4 then None
  else
    s ← read_char ":"%char s; s ← read_char ":"%char s;
    let '(tail, _, s) := read_groups (7 - length head) 0 s in
    Some ((head ++ replicate (8 - length head - length tail) 0 ++ tail)%list, s).

Inductive SocketAddr :=
  | SocketAddrV4 (ip : Ipv4Addr) (port : u16)
  | SocketAddrV6 (segments : list u16) (scope_id : u32) (port : u16).

#[export] Instance SocketAddr_eq_dec : EqDecision SocketAddr.
Proof. solve_decision. Defined.

Definition read_port (s : str) : option (u16 * str) :=
  s ← read_char ":"%char s; read_number 10 65535 None true s.

Definition read_scope_id (s : str) : u32 * str :=
  match read_char "%"%char s ≫= read_number 10 4294967295 None true with
  | Some (id, s) => (id, s)
  | None => (0, s)
  end.

Definition read_socket_addr (s : str) : option (SocketAddr * str) :=
  match ('(ip, s) ← read_ipv4_addr s; '(port, s) ← read_port s; Some (SocketAddrV4 ip port, s)) with
  | Some r => Some r
  | None =>
      s ← read_char "["%char s; '(ip, s) ← read_ipv6_addr s;
      let '(scope, s) := read_scope_id s in
      s ← read_char "]"%char s; '(port, s) ← read_port s;
      Some (SocketAddrV6 ip scope port, s)
  end.

(** A whole text must be consumed. *)
Definition whole {A} (r : option (A * str)) : option A :=
  match r with Some (a, EmptyString) => Some a | _ => None end.

(** [s.parse::<SocketAddr>()] *)
Definition parse_socket : str → option SocketAddr := λ s, whole (read_socket_addr s).

(** [s.parse::<Ipv4Addr>()]: no address has more than 15 characters. *)
Definition parse_ipv4 (s : str) : option Ipv4Addr :=
  if 15 <? str_len s then None else whole (read_ipv4_addr s).

(** [ip.to_string()] *)
Definition print_ipv4 (ip : Ipv4Addr) : str :=
  str_join "." (map print_uint (octets ip)).

(** ** UTF-8: [str::from_utf8] *)

Definition cont (b : u8) : bool := in_range 0x80 0xbf b.

Fixpoint utf8_fuel (fuel : nat) (l : bytes) : bool :=
  match l with
  | [] => true
  | a :: l =>
      match fuel with
      | O => false
      | S fuel =>
          if a <? 0x80 then utf8_fuel fuel l
          else match l with
          | b :: l1 =>
              if in_range 0xc2 0xdf a then cont b && utf8_fuel fuel l1
              else match l1 with
              | c :: l2 =>
                  if in_range 0xe0 0xef a then
                    (if a =? 0xe0 then in_range 0xa0 0xbf b
                     else if a =? 0xed then in_range 0x80 0x9f b else cont b)
                      && cont c && utf8_fuel fuel l2
                  else match l2 with
                  | d :: l3 =>
                      (if a =? 0xf0 then in_range 0x90 0xbf b
                       else if a =? 0xf4 then in_range 0x80 0x8f b
                       else in_range 0xf1 0xf3 a && cont b)
                        && cont c && cont d && utf8_fuel fuel l3
                  | [] => false
                  end
              | [] => false
              end
          | [] => false
          end
      end
  end.

Definition from_utf8 (l : bytes) : option str :=
  if utf8_fuel (length l) l then Some (string_of_bytes l) else None.

(** Slices of a [str] at byte positions, [&s[i..]] and [&s[..i]]: they panic
    out of range and inside a character. *)
Definition is_char_boundary (s : str) (i : usize) : bool :=
  (i =? 0) || (i =? str_len s) ||
  ((0 <? i) && (i <? str_len s) &&
   match as_bytes s !! Z.to_nat i with Some b => negb (cont b) | None => false end).

Fixpoint str_drop (n : nat) (s : str) : str :=
  match n, s with S n, String _ s => str_drop n s | _, _ => s end.
Fixpoint str_take (n : nat) (s : str) : str :=
  match n, s with S n, String c s => String c (str_take n s) | _, _ => EmptyString end.

Definition str_from (i : usize) (s : str) : result str :=
  if is_char_boundary s i then Ok (str_drop (Z.to_nat i) s) else Panic.
Definition str_to (i : usize) (s : str) : result str :=
  if is_char_boundary s i then Ok (str_take (Z.to_nat i) s) else Panic.

(** [windows(needle.len()).position(|w| w == needle)] for a non-empty needle. *)
Fixpoint strip_bytes (needle l : bytes) : option bytes :=
  match needle, l with
  | [], l => Some l
  | a :: needle, b :: l => if a =? b then strip_bytes needle l else None
  | _ :: _, [] => None
  end.

Fixpoint position_bytes (needle l : bytes) : option usize :=
  match strip_bytes needle l with
  | Some _ => Some 0
  | None =>
      match l with
      | [] => None
      | _ :: l => option_map (Z.add 1) (position_bytes needle l)
      end
  end.

(** ** Lemmas *)

Lemma as_bytes_app a b : as_bytes (a +:+ b) = (as_bytes a ++ as_bytes b)%list.
Proof. induction a as [|c a IH]; simpl; [done|]. by rewrite IH. Qed.

Lemma all_chars_app p a b : all_chars p (a +:+ b) = all_chars p a && all_chars p b.
Proof. induction a as [|c a IH]; simpl; [done|]. by rewrite IH, andb_assoc. Qed.

Lemma all_chars_impl (p q : ascii → bool) s :
  (∀ c, p c = true → q c = true) → all_chars p s = true → all_chars q s = true.
Proof.
  intros Hpq. induction s as [|c s IH]; simpl; [done|]. intros [H1 H2]%andb_true_iff.
  by rewrite (Hpq _ H1), IH.
Qed.

Lemma split_once_app sep a b :
  all_chars (λ c, negb (Ascii.eqb c sep)) a = true → split_once sep (a +:+ String sep b) = Some (a, b).
Proof.
  induction a as [|c a IH]; simpl; [by rewrite Ascii.eqb_refl|].
  intros [->%negb_true_iff H]%andb_true_iff. by rewrite IH.
Qed.

Lemma str_split_app sep a b :
  all_chars (λ c, negb (Ascii.eqb c sep)) a = true →
  str_split sep (a +:+ String sep b) = a :: str_split sep b.
Proof.
  induction a as [|c a IH]; simpl; [by rewrite Ascii.eqb_refl|].
  intros [->%negb_true_iff H]%andb_true_iff. by rewrite IH.
Qed.

Lemma str_split_ne sep s : str_split sep s ≠ [].
Proof. destruct s; simpl; [done|]. by repeat case_match. Qed.

Lemma strip_cr_id s : all_chars (λ c, negb (Ascii.eqb c carriage_return)) s = true → strip_cr s = s.
Proof.
  induction s as [|c s IH]; simpl; [done|]. intros [->%negb_true_iff H]%andb_true_iff.
  destruct s; [done|]. by rewrite IH.
Qed.

(** The lines of a text whose lines end in a newline. *)
Lemma str_lines_cons line rest :
  all_chars (λ c, negb (Ascii.eqb c newline)) line = true →
  all_chars (λ c, negb (Ascii.eqb c carriage_return)) line = true →
  str_lines (line +:+ String newline rest) = line :: str_lines rest.
Proof.
  intros Hn Hc. unfold str_lines. rewrite str_split_app by done. cbn [lines_of].
  pose proof (str_split_ne newline rest). destruct (str_split newline rest); [done|].
  by rewrite strip_cr_id.
Qed.

(** *** [trim] on text that starts and ends with a visible ASCII character *)

Definition visible (b : u8) : bool := in_range 33 126 b.

Lemma visible_not_white b c d : visible b = true → white1 b = false ∧ white2 b c = false ∧ white3 b c d = false.
Proof.
  unfold visible, white1, white2, white3, in_range. intros [H1%Z.leb_le H2%Z.leb_le]%andb_true_iff.
  rewrite !(proj2 (Z.eqb_neq b _)), (proj2 (Z.leb_gt b 13)), andb_false_r by lia. done.
Qed.

Lemma visible_not_white_end b c d : visible b = true → white1 b = false ∧ white2 c b = false ∧ white3 d c b = false.
Proof.
  unfold visible, white1, white2, white3, in_range. intros [H1%Z.leb_le H2%Z.leb_le]%andb_true_iff.
  rewrite !(proj2 (Z.eqb_neq b _)), (proj2 (Z.leb_gt b 13)), (proj2 (Z.leb_gt 0x80 b)) by lia.
  rewrite !andb_false_r. done.
Qed.

Lemma trim_start_id b l : visible b = true → trim_start_bytes (b :: l) = b :: l.
Proof.
  intros Hb. unfold trim_start_bytes, white_prefix. cbn.
  destruct (visible_not_white b (nth 0 l 0) (nth 1 l 0) Hb) as (H1 & H2 & H3).
  unfold white_prefix. cbn. by rewrite H1, H2, H3.
Qed.

Lemma trim_end_id b l : visible b = true → trim_end_bytes (l ++ [b])%list = (l ++ [b])%list.
Proof.
  intros Hb. unfold trim_end_bytes. rewrite reverse_snoc, length_app, Nat.add_comm. cbn [length Nat.add drop_white].
  unfold white_suffix. cbn.
  destruct (visible_not_white_end b (nth 0 (reverse l) 0) (nth 1 (reverse l) 0) Hb) as (H1 & H2 & H3).
  rewrite H1, H2, H3. by rewrite reverse_cons, reverse_involutive.
Qed.

Lemma trim_visible s b l e m :
  as_bytes s = b :: l → as_bytes s = (m ++ [e])%list → visible b = true → visible e = true → trim s = s.
Proof.
  intros Hs Hs' Hb He. unfold trim, trim_start. rewrite Hs, trim_start_id, <- Hs, string_of_as_bytes by done.
  unfold trim_end. rewrite Hs', trim_end_id, <- Hs', string_of_as_bytes by done. done.
Qed.

Lemma drop_white_keeps_last n b k :
  visible b = true → Forall (λ x, x < 128) k →
  ∃ k', drop_white n white_suffix (k ++ [b])%list = (k' ++ [b])%list.
Proof.
  intros Hb. revert k. induction n as [|n IH]; intros k Hk; cbn [drop_white]; [eauto|].
  unfold white_suffix. destruct Hk as [|x k Hx Hk].
  - cbn. destruct (visible_not_white_end b 0 0 Hb) as (H1 & H2 & H3). rewrite H1, H2, H3.
    by exists [].
  - cbn. assert (∀ y z, white2 y x = false ∧ white3 z y x = false) as Hw.
    { intros y z. unfold white2, white3, in_range. rewrite !(proj2 (Z.eqb_neq x _)), (proj2 (Z.leb_gt 0x80 x)) by lia.
      rewrite !andb_false_r. done. }
    destruct (white1 x).
    + apply (IH k Hk).
    + destruct (Hw (nth 0 (k ++ [b])%list 0) (nth 1 (k ++ [b])%list 0)) as [H1 H2].
      rewrite H1, H2. by exists (x :: k).
Qed.

Lemma trim_end_keeps_head b l :
  visible b = true → Forall (λ x, x < 128) l → ∃ l', trim_end_bytes (b :: l) = b :: l'.
Proof.
  intros Hb Hl. unfold trim_end_bytes. rewrite reverse_cons.
  destruct (drop_white_keeps_last (length (b :: l)) b (reverse l) Hb) as [k' ->]; [by apply Forall_reverse|].
  rewrite reverse_snoc. eauto.
Qed.

(** *** Printing and parsing numbers *)

Lemma digit_value_char d : 0 <= d < 10 → digit_value (digit_char d) = Some d.
Proof.
  intros Hd. unfold digit_value, digit_char, is_ascii_digit, in_range.
  rewrite u8_of_ascii_of_u8 by (unfold is_u8; lia). zbool. f_equal. lia.
Qed.

(** What parsing a printed number in front of [s] comes to. *)
Lemma parse_print_digits fuel n max s :
  0 <= n <= max → n < 2 ^ Z.of_nat fuel → (0 < fuel)%nat →
  ∃ p, print_digits fuel n s = p ∧ parse_digits max 0 p = parse_digits max n s ∧
    (∃ d t, p = String (digit_char d) t ∧ 0 <= d < 10).
Proof.
  revert n s. induction fuel as [|fuel IH]; intros n s Hn Hf H0; [lia|]. cbn [print_digits].
  assert (0 <= n mod 10 < 10) by (apply Z.mod_pos_bound; lia).
  pose proof (Z.div_mod n 10 ltac:(lia)) as Hdm.
  destruct (Z.eqb_spec (n / 10) 0) as [Hz|Hz].
  - eexists. split; [done|]. split; [|eauto]. cbn [parse_digits]. rewrite digit_value_char by done.
    rewrite (proj2 (Z.leb_le _ _)) by lia. f_equal. lia.
  - assert (0 <= n / 10) by (apply Z.div_pos; lia).
    assert (n / 10 < 2 ^ Z.of_nat fuel).
    { apply Z.div_lt_upper_bound; [lia|]. rewrite Nat2Z.inj_succ, Z.pow_succ_r in Hf by lia. lia. }
    assert (0 < fuel)%nat. { destruct fuel; [|lia]. change (2 ^ Z.of_nat 0) with 1 in *. lia. }
    destruct (IH (n / 10) (String (digit_char (n mod 10)) s)) as (p & Hp & Hparse & Hd); [lia|done..|].
    exists p. split; [done|]. split; [|done]. rewrite Hparse. cbn [parse_digits].
    rewrite digit_value_char by done. rewrite (proj2 (Z.leb_le _ _)) by lia. f_equal. lia.
Qed.

Lemma parse_print_uint max n : 0 <= n <= max → parse_uint max (print_uint n) = Some n.
Proof.
  intros Hn. unfold print_uint.
  destruct (parse_print_digits (S (Z.to_nat (Z.log2 n))) n max EmptyString) as (p & -> & Hp & d & t & -> & Hd);
    [done| |lia|].
  - rewrite Nat2Z.inj_succ, Z2Nat.id by apply Z.log2_nonneg.
    destruct (Z.eq_dec n 0) as [->|]; [done|]. apply Z.log2_spec. lia.
  - unfold parse_uint. destruct (Ascii.eqb_spec (digit_char d) "+"%char) as [E|]; [|done].
    exfalso. apply (f_equal digit_value) in E. rewrite digit_value_char in E by done. done.
Qed.

Lemma print_digits_chars fuel n s :
  0 <= n → all_chars is_ascii_digit s = true → all_chars is_ascii_digit (print_digits fuel n s) = true.
Proof.
  revert n s. induction fuel as [|fuel IH]; intros n s Hn Hs; [done|]. cbn [print_digits].
  assert (all_chars is_ascii_digit (String (digit_char (n mod 10)) s) = true) as Ha.
  { cbn [all_chars]. rewrite Hs, andb_true_r.
    assert (0 <= n mod 10 < 10) by (apply Z.mod_pos_bound; lia).
    unfold is_ascii_digit, digit_char, in_range. rewrite u8_of_ascii_of_u8 by (unfold is_u8; lia).
    rewrite andb_true_iff, !Z.leb_le. lia. }
  case_match; [done|]. apply IH; [|done]. apply Z.div_pos; lia.
Qed.

Lemma print_uint_digits n : 0 <= n → all_chars is_ascii_digit (print_uint n) = true.
Proof. intros. by apply print_digits_chars. Qed.

(** *** Searching bytes *)

Lemma strip_bytes_app needle l rest q :
  strip_bytes needle l = Some rest → strip_bytes needle (l ++ q)%list = Some (rest ++ q)%list ∧
  len needle <= len l.
Proof.
  revert l. induction needle as [|a needle IH]; intros l; simpl.
  - intros [= ->]. destruct rest; split; try done; len_lia.
  - destruct l as [|b l]; [done|]. simpl. case_match; [|done]. intros [H1 H2]%IH.
    split; [done|len_lia].
Qed.

Lemma strip_bytes_fits needle l q r :
  strip_bytes needle (l ++ q)%list = Some r → len needle <= len l → ∃ r', strip_bytes needle l = Some r'.
Proof.
  revert l. induction needle as [|a needle IH]; intros l; simpl; [destruct l; eauto|].
  destruct l as [|b l]; [len_lia|]. simpl. case_match; [|done]. intros Hs Hl. apply IH; [done|].
  revert Hl. len_lia.
Qed.

Lemma position_bytes_app needle l q i :
  position_bytes needle l = Some i →
  position_bytes needle (l ++ q)%list = Some i ∧ 0 <= i ∧ i + len needle <= len l.
Proof.
  revert i. induction l as [|b l IH]; intros i; cbn [position_bytes].
  - destruct (strip_bytes needle []) as [rest|] eqn:E; [|done]. intros [= <-].
    destruct (strip_bytes_app _ _ _ q E) as [H1 H2]. cbn [app] in *. split; [|lia].
    destruct q; cbn [position_bytes]; by rewrite H1.
  - destruct (strip_bytes needle (b :: l)) as [rest|] eqn:E.
    + intros [= <-]. destruct (strip_bytes_app _ _ _ q E) as [H1 H2].
      rewrite <- app_comm_cons in *. cbn [position_bytes]. rewrite H1. split; [done|lia].
    + destruct (position_bytes needle l) as [j|] eqn:Ej; [|done]. intros [= <-].
      destruct (IH j eq_refl) as (H1 & H2 & H3). rewrite <- app_comm_cons. cbn [position_bytes].
      destruct (strip_bytes needle (b :: l ++ q)%list) as [r|] eqn:Er.
      * exfalso. destruct (strip_bytes_fits needle (b :: l) q r Er) as [r' Hr']; [len_lia|congruence].
      * rewrite H1. split; [done|]. len_lia.
Qed.

Lemma utf8_ascii l : Forall (λ b, 0 <= b < 128) l → ∀ fuel, (length l <= fuel)%nat → utf8_fuel fuel l = true.
Proof.
  induction 1 as [|b l Hb Hl IH]; intros [|fuel] Hf; simpl in *; try (done || lia).
  rewrite (proj2 (Z.ltb_lt b 128)) by lia. apply IH. lia.
Qed.

Lemma from_utf8_ascii s :
  Forall (λ b, 0 <= b < 128) (as_bytes s) → from_utf8 (as_bytes s) = Some s.
Proof. intros Hs. unfold from_utf8. by rewrite utf8_ascii, string_of_as_bytes. Qed.

Lemma str_len_bytes s : str_len s = len (as_bytes s).
Proof. unfold str_len, len. f_equal. induction s; simpl; auto. Qed.

(** ** Lossy UTF-8 and white space: [from_utf8_lossy], [split_whitespace] *)

(** The bytes of the character at the front, and whether they are one: an
    incomplete sequence is as long as it was correct. *)
Definition utf8_char (l : bytes) : bool * nat :=
  let a := nth 0 l 0 in let b := nth 1 l 0 in let c := nth 2 l 0 in let d := nth 3 l 0 in
  if a <? 0x80 then (true, 1%nat)
  else if in_range 0xc2 0xdf a then (if cont b then (true, 2%nat) else (false, 1%nat))
  else if in_range 0xe0 0xef a then
    if (if a =? 0xe0 then in_range 0xa0 0xbf b else if a =? 0xed then in_range 0x80 0x9f b else cont b)
    then (if cont c then (true, 3%nat) else (false, 2%nat)) else (false, 1%nat)
  else if in_range 0xf0 0xf4 a then
    if (if a =? 0xf0 then in_range 0x90 0xbf b else if a =? 0xf4 then in_range 0x80 0x8f b else cont b)
    then (if cont c then (if cont d then (true, 4%nat) else (false, 3%nat)) else (false, 2%nat))
    else (false, 1%nat)
  else (false, 1%nat).

Definition REPLACEMENT_CHARACTER : bytes := [0xef; 0xbf; 0xbd].

Fixpoint lossy_fuel (fuel : nat) (l : bytes) : bytes :=
  match l, fuel with
  | [], _ | _, O => []
  | _, S fuel =>
      let '(valid, n) := utf8_char l in
      ((if valid then take n l else REPLACEMENT_CHARACTER) ++ lossy_fuel fuel (drop n l))%list
  end.
Definition from_utf8_lossy (l : bytes) : str := string_of_bytes (lossy_fuel (length l) l).

(** The words of a text; [word] is the one being read, reversed. *)
Fixpoint words_fuel (fuel : nat) (word l : bytes) : list str :=
  let flush := match word with [] => [] | _ => [string_of_bytes (reverse word)] end in
  match l, fuel with
  | [], _ | _, O => flush
  | b :: t, S fuel =>
      match white_prefix l with
      | O => words_fuel fuel (b :: word) t
      | n => (flush ++ words_fuel fuel [] (drop n l))%list
      end
  end.
Definition split_whitespace (s : str) : list str := words_fuel (String.length s) [] (as_bytes s).

Lemma lossy_ascii l : Forall (λ b, 0 <= b < 128) l → lossy_fuel (length l) l = l.
Proof.
  induction 1 as [|b l Hb Hl IH]; [done|]. cbn [length lossy_fuel]. unfold utf8_char. cbn [nth].
  rewrite (proj2 (Z.ltb_lt b 0x80)) by lia. cbn. by rewrite take_0, drop_0, IH.
Qed.

Lemma from_utf8_lossy_ascii s : Forall (λ b, 0 <= b < 128) (as_bytes s) → from_utf8_lossy (as_bytes s) = s.
Proof. intros H. unfold from_utf8_lossy. by rewrite lossy_ascii, string_of_as_bytes. Qed.
