(* ===== verification/Hdlc.v ===== *)
(** * [hdlc.rs]: HDLC framing of PPP packets for the pppd pty

    The codec state, the encoder, the frame finder and the decoder, with the
    table-driven frame check sequence; then the reference CRC the table stands
    for, and the round-trip, framing, bound and error-detection theorems. *)

From S2P Require Import Prelude.

(** ** Definitions *)

Definition FCS_TAB : list u16 := [
    0x0000; 0x1189; 0x2312; 0x329b; 0x4624; 0x57ad; 0x6536; 0x74bf; 0x8c48; 0x9dc1; 0xaf5a; 0xbed3;
    0xca6c; 0xdbe5; 0xe97e; 0xf8f7; 0x1081; 0x0108; 0x3393; 0x221a; 0x56a5; 0x472c; 0x75b7; 0x643e;
    0x9cc9; 0x8d40; 0xbfdb; 0xae52; 0xdaed; 0xcb64; 0xf9ff; 0xe876; 0x2102; 0x308b; 0x0210; 0x1399;
    0x6726; 0x76af; 0x4434; 0x55bd; 0xad4a; 0xbcc3; 0x8e58; 0x9fd1; 0xeb6e; 0xfae7; 0xc87c; 0xd9f5;
    0x3183; 0x200a; 0x1291; 0x0318; 0x77a7; 0x662e; 0x54b5; 0x453c; 0xbdcb; 0xac42; 0x9ed9; 0x8f50;
    0xfbef; 0xea66; 0xd8fd; 0xc974; 0x4204; 0x538d; 0x6116; 0x709f; 0x0420; 0x15a9; 0x2732; 0x36bb;
    0xce4c; 0xdfc5; 0xed5e; 0xfcd7; 0x8868; 0x99e1; 0xab7a; 0xbaf3; 0x5285; 0x430c; 0x7197; 0x601e;
    0x14a1; 0x0528; 0x37b3; 0x263a; 0xdecd; 0xcf44; 0xfddf; 0xec56; 0x98e9; 0x8960; 0xbbfb; 0xaa72;
    0x6306; 0x728f; 0x4014; 0x519d; 0x2522; 0x34ab; 0x0630; 0x17b9; 0xef4e; 0xfec7; 0xcc5c; 0xddd5;
    0xa96a; 0xb8e3; 0x8a78; 0x9bf1; 0x7387; 0x620e; 0x5095; 0x411c; 0x35a3; 0x242a; 0x16b1; 0x0738;
    0xffcf; 0xee46; 0xdcdd; 0xcd54; 0xb9eb; 0xa862; 0x9af9; 0x8b70; 0x8408; 0x9581; 0xa71a; 0xb693;
    0xc22c; 0xd3a5; 0xe13e; 0xf0b7; 0x0840; 0x19c9; 0x2b52; 0x3adb; 0x4e64; 0x5fed; 0x6d76; 0x7cff;
    0x9489; 0x8500; 0xb79b; 0xa612; 0xd2ad; 0xc324; 0xf1bf; 0xe036; 0x18c1; 0x0948; 0x3bd3; 0x2a5a;
    0x5ee5; 0x4f6c; 0x7df7; 0x6c7e; 0xa50a; 0xb483; 0x8618; 0x9791; 0xe32e; 0xf2a7; 0xc03c; 0xd1b5;
    0x2942; 0x38cb; 0x0a50; 0x1bd9; 0x6f66; 0x7eef; 0x4c74; 0x5dfd; 0xb58b; 0xa402; 0x9699; 0x8710;
    0xf3af; 0xe226; 0xd0bd; 0xc134; 0x39c3; 0x284a; 0x1ad1; 0x0b58; 0x7fe7; 0x6e6e; 0x5cf5; 0x4d7c;
    0xc60c; 0xd785; 0xe51e; 0xf497; 0x8028; 0x91a1; 0xa33a; 0xb2b3; 0x4a44; 0x5bcd; 0x6956; 0x78df;
    0x0c60; 0x1de9; 0x2f72; 0x3efb; 0xd68d; 0xc704; 0xf59f; 0xe416; 0x90a9; 0x8120; 0xb3bb; 0xa232;
    0x5ac5; 0x4b4c; 0x79d7; 0x685e; 0x1ce1; 0x0d68; 0x3ff3; 0x2e7a; 0xe70e; 0xf687; 0xc41c; 0xd595;
    0xa12a; 0xb0a3; 0x8238; 0x93b1; 0x6b46; 0x7acf; 0x4854; 0x59dd; 0x2d62; 0x3ceb; 0x0e70; 0x1ff9;
    0xf78f; 0xe606; 0xd49d; 0xc514; 0xb1ab; 0xa022; 0x92b9; 0x8330; 0x7bc7; 0x6a4e; 0x58d5; 0x495c;
    0x3de3; 0x2c6a; 0x1ef1; 0x0f78
].

Definition ADDRESS_CONTROL_CHECKSUM : u16 := 0x3de3.
Definition GOOD_FINAL_FCS : u16 := 0xf0b8.

Record HdlcCodec := { need_flag_sequence : bool }.

Definition new : HdlcCodec := {| need_flag_sequence := true |}.

Definition estimated_encoded_size (packet_len : usize) : usize := 9 + 2 * packet_len.

Definition in_sending_accm (byte : u8) : bool :=
  (byte <? 0x20) || (Z.land byte 0x7f =? 0x7d) || (Z.land byte 0x7f =? 0x7e).

Definition in_receiving_accm (byte : u8) : bool := byte <? 0x20.

Definition push_escaped (out : bytes) (byte : u8) : bytes :=
  if in_sending_accm byte then out ++ [0x7d; Z.lxor byte 0x20] else out ++ [byte].

(** The index is masked with [0xff] and the table has 256 entries. *)
Definition fcs_tab (i : usize) : u16 := default 0 (FCS_TAB !! Z.to_nat i).

Definition fcs_step (sum : u16) (byte : u8) : u16 :=
  Z.lxor (Z.shiftr sum 8) (fcs_tab (Z.land (Z.lxor sum byte) 0xff)).

Definition frame_checksum_16bit (sum : u16) (seq : bytes) : u16 :=
  fold_left fcs_step seq sum.

Definition encode (self : HdlcCodec) (packet : bytes) : bytes * HdlcCodec :=
  let frame := if need_flag_sequence self then [0x7e] else [] in
  let frame := frame ++ [0xff] ++ [0x7d] ++ [Z.lxor 0x03 0x20] in
  let checksum := frame_checksum_16bit ADDRESS_CONTROL_CHECKSUM packet in
  let frame := fold_left push_escaped packet frame in
  let checksum := Z.lxor checksum 0xffff in
  let frame := push_escaped frame (as_u8 (Z.land checksum 0x00ff)) in
  let frame := push_escaped frame (as_u8 (Z.shiftr checksum 8)) in
  (frame ++ [0x7e], {| need_flag_sequence := false |}).

(** The [for (i, byte) in buffer.iter().enumerate().skip(i)] search for a flag,
    over the bytes from index [i] on. *)
Fixpoint position_flag (i : usize) (l : bytes) : option usize :=
  match l with
  | [] => None
  | byte :: l => if byte =? 0x7e then Some i else position_flag (i + 1) l
  end.

(** [while s < buffer.len() && buffer[s] == 0x7e { s += 1 }] *)
Fixpoint skip_flags (s : usize) (l : bytes) : usize :=
  match l with
  | [] => s
  | byte :: l => if byte =? 0x7e then skip_flags (s + 1) l else s
  end.

(** The frame length, and the value left in [*start]. *)
Definition find_frame (buffer : bytes) (start : usize) : result (usize * usize) :=
  let* s := ok_or (position_flag start (drop (Z.to_nat start) buffer)) HdlcNoFrameFound in
  let s := s + 1 in
  let s := skip_flags s (drop (Z.to_nat s) buffer) in
  let* e := ok_or (position_flag s (drop (Z.to_nat s) buffer)) HdlcNoFrameFound in
  let* n := usub e s in
  Ok (n, s).

(** The loop over the raw bytes: the packet so far and [in_escape]. *)
Fixpoint decode_loop (frame : bytes) (packet : bytes) (in_escape : bool)
    : result (bytes * bool) :=
  match frame with
  | [] => Ok (packet, in_escape)
  | raw_byte :: frame =>
      if raw_byte =? 0x7d then
        if in_escape then Err HdlcInvalidFrame
        else decode_loop frame packet true
      else if in_escape then
        decode_loop frame (packet ++ [Z.lxor raw_byte 0x20]) false
      else if in_receiving_accm raw_byte then
        decode_loop frame packet false
      else decode_loop frame (packet ++ [raw_byte]) false
  end.

Definition has_address_control (frame : bytes) : bool :=
  match frame with
  | a :: b :: c :: _ => (a =? 0xff) && (b =? 0x7d) && (c =? Z.lxor 0x03 0x20)
  | _ => false
  end.

Definition decode (frame : bytes) : result bytes :=
  if len frame <? 5 then Err HdlcInvalidFrame else
  let has_address_control_fields := has_address_control frame in
  let start := if has_address_control_fields then 3 else 0 in
  let* body := slice_from frame start in
  let* '(packet, in_escape) := decode_loop body [] false in
  if in_escape || (len packet <? 3) then Err HdlcInvalidFrame else
  let initial := if has_address_control_fields then ADDRESS_CONTROL_CHECKSUM else 0xffff in
  if negb (frame_checksum_16bit initial packet =? GOOD_FINAL_FCS) then Err HdlcBadChecksum else
  let* n := usub (len packet) 2 in
  Ok (take (Z.to_nat n) packet).

(** ** The reference the table implements: CRC-16/X.25, one bit at a time *)

Definition crc_bit (c : u16) : u16 :=
  if Z.testbit c 0 then Z.lxor (Z.shiftr c 1) 0x8408 else Z.shiftr c 1.

Definition crc_byte (c : u16) : u16 := Nat.iter 8 crc_bit c.

Definition crc_reference (sum : u16) (seq : bytes) : u16 :=
  fold_left (λ c b, crc_byte (Z.lxor c b)) seq sum.

(** What [push_escaped] appends for one byte. *)
Definition escape (byte : u8) : bytes := push_escaped [] byte.

(** The two trailer bytes the encoder appends. *)
Definition fcs_trailer (packet : bytes) : bytes :=
  let checksum := Z.lxor (frame_checksum_16bit ADDRESS_CONTROL_CHECKSUM packet) 0xffff in
  [as_u8 (Z.land checksum 0x00ff); as_u8 (Z.shiftr checksum 8)].

(** A frame without its flags. *)
Definition frame_body (packet : bytes) : bytes :=
  [0xff; 0x7d; 0x23] ++ flat_map escape (packet ++ fcs_trailer packet).

Arguments encode : simpl never.
Arguments decode : simpl never.
Arguments find_frame : simpl never.
Arguments frame_body : simpl never.

(** ** The frame check sequence *)

Lemma land_ff_range x : 0 <= Z.land x 0xff < 256.
Proof. change 0xff with (Z.ones 8). rewrite Z.land_ones by lia. apply Z.mod_pos_bound. lia. Qed.

Lemma is_u16_pow n : is_u16 n ↔ 0 <= n < 2 ^ 16.
Proof. done. Qed.

Lemma crc_bit_u16 c : is_u16 c → is_u16 (crc_bit c).
Proof.
  intros Hc. assert (0 <= Z.shiftr c 1 < 2 ^ 16).
  { rewrite Z.shiftr_div_pow2 by lia. unfold is_u16 in Hc.
    split; [apply Z.div_pos; lia|]. apply Z.div_lt_upper_bound; lia. }
  unfold crc_bit. case_match; [|done].
  apply is_u16_pow, lxor_bounded; [lia|done|lia].
Qed.

Lemma crc_bit_lxor a b : crc_bit (Z.lxor a b) = Z.lxor (crc_bit a) (crc_bit b).
Proof.
  unfold crc_bit. rewrite Z.lxor_spec, Z.shiftr_lxor.
  destruct (Z.testbit a 0), (Z.testbit b 0); simpl; bitwise.
Qed.

Lemma crc_byte_lxor a b : crc_byte (Z.lxor a b) = Z.lxor (crc_byte a) (crc_byte b).
Proof. unfold crc_byte. simpl. by rewrite !crc_bit_lxor. Qed.

Lemma crc_byte_u16 c : is_u16 c → is_u16 (crc_byte c).
Proof. intros. unfold crc_byte. simpl. auto 10 using crc_bit_u16. Qed.

Lemma crc_bit_even c : crc_bit (Z.shiftl c 1) = c.
Proof.
  unfold crc_bit. rewrite Z.shiftl_spec_low, Z.shiftr_shiftl_l by lia.
  by rewrite Z.shiftl_0_r.
Qed.

(** Eight zero low bits are shifted out with no feedback. *)
Lemma crc_byte_high h : crc_byte (Z.shiftl h 8) = h.
Proof.
  unfold crc_byte.
  change 8 with (1+1+1+1+1+1+1+1). rewrite <- !Z.shiftl_shiftl by lia.
  simpl. by rewrite !crc_bit_even.
Qed.

Lemma fcs_tab_crc_byte i : is_u8 i → fcs_tab i = crc_byte i.
Proof.
  intros Hi. apply Z.eqb_eq.
  apply (all_u8_spec (λ i, fcs_tab i =? crc_byte i)); [vm_compute; reflexivity|done].
Qed.

Lemma split_high_low x : x = Z.lxor (Z.shiftl (Z.shiftr x 8) 8) (Z.land x 0xff).
Proof.
  apply Z.bits_inj'. intros n Hn. rewrite Z.lxor_spec, Z.land_spec.
  rewrite Z.shiftl_spec by lia. change 0xff with (Z.ones 8).
  destruct (Z.lt_ge_cases n 8).
  - rewrite (Z.testbit_neg_r _ (n - 8)), Z.ones_spec_low by lia.
    by rewrite andb_true_r, xorb_false_l.
  - rewrite Z.shiftr_spec by lia. rewrite Z.ones_spec_high by lia.
    rewrite andb_false_r, xorb_false_r. f_equal. lia.
Qed.

Lemma fcs_step_crc sum b :
  is_u8 b → fcs_step sum b = crc_byte (Z.lxor sum b).
Proof.
  intros Hb. rewrite (split_high_low (Z.lxor sum b)), crc_byte_lxor, crc_byte_high.
  unfold fcs_step. rewrite <- fcs_tab_crc_byte by apply land_ff_range.
  f_equal. rewrite Z.shiftr_lxor.
  rewrite (Z.shiftr_div_pow2 b), (Z.div_small b) by (unfold is_u8 in Hb; simpl; lia).
  by rewrite Z.lxor_0_r.
Qed.

Lemma u8_is_u16 b : is_u8 b → is_u16 b.
Proof. unfold is_u8, is_u16. lia. Qed.

Lemma fcs_step_u16 sum b : is_u16 sum → is_u8 b → is_u16 (fcs_step sum b).
Proof.
  intros Hs Hb. rewrite fcs_step_crc by done. apply crc_byte_u16.
  apply is_u16_pow, lxor_bounded; [lia|done|]. by apply is_u16_pow, u8_is_u16.
Qed.

Lemma frame_checksum_u16 sum seq :
  is_u16 sum → is_bytes seq → is_u16 (frame_checksum_16bit sum seq).
Proof.
  intros Hs Hb. revert sum Hs. unfold frame_checksum_16bit.
  induction Hb; intros; simpl; [done|]. auto using fcs_step_u16.
Qed.

Lemma frame_checksum_app sum a b :
  frame_checksum_16bit sum (a ++ b) = frame_checksum_16bit (frame_checksum_16bit sum a) b.
Proof. apply fold_left_app. Qed.

(** The table-driven frame check sequence of [frame_checksum_16bit]
    computes the bit-at-a-time CRC-16/X.25 (reflected polynomial [0x8408]) of
    the same bytes, from any starting value; so [FCS_TAB] has no wrong entry. *)
Theorem frame_checksum_is_crc sum seq :
  is_bytes seq → frame_checksum_16bit sum seq = crc_reference sum seq.
Proof.
  intros Hb. revert sum. unfold frame_checksum_16bit, crc_reference.
  induction Hb as [|b seq Hb _ IH]; intros; simpl; [done|]. by rewrite fcs_step_crc, IH.
Qed.

Lemma frame_checksum_is_crc_witness :
  is_bytes [0x80; 0x21; 0x01] ∧
  frame_checksum_16bit 0xffff [0x80; 0x21; 0x01] = crc_reference 0xffff [0x80; 0x21; 0x01].
Proof.
  assert (is_bytes [0x80; 0x21; 0x01]) as H by (repeat constructor; unfold is_u8; lia).
  split; [exact H|]. apply frame_checksum_is_crc. exact H.
Defined.

Lemma land_ff_compl c :
  Z.land (Z.lxor c (Z.land (Z.lxor c 0xffff) 0xff)) 0xff = 0xff.
Proof.
  transitivity (Z.land 0xffff 0xff); [|done].
  bitwise.
Qed.

(** Appending the complemented checksum, low byte first, always leaves the
    residue the decoder looks for. *)
Lemma fcs_residue c :
  is_u16 c →
  let checksum := Z.lxor c 0xffff in
  frame_checksum_16bit c [as_u8 (Z.land checksum 0x00ff); as_u8 (Z.shiftr checksum 8)]
    = GOOD_FINAL_FCS.
Proof.
  intros Hc checksum.
  assert (is_u16 checksum) as Hk by (apply is_u16_pow, lxor_bounded; [lia|done|lia]).
  assert (0 <= Z.shiftr checksum 8 < 256) as Hh.
  { rewrite Z.shiftr_div_pow2 by lia. unfold is_u16 in Hk.
    split; [apply Z.div_pos; lia|apply Z.div_lt_upper_bound; simpl; lia]. }
  unfold as_u8. rewrite !Z.mod_small by (done || apply land_ff_range).
  unfold frame_checksum_16bit. simpl.
  unfold fcs_step at 2.
  replace (Z.land (Z.lxor c (Z.land checksum 0xff)) 0xff) with 0xff by (symmetry; unfold checksum; apply land_ff_compl).
  unfold fcs_step.
  assert (Z.shiftr (Z.shiftr c 8) 8 = 0) as Hz.
  { rewrite Z.shiftr_shiftr by lia. rewrite Z.shiftr_div_pow2 by lia.
    apply Z.div_small. exact Hc. }
  rewrite Z.shiftr_lxor, Hz. unfold checksum. rewrite Z.shiftr_lxor.
  replace (Z.lxor (Z.lxor (Z.shiftr c 8) (fcs_tab 255)) (Z.lxor (Z.shiftr c 8) (Z.shiftr 0xffff 8)))
    with (Z.lxor (fcs_tab 255) (Z.shiftr 0xffff 8)) by bitwise.
  vm_compute. reflexivity.
Qed.

(** ** Escaping *)

Lemma push_escaped_eq out b : push_escaped out b = out ++ escape b.
Proof. unfold escape, push_escaped. by case_match. Qed.

Lemma fold_push_escaped l out : fold_left push_escaped l out = out ++ flat_map escape l.
Proof.
  revert out. induction l as [|b l IH]; intros; simpl; [by rewrite app_nil_r|].
  by rewrite IH, push_escaped_eq, app_assoc.
Qed.

Lemma encode_frame_body self packet :
  fst (encode self packet) =
    (if need_flag_sequence self then [0x7e] else []) ++ frame_body packet ++ [0x7e].
Proof.
  unfold encode, frame_body, fcs_trailer. simpl fst.
  rewrite !push_escaped_eq, fold_push_escaped, flat_map_app. cbn [flat_map].
  rewrite app_nil_r, <- !app_assoc. reflexivity.
Qed.

(** After one frame the codec no longer writes an opening flag. *)
Lemma encode_state codec packet : need_flag_sequence (snd (encode codec packet)) = false.
Proof. reflexivity. Qed.

Lemma escape_no_flag b : is_u8 b → Forall (λ x, (x =? 0x7e) = false) (escape b).
Proof.
  intros Hb. apply List.Forall_forall. intros x Hx. apply negb_true_iff.
  revert x Hx. apply forallb_forall.
  by_all_u8 (λ b, forallb (λ x, negb (x =? 0x7e)) (escape b)) b.
Qed.

Lemma escape_len b : 1 <= len (escape b) <= 2.
Proof. unfold escape, push_escaped. case_match; simpl; unfold len; simpl; lia. Qed.

Lemma decode_loop_escape b l acc :
  is_u8 b → decode_loop (escape b ++ l) acc false = decode_loop l (acc ++ [b]) false.
Proof.
  intros Hb. unfold escape, push_escaped. destruct (in_sending_accm b) eqn:Hs.
  - assert ((Z.lxor b 0x20 =? 0x7d) = false) as Hne.
    { apply negb_true_iff.
      assert (negb (in_sending_accm b) || negb (Z.lxor b 0x20 =? 0x7d) = true) as H
        by by_all_u8 (λ b, negb (in_sending_accm b) || negb (Z.lxor b 0x20 =? 0x7d)) b.
      by rewrite Hs in H. }
    simpl. by rewrite Hne, lxor_cancel_r.
  - assert (in_sending_accm b || (negb (b =? 0x7d) && negb (in_receiving_accm b)) = true) as H
      by by_all_u8 (λ b, in_sending_accm b || (negb (b =? 0x7d) && negb (in_receiving_accm b))) b.
    rewrite Hs in H. simpl in H.
    apply andb_true_iff in H as [H1%negb_true_iff H2%negb_true_iff].
    simpl. by rewrite H1, H2.
Qed.

Lemma decode_loop_escapes p l acc :
  is_bytes p →
  decode_loop (flat_map escape p ++ l) acc false = decode_loop l (acc ++ p) false.
Proof.
  intros Hp. revert acc. induction Hp as [|b p Hb _ IH]; intros; simpl.
  - by rewrite app_nil_r.
  - by rewrite <- app_assoc, decode_loop_escape, IH, <- app_assoc.
Qed.

Lemma fcs_trailer_len packet : len (fcs_trailer packet) = 2.
Proof. done. Qed.

Lemma fcs_trailer_bytes packet : is_bytes (fcs_trailer packet).
Proof. repeat constructor; apply Z.mod_pos_bound; lia. Qed.

Lemma fcs_trailer_good packet :
  is_bytes packet →
  frame_checksum_16bit ADDRESS_CONTROL_CHECKSUM (packet ++ fcs_trailer packet) = GOOD_FINAL_FCS.
Proof.
  intros Hp. rewrite frame_checksum_app. apply fcs_residue, frame_checksum_u16; [|done].
  unfold is_u16, ADDRESS_CONTROL_CHECKSUM. lia.
Qed.

(** Escaped bytes take one or two bytes each. *)
Lemma escapes_len p : len p <= len (flat_map escape p) <= 2 * len p.
Proof.
  induction p as [|b p IH]; simpl; [done|]. pose proof (escape_len b). len_lia.
Qed.

(** What the decoder makes of an address/control header followed by escaped
    content. *)
Lemma decode_escaped content :
  is_bytes content → 2 < len content →
  decode ([0xff; 0x7d; 0x23] ++ flat_map escape content) =
    if frame_checksum_16bit ADDRESS_CONTROL_CHECKSUM content =? GOOD_FINAL_FCS
    then Ok (take (Z.to_nat (len content - 2)) content) else Err HdlcBadChecksum.
Proof.
  intros Hc Hl. unfold decode. pose proof (escapes_len content).
  rewrite (proj2 (Z.ltb_ge _ 5)) by len_lia.
  replace (has_address_control _) with true by done.
  rewrite (slice_from_app [0xff; 0x7d; 0x23]). cbn [bind].
  rewrite <- (app_nil_r (flat_map escape content)), decode_loop_escapes by done.
  cbn [decode_loop bind app orb]. rewrite (proj2 (Z.ltb_ge _ 3)) by lia.
  destruct (_ =? GOOD_FINAL_FCS); cbn [negb]; [|done].
  unfold usub. by rewrite (proj2 (Z.leb_le 2 _)) by lia.
Qed.

Lemma take_len_app {A} (p s : list A) n :
  n = len p → take (Z.to_nat n) (p ++ s) = p.
Proof. intros ->. unfold len. by rewrite Nat2Z.id, take_app_length. Qed.

Lemma decode_frame_body packet :
  is_bytes packet → packet ≠ [] → decode (frame_body packet) = Ok packet.
Proof.
  intros Hp Hne. unfold frame_body. rewrite decode_escaped.
  - rewrite fcs_trailer_good, Z.eqb_refl by done. f_equal.
    apply take_len_app. rewrite len_app, fcs_trailer_len. lia.
  - apply Forall_app; auto using fcs_trailer_bytes.
  - rewrite len_app, fcs_trailer_len. destruct packet; [done|]. len_lia.
Qed.

(** ** Finding frames *)

Abbreviation no_flag l := (Forall (λ x, (x =? 0x7e) = false) l).

Lemma position_flag_app i p l :
  no_flag p → position_flag i (p ++ 0x7e :: l) = Some (i + len p).
Proof.
  intros Hp. revert i. induction Hp as [|b p Hb _ IH]; intros; simpl.
  - f_equal. rewrite len_nil. lia.
  - rewrite Hb, IH. f_equal. rewrite len_cons. lia.
Qed.

Lemma position_flag_none i p : no_flag p → position_flag i p = None.
Proof. intros Hp. revert i. induction Hp as [|b p Hb _ IH]; intros; simpl; [done|]. by rewrite Hb. Qed.

Lemma skip_flags_no_flag s b l : (b =? 0x7e) = false → skip_flags s (b :: l) = s.
Proof. intros H. simpl. by rewrite H. Qed.

Lemma skip_flags_replicate s n l :
  skip_flags s (replicate n 0x7e ++ l) = skip_flags (s + Z.of_nat n) l.
Proof.
  revert s. induction n as [|n IH]; intros; simpl; [f_equal; lia|]. rewrite IH. f_equal. lia.
Qed.

Lemma drop_len_app {A} n (p s : list A) : n = len p → drop (Z.to_nat n) (p ++ s) = s.
Proof. intros ->. unfold len. by rewrite Nat2Z.id, drop_app_length. Qed.

(** [find_frame] past junk without flags and any run of flags. *)
Lemma find_frame_spec pre junk n body post :
  no_flag junk → no_flag body → body ≠ [] →
  find_frame (pre ++ junk ++ replicate (S n) 0x7e ++ body ++ 0x7e :: post) (len pre) =
    Ok (len body, len pre + len junk + 1 + Z.of_nat n).
Proof.
  intros Hj Hb Hne. unfold find_frame.
  rewrite (drop_len_app _ pre) by done.
  cbn [replicate]. rewrite <- app_comm_cons, position_flag_app by done. cbn [ok_or bind].
  assert (skip_flags (len pre + len junk + 1)
    (drop (Z.to_nat (len pre + len junk + 1))
      (pre ++ junk ++ 0x7e :: replicate n 0x7e ++ body ++ 0x7e :: post)) =
    len pre + len junk + 1 + Z.of_nat n) as ->.
  { replace (pre ++ junk ++ 0x7e :: replicate n 0x7e ++ body ++ 0x7e :: post)
      with ((pre ++ junk ++ [0x7e]) ++ replicate n 0x7e ++ body ++ 0x7e :: post)
      by (by rewrite <- !app_assoc).
    rewrite drop_len_app by len_lia. rewrite skip_flags_replicate.
    destruct Hb as [|b body Hb]; [done|]. by apply skip_flags_no_flag. }
  replace (pre ++ junk ++ 0x7e :: replicate n 0x7e ++ body ++ 0x7e :: post)
    with ((pre ++ junk ++ 0x7e :: replicate n 0x7e) ++ body ++ 0x7e :: post)
    by (by rewrite <- !app_assoc).
  rewrite drop_len_app by len_lia.
  rewrite position_flag_app by done. cbn [ok_or bind]. unfold usub.
  rewrite (proj2 (Z.leb_le _ _)) by len_lia. cbn [bind]. do 2 f_equal. lia.
Qed.

Lemma frame_body_no_flag packet : is_bytes packet → no_flag (frame_body packet).
Proof.
  intros Hp. unfold frame_body. apply Forall_app; split; [by repeat constructor|].
  assert (is_bytes (packet ++ fcs_trailer packet)) as Ha
    by (apply Forall_app; auto using fcs_trailer_bytes).
  induction Ha; simpl; [constructor|]. apply Forall_app; auto using escape_no_flag.
Qed.

Lemma frame_body_ne packet : frame_body packet ≠ [].
Proof. done. Qed.

(** ** Properties of the codec *)

(** For every non-empty packet of bytes and either codec state, the frame
    [encode] produces is found by [find_frame] and decoded back to the packet:
    scanning from the last flag (the one of the frame itself, or the closing
    flag of the previous frame) yields exactly the packet and ends on the
    closing flag. *)
Theorem encode_find_decode self packet pre post :
  is_bytes packet → packet ≠ [] →
  let '(frame, self') := encode self packet in
  let opening := if need_flag_sequence self then [] else [0x7e] in
  let buffer := pre ++ opening ++ frame ++ post in
  need_flag_sequence self' = false ∧
  ∃ n s, find_frame buffer (len pre) = Ok (n, s) ∧
    bind (slice buffer s (s + n)) decode = Ok packet ∧
    drop (Z.to_nat (s + n)) buffer = 0x7e :: post.
Proof.
  intros Hp Hne. pose proof (encode_frame_body self packet) as He.
  destruct (encode self packet) as [frame self'] eqn:E. cbn [fst] in He. subst frame.
  cbv zeta. split; [injection E as _ <-; done|].
  set (body := frame_body packet).
  assert ((pre ++ (if need_flag_sequence self then [] else [0x7e]) ++
    ((if need_flag_sequence self then [0x7e] else []) ++ body ++ [0x7e]) ++ post)
    = pre ++ [] ++ replicate 1 0x7e ++ body ++ 0x7e :: post) as ->.
  { destruct (need_flag_sequence self); simpl; by rewrite <- ?app_assoc. }
  rewrite find_frame_spec by first [by apply frame_body_no_flag | apply Forall_nil_2 | done].
  eexists _, _. split; [done|]. rewrite len_nil.
  replace (len pre + 0 + 1 + Z.of_nat 0) with (len (pre ++ [0x7e])) by len_lia.
  replace (pre ++ [] ++ replicate 1 0x7e ++ body ++ 0x7e :: post)
    with ((pre ++ [0x7e]) ++ body ++ 0x7e :: post) by (by rewrite <- app_assoc).
  rewrite slice_app_middle. cbn [bind]. split; [by apply decode_frame_body|].
  rewrite app_assoc, drop_len_app; [done|]. len_lia.
Qed.

Lemma encode_find_decode_witness :
  is_bytes [0x80; 0x21; 0x7d] ∧
  ∃ n s, find_frame ([1; 2] ++ fst (encode new [0x80; 0x21; 0x7d]) ++ [5]) 2 = Ok (n, s) ∧
    bind (slice ([1; 2] ++ fst (encode new [0x80; 0x21; 0x7d]) ++ [5]) s (s + n)) decode
      = Ok [0x80; 0x21; 0x7d].
Proof.
  assert (is_bytes [0x80; 0x21; 0x7d]) as H by (repeat constructor; unfold is_u8; lia).
  split; [exact H|].
  destruct (encode_find_decode new [0x80; 0x21; 0x7d] [1; 2] [5] H ltac:(discriminate))
    as (_ & n & s & Hf & Hd & _).
  exists n, s. split; [exact Hf|exact Hd].
Defined.

(** The encoded frame never outgrows the buffer the codec reserves for it,
    its content holds no flag byte, and no byte of the content that the
    receiver would drop as a control character is sent unescaped. *)
Theorem encode_bounds self packet :
  is_bytes packet →
  let frame := fst (encode self packet) in
  len frame <= estimated_encoded_size (len packet) ∧
  ∃ body, frame = (if need_flag_sequence self then [0x7e] else []) ++ body ++ [0x7e] ∧
    Forall (λ b, (b =? 0x7e) = false ∧ in_receiving_accm b = false) body.
Proof.
  intros Hp frame. unfold frame. rewrite encode_frame_body. split.
  - unfold estimated_encoded_size, frame_body.
    pose proof (escapes_len (packet ++ fcs_trailer packet)).
    pose proof (fcs_trailer_len packet).
    destruct (need_flag_sequence self); len_lia.
  - exists (frame_body packet). split; [done|].
    apply Forall_and. split; [by apply frame_body_no_flag|].
    unfold frame_body. apply Forall_app; split; [by repeat constructor|].
    assert (is_bytes (packet ++ fcs_trailer packet)) as Ha
      by (apply Forall_app; auto using fcs_trailer_bytes).
    induction Ha as [|b l Hb _ IH]; simpl; [constructor|]. apply Forall_app; split; [|done].
    apply List.Forall_forall. intros x Hx. apply negb_true_iff. revert x Hx. apply forallb_forall.
    by_all_u8 (λ b, forallb (λ x, negb (in_receiving_accm x)) (escape b)) b.
Qed.

Lemma encode_bounds_witness :
  is_bytes [0x7e; 0x00] ∧
  len (fst (encode new [0x7e; 0x00])) <= estimated_encoded_size (len [0x7e; 0x00]).
Proof.
  assert (is_bytes [0x7e; 0x00]) as H by (repeat constructor; unfold is_u8; lia).
  split; [exact H|]. apply (encode_bounds new _ H).
Defined.

(** The reference step is injective on 16-bit values: the bit shifted in at the
    top tells whether the polynomial was added. *)
Lemma crc_bit_inj a b : is_u16 a → is_u16 b → crc_bit a = crc_bit b → a = b.
Proof.
  intros Ha Hb H.
  assert (∀ x, is_u16 x → Z.testbit (crc_bit x) 15 = Z.testbit x 0) as Htop.
  { intros x Hx. assert (Z.testbit (Z.shiftr x 1) 15 = false) as Hs.
    { rewrite Z.shiftr_spec by lia. apply (bounded_bits x 16); [exact Hx|lia]. }
    unfold crc_bit. destruct (Z.testbit x 0); [|done]. by rewrite Z.lxor_spec, Hs. }
  assert (Z.testbit a 0 = Z.testbit b 0) as H0 by (rewrite <- !Htop by done; by rewrite H).
  assert (Z.shiftr a 1 = Z.shiftr b 1) as H1.
  { unfold crc_bit in H. rewrite H0 in H. destruct (Z.testbit b 0); [|done].
    rewrite !(Z.lxor_comm _ 0x8408) in H. by apply lxor_inj_l in H. }
  apply Z.bits_inj'. intros n Hn. destruct (Z.eq_dec n 0) as [->|]; [done|].
  apply (f_equal (λ z, Z.testbit z (n - 1))) in H1.
  rewrite !Z.shiftr_spec in H1 by lia. by replace (n - 1 + 1) with n in H1 by lia.
Qed.

Lemma crc_byte_inj a b : is_u16 a → is_u16 b → crc_byte a = crc_byte b → a = b.
Proof.
  intros Ha Hb. unfold crc_byte. simpl. intros H.
  do 8 (apply crc_bit_inj in H; [|auto 20 using crc_bit_u16..]). done.
Qed.

Lemma lxor_u16 a b : is_u16 a → is_u16 b → is_u16 (Z.lxor a b).
Proof. intros. apply is_u16_pow, lxor_bounded; [lia|done|done]. Qed.

Lemma frame_checksum_inj l a b :
  is_bytes l → is_u16 a → is_u16 b →
  frame_checksum_16bit a l = frame_checksum_16bit b l → a = b.
Proof.
  intros Hl. revert a b. unfold frame_checksum_16bit.
  induction Hl as [|x l Hx Hl IH]; intros a b Ha Hb; simpl; [done|].
  intros H. apply IH in H; [|by apply fcs_step_u16..].
  rewrite !fcs_step_crc in H by done.
  apply crc_byte_inj in H; [|by apply lxor_u16, u8_is_u16..].
  rewrite !(Z.lxor_comm _ x) in H. by apply lxor_inj_l in H.
Qed.

(** Corrupting any single byte of a frame's content (packet or checksum) is
    detected: when the content passes the frame check and one byte of it
    changes, the decoder answers [HdlcBadChecksum]. *)
Theorem decode_detects_corrupt_byte before after good bad :
  is_bytes (before ++ good :: after) → is_u8 bad → good ≠ bad →
  2 < len (before ++ good :: after) →
  is_ok (decode ([0xff; 0x7d; 0x23] ++ flat_map escape (before ++ good :: after))) = true →
  decode ([0xff; 0x7d; 0x23] ++ flat_map escape (before ++ bad :: after)) = Err HdlcBadChecksum.
Proof.
  intros Hg Hbad Hne Hlen Hok.
  apply Forall_app in Hg as Hg'. destruct Hg' as [Hb [Hgood Ha]%Forall_cons].
  assert (is_bytes (before ++ bad :: after)) as Hbb by (apply Forall_app; auto).
  rewrite decode_escaped in Hok by done.
  rewrite decode_escaped by (done || (revert Hlen; len_lia)).
  destruct (frame_checksum_16bit ADDRESS_CONTROL_CHECKSUM (before ++ good :: after) =? GOOD_FINAL_FCS)
    eqn:E; [|done]. apply Z.eqb_eq in E.
  case_match eqn:E2; [|done]. apply Z.eqb_eq in E2. exfalso. apply Hne.
  rewrite <- E in E2. rewrite !frame_checksum_app in E2.
  set (c := frame_checksum_16bit _ before) in *.
  assert (is_u16 c) as Hc
    by (apply frame_checksum_u16; [unfold is_u16, ADDRESS_CONTROL_CHECKSUM; lia|done]).
  simpl in E2. apply frame_checksum_inj in E2; [|done|by apply fcs_step_u16..].
  rewrite !fcs_step_crc in E2 by done.
  apply crc_byte_inj in E2; [|by apply lxor_u16, u8_is_u16..].
  by apply lxor_inj_l in E2.
Qed.

Lemma decode_detects_corrupt_byte_witness :
  let content := [0x80; 0x21; 0x01] ++ fcs_trailer [0x80; 0x21; 0x01] in
  is_ok (decode ([0xff; 0x7d; 0x23] ++ flat_map escape content)) = true ∧
  decode ([0xff; 0x7d; 0x23] ++ flat_map escape ([0x80] ++ 0x22 :: drop 2 content))
    = Err HdlcBadChecksum.
Proof.
  intros content. split; [vm_compute; reflexivity|].
  apply (decode_detects_corrupt_byte [0x80] (drop 2 content) 0x21 0x22).
  - apply Forall_app. split; [repeat constructor; unfold is_u8; lia|].
    constructor; [unfold is_u8; lia|]. vm_compute. repeat constructor; intros; discriminate.
  - unfold is_u8. lia.
  - lia.
  - vm_compute. reflexivity.
  - vm_compute. reflexivity.
Defined.

Lemma decode_loop_returns frame packet esc : returns (decode_loop frame packet esc).
Proof.
  revert packet esc. induction frame as [|b l IH]; intros; simpl; [done|].
  repeat case_match; auto with rust.
Qed.

Lemma position_flag_ge i l e : position_flag i l = Some e → i <= e < i + len l.
Proof.
  revert i. induction l as [|b l IH]; intros i; simpl; [done|].
  pose proof (len_nonneg l). rewrite len_cons. case_match.
  - intros [= ->]. lia.
  - intros H'%IH. lia.
Qed.

Lemma decode_returns buffer : returns (decode buffer).
Proof.
  unfold decode. destruct (Z.ltb_spec (len buffer) 5); [done|].
  apply returns_bind.
  { apply returns_slice_from. case_match; lia. }
  intros body _. apply returns_bind; [apply decode_loop_returns|].
  intros [packet esc] _. destruct (esc || (len packet <? 3)) eqn:E; [done|].
  apply orb_false_iff in E as [_ E%Z.ltb_ge].
  case_match; [done|]. unfold usub. by rewrite (proj2 (Z.leb_le _ _)) by lia.
Qed.

(** On any input at all, [decode] and [find_frame] return a value or an
    error: no slice or subtraction of theirs goes out of range, whatever pppd
    wrote; and what [decode] returns is never empty. *)
Theorem decode_find_frame_return buffer start :
  0 <= start →
  returns (decode buffer) ∧ returns (find_frame buffer start) ∧
  (∀ p, decode buffer = Ok p → p ≠ []).
Proof.
  intros Hs. split; [|split].
  - apply decode_returns.
  - unfold find_frame. destruct (position_flag start _) as [i|] eqn:E1; cbn [ok_or bind]; [|done].
    destruct (position_flag (skip_flags _ _) _) as [e|] eqn:E2; cbn [ok_or bind]; [|done].
    apply position_flag_ge in E2. unfold usub. by rewrite (proj2 (Z.leb_le _ _)) by lia.
  - intros p. unfold decode. destruct (Z.ltb_spec (len buffer) 5); [done|].
    intros (body & _ & ([packet esc] & _ & Hd)%bind_ok_inv)%bind_ok_inv.
    destruct (esc || (len packet <? 3)) eqn:E; [done|].
    apply orb_false_iff in E as [_ E%Z.ltb_ge].
    destruct (frame_checksum_16bit _ _ =? _); cbn [negb] in Hd; [|done].
    unfold usub in Hd. rewrite (proj2 (Z.leb_le _ _)) in Hd by lia. cbn [bind] in Hd.
    intros ->. injection Hd as Hd. apply (f_equal len) in Hd. revert Hd. len_lia.
Qed.

Lemma decode_find_frame_return_witness :
  0 <= 1 ∧ returns (decode [0xff; 0x7d; 0x23; 0x7d; 0x7d]).
Proof. split; [lia|]. apply (decode_find_frame_return _ 1). lia. Defined.
