(* ===== verification/Packet.v ===== *)
(** * [tunnel/packet.rs]: PPP packets and their Fortinet TLS frames

    The six-byte header codec, the IPCP predicates and the scan for the
    IP-Address option, with the abstract view of an option list as a sequence
    of (type, value) pairs that both option scanners of the program refine. *)

From S2P Require Import Prelude.

Definition FORTINET_MAGIC : u16 := 0x5050.
Definition HEADER_LEN : usize := 6.

Record PppPacket := { data : bytes }.

#[export] Instance PppPacket_eq_dec : EqDecision PppPacket.
Proof. solve_decision. Defined.

Definition encode_for_tls (self : PppPacket) : result bytes :=
  if len (data self) >? 65535 - HEADER_LEN then Err HdlcInvalidFrame else
  let total := as_u16 (HEADER_LEN + len (data self)) in
  let size := as_u16 (len (data self)) in
  Ok (u16_to_be total ++ u16_to_be FORTINET_MAGIC ++ u16_to_be size ++ data self).

(** [u16::from_be_bytes([l[i], l[i + 1]])] *)
Definition be16_at (l : bytes) (i : usize) : result u16 :=
  let* hi := index l i in
  let* lo := index l (i + 1) in
  Ok (u16_from_be hi lo).

Definition decode_from_tls_frame (frame : bytes) : result PppPacket :=
  if len frame <? HEADER_LEN then Err HdlcInvalidFrame else
  let* total := be16_at frame 0 in
  let* magic := be16_at frame 2 in
  let* size := be16_at frame 4 in
  if negb (magic =? FORTINET_MAGIC) || (total <? HEADER_LEN + 1) then Err HdlcInvalidFrame else
  let* rest := usub total HEADER_LEN in
  if negb (rest =? size) then Err HdlcInvalidFrame else
  if negb (len frame =? total) then Err HdlcInvalidFrame else
  let* payload := slice_from frame HEADER_LEN in
  Ok {| data := payload |}.

Definition is_ip_plus_dns (self : PppPacket) : result bool :=
  let p := data self in
  Ok (12 <=? len p) &&& index_eq p 0 0x80 &&& index_eq p 1 0x21
    &&& index_eq p 2 0x02 &&& index_eq p 6 0x03.

Definition is_end_negotiation (self : PppPacket) : result bool :=
  let p := data self in
  (Ok (len p =? 6) &&& index_eq p 0 0x80 &&& index_eq p 1 0x21
    &&& index_eq p 2 0x01 &&& index_eq p 4 0x00 &&& index_eq p 5 0x04)
  ||| (Ok (12 <=? len p) &&& index_eq p 0 0x80 &&& index_eq p 1 0x21 &&& index_eq p 2 0x02).

(** The [while offset + 2 <= end] loop over the IPCP options. *)
Fixpoint ipcp_option_loop (fuel : nat) (p : bytes) (offset end_ : usize)
    : result (option Ipv4Addr) :=
  if offset + 2 <=? end_ then
    match fuel with
    | O => Diverge
    | S fuel =>
        let* option_type := index p offset in
        let* option_len := index p (offset + 1) in
        if (option_len <? 2) || (offset + option_len >? end_) then Ok None
        else if (option_type =? 0x03) && (option_len =? 6) then
          let* a := index p (offset + 2) in
          let* b := index p (offset + 3) in
          let* c := index p (offset + 4) in
          let* d := index p (offset + 5) in
          Ok (Some (Ipv4 a b c d))
        else ipcp_option_loop fuel p (offset + option_len) end_
    end
  else Ok None.

(** Every turn moves [offset] by at least two. *)
Definition option_fuel (p : bytes) : nat := length p.

Definition ipcp_ipv4_address (self : PppPacket) : result (option Ipv4Addr) :=
  let p := data self in
  let* skip := Ok (len p <? 10) ||| (let* b := index_eq p 0 0x80 in Ok (negb b))
                 ||| (let* b := index_eq p 1 0x21 in Ok (negb b)) in
  if skip then Ok None else
  let* length := be16_at p 4 in
  if (length <? 4) || (len p <? 2 + length) then Ok None else
  ipcp_option_loop (option_fuel p) p 6 (2 + length).

(** ** Specification of an option list *)

(** An option is a type and a value; on the wire, type, length, value. *)
Definition encode_option (o : u8 * bytes) : bytes := o.1 :: (2 + len o.2) :: o.2.
Definition encode_options (os : list (u8 * bytes)) : bytes := flat_map encode_option os.
Definition option_wf (o : u8 * bytes) : Prop := is_u8 o.1 ∧ is_bytes o.2 ∧ 2 + len o.2 < 256.

(** The first IP-Address option: type 3 with a four-byte value. *)
Fixpoint first_ip_option (os : list (u8 * bytes)) : option Ipv4Addr :=
  match os with
  | [] => None
  | (t, v) :: os =>
      match v with
      | [a; b; c; d] => if t =? 3 then Some (Ipv4 a b c d) else first_ip_option os
      | _ => first_ip_option os
      end
  end.

(** An IPCP packet: protocol, code, identifier, length, options. *)
Definition ipcp_packet (code identifier : u8) (options : bytes) : PppPacket :=
  {| data := [0x80; 0x21; code; identifier] ++ u16_to_be (4 + len options) ++ options |}.

(** The header and payload that [encode_for_tls] answers. *)
Definition tls_frame (payload : bytes) : bytes :=
  u16_to_be (HEADER_LEN + len payload) ++ u16_to_be FORTINET_MAGIC
    ++ u16_to_be (len payload) ++ payload.

(** ** Lemmas *)

Lemma be16_at_range l i :
  is_bytes l → 0 <= i → i + 1 < len l → ∃ n, be16_at l i = Ok n ∧ is_u16 n.
Proof.
  intros Hl Hi Hlt. unfold be16_at.
  destruct (index_in_range l i) as (hi & -> & Hhi); [lia|].
  destruct (index_in_range l (i + 1)) as (lo & -> & Hlo); [lia|]. simpl.
  rewrite Forall_lookup in Hl. eexists. split; [done|].
  eapply u16_from_be_range; eapply Hl; eassumption.
Qed.

Lemma returns_be16_at l i : 0 <= i → i + 1 < len l → returns (be16_at l i).
Proof.
  intros. unfold be16_at. apply returns_bind; [auto with rust|]. intros.
  apply returns_bind; auto with rust.
Qed.

#[export] Hint Resolve returns_be16_at : rust.

Lemma decode_from_tls_frame_returns frame : returns (decode_from_tls_frame frame).
Proof.
  unfold decode_from_tls_frame, HEADER_LEN.
  destruct (Z.ltb_spec (len frame) 6); [done|].
  repeat (apply returns_bind; [apply returns_be16_at; lia|intros ? _]).
  destruct (negb _ || _) eqn:E; [done|]. apply orb_false_iff in E as [_ E%Z.ltb_ge].
  unfold usub. rewrite (proj2 (Z.leb_le _ _)) by lia. simpl.
  repeat (case_match; [done|]). apply returns_bind; [|done].
  apply returns_slice_from. lia.
Qed.

Lemma decode_from_tls_frame_error frame e :
  decode_from_tls_frame frame = Err e → e = HdlcInvalidFrame.
Proof.
  unfold decode_from_tls_frame, HEADER_LEN. destruct (Z.ltb_spec (len frame) 6); [congruence|].
  unfold be16_at. repeat match goal with |- context [index frame ?i] =>
    let H := fresh in destruct (index_in_range frame i) as (? & H & _); [lia|]; rewrite H; clear H
  end.
  cbn [bind]. case_match; [congruence|]. unfold usub. case_match; cbn [bind]; [|done].
  repeat (case_match; [congruence|]). by rewrite slice_from_ok by lia.
Qed.

(** What a frame that decodes looks like, byte for byte. *)
Lemma decode_from_tls_frame_inv frame p :
  is_bytes frame → decode_from_tls_frame frame = Ok p →
  data p ≠ [] ∧ HEADER_LEN + len (data p) <= 65535 ∧ is_bytes (data p) ∧
  frame = tls_frame (data p).
Proof.
  unfold decode_from_tls_frame, HEADER_LEN. intros Hb.
  destruct (Z.ltb_spec (len frame) 6) as [|Hlen]; [done|].
  destruct frame as [|a [|b [|c [|d [|e [|f payload]]]]]];
    [simpl_len; lia..|]. clear Hlen.
  repeat rewrite Forall_cons in Hb. destruct Hb as (Ha & Hb & Hc & Hd & He & Hf & Hp).
  unfold be16_at, index. simpl.
  pose proof (u16_from_be_range a b Ha Hb) as Ht. unfold is_u16 in Ht.
  destruct (Z.eqb_spec (u16_from_be c d) FORTINET_MAGIC) as [Hm|]; [|done].
  destruct (Z.ltb_spec (u16_from_be a b) (6 + 1)); [done|]. cbn [negb orb].
  unfold usub. zbool.
  destruct (Z.eqb_spec (u16_from_be a b - 6) (u16_from_be e f)) as [Hs|]; [|done]. cbn [negb].
  destruct (Z.eqb_spec (len (a :: b :: c :: d :: e :: f :: payload)) (u16_from_be a b))
    as [Hl|]; [|done]. cbn [negb].
  rewrite (slice_from_app_n _ _ [a; b; c; d; e; f] payload) by done. intros [= <-]. cbn [data].
  simpl_len. assert (len payload = u16_from_be e f) as Hpl by lia.
  split_and!; [intros ->; rewrite len_nil in *; lia|lia|done|].
  unfold tls_frame, HEADER_LEN. replace (6 + len payload) with (u16_from_be a b) by lia.
  rewrite Hpl, <- Hm.
  pose proof (u16_to_be_from_be a b Ha Hb) as E1. pose proof (u16_to_be_from_be c d Hc Hd) as E2.
  pose proof (u16_to_be_from_be e f He Hf) as E3. unfold u16_to_be in E1, E2, E3.
  unfold u16_to_be. injection E1 as -> ->. injection E2 as -> ->. injection E3 as -> ->. done.
Qed.

Lemma encode_for_tls_eq p :
  encode_for_tls p = if 65529 <? len (data p) then Err HdlcInvalidFrame else Ok (tls_frame (data p)).
Proof.
  unfold encode_for_tls, tls_frame, HEADER_LEN. rewrite Z.gtb_ltb.
  change (65535 - 6) with 65529. destruct (Z.ltb_spec 65529 (len (data p))); [done|].
  pose proof (len_nonneg (data p)). by rewrite !as_u16_small by (unfold is_u16; lia).
Qed.

Lemma tls_frame_len payload : len (tls_frame payload) = HEADER_LEN + len payload.
Proof. unfold tls_frame, u16_to_be, HEADER_LEN. len_lia. Qed.

(** The three header fields of a frame. *)
Lemma tls_frame_header payload rest :
  len payload <= 65529 →
  be16_at (tls_frame payload ++ rest) 0 = Ok (HEADER_LEN + len payload) ∧
  be16_at (tls_frame payload ++ rest) 2 = Ok FORTINET_MAGIC ∧
  be16_at (tls_frame payload ++ rest) 4 = Ok (len payload).
Proof.
  intros Hl. pose proof (len_nonneg payload).
  unfold tls_frame, u16_to_be, be16_at, index, HEADER_LEN. simpl.
  rewrite !u16_from_be_to_be by (unfold is_u16, FORTINET_MAGIC; lia). done.
Qed.

Lemma decode_tls_frame payload :
  payload ≠ [] → len payload <= 65529 →
  decode_from_tls_frame (tls_frame payload) = Ok {| data := payload |}.
Proof.
  intros Hne Hl. assert (0 < len payload) by (destruct payload; [done|len_lia]).
  destruct (tls_frame_header payload [] Hl) as (H1 & H2 & H3). rewrite app_nil_r in *.
  unfold decode_from_tls_frame. rewrite tls_frame_len, H1, H2, H3. unfold HEADER_LEN, usub.
  cbn [bind]. zbool.
  unfold tls_frame, u16_to_be. cbn [app].
  by erewrite (slice_from_app_n _ _ [_; _; _; _; _; _] payload).
Qed.

(** ** Properties *)

(** The TLS framing is lossless.  A packet is framed exactly when its data
    fits the 16-bit length field; a non-empty one is decoded back from its
    frame; and a frame that decodes is the frame of what it decodes to, so no
    two frames carry the same packet and nothing in a frame is ignored. *)
Theorem tls_frame_roundtrip p :
  is_bytes (data p) →
  (is_ok (encode_for_tls p) = true ↔ len (data p) <= 65529) ∧
  (∀ frame, encode_for_tls p = Ok frame → data p ≠ [] → decode_from_tls_frame frame = Ok p) ∧
  (∀ frame, is_bytes frame → decode_from_tls_frame frame = Ok p → encode_for_tls p = Ok frame).
Proof.
  intros Hb. split; [|split].
  - rewrite encode_for_tls_eq. destruct (Z.ltb_spec 65529 (len (data p))); simpl; split; (done || lia).
  - intros frame. rewrite encode_for_tls_eq. destruct (Z.ltb_spec 65529 (len (data p))); [done|].
    intros [= <-] Hne. rewrite decode_tls_frame by done. by destruct p.
  - intros frame Hf Hd. apply decode_from_tls_frame_inv in Hd as (Hne & Hl & _ & ->); [|done].
    unfold HEADER_LEN in Hl. rewrite encode_for_tls_eq. by zbool.
Qed.

Lemma tls_frame_roundtrip_witness :
  is_bytes [0x80; 0x21; 0x01] ∧
  encode_for_tls {| data := [0x80; 0x21; 0x01] |}
    = Ok [0x00; 0x09; 0x50; 0x50; 0x00; 0x03; 0x80; 0x21; 0x01] ∧
  decode_from_tls_frame [0x00; 0x09; 0x50; 0x50; 0x00; 0x03; 0x80; 0x21; 0x01]
    = Ok {| data := [0x80; 0x21; 0x01] |}.
Proof.
  assert (is_bytes [0x80; 0x21; 0x01]) as H by (repeat constructor; unfold is_u8; lia).
  destruct (tls_frame_roundtrip {| data := [0x80; 0x21; 0x01] |} H) as (_ & Hf & _).
  split; [exact H|]. split; [vm_compute; reflexivity|].
  apply Hf; [vm_compute; reflexivity|discriminate].
Defined.

(** ** The option scan *)

(** A scan over the options [p] holds at [offset], up to [end_]. *)
Lemma ipcp_option_loop_shift fuel p pre post offset :
  0 <= offset →
  ipcp_option_loop fuel (pre ++ p ++ post) (len pre + offset) (len pre + len p) =
  ipcp_option_loop fuel p offset (len p).
Proof.
  revert offset. induction fuel as [|fuel IH]; intros offset Ho; simpl;
    replace (len pre + offset + 2 <=? len pre + len p) with (offset + 2 <=? len p)
      by (destruct (Z.leb_spec (offset + 2) (len p)), (Z.leb_spec (len pre + offset + 2) (len pre + len p)); lia || done);
    destruct (Z.leb_spec (offset + 2) (len p)) as [Hle|]; try done.
  assert (∀ i, 0 <= i < len p → index (pre ++ p ++ post) (len pre + i) = index p i) as Hidx.
  { intros i Hi. unfold index. pose proof (len_nonneg pre). zbool. unfold len in *.
    replace (Z.to_nat (Z.of_nat (length pre) + i)) with (length pre + Z.to_nat i)%nat by lia.
    rewrite lookup_app_r, Nat.add_comm, Nat.add_sub, lookup_app_l by lia. done. }
  replace (len pre + offset + 1) with (len pre + (offset + 1)) by lia.
  rewrite !Hidx by lia.
  destruct (index p offset) as [t|e| |]; try done. destruct (index p (offset + 1)) as [l|e| |]; try done.
  cbn [bind].
  replace (len pre + offset + l >? len pre + len p) with (offset + l >? len p)
    by (rewrite !Z.gtb_ltb; destruct (Z.ltb_spec (len p) (offset + l)), (Z.ltb_spec (len pre + len p) (len pre + offset + l)); lia || done).
  destruct ((l <? 2) || _) eqn:E1; [done|].
  apply orb_false_iff in E1 as [E1 E2]. rewrite Z.gtb_ltb in E2.
  apply Z.ltb_ge in E1, E2.
  destruct ((t =? 3) && (l =? 6)) eqn:E3.
  - apply andb_true_iff in E3 as [_ E3%Z.eqb_eq]. subst l.
    replace (len pre + offset + 2) with (len pre + (offset + 2)) by lia.
    replace (len pre + offset + 3) with (len pre + (offset + 3)) by lia.
    replace (len pre + offset + 4) with (len pre + (offset + 4)) by lia.
    replace (len pre + offset + 5) with (len pre + (offset + 5)) by lia.
    by rewrite !Hidx by lia.
  - replace (len pre + offset + l) with (len pre + (offset + l)) by lia. apply IH. lia.
Qed.

(** Enough fuel: the scan returns for any bytes and any window inside them. *)
Lemma ipcp_option_loop_returns fuel p offset end_ :
  0 <= offset → end_ <= len p → end_ - offset <= Z.of_nat fuel →
  returns (ipcp_option_loop fuel p offset end_).
Proof.
  revert offset. induction fuel as [|fuel IH]; intros offset Ho He Hf; simpl;
    destruct (Z.leb_spec (offset + 2) end_); try (exact I || lia).
  apply returns_bind; [auto with rust|intros t _].
  apply returns_bind; [auto with rust|intros l _].
  destruct ((l <? 2) || _) eqn:E1; [exact I|].
  apply orb_false_iff in E1 as [E1%Z.ltb_ge E2]. rewrite Z.gtb_ltb in E2. apply Z.ltb_ge in E2.
  destruct ((t =? 3) && (l =? 6)) eqn:E3.
  - apply andb_true_iff in E3 as [_ E3%Z.eqb_eq].
    repeat (apply returns_bind; [auto with rust|intros ? _]). exact I.
  - apply IH; lia.
Qed.

Lemma ipcp_option_loop_fuel f1 f2 p offset end_ :
  end_ - offset <= Z.of_nat f1 → end_ - offset <= Z.of_nat f2 →
  ipcp_option_loop f1 p offset end_ = ipcp_option_loop f2 p offset end_.
Proof.
  revert f2 offset. induction f1 as [|f1 IH]; intros [|f2] offset H1 H2; cbn [ipcp_option_loop];
    destruct (Z.leb_spec (offset + 2) end_); try (done || lia).
  destruct (index p offset) as [t|e| |]; cbn [bind]; try done.
  destruct (index p (offset + 1)) as [n|e| |]; cbn [bind]; try done.
  destruct ((n <? 2) || _) eqn:E; [done|]. apply orb_false_iff in E as [E%Z.ltb_ge _].
  case_match; [done|]. apply IH; lia.
Qed.

Lemma index_app_r {A} (p s : list A) i : 0 <= i → index (p ++ s) (len p + i) = index s i.
Proof.
  intros Hi. unfold index. pose proof (len_nonneg p). zbool. unfold len.
  rewrite lookup_app_r by lia.
  by replace (Z.to_nat (Z.of_nat (length p) + i) - length p)%nat with (Z.to_nat i) by lia.
Qed.

Lemma index_app_l {A} (p s : list A) i : 0 <= i < len p → index (p ++ s) i = index p i.
Proof. intros Hi. unfold index. zbool. unfold len in Hi. by rewrite lookup_app_l by lia. Qed.

(** The scan of an encoded option list is the specification's. *)
Lemma ipcp_option_loop_spec fuel os pre :
  Forall option_wf os → len (encode_options os) <= Z.of_nat fuel →
  ipcp_option_loop fuel (pre ++ encode_options os) (len pre) (len (pre ++ encode_options os)) =
    Ok (first_ip_option os).
Proof.
  intros Hwf. revert fuel pre. induction Hwf as [|[t v] os (Ht & Hv & Hl) Hwf IH]; intros fuel pre Hf.
  - simpl. rewrite app_nil_r. destruct fuel; simpl; zbool; done.
  - simpl in Hl. change (encode_options ((t, v) :: os))
      with ((t :: (2 + len v) :: v) ++ encode_options os) in *.
    pose proof (len_nonneg (encode_options os)). pose proof (len_nonneg v).
    assert (0 < Z.of_nat fuel) by (revert Hf; len_lia).
    destruct fuel as [|fuel]; [lia|].
    cbn [ipcp_option_loop]. rewrite (proj2 (Z.leb_le _ _)) by len_lia.
    rewrite <- (Z.add_0_r (len pre)) at 1. rewrite !index_app_r by lia.
    unfold index at 1 2. zbool. cbn [lookup list_lookup app bind].
    replace (Z.to_nat 0) with 0%nat by done. replace (Z.to_nat 1) with 1%nat by done.
    cbn [lookup list_lookup bind].
    rewrite (proj2 (Z.ltb_ge _ 2)) by lia. rewrite Z.gtb_ltb, (proj2 (Z.ltb_ge _ _)) by len_lia.
    cbn [orb].
    assert (ipcp_option_loop fuel (pre ++ (t :: (2 + len v) :: v) ++ encode_options os)
      (len pre + (2 + len v)) (len (pre ++ (t :: (2 + len v) :: v) ++ encode_options os))
      = Ok (first_ip_option os)) as Hrec.
    { rewrite app_assoc. replace (len pre + (2 + len v)) with (len (pre ++ t :: (2 + len v) :: v))
        by len_lia.
      apply IH. revert Hf. len_lia. }
    destruct ((t =? 3) && (2 + len v =? 6)) eqn:E3.
    + apply andb_true_iff in E3 as [E3 E4%Z.eqb_eq].
      destruct v as [|a [|b [|c [|d [|]]]]]; simpl_len; try len_lia.
      unfold index. simpl. by rewrite E3.
    + transitivity (Ok (first_ip_option os)); [exact Hrec|]. simpl. destruct v as [|a [|b [|c [|d [|]]]]]; try done.
      change (2 + len [a; b; c; d] =? 6) with true in E3. rewrite andb_true_r in E3.
      by rewrite E3.
Qed.

Lemma ipcp_packet_eq code identifier options :
  is_u16 (4 + len options) →
  be16_at (data (ipcp_packet code identifier options)) 4 = Ok (4 + len options) ∧
  len (data (ipcp_packet code identifier options)) = 6 + len options.
Proof.
  intros Hl. unfold ipcp_packet. cbn [data]. split.
  - unfold u16_to_be, be16_at, index. simpl. by rewrite u16_from_be_to_be.
  - unfold u16_to_be. len_lia.
Qed.

(** Scanning an IPCP packet whose options are well formed returns the first
    IP-Address option (type 3, length 6) and no other; with no such option it
    returns nothing.  The loop always ends within its fuel. *)
Theorem ipcp_ipv4_address_spec code identifier os :
  Forall option_wf os → 4 <= len (encode_options os) → is_u16 (4 + len (encode_options os)) →
  ipcp_ipv4_address (ipcp_packet code identifier (encode_options os)) = Ok (first_ip_option os).
Proof.
  intros Hwf Hmin Hl. unfold ipcp_ipv4_address.
  destruct (ipcp_packet_eq code identifier (encode_options os) Hl) as [Hlen Htot].
  unfold is_u16 in Hl. rewrite Hlen, Htot. zbool.
  replace (index_eq _ 0 0x80) with (Ok true) by done.
  replace (index_eq _ 1 0x21) with (Ok true) by done. cbn [bind ror negb]. zbool.
  set (hdr := [0x80; 0x21; code; identifier] ++ u16_to_be (4 + len (encode_options os))).
  change (data _) with (hdr ++ encode_options os).
  replace 6 with (len hdr) by done.
  replace (2 + (4 + len (encode_options os))) with (len (hdr ++ encode_options os))
    by (rewrite len_app; change (len hdr) with 6; lia).
  apply ipcp_option_loop_spec; [done|].
  unfold option_fuel. change (data _) with (hdr ++ encode_options os).
  unfold len. rewrite length_app. lia.
Qed.

Lemma ipcp_ipv4_address_spec_witness :
  let os := [(1, [0; 0]); (3, [10; 212; 134; 201])] in
  Forall option_wf os ∧
  ipcp_ipv4_address (ipcp_packet 2 0x7a (encode_options os)) = Ok (Some (Ipv4 10 212 134 201)).
Proof.
  intros os. assert (Forall option_wf os) as Hwf.
  { repeat constructor; unfold is_u8; simpl; try lia; vm_compute; done. }
  split; [exact Hwf|]. apply (ipcp_ipv4_address_spec 2 0x7a os Hwf); vm_compute; intuition discriminate.
Defined.

(** None of the packet operations can panic or loop, on any bytes: the
    frame decoder, both negotiation predicates and the option scan stay inside
    the packet they are given. *)
Theorem packet_operations_return frame p :
  is_bytes (data p) →
  returns (decode_from_tls_frame frame) ∧ returns (encode_for_tls p) ∧
  returns (is_ip_plus_dns p) ∧ returns (is_end_negotiation p) ∧ returns (ipcp_ipv4_address p).
Proof.
  intros Hb. split; [apply decode_from_tls_frame_returns|].
  split; [unfold encode_for_tls; by case_match|].
  assert (∀ n b, returns (Ok (n <=? len (data p)) &&& b) ↔ (n <= len (data p) → returns b)) as Hle.
  { intros n b. simpl. destruct (Z.leb_spec n (len (data p))); simpl; split; auto; lia. }
  split; [|split].
  - unfold is_ip_plus_dns. destruct (Z.leb_spec 12 (len (data p))); [|exact I].
    repeat apply returns_rand; intros; auto with rust.
  - unfold is_end_negotiation. apply returns_ror; [|intros _].
    + destruct (Z.eqb_spec (len (data p)) 6); [|exact I].
      repeat apply returns_rand; intros; auto with rust.
    + destruct (Z.leb_spec 12 (len (data p))); [|exact I].
      repeat apply returns_rand; intros; auto with rust.
  - unfold ipcp_ipv4_address. destruct (Z.ltb_spec (len (data p)) 10); [exact I|].
    apply returns_bind.
    { repeat apply returns_ror; intros; auto with rust. }
    intros [] _; [exact I|].
    destruct (be16_at_range (data p) 4 Hb) as (n & -> & Hn); [lia..|]. unfold is_u16 in Hn. simpl.
    destruct (Z.ltb_spec n 4); [exact I|]. destruct (Z.ltb_spec (len (data p)) (2 + n)); [exact I|].
    simpl. apply ipcp_option_loop_returns; [lia|lia|]. unfold option_fuel, len in *. lia.
Qed.

Lemma packet_operations_return_witness :
  is_bytes [0x80; 0x21; 0x02; 1; 0; 12; 3; 3; 0; 3; 9; 9] ∧
  returns (ipcp_ipv4_address {| data := [0x80; 0x21; 0x02; 1; 0; 12; 3; 3; 0; 3; 9; 9] |}).
Proof.
  assert (is_bytes [0x80; 0x21; 0x02; 1; 0; 12; 3; 3; 0; 3; 9; 9]) as H
    by (repeat constructor; unfold is_u8; lia).
  split; [exact H|].
  apply (packet_operations_return [] {| data := [0x80; 0x21; 0x02; 1; 0; 12; 3; 3; 0; 3; 9; 9] |} H).
Defined.
