(* ===== verification/Io.v ===== *)
(** * [tunnel/io.rs]: packets on the TLS stream and on the pppd pty

    The tunnel start request, reading and writing one framed packet on a
    blocking stream, and the incremental decoder of the HDLC byte stream that
    pppd writes. *)

From S2P Require Import Prelude Stream Packet Hdlc.

Definition HTTP_HEADER_PREFIX : bytes := as_bytes "HTTP/1".
Definition MAX_PTY_BUFFER : usize := 64 * 1024.

Definition crlf : string := String (ascii_of_u8 13) (String (ascii_of_u8 10) EmptyString).

Definition send_start_tunnel_request (cookie : string) (w : writer) : result unit * writer :=
  let! _ & w := write_all (as_bytes
    ("GET /remote/sslvpn-tunnel HTTP/1.1" +:+ crlf +:+ "Host: sslvpn" +:+ crlf
     +:+ "Cookie: " +:+ cookie +:+ crlf +:+ crlf)) w in
  let! _ & w := flush w in
  (Ok tt, w).

Definition read_tls_packet (r : reader) : result PppPacket * reader :=
  let! header & r := read_exact HEADER_LEN r in
  if decide (header = HTTP_HEADER_PREFIX) then (Err PermissionDenied, r) else
  let! total & r := lift (be16_at header 0) r in
  if total <? HEADER_LEN + 1 then (Err HdlcInvalidFrame, r) else
  let! rest & r := read_exact (total - HEADER_LEN) r in
  (decode_from_tls_frame (header ++ rest), r).

Definition write_tls_packet (packet : PppPacket) (w : writer) : result unit * writer :=
  let! frame & w := lift (encode_for_tls packet) w in
  let! _ & w := write_all frame w in
  let! _ & w := flush w in
  (Ok tt, w).

Definition encode_packet_for_pty (codec : HdlcCodec) (packet : PppPacket) : bytes * HdlcCodec :=
  Hdlc.encode codec (data packet).

Record PppdPtyDecoder := { buffer : bytes }.

Definition new : PppdPtyDecoder := {| buffer := [] |}.

(** The decoding [loop]; every turn moves [consumed_until] past a flag, so the
    length of the buffer bounds the turns. *)
Fixpoint pty_loop (fuel : nat) (buffer : bytes) (consumed_until : usize)
    (packets : list PppPacket) : result (list PppPacket * usize) :=
  match fuel with
  | O => Diverge
  | S fuel =>
      match find_frame buffer consumed_until with
      | Ok (frame_len, frame_start) =>
          let frame_end := frame_start + frame_len in
          let* raw := slice buffer frame_start frame_end in
          let* packet := Hdlc.decode raw in
          pty_loop fuel buffer frame_end (packets ++ [{| data := packet |}])
      | Err HdlcNoFrameFound => Ok (packets, consumed_until)
      | Err err => Err err
      | Panic => Panic
      | Diverge => Diverge
      end
  end.

Definition pty_fuel (buffer : bytes) : nat := S (length buffer).

Definition push_bytes (self : PppdPtyDecoder) (bs : bytes) : result (list PppPacket) * PppdPtyDecoder :=
  if len (buffer self) + len bs >? MAX_PTY_BUFFER then
    (Err (Pppd "pppd pty buffer exceeded maximum size"), self)
  else
    let buf := buffer self ++ bs in
    let self := {| buffer := buf |} in
    let! '(packets, consumed_until) & self := lift (pty_loop (pty_fuel buf) buf 0 []) self in
    let buf := if consumed_until >? 0 then drop (Z.to_nat consumed_until) buf else buf in
    (Ok packets, {| buffer := buf |}).

Definition buffered_len (self : PppdPtyDecoder) : usize := len (buffer self).

#[export] Instance pty_stream_decoder : StreamDecoder PppdPtyDecoder PppPacket := push_bytes.

(** What a sequence of [encode_packet_for_pty] calls writes to the pty. *)
Fixpoint encode_stream (codec : HdlcCodec) (packets : list PppPacket) : bytes * HdlcCodec :=
  match packets with
  | [] => ([], codec)
  | p :: packets =>
      let '(frame, codec) := encode_packet_for_pty codec p in
      let '(rest, codec) := encode_stream codec packets in
      (frame ++ rest, codec)
  end.

Definition sendable (p : PppPacket) : Prop := is_bytes (data p) ∧ data p ≠ [].

Definition closed_frames (packets : list PppPacket) : bytes :=
  flat_map (λ p, frame_body (data p) ++ [0x7e]) packets.

(** ** [find_frame] under extension of the buffer *)

Lemma position_flag_shift k i l :
  position_flag (k + i) l = option_map (Z.add k) (position_flag i l).
Proof.
  revert i. induction l as [|b l IH]; intros i; simpl; [done|].
  case_match; [done|]. rewrite <- IH. f_equal. lia.
Qed.

Lemma skip_flags_shift k s l : skip_flags (k + s) l = k + skip_flags s l.
Proof.
  revert s. induction l as [|b l IH]; intros s; simpl; [done|].
  case_match; [|done]. rewrite <- IH. f_equal. lia.
Qed.

Lemma position_flag_extend i l b e :
  position_flag i l = Some e → position_flag i (l ++ b) = Some e.
Proof. revert i. induction l as [|x l IH]; intros i; simpl; [done|]. case_match; auto. Qed.

Lemma skip_flags_range s l : s <= skip_flags s l <= s + len l.
Proof.
  revert s. induction l as [|x l IH]; intros s; simpl; [len_lia|].
  rewrite len_cons. pose proof (len_nonneg l). case_match; [|lia]. specialize (IH (s + 1)). lia.
Qed.

Lemma skip_flags_extend s l b : skip_flags s l < s + len l → skip_flags s (l ++ b) = skip_flags s l.
Proof.
  revert s. induction l as [|x l IH]; intros s; simpl; [len_lia|].
  rewrite len_cons. case_match; [|done]. intros. apply IH. lia.
Qed.

Lemma drop_drop_Z {A} a b (l : list A) :
  0 <= a → 0 <= b → drop (Z.to_nat a) (drop (Z.to_nat b) l) = drop (Z.to_nat (b + a)) l.
Proof. intros. rewrite drop_drop. f_equal. lia. Qed.

Lemma drop_app_Z {A} n (p s : list A) :
  0 <= n → drop (Z.to_nat (len p + n)) (p ++ s) = drop (Z.to_nat n) s.
Proof.
  intros. rewrite <- (drop_drop_Z n (len p)) by (done || apply len_nonneg).
  f_equal. unfold len. by rewrite Nat2Z.id, drop_app_length.
Qed.

Lemma find_frame_shift pre l :
  find_frame (pre ++ l) (len pre) =
    match find_frame l 0 with Ok (n, s) => Ok (n, len pre + s) | r => r end.
Proof.
  rewrite <- (Z.add_0_r (len pre)) at 1. unfold find_frame.
  rewrite drop_app_Z, position_flag_shift by lia.
  destruct (position_flag 0 (drop _ l)) as [i|] eqn:Ei; cbn [option_map ok_or bind]; [|done].
  apply position_flag_ge in Ei.
  replace (len pre + i + 1) with (len pre + (i + 1)) by lia.
  rewrite drop_app_Z, skip_flags_shift by lia.
  set (s := skip_flags (i + 1) _).
  assert (i + 1 <= s) by apply skip_flags_range.
  rewrite drop_app_Z, position_flag_shift by lia.
  destruct (position_flag s _) as [e|]; cbn [option_map ok_or bind]; [|done].
  unfold usub. replace (len pre + s <=? len pre + e) with (s <=? e)
    by (destruct (Z.leb_spec s e), (Z.leb_spec (len pre + s) (len pre + e)); lia || done).
  case_match; cbn [bind]; [|done]. do 2 f_equal. lia.
Qed.

(** What an answer of [find_frame] says; it never answers anything else than a
    frame or [HdlcNoFrameFound]. *)
Lemma find_frame_ok_inv l n s :
  find_frame l 0 = Ok (n, s) →
  ∃ i, position_flag 0 l = Some i ∧ s = skip_flags (i + 1) (drop (Z.to_nat (i + 1)) l) ∧
    position_flag s (drop (Z.to_nat s) l) = Some (s + n) ∧ 0 <= i ∧ i + 1 <= s ∧
    0 <= n ∧ s + n < len l.
Proof.
  unfold find_frame. rewrite drop_0.
  destruct (position_flag 0 l) as [i|] eqn:Ei; cbn [ok_or bind]; [|done].
  apply position_flag_ge in Ei as Hi. set (s' := skip_flags _ _).
  assert (i + 1 <= s') by apply skip_flags_range.
  destruct (position_flag s' _) as [e|] eqn:Ee; cbn [ok_or bind]; [|done].
  apply position_flag_ge in Ee as He. unfold usub. zbool. intros [= <- <-].
  exists i. split_and!; try done; try lia.
  - rewrite Ee. f_equal. lia.
  - revert He. len_lia.
Qed.

Lemma find_frame_cases l : (∃ n s, find_frame l 0 = Ok (n, s)) ∨ find_frame l 0 = Err HdlcNoFrameFound.
Proof.
  unfold find_frame.
  destruct (position_flag 0 _) as [i|]; cbn [ok_or bind]; [|auto].
  destruct (position_flag (skip_flags _ _) _) as [e|] eqn:Ee; cbn [ok_or bind]; [|auto].
  apply position_flag_ge in Ee. unfold usub. zbool. eauto.
Qed.

Lemma find_frame_extend l b n s :
  find_frame l 0 = Ok (n, s) → find_frame (l ++ b) 0 = Ok (n, s).
Proof.
  intros (i & Hi & Hs & He & H0 & H1 & H2 & H3)%find_frame_ok_inv.
  unfold find_frame. rewrite drop_0, (position_flag_extend _ _ _ _ Hi). cbn [ok_or bind].
  rewrite drop_app_le by (unfold len in *; lia).
  rewrite skip_flags_extend, <- Hs by (rewrite <- Hs; len_lia).
  rewrite drop_app_le by (unfold len in *; lia).
  rewrite (position_flag_extend _ _ _ _ He). cbn [ok_or bind]. unfold usub. zbool.
  do 2 f_equal. lia.
Qed.

Lemma slice_app_l {A} (l b : list A) i j :
  0 <= i → i <= j → j <= len l → slice (l ++ b) i j = slice l i j.
Proof.
  intros. rewrite !slice_ok by len_lia. f_equal.
  rewrite drop_app_le by (unfold len in *; lia). rewrite take_app_le; [done|].
  rewrite length_drop. unfold len in *. lia.
Qed.

Lemma slice_shift {A} (pre l : list A) i j :
  0 <= i → i <= j → j <= len l → slice (pre ++ l) (len pre + i) (len pre + j) = slice l i j.
Proof.
  intros. pose proof (len_nonneg pre). rewrite !slice_ok by len_lia.
  rewrite drop_app_Z by lia. do 3 f_equal. lia.
Qed.

(** ** The decoding loop as a function of the remaining bytes *)

Definition shift_result (packets : list PppPacket) (k : usize)
    (r : result (list PppPacket * usize)) : result (list PppPacket * usize) :=
  let* '(ps, c) := r in Ok (packets ++ ps, k + c).

Lemma take_drop_len {A} (l : list A) n :
  0 <= n <= len l → ∃ p, l = p ++ drop (Z.to_nat n) l ∧ len p = n.
Proof.
  intros Hn. exists (take (Z.to_nat n) l). split; [by rewrite take_drop|]. len_lia.
Qed.

Lemma pty_loop_shift fuel pre l acc :
  pty_loop fuel (pre ++ l) (len pre) acc = shift_result acc (len pre) (pty_loop fuel l 0 []).
Proof.
  revert pre l acc. induction fuel as [|fuel IH]; intros pre l acc; [done|]. cbn [pty_loop].
  rewrite find_frame_shift.
  destruct (find_frame_cases l) as [(n & s & Hf)|Hf]; rewrite Hf; cbn [shift_result bind].
  - apply find_frame_ok_inv in Hf as (i & _ & _ & _ & H0 & H1 & H2 & H3).
    replace (len pre + s + n) with (len pre + (s + n)) by lia. rewrite slice_shift by lia.
    destruct (slice l s (s + n)) as [raw|e| |]; cbn [bind]; try done.
    destruct (Hdlc.decode raw) as [p|e| |]; cbn [bind]; try done.
    destruct (take_drop_len l (s + n)) as (q & Hl & Hq); [lia|].
    set (l' := drop (Z.to_nat (s + n)) l) in *. clearbody l'. subst l. rewrite <- Hq.
    rewrite app_assoc, <- len_app, IH. rewrite IH. unfold shift_result.
    destruct (pty_loop fuel l' 0 []) as [[ps c]| | |]; cbn [bind]; try done.
    rewrite <- app_assoc, len_app. do 2 f_equal. lia.
  - by rewrite app_nil_r, Z.add_0_r.
Qed.

Definition decode_all (l : bytes) : result (list PppPacket * usize) := pty_loop (pty_fuel l) l 0 [].

Lemma pty_loop_unfold fuel l :
  pty_loop (S fuel) l 0 [] =
    match find_frame l 0 with
    | Ok (n, s) =>
        let* raw := slice l s (s + n) in
        let* p := Hdlc.decode raw in
        shift_result [{| data := p |}] (s + n) (pty_loop fuel (drop (Z.to_nat (s + n)) l) 0 [])
    | Err HdlcNoFrameFound => Ok ([], 0)
    | Err e => Err e
    | Panic => Panic
    | Diverge => Diverge
    end.
Proof.
  cbn [pty_loop]. destruct (find_frame_cases l) as [(n & s & Hf)|Hf]; rewrite Hf; [|done].
  apply find_frame_ok_inv in Hf as (i & _ & _ & _ & H0 & H1 & H2 & H3).
  destruct (slice l s (s + n)) as [raw|e| |]; cbn [bind]; try done.
  destruct (Hdlc.decode raw) as [p|e| |]; cbn [bind]; try done.
  destruct (take_drop_len l (s + n)) as (q & Hl & Hq); [lia|].
  set (l' := drop (Z.to_nat (s + n)) l) in *. clearbody l'. subst l. rewrite <- Hq.
  apply pty_loop_shift.
Qed.

Lemma pty_loop_fuel f1 f2 l :
  (length l < f1)%nat → (length l < f2)%nat → pty_loop f1 l 0 [] = pty_loop f2 l 0 [].
Proof.
  revert f2 l. induction f1 as [|f1 IH]; intros [|f2] l H1 H2; try lia.
  rewrite !pty_loop_unfold. destruct (find_frame_cases l) as [(n & s & Hf)|Hf]; rewrite Hf; [|done].
  apply find_frame_ok_inv in Hf as (i & _ & _ & _ & ? & ? & ? & ?).
  destruct (slice l s (s + n)) as [raw|e| |]; cbn [bind]; try done.
  destruct (Hdlc.decode raw) as [p|e| |]; cbn [bind]; try done.
  f_equal. apply IH; rewrite length_drop; unfold len in *; lia.
Qed.

(** The recursion the loop performs, without fuel. *)
Lemma decode_all_eq l :
  decode_all l =
    match find_frame l 0 with
    | Ok (n, s) =>
        let* raw := slice l s (s + n) in
        let* p := Hdlc.decode raw in
        shift_result [{| data := p |}] (s + n) (decode_all (drop (Z.to_nat (s + n)) l))
    | _ => Ok ([], 0)
    end.
Proof.
  unfold decode_all at 1, pty_fuel. rewrite pty_loop_unfold.
  destruct (find_frame_cases l) as [(n & s & Hf)|Hf]; rewrite Hf; [|done].
  apply find_frame_ok_inv in Hf as (i & _ & _ & _ & ? & ? & ? & ?).
  destruct (slice l s (s + n)) as [raw|e| |]; cbn [bind]; try done.
  destruct (Hdlc.decode raw) as [p|e| |]; cbn [bind]; try done.
  f_equal. apply pty_loop_fuel; unfold pty_fuel; rewrite length_drop; unfold len in *; lia.
Qed.

(** Induction over the frames of a buffer. *)
Lemma frames_ind (P : bytes → Prop) :
  (∀ l, find_frame l 0 = Err HdlcNoFrameFound → P l) →
  (∀ l n s, find_frame l 0 = Ok (n, s) → P (drop (Z.to_nat (s + n)) l) → P l) →
  ∀ l, P l.
Proof.
  intros Hnone Hsome l. remember (length l) as k eqn:Hk.
  revert l Hk. induction (lt_wf k) as [k _ IH]. intros l ->.
  destruct (find_frame_cases l) as [(n & s & Hf)|Hf]; [|auto].
  apply (Hsome _ _ _ Hf). apply find_frame_ok_inv in Hf as (i & _ & _ & _ & ? & ? & ? & ?).
  eapply IH; [|done]. rewrite length_drop. unfold len in *. lia.
Qed.

Lemma shift_result_ok_inv ps k r qs c :
  shift_result ps k r = Ok (qs, c) → ∃ rs d, r = Ok (rs, d) ∧ qs = ps ++ rs ∧ c = k + d.
Proof. destruct r as [[rs d]| | |]; simpl; try done. intros [= <- <-]. eauto. Qed.

Lemma decode_all_consumed l ps c : decode_all l = Ok (ps, c) → 0 <= c <= len l.
Proof.
  revert ps c. induction l as [l Hf|l n s Hf IH] using frames_ind; intros ps c; rewrite decode_all_eq, Hf.
  - intros [= <- <-]. len_lia.
  - apply find_frame_ok_inv in Hf as (i & _ & _ & _ & ? & ? & ? & ?).
    intros (raw & _ & (p & _ & (rs & d & Hd & _ & ->)%shift_result_ok_inv)%bind_ok_inv)%bind_ok_inv.
    apply IH in Hd. revert Hd. len_lia.
Qed.

Lemma decode_all_app a b ps c :
  decode_all (a ++ b) = Ok (ps, c) →
  ∃ p1 c1 p2 c2, decode_all a = Ok (p1, c1) ∧
    decode_all (drop (Z.to_nat c1) a ++ b) = Ok (p2, c2) ∧ ps = p1 ++ p2 ∧ c = c1 + c2.
Proof.
  revert ps c. induction a as [a Hf|a n s Hf IH] using frames_ind; intros ps c.
  - intros H. exists [], 0, ps, c. rewrite (decode_all_eq a), Hf, drop_0. auto.
  - rewrite (decode_all_eq (a ++ b)), (find_frame_extend _ _ _ _ Hf), (decode_all_eq a), Hf.
    apply find_frame_ok_inv in Hf as (i & _ & _ & _ & ? & ? & ? & ?).
    rewrite slice_app_l, drop_app_le by (unfold len in *; lia).
    destruct (slice a s (s + n)) as [raw|e| |]; cbn [bind]; try done.
    destruct (Hdlc.decode raw) as [p|e| |]; cbn [bind]; try done.
    intros (rs & d & (p1 & c1 & p2 & c2 & H4 & H5 & -> & ->)%IH & -> & ->)%shift_result_ok_inv.
    apply decode_all_consumed in H4 as Hc1. rewrite H4. cbn [shift_result bind].
    rewrite drop_drop_Z in H5 by lia.
    eexists _, _, p2, c2. split; [done|]. split; [done|]. split; [by rewrite app_assoc|lia].
Qed.

Lemma push_bytes_ok self bs ps self' :
  push_bytes self bs = (Ok ps, self') ↔
  len (buffer self) + len bs <= MAX_PTY_BUFFER ∧
  ∃ c, decode_all (buffer self ++ bs) = Ok (ps, c) ∧
    self' = {| buffer := drop (Z.to_nat c) (buffer self ++ bs) |}.
Proof.
  unfold push_bytes. rewrite Z.gtb_ltb.
  destruct (Z.ltb_spec MAX_PTY_BUFFER (len (buffer self) + len bs)).
  { split; [done|]. intros [? _]. lia. }
  cbn zeta. fold (decode_all (buffer self ++ bs)).
  unfold lift. destruct (decode_all (buffer self ++ bs)) as [[qs c]|e| |] eqn:E; cbn [sbind].
  - assert ((if c >? 0 then drop (Z.to_nat c) (buffer self ++ bs) else buffer self ++ bs)
      = drop (Z.to_nat c) (buffer self ++ bs)) as ->.
    { apply decode_all_consumed in E. rewrite Z.gtb_ltb. destruct (Z.ltb_spec 0 c); [done|].
      by replace c with 0 by lia. }
    split; [intros [= <- <-]; eauto|]. by intros (_ & ? & [= -> ->] & ->).
  - split; [done|]. by intros (_ & ? & ? & _).
  - split; [done|]. by intros (_ & ? & ? & _).
  - split; [done|]. by intros (_ & ? & ? & _).
Qed.

#[export] Instance pty_lawful_decoder : LawfulDecoder PppdPtyDecoder PppPacket.
Proof.
  intros d a b ps d' (Hlen & c & Hd & ->)%push_bytes_ok.
  rewrite app_assoc in Hd.
  destruct (decode_all_app _ _ _ _ Hd) as (p1 & c1 & p2 & c2 & H1 & H2 & -> & ->).
  apply decode_all_consumed in H1 as Hc1. apply decode_all_consumed in H2 as Hc2.
  exists p1, {| buffer := drop (Z.to_nat c1) (buffer d ++ a) |}, p2. split_and!; [| |done].
  - apply push_bytes_ok. split; [revert Hlen; len_lia|]. eauto.
  - apply push_bytes_ok. cbn [buffer]. split; [revert Hlen; len_lia|]. exists c2. split; [done|].
    f_equal. rewrite app_assoc. rewrite <- (drop_drop_Z c2 c1) by lia.
    f_equal. rewrite drop_app_le; [done|]. unfold len in *. rewrite length_app in *. lia.
Qed.

(** ** Streams of whole frames *)

Lemma encode_stream_continued packets codec :
  need_flag_sequence codec = false → fst (encode_stream codec packets) = closed_frames packets.
Proof.
  revert codec. induction packets as [|p packets IH]; intros codec Hc; [done|].
  cbn [encode_stream]. unfold encode_packet_for_pty.
  pose proof (encode_frame_body codec (data p)) as He. rewrite Hc in He.
  pose proof (encode_state codec (data p)) as Hs.
  destruct (Hdlc.encode codec (data p)) as [frame codec']. cbn [fst snd] in *.
  specialize (IH codec' Hs). destruct (encode_stream codec' packets) as [rest c].
  cbn [fst closed_frames flat_map] in *. subst. done.
Qed.

Lemma encode_stream_fresh p packets :
  fst (encode_stream Hdlc.new (p :: packets)) = 0x7e :: closed_frames (p :: packets).
Proof.
  cbn [encode_stream]. unfold encode_packet_for_pty.
  pose proof (encode_frame_body Hdlc.new (data p)) as He.
  pose proof (encode_state Hdlc.new (data p)) as Hs.
  destruct (Hdlc.encode Hdlc.new (data p)) as [frame codec']. cbn [fst snd] in *.
  pose proof (encode_stream_continued packets codec' Hs) as IH.
  destruct (encode_stream codec' packets) as [rest c]. cbn [fst closed_frames flat_map] in *.
  subst. done.
Qed.

(** One whole frame after a flag is consumed up to its closing flag. *)
Lemma decode_all_frame p post :
  sendable p →
  decode_all (0x7e :: frame_body (data p) ++ 0x7e :: post) =
    shift_result [p] (1 + len (frame_body (data p))) (decode_all (0x7e :: post)).
Proof.
  intros [Hb Hne]. rewrite decode_all_eq.
  pose proof (find_frame_spec [] [] 0 (frame_body (data p)) post (Forall_nil_2 _)
    (frame_body_no_flag _ Hb) (frame_body_ne _)) as Hf.
  rewrite len_nil, !app_nil_l in Hf. cbn [replicate app] in Hf. rewrite Hf.
  replace (0 + 0 + 1 + Z.of_nat 0) with 1 by lia.
  rewrite (slice_app_middle_n [0x7e] (frame_body (data p)) (0x7e :: post)) by done.
  cbn [bind]. rewrite decode_frame_body by done. cbn [bind]. destruct p as [d]. cbn [data].
  f_equal. f_equal.
  rewrite (app_comm_cons (frame_body d) (0x7e :: post) 0x7e).
  apply drop_len_app. len_lia.
Qed.

Lemma decode_all_flag_only body :
  no_flag body → decode_all (0x7e :: body) = Ok ([], 0).
Proof.
  intros Hb. rewrite decode_all_eq.
  destruct (find_frame_cases (0x7e :: body)) as [(n & s & Hf)| ->]; [|done].
  exfalso. apply find_frame_ok_inv in Hf as (i & Hi & -> & He & _).
  cbn [position_flag] in Hi. injection Hi as <-.
  change (Z.to_nat (0 + 1)) with 1%nat in *. cbn [drop] in He.
  destruct body as [|b body]; [done|]. inversion Hb as [|? ? Hx Hb']; subst.
  rewrite drop_0, skip_flags_no_flag in He by done. change (Z.to_nat (0 + 1)) with 1%nat in He.
  cbn [drop] in He. by rewrite position_flag_none in He.
Qed.

(** The decoder after any prefix of a stream of frames: it has handed back the
    complete packets and keeps one flag and at most one unfinished frame. *)
Lemma decode_all_prefix packets a b bound :
  Forall sendable packets → 0 <= bound →
  Forall (λ p, len (frame_body (data p)) <= bound) packets →
  a ++ b = 0x7e :: closed_frames packets →
  ∃ p1 p2 c, decode_all a = Ok (p1, c) ∧ packets = p1 ++ p2 ∧ len a - c <= 1 + bound ∧
    (b = [] → p2 = [] ∧ c = len a - 1).
Proof.
  intros Hs H0 Hbound. revert a. induction packets as [|p packets IH]; intros a Hab.
  - destruct a as [|x a]; simpl in Hab.
    + exists [], [], 0. subst b. rewrite decode_all_eq. simpl_len. split_and!; try done; lia.
    + injection Hab as -> Hab. apply app_eq_nil in Hab as [-> ->].
      exists [], [], 0. split; [done|]. split; [done|]. split; [len_lia|]. intros _. split; [done|len_lia].
  - inversion Hs as [|? ? Hp Hs']; inversion Hbound as [|? ? Hl Hb']; subst.
    destruct a as [|x a].
    { exists [], (p :: packets), 0. split; [done|]. split; [done|]. split; [len_lia|].
      intros ->. done. }
    assert (x = 0x7e ∧ a ++ b = frame_body (data p) ++ 0x7e :: closed_frames packets) as [-> Hab'].
    { cbn [closed_frames flat_map] in Hab. fold (closed_frames packets) in Hab.
      rewrite <- app_assoc in Hab. revert Hab. generalize (frame_body (data p)).
      intros f Hab. by injection Hab. }
    clear Hab. apply app_eq_inv in Hab' as [(k & -> & Hrest)|(k & Hk & Hrest)].
    + destruct k as [|y k].
      { rewrite app_nil_r in *. exists [], (p :: packets), 0. split.
        { apply decode_all_flag_only, frame_body_no_flag, Hp. }
        split; [done|]. split; [len_lia|]. intros ->. done. }
      injection Hrest as <- Hrest.
      destruct (IH Hs' Hb' (0x7e :: k)) as (p1 & p2 & c & Hd & -> & Hc & Hb).
      { simpl. by rewrite <- Hrest. }
      exists (p :: p1), p2, (1 + len (frame_body (data p)) + c).
      rewrite decode_all_frame, Hd by done. split; [done|]. split; [done|].
      split; [revert Hc; len_lia|]. intros [-> ->]%Hb. split; [done|len_lia].
    + exists [], (p :: packets), 0. split.
      { apply decode_all_flag_only. destruct Hp as [Hpb _].
        pose proof (frame_body_no_flag _ Hpb) as Hnf. rewrite Hk in Hnf.
        by apply Forall_app in Hnf as [? _]. }
      split; [done|]. rewrite Hk in Hl. split; [revert Hl; len_lia|].
      intros ->. symmetry in Hrest. apply app_eq_nil in Hrest as [_ ?]. done.
Qed.

Lemma index_header l rest :
  len l = HEADER_LEN → be16_at l 0 = be16_at (l ++ rest) 0.
Proof. unfold be16_at, HEADER_LEN. intros. by rewrite !index_app_l by lia. Qed.

Lemma tls_frame_split payload :
  ∃ header, tls_frame payload = header ++ payload ∧ len header = HEADER_LEN ∧
    header ≠ HTTP_HEADER_PREFIX.
Proof.
  exists (u16_to_be (HEADER_LEN + len payload) ++ u16_to_be FORTINET_MAGIC ++ u16_to_be (len payload)).
  split; [unfold tls_frame; by rewrite <- !app_assoc|]. split; [done|].
  unfold u16_to_be. cbn [app]. intros H.
  apply (f_equal (λ l, nth 2 l 0)) in H. vm_compute in H. done.
Qed.

(** ** Properties *)

(** A packet written to a blocking TLS stream is read back whole, however
    the transport cuts the bytes, and the reader stops exactly after its
    frame. *)
Theorem write_then_read_tls_packet p w w' :
  data p ≠ [] → write_tls_packet p w = (Ok tt, w') →
  ∃ frame, written w' = written w ++ frame ∧
    ∀ cs rest, nonempty_chunks cs → concat cs = frame ++ rest →
      ∃ cs', read_tls_packet (chunked cs) = (Ok p, chunked cs') ∧ concat cs' = rest.
Proof.
  intros Hne. unfold write_tls_packet, lift. rewrite encode_for_tls_eq.
  destruct (Z.ltb_spec 65529 (len (data p))) as [|Hl]; [done|]. cbn [sbind].
  intros ([] & w1 & Hw & ([] & w2 & Hf & [= <-])%sbind_ok_inv)%sbind_ok_inv.
  exists (tls_frame (data p)). apply write_all_ok in Hw.
  pose proof (flush_written w1) as Hw2. rewrite Hf in Hw2. cbn [snd] in Hw2.
  split; [congruence|]. intros cs rest Hcs Hcat.
  destruct (tls_frame_split (data p)) as (header & Hsplit & Hh & Hhttp).
  rewrite Hsplit, <- app_assoc in Hcat.
  destruct (read_exact_chunked _ _ _ Hcs Hcat) as (cs1 & Hr1 & Hcat1 & Hcs1).
  destruct (read_exact_chunked _ _ _ Hcs1 Hcat1) as (cs2 & Hr2 & Hcat2 & _).
  exists cs2. split; [|done]. unfold read_tls_packet. rewrite <- Hh, Hr1. cbn [sbind].
  rewrite decide_False by done. unfold lift. rewrite (index_header header (data p)) by done.
  rewrite <- Hsplit. destruct (tls_frame_header (data p) [] Hl) as (Ht & _ & _).
  rewrite app_nil_r in Ht. rewrite Ht. cbn [sbind].
  apply len_pos in Hne as Hpos. rewrite Hh. unfold HEADER_LEN. zbool.
  replace (6 + len (data p) - 6) with (len (data p)) by lia. rewrite Hr2. cbn [sbind].
  rewrite <- Hsplit, decode_tls_frame by done. by destruct p.
Qed.

Lemma write_then_read_tls_packet_witness :
  ∃ w', write_tls_packet {| data := [1; 2] |} {| written := []; w_script := [WAccept 3; WError Interrupted] |}
          = (Ok tt, w') ∧
    ∃ frame, written w' = [] ++ frame ∧
      ∀ cs rest, nonempty_chunks cs → concat cs = frame ++ rest →
        ∃ cs', read_tls_packet (chunked cs) = (Ok {| data := [1; 2] |}, chunked cs') ∧ concat cs' = rest.
Proof.
  eexists. split; [vm_compute; reflexivity|].
  apply (write_then_read_tls_packet {| data := [1; 2] |}
    {| written := []; w_script := [WAccept 3; WError Interrupted] |}); [discriminate|reflexivity].
Defined.

(** The two ways a tunnel stream goes wrong are told apart: an HTTP answer
    in place of a frame is [PermissionDenied], and a stream that ends inside a
    frame is an unexpected end of file. *)
Theorem read_tls_packet_errors payload cs :
  nonempty_chunks cs → len payload <= 65529 → payload ≠ [] →
  (∀ rest, concat cs = HTTP_HEADER_PREFIX ++ rest →
    fst (read_tls_packet (chunked cs)) = Err PermissionDenied) ∧
  (∀ rest, rest ≠ [] → tls_frame payload = concat cs ++ rest →
    fst (read_tls_packet (chunked cs)) = Err (Io UnexpectedEof "failed to fill whole buffer")).
Proof.
  intros Hcs Hl Hne. split; intros rest.
  - intros Hcat. destruct (read_exact_chunked _ _ _ Hcs Hcat) as (cs1 & Hr & _).
    unfold read_tls_packet. change HEADER_LEN with (len HTTP_HEADER_PREFIX). by rewrite Hr.
  - intros Hrest Hcat. destruct (tls_frame_split payload) as (header & Hsplit & Hh & Hhttp).
    unfold read_tls_packet. destruct (Z.lt_ge_cases (len (concat cs)) HEADER_LEN) as [Hshort|Hlong].
    { pose proof (read_exact_short HEADER_LEN cs Hcs Hshort) as Hr.
      destruct (read_exact _ _) as [o r]. cbn [fst] in Hr. by subst o. }
    assert (∃ k, concat cs = header ++ k ∧ payload = k ++ rest) as (k & Hk & Hp).
    { rewrite Hsplit in Hcat. apply app_eq_inv in Hcat as [(k & -> & ->)|(k & Hk & Hp)]; [|eauto].
      exists []. assert (k = []) as -> by (apply len_zero; revert Hlong Hh; len_lia).
      by rewrite !app_nil_r. }
    destruct (read_exact_chunked _ _ _ Hcs Hk) as (cs1 & Hr1 & Hcat1 & Hcs1).
    rewrite <- Hh, Hr1. cbn [sbind]. rewrite decide_False by done. unfold lift.
    rewrite (index_header header payload), <- Hsplit by done.
    destruct (tls_frame_header payload [] Hl) as (Ht & _ & _). rewrite app_nil_r in Ht.
    rewrite Ht. cbn [sbind]. apply len_pos in Hne, Hrest. rewrite Hh. unfold HEADER_LEN. zbool.
    pose proof (read_exact_short (6 + len payload - 6) cs1 Hcs1) as Hs.
    assert (len payload = len k + len rest) as Hlen by (rewrite Hp; len_lia).
    specialize (Hs ltac:(rewrite Hcat1; lia)).
    revert Hs. destruct (read_exact _ (chunked cs1)) as [o r]; intros Hs. cbn [fst] in Hs. by subst o.
Qed.

Lemma read_tls_packet_errors_witness :
  fst (read_tls_packet (chunked [[72; 84; 84]; [80; 47; 49; 46]])) = Err PermissionDenied ∧
  fst (read_tls_packet (chunked [[0; 9; 0x50; 0x50]; [0; 3; 1; 2]]))
    = Err (Io UnexpectedEof "failed to fill whole buffer").
Proof.
  split.
  - apply (proj1 (read_tls_packet_errors [1; 2; 3] [[72; 84; 84]; [80; 47; 49; 46]]
      ltac:(repeat constructor; discriminate) ltac:(vm_compute; discriminate)
      ltac:(discriminate)) [46]). reflexivity.
  - apply (proj2 (read_tls_packet_errors [1; 2; 3] [[0; 9; 0x50; 0x50]; [0; 3; 1; 2]]
      ltac:(repeat constructor; discriminate) ltac:(vm_compute; discriminate)
      ltac:(discriminate)) [3]); [discriminate|reflexivity].
Defined.

Lemma frame_body_len p : len (frame_body p) <= 2 * len p + 7.
Proof.
  unfold frame_body. pose proof (escapes_len (p ++ fcs_trailer p)) as He.
  pose proof (fcs_trailer_len p). rewrite len_app in He. revert He. len_lia.
Qed.

Lemma closed_frames_last packets :
  drop (Z.to_nat (len (0x7e :: closed_frames packets) - 1)) (0x7e :: closed_frames packets) = [0x7e].
Proof.
  induction packets as [|p packets IH] using rev_ind; [done|].
  unfold closed_frames. rewrite flat_map_app. cbn [flat_map]. rewrite app_nil_r, app_assoc.
  rewrite app_comm_cons. apply drop_len_app. len_lia.
Qed.

(** The decoder between two pieces of a stream of frames. *)
Lemma push_all_prefix packets pieces self a ps :
  Forall sendable packets → Forall (λ p, len (data p) <= 30716) packets →
  Forall (λ piece, len piece <= 4096) pieces →
  a ++ concat pieces = 0x7e :: closed_frames packets →
  (∃ c, decode_all a = Ok (ps, c) ∧ self = {| buffer := drop (Z.to_nat c) a |}) →
  ∃ qs, push_all self pieces = (Ok qs, {| buffer := [0x7e] |}) ∧ packets = ps ++ qs.
Proof.
  intros Hs Hl Hp. revert self a ps. assert (Forall (λ p, len (frame_body (data p)) <= 61439) packets) as Hb.
  { eapply Forall_impl; [exact Hl|]. intros p Hlp. pose proof (frame_body_len (data p)). cbn in *. lia. }
  induction Hp as [|piece pieces Hpiece Hp IH]; intros self a ps Hcat (c & Hd & ->).
  - destruct (decode_all_prefix packets a [] 61439 Hs ltac:(lia) Hb) as (p1 & p2 & c' & Hd' & -> & _ & Hend).
    { by simpl in Hcat. }
    rewrite Hd in Hd'. injection Hd' as -> ->. destruct (Hend eq_refl) as [-> ->].
    exists []. rewrite app_nil_r. split; [|done]. cbn [push_all]. do 2 f_equal.
    simpl in Hcat. rewrite app_nil_r in Hcat. subst a. by rewrite closed_frames_last.
  - cbn [push_all concat] in *. rewrite app_assoc in Hcat.
    destruct (decode_all_prefix packets a (piece ++ concat pieces) 61439 Hs ltac:(lia) Hb)
      as (p1 & p2 & c' & Hd' & -> & Hbuf & _).
    { by rewrite app_assoc. }
    rewrite Hd in Hd'. injection Hd' as -> ->.
    destruct (decode_all_prefix (p1 ++ p2) (a ++ piece) (concat pieces) 61439 Hs ltac:(lia) Hb Hcat)
      as (q1 & q2 & c2 & Hd2 & Hq & _).
    destruct (decode_all_app _ _ _ _ Hd2) as (r1 & e1 & r2 & e2 & H1 & H2 & -> & ->).
    rewrite Hd in H1. injection H1 as <- <-. apply decode_all_consumed in Hd as Hc, H2 as He.
    destruct (IH {| buffer := drop (Z.to_nat (c' + e2)) (a ++ piece) |} (a ++ piece) (p1 ++ r2) Hcat)
      as (qs & Hqs & Hall); [by eauto|].
    exists (r2 ++ qs). split; [|by rewrite Hall, app_assoc].
    assert (push_bytes {| buffer := drop (Z.to_nat c') a |} piece
      = (Ok r2, {| buffer := drop (Z.to_nat (c' + e2)) (a ++ piece) |})) as Hpush.
    { apply push_bytes_ok. cbn [buffer]. split; [unfold MAX_PTY_BUFFER; revert Hbuf; len_lia|].
      exists e2. split; [done|]. f_equal. rewrite <- drop_drop_Z by lia. f_equal.
      rewrite drop_app_le; [done|]. unfold len in Hc. lia. }
    unfold push, pty_stream_decoder. rewrite Hpush. cbn [sbind].
    unfold push, pty_stream_decoder in Hqs. by rewrite Hqs.
Qed.

(** Every way of cutting the stream of the codec decodes to its packets. *)
Lemma pty_stream_decodes packets pieces :
  packets ≠ [] → Forall sendable packets → Forall (λ p, len (data p) <= 30716) packets →
  Forall (λ piece, len piece <= 4096) pieces →
  concat pieces = fst (encode_stream Hdlc.new packets) →
  push_all new pieces = (Ok packets, {| buffer := [0x7e] |}).
Proof.
  intros Hne Hs Hl Hp Hcat. destruct packets as [|p packets]; [done|].
  rewrite encode_stream_fresh in Hcat.
  destruct (push_all_prefix (p :: packets) pieces new [] [] Hs Hl Hp) as (qs & Hq & ->);
    [by rewrite Hcat| |done].
  exists 0. split; [|done]. by rewrite decode_all_eq.
Qed.

(** C15: the pty decoder is transparent.  Whatever number of packets the codec
    writes, and however the pty cuts those bytes into reads of at most 4096,
    the decoder hands back exactly those packets, in order, never reports an
    overflow, and keeps only the closing flag.  The bound on a packet is what
    the 64 KiB buffer allows when every byte is escaped. *)
Theorem pty_stream_transparent packets pieces :
  packets ≠ [] → Forall sendable packets → Forall (λ p, len (data p) <= 30716) packets →
  Forall (λ piece, len piece <= 4096) pieces →
  concat pieces = fst (encode_stream Hdlc.new packets) →
  push_all new pieces = (Ok packets, {| buffer := [0x7e] |}).
Proof. apply pty_stream_decodes. Qed.

Lemma pty_stream_transparent_witness :
  push_all new (map (λ b, [b]) (fst (encode_stream Hdlc.new
    [{| data := [0xc0; 0x21; 1; 1; 0x7e] |}; {| data := [0x7d] |}])))
    = (Ok [{| data := [0xc0; 0x21; 1; 1; 0x7e] |}; {| data := [0x7d] |}], {| buffer := [0x7e] |}).
Proof.
  apply pty_stream_transparent.
  - discriminate.
  - repeat constructor; unfold is_u8; simpl; try lia; discriminate.
  - repeat constructor; vm_compute; discriminate.
  - apply Forall_map, Forall_forall. intros b _. vm_compute. discriminate.
  - vm_compute. reflexivity.
Defined.

Lemma decode_all_returns l : returns (decode_all l).
Proof.
  induction l as [l Hf|l n s Hf IH] using frames_ind; rewrite decode_all_eq, Hf; [done|].
  apply find_frame_ok_inv in Hf as (i & _ & _ & _ & ? & ? & ? & ?).
  apply returns_bind; [apply returns_slice; lia|]. intros raw _.
  apply returns_bind; [apply decode_returns|]. intros p _.
  unfold shift_result. apply returns_bind; [done|]. by intros [].
Qed.

(** Whatever bytes arrive, [push_bytes] answers packets or an error (its
    loop ends, no slice is out of range), and the buffer it keeps never
    exceeds 64 KiB, in particular after an error. *)
Theorem push_bytes_bounded self bs :
  len (buffer self) <= MAX_PTY_BUFFER →
  returns (fst (push_bytes self bs)) ∧ len (buffer (snd (push_bytes self bs))) <= MAX_PTY_BUFFER.
Proof.
  intros Hl. unfold push_bytes. rewrite Z.gtb_ltb.
  destruct (Z.ltb_spec MAX_PTY_BUFFER (len (buffer self) + len bs)) as [|Hle]; [done|].
  cbn zeta. fold (decode_all (buffer self ++ bs)).
  pose proof (decode_all_returns (buffer self ++ bs)) as Hr. rewrite <- len_app in Hle.
  unfold lift. destruct (decode_all _) as [[ps c]|e| |]; cbn [sbind fst snd buffer]; try done.
  split; [done|]. case_match; [|done]. rewrite len_drop. pose proof (len_nonneg (buffer self ++ bs)).
  lia.
Qed.

Lemma push_bytes_bounded_witness :
  fst (push_bytes {| buffer := [0x7e; 1; 2] |} [3; 0x7e]) = Err HdlcInvalidFrame ∧
  len (buffer (snd (push_bytes {| buffer := [0x7e; 1; 2] |} [3; 0x7e]))) <= MAX_PTY_BUFFER.
Proof.
  split; [vm_compute; reflexivity|].
  apply (push_bytes_bounded {| buffer := [0x7e; 1; 2] |} [3; 0x7e]). vm_compute. discriminate.
Defined.
