(* ===== verification/Forward.v ===== *)
(** * [tunnel/forward.rs]: the forwarding loop between pppd and the TLS tunnel

    The write queue, the incremental decoder of the TLS stream, the two
    directions of the pump and the poll loop.  Poll answers and stop requests
    are the script of the loop, one [tick] per turn; the two streams are
    scripts of [Stream], so a state of the loop is everything it can observe. *)

From S2P Require Import Prelude Stream Packet Hdlc Io.

Definition IO_BUFFER_SIZE : usize := 4096.

Record ForwardStats := {
  pty_to_tls_packets : u64;
  tls_to_pty_packets : u64;
  last_ipcp_ipv4 : option Ipv4Addr;
}.

Definition default_stats : ForwardStats :=
  {| pty_to_tls_packets := 0; tls_to_pty_packets := 0; last_ipcp_ipv4 := None |}.

(** ** The write queue *)

Record WriteQueue := { chunks : list bytes; offset : usize }.

Definition new_queue : WriteQueue := {| chunks := []; offset := 0 |}.

Definition push_chunk (self : WriteQueue) (bs : bytes) : WriteQueue :=
  if decide (bs = []) then self
  else {| chunks := chunks self ++ [bs]; offset := offset self |}.

Definition is_empty (self : WriteQueue) : bool :=
  match chunks self with [] => true | _ => false end.

(** [while let Some(front) = self.chunks.front()]; a turn writes at least one
    byte or leaves, so the queued bytes bound the turns. *)
Fixpoint write_available_loop (fuel : nat) (self : WriteQueue) (w : writer)
    : result unit * (WriteQueue * writer) :=
  match chunks self with
  | [] => (Ok tt, (self, w))
  | front :: rest =>
      match fuel with
      | O => (Diverge, (self, w))
      | S fuel =>
          match slice_from front (offset self) with
          | Ok buf =>
              match write buf w with
              | (Ok n, w) =>
                  if n =? 0 then
                    (Err (Pppd "writer returned zero while queue had pending data"), (self, w))
                  else
                    let offset := offset self + n in
                    write_available_loop fuel
                      (if offset =? len front then {| chunks := rest; offset := 0 |}
                       else {| chunks := chunks self; offset := offset |}) w
              | (Err (Io WouldBlock _), w) => (Ok tt, (self, w))
              | (Err e, w) => (Err e, (self, w))
              | (Panic, w) => (Panic, (self, w))
              | (Diverge, w) => (Diverge, (self, w))
              end
          | Err e => (Err e, (self, w))
          | Panic => (Panic, (self, w))
          | Diverge => (Diverge, (self, w))
          end
      end
  end.

Definition queue_fuel (self : WriteQueue) : nat := S (length (concat (chunks self))).

Definition write_available (self : WriteQueue) (w : writer) : result unit * (WriteQueue * writer) :=
  write_available_loop (queue_fuel self) self w.

(** ** The decoder of the TLS stream *)

Record TlsPacketStreamDecoder := { tls_buffer : bytes }.

Definition new_tls_decoder : TlsPacketStreamDecoder := {| tls_buffer := [] |}.

(** The header test of one turn: the total length when the header is there
    and valid, [None] when it is not complete yet. *)
Definition frame_total (buffer : bytes) : result (option usize) :=
  if len buffer <? HEADER_LEN then Ok None else
  let* prefix := slice buffer 0 HEADER_LEN in
  if decide (prefix = HTTP_HEADER_PREFIX) then Err PermissionDenied else
  let* total := be16_at buffer 0 in
  let* magic := be16_at buffer 2 in
  let* size := be16_at buffer 4 in
  if negb (magic =? FORTINET_MAGIC) || (total <? HEADER_LEN + 1) then Err HdlcInvalidFrame else
  let* rest := usub total HEADER_LEN in
  if negb (rest =? size) then Err HdlcInvalidFrame else
  Ok (Some total).

Fixpoint tls_loop (fuel : nat) (buffer : bytes) (packets : list PppPacket)
    : result (list PppPacket) * bytes :=
  match fuel with
  | O => (Diverge, buffer)
  | S fuel =>
      let! total & buffer := lift (frame_total buffer) buffer in
      match total with
      | None => (Ok packets, buffer)
      | Some total =>
          if len buffer <? total then (Ok packets, buffer) else
          let! packet & buffer :=
            lift (let* frame := slice buffer 0 total in decode_from_tls_frame frame) buffer in
          tls_loop fuel (drop (Z.to_nat total) buffer) (packets ++ [packet])
      end
  end.

Definition tls_fuel (buffer : bytes) : nat := S (length buffer).

Definition tls_push_bytes (self : TlsPacketStreamDecoder) (bs : bytes)
    : result (list PppPacket) * TlsPacketStreamDecoder :=
  let buffer := tls_buffer self ++ bs in
  let '(r, buffer) := tls_loop (tls_fuel buffer) buffer [] in
  (r, {| tls_buffer := buffer |}).

#[export] Instance tls_stream_decoder : StreamDecoder TlsPacketStreamDecoder PppPacket :=
  tls_push_bytes.

(** ** The two directions *)

(** The body of [for packet in decoder.push_bytes(..)?], pppd to TLS. *)
Fixpoint queue_for_tls (packets : list PppPacket) (tls_out : WriteQueue) (stats : ForwardStats)
    : result unit * (WriteQueue * ForwardStats) :=
  match packets with
  | [] => (Ok tt, (tls_out, stats))
  | packet :: packets =>
      let! frame & '(tls_out, stats) := lift (encode_for_tls packet) (tls_out, stats) in
      let tls_out := push_chunk tls_out frame in
      let! count & '(tls_out, stats) := lift (u64_add (pty_to_tls_packets stats) 1) (tls_out, stats) in
      queue_for_tls packets tls_out
        {| pty_to_tls_packets := count; tls_to_pty_packets := tls_to_pty_packets stats;
           last_ipcp_ipv4 := last_ipcp_ipv4 stats |}
  end.

Record pty_side := {
  pty_r : reader; pty_decoder : PppdPtyDecoder; tls_out : WriteQueue; p_stats : ForwardStats;
}.

Fixpoint read_pty_loop (fuel : nat) (s : pty_side) : result unit * pty_side :=
  match fuel with
  | O => (Diverge, s)
  | S fuel =>
      match read IO_BUFFER_SIZE (pty_r s) with
      | (Ok [], r) => (Err (Pppd "pppd pty closed"),
          {| pty_r := r; pty_decoder := pty_decoder s; tls_out := tls_out s; p_stats := p_stats s |})
      | (Ok buf, r) =>
          let '(ps, decoder) := Io.push_bytes (pty_decoder s) buf in
          let s := {| pty_r := r; pty_decoder := decoder; tls_out := tls_out s; p_stats := p_stats s |} in
          let! ps & s := lift ps s in
          let '(done, (out, stats)) := queue_for_tls ps (tls_out s) (p_stats s) in
          let s := {| pty_r := r; pty_decoder := decoder; tls_out := out; p_stats := stats |} in
          let! _ & s := (done, s) in
          read_pty_loop fuel s
      | (Err (Io WouldBlock _), r) => (Ok tt,
          {| pty_r := r; pty_decoder := pty_decoder s; tls_out := tls_out s; p_stats := p_stats s |})
      | (Err e, r) => (Err e,
          {| pty_r := r; pty_decoder := pty_decoder s; tls_out := tls_out s; p_stats := p_stats s |})
      | (Panic, r) => (Panic, s)
      | (Diverge, r) => (Diverge, s)
      end
  end.

Definition read_pty_into_tls_queue (s : pty_side) : result unit * pty_side :=
  read_pty_loop (reader_fuel (pty_r s)) s.

(** The body of the other [for] loop, TLS to pppd.  [calls] is the trace of
    the calls of [on_ipcp_ipv4]. *)
Fixpoint queue_for_pty (packets : list PppPacket) (encoder : HdlcCodec) (pty_out : WriteQueue)
    (stats : ForwardStats) (calls : list Ipv4Addr)
    : result unit * (HdlcCodec * WriteQueue * ForwardStats * list Ipv4Addr) :=
  match packets with
  | [] => (Ok tt, (encoder, pty_out, stats, calls))
  | packet :: packets =>
      let! address & '(encoder, pty_out, stats, calls) :=
        lift (ipcp_ipv4_address packet) (encoder, pty_out, stats, calls) in
      let calls :=
        match address with
        | Some addr => if decide (last_ipcp_ipv4 stats = Some addr) then calls else calls ++ [addr]
        | None => calls
        end in
      let last := match address with Some addr => Some addr | None => last_ipcp_ipv4 stats end in
      let '(frame, encoder) := encode_packet_for_pty encoder packet in
      let pty_out := push_chunk pty_out frame in
      let! count & '(encoder, pty_out, stats, calls) :=
        lift (u64_add (tls_to_pty_packets stats) 1) (encoder, pty_out, stats, calls) in
      queue_for_pty packets encoder pty_out
        {| pty_to_tls_packets := pty_to_tls_packets stats; tls_to_pty_packets := count;
           last_ipcp_ipv4 := last |} calls
  end.

Record tls_side := {
  tls_r : reader; tls_decoder : TlsPacketStreamDecoder; hdlc_encoder : HdlcCodec;
  pty_out : WriteQueue; t_stats : ForwardStats; ipcp_calls : list Ipv4Addr;
}.

Definition with_tls_r (s : tls_side) (r : reader) : tls_side :=
  {| tls_r := r; tls_decoder := tls_decoder s; hdlc_encoder := hdlc_encoder s;
     pty_out := pty_out s; t_stats := t_stats s; ipcp_calls := ipcp_calls s |}.

Fixpoint read_tls_loop (fuel : nat) (s : tls_side) : result unit * tls_side :=
  match fuel with
  | O => (Diverge, s)
  | S fuel =>
      match read IO_BUFFER_SIZE (tls_r s) with
      | (Ok [], r) => (Err (Pppd "TLS tunnel closed"), with_tls_r s r)
      | (Ok buf, r) =>
          let '(ps, decoder) := tls_push_bytes (tls_decoder s) buf in
          let s := {| tls_r := r; tls_decoder := decoder; hdlc_encoder := hdlc_encoder s;
                      pty_out := pty_out s; t_stats := t_stats s; ipcp_calls := ipcp_calls s |} in
          let! ps & s := lift ps s in
          let '(done, (encoder, out, stats, calls)) :=
            queue_for_pty ps (hdlc_encoder s) (pty_out s) (t_stats s) (ipcp_calls s) in
          let s := {| tls_r := r; tls_decoder := decoder; hdlc_encoder := encoder;
                      pty_out := out; t_stats := stats; ipcp_calls := calls |} in
          let! _ & s := (done, s) in
          read_tls_loop fuel s
      | (Err (Io WouldBlock _), r) => (Ok tt, with_tls_r s r)
      | (Err e, r) => (Err e, with_tls_r s r)
      | (Panic, r) => (Panic, s)
      | (Diverge, r) => (Diverge, s)
      end
  end.

Definition read_tls_into_pty_queue (s : tls_side) : result unit * tls_side :=
  read_tls_loop (reader_fuel (tls_r s)) s.

(** ** The poll loop *)

Record PollFlags := {
  POLLIN : bool; POLLOUT : bool; POLLERR : bool; POLLHUP : bool; POLLNVAL : bool;
}.

Definition has_fatal_poll_event (events : PollFlags) : bool :=
  POLLERR events || POLLHUP events || POLLNVAL events.

(** The events one descriptor is polled for. *)
Definition requested (out : WriteQueue) : PollFlags :=
  {| POLLIN := true; POLLOUT := negb (is_empty out);
     POLLERR := false; POLLHUP := false; POLLNVAL := false |}.

(** What the outside answers in one turn: the stop request, and [poll] on the
    requested events (an error carries its text). *)
Record tick := {
  should_stop : bool;
  poll : PollFlags → PollFlags → PollFlags * PollFlags + string;
}.

Record forwarding := {
  f_pty : reader; f_tls : reader; pty_w : writer; tls_w : writer;
  f_pty_decoder : PppdPtyDecoder; f_hdlc_encoder : HdlcCodec;
  f_tls_decoder : TlsPacketStreamDecoder;
  f_tls_out : WriteQueue; f_pty_out : WriteQueue;
  f_stats : ForwardStats; f_calls : list Ipv4Addr;
}.

Definition read_pty_step (st : forwarding) : result unit * forwarding :=
  let '(r, s) := read_pty_into_tls_queue
    {| pty_r := f_pty st; pty_decoder := f_pty_decoder st; tls_out := f_tls_out st;
       p_stats := f_stats st |} in
  (r, {| f_pty := pty_r s; f_tls := f_tls st; pty_w := pty_w st; tls_w := tls_w st;
         f_pty_decoder := pty_decoder s; f_hdlc_encoder := f_hdlc_encoder st;
         f_tls_decoder := f_tls_decoder st; f_tls_out := tls_out s; f_pty_out := f_pty_out st;
         f_stats := p_stats s; f_calls := f_calls st |}).

Definition read_tls_step (st : forwarding) : result unit * forwarding :=
  let '(r, s) := read_tls_into_pty_queue
    {| tls_r := f_tls st; tls_decoder := f_tls_decoder st; hdlc_encoder := f_hdlc_encoder st;
       pty_out := f_pty_out st; t_stats := f_stats st; ipcp_calls := f_calls st |} in
  (r, {| f_pty := f_pty st; f_tls := tls_r s; pty_w := pty_w st; tls_w := tls_w st;
         f_pty_decoder := f_pty_decoder st; f_hdlc_encoder := hdlc_encoder s;
         f_tls_decoder := tls_decoder s; f_tls_out := f_tls_out st; f_pty_out := pty_out s;
         f_stats := t_stats s; f_calls := ipcp_calls s |}).

Definition write_pty_step (st : forwarding) : result unit * forwarding :=
  let '(r, (q, w)) := write_available (f_pty_out st) (pty_w st) in
  (r, {| f_pty := f_pty st; f_tls := f_tls st; pty_w := w; tls_w := tls_w st;
         f_pty_decoder := f_pty_decoder st; f_hdlc_encoder := f_hdlc_encoder st;
         f_tls_decoder := f_tls_decoder st; f_tls_out := f_tls_out st; f_pty_out := q;
         f_stats := f_stats st; f_calls := f_calls st |}).

Definition write_tls_step (st : forwarding) : result unit * forwarding :=
  let '(r, (q, w)) := write_available (f_tls_out st) (tls_w st) in
  (r, {| f_pty := f_pty st; f_tls := f_tls st; pty_w := pty_w st; tls_w := w;
         f_pty_decoder := f_pty_decoder st; f_hdlc_encoder := f_hdlc_encoder st;
         f_tls_decoder := f_tls_decoder st; f_tls_out := q; f_pty_out := f_pty_out st;
         f_stats := f_stats st; f_calls := f_calls st |}).

(** [if revents.contains(..) { step? }] *)
Definition when (b : bool) (step : forwarding → result unit * forwarding) (st : forwarding)
    : result unit * forwarding :=
  if b then step st else (Ok tt, st).

(** The [loop]; its script ran out when it answers [Diverge]. *)
Fixpoint forward_loop (ticks : list tick) (st : forwarding) : result ForwardStats * forwarding :=
  match ticks with
  | [] => (Diverge, st)
  | t :: ticks =>
      if should_stop t then (Ok (f_stats st), st) else
      match poll t (requested (f_pty_out st)) (requested (f_tls_out st)) with
      | inr err => (Err (Pppd ("poll failed: " +:+ err)), st)
      | inl (pty_revents, tls_revents) =>
          if has_fatal_poll_event pty_revents || has_fatal_poll_event tls_revents
          then (Ok (f_stats st), st) else
          let! _ & st := when (POLLIN pty_revents) read_pty_step st in
          let! _ & st := when (POLLIN tls_revents) read_tls_step st in
          let! _ & st := when (POLLOUT pty_revents) write_pty_step st in
          let! _ & st := when (POLLOUT tls_revents) write_tls_step st in
          forward_loop ticks st
      end
  end.

Definition initial (pty tls : reader) (pty_w tls_w : writer) : forwarding :=
  {| f_pty := pty; f_tls := tls; pty_w := pty_w; tls_w := tls_w;
     f_pty_decoder := Io.new; f_hdlc_encoder := Hdlc.new; f_tls_decoder := new_tls_decoder;
     f_tls_out := new_queue; f_pty_out := new_queue;
     f_stats := default_stats; f_calls := [] |}.

(** [set_fd_nonblocking]: two [fcntl] calls, each of which may fail with a
    text; the flag word itself is the operating system's. *)
Definition set_fd_nonblocking (getfl setfl : option string) : result unit :=
  match getfl with
  | Some err => Err (Pppd ("fcntl F_GETFL failed: " +:+ err))
  | None =>
      match setfl with
      | Some err => Err (Pppd ("fcntl F_SETFL failed: " +:+ err))
      | None => Ok tt
      end
  end.

(** [set_nonblocking] is the outcome of [tls.set_nonblocking(true)]. *)
Definition forward_with_callbacks (getfl setfl : option string) (set_nonblocking : result unit)
    (ticks : list tick) (pty tls : reader) (pty_w tls_w : writer) : result ForwardStats * forwarding :=
  let st := initial pty tls pty_w tls_w in
  let! _ & st := lift (set_fd_nonblocking getfl setfl) st in
  let! _ & st := lift set_nonblocking st in
  forward_loop ticks st.

(** [|| false] as the stop request. *)
Definition never_stop (t : tick) : tick := {| should_stop := false; poll := poll t |}.

Definition forward_with_ipcp_callback (getfl setfl : option string) (set_nonblocking : result unit)
    (ticks : list tick) (pty tls : reader) (pty_w tls_w : writer) : result ForwardStats * forwarding :=
  forward_with_callbacks getfl setfl set_nonblocking (map never_stop ticks) pty tls pty_w tls_w.

(** [forward] ignores the addresses: its result has no call trace. *)
Definition forward (getfl setfl : option string) (set_nonblocking : result unit)
    (ticks : list tick) (pty tls : reader) (pty_w tls_w : writer) : result ForwardStats :=
  fst (forward_with_ipcp_callback getfl setfl set_nonblocking ticks pty tls pty_w tls_w).

(** On a system that is not Unix the three functions answer the same error and
    touch neither the pty nor the stream. *)
Definition forward_elsewhere : result ForwardStats :=
  Err (Pppd "tunnel forwarding is only implemented on Unix platforms").

(** ** Specifications *)

(** The bytes a queue still has to write. *)
Definition pending (q : WriteQueue) : bytes := drop (Z.to_nat (offset q)) (concat (chunks q)).

Definition queue_wf (q : WriteQueue) : Prop :=
  Forall (λ c, c ≠ []) (chunks q) ∧ 0 <= offset q ∧
  match chunks q with [] => offset q = 0 | front :: _ => offset q < len front end.

(** A writer that never fails and always takes something. *)
Definition accepting (w : writer) : Prop :=
  Forall (λ e, match e with WAccept n => 0 < n | _ => False end) (w_script w).

(** The frames of a sequence of packets. *)
Definition tls_stream (packets : list PppPacket) : bytes := flat_map (λ p, tls_frame (data p)) packets.

Definition framable (p : PppPacket) : Prop := data p ≠ [] ∧ len (data p) <= 65529.

(** The decoding loop on a whole buffer. *)
Definition decode_tls (buffer : bytes) : result (list PppPacket) * bytes :=
  tls_loop (tls_fuel buffer) buffer [].

(** The addresses announced by a sequence of packets, and the ones among them
    that differ from the one before. *)
Definition addresses (packets : list PppPacket) : list Ipv4Addr :=
  flat_map (λ p, match ipcp_ipv4_address p with Ok (Some a) => [a] | _ => [] end) packets.

Fixpoint changes (prev : option Ipv4Addr) (l : list Ipv4Addr) : list Ipv4Addr :=
  match l with
  | [] => []
  | a :: l => if decide (prev = Some a) then changes prev l else a :: changes (Some a) l
  end.

Definition last_address (prev : option Ipv4Addr) (l : list Ipv4Addr) : option Ipv4Addr :=
  match last l with Some a => Some a | None => prev end.

(** What the two directions have done since [st0]: the pieces read from one
    side, the packets they decode to, and where the frames of these packets
    are: already written to the other side, or queued for it. *)
Definition pty_to_tls_inv (st0 st : forwarding) : Prop :=
  ∃ pieces packets,
    delivered (f_pty st0) = concat pieces ++ delivered (f_pty st) ∧
    push_all (f_pty_decoder st0) pieces = (Ok packets, f_pty_decoder st) ∧
    written (tls_w st) ++ pending (f_tls_out st)
      = (written (tls_w st0) ++ pending (f_tls_out st0)) ++ tls_stream packets ∧
    pty_to_tls_packets (f_stats st) = pty_to_tls_packets (f_stats st0) + len packets ∧
    queue_wf (f_tls_out st).

Definition tls_to_pty_inv (st0 st : forwarding) : Prop :=
  ∃ pieces packets,
    delivered (f_tls st0) = concat pieces ++ delivered (f_tls st) ∧
    push_all (f_tls_decoder st0) pieces = (Ok packets, f_tls_decoder st) ∧
    written (pty_w st) ++ pending (f_pty_out st)
      = (written (pty_w st0) ++ pending (f_pty_out st0)) ++ fst (encode_stream (f_hdlc_encoder st0) packets) ∧
    f_hdlc_encoder st = snd (encode_stream (f_hdlc_encoder st0) packets) ∧
    tls_to_pty_packets (f_stats st) = tls_to_pty_packets (f_stats st0) + len packets ∧
    last_ipcp_ipv4 (f_stats st) = last_address (last_ipcp_ipv4 (f_stats st0)) (addresses packets) ∧
    f_calls st = f_calls st0 ++ changes (last_ipcp_ipv4 (f_stats st0)) (addresses packets) ∧
    queue_wf (f_pty_out st).

(** ** The write queue *)

Lemma push_chunk_spec q bs :
  queue_wf q → queue_wf (push_chunk q bs) ∧ pending (push_chunk q bs) = pending q ++ bs.
Proof.
  intros (Hne & H0 & Hlt). unfold push_chunk. destruct (decide (bs = [])) as [->|Hb].
  { by rewrite app_nil_r. }
  unfold queue_wf, pending. cbn [chunks offset]. rewrite concat_app. cbn [concat].
  rewrite app_nil_r. destruct q as [[|front rest] off]; cbn [chunks offset app concat] in *.
  - subst off. rewrite drop_nil. split; [|done]. split; [by repeat constructor|].
    split; [lia|]. by apply len_pos.
  - split.
    + split; [|done]. apply Forall_cons in Hne as [? ?]. constructor; [done|].
      apply Forall_app. auto.
    + rewrite drop_app_le; [done|]. unfold len in Hlt. rewrite length_app. lia.
Qed.

(** A writer that keeps accepting takes something of what is not empty. *)
Lemma accepting_write bs w r w' : accepting w → bs ≠ [] → write bs w = (r, w') →
  accepting w' ∧ ∃ n, r = Ok n ∧ 0 < n.
Proof.
  unfold accepting, write. intros Ha Hbs%len_pos Hr. destruct Ha as [|e s He Hs]; cbn [write_script] in Hr.
  - injection Hr as <- <-. simpl. eauto.
  - destruct e; try done. injection Hr as <- <-. simpl. split; [done|]. eexists. split; [done|]. lia.
Qed.

(** The queue behind an accepted part of its first chunk. *)
Lemma advance_spec front rest off n fuel : queue_wf {| chunks := front :: rest; offset := off |} →
  0 < n <= len front - off → (length (concat (front :: rest)) < S fuel + Z.to_nat off)%nat →
  let q := if off + n =? len front then {| chunks := rest; offset := 0 |} else {| chunks := front :: rest; offset := off + n |} in
  queue_wf q ∧
  pending {| chunks := front :: rest; offset := off |} = take (Z.to_nat n) (drop (Z.to_nat off) front) ++ pending q ∧
  (length (concat (chunks q)) < fuel + Z.to_nat (offset q))%nat.
Proof.
  intros (Hne & H0 & Hlt) Hn Hf. cbn [chunks offset] in *. apply Forall_cons in Hne as [Hf1 Hne].
  cbn [concat] in Hf. rewrite length_app in Hf. unfold queue_wf, pending. unfold len in *.
  destruct (Z.eqb_spec (off + n) (Z.of_nat (length front))); cbn [chunks offset concat]; (split; [|split]).
  - split; [done|]. split; [lia|]. destruct rest; [done|]. apply Forall_cons in Hne as [Hb _]. apply len_pos in Hb. exact Hb.
  - rewrite drop_app_le by lia. rewrite (take_ge (drop _ front)); [done|]. rewrite length_drop. lia.
  - lia.
  - split; [by constructor|]. split; lia.
  - rewrite !drop_app_le by lia. rewrite app_assoc. f_equal.
    replace (Z.to_nat (off + n)) with (Z.to_nat off + Z.to_nat n)%nat by lia. by rewrite <- drop_drop, take_drop.
  - rewrite length_app. lia.
Qed.

Lemma write_available_loop_spec fuel q w :
  queue_wf q → (length (concat (chunks q)) < fuel + Z.to_nat (offset q))%nat →
  let '(r, (q', w')) := write_available_loop fuel q w in
  returns r ∧ queue_wf q' ∧ written w' ++ pending q' = written w ++ pending q ∧
  (accepting w → r = Ok tt ∧ is_empty q' = true).
Proof.
  revert q w. induction fuel as [|fuel IH]; intros [cs off] w (Hne & H0 & Hlt) Hf;
    cbn [write_available_loop chunks offset] in *.
  { destruct cs as [|front rest]; [subst off; simpl in Hf; lia|].
    exfalso. cbn [concat] in Hf. rewrite length_app in Hf. unfold len in Hlt. lia. }
  destruct cs as [|front rest]; [by repeat split|].
  rewrite slice_from_ok by lia. pose proof (write_spec (drop (Z.to_nat off) front) w) as Hw.
  assert (drop (Z.to_nat off) front ≠ []) as Hd by (intros E%(f_equal len); change (len []) with 0 in E; revert E; len_lia).
  assert (accepting w → ∀ r w', write (drop (Z.to_nat off) front) w = (r, w') →
    accepting w' ∧ ∃ n, r = Ok n ∧ 0 < n) as Hacc by (intros Ha r w'; by apply accepting_write).
  destruct (write _ w) as [[n|e| |] w']; [| |done..].
  - destruct Hw as [Hn Hw]. rewrite len_drop in Hn. rewrite Z2Nat.id in Hn by lia.
    destruct (Z.eqb_spec n 0) as [->|Hn0].
    { split; [done|]. split; [done|]. split; [by rewrite Hw, take_0, app_nil_r|].
      intros Ha. destruct (Hacc Ha _ _ eq_refl) as (_ & ? & [= <-] & ?). lia. }
    destruct (advance_spec front rest off n fuel) as (Hq1 & Hp & Hf1); [done|lia|done|].
    set (q1 := if off + n =? len front then _ else _) in *.
    specialize (IH q1 w' Hq1 Hf1).
    destruct (write_available_loop fuel q1 w') as [r [q2 w2]].
    destruct IH as (Hr & Hq2 & Heq & Ha). split; [done|]. split; [done|]. split.
    + rewrite Heq, Hp, Hw. by rewrite <- !app_assoc.
    + intros Haw. apply Ha. by destruct (Hacc Haw _ _ eq_refl).
  - assert (∀ e', accepting w → e' = Err (A := usize) e → False) as Hno.
    { intros e' Ha _. by destruct (Hacc Ha _ _ eq_refl) as (_ & ? & ? & _). }
    destruct e as [[]| | | | | | | | | | | | | | | | | |];
      (split; [done|split; [done|split; [by rewrite Hw|intros Ha; destruct (Hno _ Ha eq_refl)]]]).
Qed.

(** The write queue loses, repeats and reorders nothing.  Whatever the
    writer does (short writes, [WouldBlock], errors), what it accepted followed
    by what is still queued is what it had followed by what was queued; the
    call returns, keeps the queue well formed, and with a writer that keeps
    accepting it empties the queue. *)
Theorem write_available_conserves q w :
  queue_wf q →
  let '(r, (q', w')) := write_available q w in
  returns r ∧ queue_wf q' ∧ written w' ++ pending q' = written w ++ pending q ∧
  (accepting w → r = Ok tt ∧ is_empty q' = true).
Proof. intros Hq. apply write_available_loop_spec; [done|]. unfold queue_fuel. lia. Qed.

Lemma write_available_conserves_witness :
  queue_wf {| chunks := [[1; 2; 3]; [4]]; offset := 1 |} ∧
  (let '(r, (q', w')) := write_available {| chunks := [[1; 2; 3]; [4]]; offset := 1 |}
       {| written := [0; 1]; w_script := [WAccept 1; WError WouldBlock] |} in
   written w' ++ pending q' = [0; 1] ++ [2; 3; 4]).
Proof.
  assert (queue_wf {| chunks := [[1; 2; 3]; [4]]; offset := 1 |}) as H.
  { unfold queue_wf. simpl. split; [repeat constructor; discriminate|]. vm_compute. split; [discriminate|reflexivity]. }
  split; [exact H|].
  pose proof (write_available_conserves _ {| written := [0; 1]; w_script := [WAccept 1; WError WouldBlock] |} H) as Hw.
  destruct (write_available _ _) as [r [q' w']]. destruct Hw as (_ & _ & Hw & _). exact Hw.
Defined.

(** ** The decoder of the TLS stream *)

Definition prepend (packets : list PppPacket) (x : result (list PppPacket) * bytes)
    : result (list PppPacket) * bytes :=
  (let* ps := fst x in Ok (packets ++ ps), snd x).

Lemma prepend_nil x : prepend [] x = x.
Proof. by destruct x as [[] ?]. Qed.

Lemma prepend_prepend a b x : prepend a (prepend b x) = prepend (a ++ b) x.
Proof. destruct x as [[] ?]; unfold prepend; simpl; by rewrite ?app_assoc. Qed.

Lemma frame_total_some b t : frame_total b = Ok (Some t) → HEADER_LEN < t ∧ HEADER_LEN <= len b.
Proof.
  unfold frame_total. destruct (Z.ltb_spec (len b) HEADER_LEN); [done|].
  intros (prefix & _ & Hk)%bind_ok_inv. revert Hk. case_decide; [done|].
  intros (total & _ & (magic & _ & (size & _ & Hk)%bind_ok_inv)%bind_ok_inv)%bind_ok_inv.
  destruct (negb _ || _) eqn:E in Hk; [done|]. apply orb_false_iff in E as [_ E%Z.ltb_ge].
  apply bind_ok_inv in Hk as (rest & _ & Hk). case_match; [done|]. injection Hk as <-. lia.
Qed.

Lemma frame_total_none b : frame_total b = Ok None ↔ len b < HEADER_LEN.
Proof.
  unfold frame_total. destruct (Z.ltb_spec (len b) HEADER_LEN) as [|Hl]; [done|].
  split; [|lia]. intros (prefix & _ & Hk)%bind_ok_inv. revert Hk. case_decide; [done|].
  intros (total & _ & (magic & _ & (size & _ & Hk)%bind_ok_inv)%bind_ok_inv)%bind_ok_inv.
  case_match; [done|]. apply bind_ok_inv in Hk as (rest & _ & Hk). by case_match.
Qed.

Lemma frame_total_max b t : is_bytes b → frame_total b = Ok (Some t) → t <= 65535.
Proof.
  intros Hb. unfold frame_total. destruct (Z.ltb_spec (len b) HEADER_LEN) as [|Hl]; [done|].
  unfold HEADER_LEN in Hl. intros (prefix & _ & Hk)%bind_ok_inv. revert Hk. case_decide; [done|].
  destruct (be16_at_range b 0 Hb ltac:(lia) ltac:(lia)) as (n & -> & Hn). cbn [bind].
  intros (magic & _ & (size & _ & Hk)%bind_ok_inv)%bind_ok_inv.
  case_match; [done|]. apply bind_ok_inv in Hk as (rest & _ & Hk). case_match; [done|].
  injection Hk as <-. unfold is_u16 in Hn. lia.
Qed.

Lemma frame_total_app a b : HEADER_LEN <= len a → frame_total (a ++ b) = frame_total a.
Proof.
  unfold HEADER_LEN. intros Ha. unfold frame_total, HEADER_LEN. zbool.
  rewrite slice_app_l by lia. unfold be16_at. by rewrite !index_app_l by lia.
Qed.

Lemma frame_total_returns b : returns (frame_total b).
Proof.
  unfold frame_total, HEADER_LEN. destruct (Z.ltb_spec (len b) 6); [done|].
  apply returns_bind; [apply returns_slice; lia|]. intros prefix _. case_decide; [done|].
  repeat (apply returns_bind; [apply returns_be16_at; lia|intros ? _]).
  destruct (negb _ || _) eqn:E; [done|]. apply orb_false_iff in E as [_ E%Z.ltb_ge].
  unfold usub. zbool. by case_match.
Qed.

Lemma tls_loop_acc fuel b acc : tls_loop fuel b acc = prepend acc (tls_loop fuel b []).
Proof.
  revert b acc. induction fuel as [|fuel IH]; intros b acc; [done|]. cbn [tls_loop]. unfold lift.
  destruct (frame_total b) as [[t|]|e| |]; cbn [sbind]; try done.
  2: { unfold prepend. simpl. by rewrite app_nil_r. }
  case_match; [unfold prepend; simpl; by rewrite app_nil_r|].
  destruct (bind _ _) as [p|e| |]; cbn [sbind]; try done.
  by rewrite (IH _ (acc ++ [p])), (IH _ ([] ++ [p])), prepend_prepend.
Qed.

Lemma tls_loop_fuel f1 f2 b :
  (length b < f1)%nat → (length b < f2)%nat → tls_loop f1 b [] = tls_loop f2 b [].
Proof.
  revert f2 b. induction f1 as [|f1 IH]; intros [|f2] b H1 H2; try lia. cbn [tls_loop]. unfold lift.
  destruct (frame_total b) as [[t|]|e| |] eqn:Ht; cbn [sbind]; try done.
  apply frame_total_some in Ht as [Ht ?]. unfold HEADER_LEN in *.
  destruct (Z.ltb_spec (len b) t); [done|].
  destruct (bind _ _) as [p|e| |]; cbn [sbind]; try done.
  rewrite tls_loop_acc, (tls_loop_acc f2). f_equal. unfold len in *.
  apply IH; rewrite length_drop; lia.
Qed.

(** The recursion the loop performs, without fuel. *)
Lemma decode_tls_eq b :
  decode_tls b =
    match frame_total b with
    | Ok (Some t) =>
        if len b <? t then (Ok [], b) else
        match decode_from_tls_frame (take (Z.to_nat t) b) with
        | Ok p => prepend [p] (decode_tls (drop (Z.to_nat t) b))
        | Err e => (Err e, b)
        | Panic => (Panic, b)
        | Diverge => (Diverge, b)
        end
    | Ok None => (Ok [], b)
    | Err e => (Err e, b)
    | Panic => (Panic, b)
    | Diverge => (Diverge, b)
    end.
Proof.
  unfold decode_tls at 1, tls_fuel. cbn [tls_loop]. unfold lift.
  destruct (frame_total b) as [[t|]|e| |] eqn:Ht; cbn [sbind]; try done.
  apply frame_total_some in Ht as [Ht ?]. unfold HEADER_LEN in *.
  destruct (Z.ltb_spec (len b) t); [done|].
  rewrite slice_ok by lia. cbn [bind]. rewrite drop_0, Z.sub_0_r.
  destruct (decode_from_tls_frame _) as [p|e| |]; cbn [sbind]; try done.
  rewrite tls_loop_acc. f_equal. unfold decode_tls. unfold len in *.
  apply tls_loop_fuel; unfold tls_fuel; rewrite length_drop; lia.
Qed.

Lemma decode_tls_app a b ps rest :
  decode_tls (a ++ b) = (Ok ps, rest) →
  ∃ p1 a' p2, decode_tls a = (Ok p1, a') ∧ decode_tls (a' ++ b) = (Ok p2, rest) ∧ ps = p1 ++ p2.
Proof.
  revert ps. remember (length a) as k eqn:Hk. revert a Hk.
  induction (lt_wf k) as [k _ IH]. intros a -> ps. rewrite (decode_tls_eq a).
  destruct (Z.lt_ge_cases (len a) HEADER_LEN) as [Hs|Hs].
  { rewrite (proj2 (frame_total_none a) Hs). eauto 6. }
  rewrite (decode_tls_eq (a ++ b)), (frame_total_app a b Hs).
  destruct (frame_total a) as [[t|]|e| |] eqn:Ht; try done.
  2: { apply frame_total_none in Ht. lia. }
  pose proof (decode_tls_eq (a ++ b)) as Heq. rewrite (frame_total_app a b Hs), Ht in Heq.
  apply frame_total_some in Ht as [Ht _].
  destruct (Z.ltb_spec (len a) t) as [|Hge].
  { intros Hd. exists [], a, ps. split; [done|]. split; [|done]. by rewrite Heq. }
  clear Heq. rewrite (proj2 (Z.ltb_ge (len (a ++ b)) t)) by len_lia.
  unfold len in Hge. rewrite take_app_le, drop_app_le by lia.
  destruct (decode_from_tls_frame _) as [p|e| |]; try done.
  destruct (decode_tls (drop _ a ++ b)) as [r rest'] eqn:Hd. unfold prepend. cbn [fst snd].
  destruct r as [qs|e| |]; try done. cbn [bind]. intros [= <- ->]. unfold HEADER_LEN in *.
  destruct (IH (length (drop (Z.to_nat t) a)) ltac:(rewrite length_drop; lia) _ eq_refl qs Hd)
    as (p1 & a' & p2 & -> & H2 & ->).
  exists (p :: p1), a', p2. auto.
Qed.

Lemma tls_push_bytes_eq d bs :
  tls_push_bytes d bs =
    (fst (decode_tls (tls_buffer d ++ bs)), {| tls_buffer := snd (decode_tls (tls_buffer d ++ bs)) |}).
Proof. unfold tls_push_bytes, decode_tls. by destruct (tls_loop _ _ _). Qed.

#[export] Instance tls_lawful_decoder : LawfulDecoder TlsPacketStreamDecoder PppPacket.
Proof.
  intros d a b ps d'. unfold push, tls_stream_decoder. rewrite !tls_push_bytes_eq, app_assoc.
  destruct (decode_tls _) as [r rest] eqn:Hd. cbn [fst snd]. intros [= -> <-].
  apply decode_tls_app in Hd as (p1 & a' & p2 & H1 & H2 & ->).
  exists p1, {| tls_buffer := a' |}, p2. rewrite H1, tls_push_bytes_eq. cbn [tls_buffer fst snd].
  by rewrite H2.
Qed.

Lemma frame_total_tls_frame payload rest :
  payload ≠ [] → len payload <= 65529 →
  frame_total (tls_frame payload ++ rest) = Ok (Some (HEADER_LEN + len payload)).
Proof.
  intros Hne Hl. apply len_pos in Hne. unfold frame_total.
  destruct (tls_frame_header payload rest Hl) as (H1 & H2 & H3).
  destruct (tls_frame_split payload) as (header & Hsplit & Hh & Hhttp).
  rewrite H1, H2, H3. rewrite (slice_app_middle_n [] header (payload ++ rest)); [|
    by rewrite Hsplit, <- app_assoc|done|by rewrite Hh].
  unfold HEADER_LEN in *. cbn [bind]. pose proof (tls_frame_len payload) as Ht.
  unfold HEADER_LEN in Ht. rewrite decide_False by done. unfold usub. by zbool.
Qed.

Lemma decode_tls_stream packets rest :
  Forall framable packets → decode_tls (tls_stream packets ++ rest) = prepend packets (decode_tls rest).
Proof.
  induction 1 as [|p packets [Hne Hl] Hf IH]; [by rewrite prepend_nil|].
  cbn [tls_stream flat_map]. fold (tls_stream packets).
  rewrite <- app_assoc, decode_tls_eq, frame_total_tls_frame by done.
  pose proof (tls_frame_len (data p)) as Ht. zbool.
  assert (length (tls_frame (data p)) = Z.to_nat (HEADER_LEN + len (data p))) as Hn
    by (unfold len in *; lia).
  rewrite <- Hn, take_app_length, drop_app_length, decode_tls_frame by done.
  rewrite IH, prepend_prepend. by destruct p.
Qed.

(** The TLS stream decoder is transparent: however the transport cuts the
    frames of a sequence of packets, it hands back exactly those packets, in
    order, and keeps nothing. *)
Theorem tls_stream_transparent packets pieces :
  Forall framable packets → pieces ≠ [] → concat pieces = tls_stream packets →
  push_all new_tls_decoder pieces = (Ok packets, new_tls_decoder).
Proof.
  intros Hf Hne Hcat. destruct pieces as [|piece pieces]; [done|].
  apply push_all_concat. rewrite Hcat. unfold push, tls_stream_decoder.
  rewrite tls_push_bytes_eq. cbn [tls_buffer new_tls_decoder app].
  rewrite <- (app_nil_r (tls_stream packets)), decode_tls_stream by done.
  rewrite decode_tls_eq, (proj2 (frame_total_none [])) by done. unfold prepend. simpl.
  by rewrite app_nil_r.
Qed.

Lemma tls_stream_transparent_witness :
  push_all new_tls_decoder [[0; 9; 0x50]; [0x50; 0; 3; 1; 2; 3; 0]; [7; 0x50; 0x50; 0; 1; 4]]
    = (Ok [{| data := [1; 2; 3] |}; {| data := [4] |}], new_tls_decoder).
Proof.
  apply tls_stream_transparent.
  - repeat constructor; (discriminate || (vm_compute; discriminate)).
  - discriminate.
  - vm_compute. reflexivity.
Defined.

(** On any bytes from the TLS stream the decoder answers packets or an
    error; on success what it keeps is less than one frame, so at most 65534
    bytes. *)
Theorem tls_push_bytes_bounded self bs :
  is_bytes (tls_buffer self ++ bs) →
  let '(r, self') := tls_push_bytes self bs in
  returns r ∧ (is_ok r = true → len (tls_buffer self') < 65535).
Proof.
  rewrite tls_push_bytes_eq. cbn [tls_buffer]. generalize (tls_buffer self ++ bs). intros b.
  remember (length b) as k eqn:Hk. revert b Hk. induction (lt_wf k) as [k _ IH]. intros b -> Hb.
  rewrite decode_tls_eq. pose proof (frame_total_returns b) as Hr.
  destruct (frame_total b) as [[t|]|e| |] eqn:Ht; try done.
  2: { apply frame_total_none in Ht. unfold HEADER_LEN in Ht. simpl. split; [done|lia]. }
  pose proof (frame_total_max b t Hb Ht) as Hmax.
  apply frame_total_some in Ht as [Ht _]. unfold HEADER_LEN in *.
  destruct (Z.ltb_spec (len b) t) as [|Hge]; [simpl; split; [done|lia]|].
  pose proof (decode_from_tls_frame_returns (take (Z.to_nat t) b)) as Hd.
  destruct (decode_from_tls_frame _) as [p|e| |]; try done.
  unfold len in Hge.
  specialize (IH (length (drop (Z.to_nat t) b)) ltac:(rewrite length_drop; lia) _ eq_refl
    (Forall_drop _ _ _ Hb)).
  destruct (decode_tls (drop _ b)) as [[ps|e| |] rest]; exact IH.
Qed.

Lemma tls_push_bytes_bounded_witness :
  fst (tls_push_bytes {| tls_buffer := [0; 7] |} [0x50; 0x50; 0; 1; 9; 0]) = Ok [{| data := [9] |}] ∧
  len (tls_buffer (snd (tls_push_bytes {| tls_buffer := [0; 7] |} [0x50; 0x50; 0; 1; 9; 0]))) < 65535.
Proof.
  split; [vm_compute; reflexivity|].
  assert (is_bytes (tls_buffer {| tls_buffer := [0; 7] |} ++ [0x50; 0x50; 0; 1; 9; 0])) as H
    by (repeat constructor; unfold is_u8; lia).
  pose proof (tls_push_bytes_bounded {| tls_buffer := [0; 7] |} [0x50; 0x50; 0; 1; 9; 0] H) as Hp.
  destruct (tls_push_bytes _ _) as [r s] eqn:E. destruct Hp as [_ Hp]. apply Hp.
  vm_compute in E. injection E as <- <-. reflexivity.
Defined.

(** ** The two directions *)

Lemma u64_add_ok a b n : u64_add a b = Ok n → n = a + b.
Proof. unfold u64_add. case_match; [|done]. by intros [= <-]. Qed.

Lemma queue_for_tls_ok ps out stats out' stats' :
  queue_wf out → queue_for_tls ps out stats = (Ok tt, (out', stats')) →
  queue_wf out' ∧ pending out' = pending out ++ tls_stream ps ∧
  stats' = {| pty_to_tls_packets := pty_to_tls_packets stats + len ps;
              tls_to_pty_packets := tls_to_pty_packets stats;
              last_ipcp_ipv4 := last_ipcp_ipv4 stats |}.
Proof.
  revert out stats. induction ps as [|p ps IH]; intros out stats Hq; cbn [queue_for_tls].
  - intros [= <- <-]. rewrite len_nil, Z.add_0_r. cbn. rewrite app_nil_r. by destruct stats.
  - unfold lift. rewrite encode_for_tls_eq. case_match; [done|]. cbn [sbind].
    destruct (u64_add _ _) as [n|e| |] eqn:Hn; cbn [sbind]; try done. apply u64_add_ok in Hn as ->.
    destruct (push_chunk_spec out (tls_frame (data p)) Hq) as [Hq1 Hp1].
    intros (Hq2 & Hp2 & ->)%IH; [|done]. split; [done|]. cbn [pty_to_tls_packets
      tls_to_pty_packets last_ipcp_ipv4 tls_stream flat_map]. fold (tls_stream ps). split.
    + by rewrite Hp2, Hp1, <- app_assoc.
    + f_equal. len_lia.
Qed.

Lemma last_address_app prev a b : last_address prev (a ++ b) = last_address (last_address prev a) b.
Proof. unfold last_address. rewrite last_app. by destruct (last b). Qed.

Lemma changes_app prev a b : changes prev (a ++ b) = changes prev a ++ changes (last_address prev a) b.
Proof.
  revert prev. induction a as [|x a IH]; intros prev; [done|]. cbn [changes app].
  assert (∀ q, q = Some x → last_address prev (x :: a) = last_address q a) as Hl.
  { intros q ->. unfold last_address. rewrite last_cons. by destruct (last a). }
  case_decide as Hd; rewrite IH.
  - by rewrite <- (Hl _ Hd).
  - by rewrite <- (Hl _ eq_refl).
Qed.

Lemma addresses_app a b : addresses (a ++ b) = addresses a ++ addresses b.
Proof. apply flat_map_app. Qed.

Lemma encode_stream_app c a b :
  encode_stream c (a ++ b) =
    (fst (encode_stream c a) ++ fst (encode_stream (snd (encode_stream c a)) b),
     snd (encode_stream (snd (encode_stream c a)) b)).
Proof.
  revert c. induction a as [|p a IH]; intros c;
    [cbn [app encode_stream fst snd]; by destruct (encode_stream c b)|].
  cbn [encode_stream app]. destruct (encode_packet_for_pty c p) as [frame c1]. rewrite IH.
  destruct (encode_stream c1 a) as [x c2]. cbn [fst snd]. by rewrite app_assoc.
Qed.

Lemma queue_for_pty_ok ps enc out stats calls enc' out' stats' calls' :
  queue_wf out → queue_for_pty ps enc out stats calls = (Ok tt, (enc', out', stats', calls')) →
  queue_wf out' ∧ pending out' = pending out ++ fst (encode_stream enc ps) ∧
  enc' = snd (encode_stream enc ps) ∧
  stats' = {| pty_to_tls_packets := pty_to_tls_packets stats;
              tls_to_pty_packets := tls_to_pty_packets stats + len ps;
              last_ipcp_ipv4 := last_address (last_ipcp_ipv4 stats) (addresses ps) |} ∧
  calls' = calls ++ changes (last_ipcp_ipv4 stats) (addresses ps).
Proof.
  revert enc out stats calls. induction ps as [|p ps IH]; intros enc out stats calls Hq;
    cbn [queue_for_pty encode_stream].
  - intros [= <- <- <- <-]. rewrite len_nil, Z.add_0_r. cbn. rewrite !app_nil_r. by destruct stats.
  - unfold lift. destruct (ipcp_ipv4_address p) as [addr|e| |] eqn:Ha; cbn [sbind]; try done.
    destruct (encode_packet_for_pty enc p) as [frame enc1].
    destruct (u64_add _ _) as [n|e| |] eqn:Hn; cbn [sbind]; try done. apply u64_add_ok in Hn as ->.
    destruct (push_chunk_spec out frame Hq) as [Hq1 Hp1].
    intros (Hq2 & Hp2 & -> & -> & ->)%IH; [|done].
    destruct (encode_stream enc1 ps) as [frames enc2]. cbn [fst snd] in *.
    split; [done|]. split; [by rewrite Hp2, Hp1, <- app_assoc|]. split; [done|].
    change (addresses (p :: ps)) with (addresses ([p] ++ ps)).
    rewrite addresses_app, last_address_app, changes_app.
    assert (addresses [p] = match addr with Some a => [a] | None => [] end) as ->
      by (unfold addresses; cbn [flat_map]; by rewrite Ha, app_nil_r).
    cbn [pty_to_tls_packets tls_to_pty_packets last_ipcp_ipv4]. split.
    + f_equal; [len_lia|]. by destruct addr.
    + destruct addr as [addr|]; cbn [changes]; [|done]. case_decide; by rewrite <- ?app_assoc.
Qed.

Lemma tls_stream_app a b : tls_stream (a ++ b) = tls_stream a ++ tls_stream b.
Proof. apply flat_map_app. Qed.

Lemma read_pty_loop_ok fuel s s' :
  queue_wf (tls_out s) → read_pty_loop fuel s = (Ok tt, s') →
  ∃ pieces ps, delivered (pty_r s) = concat pieces ++ delivered (pty_r s') ∧
    push_all (pty_decoder s) pieces = (Ok ps, pty_decoder s') ∧
    queue_wf (tls_out s') ∧ pending (tls_out s') = pending (tls_out s) ++ tls_stream ps ∧
    p_stats s' = {| pty_to_tls_packets := pty_to_tls_packets (p_stats s) + len ps;
                    tls_to_pty_packets := tls_to_pty_packets (p_stats s);
                    last_ipcp_ipv4 := last_ipcp_ipv4 (p_stats s) |}.
Proof.
  revert s. induction fuel as [|fuel IH]; intros s Hq; cbn [read_pty_loop]; [done|].
  pose proof (read_delivered IO_BUFFER_SIZE (pty_r s)) as Hr.
  destruct (read IO_BUFFER_SIZE (pty_r s)) as [[buf|e| |] r]; try done.
  - destruct buf as [|x buf]; [done|]. set (piece := x :: buf) in *. clearbody piece.
    destruct (Io.push_bytes (pty_decoder s) piece) as [[ps|e| |] d] eqn:Hp; unfold lift; cbn [sbind]; try done.
    cbn [tls_out p_stats].
    destruct (queue_for_tls ps (tls_out s) (p_stats s)) as [[[]|e| |] [out stats]] eqn:Hf; cbn [sbind]; try done.
    apply queue_for_tls_ok in Hf as (Hq1 & Hp1 & ->); [|done].
    intros (pieces & qs & Hd & Hpush & Hq2 & Hp2 & Hst)%IH; [|done].
    cbn [pty_r pty_decoder tls_out p_stats pty_to_tls_packets tls_to_pty_packets last_ipcp_ipv4] in *.
    exists (piece :: pieces), (ps ++ qs). split; [cbn [concat]; by rewrite Hr, Hd, <- app_assoc|].
    split; [exact (push_all_cons _ _ _ _ _ _ _ Hp Hpush)|].
    split; [done|]. split; [by rewrite Hp2, Hp1, tls_stream_app, <- app_assoc|].
    rewrite Hst, len_app. f_equal. lia.
  - destruct e as [[]| | | | | | | | | | | | | | | | | |]; try done.
    intros [= <-]. cbn [pty_r pty_decoder tls_out p_stats]. exists [], [].
    cbn. rewrite app_nil_r, len_nil, Z.add_0_r. by destruct (p_stats s).
Qed.

Lemma read_tls_loop_ok fuel s s' :
  queue_wf (pty_out s) → read_tls_loop fuel s = (Ok tt, s') →
  ∃ pieces ps, delivered (tls_r s) = concat pieces ++ delivered (tls_r s') ∧
    push_all (tls_decoder s) pieces = (Ok ps, tls_decoder s') ∧
    queue_wf (pty_out s') ∧
    pending (pty_out s') = pending (pty_out s) ++ fst (encode_stream (hdlc_encoder s) ps) ∧
    hdlc_encoder s' = snd (encode_stream (hdlc_encoder s) ps) ∧
    t_stats s' = {| pty_to_tls_packets := pty_to_tls_packets (t_stats s);
                    tls_to_pty_packets := tls_to_pty_packets (t_stats s) + len ps;
                    last_ipcp_ipv4 := last_address (last_ipcp_ipv4 (t_stats s)) (addresses ps) |} ∧
    ipcp_calls s' = ipcp_calls s ++ changes (last_ipcp_ipv4 (t_stats s)) (addresses ps).
Proof.
  revert s. induction fuel as [|fuel IH]; intros s Hq; cbn [read_tls_loop]; [done|].
  pose proof (read_delivered IO_BUFFER_SIZE (tls_r s)) as Hr.
  destruct (read IO_BUFFER_SIZE (tls_r s)) as [[buf|e| |] r]; try done.
  - destruct buf as [|x buf]; [done|]. set (piece := x :: buf) in *. clearbody piece.
    destruct (tls_push_bytes (tls_decoder s) piece) as [[ps|e| |] d] eqn:Hp; unfold lift; cbn [sbind]; try done.
    cbn [hdlc_encoder pty_out t_stats ipcp_calls].
    destruct (queue_for_pty _ _ _ _ _) as [[[]|e| |] [[[enc out] stats] calls]] eqn:Hf; cbn [sbind]; try done.
    apply queue_for_pty_ok in Hf as (Hq1 & Hp1 & -> & -> & ->); [|done].
    intros (pieces & qs & Hd & Hpush & Hq2 & Hp2 & He2 & Hst & Hc)%IH; [|done].
    cbn [tls_r tls_decoder hdlc_encoder pty_out t_stats ipcp_calls
      pty_to_tls_packets tls_to_pty_packets last_ipcp_ipv4] in *.
    exists (piece :: pieces), (ps ++ qs). split; [cbn [concat]; by rewrite Hr, Hd, <- app_assoc|].
    split; [exact (push_all_cons _ _ _ _ _ _ _ Hp Hpush)|].
    rewrite encode_stream_app, addresses_app, last_address_app, changes_app. cbn [fst snd].
    split; [done|]. split; [by rewrite Hp2, Hp1, <- app_assoc|]. split; [done|].
    split; [|by rewrite Hc, <- app_assoc]. rewrite Hst, len_app. f_equal. lia.
  - destruct e as [[]| | | | | | | | | | | | | | | | | |]; try done.
    intros [= <-]. cbn [with_tls_r tls_r tls_decoder hdlc_encoder pty_out t_stats ipcp_calls]. exists [], [].
    cbn. rewrite !app_nil_r, len_nil, Z.add_0_r. by destruct (t_stats s).
Qed.

(** ** The loop *)

Definition forward_inv (st0 st : forwarding) : Prop := pty_to_tls_inv st0 st ∧ tls_to_pty_inv st0 st.

(** A step that satisfies the invariant from its own start extends it. *)
Lemma forward_inv_trans st0 st1 st2 : forward_inv st0 st1 → forward_inv st1 st2 → forward_inv st0 st2.
Proof.
  intros [(a & ps & A1 & A2 & A3 & A4 & A5) (b & qs & B1 & B2 & B3 & B4 & B5 & B6 & B7 & B8)]
    [(a' & ps' & A1' & A2' & A3' & A4' & A5') (b' & qs' & B1' & B2' & B3' & B4' & B5' & B6' & B7' & B8')].
  split.
  - exists (a ++ a'), (ps ++ ps'). rewrite concat_app, tls_stream_app, len_app. split_and!.
    + by rewrite A1, A1', <- app_assoc.
    + by eapply push_all_app.
    + by rewrite A3', A3, <- !app_assoc.
    + lia.
    + done.
  - exists (b ++ b'), (qs ++ qs'). rewrite concat_app, encode_stream_app, len_app, addresses_app,
      last_address_app, changes_app. cbn [fst snd]. rewrite <- B4, <- B6. split_and!; try done.
    + by rewrite B1, B1', <- app_assoc.
    + by eapply push_all_app.
    + by rewrite B3', B3, <- !app_assoc.
    + lia.
    + by rewrite B7', B7, <- app_assoc.
Qed.

Definition queues_wf (st : forwarding) : Prop := queue_wf (f_tls_out st) ∧ queue_wf (f_pty_out st).

Lemma pty_inv_refl st : queue_wf (f_tls_out st) → pty_to_tls_inv st st.
Proof. intros. exists [], []. cbn. rewrite app_nil_r, len_nil, Z.add_0_r. done. Qed.

Lemma tls_inv_refl st : queue_wf (f_pty_out st) → tls_to_pty_inv st st.
Proof. intros. exists [], []. cbn. rewrite !app_nil_r, len_nil, Z.add_0_r. done. Qed.

Lemma forward_inv_queues st0 st : forward_inv st0 st → queues_wf st.
Proof.
  intros [(? & ? & ? & ? & ? & ? & ?) (? & ? & ? & ? & ? & ? & ? & ? & ? & ?)]. done.
Qed.

Lemma read_pty_step_inv st st' : queues_wf st → read_pty_step st = (Ok tt, st') → forward_inv st st'.
Proof.
  intros [H1 H2]. unfold read_pty_step, read_pty_into_tls_queue.
  destruct (read_pty_loop _ _) as [r s] eqn:E. intros [= -> <-].
  apply read_pty_loop_ok in E as (pieces & ps & A1 & A2 & A3 & A4 & A5); [|done].
  cbn [pty_r pty_decoder tls_out p_stats] in *. split.
  - exists pieces, ps. cbn. rewrite A4, A5, app_assoc. done.
  - pose proof (tls_inv_refl st H2) as (b & qs & B). exists b, qs. cbn. by rewrite A5.
Qed.

Lemma read_tls_step_inv st st' : queues_wf st → read_tls_step st = (Ok tt, st') → forward_inv st st'.
Proof.
  intros [H1 H2]. unfold read_tls_step, read_tls_into_pty_queue.
  destruct (read_tls_loop _ _) as [r s] eqn:E. intros [= -> <-].
  apply read_tls_loop_ok in E as (pieces & ps & A1 & A2 & A3 & A4 & A5 & A6 & A7); [|done].
  cbn [tls_r tls_decoder hdlc_encoder pty_out t_stats ipcp_calls] in *. split.
  - pose proof (pty_inv_refl st H1) as (b & qs & B). exists b, qs. cbn. by rewrite A6.
  - exists pieces, ps. cbn. rewrite A4, A6, app_assoc. done.
Qed.

Lemma write_available_conserved q w r q' w' :
  queue_wf q → write_available q w = (r, (q', w')) →
  queue_wf q' ∧ written w' ++ pending q' = written w ++ pending q.
Proof.
  intros Hq E. pose proof (write_available_loop_spec (queue_fuel q) q w Hq) as Hw.
  unfold write_available in E. rewrite E in Hw. unfold queue_fuel in Hw.
  destruct Hw as (_ & ? & ? & _); [lia|done].
Qed.

Lemma write_pty_step_inv st st' : queues_wf st → write_pty_step st = (Ok tt, st') → forward_inv st st'.
Proof.
  intros [H1 H2]. unfold write_pty_step. destruct (write_available _ _) as [r [q w]] eqn:E.
  intros [= -> <-]. apply write_available_conserved in E as [Hq Hw]; [|done]. split.
  - apply (pty_inv_refl st H1).
  - exists [], []. cbn. rewrite !app_nil_r, len_nil, Z.add_0_r. done.
Qed.

Lemma write_tls_step_inv st st' : queues_wf st → write_tls_step st = (Ok tt, st') → forward_inv st st'.
Proof.
  intros [H1 H2]. unfold write_tls_step. destruct (write_available _ _) as [r [q w]] eqn:E.
  intros [= -> <-]. apply write_available_conserved in E as [Hq Hw]; [|done]. split.
  - exists [], []. cbn. rewrite !app_nil_r, len_nil, Z.add_0_r. done.
  - apply (tls_inv_refl st H2).
Qed.

Lemma when_inv b step st st' :
  (∀ s s', queues_wf s → step s = (Ok tt, s') → forward_inv s s') →
  queues_wf st → when b step st = (Ok tt, st') → forward_inv st st'.
Proof.
  intros Hstep Hq. unfold when. destruct b; [by apply Hstep|]. intros [= <-]. destruct Hq.
  split; [by apply pty_inv_refl|by apply tls_inv_refl].
Qed.

Lemma forward_loop_inv ticks st stats st' :
  queues_wf st → forward_loop ticks st = (Ok stats, st') → forward_inv st st' ∧ stats = f_stats st'.
Proof.
  revert st. induction ticks as [|t ticks IH]; intros st Hq; cbn [forward_loop]; [done|].
  assert (forward_inv st st) as Hrefl.
  { destruct Hq. split; [by apply pty_inv_refl|by apply tls_inv_refl]. }
  case_match; [by intros [= <- <-]|]. destruct (poll t _ _) as [[p q]|err]; [|done].
  case_match; [by intros [= <- <-]|].
  intros ([] & s1 & E1 & ([] & s2 & E2 & ([] & s3 & E3 & ([] & s4 & E4 & Hloop)%sbind_ok_inv)
    %sbind_ok_inv)%sbind_ok_inv)%sbind_ok_inv.
  apply (when_inv _ _ _ _ read_pty_step_inv) in E1; [|done].
  apply (when_inv _ _ _ _ read_tls_step_inv) in E2; [|by eapply forward_inv_queues].
  apply (when_inv _ _ _ _ write_pty_step_inv) in E3; [|by eapply forward_inv_queues].
  apply (when_inv _ _ _ _ write_tls_step_inv) in E4; [|by eapply forward_inv_queues].
  apply IH in Hloop as [Hl ->]; [|by eapply forward_inv_queues]. split; [|done].
  eauto using forward_inv_trans.
Qed.

(** C8: the pump is faithful in both directions.  When the loop ends normally,
    the bytes it took from the pty were decoded to some packets, and the frames
    of exactly these packets, in order, are what was written to the TLS side
    followed by what is still queued for it; likewise from TLS to the pty, with
    one encoder across all frames.  The statistics count these packets, the
    last address is the last one announced, and the callback was called once
    per change of address. *)
Theorem forward_transparent getfl setfl nonblocking ticks pty tls pw tw stats st :
  forward_with_callbacks getfl setfl nonblocking ticks pty tls pw tw = (Ok stats, st) →
  (∃ pieces packets,
    delivered pty = concat pieces ++ delivered (f_pty st) ∧
    push_all Io.new pieces = (Ok packets, f_pty_decoder st) ∧
    written (tls_w st) ++ pending (f_tls_out st) = written tw ++ tls_stream packets ∧
    pty_to_tls_packets stats = len packets) ∧
  (∃ pieces packets,
    delivered tls = concat pieces ++ delivered (f_tls st) ∧
    push_all new_tls_decoder pieces = (Ok packets, f_tls_decoder st) ∧
    written (pty_w st) ++ pending (f_pty_out st)
      = written pw ++ fst (encode_stream Hdlc.new packets) ∧
    tls_to_pty_packets stats = len packets ∧
    last_ipcp_ipv4 stats = last (addresses packets) ∧
    f_calls st = changes None (addresses packets)).
Proof.
  unfold forward_with_callbacks, lift. destruct (set_fd_nonblocking _ _); cbn [sbind]; try done.
  destruct nonblocking; cbn [sbind]; try done. intros H. apply forward_loop_inv in H as [[Hp Ht] ->].
  - destruct Hp as (pa & ps & A1 & A2 & A3 & A4 & _).
    destruct Ht as (b & qs & B1 & B2 & B3 & _ & B5 & B6 & B7 & _).
    cbn [initial f_pty f_tls f_pty_decoder f_tls_decoder f_hdlc_encoder f_tls_out f_pty_out
      pty_w tls_w f_stats f_calls app] in *.
    assert (pending new_queue = []) as Hn by reflexivity. rewrite Hn, app_nil_r in *.
    split; [exists pa, ps|exists b, qs]; split_and!; try done.
    rewrite B6. unfold last_address. by destruct (last _).
  - repeat split; cbn; done || constructor.
Qed.

Definition example_tick (out : bool) : tick :=
  {| should_stop := false;
     poll := λ _ _, inl ({| POLLIN := negb out; POLLOUT := out; POLLERR := false; POLLHUP := false; POLLNVAL := false |},
                         {| POLLIN := negb out; POLLOUT := out; POLLERR := false; POLLHUP := false; POLLNVAL := false |}) |}.

Definition hangup_tick : tick :=
  {| should_stop := false;
     poll := λ p q, inl ({| POLLIN := false; POLLOUT := false; POLLERR := false; POLLHUP := true; POLLNVAL := false |}, q) |}.

(** One packet each way, with reads cut in the middle and short writes. *)
Definition example_run : result ForwardStats * forwarding :=
  forward_with_callbacks None None (Ok tt) [example_tick false; example_tick true; hangup_tick]
    [RBytes [0x7e; 0xff; 0x7d; 0x23]; RBytes (drop 4 (fst (Hdlc.encode Hdlc.new [0xc0; 0x21; 1])));
     RError WouldBlock]
    [RBytes [0; 9; 0x50]; RBytes [0x50; 0; 3; 0xc0; 0x21; 2]; RError WouldBlock]
    {| written := []; w_script := [WAccept 2; WError WouldBlock] |}
    {| written := []; w_script := [WAccept 5; WAccept 1; WError WouldBlock] |}.

Lemma forward_transparent_witness :
  fst example_run = Ok {| pty_to_tls_packets := 1; tls_to_pty_packets := 1; last_ipcp_ipv4 := None |} ∧
  written (tls_w (snd example_run)) = [0; 9; 0x50; 0x50; 0; 3] ∧
  ∃ packets, written (tls_w (snd example_run)) ++ pending (f_tls_out (snd example_run))
    = [] ++ tls_stream packets ∧ 1 = len packets.
Proof.
  split; [vm_compute; reflexivity|]. split; [vm_compute; reflexivity|].
  assert (example_run = (Ok {| pty_to_tls_packets := 1; tls_to_pty_packets := 1; last_ipcp_ipv4 := None |},
    snd example_run)) as E by (vm_compute; reflexivity).
  destruct (forward_transparent _ _ _ _ _ _ _ _ _ _ E) as [(pieces & ps & _ & _ & H1 & H2) _].
  exists ps. split; [exact H1|exact H2].
Defined.
