(* ===== verification/Delivery.v ===== *)
(** * The forwarding loop delivers

    [Forward.forward_transparent] says that the loop of [tunnel/forward.rs]
    carries nothing but what it has read.  This file has the other half: while
    the two ends stay up and [poll] reports what is ready, everything that
    pppd and the gateway send arrives at the other end. *)

From S2P Require Import Prelude Stream Packet Hdlc Io Forward.

#[local] Open Scope list_scope.
#[local] Open Scope Z_scope.

(** ** Ends that stay up *)

(** What arrives between one turn of the loop and the next, cut in any way. *)
Definition arrivals (turns : list (list bytes)) : reader :=
  flat_map (λ chunks, chunked chunks ++ [RError WouldBlock]) turns.

(** How often a writer refuses, and one that does nothing worse. *)
Fixpoint refusals (s : list write_event) : nat :=
  match s with
  | [] => 0
  | WError _ :: s => S (refusals s)
  | _ :: s => refusals s
  end.

Definition patient (w : writer) : Prop :=
  Forall (λ e, match e with WAccept n => 0 < n | WError k => k = WouldBlock | WFlushError _ => True end) (w_script w).

(** [poll] reports input, and output where it was asked for. *)
Definition ready (asked answered : PollFlags) : Prop :=
  POLLIN answered = true ∧ (POLLOUT asked = true → POLLOUT answered = true) ∧ has_fatal_poll_event answered = false.

Definition goes_on (t : tick) : Prop :=
  should_stop t = false ∧ ∀ p q, ∃ p' q', poll t p q = inl (p', q') ∧ ready p p' ∧ ready q q'.

(** ** Reading *)

Lemma read_arrival n cs e r : 0 < n → nonempty_chunks cs → cs ≠ [] →
  ∃ piece cs', read n (chunked cs ++ e :: r) = (Ok piece, chunked cs' ++ e :: r) ∧ piece ≠ [] ∧ len piece <= n ∧
    concat cs = piece ++ concat cs' ∧ nonempty_chunks cs'.
Proof.
  intros Hn Hcs Hne. destruct Hcs as [|c cs Hc Hcs]; [done|]. cbn [chunked map app read concat].
  destruct (Z.leb_spec (len c) n); [by exists c, cs|].
  exists (take (Z.to_nat n) c), (drop (Z.to_nat n) c :: cs). split; [done|].
  split. { destruct c; [done|]. destruct (Z.to_nat n) eqn:E; [lia|done]. }
  split; [len_lia|]. split; [cbn [concat]; by rewrite app_assoc, take_drop|]. constructor; [|done].
  intros H0%(f_equal len). revert H0. len_lia.
Qed.

(** The pieces a loop reads of a stream. *)
Definition cut (piece : bytes) : Prop := piece ≠ [] ∧ len piece <= IO_BUFFER_SIZE.

Section Decoder.
Context {D P : Type} `{!StreamDecoder D P}.

(** However it is cut, the stream decodes to the packets. *)
Definition decodes (fresh : D) (stream : bytes) (packets : list P) : Prop :=
  ∀ pieces, Forall cut pieces → concat pieces = stream → ∃ d, push_all fresh pieces = (Ok packets, d).

Lemma decodes_next fresh stream packets done ps d piece rest :
  decodes fresh stream packets → Forall cut done → cut piece →
  push_all fresh done = (Ok ps, d) → concat done ++ piece ++ rest = stream →
  ∃ qs d', push d piece = (Ok qs, d') ∧ push_all fresh (done ++ [piece]) = (Ok (ps ++ qs), d') ∧
    (ps ++ qs) `prefix_of` packets.
Proof.
  intros Hdec Hdone Hpiece Hps Hstream.
  destruct (Hdec (done ++ piece :: map (λ b, [b]) rest)) as (d2 & H).
  - apply Forall_app. split; [done|]. constructor; [done|]. apply Forall_map, Forall_true.
    intros b. split; [done|]. vm_compute. discriminate.
  - rewrite concat_app. cbn [concat]. rewrite <- Hstream. do 2 f_equal.
    clear. induction rest as [|b rest IH]; [done|]. cbn. by rewrite IH.
  - apply push_all_app_inv in H as (p1 & d1 & p2 & H1 & H2 & ->). rewrite Hps in H1. injection H1 as <- <-.
    cbn [push_all] in H2. apply sbind_ok_inv in H2 as (qs & d' & Hpush & H2).
    apply sbind_ok_inv in H2 as (rs & d3 & _ & [= <- _]). exists qs, d'. split; [done|]. split.
    + eapply push_all_app; [done|]. cbn [push_all]. rewrite Hpush. cbn. by rewrite app_nil_r.
    + exists rs. by rewrite app_assoc.
Qed.

Lemma decodes_all fresh stream packets done ps d :
  decodes fresh stream packets → Forall cut done → push_all fresh done = (Ok ps, d) → concat done = stream → ps = packets.
Proof. intros Hdec Hd Hp Hs. destruct (Hdec done Hd Hs) as (d' & H). congruence. Qed.
End Decoder.

(** ** Writing *)

Lemma patient_write bs w r w' : patient w → bs ≠ [] → write bs w = (r, w') → patient w' ∧
  ((∃ n, r = Ok n ∧ 0 < n ∧ (refusals (w_script w') <= refusals (w_script w))%nat) ∨
   (∃ m, r = Err (Io WouldBlock m)) ∧ (refusals (w_script w') < refusals (w_script w))%nat).
Proof.
  unfold patient, write. intros Hp Hbs%len_pos. generalize (written w). intros out.
  induction Hp as [|e s He Hs IH]; cbn [write_script refusals].
  - intros [= <- <-]. split; [constructor|]. left. eauto.
  - destruct e as [n|k|k].
    + intros [= <- <-]. split; [done|]. left. eexists. split; [done|]. cbn. lia.
    + intros [= <- <-]. rewrite He. split; [done|]. right. cbn. split; [by eexists|lia].
    + apply IH.
Qed.

(** If nothing new arrives, a pass empties the queue or meets a refusal. *)
Definition shrinks (new : list bytes) (q : WriteQueue) (w : writer) (q' : WriteQueue) (w' : writer) : Prop :=
  (refusals (w_script w') <= refusals (w_script w))%nat ∧
  (new = [] → is_empty q' = true ∨ is_empty q = false ∧ (refusals (w_script w') < refusals (w_script w))%nat).

Lemma write_available_loop_patient fuel q w :
  queue_wf q → (length (concat (chunks q)) < fuel + Z.to_nat (offset q))%nat → patient w →
  ∃ q' w', write_available_loop fuel q w = (Ok tt, (q', w')) ∧ patient w' ∧
    shrinks [] q w q' w'.
Proof.
  revert q w. induction fuel as [|fuel IH]; intros [cs off] w (Hne & H0 & Hlt) Hf Hw;
    cbn [write_available_loop chunks offset] in *.
  { destruct cs as [|front rest]; [subst off; simpl in Hf; lia|].
    exfalso. cbn [concat] in Hf. rewrite length_app in Hf. unfold len in Hlt. lia. }
  destruct cs as [|front rest]; [eexists _, _; split; [reflexivity|]; split; [done|]; split; [lia|by left]|].
  rewrite slice_from_ok by lia. set (bs := drop (Z.to_nat off) front).
  assert (bs ≠ []) as Hd by (intros E%(f_equal len); change (len []) with 0 in E; revert E; unfold bs; len_lia).
  pose proof (write_spec bs w) as Hs. destruct (write bs w) as [r w'] eqn:E.
  destruct (patient_write bs w r w' Hw Hd E) as [Hw' [(n & -> & Hn & Hle)|[(m & ->) Hlt']]].
  - destruct Hs as [Hn' _]. unfold bs in Hn'. rewrite len_drop in Hn'. rewrite Z2Nat.id in Hn' by lia.
    rewrite (proj2 (Z.eqb_neq n 0)) by lia.
    destruct (advance_spec front rest off n fuel) as (Hq1 & _ & Hf1); [done|lia|done|].
    destruct (IH _ w' Hq1 Hf1 Hw') as (q' & w2 & -> & H2 & H3 & H4). exists q', w2.
    split; [done|]. split; [done|]. split; [lia|]. intros _. destruct (H4 eq_refl) as [|[_ ?]]; [by left|right; split; [done|lia]].
  - eexists _, _. split; [reflexivity|]. split; [done|]. split; [lia|]. intros _. right. by split; [|lia].
Qed.

Lemma write_available_patient q w : queue_wf q → patient w →
  ∃ q' w', write_available q w = (Ok tt, (q', w')) ∧ patient w' ∧ queue_wf q' ∧
    written w' ++ pending q' = written w ++ pending q ∧
    shrinks [] q w q' w'.
Proof.
  intros Hq Hw. destruct (write_available_loop_patient (queue_fuel q) q w Hq) as (q' & w' & E & H1 & H2); [|done|].
  { unfold queue_fuel. lia. }
  exists q', w'. unfold write_available. destruct (write_available_conserved q w (Ok tt) q' w' Hq E). by split_and!.
Qed.

(** ** Turning packets into frames *)

Lemma queue_for_tls_runs ps out stats :
  Forall framable ps → pty_to_tls_packets stats + len ps < 2 ^ 64 →
  ∃ x, queue_for_tls ps out stats = (Ok tt, x).
Proof.
  intros Hps. revert out stats. induction Hps as [|p ps [_ Hp] Hps IH]; intros out stats Hn; cbn [queue_for_tls]; [by eexists|].
  rewrite len_cons in Hn. pose proof (len_nonneg ps).
  rewrite encode_for_tls_eq. zbool. unfold lift, u64_add. cbn [sbind].
  rewrite (proj2 (Z.ltb_lt _ _)) by lia. cbn [sbind]. apply IH. cbn. lia.
Qed.

(** Scanning a packet for an address never answers an error. *)
Definition no_error {A} (r : result A) : Prop := match r with Err _ => False | _ => True end.

Lemma no_error_bind {A B} (r : result A) (f : A → result B) : no_error r → (∀ a, no_error (f a)) → no_error (bind r f).
Proof. destruct r; cbn; auto. Qed.

Lemma no_error_index {A} (l : list A) i : no_error (index l i).
Proof. unfold index. by repeat case_match. Qed.

#[local] Hint Resolve no_error_bind no_error_index : core.

Lemma ipcp_option_loop_no_error fuel p offset end_ : no_error (ipcp_option_loop fuel p offset end_).
Proof.
  revert offset. induction fuel as [|fuel IH]; intros offset; cbn [ipcp_option_loop]; (case_match; [|exact I]); [done|].
  apply no_error_bind; [done|intros a]. apply no_error_bind; [done|intros b].
  case_match; [exact I|]. case_match; [|apply IH].
  do 4 (apply no_error_bind; [done|intros ?]). exact I.
Qed.

Lemma ipcp_ipv4_address_total p : is_bytes (data p) → ∃ o, ipcp_ipv4_address p = Ok o.
Proof.
  intros Hb. assert (returns (ipcp_ipv4_address p)) as Hr by (by apply (packet_operations_return [] p)).
  assert (no_error (ipcp_ipv4_address p)) as Hn.
  { unfold ipcp_ipv4_address, be16_at, index_eq. apply no_error_bind.
    - destruct (len (data p) <? 10); cbn; [done|].
      destruct (index (data p) 0) as [x| | |] eqn:E0; cbn; try done; [|by pose proof (no_error_index (data p) 0) as H; rewrite E0 in H].
      destruct (negb _); cbn; [done|]. apply no_error_bind; [apply no_error_bind; [done|by intros]|by intros].
    - intros []; [done|]. apply no_error_bind; [|intros n; case_match; [done|apply ipcp_option_loop_no_error]].
      apply no_error_bind; [done|intros ?]. apply no_error_bind; [done|by intros]. }
  destruct (ipcp_ipv4_address p) as [o| | |]; try done. by exists o.
Qed.

Lemma queue_for_pty_runs ps encoder out stats calls :
  Forall (λ p, is_bytes (data p)) ps → tls_to_pty_packets stats + len ps < 2 ^ 64 →
  ∃ x, queue_for_pty ps encoder out stats calls = (Ok tt, x).
Proof.
  intros Hps. revert encoder out stats calls.
  induction Hps as [|p ps Hp Hps IH]; intros encoder out stats calls Hn; cbn [queue_for_pty]; [by eexists|].
  rewrite len_cons in Hn. pose proof (len_nonneg ps).
  destruct (ipcp_ipv4_address_total p Hp) as (o & ->). cbn [lift sbind].
  destruct (encode_packet_for_pty encoder p) as [frame encoder1]. unfold lift, u64_add.
  rewrite (proj2 (Z.ltb_lt _ _)) by lia. cbn [sbind]. apply IH. cbn. lia.
Qed.

(** ** The two directions

    What has been done with the bytes [got] of one side: they were decoded to
    packets whose frames were written to the other side or wait for it. *)

Section Directions.
Context (ps qs : list PppPacket) (from_pty from_tls : bytes) (pw tw : bytes).
Context (Hps : decodes Io.new from_pty ps) (Hframable : Forall framable ps) (Hmany : len ps < 2 ^ 64).
Context (Hqs : decodes new_tls_decoder from_tls qs) (Hbytes : Forall (λ p, is_bytes (data p)) qs) (Hmany' : len qs < 2 ^ 64).

Definition outbound (got : bytes) (decoder : PppdPtyDecoder) (q : WriteQueue) (stats : ForwardStats) (w : writer) : Prop :=
  queue_wf q ∧ ∃ done sofar, concat done = got ∧ Forall cut done ∧ push_all Io.new done = (Ok sofar, decoder) ∧
    written w ++ pending q = tw ++ tls_stream sofar ∧ pty_to_tls_packets stats = len sofar.

Definition inbound (got : bytes) (decoder : TlsPacketStreamDecoder) (encoder : HdlcCodec) (q : WriteQueue)
    (stats : ForwardStats) (calls : list Ipv4Addr) (w : writer) : Prop :=
  queue_wf q ∧ ∃ done sofar, concat done = got ∧ Forall cut done ∧ push_all new_tls_decoder done = (Ok sofar, decoder) ∧
    written w ++ pending q = pw ++ fst (encode_stream Hdlc.new sofar) ∧ encoder = snd (encode_stream Hdlc.new sofar) ∧
    tls_to_pty_packets stats = len sofar ∧ last_ipcp_ipv4 stats = last_address None (addresses sofar) ∧
    calls = changes None (addresses sofar).

Lemma outbound_piece got piece rest decoder q stats w :
  got ++ piece ++ rest = from_pty → cut piece → outbound got decoder q stats w →
  ∃ news decoder' q' stats', Io.push_bytes decoder piece = (Ok news, decoder') ∧
    queue_for_tls news q stats = (Ok tt, (q', stats')) ∧ outbound (got ++ piece) decoder' q' stats' w ∧
    tls_to_pty_packets stats' = tls_to_pty_packets stats ∧ last_ipcp_ipv4 stats' = last_ipcp_ipv4 stats.
Proof.
  intros Hs Hc (Hq & done & sofar & <- & Hd & Hp & Hw & Hn).
  destruct (decodes_next _ _ _ _ _ _ _ _ Hps Hd Hc Hp Hs) as (news & decoder' & Hpush & Hall & Hpre).
  pose proof (prefix_length _ _ Hpre) as Hlen. destruct Hpre as [more Hmore].
  assert (Forall framable news) as Hf by (rewrite Hmore, !Forall_app in Hframable; tauto).
  destruct (queue_for_tls_runs news q stats Hf) as ([q' stats'] & Hrun).
  { rewrite Hn. unfold len in *. rewrite length_app in Hlen. lia. }
  destruct (queue_for_tls_ok _ _ _ _ _ Hq Hrun) as (Hq' & Hpend & ->).
  exists news, decoder', q'. eexists. split; [exact Hpush|]. split; [exact Hrun|]. split; [|done]. split; [done|].
  exists (done ++ [piece]), (sofar ++ news). rewrite concat_app. cbn [concat]. rewrite app_nil_r. split; [done|].
  split; [apply Forall_app; auto|]. split; [exact Hall|]. rewrite tls_stream_app, Hpend, app_assoc, Hw, <- app_assoc.
  split; [done|]. cbn. rewrite Hn. by len_lia.
Qed.

Lemma inbound_piece got piece rest decoder encoder q stats calls w :
  got ++ piece ++ rest = from_tls → cut piece → inbound got decoder encoder q stats calls w →
  ∃ news decoder' encoder' q' stats' calls', tls_push_bytes decoder piece = (Ok news, decoder') ∧
    queue_for_pty news encoder q stats calls = (Ok tt, (encoder', q', stats', calls')) ∧
    inbound (got ++ piece) decoder' encoder' q' stats' calls' w ∧ pty_to_tls_packets stats' = pty_to_tls_packets stats.
Proof.
  intros Hs Hc (Hq & done & sofar & <- & Hd & Hp & Hw & -> & Hn & Hl & ->).
  destruct (decodes_next _ _ _ _ _ _ _ _ Hqs Hd Hc Hp Hs) as (news & decoder' & Hpush & Hall & Hpre).
  pose proof (prefix_length _ _ Hpre) as Hlen. destruct Hpre as [more Hmore].
  assert (Forall (λ p, is_bytes (data p)) news) as Hf by (rewrite Hmore, !Forall_app in Hbytes; tauto).
  destruct (queue_for_pty_runs news (snd (encode_stream Hdlc.new sofar)) q stats (changes None (addresses sofar)) Hf)
    as ([[[encoder' q'] stats'] calls'] & Hrun).
  { rewrite Hn. unfold len in *. rewrite length_app in Hlen. lia. }
  destruct (queue_for_pty_ok _ _ _ _ _ _ _ _ _ Hq Hrun) as (Hq' & Hpend & -> & -> & ->).
  eexists news, decoder', _, q', _, _. split; [exact Hpush|]. split; [exact Hrun|]. split; [|done]. split; [done|].
  exists (done ++ [piece]), (sofar ++ news). rewrite concat_app. cbn [concat]. rewrite app_nil_r. split; [done|].
  split; [apply Forall_app; auto|]. split; [exact Hall|].
  rewrite encode_stream_app, addresses_app, last_address_app, changes_app, Hpend, app_assoc, Hw, <- app_assoc, <- Hl.
  cbn [fst snd tls_to_pty_packets last_ipcp_ipv4]. rewrite Hn. split_and!; try done. by len_lia.
Qed.

(** One turn reads what has arrived and stops when there is no more. *)
Lemma read_pty_turn fuel cs r s got rest w :
  pty_r s = chunked cs ++ RError WouldBlock :: r → nonempty_chunks cs → got ++ concat cs ++ rest = from_pty →
  outbound got (pty_decoder s) (tls_out s) (p_stats s) w → (reader_fuel (pty_r s) <= fuel)%nat →
  ∃ s', read_pty_loop fuel s = (Ok tt, s') ∧ pty_r s' = r ∧
    outbound (got ++ concat cs) (pty_decoder s') (tls_out s') (p_stats s') w ∧ (cs = [] → tls_out s' = tls_out s) ∧
    tls_to_pty_packets (p_stats s') = tls_to_pty_packets (p_stats s) ∧
    last_ipcp_ipv4 (p_stats s') = last_ipcp_ipv4 (p_stats s).
Proof.
  revert cs s got. induction fuel as [|fuel IH]; intros cs s got Hr Hcs Hs Ho Hf.
  { rewrite Hr in Hf. destruct cs; cbn in Hf; lia. }
  cbn [read_pty_loop]. rewrite Hr. destruct (decide (cs = [])) as [->|Hne].
  - cbn. eexists. split; [reflexivity|]. cbn. rewrite app_nil_r. by split_and!.
  - destruct (read_arrival IO_BUFFER_SIZE cs (RError WouldBlock) r) as (piece & cs' & Hread & Hp & Hl & Hcat & Hcs'); [done..|].
    rewrite Hread. rewrite Hr in Hf. destruct piece as [|b piece]; [done|]. apply read_fuel in Hread; [|done].
    set (l := b :: piece) in *. rewrite Hcat, <- app_assoc in Hs.
    destruct (outbound_piece got l (concat cs' ++ rest) (pty_decoder s) (tls_out s) (p_stats s) w Hs) as (news & decoder' & q' & stats' & -> & Hq & Ho' & E1 & E2);
      [done|exact Ho|].
    cbn [lift sbind]. cbn [tls_out p_stats]. rewrite Hq. cbn [sbind].
    destruct (IH cs' {| pty_r := chunked cs' ++ RError WouldBlock :: r; pty_decoder := decoder'; tls_out := q'; p_stats := stats' |}
      (got ++ l)) as (s' & -> & F1 & F2 & _ & F4 & F5); [done|done|by rewrite <- app_assoc|done|cbn [pty_r]; lia|].
    exists s'. rewrite Hcat, app_assoc. cbn [p_stats] in *. split_and!; try done; congruence.
Qed.

Lemma read_tls_turn fuel cs r s got rest w :
  tls_r s = chunked cs ++ RError WouldBlock :: r → nonempty_chunks cs → got ++ concat cs ++ rest = from_tls →
  inbound got (tls_decoder s) (hdlc_encoder s) (pty_out s) (t_stats s) (ipcp_calls s) w → (reader_fuel (tls_r s) <= fuel)%nat →
  ∃ s', read_tls_loop fuel s = (Ok tt, s') ∧ tls_r s' = r ∧
    inbound (got ++ concat cs) (tls_decoder s') (hdlc_encoder s') (pty_out s') (t_stats s') (ipcp_calls s') w ∧
    (cs = [] → pty_out s' = pty_out s) ∧ pty_to_tls_packets (t_stats s') = pty_to_tls_packets (t_stats s).
Proof.
  revert cs s got. induction fuel as [|fuel IH]; intros cs s got Hr Hcs Hs Ho Hf.
  { rewrite Hr in Hf. destruct cs; cbn in Hf; lia. }
  cbn [read_tls_loop]. rewrite Hr. destruct (decide (cs = [])) as [->|Hne].
  - cbn. eexists. split; [reflexivity|]. cbn. rewrite app_nil_r. by split_and!.
  - destruct (read_arrival IO_BUFFER_SIZE cs (RError WouldBlock) r) as (piece & cs' & Hread & Hp & Hl & Hcat & Hcs'); [done..|].
    rewrite Hread. rewrite Hr in Hf. destruct piece as [|b piece]; [done|]. apply read_fuel in Hread; [|done].
    set (l := b :: piece) in *. rewrite Hcat, <- app_assoc in Hs.
    destruct (inbound_piece got l (concat cs' ++ rest) (tls_decoder s) (hdlc_encoder s) (pty_out s) (t_stats s) (ipcp_calls s) w Hs)
      as (news & decoder' & encoder' & q' & stats' & calls' & -> & Hq & Ho' & E1); [done|exact Ho|].
    cbn [lift sbind]. cbn [hdlc_encoder pty_out t_stats ipcp_calls]. rewrite Hq. cbn [sbind].
    destruct (IH cs' {| tls_r := chunked cs' ++ RError WouldBlock :: r; tls_decoder := decoder'; hdlc_encoder := encoder';
      pty_out := q'; t_stats := stats'; ipcp_calls := calls' |} (got ++ l))
      as (s' & -> & F1 & F2 & _ & F4); [done|done|by rewrite <- app_assoc|done|cbn [tls_r]; lia|].
    exists s'. rewrite Hcat, app_assoc. cbn [t_stats] in *. split_and!; try done; congruence.
Qed.

(** ** The loop *)

Definition both (got got' : bytes) (st : forwarding) : Prop :=
  outbound got (f_pty_decoder st) (f_tls_out st) (f_stats st) (tls_w st) ∧
  inbound got' (f_tls_decoder st) (f_hdlc_encoder st) (f_pty_out st) (f_stats st) (f_calls st) (pty_w st) ∧
  patient (tls_w st) ∧ patient (pty_w st).

Definition same_tls_side (st st' : forwarding) : Prop :=
  f_tls st' = f_tls st ∧ f_pty_out st' = f_pty_out st ∧ pty_w st' = pty_w st.
Definition same_pty_side (st st' : forwarding) : Prop :=
  f_pty st' = f_pty st ∧ f_tls_out st' = f_tls_out st ∧ tls_w st' = tls_w st.

Lemma read_pty_step_ok cs r st got got' rest :
  f_pty st = chunked cs ++ RError WouldBlock :: r → nonempty_chunks cs → got ++ concat cs ++ rest = from_pty →
  both got got' st →
  ∃ st', read_pty_step st = (Ok tt, st') ∧ f_pty st' = r ∧ both (got ++ concat cs) got' st' ∧
    same_tls_side st st' ∧ tls_w st' = tls_w st ∧ (cs = [] → f_tls_out st' = f_tls_out st).
Proof.
  intros Hr Hcs Hs (Ho & (Hq & done & sofar & Hi) & P1 & P2). unfold read_pty_step, read_pty_into_tls_queue.
  set (s := {| pty_r := f_pty st; pty_decoder := _; tls_out := _; p_stats := _ |}).
  destruct (read_pty_turn (reader_fuel (pty_r s)) cs r s got rest (tls_w st)) as (s' & -> & E1 & E2 & E3 & E4 & E5); [done..|].
  eexists. split; [reflexivity|]. split; [exact E1|]. split; [|by split_and!].
  split; [exact E2|]. split; [|done]. split; [exact Hq|]. exists done, sofar. cbn. by rewrite E4, E5.
Qed.

Lemma read_tls_step_ok cs r st got got' rest :
  f_tls st = chunked cs ++ RError WouldBlock :: r → nonempty_chunks cs → got' ++ concat cs ++ rest = from_tls →
  both got got' st →
  ∃ st', read_tls_step st = (Ok tt, st') ∧ f_tls st' = r ∧ both got (got' ++ concat cs) st' ∧
    same_pty_side st st' ∧ pty_w st' = pty_w st ∧ (cs = [] → f_pty_out st' = f_pty_out st).
Proof.
  intros Hr Hcs Hs ((Hq & done & sofar & Ho) & Hi & P1 & P2). unfold read_tls_step, read_tls_into_pty_queue.
  set (s := {| tls_r := f_tls st; tls_decoder := _; hdlc_encoder := _; pty_out := _; t_stats := _; ipcp_calls := _ |}).
  destruct (read_tls_turn (reader_fuel (tls_r s)) cs r s got' rest (pty_w st)) as (s' & -> & E1 & E2 & E3 & E4); [done..|].
  eexists. split; [reflexivity|]. split; [exact E1|]. split; [|by split_and!].
  split; [|by split]. split; [exact Hq|]. exists done, sofar. cbn. by rewrite E4.
Qed.

(** A turn writes what waits, if it was asked for; otherwise nothing waits. *)
Lemma write_pty_step_ok st got got' b : both got got' st →
  ∃ st', when b write_pty_step st = (Ok tt, st') ∧ both got got' st' ∧ same_pty_side st st' ∧ f_tls st' = f_tls st ∧
    (b = true ∨ is_empty (f_pty_out st) = true → shrinks [] (f_pty_out st) (pty_w st) (f_pty_out st') (pty_w st')) ∧
    (refusals (w_script (pty_w st')) <= refusals (w_script (pty_w st)))%nat.
Proof.
  intros (Ho & Hi & P1 & P2). destruct b; cbn [when].
  - unfold write_pty_step. pose proof Hi as [Hq _].
    destruct (write_available_patient _ _ Hq P2) as (q & w & -> & Hp & Hq' & Hw & Hs).
    eexists. split; [reflexivity|]. split; [|split; [done|split; [done|split; [by intros|by destruct Hs]]]].
    split; [exact Ho|]. split; [|done]. split; [exact Hq'|]. destruct Hi as [_ Hi]. cbn. by rewrite Hw.
  - exists st. split; [done|]. split; [done|]. split; [done|]. split; [done|]. split; [|lia]. intros [[=]|He]. split; [lia|by left].
Qed.

Lemma write_tls_step_ok st got got' b : both got got' st →
  ∃ st', when b write_tls_step st = (Ok tt, st') ∧ both got got' st' ∧ same_tls_side st st' ∧ f_pty st' = f_pty st ∧
    (b = true ∨ is_empty (f_tls_out st) = true → shrinks [] (f_tls_out st) (tls_w st) (f_tls_out st') (tls_w st')) ∧
    (refusals (w_script (tls_w st')) <= refusals (w_script (tls_w st)))%nat.
Proof.
  intros (Ho & Hi & P1 & P2). destruct b; cbn [when].
  - unfold write_tls_step. pose proof Ho as [Hq _].
    destruct (write_available_patient _ _ Hq P1) as (q & w & -> & Hp & Hq' & Hw & Hs).
    eexists. split; [reflexivity|]. split; [|split; [done|split; [done|split; [by intros|by destruct Hs]]]].
    split; [|by split]. split; [exact Hq'|]. destruct Ho as [_ Ho]. cbn. by rewrite Hw.
  - exists st. split; [done|]. split; [done|]. split; [done|]. split; [done|]. split; [|lia]. intros [[=]|He]. split; [lia|by left].
Qed.

(** What a turn does to the two queues. *)
Definition both_shrink (cs cs' : list bytes) (st st' : forwarding) : Prop :=
  shrinks cs (f_tls_out st) (tls_w st) (f_tls_out st') (tls_w st') ∧
  shrinks cs' (f_pty_out st) (pty_w st) (f_pty_out st') (pty_w st').

Lemma quiet_turn_runs t cs cs' r r' rest rest' st got got' : goes_on t → both got got' st →
  f_pty st = chunked cs ++ RError WouldBlock :: r → nonempty_chunks cs → got ++ concat cs ++ rest = from_pty →
  f_tls st = chunked cs' ++ RError WouldBlock :: r' → nonempty_chunks cs' → got' ++ concat cs' ++ rest' = from_tls →
  ∃ st', (∀ ticks, forward_loop (t :: ticks) st = forward_loop ticks st') ∧
    both (got ++ concat cs) (got' ++ concat cs') st' ∧ f_pty st' = r ∧ f_tls st' = r' ∧ both_shrink cs cs' st st'.
Proof.
  intros [Hstop Hpoll] Hb Hr Hcs Hs Hr' Hcs' Hs'.
  destruct (Hpoll (requested (f_pty_out st)) (requested (f_tls_out st))) as (p & q & Ep & (I1 & O1 & F1) & (I2 & O2 & F2)).
  destruct (read_pty_step_ok cs r st got got' rest) as (s1 & E1 & A1 & B1 & (C1 & C2 & C3) & D1 & Q1); [done..|].
  destruct (read_tls_step_ok cs' r' s1 (got ++ concat cs) got' rest') as (s2 & E2 & A2 & B2 & (C4 & C5 & C6) & D2 & Q2);
    [congruence|done..|].
  destruct (write_pty_step_ok s2 _ _ (POLLOUT p) B2) as (s3 & E3 & B3 & (C7 & C8 & C9) & D3 & S3 & L3).
  destruct (write_tls_step_ok s3 _ _ (POLLOUT q) B3) as (s4 & E4 & B4 & (C10 & C11 & C12) & D4 & S4 & L4).
  exists s4. split.
  { intros ticks. cbn [forward_loop]. rewrite Hstop, Ep, F1, F2, I1, I2. cbn [orb when].
    rewrite E1. cbn [sbind]. rewrite E2. cbn [sbind]. rewrite E3. cbn [sbind]. rewrite E4. done. }
  split; [done|]. split; [congruence|]. split; [congruence|]. unfold both_shrink, shrinks in *. split.
  - rewrite C8, C9, C5, C6, D1 in *. split; [done|]. intros Hnil. rewrite (Q1 Hnil) in *. apply S4; [|done].
    destruct (is_empty (f_tls_out st)) eqn:E; [by right|left]. apply O2. cbn. by rewrite E.
  - rewrite C11, C12, D2, C3 in *. split; [done|]. intros Hnil. rewrite (Q2 Hnil), C2 in S3. apply S3; [|done].
    destruct (is_empty (f_pty_out st)) eqn:E; [by right|left]. apply O1. cbn. by rewrite E.
Qed.

(** What [k] turns without input do to a queue: it empties, unless the writer refuses in each. *)
Definition waits (k : nat) (q : WriteQueue) (w : writer) (q' : WriteQueue) (w' : writer) : Prop :=
  is_empty q' = true ∨ is_empty q = false ∧ (refusals (w_script w') + k <= refusals (w_script w))%nat.

Lemma waits_refl q w : waits 0 q w q w.
Proof. unfold waits. destruct (is_empty q); [by left|right]. split; [done|lia]. Qed.

Lemma waits_step k q w q1 w1 q2 w2 : shrinks [] q w q1 w1 → waits k q1 w1 q2 w2 → waits (S k) q w q2 w2.
Proof.
  intros [_ Hs] [He|[He Hk]]; [by left|]. destruct (Hs eq_refl) as [|[Hq Hlt]]; [congruence|]. right. split; [done|lia].
Qed.

(** What is read in a sequence of turns. *)
Definition input (turns : list (list bytes)) : bytes := concat (concat turns).

Lemma run_turns turns ticks st got got' rest rest' r r' :
  length ticks = length turns → Forall goes_on ticks →
  Forall (λ t, nonempty_chunks t.1 ∧ nonempty_chunks t.2) turns → both got got' st →
  f_pty st = arrivals (map fst turns) ++ r → f_tls st = arrivals (map snd turns) ++ r' →
  got ++ input (map fst turns) ++ rest = from_pty → got' ++ input (map snd turns) ++ rest' = from_tls →
  ∃ st', (∀ more, forward_loop (ticks ++ more) st = forward_loop more st') ∧
    both (got ++ input (map fst turns)) (got' ++ input (map snd turns)) st' ∧ f_pty st' = r ∧ f_tls st' = r' ∧
    (refusals (w_script (tls_w st')) <= refusals (w_script (tls_w st)))%nat ∧
    (refusals (w_script (pty_w st')) <= refusals (w_script (pty_w st)))%nat ∧
    (Forall (λ t, t = ([], [])) turns →
      waits (length turns) (f_tls_out st) (tls_w st) (f_tls_out st') (tls_w st') ∧
      waits (length turns) (f_pty_out st) (pty_w st) (f_pty_out st') (pty_w st')).
Proof.
  unfold input. revert ticks st got got'. induction turns as [|[cs cs'] turns IH]; intros [|t ticks] st got got' Hn Ht Hturns Hb Hr Hr' Hs Hs';
    try done; cbn [map arrivals flat_map concat] in *.
  { exists st. rewrite !app_nil_r. split_and!; try done. intros _. split; apply waits_refl. }
  apply Forall_cons in Ht as [Ht Hts]. apply Forall_cons in Hturns as [[Hcs Hcs'] Hturns]. cbn [fst snd] in *.
  rewrite concat_app, <- app_assoc in Hs, Hs'. rewrite <- !app_assoc in Hr, Hr'.
  destruct (quiet_turn_runs t cs cs' _ _ _ _ st got got' Ht Hb Hr Hcs Hs Hr' Hcs' Hs') as (s1 & E1 & B1 & R1 & R1' & [S1 S1']).
  rewrite app_assoc in Hs, Hs'.
  destruct (IH ticks s1 _ _ ltac:(by injection Hn) Hts Hturns B1 R1 R1' Hs Hs') as (s2 & E2 & B2 & R2 & R2' & L2 & L2' & W2).
  exists s2. rewrite !concat_app, !app_assoc. split; [intros more; cbn [app]; by rewrite E1|].
  pose proof (proj1 S1). pose proof (proj1 S1'). split_and!; try done; try lia.
  intros [[= -> ->] Hq]%Forall_cons. destruct (W2 Hq). split; by eapply waits_step.
Qed.
End Directions.

(** ** Everything arrives *)

Lemma pty_decodes ps : Forall sendable ps → Forall (λ p, len (data p) <= 30716) ps →
  decodes Io.new (fst (encode_stream Hdlc.new ps)) ps.
Proof.
  intros Hs Hl pieces Hp Hcat. destruct ps as [|p ps].
  - destruct Hp as [|piece pieces [Hne _] _]; [by eexists|]. cbn in Hcat. destruct piece; done.
  - eexists. apply pty_stream_decodes; [done..| |done]. eapply Forall_impl; [exact Hp|]. by intros piece [_ ?].
Qed.

Lemma tls_decodes qs : Forall framable qs → decodes new_tls_decoder (tls_stream qs) qs.
Proof.
  intros Hq pieces Hp Hcat. destruct Hp as [|piece pieces Hc Hp].
  - destruct Hq as [|q qs [Hne Hl] _]; [by eexists|]. cbn in Hcat. apply (f_equal len) in Hcat. revert Hcat.
    rewrite len_app, tls_frame_len. change (len []) with 0. unfold HEADER_LEN.
    pose proof (len_nonneg (data q)). pose proof (len_nonneg (tls_stream qs)). unfold tls_stream in *. lia.
  - eexists. by apply tls_stream_transparent.
Qed.

Lemma input_quiet turns k : input (turns ++ replicate k []) = input turns.
Proof.
  unfold input. rewrite concat_app. assert (concat (replicate k ([] : list bytes)) = []) as ->.
  { induction k as [|k IH]; [done|]. done. }
  by rewrite app_nil_r.
Qed.

Lemma pending_empty q : is_empty q = true → pending q = [].
Proof. unfold is_empty, pending. destruct (chunks q); [cbn; by rewrite drop_nil|done]. Qed.

Lemma framable_ps ps : Forall sendable ps → Forall (λ p, len (data p) <= 30716) ps → Forall framable ps.
Proof.
  intros Hs Hl. induction Hs as [|p ps [_ Hp] Hs IH]; [constructor|]. apply Forall_cons in Hl as [Hl Hls].
  constructor; [|by apply IH]. split; [done|]. cbn in Hl. lia.
Qed.

Lemma arrivals_app a b : arrivals (a ++ b) = arrivals a ++ arrivals b.
Proof. apply flat_map_app. Qed.

(** The whole run: what arrives is read, then what waits is written. *)
Lemma run_all ps qs from_pty from_tls pw tw :
  decodes Io.new from_pty ps → Forall framable ps → len ps < 2 ^ 64 →
  decodes new_tls_decoder from_tls qs → Forall (λ q, is_bytes (data q)) qs → len qs < 2 ^ 64 →
  ∀ turns k ticks pr tr, Forall (λ t, nonempty_chunks t.1 ∧ nonempty_chunks t.2) turns →
  input (map fst turns) = from_pty → input (map snd turns) = from_tls →
  patient tw → patient pw → (refusals (w_script tw) < k)%nat → (refusals (w_script pw) < k)%nat →
  Forall goes_on ticks → length ticks = (length turns + k)%nat →
  ∃ st, (∀ more, forward_loop (ticks ++ more)
      (initial (arrivals (map fst turns ++ replicate k []) ++ pr) (arrivals (map snd turns ++ replicate k []) ++ tr) pw tw) =
      forward_loop more st) ∧
    both (written pw) (written tw) from_pty from_tls st ∧ f_pty st = pr ∧ f_tls st = tr ∧
    is_empty (f_tls_out st) = true ∧ is_empty (f_pty_out st) = true.
Proof.
  intros Hdec Hf Hn Hdec' Hb Hn' turns k ticks pr tr Hturns Hin Hin' Hw Hw' Hk Hk' Hticks Hlen.
  rewrite <- (take_drop (length turns) ticks) in Hticks |- *. apply Forall_app in Hticks as [Ht1 Ht2].
  set (quiet := replicate k ([] : list bytes, [] : list bytes)).
  assert (map fst quiet = replicate k [] ∧ map snd quiet = replicate k []) as [Q1 Q2].
  { unfold quiet. clear. induction k as [|k [IH1 IH2]]; [done|]. cbn. by rewrite IH1, IH2. }
  assert (Forall (λ t : list bytes * list bytes, t = ([], [])) quiet) as Hquiet by (by apply Forall_replicate).
  rewrite !arrivals_app, <- !app_assoc.
  destruct (run_turns ps qs from_pty from_tls (written pw) (written tw) Hdec Hf Hn Hdec' Hb Hn' turns (take (length turns) ticks)
    (initial (arrivals (map fst turns) ++ arrivals (replicate k []) ++ pr)
       (arrivals (map snd turns) ++ arrivals (replicate k []) ++ tr) pw tw) [] [] [] []
    (arrivals (replicate k []) ++ pr) (arrivals (replicate k []) ++ tr)) as (s1 & E1 & B1 & R1 & R1' & L1 & L1' & _); try done.
  { rewrite length_take. lia. }
  { split_and!; try done; (split; [repeat split; done || constructor|]); exists [], []; cbn; by rewrite ?app_nil_r. }
  { by rewrite app_nil_r. }
  { by rewrite app_nil_r. }
  destruct (run_turns ps qs from_pty from_tls (written pw) (written tw) Hdec Hf Hn Hdec' Hb Hn' quiet (drop (length turns) ticks)
    s1 from_pty from_tls [] [] pr tr) as (s2 & E2 & B2 & R2 & R2' & L2 & L2' & W2); try done.
  { unfold quiet. rewrite length_drop, length_replicate. lia. }
  { eapply Forall_impl; [exact Hquiet|]. by intros ? ->. }
  { by rewrite <- Hin, <- Hin'. }
  { by rewrite Q1. }
  { by rewrite Q2. }
  { rewrite Q1, app_nil_r. rewrite <- (app_nil_r from_pty) at 2. f_equal. by rewrite <- (app_nil_l (replicate k [])), input_quiet. }
  { rewrite Q2, app_nil_r. rewrite <- (app_nil_r from_tls) at 2. f_equal. by rewrite <- (app_nil_l (replicate k [])), input_quiet. }
  rewrite Q1, Q2, <- (app_nil_l (replicate k [])), input_quiet, !app_nil_r in B2.
  destruct (W2 Hquiet) as [W W']. unfold quiet in W, W'. rewrite length_replicate in W, W'. cbn [initial tls_w pty_w] in *.
  exists s2. split_and!; try done.
  - intros more. by rewrite <- app_assoc, E1, E2.
  - destruct W as [|[_ ?]]; [done|lia].
  - destruct W' as [|[_ ?]]; [done|lia].
Qed.

(** C7: While both ends stay up, everything arrives.  pppd writes the frames of
    [ps] and the gateway those of [qs], cut in any way and arriving over any
    number of turns of the loop; [poll] reports what is ready; the two sides
    take what they are given, in pieces of any size and with up to [k - 1]
    refusals each.  Then after [k] more turns the gateway has been sent the
    frames of exactly [ps] and pppd those of exactly [qs], nothing waits, the
    statistics have counted every packet, and every change of the announced
    address was reported. *)
Theorem forward_delivers ps qs turns k ticks last_tick pw tw pr tr :
  Forall sendable ps → Forall (λ p, len (data p) <= 30716) ps → len ps < 2 ^ 64 →
  Forall framable qs → Forall (λ q, is_bytes (data q)) qs → len qs < 2 ^ 64 →
  Forall (λ t, nonempty_chunks t.1 ∧ nonempty_chunks t.2) turns →
  input (map fst turns) = fst (encode_stream Hdlc.new ps) → input (map snd turns) = tls_stream qs →
  patient tw → patient pw → (refusals (w_script tw) < k)%nat → (refusals (w_script pw) < k)%nat →
  Forall goes_on ticks → length ticks = (length turns + k)%nat → should_stop last_tick = true →
  ∃ st, forward_with_callbacks None None (Ok tt) (ticks ++ [last_tick])
      (arrivals (map fst turns ++ replicate k []) ++ pr) (arrivals (map snd turns ++ replicate k []) ++ tr) pw tw =
      (Ok {| pty_to_tls_packets := len ps; tls_to_pty_packets := len qs; last_ipcp_ipv4 := last (addresses qs) |}, st) ∧
    written (tls_w st) = written tw ++ tls_stream ps ∧
    written (pty_w st) = written pw ++ fst (encode_stream Hdlc.new qs) ∧
    f_calls st = changes None (addresses qs) ∧ f_pty st = pr ∧ f_tls st = tr.
Proof.
  intros Hs Hl Hn Hq Hb Hn' Hturns Hin Hin' Hw Hw' Hk Hk' Hticks Hlen Hstop.
  pose proof (pty_decodes ps Hs Hl) as Hdec. pose proof (tls_decodes qs Hq) as Hdec'.
  destruct (run_all ps qs _ _ pw tw Hdec (framable_ps ps Hs Hl) Hn Hdec' Hb Hn' turns k ticks pr tr)
    as (st & E & (Ho & Hi & _) & R & R' & He & He'); [done..|].
  destruct Ho as (_ & done & sofar & Hd & Hc & Hp & Hwr & Hcnt).
  destruct Hi as (_ & done' & sofar' & Hd' & Hc' & Hp' & Hwr' & _ & Hcnt' & Hlast & Hcalls).
  pose proof (decodes_all _ _ _ _ _ _ Hdec Hc Hp Hd) as ->. pose proof (decodes_all _ _ _ _ _ _ Hdec' Hc' Hp' Hd') as ->.
  rewrite (pending_empty _ He), app_nil_r in Hwr. rewrite (pending_empty _ He'), app_nil_r in Hwr'.
  exists st. split; [|by split_and!]. unfold forward_with_callbacks. cbn [set_fd_nonblocking lift sbind].
  rewrite E. cbn [forward_loop]. rewrite Hstop. do 2 f_equal. destruct (f_stats st) as [a b c]. cbn in Hcnt, Hcnt', Hlast. subst.
  unfold last_address. f_equal. by destruct (last (addresses qs)).
Qed.

Definition demo_ps : list PppPacket := [{| data := [0xc0; 0x21; 1] |}; {| data := [0x00; 0x21; 0x7e; 0x45] |}].
Definition demo_qs : list PppPacket :=
  [ipcp_packet 3 1 (encode_options [(3, [10; 212; 134; 201])]); {| data := [0xc0; 0x21; 9] |}].

(** Two turns; the streams are cut in the middle of a frame. *)
Definition demo_turns : list (list bytes * list bytes) :=
  [([take 5 (fst (encode_stream Hdlc.new demo_ps))], [take 3 (tls_stream demo_qs); take 4 (drop 3 (tls_stream demo_qs))]);
   ([drop 5 (fst (encode_stream Hdlc.new demo_ps))], [drop 7 (tls_stream demo_qs)])].

(** A poll that reports everything that was asked for. *)
Definition all_ready (asked : PollFlags) : PollFlags :=
  {| POLLIN := true; POLLOUT := POLLOUT asked; POLLERR := false; POLLHUP := false; POLLNVAL := false |}.
Definition ready_tick : tick := {| should_stop := false; poll := λ p q, inl (all_ready p, all_ready q) |}.
Definition stop_tick : tick := {| should_stop := true; poll := λ p q, inl (p, q) |}.

Definition short_writer : writer := {| written := [1; 2]; w_script := [WAccept 2; WError WouldBlock; WAccept 1] |}.

Lemma forward_delivers_witness :
  ∃ st, forward_with_callbacks None None (Ok tt) (replicate 4 ready_tick ++ [stop_tick])
      (arrivals (map fst demo_turns ++ replicate 2 []) ++ []) (arrivals (map snd demo_turns ++ replicate 2 []) ++ [])
      short_writer short_writer =
      (Ok {| pty_to_tls_packets := 2; tls_to_pty_packets := 2; last_ipcp_ipv4 := last (addresses demo_qs) |}, st) ∧
    written (tls_w st) = [1; 2] ++ tls_stream demo_ps ∧
    written (pty_w st) = [1; 2] ++ fst (encode_stream Hdlc.new demo_qs) ∧
    f_calls st = changes None (addresses demo_qs) ∧ f_pty st = [] ∧ f_tls st = [].
Proof.
  apply (forward_delivers demo_ps demo_qs demo_turns 2 (replicate 4 ready_tick) stop_tick short_writer short_writer [] []).
  all: try reflexivity; try (vm_compute; reflexivity).
  - repeat constructor; discriminate.
  - repeat constructor; vm_compute; discriminate.
  - repeat constructor; first [discriminate|vm_compute; discriminate].
  - repeat constructor; first [discriminate|reflexivity].
  - repeat constructor; discriminate.
  - repeat constructor.
  - repeat constructor.
  - repeat (constructor; [split; [reflexivity|]; intros p q; exists (all_ready p), (all_ready q); split_and!; done|]); constructor.
Defined.
