(* ===== verification/Fortinet.v ===== *)
(** * [tunnel/fortinet.rs]: the packet transport of the proxy mode

    [FortinetTransport] reads from a TLS stream with a timeout and keeps the
    bytes of an unfinished frame between calls. *)

From S2P Require Import Prelude Stream Packet Hdlc Io.

Definition READ_BUFFER_SIZE : usize := 16 * 1024.
Definition MAX_PACKET_BUFFER_SIZE : usize := 1024 * 1024.

(** The stream is its reading script and its writing side. *)
Record FortinetTransport := { stream_r : reader; stream_w : writer; read_buffer : bytes }.

Definition new (r : reader) (w : writer) : FortinetTransport :=
  {| stream_r := r; stream_w := w; read_buffer := [] |}.

Definition try_decode_buffered_packet (self : FortinetTransport)
    : result (option PppPacket) * FortinetTransport :=
  let buf := read_buffer self in
  if len buf <? HEADER_LEN then (Ok None, self) else
  let! prefix & self := lift (slice buf 0 HEADER_LEN) self in
  if decide (prefix = HTTP_HEADER_PREFIX) then (Err PermissionDenied, self) else
  let! total & self := lift (be16_at buf 0) self in
  if total <? HEADER_LEN + 1 then (Err HdlcInvalidFrame, self) else
  if len buf <? total then (Ok None, self) else
  let! frame & self := lift (slice buf 0 total) self in
  let self := {| stream_r := stream_r self; stream_w := stream_w self;
                 read_buffer := drop (Z.to_nat total) buf |} in
  let! packet & self := lift (decode_from_tls_frame frame) self in
  (Ok (Some packet), self).

(** A turn of the [loop] reads once, so the script bounds the turns. *)
Fixpoint read_packet_loop (fuel : nat) (self : FortinetTransport) : result PppPacket * FortinetTransport :=
  match fuel with
  | O => (Diverge, self)
  | S fuel =>
      let! found & self := try_decode_buffered_packet self in
      match found with
      | Some packet => (Ok packet, self)
      | None =>
          match read READ_BUFFER_SIZE (stream_r self) with
          | (Ok [], r) =>
              (Err (Io UnexpectedEof "VPN tunnel closed"),
               {| stream_r := r; stream_w := stream_w self; read_buffer := read_buffer self |})
          | (Ok buf, r) =>
              let self := {| stream_r := r; stream_w := stream_w self;
                             read_buffer := read_buffer self ++ buf |} in
              if len (read_buffer self) >? MAX_PACKET_BUFFER_SIZE
              then (Err (Network "Fortinet packet buffer exceeded maximum size"), self)
              else read_packet_loop fuel self
          | (Err e, r) =>
              (Err e, {| stream_r := r; stream_w := stream_w self; read_buffer := read_buffer self |})
          | (Panic, r) => (Panic, self)
          | (Diverge, r) => (Diverge, self)
          end
      end
  end.

Definition read_packet (self : FortinetTransport) : result PppPacket * FortinetTransport :=
  read_packet_loop (reader_fuel (stream_r self)) self.

Definition write_packet (self : FortinetTransport) (packet : PppPacket)
    : result unit * FortinetTransport :=
  let '(r, w) := write_tls_packet packet (stream_w self) in
  (r, {| stream_r := stream_r self; stream_w := w; read_buffer := read_buffer self |}).

(** ** Specification *)

(** The bytes of the stream that no packet has consumed yet. *)
Definition unconsumed (self : FortinetTransport) : bytes :=
  read_buffer self ++ delivered (stream_r self).

(** What can be had of it at once: the buffer, and what arrives before the
    next time-out. *)
Definition on_hand (self : FortinetTransport) : bytes := read_buffer self ++ available (stream_r self).

(** The bytes do not hold a whole frame yet. *)
Definition incomplete (buffer : bytes) : Prop :=
  fst (try_decode_buffered_packet {| stream_r := []; stream_w := vec_writer []; read_buffer := buffer |}) = Ok None.

(** ** One decoding attempt *)

(** An attempt looks at the buffer only. *)
Lemma try_decode_incomplete self : fst (try_decode_buffered_packet self) = Ok None → incomplete (read_buffer self).
Proof.
  unfold incomplete, try_decode_buffered_packet, lift. cbn [read_buffer stream_r stream_w].
  destruct (_ <? _); [done|]. destruct (slice _ 0 HEADER_LEN); cbn [sbind]; try done.
  case_decide; [done|]. destruct (be16_at _ 0); cbn [sbind]; try done.
  destruct (_ <? _); [done|]. destruct (_ <? _); [done|].
  destruct (slice _ 0 _); cbn [sbind]; try done. by destruct (decode_from_tls_frame _).
Qed.

(** What one attempt does to the buffer. *)
Lemma try_decode_cases self :
  match try_decode_buffered_packet self with
  | (Ok None, self') => self' = self ∧ (is_bytes (read_buffer self) → len (read_buffer self) < 65535)
  | (Ok (Some p), self') =>
      ∃ frame, read_buffer self = frame ++ read_buffer self' ∧ decode_from_tls_frame frame = Ok p ∧
        stream_r self' = stream_r self ∧ stream_w self' = stream_w self ∧ HEADER_LEN < len frame
  | (Err e, self') => stream_r self' = stream_r self ∧ (e = PermissionDenied ∨ e = HdlcInvalidFrame)
  | _ => False
  end.
Proof.
  unfold try_decode_buffered_packet, lift, HEADER_LEN.
  destruct (Z.ltb_spec (len (read_buffer self)) 6) as [|Hl]; [split; [done|lia]|].
  rewrite slice_ok by lia. cbn [sbind]. case_decide; [auto|].
  destruct (be16_at (read_buffer self) 0) as [total|e| |] eqn:Ht; cbn [sbind].
  - destruct (Z.ltb_spec total (6 + 1)) as [|Hmin]; [auto|].
    destruct (Z.ltb_spec (len (read_buffer self)) total) as [|Hge].
    { split; [done|]. intros Hb. destruct (be16_at_range _ 0 Hb ltac:(lia) ltac:(lia)) as (n & Hn & Hr).
      rewrite Ht in Hn. injection Hn as <-. unfold is_u16 in Hr. lia. }
    rewrite slice_ok by lia. cbn [sbind]. rewrite drop_0, Z.sub_0_r.
    pose proof (decode_from_tls_frame_returns (take (Z.to_nat total) (read_buffer self))) as Hr.
    destruct (decode_from_tls_frame _) as [p|e| |] eqn:Hd; cbn [sbind]; try done.
    + exists (take (Z.to_nat total) (read_buffer self)). cbn [read_buffer stream_r stream_w].
      rewrite take_drop. split_and!; try done. len_lia.
    + split; [done|]. right. by eapply decode_from_tls_frame_error.
  - exfalso. pose proof (returns_be16_at (read_buffer self) 0 ltac:(lia) ltac:(lia)) as Hr.
    unfold be16_at in Ht. destruct (index_in_range (read_buffer self) 0) as (x & Hx & _); [lia|].
    destruct (index_in_range (read_buffer self) (0 + 1)) as (y & Hy & _); [lia|].
    by rewrite Hx, Hy in Ht.
  - pose proof (returns_be16_at (read_buffer self) 0 ltac:(lia) ltac:(lia)) as Hr. by rewrite Ht in Hr.
  - pose proof (returns_be16_at (read_buffer self) 0 ltac:(lia) ltac:(lia)) as Hr. by rewrite Ht in Hr.
Qed.

Lemma try_decode_frame payload rest r w :
  payload ≠ [] → len payload <= 65529 →
  try_decode_buffered_packet {| stream_r := r; stream_w := w; read_buffer := tls_frame payload ++ rest |} =
    (Ok (Some {| data := payload |}), {| stream_r := r; stream_w := w; read_buffer := rest |}).
Proof.
  intros Hne Hl. apply len_pos in Hne as Hpos. unfold try_decode_buffered_packet, lift.
  cbn [read_buffer stream_r stream_w].
  destruct (tls_frame_split payload) as (header & Hsplit & Hh & Hhttp).
  destruct (tls_frame_header payload rest Hl) as (Ht & _ & _). pose proof (tls_frame_len payload) as Hlen.
  rewrite (slice_app_middle_n [] header (payload ++ rest)); [|
    by rewrite Hsplit, <- app_assoc|done|by rewrite Hh].
  rewrite Ht. unfold HEADER_LEN in *. cbn [sbind]. rewrite decide_False by done. zbool.
  rewrite (slice_app_middle_n [] (tls_frame payload) rest) by (done || lia). cbn [sbind].
  rewrite decode_tls_frame by done. cbn [sbind]. do 2 f_equal.
  rewrite <- Hlen. unfold len. by rewrite Nat2Z.id, drop_app_length.
Qed.

(** An unfinished frame is not an error, and is left alone. *)
Lemma try_decode_partial payload part rest r w :
  payload ≠ [] → len payload <= 65529 → rest ≠ [] → tls_frame payload = part ++ rest →
  try_decode_buffered_packet {| stream_r := r; stream_w := w; read_buffer := part |} =
    (Ok None, {| stream_r := r; stream_w := w; read_buffer := part |}).
Proof.
  intros Hne Hl Hrest%len_pos Hcut. apply len_pos in Hne. unfold try_decode_buffered_packet, lift.
  cbn [read_buffer stream_r stream_w].
  destruct (Z.ltb_spec (len part) HEADER_LEN) as [|Hlong]; [done|].
  destruct (tls_frame_split payload) as (header & Hsplit & Hh & Hhttp).
  pose proof (tls_frame_len payload) as Hlen. rewrite Hcut, len_app in Hlen.
  assert (slice part 0 HEADER_LEN = Ok header) as ->.
  { pose proof (slice_app_l part rest 0 HEADER_LEN ltac:(lia) ltac:(unfold HEADER_LEN; lia) Hlong) as Hs.
    rewrite <- Hs, <- Hcut, Hsplit. apply (slice_app_middle_n [] header payload); [done|done|by rewrite Hh]. }
  assert (be16_at part 0 = Ok (HEADER_LEN + len payload)) as ->.
  { destruct (tls_frame_header payload [] Hl) as (Ht & _ & _). rewrite app_nil_r, Hcut in Ht.
    rewrite <- Ht. unfold be16_at, HEADER_LEN in *. by rewrite !index_app_l by lia. }
  cbn [sbind]. rewrite decide_False by done. unfold HEADER_LEN in *. by zbool.
Qed.

(** ** The read loop *)

Definition packet_outcome (self : FortinetTransport) (x : result PppPacket * FortinetTransport) : Prop :=
  match x with
  | (Ok p, self') =>
      ∃ frame, unconsumed self = frame ++ unconsumed self' ∧ on_hand self = frame ++ on_hand self' ∧
        decode_from_tls_frame frame = Ok p
  | (Err (Io _ _), self') =>
      unconsumed self' = unconsumed self ∧ read_buffer self' = on_hand self ∧ incomplete (on_hand self)
  | (Err e, _) => e = PermissionDenied ∨ e = HdlcInvalidFrame
  | _ => False
  end.

Lemma read_packet_loop_outcome fuel self :
  is_bytes (unconsumed self) → (reader_fuel (stream_r self) <= fuel)%nat →
  packet_outcome self (read_packet_loop fuel self).
Proof.
  revert self. induction fuel as [|fuel IH]; intros self Hb Hf.
  { destruct (stream_r self) as [|[]]; simpl in Hf; lia. }
  cbn [read_packet_loop]. pose proof (try_decode_cases self) as Ht.
  destruct (try_decode_buffered_packet self) as [[[p|]|e| |] self1] eqn:Htry; cbn [sbind]; try done.
  - destruct Ht as (frame & Hbuf & Hd & Hr & _). exists frame. unfold unconsumed, on_hand.
    by rewrite Hbuf, Hr, <- !app_assoc.
  - pose proof (try_decode_incomplete self) as Hinc. rewrite Htry in Hinc. specialize (Hinc eq_refl).
    destruct Ht as [-> Hsmall]. pose proof (read_delivered READ_BUFFER_SIZE (stream_r self)) as Hdel.
    pose proof (read_available READ_BUFFER_SIZE (stream_r self) ltac:(done)) as Hav.
    pose proof (returns_read READ_BUFFER_SIZE (stream_r self)) as Hret.
    destruct (read READ_BUFFER_SIZE (stream_r self)) as [[buf|e| |] r] eqn:Er; try done.
    + destruct buf as [|x buf]; [cbn; unfold unconsumed, on_hand; cbn; cbn in Hav; by rewrite Hdel, Hav, app_nil_r|].
      apply read_len in Er as Hlen; [|unfold READ_BUFFER_SIZE; lia].
      apply read_fuel in Er as Hfuel; [|unfold READ_BUFFER_SIZE; lia].
      rewrite decide_False in Hav by done. set (piece := x :: buf) in *. clearbody piece. cbn [read_buffer].
      unfold unconsumed in Hb. rewrite Hdel in Hb. apply Forall_app in Hb as Hb'. destruct Hb' as [Hb1 _].
      rewrite Z.gtb_ltb. specialize (Hsmall Hb1). unfold READ_BUFFER_SIZE, MAX_PACKET_BUFFER_SIZE in *. zbool.
      specialize (IH {| stream_r := r; stream_w := stream_w self; read_buffer := read_buffer self ++ piece |}).
      unfold packet_outcome, unconsumed, on_hand in *. cbn [stream_r read_buffer] in IH.
      rewrite <- !app_assoc, <- Hdel, <- Hav in IH. apply IH; [by rewrite Hdel|lia].
    + cbn. unfold unconsumed, on_hand. cbn [read_buffer stream_r]. destruct e; try (by rewrite Hdel, Hav, app_nil_r).
      all: destruct (stream_r self) as [|[l|k] rr]; simpl in Er; try done;
        destruct (len l <=? READ_BUFFER_SIZE); done.
  - destruct Ht as [_ [-> | ->]]; simpl; auto.
Qed.

(** Whatever comes of it, reading only moves along the stream and does not
    touch the writing side. *)
Lemma try_decode_suffix self :
  let self' := snd (try_decode_buffered_packet self) in
  (∃ l, read_buffer self = l ++ read_buffer self') ∧ stream_r self' = stream_r self ∧ stream_w self' = stream_w self.
Proof.
  cbn. unfold try_decode_buffered_packet, lift.
  destruct (_ <? _); [split; [by exists []|done]|].
  destruct (slice _ 0 HEADER_LEN); cbn [sbind]; try (split; [by exists []|done]).
  case_decide; [split; [by exists []|done]|].
  destruct (be16_at _ 0) as [total| | |]; cbn [sbind]; try (split; [by exists []|done]).
  destruct (_ <? _); [split; [by exists []|done]|]. destruct (_ <? _); [split; [by exists []|done]|].
  destruct (slice _ 0 total); cbn [sbind]; try (split; [by exists []|done]).
  destruct (decode_from_tls_frame _); cbn; (split; [|done]); eexists; symmetry; apply take_drop.
Qed.

Lemma read_packet_loop_suffix fuel self :
  let self' := snd (read_packet_loop fuel self) in
  (∃ l, unconsumed self = l ++ unconsumed self') ∧ stream_w self' = stream_w self.
Proof.
  revert self. induction fuel as [|fuel IH]; intros self; cbn [read_packet_loop]; [split; [by exists []|done]|].
  pose proof (try_decode_suffix self) as ((l & Hl) & Hr & Hw).
  destruct (try_decode_buffered_packet self) as [r self1]. cbn [snd] in *.
  assert (∃ l, unconsumed self = l ++ unconsumed self1) as Hs1.
  { exists l. unfold unconsumed. by rewrite Hl, Hr, <- app_assoc. }
  destruct r as [[p|]|e| |]; cbn [sbind snd]; try done.
  pose proof (read_delivered READ_BUFFER_SIZE (stream_r self1)) as Hdel.
  pose proof (returns_read READ_BUFFER_SIZE (stream_r self1)) as Hret.
  assert (∀ rd buf, delivered (stream_r self1) = buf ++ delivered rd → let self2 := {| stream_r := rd;
      stream_w := stream_w self1; read_buffer := read_buffer self1 ++ buf |} in
    (∃ l, unconsumed self = l ++ unconsumed self2) ∧ stream_w self2 = stream_w self) as Hgo.
  { intros rd buf E. split; [|done]. destruct Hs1 as (l1 & ->). exists l1. unfold unconsumed. cbn.
    by rewrite E, <- !app_assoc. }
  destruct (read READ_BUFFER_SIZE (stream_r self1)) as [[[|x buf]|e| |] rd]; cbn [snd]; try done.
  - rewrite <- (app_nil_r (read_buffer self1)). by apply Hgo.
  - destruct (Hgo rd (x :: buf) Hdel) as ((l2 & Hl2) & Hw2). destruct (_ >? _); [split; [by exists l2|done]|].
    destruct (IH {| stream_r := rd; stream_w := stream_w self1; read_buffer := read_buffer self1 ++ x :: buf |})
      as ((l3 & Hl3) & Hw3).
    split; [|by rewrite Hw3]. exists (l2 ++ l3). by rewrite Hl2, Hl3, <- app_assoc.
  - rewrite <- (app_nil_r (read_buffer self1)). by apply Hgo.
Qed.

(** What is left of the stream and of the buffer: a packet takes octets and a
    time-out its event. *)
Definition transport_fuel (self : FortinetTransport) : nat :=
  reader_fuel (stream_r self) + length (read_buffer self).

Lemma read_packet_loop_decreases fuel self :
  match read_packet_loop fuel self with
  | (Ok _, self') => (transport_fuel self' < transport_fuel self)%nat
  | (Err (Io k _), self') => k ≠ UnexpectedEof → (transport_fuel self' < transport_fuel self)%nat
  | _ => True
  end.
Proof.
  unfold transport_fuel. revert self. induction fuel as [|fuel IH]; intros self; cbn [read_packet_loop]; [done|].
  pose proof (try_decode_cases self) as Ht.
  destruct (try_decode_buffered_packet self) as [[[p|]|e| |] self1]; cbn [sbind]; try done.
  - destruct Ht as (frame & -> & _ & -> & _ & Hl). unfold len, HEADER_LEN in Hl. rewrite length_app. lia.
  - destruct Ht as [-> _]. pose proof (returns_read READ_BUFFER_SIZE (stream_r self)) as Hret.
    destruct (read READ_BUFFER_SIZE (stream_r self)) as [[buf|e| |] r] eqn:Er; try done.
    + destruct buf as [|x buf]; [done|]. apply read_fuel_len in Er; [|done].
      set (piece := x :: buf) in *. cbn [read_buffer]. destruct (_ >? _); [done|].
      specialize (IH {| stream_r := r; stream_w := stream_w self; read_buffer := read_buffer self ++ piece |}).
      cbn [stream_r read_buffer] in IH. rewrite length_app in IH.
      destruct (read_packet_loop _ _) as [[p|[]| |] self']; try done; [lia|]. intros Hk. specialize (IH Hk). lia.
    + destruct (stream_r self) as [|[l|k] rr]; cbn [read] in Er; [done|by destruct (len l <=? _)|].
      injection Er as <- <-. cbn. lia.
  - by destruct Ht as [_ [-> | ->]].
Qed.

Lemma read_packet_decreases self :
  match read_packet self with
  | (Ok _, self') => (transport_fuel self' < transport_fuel self)%nat
  | (Err (Io k _), self') => k ≠ UnexpectedEof → (transport_fuel self' < transport_fuel self)%nat
  | _ => True
  end.
Proof. apply read_packet_loop_decreases. Qed.

Lemma read_packet_suffix self :
  (∃ l, unconsumed self = l ++ unconsumed (snd (read_packet self))) ∧
  stream_w (snd (read_packet self)) = stream_w self.
Proof. apply read_packet_loop_suffix. Qed.



Lemma read_packet_loop_frame fuel buffer cs w p rest :
  is_bytes (data p) → data p ≠ [] → len (data p) <= 65529 → nonempty_chunks cs →
  buffer ++ concat cs = tls_frame (data p) ++ rest → (reader_fuel (chunked cs) <= fuel)%nat →
  ∃ cs' buffer', read_packet_loop fuel {| stream_r := chunked cs; stream_w := w; read_buffer := buffer |}
      = (Ok p, {| stream_r := chunked cs'; stream_w := w; read_buffer := buffer' |}) ∧
    buffer' ++ concat cs' = rest ∧ nonempty_chunks cs'.
Proof.
  intros Hb Hne Hl. revert buffer cs. induction fuel as [|fuel IH]; intros buffer cs Hcs Hcat Hf.
  { destruct cs; simpl in Hf; lia. }
  cbn [read_packet_loop].
  apply app_eq_inv in Hcat as [(k & -> & Hk)|(k & Hk & Hk')].
  { rewrite try_decode_frame by done. cbn [sbind]. exists cs, k. destruct p. done. }
  destruct (decide (k = [])) as [->|Hkne].
  { rewrite app_nil_r in Hk. subst buffer. rewrite <- (app_nil_r (tls_frame _)).
    rewrite try_decode_frame by done. cbn [sbind]. exists cs, []. destruct p. by rewrite Hk'. }
  rewrite (try_decode_partial (data p) buffer k) by done. cbn [sbind stream_r stream_w read_buffer].
  destruct (decide (cs = [])) as [->|Hcsne].
  { simpl in Hk'. symmetry in Hk'. by apply app_eq_nil in Hk' as [? _]. }
  destruct (read_chunked READ_BUFFER_SIZE cs) as (piece & cs1 & Hr & Hpne & Hcat & Hcs1); [done..|].
  rewrite Hr. destruct piece as [|x piece]; [done|].
  apply read_len in Hr as Hlen; [|done]. apply read_fuel in Hr as Hfuel; [|done].
  pose proof (tls_frame_len (data p)) as Hfl. rewrite Hk, len_app in Hfl. apply len_pos in Hkne.
  unfold READ_BUFFER_SIZE, MAX_PACKET_BUFFER_SIZE, HEADER_LEN in *. rewrite Z.gtb_ltb.
  cbn [read_buffer]. rewrite (proj2 (Z.ltb_ge _ _)) by (rewrite len_app; lia).
  apply IH; [done| |lia]. rewrite <- app_assoc, <- Hcat, Hk', Hk. by rewrite app_assoc.
Qed.

(** ** Streams that are slow *)

(** The stream delivers octets and time-outs, and neither ends nor breaks off. *)
Definition patient_event (ev : read_event) : Prop :=
  match ev with RBytes l => l ≠ [] | RError k => k = WouldBlock ∨ k = TimedOut end.
Abbreviation patient r := (Forall patient_event r).

Lemma read_patient n r : 0 < n → patient r → delivered r ≠ [] →
  match read n r with
  | (Ok l, r') => l ≠ [] ∧ patient r'
  | (Err e, r') => ∃ k, e = io_error k ∧ (k = WouldBlock ∨ k = TimedOut) ∧ patient r'
  | _ => False
  end.
Proof.
  intros Hn Hp Hd. destruct Hp as [|[l|k] r Hev Hp]; cbn [read patient_event] in *; [done| |by exists k].
  destruct (Z.leb_spec (len l) n) as [|Hl]; [done|]. split.
  - intros E%(f_equal len). change (len []) with 0 in E. len_lia.
  - constructor; [|done]. intros E%(f_equal len). change (len []) with 0 in E. len_lia.
Qed.

(** A call either takes the packet off the stream or times out and leaves the
    stream alone. *)
Lemma read_packet_loop_patient fuel buffer r w p rest :
  data p ≠ [] → len (data p) <= 65529 → patient r →
  buffer ++ delivered r = tls_frame (data p) ++ rest → (reader_fuel r <= fuel)%nat →
  ∃ res self', read_packet_loop fuel {| stream_r := r; stream_w := w; read_buffer := buffer |} = (res, self') ∧
    patient (stream_r self') ∧
    ((res = Ok p ∧ unconsumed self' = rest) ∨
     ∃ k, res = Err (io_error k) ∧ (k = WouldBlock ∨ k = TimedOut) ∧ unconsumed self' = tls_frame (data p) ++ rest).
Proof.
  intros Hne Hl. revert buffer r. induction fuel as [|fuel IH]; intros buffer r Hp Hcat Hf.
  { destruct r as [|[]]; simpl in Hf; lia. }
  cbn [read_packet_loop]. pose proof Hcat as Hall.
  apply app_eq_inv in Hcat as [(k & -> & Hk)|(k & Hk & Hk')].
  { rewrite try_decode_frame by done. cbn [sbind]. eexists _, _. split; [reflexivity|]. split; [done|]. left. by destruct p. }
  destruct (decide (k = [])) as [->|Hkne].
  { rewrite app_nil_r in Hk. subst buffer.
    pose proof (try_decode_frame (data p) [] r w Hne Hl) as Hdec. rewrite app_nil_r in Hdec. rewrite Hdec.
    cbn [sbind]. eexists _, _. split; [reflexivity|]. split; [done|]. left.
    split; [by destruct p|]. by unfold unconsumed. }
  rewrite (try_decode_partial (data p) buffer k) by done. cbn [sbind stream_r stream_w read_buffer].
  assert (delivered r ≠ []) as Hdne by (rewrite Hk'; by destruct k).
  pose proof (read_patient READ_BUFFER_SIZE r ltac:(done) Hp Hdne) as Hrd.
  pose proof (read_delivered READ_BUFFER_SIZE r) as Hdel.
  destruct (read READ_BUFFER_SIZE r) as [[piece|e| |] r'] eqn:Er; try done.
  2: { destruct Hrd as (k' & -> & Hk2 & Hp'). eexists _, _. split; [reflexivity|]. split; [done|]. right.
       exists k'. split; [done|]. split; [done|]. unfold unconsumed. cbn. by rewrite <- Hdel. }
  destruct Hrd as [Hpne Hp']. destruct piece as [|x piece]; [done|].
  apply read_len in Er as Hlen; [|done]. apply read_fuel in Er as Hfuel; [|done].
  pose proof (tls_frame_len (data p)) as Hfl. rewrite Hk, len_app in Hfl. apply len_pos in Hkne.
  unfold READ_BUFFER_SIZE, MAX_PACKET_BUFFER_SIZE, HEADER_LEN in *. rewrite Z.gtb_ltb.
  cbn [read_buffer]. rewrite (proj2 (Z.ltb_ge _ _)) by (rewrite len_app; lia).
  apply IH; [done| |lia]. by rewrite <- app_assoc, <- Hdel.
Qed.

Lemma read_packet_patient self p rest :
  data p ≠ [] → len (data p) <= 65529 → patient (stream_r self) → unconsumed self = tls_frame (data p) ++ rest →
  ∃ res self', read_packet self = (res, self') ∧ patient (stream_r self') ∧
    ((res = Ok p ∧ unconsumed self' = rest) ∨
     ∃ k, res = Err (io_error k) ∧ (k = WouldBlock ∨ k = TimedOut) ∧ unconsumed self' = unconsumed self).
Proof.
  destruct self as [r w buffer]. intros Hne Hl Hp Hcat.
  destruct (read_packet_loop_patient (reader_fuel r) buffer r w p rest Hne Hl Hp Hcat) as (res & self' & H1 & H2 & H3); [done|].
  exists res, self'. split; [exact H1|]. split; [done|]. by rewrite Hcat.
Qed.

(** Reading makes progress.  When the stream carries a whole frame, cut in
    any way and with any part of it already buffered, [read_packet] returns its
    packet and leaves the reader exactly after it. *)
Theorem read_packet_delivers self cs p rest :
  is_bytes (data p) → data p ≠ [] → len (data p) <= 65529 →
  nonempty_chunks cs → stream_r self = chunked cs →
  unconsumed self = tls_frame (data p) ++ rest →
  ∃ cs' self', read_packet self = (Ok p, self') ∧ stream_r self' = chunked cs' ∧
    nonempty_chunks cs' ∧ unconsumed self' = rest.
Proof.
  destruct self as [r w buffer]. unfold unconsumed, read_packet. cbn [stream_r read_buffer].
  intros Hb Hne Hl Hcs -> Hcat. rewrite delivered_chunked in Hcat.
  destruct (read_packet_loop_frame (reader_fuel (chunked cs)) buffer cs w p rest)
    as (cs' & buffer' & H1 & H2 & H3); [done..|].
  exists cs'. eexists. split; [exact H1|]. cbn. by rewrite delivered_chunked.
Qed.

Lemma read_packet_delivers_witness :
  ∃ cs' self', read_packet {| stream_r := chunked [[0x50; 0]; [2; 5; 6; 0; 7]]; stream_w := vec_writer [];
      read_buffer := [0; 8; 0x50] |} = (Ok {| data := [5; 6] |}, self') ∧
    stream_r self' = chunked cs' ∧ nonempty_chunks cs' ∧ unconsumed self' = [0; 7].
Proof.
  apply (read_packet_delivers _ [[0x50; 0]; [2; 5; 6; 0; 7]]).
  - repeat constructor; unfold is_u8; simpl; lia.
  - discriminate.
  - vm_compute. discriminate.
  - repeat constructor; discriminate.
  - reflexivity.
  - reflexivity.
Defined.
