(* ===== verification/PppEngine.v ===== *)
(** * [tunnel/ppp_engine.rs]: the PPP engine of the proxy mode

    LCP and IPCP negotiation as a state machine: the engine record, one
    definition per method, the step relation of its public operations, and the
    abstract link automaton it refines. *)

From S2P Require Import Prelude Packet.

Definition PROTOCOL_IPV4 : u16 := 0x0021.
Definition PROTOCOL_LCP : u16 := 0xc021.
Definition PROTOCOL_IPCP : u16 := 0x8021.

Definition CODE_CONFIGURE_REQUEST : u8 := 1.
Definition CODE_CONFIGURE_ACK : u8 := 2.
Definition CODE_CONFIGURE_NAK : u8 := 3.
Definition CODE_CONFIGURE_REJECT : u8 := 4.
Definition CODE_TERMINATE_REQUEST : u8 := 5.
Definition CODE_TERMINATE_ACK : u8 := 6.
Definition CODE_CODE_REJECT : u8 := 7.
Definition CODE_PROTOCOL_REJECT : u8 := 8.
Definition CODE_ECHO_REQUEST : u8 := 9.
Definition CODE_ECHO_REPLY : u8 := 10.

Definition LCP_OPTION_MRU : u8 := 1.
Definition LCP_DEFAULT_MRU : u16 := 1354.
Definition IPCP_OPTION_IP_ADDRESS : u8 := 3.
Definition PPP_CONTROL_HEADER_LEN : usize := 4.

Inductive PppEvent :=
  | Up (local_ip : Ipv4Addr) (peer_ip : option Ipv4Addr) (dns_servers : list Ipv4Addr)
  | Ipv4Packet (packet : bytes)
  | Down.

#[export] Instance PppEvent_eq_dec : EqDecision PppEvent.
Proof. solve_decision. Defined.

Inductive LinkState :=
  | Initial | LcpRequestSent | LcpOpened | IpcpRequestSent | Opened | Closed.

#[export] Instance LinkState_eq_dec : EqDecision LinkState.
Proof. solve_decision. Defined.

Record PppEngine := {
  state : LinkState;
  next_id : u8;
  lcp_identifier : option u8;
  ipcp_identifier : option u8;
  requested_ip : Ipv4Addr;
  local_ip : option Ipv4Addr;
  peer_ip : option Ipv4Addr;
  outgoing : list PppPacket;
}.

Definition new : PppEngine :=
  {| state := Initial; next_id := 1; lcp_identifier := None; ipcp_identifier := None;
     requested_ip := UNSPECIFIED; local_ip := None; peer_ip := None; outgoing := [] |}.

(** Field assignments. *)
Definition set_state (s : LinkState) (e : PppEngine) : PppEngine :=
  {| state := s; next_id := next_id e; lcp_identifier := lcp_identifier e;
     ipcp_identifier := ipcp_identifier e; requested_ip := requested_ip e;
     local_ip := local_ip e; peer_ip := peer_ip e; outgoing := outgoing e |}.
Definition set_next_id (n : u8) (e : PppEngine) : PppEngine :=
  {| state := state e; next_id := n; lcp_identifier := lcp_identifier e;
     ipcp_identifier := ipcp_identifier e; requested_ip := requested_ip e;
     local_ip := local_ip e; peer_ip := peer_ip e; outgoing := outgoing e |}.
Definition set_lcp_identifier (n : u8) (e : PppEngine) : PppEngine :=
  {| state := state e; next_id := next_id e; lcp_identifier := Some n;
     ipcp_identifier := ipcp_identifier e; requested_ip := requested_ip e;
     local_ip := local_ip e; peer_ip := peer_ip e; outgoing := outgoing e |}.
Definition set_ipcp_identifier (n : u8) (e : PppEngine) : PppEngine :=
  {| state := state e; next_id := next_id e; lcp_identifier := lcp_identifier e;
     ipcp_identifier := Some n; requested_ip := requested_ip e;
     local_ip := local_ip e; peer_ip := peer_ip e; outgoing := outgoing e |}.
Definition set_requested_ip (ip : Ipv4Addr) (e : PppEngine) : PppEngine :=
  {| state := state e; next_id := next_id e; lcp_identifier := lcp_identifier e;
     ipcp_identifier := ipcp_identifier e; requested_ip := ip;
     local_ip := local_ip e; peer_ip := peer_ip e; outgoing := outgoing e |}.
Definition set_local_ip (ip : Ipv4Addr) (e : PppEngine) : PppEngine :=
  {| state := state e; next_id := next_id e; lcp_identifier := lcp_identifier e;
     ipcp_identifier := ipcp_identifier e; requested_ip := requested_ip e;
     local_ip := Some ip; peer_ip := peer_ip e; outgoing := outgoing e |}.
Definition set_peer_ip (ip : option Ipv4Addr) (e : PppEngine) : PppEngine :=
  {| state := state e; next_id := next_id e; lcp_identifier := lcp_identifier e;
     ipcp_identifier := ipcp_identifier e; requested_ip := requested_ip e;
     local_ip := local_ip e; peer_ip := ip; outgoing := outgoing e |}.
Definition set_outgoing (ps : list PppPacket) (e : PppEngine) : PppEngine :=
  {| state := state e; next_id := next_id e; lcp_identifier := lcp_identifier e;
     ipcp_identifier := ipcp_identifier e; requested_ip := requested_ip e;
     local_ip := local_ip e; peer_ip := peer_ip e; outgoing := ps |}.

(** ** Helpers *)

(** [wrapping_add(1)], skipping zero. *)
Definition next_identifier (e : PppEngine) : u8 * PppEngine :=
  let n := as_u8 (next_id e + 1) in
  (next_id e, set_next_id (if n =? 0 then 1 else n) e).

Definition control_packet (protocol : u16) (code identifier : u8) (payload : bytes) : PppPacket :=
  let length := as_u16 (PPP_CONTROL_HEADER_LEN + len payload) in
  {| data := u16_to_be protocol ++ [code; identifier] ++ u16_to_be length ++ payload |}.

Definition queue_control (protocol : u16) (code identifier : u8) (payload : bytes) (e : PppEngine)
    : PppEngine :=
  set_outgoing (outgoing e ++ [control_packet protocol code identifier payload]) e.

Definition queue_protocol_reject (protocol : u16) (payload : bytes) (e : PppEngine) : PppEngine :=
  let '(identifier, e) := next_identifier e in
  queue_control PROTOCOL_LCP CODE_PROTOCOL_REJECT identifier (u16_to_be protocol ++ payload) e.

Definition lcp_request_options : bytes := [LCP_OPTION_MRU; 4] ++ u16_to_be LCP_DEFAULT_MRU.

Definition send_lcp_configure_request (e : PppEngine) : PppEngine :=
  let '(identifier, e) := next_identifier e in
  let e := set_lcp_identifier identifier e in
  queue_control PROTOCOL_LCP CODE_CONFIGURE_REQUEST identifier lcp_request_options e.

Definition ipcp_request_options (ip : Ipv4Addr) : bytes := [IPCP_OPTION_IP_ADDRESS; 6] ++ octets ip.

Definition send_ipcp_configure_request (e : PppEngine) : PppEngine :=
  let '(identifier, e) := next_identifier e in
  let e := set_ipcp_identifier identifier e in
  queue_control PROTOCOL_IPCP CODE_CONFIGURE_REQUEST identifier
    (ipcp_request_options (requested_ip e)) e.

Record ControlPacket := { code : u8; identifier : u8; options : bytes }.

Definition parse_control_packet (payload : bytes) : result ControlPacket :=
  if len payload <? PPP_CONTROL_HEADER_LEN then Err HdlcInvalidFrame else
  let* length := be16_at payload 2 in
  if (length <? PPP_CONTROL_HEADER_LEN) || (len payload <? length) then Err HdlcInvalidFrame else
  let* code := index payload 0 in
  let* identifier := index payload 1 in
  let* options := slice payload PPP_CONTROL_HEADER_LEN length in
  Ok {| code := code; identifier := identifier; options := options |}.

(** The [while offset + 2 <= options.len()] loop. *)
Fixpoint parse_ip_loop (fuel : nat) (options : bytes) (offset : usize) : result (option Ipv4Addr) :=
  if offset + 2 <=? len options then
    match fuel with
    | O => Diverge
    | S fuel =>
        let* option_type := index options offset in
        let* option_len := index options (offset + 1) in
        if (option_len <? 2) || (offset + option_len >? len options) then Ok None
        else if (option_type =? IPCP_OPTION_IP_ADDRESS) && (option_len =? 6) then
          let* a := index options (offset + 2) in
          let* b := index options (offset + 3) in
          let* c := index options (offset + 4) in
          let* d := index options (offset + 5) in
          Ok (Some (Ipv4 a b c d))
        else parse_ip_loop fuel options (offset + option_len)
    end
  else Ok None.

Definition parse_ipcp_ip_address (options : bytes) : result (option Ipv4Addr) :=
  parse_ip_loop (option_fuel options) options 0.

Definition ppp_protocol (data : bytes) : result u16 :=
  if len data <? 2 then Err HdlcInvalidFrame else be16_at data 0.

(** ** Handlers *)

Definition handle_lcp (payload : bytes) (e : PppEngine) : result (list PppEvent) * PppEngine :=
  let! packet & e := lift (parse_control_packet payload) e in
  let c := code packet in
  if c =? CODE_CONFIGURE_REQUEST then
    let e := queue_control PROTOCOL_LCP CODE_CONFIGURE_ACK (identifier packet) (options packet) e in
    if decide (state e = Initial) then
      (Ok [], set_state LcpRequestSent (send_lcp_configure_request e))
    else (Ok [], e)
  else if (c =? CODE_CONFIGURE_ACK) && bool_decide (Some (identifier packet) = lcp_identifier e) then
    if decide (state e = LcpRequestSent ∨ state e = Initial) then
      let e := set_state LcpOpened e in
      let e := send_ipcp_configure_request e in
      (Ok [], set_state IpcpRequestSent e)
    else (Ok [], e)
  else if ((c =? CODE_CONFIGURE_NAK) || (c =? CODE_CONFIGURE_REJECT))
      && bool_decide (Some (identifier packet) = lcp_identifier e) then
    (Ok [], send_lcp_configure_request e)
  else if c =? CODE_ECHO_REQUEST then
    let! tail & e := lift
      (if len (options packet) >? 4 then slice_from (options packet) 4 else Ok []) e in
    (Ok [], queue_control PROTOCOL_LCP CODE_ECHO_REPLY (identifier packet) (u32_to_be 0 ++ tail) e)
  else if c =? CODE_TERMINATE_REQUEST then
    let e := queue_control PROTOCOL_LCP CODE_TERMINATE_ACK (identifier packet) (options packet) e in
    (Ok [Down], set_state Closed e)
  else if (c =? CODE_CODE_REJECT) || (c =? CODE_PROTOCOL_REJECT) || (c =? CODE_ECHO_REPLY)
      || (c =? CODE_TERMINATE_ACK) then (Ok [], e)
  else (Ok [], queue_control PROTOCOL_LCP CODE_CODE_REJECT (identifier packet) payload e).

Definition handle_ipcp (payload : bytes) (e : PppEngine) : result (list PppEvent) * PppEngine :=
  let! packet & e := lift (parse_control_packet payload) e in
  let c := code packet in
  let matching := bool_decide (Some (identifier packet) = ipcp_identifier e) in
  if c =? CODE_CONFIGURE_REQUEST then
    let! ip & e := lift (parse_ipcp_ip_address (options packet)) e in
    let e := set_peer_ip ip e in
    (Ok [], queue_control PROTOCOL_IPCP CODE_CONFIGURE_ACK (identifier packet) (options packet) e)
  else if (c =? CODE_CONFIGURE_ACK) && matching then
    let! ip & e := lift (parse_ipcp_ip_address (options packet)) e in
    let acknowledged_ip := default (requested_ip e) ip in
    if decide (acknowledged_ip ≠ UNSPECIFIED) then
      let e := set_local_ip acknowledged_ip e in
      let e := set_state Opened e in
      (Ok [Up acknowledged_ip (peer_ip e) []], e)
    else (Ok [], send_ipcp_configure_request e)
  else if (c =? CODE_CONFIGURE_NAK) && matching then
    let! ip & e := lift (parse_ipcp_ip_address (options packet)) e in
    let e := match ip with Some ip => set_requested_ip ip e | None => e end in
    (Ok [], send_ipcp_configure_request e)
  else if (c =? CODE_CONFIGURE_REJECT) && matching then
    let e := set_requested_ip UNSPECIFIED e in
    (Ok [], send_ipcp_configure_request e)
  else if c =? CODE_TERMINATE_REQUEST then
    let e := queue_control PROTOCOL_IPCP CODE_TERMINATE_ACK (identifier packet) (options packet) e in
    (Ok [Down], set_state Closed e)
  else if (c =? CODE_CODE_REJECT) || (c =? CODE_TERMINATE_ACK) then (Ok [], e)
  else (Ok [], queue_control PROTOCOL_IPCP CODE_CODE_REJECT (identifier packet) payload e).

Definition handle_incoming (packet : PppPacket) (e : PppEngine) : result (list PppEvent) * PppEngine :=
  let! protocol & e := lift (ppp_protocol (data packet)) e in
  let! payload & e := lift (slice_from (data packet) 2) e in
  if protocol =? PROTOCOL_IPV4 then (Ok [Ipv4Packet payload], e)
  else if protocol =? PROTOCOL_LCP then handle_lcp payload e
  else if protocol =? PROTOCOL_IPCP then handle_ipcp payload e
  else (Ok [], queue_protocol_reject protocol payload e).

(** ** Public operations *)

Definition start (e : PppEngine) : PppEngine :=
  if decide (state e ≠ Initial) then e
  else set_state LcpRequestSent (send_lcp_configure_request e).

Definition next_outgoing (e : PppEngine) : option PppPacket * PppEngine :=
  match outgoing e with
  | [] => (None, e)
  | p :: ps => (Some p, set_outgoing ps e)
  end.

Definition drain_outgoing (e : PppEngine) : list PppPacket * PppEngine :=
  (outgoing e, set_outgoing [] e).

Definition is_open (e : PppEngine) : bool := bool_decide (state e = Opened).

Definition encode_ipv4_packet (packet : bytes) : result PppPacket :=
  let error := Err (Pppd "proxy PPP engine can only send IPv4 packets") in
  let* refused := Ok (bool_decide (packet = []))
                    ||| (let* b := index packet 0 in Ok (negb (Z.shiftr b 4 =? 4))) in
  if refused then error else Ok {| data := u16_to_be PROTOCOL_IPV4 ++ packet |}.

(** ** Specification *)

(** The largest packet the TLS framing can carry. *)
Definition received (p : PppPacket) : Prop := is_bytes (data p) ∧ len (data p) <= 65529.

(** What the program does with an engine. *)
Inductive engine_step : PppEngine → PppEngine → Prop :=
  | step_start e : engine_step e (start e)
  | step_incoming e p r e' : received p → handle_incoming p e = (r, e') → engine_step e e'
  | step_next e : engine_step e (snd (next_outgoing e))
  | step_drain e : engine_step e (snd (drain_outgoing e)).

Definition reachable : PppEngine → Prop := rtc engine_step new.

(** The link automaton: how one operation may change the link state. *)
Inductive link_step : LinkState → LinkState → Prop :=
  | link_stay s : link_step s s
  | link_start : link_step Initial LcpRequestSent
  | link_lcp_ack : link_step LcpRequestSent IpcpRequestSent
  | link_ipcp_ack s : s ≠ Initial → s ≠ LcpRequestSent → s ≠ LcpOpened → link_step s Opened
  | link_terminate s : link_step s Closed.

(** A control packet whose length field is right. *)
Definition well_formed_control (p : PppPacket) : Prop :=
  ∃ protocol c id payload, data p = u16_to_be protocol ++ payload ∧ (protocol = PROTOCOL_LCP ∨ protocol = PROTOCOL_IPCP) ∧
    ∃ opts, parse_control_packet payload = Ok {| code := c; identifier := id; options := opts |}
      ∧ len payload = PPP_CONTROL_HEADER_LEN + len opts.

Record engine_inv (e : PppEngine) : Prop := {
  inv_next_id : 1 <= next_id e < 256;
  inv_lcp : ∀ i, lcp_identifier e = Some i → 1 <= i < 256;
  inv_ipcp : ∀ i, ipcp_identifier e = Some i → 1 <= i < 256;
  inv_rest : state e ≠ LcpOpened;
  inv_initial : state e = Initial → lcp_identifier e = None;
  inv_early : state e = Initial ∨ state e = LcpRequestSent → ipcp_identifier e = None ∧ local_ip e = None;
  inv_negotiating : state e = IpcpRequestSent ∨ state e = Opened → is_Some (ipcp_identifier e);
  inv_opened : state e = Opened → is_Some (local_ip e);
  inv_local : ∀ ip, local_ip e = Some ip → ip ≠ UNSPECIFIED ∧ ipv4_wf ip;
  inv_requested : ipv4_wf (requested_ip e);
  inv_outgoing : Forall well_formed_control (outgoing e);
}.

(** What the events of an operation say about the engine it left. *)
Definition announced (e : PppEngine) (evs : list PppEvent) (e' : PppEngine) : Prop :=
  match evs with
  | [] => (state e' = Closed → state e = Closed) ∧ (state e' = Opened → state e = Opened) ∧
          local_ip e' = local_ip e
  | [Up ip peer []] => state e' = Opened ∧ local_ip e' = Some ip ∧ peer = peer_ip e'
  | [Down] => state e' = Closed
  | [Ipv4Packet _] => e' = e
  | _ => False
  end.

(** The outcome of a handler on a packet that is well formed or not. *)
Definition handled (wf : bool) (e : PppEngine) (x : result (list PppEvent) * PppEngine) : Prop :=
  engine_inv (snd x) ∧ link_step (state e) (state (snd x)) ∧
  match fst x with
  | Ok evs => wf = true ∧ announced e evs (snd x)
  | Err err => wf = false ∧ err = HdlcInvalidFrame ∧ snd x = e
  | _ => False
  end.

(** A packet the engine accepts: a protocol field and, for the two control
    protocols, a control packet. *)
Definition well_formed (p : PppPacket) : bool :=
  match ppp_protocol (data p) with
  | Ok protocol =>
      if (protocol =? PROTOCOL_LCP) || (protocol =? PROTOCOL_IPCP)
      then is_ok (parse_control_packet (drop 2 (data p))) else true
  | _ => false
  end.

(** ** Control packets *)

Lemma parse_control_packet_returns payload : returns (parse_control_packet payload).
Proof.
  unfold parse_control_packet, PPP_CONTROL_HEADER_LEN. destruct (Z.ltb_spec (len payload) 4); [done|].
  apply returns_bind; [apply returns_be16_at; lia|]. intros n _.
  destruct (_ || _) eqn:E; [done|]. apply orb_false_iff in E as [E1%Z.ltb_ge E2%Z.ltb_ge].
  repeat (apply returns_bind; [auto with rust|intros ? _]). done.
Qed.

(** What a control packet that parses is. *)
Lemma parse_control_packet_inv payload p :
  is_bytes payload → parse_control_packet payload = Ok p →
  is_u8 (identifier p) ∧ is_bytes (options p) ∧ PPP_CONTROL_HEADER_LEN + len (options p) <= len payload.
Proof.
  intros Hb. unfold parse_control_packet, PPP_CONTROL_HEADER_LEN.
  destruct (Z.ltb_spec (len payload) 4); [done|]. intros (n & Hn & Hk)%bind_ok_inv.
  destruct (_ || _) eqn:E in Hk; [done|]. apply orb_false_iff in E as [E1%Z.ltb_ge E2%Z.ltb_ge].
  destruct (index_in_range payload 0) as (c & Hc & _); [lia|].
  destruct (index_in_range payload 1) as (i & Hi & Hil); [lia|]. rewrite Hc, Hi in Hk.
  rewrite slice_ok in Hk by lia. injection Hk as <-. cbn [identifier options].
  rewrite Forall_lookup in Hb. split; [by eapply Hb|]. split; [|len_lia].
  apply Forall_take, Forall_drop. by apply Forall_lookup.
Qed.

Lemma parse_control_packet_built c i payload rest :
  len payload <= 65531 →
  parse_control_packet ([c; i] ++ u16_to_be (as_u16 (PPP_CONTROL_HEADER_LEN + len payload)) ++ payload ++ rest)
    = Ok {| code := c; identifier := i; options := payload |}.
Proof.
  intros Hl. pose proof (len_nonneg payload). unfold PPP_CONTROL_HEADER_LEN.
  rewrite as_u16_small by (unfold is_u16; lia).
  unfold parse_control_packet, PPP_CONTROL_HEADER_LEN, u16_to_be. cbn [app].
  set (l := c :: i :: _ :: _ :: payload ++ rest).
  assert (len l = 4 + len payload + len rest) as Hlen by (unfold l; len_lia).
  assert (be16_at l 2 = Ok (4 + len payload)) as ->.
  { unfold be16_at, index, l. simpl. rewrite u16_from_be_to_be; [done|]. unfold is_u16. lia. }
  pose proof (len_nonneg rest). cbn [bind]. zbool.
  assert (slice l 4 (4 + len payload) = Ok payload) as ->; [|done].
  by apply (slice_app_middle_n [c; i; (4 + len payload) / 256 mod 256; (4 + len payload) mod 256] payload rest).
Qed.

Lemma control_packet_wf protocol c i payload :
  protocol = PROTOCOL_LCP ∨ protocol = PROTOCOL_IPCP → len payload <= 65531 →
  well_formed_control (control_packet protocol c i payload).
Proof.
  intros Hp Hl. exists protocol, c, i. eexists. split; [reflexivity|]. split; [done|]. exists payload.
  pose proof (parse_control_packet_built c i payload [] Hl) as Hq. rewrite app_nil_r in Hq.
  rewrite Hq. split; [done|]. unfold u16_to_be, PPP_CONTROL_HEADER_LEN. len_lia.
Qed.

(** ** The scan for the IP-Address option *)

Lemma parse_ip_loop_eq fuel options offset :
  parse_ip_loop fuel options offset = ipcp_option_loop fuel options offset (len options).
Proof.
  revert offset. induction fuel as [|fuel IH]; intros offset; [done|].
  cbn [parse_ip_loop ipcp_option_loop]. case_match; [|done].
  destruct (index options offset); cbn [bind]; try done.
  destruct (index options (offset + 1)); cbn [bind]; try done.
  case_match; [done|]. unfold IPCP_OPTION_IP_ADDRESS. case_match; [done|]. apply IH.
Qed.

Lemma parse_ipcp_ip_address_returns options : returns (parse_ipcp_ip_address options).
Proof.
  unfold parse_ipcp_ip_address. rewrite parse_ip_loop_eq.
  apply ipcp_option_loop_returns; unfold option_fuel, len; lia.
Qed.

(** The scan never answers an error. *)
Lemma parse_ipcp_ip_address_ok options : ∃ ip, parse_ipcp_ip_address options = Ok ip.
Proof.
  pose proof (parse_ipcp_ip_address_returns options) as Hr. unfold parse_ipcp_ip_address in *.
  generalize dependent 0. induction (option_fuel options) as [|fuel IH]; intros offset Hr;
    cbn [parse_ip_loop] in *; [case_match; [done|eauto]|].
  case_match; [|eauto].
  assert (∀ A (l : list A) i, (∃ x, index l i = Ok x) ∨ index l i = Panic) as Hi.
  { intros A l i. unfold index. repeat case_match; eauto. }
  destruct (Hi _ options offset) as [(t & Ht)|Ht]; rewrite Ht in *; cbn [bind] in *; [|done].
  destruct (Hi _ options (offset + 1)) as [(n & Hn)|Hn]; rewrite Hn in *; cbn [bind] in *; [|done].
  case_match; [eauto|]. case_match; [|by apply IH].
  destruct (Hi _ options (offset + 2)) as [(a & Ha)|Ha]; rewrite Ha in *; cbn [bind] in *; [|done].
  destruct (Hi _ options (offset + 3)) as [(b & Hb)|Hb]; rewrite Hb in *; cbn [bind] in *; [|done].
  destruct (Hi _ options (offset + 4)) as [(c & Hc)|Hc]; rewrite Hc in *; cbn [bind] in *; [|done].
  destruct (Hi _ options (offset + 5)) as [(d & Hd)|Hd]; rewrite Hd in *; cbn [bind] in *; [|done].
  eauto.
Qed.

Lemma parse_ipcp_ip_address_wf options ip :
  is_bytes options → parse_ipcp_ip_address options = Ok (Some ip) → ipv4_wf ip.
Proof.
  intros Hb. unfold parse_ipcp_ip_address. generalize 0.
  induction (option_fuel options) as [|fuel IH]; intros offset; cbn [parse_ip_loop].
  { by case_match. }
  case_match; [|done]. intros (t & _ & (n & _ & Hk)%bind_ok_inv)%bind_ok_inv.
  case_match; [done|]. case_match; [|by eapply IH].
  apply bind_ok_inv in Hk as (a & Ha & Hk). apply bind_ok_inv in Hk as (b & Hb' & Hk).
  apply bind_ok_inv in Hk as (c & Hc & Hk). apply bind_ok_inv in Hk as (d & Hd & [= <-]).
  assert (∀ i x, index options i = Ok x → is_u8 x) as Hi.
  { intros i x. unfold index. case_match; [|done]. destruct (options !! _) eqn:E; [|done].
    intros [= ->]. rewrite Forall_lookup in Hb. by eapply Hb. }
  repeat constructor; eapply Hi; eassumption.
Qed.

(** ** The invariant *)

Lemma next_identifier_range n : 1 <= n < 256 → 1 <= (if as_u8 (n + 1) =? 0 then 1 else as_u8 (n + 1)) < 256.
Proof.
  intros Hn. unfold as_u8. destruct (Z.eqb_spec ((n + 1) mod 256) 0); [lia|].
  pose proof (Z.mod_pos_bound (n + 1) 256). lia.
Qed.

Lemma engine_inv_new : engine_inv new.
Proof. constructor; cbn; try done; try lia; try naive_solver. by repeat constructor. Qed.

(** Splits an [engine_inv] goal over an explicit engine and its hypothesis. *)
Ltac engine_inv_cases :=
  match goal with
  | H : engine_inv ?e |- _ =>
      destruct H as [Hnext Hlcp Hipcp Hrest Hinit Hearly Hneg Hopen Hlocal Hreq Hout];
      destruct e as [st nid lcp ipcp req loc peer out]; cbn in *
  end;
  constructor; cbn; auto using next_identifier_range.

Lemma queue_control_inv protocol c i payload e :
  engine_inv e → protocol = PROTOCOL_LCP ∨ protocol = PROTOCOL_IPCP → len payload <= 65531 →
  engine_inv (queue_control protocol c i payload e).
Proof.
  intros He Hp Hl. engine_inv_cases. apply Forall_app. split; [done|].
  constructor; [by apply control_packet_wf|done].
Qed.

Lemma set_closed_inv e : engine_inv e → engine_inv (set_state Closed e).
Proof. intros He. engine_inv_cases; try done; naive_solver. Qed.

Lemma set_peer_ip_inv ip e : engine_inv e → engine_inv (set_peer_ip ip e).
Proof. intros He. engine_inv_cases. Qed.

Lemma set_requested_ip_inv ip e : engine_inv e → ipv4_wf ip → engine_inv (set_requested_ip ip e).
Proof. intros He Hip. engine_inv_cases. Qed.

Lemma set_outgoing_inv ps e : engine_inv e → Forall well_formed_control ps → engine_inv (set_outgoing ps e).
Proof. intros He Hps. engine_inv_cases. Qed.

Lemma set_opened_inv ip e :
  engine_inv e → is_Some (ipcp_identifier e) → ip ≠ UNSPECIFIED → ipv4_wf ip →
  engine_inv (set_state Opened (set_local_ip ip e)).
Proof. intros He Hi Hip Hwf. engine_inv_cases; naive_solver. Qed.

Lemma next_identifier_inv e : engine_inv e → engine_inv (snd (next_identifier e)).
Proof. intros He. unfold next_identifier. engine_inv_cases. Qed.

Lemma start_send_inv e :
  engine_inv e → state e = Initial → engine_inv (set_state LcpRequestSent (send_lcp_configure_request e)).
Proof.
  intros He Hs. assert (engine_inv (set_state LcpRequestSent (set_lcp_identifier (next_id e) (snd (next_identifier e))))) as H.
  { unfold next_identifier. engine_inv_cases; try done; try naive_solver. }
  apply (queue_control_inv PROTOCOL_LCP CODE_CONFIGURE_REQUEST (next_id e) lcp_request_options) in H;
    [exact H|by left|done].
Qed.

Lemma send_lcp_inv e :
  engine_inv e → state e ≠ Initial → engine_inv (send_lcp_configure_request e).
Proof.
  intros He Hs. unfold send_lcp_configure_request, next_identifier.
  apply queue_control_inv; [|by left|done]. engine_inv_cases; naive_solver.
Qed.

Lemma ipcp_request_options_len ip : len (ipcp_request_options ip) = 6.
Proof. by destruct ip. Qed.

Lemma send_ipcp_inv e :
  engine_inv e → state e ≠ Initial → state e ≠ LcpRequestSent →
  engine_inv (send_ipcp_configure_request e).
Proof.
  intros He Hs Hs'. unfold send_ipcp_configure_request, next_identifier.
  apply queue_control_inv; [|by right|rewrite ipcp_request_options_len; lia].
  engine_inv_cases; naive_solver.
Qed.

Lemma lcp_ack_inv e :
  engine_inv e → state e = LcpRequestSent →
  engine_inv (set_state IpcpRequestSent (send_ipcp_configure_request (set_state LcpOpened e))).
Proof.
  intros He Hs.
  assert (engine_inv (set_state IpcpRequestSent (set_ipcp_identifier (next_id e) (snd (next_identifier e))))) as H.
  { unfold next_identifier. engine_inv_cases; try done; try naive_solver. }
  apply (queue_control_inv PROTOCOL_IPCP CODE_CONFIGURE_REQUEST (next_id e)
    (ipcp_request_options (requested_ip e))) in H;
    [exact H|by right|rewrite ipcp_request_options_len; lia].
Qed.

(** ** The handlers *)

Lemma handled_ok e evs e' :
  engine_inv e' → link_step (state e) (state e') → announced e evs e' → handled true e (Ok evs, e').
Proof. done. Qed.

Lemma parse_control_packet_error payload err :
  parse_control_packet payload = Err err → err = HdlcInvalidFrame.
Proof.
  unfold parse_control_packet, PPP_CONTROL_HEADER_LEN. destruct (Z.ltb_spec (len payload) 4); [congruence|].
  unfold be16_at. repeat match goal with |- context [index payload ?i] =>
    let H := fresh in destruct (index_in_range payload i) as (? & H & _); [lia|]; rewrite H; clear H end.
  cbn [bind]. destruct (_ || _) eqn:E; [congruence|]. apply orb_false_iff in E as [E1%Z.ltb_ge E2%Z.ltb_ge].
  repeat match goal with |- context [index payload ?i] =>
    let H := fresh in destruct (index_in_range payload i) as (? & H & _); [lia|]; rewrite H; clear H end.
  by rewrite slice_ok by lia.
Qed.

(** One case of a handler: the engine it leaves, the link step and the events. *)
Ltac handler_case := apply handled_ok; [|cbn; eauto using link_step|cbn; split_and?; intros; first [done | congruence | idtac]].

Lemma handle_lcp_handled payload e :
  engine_inv e → is_bytes payload → len payload <= 65527 →
  handled (is_ok (parse_control_packet payload)) e (handle_lcp payload e).
Proof.
  intros He Hb Hl. unfold handle_lcp, lift.
  pose proof (parse_control_packet_returns payload) as Hret.
  destruct (parse_control_packet payload) as [packet|err| |] eqn:Hp; cbn [sbind is_ok]; try done.
  2: { apply parse_control_packet_error in Hp as ->. split; [done|]. split; [constructor|done]. }
  apply parse_control_packet_inv in Hp as (Hid & Hob & Hol); [|done].
  unfold PPP_CONTROL_HEADER_LEN in Hol. pose proof (inv_rest e He) as Hrest.
  assert (∀ c pl, len pl <= 65531 → engine_inv (queue_control PROTOCOL_LCP c (identifier packet) pl e)) as Hq.
  { intros. apply queue_control_inv; auto. }
  case_match.
  { match goal with |- context [decide ?P] => destruct (decide P) as [Hs|Hs] end; cbn in Hs; handler_case; [|by rewrite Hs; constructor|apply Hq; lia].
    apply start_send_inv; [apply Hq; lia|done]. }
  case_match.
  { match goal with |- context [decide ?P] => destruct (decide P) as [Hs|Hs] end; handler_case; try done.
    - apply lcp_ack_inv; [done|]. destruct Hs as [|Hs]; [done|].
      pose proof (inv_initial e He Hs) as Hn. rewrite Hn in *.
      match goal with H : _ && bool_decide _ = true |- _ => by apply andb_true_iff in H as [_ ?%bool_decide_eq_true] end.
    - destruct Hs as [->|Hs]; [constructor|].
      pose proof (inv_initial e He Hs) as Hn. rewrite Hn in *.
      match goal with H : _ && bool_decide _ = true |- _ => by apply andb_true_iff in H as [_ ?%bool_decide_eq_true] end. }
  case_match.
  { match goal with H : _ && bool_decide _ = true |- _ => apply andb_true_iff in H as [_ Hi%bool_decide_eq_true] end.
    handler_case. apply send_lcp_inv; [done|]. intros Hs. pose proof (inv_initial e He Hs). congruence. }
  case_match.
  { assert (∃ tail, (if len (options packet) >? 4 then slice_from (options packet) 4 else Ok []) = Ok tail
      ∧ len tail <= len (options packet)) as (tail & -> & Ht).
    { rewrite Z.gtb_ltb. destruct (Z.ltb_spec 4 (len (options packet))).
      - rewrite slice_from_ok by lia. eexists. split; [done|]. len_lia.
      - eexists. split; [done|]. len_lia. }
    cbn [sbind]. handler_case. apply Hq. rewrite len_app. change (len (u32_to_be 0)) with 4. lia. }
  case_match.
  { handler_case. apply set_closed_inv, Hq. lia. }
  case_match; handler_case; [done|]. apply Hq. lia.
Qed.

Lemma handle_ipcp_handled payload e :
  engine_inv e → is_bytes payload → len payload <= 65527 →
  handled (is_ok (parse_control_packet payload)) e (handle_ipcp payload e).
Proof.
  intros He Hb Hl. unfold handle_ipcp, lift.
  pose proof (parse_control_packet_returns payload) as Hret.
  destruct (parse_control_packet payload) as [packet|err| |] eqn:Hp; cbn [sbind is_ok]; try done.
  2: { apply parse_control_packet_error in Hp as ->. split; [done|]. split; [constructor|done]. }
  apply parse_control_packet_inv in Hp as (Hid & Hob & Hol); [|done].
  unfold PPP_CONTROL_HEADER_LEN in Hol.
  destruct (parse_ipcp_ip_address_ok (options packet)) as [ip Hip]. rewrite Hip. cbn [sbind].
  assert (∀ a, ip = Some a → ipv4_wf a) as Hwf.
  { intros a ->. by eapply parse_ipcp_ip_address_wf. }
  assert (∀ c pl e, engine_inv e → len pl <= 65531 →
    engine_inv (queue_control PROTOCOL_IPCP c (identifier packet) pl e)) as Hq.
  { intros. apply queue_control_inv; auto. }
  assert (Some (identifier packet) = ipcp_identifier e →
    state e ≠ Initial ∧ state e ≠ LcpRequestSent ∧ is_Some (ipcp_identifier e)) as Hm.
  { intros Hm. assert (¬ (state e = Initial ∨ state e = LcpRequestSent)) as Hs.
    { intros Hs. destruct (inv_early e He Hs) as [Hn _]. by rewrite Hn in Hm. }
    split_and!; [tauto..|by rewrite <- Hm]. }
  pose proof (inv_rest e He) as Hrest.
  case_match.
  { handler_case. apply Hq; [by apply set_peer_ip_inv|lia]. }
  case_match.
  { match goal with H : _ && bool_decide _ = true |- _ => apply andb_true_iff in H as [_ Hi%bool_decide_eq_true] end.
    destruct (Hm Hi) as (? & ? & ?). match goal with |- context [decide ?P] => destruct (decide P) as [Hu|Hu] end; handler_case.
    - apply set_opened_inv; try done. destruct ip as [a|]; cbn; [by apply Hwf|exact (inv_requested e He)].
    - by apply send_ipcp_inv. }
  case_match.
  { match goal with H : _ && bool_decide _ = true |- _ => apply andb_true_iff in H as [_ Hi%bool_decide_eq_true] end.
    destruct (Hm Hi) as (? & ? & ?). destruct ip as [a|]; handler_case.
    - apply send_ipcp_inv; try done. apply set_requested_ip_inv; auto.
    - by apply send_ipcp_inv. }
  case_match.
  { match goal with H : _ && bool_decide _ = true |- _ => apply andb_true_iff in H as [_ Hi%bool_decide_eq_true] end.
    destruct (Hm Hi) as (? & ? & ?). handler_case. apply send_ipcp_inv; try done.
    apply set_requested_ip_inv; [done|]. repeat constructor; lia. }
  case_match.
  { handler_case. apply set_closed_inv, Hq; [done|lia]. }
  case_match; handler_case; [done|]. apply Hq; [done|lia].
Qed.

Lemma handle_incoming_handled p e :
  engine_inv e → received p → handled (well_formed p) e (handle_incoming p e).
Proof.
  intros He [Hb Hl]. unfold handle_incoming, well_formed, lift, ppp_protocol.
  destruct (Z.ltb_spec (len (data p)) 2) as [|H2].
  { split; [done|]. split; [constructor|done]. }
  destruct (be16_at_range (data p) 0 Hb ltac:(lia) ltac:(lia)) as (protocol & -> & Hpr). cbn [sbind].
  rewrite slice_from_ok by lia. cbn [sbind]. change (Z.to_nat 2) with 2%nat.
  destruct (Z.eqb_spec protocol PROTOCOL_IPV4) as [->|]; [by handler_case|].
  destruct (Z.eqb_spec protocol PROTOCOL_LCP) as [->|].
  { apply handle_lcp_handled; [done|by apply Forall_drop|len_lia]. }
  destruct (Z.eqb_spec protocol PROTOCOL_IPCP) as [->|].
  { apply handle_ipcp_handled; [done|by apply Forall_drop|len_lia]. }
  cbn [orb]. unfold queue_protocol_reject. destruct (next_identifier e) as [i e1] eqn:E.
  pose proof (next_identifier_inv e He) as Hi. rewrite E in Hi. unfold next_identifier in E.
  injection E as <- <-. handler_case. apply queue_control_inv; [done|by left|].
  unfold u16_to_be. len_lia.
Qed.

(** ** Properties *)

Lemma engine_step_inv e e' : engine_inv e → engine_step e e' → engine_inv e' ∧ link_step (state e) (state e').
Proof.
  intros He Hst. destruct Hst as [e0|e0 p r e1 Hp Hh|e0|e0].
  - unfold start. case_decide as Hs; [split; [done|constructor]|].
    split; [by apply start_send_inv|rewrite Hs; constructor].
  - pose proof (handle_incoming_handled p e0 He Hp) as Hd. rewrite Hh in Hd. by destruct Hd as (? & ? & _).
  - pose proof (inv_outgoing e0 He) as Ho. unfold next_outgoing.
    destruct (outgoing e0) as [|p ps]; (split; [|constructor]); [done|].
    apply set_outgoing_inv; [done|]. by inversion Ho.
  - split; [by apply set_outgoing_inv|constructor].
Qed.

Lemma reachable_inv e : reachable e → engine_inv e.
Proof.
  unfold reachable. generalize engine_inv_new. generalize new. intros e0 He0 H.
  induction H as [e0|e0 e1 e2 Hs _ IH]; [done|]. apply IH. by destruct (engine_step_inv e0 e1 He0 Hs).
Qed.

(** C10: whatever the peer sends and in whatever order the operations are
    called, the engine stays consistent and moves only along the link
    automaton: identifiers are never zero, an opened link always has a non-zero
    local address, an IPCP request is only answered after LCP has been
    acknowledged, the transient [LcpOpened] is never left behind, and every
    queued packet is a control packet whose length field is right. *)
Theorem engine_refines_link_automaton e e' :
  reachable e → engine_step e e' → engine_inv e' ∧ link_step (state e) (state e').
Proof. intros He. apply engine_step_inv. by apply reachable_inv. Qed.

Lemma engine_refines_link_automaton_witness :
  reachable (start new) ∧
  engine_inv (snd (handle_incoming {| data := [0xc0; 0x21; 2; 1; 0; 4] |} (start new))) ∧
  state (snd (handle_incoming {| data := [0xc0; 0x21; 2; 1; 0; 4] |} (start new))) = IpcpRequestSent.
Proof.
  assert (reachable (start new)) as Hr by (apply rtc_once; constructor).
  split; [exact Hr|].
  assert (received {| data := [0xc0; 0x21; 2; 1; 0; 4] |}) as Hp.
  { split; [repeat constructor; lia|vm_compute; discriminate]. }
  assert (engine_step (start new) (snd (handle_incoming {| data := [0xc0; 0x21; 2; 1; 0; 4] |} (start new)))) as Hs.
  { eapply step_incoming; [exact Hp|apply surjective_pairing]. }
  destruct (engine_refines_link_automaton _ _ Hr Hs) as [H _]. split; [exact H|vm_compute; reflexivity].
Defined.

(** The engine answers every packet.  A malformed one is an error that
    changes nothing; any other one succeeds, and its events say what happened:
    [Up] with the addresses the engine now has and the link open, [Down] with
    the link closed, an IPv4 packet with the engine unchanged, and no event
    only when neither happened. *)
Theorem handle_incoming_events e p :
  reachable e → received p →
  match handle_incoming p e with
  | (Ok evs, e') => well_formed p = true ∧ announced e evs e'
  | (Err err, e') => well_formed p = false ∧ err = HdlcInvalidFrame ∧ e' = e
  | _ => False
  end.
Proof.
  intros He%reachable_inv Hp. destruct (handle_incoming_handled p e He Hp) as (_ & _ & H).
  by destruct (handle_incoming p e) as [[] ?].
Qed.

Lemma handle_incoming_events_witness :
  fst (handle_incoming {| data := [0x80; 0x21; 5; 9; 0; 4] |} new) = Ok [Down] ∧
  state (snd (handle_incoming {| data := [0x80; 0x21; 5; 9; 0; 4] |} new)) = Closed.
Proof.
  split; [vm_compute; reflexivity|].
  pose proof (handle_incoming_events new {| data := [0x80; 0x21; 5; 9; 0; 4] |} (rtc_refl _ _)) as H.
  destruct H as [_ H]; [|exact H]. split; [repeat constructor; lia|vm_compute; discriminate].
Defined.

Lemma handle_incoming_control protocol c i opts e :
  protocol = PROTOCOL_LCP ∨ protocol = PROTOCOL_IPCP → len opts <= 65531 →
  ∃ payload, parse_control_packet payload = Ok {| code := c; identifier := i; options := opts |} ∧
    handle_incoming (control_packet protocol c i opts) e =
      (if protocol =? PROTOCOL_LCP then handle_lcp payload e else handle_ipcp payload e).
Proof.
  intros Hp Hl. pose proof (parse_control_packet_built c i opts [] Hl) as Hq. rewrite app_nil_r in Hq.
  eexists. split; [exact Hq|]. unfold handle_incoming, control_packet. cbn [data].
  set (payload := [c; i] ++ _). pose proof (len_nonneg payload).
  assert (ppp_protocol (u16_to_be protocol ++ payload) = Ok protocol) as ->.
  { unfold ppp_protocol, u16_to_be. rewrite (proj2 (Z.ltb_ge _ _)) by len_lia.
    unfold be16_at, index. simpl. rewrite u16_from_be_to_be; [done|]. destruct Hp as [->| ->]; split; vm_compute; done. }
  unfold lift. cbn [sbind]. rewrite (slice_from_app_n 2 _ (u16_to_be protocol) payload) by done. cbn [sbind].
  by destruct Hp as [->| ->].
Qed.

Lemma parse_ipcp_request_options ip : parse_ipcp_ip_address (ipcp_request_options ip) = Ok (Some ip).
Proof. by destruct ip. Qed.

(** The IPCP negotiation reaches the open state with the address the peer
    assigns: a Configure-Nak that carries the address makes the engine request
    exactly that address under a new identifier, and the acknowledgement of
    that request opens the link and reports it. *)
Theorem ipcp_negotiation_completes e i ip :
  reachable e → state e = IpcpRequestSent → ipcp_identifier e = Some i → ip ≠ UNSPECIFIED →
  ∃ j e1 e2,
    handle_incoming (control_packet PROTOCOL_IPCP CODE_CONFIGURE_NAK i (ipcp_request_options ip)) e
      = (Ok [], e1) ∧
    outgoing e1 = outgoing e ++
      [control_packet PROTOCOL_IPCP CODE_CONFIGURE_REQUEST j (ipcp_request_options ip)] ∧
    handle_incoming (control_packet PROTOCOL_IPCP CODE_CONFIGURE_ACK j (ipcp_request_options ip)) e1
      = (Ok [Up ip (peer_ip e) []], e2) ∧
    is_open e2 = true ∧ local_ip e2 = Some ip.
Proof.
  intros _ Hs Hi Hip. pose proof (ipcp_request_options_len ip) as Hl.
  destruct (handle_incoming_control PROTOCOL_IPCP CODE_CONFIGURE_NAK i (ipcp_request_options ip) e)
    as (pl1 & Hp1 & ->); [by right|lia|].
  cbn [Z.eqb PROTOCOL_IPCP PROTOCOL_LCP]. exists (next_id e).
  set (e1 := send_ipcp_configure_request (set_requested_ip ip e)).
  destruct (handle_incoming_control PROTOCOL_IPCP CODE_CONFIGURE_ACK (next_id e) (ipcp_request_options ip) e1)
    as (pl2 & Hp2 & Hh); [by right|lia|].
  exists e1, (set_state Opened (set_local_ip ip e1)). split_and!; try done.
  - change (PROTOCOL_IPCP =? PROTOCOL_LCP) with false. cbv iota. unfold handle_ipcp. rewrite Hp1. unfold lift.
    cbn [sbind code identifier options]. rewrite Hi, bool_decide_eq_true_2 by done.
    by rewrite parse_ipcp_request_options.
  - rewrite Hh. change (PROTOCOL_IPCP =? PROTOCOL_LCP) with false. cbv iota. unfold handle_ipcp. rewrite Hp2. unfold lift.
    cbn [sbind code identifier options]. rewrite bool_decide_eq_true_2 by done.
    rewrite parse_ipcp_request_options.
    change (CODE_CONFIGURE_ACK =? CODE_CONFIGURE_REQUEST) with false.
    change (CODE_CONFIGURE_ACK =? CODE_CONFIGURE_ACK) with true. cbn [andb sbind default].
    by rewrite decide_True by done.
Qed.

Lemma ipcp_negotiation_completes_witness :
  let e := snd (handle_incoming {| data := [0xc0; 0x21; 2; 1; 0; 4] |} (start new)) in
  state e = IpcpRequestSent ∧
  ∃ j e1 e2,
    handle_incoming (control_packet PROTOCOL_IPCP CODE_CONFIGURE_NAK 2 (ipcp_request_options (Ipv4 10 0 0 42))) e
      = (Ok [], e1) ∧
    outgoing e1 = outgoing e ++
      [control_packet PROTOCOL_IPCP CODE_CONFIGURE_REQUEST j (ipcp_request_options (Ipv4 10 0 0 42))] ∧
    handle_incoming (control_packet PROTOCOL_IPCP CODE_CONFIGURE_ACK j (ipcp_request_options (Ipv4 10 0 0 42))) e1
      = (Ok [Up (Ipv4 10 0 0 42) (peer_ip e) []], e2) ∧
    is_open e2 = true ∧ local_ip e2 = Some (Ipv4 10 0 0 42).
Proof.
  intros e. split; [vm_compute; reflexivity|].
  apply (ipcp_negotiation_completes e 2).
  - apply (rtc_l _ _ (start new)); [constructor|]. apply rtc_once.
    eapply step_incoming; [|apply surjective_pairing].
    split; [repeat constructor; lia|vm_compute; discriminate].
  - vm_compute. reflexivity.
  - vm_compute. reflexivity.
  - discriminate.
Defined.

(** Every request of the peer is answered under its own identifier: a
    Configure-Request of LCP is acknowledged with the options it carried (and
    starts the engine's own request when the link is fresh), an Echo-Request is
    answered with a zero magic number and the data it carried, a
    Terminate-Request is acknowledged and closes the link, and a code the
    engine does not know is rejected. *)
Theorem lcp_requests_are_answered e i opts magic :
  len opts <= 65500 → len magic = 4 →
  let lcp c opts := handle_incoming (control_packet PROTOCOL_LCP c i opts) e in
  let reply c opts := control_packet PROTOCOL_LCP c i opts in
  (∃ own, fst (lcp CODE_CONFIGURE_REQUEST opts) = Ok [] ∧
    outgoing (snd (lcp CODE_CONFIGURE_REQUEST opts))
      = outgoing e ++ reply CODE_CONFIGURE_ACK opts :: own ∧
    (own = [] ↔ state e ≠ Initial)) ∧
  lcp CODE_ECHO_REQUEST (magic ++ opts)
    = (Ok [], set_outgoing (outgoing e ++ [reply CODE_ECHO_REPLY ([0; 0; 0; 0] ++ opts)]) e) ∧
  lcp CODE_TERMINATE_REQUEST opts
    = (Ok [Down], set_state Closed (set_outgoing (outgoing e ++ [reply CODE_TERMINATE_ACK opts]) e)) ∧
  (∀ c, 10 < c → fst (lcp c opts) = Ok [] ∧
    ∃ rejected, parse_control_packet rejected = Ok {| code := c; identifier := i; options := opts |} ∧
      snd (lcp c opts) = set_outgoing (outgoing e ++ [reply CODE_CODE_REJECT rejected]) e).
Proof.
  intros Hl Hm lcp reply. pose proof (len_nonneg opts) as Hnn.
  assert (∀ c o, len o <= 65531 → ∃ payload,
    parse_control_packet payload = Ok {| code := c; identifier := i; options := o |} ∧
    lcp c o = handle_lcp payload e) as Hlcp.
  { intros c o Ho. destruct (handle_incoming_control PROTOCOL_LCP c i o e) as (pl & H1 & H2); [by left|done|].
    exists pl. split; [done|]. exact H2. }
  split_and!.
  - destruct (Hlcp CODE_CONFIGURE_REQUEST opts) as (pl & H1 & ->); [lia|].
    unfold handle_lcp, lift. rewrite H1. cbn [sbind code identifier options].
    change (CODE_CONFIGURE_REQUEST =? CODE_CONFIGURE_REQUEST) with true. cbv iota. case_decide as Hs; cbn in Hs.
    + eexists. split; [done|]. cbn. rewrite <- app_assoc. split; [done|]. split; [done|]. by rewrite Hs.
    + exists []. cbn. done.
  - destruct (Hlcp CODE_ECHO_REQUEST (magic ++ opts)) as (pl & H1 & ->); [len_lia|].
    unfold handle_lcp, lift. rewrite H1. cbn [sbind code identifier options].
    change (CODE_ECHO_REQUEST =? CODE_CONFIGURE_REQUEST) with false.
    change (CODE_ECHO_REQUEST =? CODE_CONFIGURE_ACK) with false.
    change (CODE_ECHO_REQUEST =? CODE_CONFIGURE_NAK) with false.
    change (CODE_ECHO_REQUEST =? CODE_CONFIGURE_REJECT) with false.
    change (CODE_ECHO_REQUEST =? CODE_ECHO_REQUEST) with true. cbn [andb orb].
    assert ((if len (magic ++ opts) >? 4 then slice_from (magic ++ opts) 4 else Ok []) = Ok opts) as ->; [|done].
    rewrite len_app, Hm, Z.gtb_ltb. destruct (Z.ltb_spec 4 (4 + len opts)) as [|Hz].
    + by apply (slice_from_app_n 4 _ magic opts).
    + by rewrite (len_zero opts) by lia.
  - destruct (Hlcp CODE_TERMINATE_REQUEST opts) as (pl & H1 & ->); [lia|].
    unfold handle_lcp, lift. rewrite H1. reflexivity.
  - intros c Hc. destruct (Hlcp c opts) as (pl & H1 & ->); [lia|].
    unfold handle_lcp, lift. rewrite H1. cbn [sbind code identifier options].
    unfold CODE_CONFIGURE_REQUEST, CODE_CONFIGURE_ACK, CODE_CONFIGURE_NAK, CODE_CONFIGURE_REJECT,
      CODE_ECHO_REQUEST, CODE_TERMINATE_REQUEST, CODE_CODE_REJECT, CODE_PROTOCOL_REJECT,
      CODE_ECHO_REPLY, CODE_TERMINATE_ACK. zbool. split; [done|]. exists pl. done.
Qed.

Lemma lcp_requests_are_answered_witness :
  handle_incoming (control_packet PROTOCOL_LCP CODE_ECHO_REQUEST 7 ([1; 2; 3; 4] ++ [9])) new
    = (Ok [], set_outgoing ([control_packet PROTOCOL_LCP CODE_ECHO_REPLY 7 ([0; 0; 0; 0] ++ [9])]) new).
Proof.
  apply (lcp_requests_are_answered new 7 [9] [1; 2; 3; 4]); [vm_compute; discriminate|reflexivity].
Defined.

(** An IP packet is carried unchanged in both directions: exactly the
    packets whose version field is 4 can be sent, and what is sent is delivered
    by the receiving engine as the same packet, with no effect on its state. *)
Theorem ipv4_packet_roundtrip e packet :
  is_bytes packet →
  (is_ok (encode_ipv4_packet packet) = true ↔ ∃ b rest, packet = b :: rest ∧ b / 16 = 4) ∧
  ∀ p, encode_ipv4_packet packet = Ok p → handle_incoming p e = (Ok [Ipv4Packet packet], e).
Proof.
  intros Hb. unfold encode_ipv4_packet. destruct packet as [|b rest].
  { split; [|done]. split; [done|]. by intros (? & ? & ? & _). }
  rewrite bool_decide_eq_false_2 by done. unfold index. simpl. rewrite Z.shiftr_div_pow2 by lia.
  change (2 ^ 4) with 16. destruct (Z.eqb_spec (b / 16) 4) as [H4|H4]; cbn [negb is_ok].
  - split; [split; eauto|]. intros p [= <-]. unfold handle_incoming, lift, ppp_protocol. cbn [data].
    rewrite (proj2 (Z.ltb_ge _ 2)) by (unfold u16_to_be; len_lia).
    change (be16_at _ 0) with (Ok PROTOCOL_IPV4). cbn [sbind].
    by rewrite (slice_from_app_n 2 _ (u16_to_be PROTOCOL_IPV4) (b :: rest)).
  - split; [|done]. split; [done|]. intros (? & ? & [= -> ->] & ?). done.
Qed.

Lemma ipv4_packet_roundtrip_witness :
  is_bytes [0x45; 0; 1] ∧ handle_incoming {| data := [0x00; 0x21; 0x45; 0; 1] |} new = (Ok [Ipv4Packet [0x45; 0; 1]], new).
Proof.
  assert (is_bytes [0x45; 0; 1]) as H by (repeat constructor; lia). split; [exact H|].
  apply (proj2 (ipv4_packet_roundtrip new [0x45; 0; 1] H)). vm_compute. reflexivity.
Defined.

(** There is no room for an address in fewer than six bytes. *)
Lemma ipcp_option_loop_short fuel p offset :
  0 <= offset → len p - offset < 6 → len p - offset <= Z.of_nat fuel →
  ipcp_option_loop fuel p offset (len p) = Ok None.
Proof.
  revert offset. induction fuel as [|fuel IH]; intros offset H0 H6 Hf; cbn [ipcp_option_loop];
    destruct (Z.leb_spec (offset + 2) (len p)); try (done || lia).
  destruct (index_in_range p offset) as (t & -> & _); [lia|].
  destruct (index_in_range p (offset + 1)) as (n & -> & _); [lia|]. cbn [bind].
  destruct ((n <? 2) || _) eqn:E; [done|]. apply orb_false_iff in E as [E1%Z.ltb_ge E2].
  rewrite Z.gtb_ltb in E2. apply Z.ltb_ge in E2.
  rewrite (proj2 (Z.eqb_neq n 6)), andb_false_r by lia. apply IH; lia.
Qed.

(** The two scanners of the program agree: the address the pppd mode reads
    off an IPCP packet is the one the engine reads off its options, for any
    option bytes, well formed or not. *)
Theorem address_scanners_agree c i options :
  len options <= 65531 →
  ipcp_ipv4_address (ipcp_packet c i options) = parse_ipcp_ip_address options.
Proof.
  intros Hl. pose proof (len_nonneg options). unfold ipcp_ipv4_address, parse_ipcp_ip_address.
  destruct (ipcp_packet_eq c i options) as [Hlen Htot]; [unfold is_u16; lia|].
  rewrite Hlen, Htot, parse_ip_loop_eq.
  replace (index_eq _ 0 0x80) with (Ok true) by done.
  replace (index_eq _ 1 0x21) with (Ok true) by done. cbn [bind ror negb].
  destruct (Z.ltb_spec (6 + len options) 10) as [Hs|Hs]; cbn [bind ror].
  - by rewrite ipcp_option_loop_short by (unfold option_fuel, len in *; lia).
  - zbool. cbn [orb]. unfold ipcp_packet. cbn [data].
    change ([128; 33; c; i] ++ u16_to_be (4 + len options) ++ options)
      with (([128; 33; c; i] ++ u16_to_be (4 + len options)) ++ options).
    set (pre := [128; 33; c; i] ++ _). replace 6 with (len pre + 0) by done.
    rewrite <- (app_nil_r (pre ++ options)), <- app_assoc.
    replace (2 + (4 + len options)) with (len pre + len options) by (change (len pre) with 6; lia).
    rewrite ipcp_option_loop_shift by lia. apply ipcp_option_loop_fuel; unfold option_fuel, len; rewrite ?length_app; lia.
Qed.

Lemma address_scanners_agree_witness :
  len [1; 4; 9; 9; 3; 6; 10; 0; 0; 1] <= 65531 ∧
  ipcp_ipv4_address (ipcp_packet 2 1 [1; 4; 9; 9; 3; 6; 10; 0; 0; 1]) = Ok (Some (Ipv4 10 0 0 1)).
Proof.
  split; [vm_compute; discriminate|].
  rewrite (address_scanners_agree 2 1 [1; 4; 9; 9; 3; 6; 10; 0; 0; 1]) by (vm_compute; discriminate).
  vm_compute. reflexivity.
Defined.
