(* ===== verification/Net.v ===== *)
(** * [std::net], [std::time] and [std::thread::sleep]

    A TCP stream is the script of its two directions, with what was shut down
    and the outcomes of the calls that set its options; a listener is the
    script of its [accept] calls.  Time is a clock in milliseconds that never
    runs backwards: a script says how long every look at it and every sleep
    takes beyond what was asked for, so quantifying over scripts covers every
    scheduling of the process. *)

From S2P Require Import Prelude Stream RustStd.

#[local] Open Scope string_scope.
#[local] Open Scope list_scope.
#[local] Open Scope Z_scope.

(** ** Streams *)

(** [stays_open]: when its script is over, the other side neither sends nor
    closes. *)
Record TcpStream := {
  conn : connection;
  read_shut : bool;
  write_shut : bool;
  option_errors : list (option ErrorKind);
  stays_open : bool;
}.

#[export] Instance TcpStream_eta : Eta TcpStream := λ t,
  {| conn := conn t; read_shut := read_shut t; write_shut := write_shut t; option_errors := option_errors t;
     stays_open := stays_open t |}.
#[export] Instance connection_eta : Eta connection := λ c, {| conn_r := conn_r c; conn_w := conn_w c |}.

Definition stream_of (r : reader) (w : writer) : TcpStream :=
  {| conn := {| conn_r := r; conn_w := w |}; read_shut := false; write_shut := false; option_errors := [];
     stays_open := false |}.

(** [set_nonblocking], [set_nodelay], [set_read_timeout], [set_write_timeout], [try_clone]. *)
Definition set_option (t : TcpStream) : result unit * TcpStream :=
  match option_errors t with
  | [] => (Ok tt, t)
  | None :: es => (Ok tt, t <| option_errors := es |>)
  | Some k :: es => (Err (io_error k), t <| option_errors := es |>)
  end.

Definition tcp_read (n : usize) (t : TcpStream) : result bytes * TcpStream :=
  if read_shut t then (Ok [], t)
  else let '(r, c) := on_reader (read n) (conn t) in (r, t <| conn := c |>).

(** A stream on which nothing is left to be read, ever. *)
Definition silent (t : TcpStream) : bool :=
  match conn_r (conn t) with [] => stays_open t && negb (read_shut t) | _ => false end.

(** A read that waits, without a time-out: on a silent stream it does not return. *)
Definition tcp_read_waiting (n : usize) (t : TcpStream) : result bytes * TcpStream :=
  if silent t then (Diverge, t) else tcp_read n t.

(** A stream that was shut down for writing answers an error. *)
Definition tcp_write (buf : bytes) (t : TcpStream) : result usize * TcpStream :=
  if write_shut t then (Err (io_error OtherKind), t)
  else let '(r, c) := on_writer (write buf) (conn t) in (r, t <| conn := c |>).

(** An operation on both halves of a stream that nobody shut down. *)
Definition on_conn {A} (f : connection → result A * connection) (t : TcpStream) : result A * TcpStream :=
  let '(r, c) := f (conn t) in (r, t <| conn := c |>).

(** [shutdown(Write)] and [shutdown(Both)]. *)
Definition shutdown_write (t : TcpStream) : TcpStream := t <| write_shut := true |>.
Definition shutdown_both (t : TcpStream) : TcpStream := t <| read_shut := true |> <| write_shut := true |>.

(** [{err}] of an [std::io::Error]. *)
Definition io_text (e : OpenfortivpnError) : str := match e with Io _ m => m | _ => "" end.

(** ** Listeners *)

Inductive accept_event :=
  | Accepted (stream : TcpStream) (addr : SocketAddr)
  | AcceptError (k : ErrorKind).

(** ** [Display] of socket addresses *)

Definition hex_char (d : Z) : ascii := ascii_of_u8 (if d <? 10 then 48 + d else 87 + d).

(** [{:x}] of a segment. *)
Fixpoint print_hex (fuel : nat) (n : u16) (acc : str) : str :=
  match fuel with
  | O => acc
  | S fuel =>
      let acc := String (hex_char (n mod 16)) acc in
      if n / 16 =? 0 then acc else print_hex fuel (n / 16) acc
  end.

Definition print_segments (l : list u16) : str := str_join ":" (map (λ n, print_hex 4 n "") l).

(** How many zeros are at the head. *)
Fixpoint zero_run (l : list u16) : nat :=
  match l with 0 :: l => S (zero_run l) | _ => 0 end.

(** The first longest run of zeros: its start and its length. *)
Fixpoint longest_run (i : nat) (l : list u16) (best : nat * nat) : nat * nat :=
  match l with
  | [] => best
  | _ :: rest => longest_run (S i) rest (if (best.2 <? zero_run l)%nat then (i, zero_run l) else best)
  end.

Definition print_ipv6 (segments : list u16) : str :=
  match segments with
  | [0; 0; 0; 0; 0; 0xffff; a; b] => "::ffff:" +:+ print_ipv4 (Ipv4 (a / 256) (a mod 256) (b / 256) (b mod 256))
  | _ =>
      let '(start, n) := longest_run 0 segments (0%nat, 0%nat) in
      if (1 <? n)%nat then
        print_segments (take start segments) +:+ "::" +:+ print_segments (drop (start + n) segments)
      else print_segments segments
  end.

Definition print_socket (addr : SocketAddr) : str :=
  match addr with
  | SocketAddrV4 ip port => print_ipv4 ip +:+ ":" +:+ print_uint port
  | SocketAddrV6 segments scope_id port =>
      "[" +:+ print_ipv6 segments +:+ (if scope_id =? 0 then "" else "%" +:+ print_uint scope_id)
        +:+ "]:" +:+ print_uint port
  end.

Example print_socket_v6 :
  print_socket (SocketAddrV6 [0x2001; 0xdb8; 0; 0; 1; 0; 0; 1] 0 443) = "[2001:db8::1:0:0:1]:443".
Proof. reflexivity. Qed.

(** ** Time *)

Record clock := { time : Z; delays : list Z }.

Definition elapse (ms : Z) (c : clock) : clock :=
  match delays c with
  | [] => {| time := time c + ms; delays := [] |}
  | d :: ds => {| time := time c + ms + Z.max 0 d; delays := ds |}
  end.

(** [Instant::now] *)
Definition instant_now (c : clock) : Z * clock := let c := elapse 0 c in (time c, c).
Definition sleep (ms : Z) (c : clock) : clock := elapse ms c.

Lemma elapse_time ms c : time c + ms <= time (elapse ms c).
Proof. unfold elapse. destruct (delays c); cbn; lia. Qed.

Lemma instant_now_time c now c' : instant_now c = (now, c') → time c <= now ∧ now = time c'.
Proof. unfold instant_now. intros [= <- <-]. pose proof (elapse_time 0 c). split; [lia|done]. Qed.

(** ** Laws of streams *)

Lemma tcp_read_cases n t :
  match tcp_read n t with
  | (Ok l, t') => delivered (conn_r (conn t)) = l ++ delivered (conn_r (conn t')) ∨ (read_shut t = true ∧ l = [] ∧ t' = t)
  | (Err _, t') => delivered (conn_r (conn t')) = delivered (conn_r (conn t))
  | _ => False
  end.
Proof.
  unfold tcp_read, on_reader. destruct (read_shut t); [auto|].
  pose proof (read_delivered n (conn_r (conn t))) as H. pose proof (returns_read n (conn_r (conn t))) as Hr.
  destruct (read n (conn_r (conn t))) as [[l|e| |] r]; cbn; auto.
Qed.

(** What can be read at once of a stream. *)
Definition arrived (t : TcpStream) : bytes := if read_shut t then [] else available (conn_r (conn t)).

Lemma tcp_read_arrived n t : 0 < n →
  match tcp_read n t with
  | (Ok l, t') => arrived t = l ++ (if decide (l = []) then [] else arrived t')
  | _ => arrived t = []
  end.
Proof.
  intros Hn. unfold tcp_read, on_reader, arrived. destruct (read_shut t) eqn:E; [done|].
  pose proof (read_available n (conn_r (conn t)) Hn) as H. destruct (read n _) as [[l|e| |] r]; cbn; try done.
  by rewrite E.
Qed.

(** Reading leaves what was written alone, and writing what can be read. *)
Lemma tcp_read_conn n t : conn_w (conn (snd (tcp_read n t))) = conn_w (conn t) ∧
  write_shut (snd (tcp_read n t)) = write_shut t ∧ read_shut (snd (tcp_read n t)) = read_shut t.
Proof.
  unfold tcp_read, on_reader. destruct (read_shut t) eqn:E; cbn; [auto|].
  destruct (read n _) as [? r]. cbn. auto.
Qed.

Lemma tcp_write_conn b t : conn_r (conn (snd (tcp_write b t))) = conn_r (conn t) ∧
  write_shut (snd (tcp_write b t)) = write_shut t ∧ read_shut (snd (tcp_write b t)) = read_shut t.
Proof.
  unfold tcp_write, on_writer. destruct (write_shut t) eqn:E; cbn; [auto|].
  destruct (write b _) as [? r]. cbn. auto.
Qed.

(** What was written is what was counted. *)
(** A stream that refused a part of what it was given. *)
Definition stalls (t t' : TcpStream) : Prop := write_shut t = true ∨ shorter (conn_w (conn t)) (conn_w (conn t')).

Lemma tcp_write_short b t : let '(r, t') := tcp_write b t in
  (length (w_script (conn_w (conn t'))) <= length (w_script (conn_w (conn t))))%nat ∧ (r = Ok (len b) ∨ stalls t t').
Proof.
  unfold tcp_write, on_writer, stalls. destruct (write_shut t); [by auto|].
  pose proof (write_short b (conn_w (conn t))) as H. destruct (write b _) as [r w]. cbn. naive_solver.
Qed.

Lemma tcp_write_cases b t :
  match tcp_write b t with
  | (Ok n, t') => 0 <= n <= len b ∧ written (conn_w (conn t')) = written (conn_w (conn t)) ++ take (Z.to_nat n) b
  | (Err _, t') => written (conn_w (conn t')) = written (conn_w (conn t))
  | _ => False
  end.
Proof.
  unfold tcp_write, on_writer. destruct (write_shut t); [done|].
  pose proof (write_spec b (conn_w (conn t))) as H. by destruct (write b _) as [[] ?].
Qed.
