(* ===== verification/NetStack.v ===== *)
(** * [proxy/netstack.rs]: the userspace TCP stack of the proxy mode

    The PPP device, a pair of packet queues between the tunnel and the stack,
    and the operations of [ProxyNetStack] on the sockets of the smoltcp library.
    The library is a parameter: [Smoltcp] has the operations the source calls,
    [SmoltcpLaws] what their documentation promises. *)

From S2P Require Import Prelude Stream RustStd.

#[local] Open Scope list_scope.
#[local] Open Scope Z_scope.

Definition DEFAULT_PROXY_MTU : usize := 1354.
Definition DEFAULT_TCP_BUFFER_SIZE : usize := 256 * 1024.

(** ** The device *)

Record PppDevice := { rx : list bytes; tx : list bytes; mtu : usize }.

#[export] Instance PppDevice_eta : Eta PppDevice := λ d, {| rx := rx d; tx := tx d; mtu := mtu d |}.

Definition new_device (mtu : usize) : PppDevice := {| rx := []; tx := []; mtu := mtu |}.

Definition push_rx (packet : bytes) (self : PppDevice) : PppDevice :=
  match packet with [] => self | _ => self <| rx := rx self ++ [packet] |> end.

Definition pop_tx (self : PppDevice) : option bytes * PppDevice :=
  match tx self with [] => (None, self) | packet :: rest => (Some packet, self <| tx := rest |>) end.

Definition rx_len (self : PppDevice) : usize := len (rx self).
Definition tx_len (self : PppDevice) : usize := len (tx self).

(** [Device::receive]: the packet its token hands over when it is consumed. *)
Definition receive (self : PppDevice) : option bytes * PppDevice :=
  match rx self with [] => (None, self) | packet :: rest => (Some packet, self <| rx := rest |>) end.

(** [TxToken::consume]: the packet its closure has filled in. *)
Definition transmit (packet : bytes) (self : PppDevice) : PppDevice :=
  match packet with [] => self | _ => self <| tx := tx self ++ [packet] |> end.

(** ** The library *)

(** The states of a TCP connection. *)
Inductive TcpState :=
  | TcpClosed | TcpListen | TcpSynSent | TcpSynReceived | TcpEstablished | TcpFinWait1
  | TcpFinWait2 | TcpCloseWait | TcpClosing | TcpLastAck | TcpTimeWait.

#[export] Instance TcpState_eq_dec : EqDecision TcpState.
Proof. solve_decision. Defined.

(** What the library does with a device while it polls: receive a packet if
    there is one, transmit packets, and end. *)
Inductive device_use (A : Type) :=
  | Finished (a : A)
  | Receive (k : option bytes → device_use A)
  | Transmit (packet : bytes) (k : device_use A).
Arguments Finished {A} a.
Arguments Receive {A} k.
Arguments Transmit {A} packet k.

(** The interface and the socket set.  An operation on a handle that is not in
    the set panics; the [Debug] text of an error stands for the error. *)
Class Smoltcp (Interface Sockets Handle : Type) := {
  interface_new : u64 → usize → Z → Interface;
  push_ip_addr : Ipv4Addr → u8 → Interface → option Interface;
  add_default_ipv4_route : Ipv4Addr → Interface → option Interface;
  interface_poll : Z → Interface → Sockets → device_use (bool * (Interface * Sockets));
  sockets_new : Sockets;
  sockets_add : usize → usize → Sockets → Handle * Sockets;
  sockets_remove : Handle → Sockets → result unit * Sockets;
  socket_connect : Handle → Ipv4Addr * u16 → u16 → Interface * Sockets →
    result (unit + string) * (Interface * Sockets);
  socket_state : Handle → Sockets → result TcpState;
  socket_is_active : Handle → Sockets → result bool;
  socket_can_send : Handle → Sockets → result bool;
  socket_send_slice : Handle → bytes → Sockets → result (usize + string) * Sockets;
  socket_recv_slice : Handle → usize → Sockets → result (bytes + string) * Sockets;
  socket_recv_queue : Handle → Sockets → result usize;
  socket_close : Handle → Sockets → result unit * Sockets;
}.

(** ** [ProxyNetStack] *)

Record ProxyNetStack {Interface Sockets : Type} := {
  iface : Interface;
  sockets : Sockets;
  device : PppDevice;
  next_ephemeral_port : u16;
}.
Arguments ProxyNetStack : clear implicits.

#[export] Instance ProxyNetStack_eta {I S} : Eta (ProxyNetStack I S) := λ n,
  {| iface := iface n; sockets := sockets n; device := device n; next_ephemeral_port := next_ephemeral_port n |}.

Definition random_seed (local_ip : Ipv4Addr) : u64 := Z.lor 0x6f70656e66740000 (u32_of_ipv4 local_ip).

Section Operations.
Context {Interface Sockets Handle : Type} `{!Smoltcp Interface Sockets Handle}.

Abbreviation netstack := (ProxyNetStack Interface Sockets).

(** [unwrap] *)
Definition unwrap {A} (o : option A) : result A := match o with Some a => Ok a | None => Panic end.

Definition new (local_ip : Ipv4Addr) (peer_ip : option Ipv4Addr) (now : Z) : result netstack :=
  let device := new_device DEFAULT_PROXY_MTU in
  let iface := interface_new (random_seed local_ip) (mtu device) now in
  let* iface := unwrap (push_ip_addr local_ip 32 iface) in
  let* iface := unwrap (add_default_ipv4_route (default local_ip peer_ip) iface) in
  Ok {| iface := iface; sockets := sockets_new; device := device; next_ephemeral_port := 49152 |}.

Definition add_tcp_socket (self : netstack) : Handle * netstack :=
  let '(handle, s) := sockets_add DEFAULT_TCP_BUFFER_SIZE DEFAULT_TCP_BUFFER_SIZE (sockets self) in
  (handle, self <| sockets := s |>).

Definition next_port (self : netstack) : u16 * netstack :=
  let port := next_ephemeral_port self in
  (port, self <| next_ephemeral_port := if port =? 65535 then 49152 else port + 1 |>).

Definition connect_tcp (handle : Handle) (remote : Ipv4Addr) (port : u16) (self : netstack)
    : result (unit + string) * netstack :=
  let '(local_port, self) := next_port self in
  let '(r, (i, s)) := socket_connect handle (remote, port) local_port (iface self, sockets self) in
  (r, self <| iface := i |> <| sockets := s |>).

(** The library's use of the device, performed. *)
Fixpoint use_device {A} (u : device_use A) (d : PppDevice) : A * PppDevice :=
  match u with
  | Finished a => (a, d)
  | Receive k => let '(packet, d) := receive d in use_device (k packet) d
  | Transmit packet k => use_device k (transmit packet d)
  end.

Definition poll (now : Z) (self : netstack) : bool * netstack :=
  let '((changed, (i, s)), d) := use_device (interface_poll now (iface self) (sockets self)) (device self) in
  (changed, self <| iface := i |> <| sockets := s |> <| device := d |>).

Definition tcp_state (handle : Handle) (self : netstack) : result TcpState :=
  socket_state handle (sockets self).
Definition tcp_is_established (handle : Handle) (self : netstack) : result bool :=
  let* s := tcp_state handle self in Ok (bool_decide (s = TcpEstablished)).
Definition tcp_is_active (handle : Handle) (self : netstack) : result bool :=
  socket_is_active handle (sockets self).
Definition tcp_can_send (handle : Handle) (self : netstack) : result bool :=
  socket_can_send handle (sockets self).

(** A method that changes the socket set only. *)
Definition on_sockets {A} (f : Sockets → result A * Sockets) (self : netstack) : result A * netstack :=
  let '(r, s) := f (sockets self) in (r, self <| sockets := s |>).

Definition tcp_send (handle : Handle) (data : bytes) : netstack → result (usize + string) * netstack :=
  on_sockets (socket_send_slice handle data).
(** The caller's buffer is given by its size; the octets written to it are the answer. *)
Definition tcp_recv (handle : Handle) (size : usize) : netstack → result (bytes + string) * netstack :=
  on_sockets (socket_recv_slice handle size).
Definition tcp_close (handle : Handle) : netstack → result unit * netstack :=
  on_sockets (socket_close handle).
Definition remove_tcp_socket (handle : Handle) : netstack → result unit * netstack :=
  on_sockets (sockets_remove handle).

Definition push_rx_ipv4 (packet : bytes) (self : netstack) : netstack :=
  self <| device := push_rx packet (device self) |>.

Definition pop_tx_ipv4 (self : netstack) : option bytes * netstack :=
  let '(packet, d) := pop_tx (device self) in (packet, self <| device := d |>).

End Operations.

(** ** Laws of the library

    What its documentation promises of the socket set and its sockets.  A
    handle is live from [add] to [remove]; [sent] is everything a socket has
    accepted from [send_slice], [pending] what its receive buffer holds (every
    socket of the program has the same buffer sizes), and
    [send_closed] says that its transmit half was closed by [close]. *)

Class SmoltcpView (Sockets Handle : Type) := {
  live : Handle → Sockets → Prop;
  sent : Handle → Sockets → bytes;
  pending : Handle → Sockets → bytes;
  send_closed : Handle → Sockets → Prop;
}.

Section Laws.
Context {Interface Sockets Handle : Type} `{!SmoltcpView Sockets Handle}.

(** Every outcome of a use of the device. *)
Fixpoint all_outcomes {A} (P : A → Prop) (u : device_use A) : Prop :=
  match u with
  | Finished a => P a
  | Receive k => ∀ packet, all_outcomes P (k packet)
  | Transmit _ k => all_outcomes P k
  end.

Definition same_at (h : Handle) (s s' : Sockets) : Prop :=
  sent h s' = sent h s ∧ pending h s' = pending h s ∧ (send_closed h s → send_closed h s').

(** An operation on the socket [h] leaves the set and the other sockets alone. *)
Definition others_same (h : Handle) (s s' : Sockets) : Prop :=
  (∀ h', live h' s' ↔ live h' s) ∧ ∀ h', h' ≠ h → live h' s → same_at h' s s'.

(** What the library calls a unicast address: neither unspecified nor multicast
    nor the broadcast address. *)
Definition is_unicast (ip : Ipv4Addr) : bool :=
  let '(Ipv4 a _ _ _) := ip in
  negb (bool_decide (ip = UNSPECIFIED)) && negb (Z.land a 0xf0 =? 224) && negb (bool_decide (ip = Ipv4 255 255 255 255)).

(** The addresses of a new interface have room for the one address of the
    program, and its routes for the default route; but [update_ip_addrs] is
    documented to panic on an address that is not unicast. *)
Class SmoltcpLaws `{!Smoltcp Interface Sockets Handle} := {
  live_new h : ¬ live h sockets_new;
  pending_bytes h s : live h s → is_bytes (pending h s);
  pending_bounded h s : live h s → len (pending h s) <= DEFAULT_TCP_BUFFER_SIZE;
  closed_law h s : live h s → send_closed h s → socket_can_send h s = Ok false;
  add_law rx tx s h s' : sockets_add rx tx s = (h, s') →
    ¬ live h s ∧ (∀ h', live h' s' ↔ h' = h ∨ live h' s) ∧
    sent h s' = [] ∧ ∀ h', live h' s → same_at h' s s';
  remove_law h s : live h s → ∃ s', sockets_remove h s = (Ok tt, s') ∧
    (∀ h', live h' s' ↔ h' ≠ h ∧ live h' s) ∧ ∀ h', h' ≠ h → live h' s → same_at h' s s';
  connect_law h remote port i s : live h s → ∃ r i' s', socket_connect h remote port (i, s) = (Ok r, (i', s')) ∧
    others_same h s s' ∧ sent h s' = sent h s;
  state_law h s : live h s → ∃ st, socket_state h s = Ok st;
  active_law h s : live h s → ∃ b, socket_is_active h s = Ok b;
  can_send_law h s : live h s → ∃ b, socket_can_send h s = Ok b;
  recv_queue_law h s : live h s → socket_recv_queue h s = Ok (len (pending h s));
  send_law h data s : live h s → ∃ r s', socket_send_slice h data s = (Ok r, s') ∧
    others_same h s s' ∧ pending h s' = pending h s ∧ (send_closed h s → send_closed h s') ∧
    match r with
    | inl n => 0 <= n <= len data ∧ sent h s' = sent h s ++ take (Z.to_nat n) data ∧
        (n < len data → socket_can_send h s' = Ok false)
    | inr _ => sent h s' = sent h s
    end;
  recv_law h size s : live h s → 0 <= size → ∃ r s', socket_recv_slice h size s = (Ok r, s') ∧
    others_same h s s' ∧ sent h s' = sent h s ∧ (send_closed h s → send_closed h s') ∧
    match r with
    | inl l => len l <= size ∧ pending h s = l ++ pending h s' ∧ (l = [] → 0 < size → pending h s = [])
    | inr _ => pending h s = [] ∧ pending h s' = []
    end;
  close_law h s : live h s → ∃ s', socket_close h s = (Ok tt, s') ∧
    others_same h s s' ∧ same_at h s s' ∧ send_closed h s';
  poll_law now i s : all_outcomes (λ '(_, (_, s')), (∀ h, live h s' ↔ live h s) ∧
    ∀ h, live h s → sent h s' = sent h s ∧ (send_closed h s → send_closed h s')) (interface_poll now i s);
  push_addr_law seed mtu now ip : is_unicast ip = true → is_Some (push_ip_addr ip 32 (interface_new seed mtu now));
  push_addr_panics seed mtu now ip : ip ≠ UNSPECIFIED → is_unicast ip = false →
    push_ip_addr ip 32 (interface_new seed mtu now) = None;
  add_route_law seed mtu now ip i gateway : push_ip_addr ip 32 (interface_new seed mtu now) = Some i →
    is_Some (add_default_ipv4_route gateway i);
}.

(** *** The device *)

Lemma all_outcomes_use {A} (P : A → Prop) (u : device_use A) d : all_outcomes P u → P (use_device u d).1.
Proof.
  revert d. induction u as [a|k IH|packet k IH]; intros d; cbn; [done| |].
  - intros H. destruct (receive d) as [p d']. by apply IH.
  - intros H. by apply IH.
Qed.

End Laws.
Arguments SmoltcpLaws Interface Sockets Handle {_ _}.

(** ** The operations of [ProxyNetStack] under the laws *)

Section Lifted.
Context {Interface Sockets Handle : Type} `{!Smoltcp Interface Sockets Handle}
  `{!SmoltcpView Sockets Handle} `{!SmoltcpLaws Interface Sockets Handle}.

Abbreviation netstack := (ProxyNetStack Interface Sockets).

Definition alive (h : Handle) (n : netstack) : Prop := live h (sockets n).

(** Device and other sockets are left alone. *)
Definition touches (h : Handle) (n n' : netstack) : Prop :=
  device n' = device n ∧ others_same h (sockets n) (sockets n').

Lemma touches_refl h n : touches h n n.
Proof. split; [done|]. split; [done|]. by intros h' _ _. Qed.

Lemma touches_trans h n1 n2 n3 : touches h n1 n2 → touches h n2 n3 → touches h n1 n3.
Proof.
  intros [Hd1 [Hl1 Ho1]] [Hd2 [Hl2 Ho2]]. split; [congruence|]. split; [naive_solver|].
  intros h' Hne Hl. destruct (Ho1 h' Hne Hl) as (E1 & E2 & E3).
  destruct (Ho2 h' Hne) as (F1 & F2 & F3); [by apply Hl1|]. split_and!; [congruence..|auto].
Qed.

Lemma touches_alive h n n' h' : touches h n n' → alive h' n' ↔ alive h' n.
Proof. intros [_ [H _]]. apply H. Qed.

Lemma tcp_can_send_ok h n : alive h n → ∃ b, tcp_can_send h n = Ok b.
Proof. apply can_send_law. Qed.

Lemma tcp_is_active_ok h n : alive h n → ∃ b, tcp_is_active h n = Ok b.
Proof. apply active_law. Qed.

Lemma tcp_is_established_ok h n : alive h n → ∃ b, tcp_is_established h n = Ok b.
Proof. intros (st & Hst)%state_law. unfold tcp_is_established, tcp_state. rewrite Hst. by eexists. Qed.

Lemma tcp_send_ok h data n : alive h n → ∃ r n', tcp_send h data n = (Ok r, n') ∧
  touches h n n' ∧ pending h (sockets n') = pending h (sockets n) ∧
  (send_closed h (sockets n) → send_closed h (sockets n')) ∧
  match r with
  | inl k => 0 <= k <= len data ∧ sent h (sockets n') = sent h (sockets n) ++ take (Z.to_nat k) data ∧
      (k < len data → tcp_can_send h n' = Ok false)
  | inr _ => sent h (sockets n') = sent h (sockets n)
  end.
Proof.
  intros (r & s' & Hs & Ho & Hp & Hc & Hr)%(send_law h data). exists r. eexists.
  unfold tcp_send, on_sockets. rewrite Hs. split; [done|]. by split_and!.
Qed.

Lemma tcp_recv_ok h size n : alive h n → 0 <= size → ∃ r n', tcp_recv h size n = (Ok r, n') ∧
  touches h n n' ∧ sent h (sockets n') = sent h (sockets n) ∧
  (send_closed h (sockets n) → send_closed h (sockets n')) ∧
  match r with
  | inl l => len l <= size ∧ pending h (sockets n) = l ++ pending h (sockets n') ∧
      (l = [] → 0 < size → pending h (sockets n) = [])
  | inr _ => pending h (sockets n) = [] ∧ pending h (sockets n') = []
  end.
Proof.
  intros Hl Hsz. destruct (recv_law h size _ Hl Hsz) as (r & s' & Hs & Ho & Hp & Hc & Hr). exists r. eexists.
  unfold tcp_recv, on_sockets. rewrite Hs. split; [done|]. by split_and!.
Qed.

Lemma tcp_close_ok h n : alive h n → ∃ n', tcp_close h n = (Ok tt, n') ∧
  touches h n n' ∧ same_at h (sockets n) (sockets n') ∧ send_closed h (sockets n').
Proof.
  intros (s' & Hs & Ho & Hp & Hc)%close_law. eexists.
  unfold tcp_close, on_sockets. rewrite Hs. split; [done|]. by split_and!.
Qed.

Lemma remove_tcp_socket_ok h n : alive h n → ∃ n', remove_tcp_socket h n = (Ok tt, n') ∧
  device n' = device n ∧ (∀ h', alive h' n' ↔ h' ≠ h ∧ alive h' n) ∧
  ∀ h', h' ≠ h → alive h' n → same_at h' (sockets n) (sockets n').
Proof.
  intros (s' & Hs & Ho & Hp)%remove_law. eexists.
  unfold remove_tcp_socket, on_sockets. rewrite Hs. split; [done|]. by split_and!.
Qed.

Lemma add_tcp_socket_ok n h n' : add_tcp_socket n = (h, n') →
  ¬ alive h n ∧ device n' = device n ∧ (∀ h', alive h' n' ↔ h' = h ∨ alive h' n) ∧
  sent h (sockets n') = [] ∧ ∀ h', alive h' n → same_at h' (sockets n) (sockets n').
Proof.
  unfold add_tcp_socket. destruct (sockets_add _ _ _) as [h0 s'] eqn:E. intros [= <- <-].
  apply add_law in E as (? & ? & ? & ?). by split_and!.
Qed.

Lemma connect_tcp_ok h remote port n : alive h n → ∃ r n', connect_tcp h remote port n = (Ok r, n') ∧
  touches h n n' ∧ sent h (sockets n') = sent h (sockets n).
Proof.
  intros Hl. unfold connect_tcp, next_port. cbn.
  destruct (connect_law h (remote, port) (next_ephemeral_port n) (iface n) (sockets n) Hl) as (r & i' & s' & E & Ho & Hs).
  cbn in E |- *. unfold set_field in *. cbn in *. rewrite E. eexists _, _. split; [reflexivity|]. by split_and!.
Qed.

Lemma poll_ok now n :
  (∀ h, alive h (poll now n).2 ↔ alive h n) ∧
  ∀ h, alive h n → sent h (sockets (poll now n).2) = sent h (sockets n) ∧
    (send_closed h (sockets n) → send_closed h (sockets (poll now n).2)).
Proof.
  unfold poll. pose proof (poll_law now (iface n) (sockets n)) as H.
  apply (all_outcomes_use _ _ (device n)) in H.
  destruct (use_device _ _) as [[changed [i s]] d]. exact H.
Qed.

End Lifted.
