(* ===== verification/ToyStack.v ===== *)
(** * A concrete TCP stack for examples

    The smallest stack that satisfies the laws of [NetStack]: a connection
    stands at once, a socket takes a limited number of octets between two
    polls, and a poll hands the octets of a received packet to every socket,
    which keeps what its small buffer has room for.  It models nothing of the source: examples run the proxy's loop on it. *)

From stdpp Require Import gmap.
From S2P Require Import Prelude Stream RustStd Net NetStack.

#[local] Open Scope string_scope.
#[local] Open Scope list_scope.
#[local] Open Scope Z_scope.

Record toy_socket := { t_sent : bytes; t_rx : bytes; t_room : Z; t_closed : bool; t_connected : bool }.
#[export] Instance toy_socket_eta : Eta toy_socket := λ k,
  {| t_sent := t_sent k; t_rx := t_rx k; t_room := t_room k; t_closed := t_closed k; t_connected := t_connected k |}.

Abbreviation toys := (gmap nat toy_socket).

Definition TOY_ROOM : Z := 64.
Definition TOY_BUFFER : Z := 512.
Definition fresh_socket : toy_socket :=
  {| t_sent := []; t_rx := []; t_room := TOY_ROOM; t_closed := false; t_connected := false |}.

(** An operation on a socket of the set. *)
Definition on_toy {A} (h : nat) (f : toy_socket → A * toy_socket) (s : toys) : result A * toys :=
  match s !! h with
  | Some k => let '(a, k) := f k in (Ok a, <[h := k]> s)
  | None => (Panic, s)
  end.
Definition of_toy {A} (h : nat) (f : toy_socket → A) (s : toys) : result A :=
  match s !! h with Some k => Ok (f k) | None => Panic end.

Definition toy_sendable (k : toy_socket) : bool := negb (t_closed k) && (0 <? t_room k).

Definition toy_send (data : bytes) (k : toy_socket) : (usize + string) * toy_socket :=
  if t_closed k then (inr "InvalidState", k)
  else
    let n := Z.max 0 (Z.min (t_room k) (len data)) in
    (inl n, k <| t_sent := t_sent k ++ take (Z.to_nat n) data |> <| t_room := t_room k - n |>).

Definition buffered (k : toy_socket) : bytes := take (Z.to_nat TOY_BUFFER) (t_rx k).

Definition toy_recv (size : usize) (k : toy_socket) : (bytes + string) * toy_socket :=
  (inl (map as_u8 (take (Z.to_nat size) (buffered k))), k <| t_rx := drop (Z.to_nat size) (buffered k) |>).

Definition toy_connect (remote : Ipv4Addr) (k : toy_socket) : (unit + string) * toy_socket :=
  if decide (remote = UNSPECIFIED) then (inr "Unaddressable", k) else (inl tt, k <| t_connected := true |>).

Definition toy_arrive (packet : bytes) (k : toy_socket) : toy_socket :=
  k <| t_rx := buffered k ++ packet |> <| t_room := TOY_ROOM |>.

#[export] Instance toy_smoltcp : Smoltcp unit toys nat := {|
  interface_new _ _ _ := tt;
  push_ip_addr ip _ i := if is_unicast ip then Some i else None;
  add_default_ipv4_route _ i := Some i;
  interface_poll _ i s :=
    Receive (λ packet, Finished (bool_decide (is_Some packet), (i, toy_arrive (default [] packet) <$> s)));
  sockets_new := ∅;
  sockets_add _ _ s := let h := fresh (dom s) in (h, <[h := fresh_socket]> s);
  sockets_remove h s := match s !! h with Some _ => (Ok tt, delete h s) | None => (Panic, s) end;
  socket_connect h remote port '(i, s) := let '(r, s) := on_toy h (toy_connect remote.1) s in (r, (i, s));
  socket_state h := of_toy h (λ k, if t_connected k then TcpEstablished else TcpClosed);
  socket_is_active h := of_toy h (λ k, t_connected k && negb (t_closed k));
  socket_can_send h := of_toy h toy_sendable;
  socket_send_slice h data := on_toy h (toy_send data);
  socket_recv_slice h size := on_toy h (toy_recv size);
  socket_recv_queue h := of_toy h (λ k, len (buffered k));
  socket_close h := on_toy h (λ k, (tt, k <| t_closed := true |>));
|}.

#[export] Instance toy_view : SmoltcpView toys nat := {|
  live h s := is_Some (s !! h);
  sent h s := default [] (t_sent <$> s !! h);
  pending h s := map as_u8 (default [] (buffered <$> s !! h));
  send_closed h s := default false (t_closed <$> s !! h) = true;
|}.

Lemma toy_same_at (h : nat) (s s' : toys) : s' !! h = s !! h → same_at h s s'.
Proof. intros E. unfold same_at. cbn. rewrite E. by split_and!. Qed.

Lemma toy_others (h : nat) k (s : toys) : is_Some (s !! h) → others_same h s (<[h := k]> s).
Proof.
  intros Hl. split; intros h'.
  - cbn. destruct (decide (h' = h)) as [->|].
    + rewrite lookup_insert_eq. split; eauto.
    + by rewrite lookup_insert_ne.
  - intros Hne _. apply toy_same_at. by rewrite lookup_insert_ne.
Qed.

#[export] Instance toy_laws : SmoltcpLaws unit toys nat.
Proof.
  split.
  - intros h. cbn. rewrite lookup_empty. by intros [? ?].
  - intros h s _. cbn. apply Forall_map, Forall_true. intros x. unfold as_u8, is_u8. pose proof (Z.mod_pos_bound x 256). lia.
  - intros h s _. cbn. unfold len. rewrite length_map. change DEFAULT_TCP_BUFFER_SIZE with 262144.
    destruct (s !! h) as [k|]; cbn; [|lia]. unfold buffered. rewrite length_take. unfold TOY_BUFFER. lia.
  - intros h s [k Hk]. cbn. unfold of_toy, toy_sendable. rewrite Hk. cbn. by intros ->.
  - intros ? ? s h s'. cbn. intros [= <- <-]. set (h := fresh (dom s)).
    assert (s !! h = None) as Hn by (apply not_elem_of_dom, is_fresh).
    split; [rewrite Hn; by intros [? ?]|]. split_and!.
    + intros h'. destruct (decide (h' = h)) as [->|].
      * rewrite lookup_insert_eq. split; eauto.
      * rewrite lookup_insert_ne by done. naive_solver.
    + by rewrite lookup_insert_eq.
    + intros h' [k Hk]. apply toy_same_at. rewrite lookup_insert_ne; [done|congruence].
  - intros h s [k Hk]. cbn. rewrite Hk. eexists. split; [done|]. split.
    + intros h'. destruct (decide (h' = h)) as [->|].
      * rewrite lookup_delete_eq. split; [by intros [? ?]|naive_solver].
      * rewrite lookup_delete_ne by done. naive_solver.
    + intros h' Hne _. apply toy_same_at. by rewrite lookup_delete_ne.
  - intros h remote port i s [k Hk]. cbn. unfold on_toy. rewrite Hk. unfold toy_connect.
    destruct (decide _); (eexists _, _, _; split; [reflexivity|]; split; [apply toy_others; eauto|]);
      cbn; by rewrite lookup_insert_eq, ?Hk.
  - intros h s [k Hk]. cbn. unfold of_toy. rewrite Hk. eauto.
  - intros h s [k Hk]. cbn. unfold of_toy. rewrite Hk. eauto.
  - intros h s [k Hk]. cbn. unfold of_toy. rewrite Hk. eauto.
  - intros h s [k Hk]. cbn. unfold of_toy. rewrite Hk. cbn. unfold len. by rewrite length_map.
  - intros h data s [k Hk]. cbn. unfold on_toy. rewrite Hk. unfold toy_send.
    destruct (t_closed k) eqn:Ec; (eexists _, _; split; [reflexivity|]; split; [apply toy_others; eauto|]);
      cbn; rewrite lookup_insert_eq, ?Hk; cbn; [done|]. split; [done|]. split; [done|].
    pose proof (len_nonneg data). split; [lia|]. split; [done|].
    intros Hlt. unfold of_toy, toy_sendable. rewrite lookup_insert_eq. cbn. rewrite Ec. cbn. f_equal.
    apply Z.ltb_ge. lia.
  - intros h size s [k Hk] Hsz. cbn. unfold on_toy. rewrite Hk. unfold toy_recv.
    eexists _, _. split; [reflexivity|]. split; [apply toy_others; eauto|].
    cbn. rewrite lookup_insert_eq, ?Hk. cbn. split; [done|]. split; [done|]. split.
    + unfold len. rewrite length_map, length_take. lia.
    + split.
      * unfold buffered at 3. cbn. rewrite (take_ge (drop _ _)); [by rewrite <- map_app, take_drop|].
        unfold buffered. rewrite length_drop, length_take. lia.
      * destruct (buffered k) as [|b l]; [done|]. destruct (Z.to_nat size) eqn:E; [lia|done].
  - intros h s [k Hk]. cbn. unfold on_toy. rewrite Hk. eexists. split; [reflexivity|].
    split; [apply toy_others; eauto|]. unfold same_at. cbn. by rewrite lookup_insert_eq, ?Hk.
  - intros now i s. cbn. intros packet. split; intros h; cbn; rewrite lookup_fmap.
    + by rewrite fmap_is_Some.
    + intros [k Hk]. rewrite Hk. by cbn.
  - intros seed mtu now ip E. cbn. rewrite E. eauto.
  - intros seed mtu now ip _ E. cbn. by rewrite E.
  - intros seed mtu now ip i gateway _. cbn. eauto.
Qed.
