(* ===== verification/Config.v ===== *)
(** * [config.rs] and the options of [cli.rs]

    The configuration record, its file format, the command line options and
    the way the two are combined.  Reading the file is a parameter; parsing the
    command line itself is clap's. *)

From S2P Require Import Prelude RustStd.

#[local] Open Scope string_scope.
#[local] Open Scope Z_scope.

Definition DEFAULT_GATEWAY_PORT : u16 := 443.
Definition SHA256_DIGEST_HEX_LEN : usize := 64.
Definition DEFAULT_LOG_VERBOSITY : u8 := 3.
Definition MAX_LOG_VERBOSITY : u8 := 6.

Inductive TlsVersion := Tls10 | Tls11 | Tls12 | Tls13.

#[export] Instance TlsVersion_eq_dec : EqDecision TlsVersion.
Proof. solve_decision. Defined.

Record Config := {
  gateway_host : str;
  gateway_port : u16;
  username : str;
  password : option str;
  cookie : option str;
  cookie_on_stdin : bool;
  saml_port : option u16;
  saml_session_id : option str;
  otp : option str;
  otp_prompt : option str;
  otp_delay : u32;
  no_ftm_push : bool;
  pinentry : option str;
  realm : option str;
  iface_name : option str;
  sni : option str;
  set_routes : bool;
  set_dns : bool;
  half_internet_routes : bool;
  reconnect_delay : option u32;
  max_reconnects : u32;
  use_syslog : bool;
  log_verbosity : u8;
  use_resolvconf : bool;
  user_agent : str;
  hostcheck : option str;
  check_virtual_desktop : option str;
  pppd_use_peerdns : bool;
  pppd_log : option str;
  pppd_plugin : option str;
  pppd_ipparam : option str;
  pppd_ifname : option str;
  pppd_call : option str;
  pppd_accept_remote : bool;
  ppp_system : option str;
  ca_file : option str;
  user_cert : option str;
  user_key : option str;
  pem_passphrase : option str;
  insecure_ssl : bool;
  cipher_list : option str;
  min_tls : option TlsVersion;
  seclevel_1 : bool;
  trusted_certs : list str;
  proxy : option SocketAddr;
}.

#[export] Instance Config_eta : Eta Config := λ c,
  {|
     gateway_host := gateway_host c;
     gateway_port := gateway_port c;
     username := username c;
     password := password c;
     cookie := cookie c;
     cookie_on_stdin := cookie_on_stdin c;
     saml_port := saml_port c;
     saml_session_id := saml_session_id c;
     otp := otp c;
     otp_prompt := otp_prompt c;
     otp_delay := otp_delay c;
     no_ftm_push := no_ftm_push c;
     pinentry := pinentry c;
     realm := realm c;
     iface_name := iface_name c;
     sni := sni c;
     set_routes := set_routes c;
     set_dns := set_dns c;
     half_internet_routes := half_internet_routes c;
     reconnect_delay := reconnect_delay c;
     max_reconnects := max_reconnects c;
     use_syslog := use_syslog c;
     log_verbosity := log_verbosity c;
     use_resolvconf := use_resolvconf c;
     user_agent := user_agent c;
     hostcheck := hostcheck c;
     check_virtual_desktop := check_virtual_desktop c;
     pppd_use_peerdns := pppd_use_peerdns c;
     pppd_log := pppd_log c;
     pppd_plugin := pppd_plugin c;
     pppd_ipparam := pppd_ipparam c;
     pppd_ifname := pppd_ifname c;
     pppd_call := pppd_call c;
     pppd_accept_remote := pppd_accept_remote c;
     ppp_system := ppp_system c;
     ca_file := ca_file c;
     user_cert := user_cert c;
     user_key := user_key c;
     pem_passphrase := pem_passphrase c;
     insecure_ssl := insecure_ssl c;
     cipher_list := cipher_list c;
     min_tls := min_tls c;
     seclevel_1 := seclevel_1 c;
     trusted_certs := trusted_certs c;
     proxy := proxy c |}.

Definition default_config : Config :=
  {|
     gateway_host := EmptyString;
     gateway_port := DEFAULT_GATEWAY_PORT;
     username := EmptyString;
     password := None;
     cookie := None;
     cookie_on_stdin := false;
     saml_port := None;
     saml_session_id := None;
     otp := None;
     otp_prompt := None;
     otp_delay := 0;
     no_ftm_push := false;
     pinentry := None;
     realm := None;
     iface_name := None;
     sni := None;
     set_routes := true;
     set_dns := true;
     half_internet_routes := false;
     reconnect_delay := None;
     max_reconnects := 0;
     use_syslog := false;
     log_verbosity := DEFAULT_LOG_VERBOSITY;
     use_resolvconf := true;
     user_agent := "Mozilla/5.0 SV1";
     hostcheck := None;
     check_virtual_desktop := None;
     pppd_use_peerdns := false;
     pppd_log := None;
     pppd_plugin := None;
     pppd_ipparam := None;
     pppd_ifname := None;
     pppd_call := None;
     pppd_accept_remote := true;
     ppp_system := None;
     ca_file := None;
     user_cert := None;
     user_key := None;
     pem_passphrase := None;
     insecure_ssl := false;
     cipher_list := None;
     min_tls := None;
     seclevel_1 := false;
     trusted_certs := [];
     proxy := None |}.

(** ** The command line options *)

Record Cli := {
  cli_gateway : option str;
  cli_version : bool;
  cli_config : option str;
  cli_username : option str;
  cli_password : option str;
  cli_cookie : option str;
  cli_cookie_on_stdin : bool;
  cli_saml_login : option u16;
  cli_otp : option str;
  cli_otp_prompt : option str;
  cli_otp_delay : option u32;
  cli_no_ftm_push : bool;
  cli_pinentry : option str;
  cli_realm : option str;
  cli_ifname : option str;
  cli_sni : option str;
  cli_set_routes : option bool;
  cli_no_routes : bool;
  cli_half_internet_routes : option bool;
  cli_set_dns : option bool;
  cli_no_dns : bool;
  cli_ca_file : option str;
  cli_user_cert : option str;
  cli_user_key : option str;
  cli_pem_passphrase : option str;
  cli_use_syslog : bool;
  cli_use_resolvconf : option bool;
  cli_user_agent : option str;
  cli_hostcheck : option str;
  cli_check_virtual_desktop : option str;
  cli_trusted_cert : list str;
  cli_insecure_ssl : bool;
  cli_cipher_list : option str;
  cli_min_tls : option str;
  cli_seclevel_1 : bool;
  cli_reconnect_delay : option u32;
  cli_persistent : option u32;
  cli_max_reconnects : option u32;
  cli_verbose : u8;
  cli_quiet : u8;
  cli_pppd_use_peerdns : option bool;
  cli_pppd_no_peerdns : bool;
  cli_pppd_log : option str;
  cli_pppd_plugin : option str;
  cli_pppd_ifname : option str;
  cli_pppd_ipparam : option str;
  cli_pppd_call : option str;
  cli_pppd_accept_remote : option bool;
  cli_ppp_system : option str;
  cli_proxy : option SocketAddr;
}.

(** A command line without any option. *)
Definition no_options : Cli :=
  {|
     cli_gateway := None;
     cli_version := false;
     cli_config := None;
     cli_username := None;
     cli_password := None;
     cli_cookie := None;
     cli_cookie_on_stdin := false;
     cli_saml_login := None;
     cli_otp := None;
     cli_otp_prompt := None;
     cli_otp_delay := None;
     cli_no_ftm_push := false;
     cli_pinentry := None;
     cli_realm := None;
     cli_ifname := None;
     cli_sni := None;
     cli_set_routes := None;
     cli_no_routes := false;
     cli_half_internet_routes := None;
     cli_set_dns := None;
     cli_no_dns := false;
     cli_ca_file := None;
     cli_user_cert := None;
     cli_user_key := None;
     cli_pem_passphrase := None;
     cli_use_syslog := false;
     cli_use_resolvconf := None;
     cli_user_agent := None;
     cli_hostcheck := None;
     cli_check_virtual_desktop := None;
     cli_trusted_cert := [];
     cli_insecure_ssl := false;
     cli_cipher_list := None;
     cli_min_tls := None;
     cli_seclevel_1 := false;
     cli_reconnect_delay := None;
     cli_persistent := None;
     cli_max_reconnects := None;
     cli_verbose := 0;
     cli_quiet := 0;
     cli_pppd_use_peerdns := None;
     cli_pppd_no_peerdns := false;
     cli_pppd_log := None;
     cli_pppd_plugin := None;
     cli_pppd_ifname := None;
     cli_pppd_ipparam := None;
     cli_pppd_call := None;
     cli_pppd_accept_remote := None;
     cli_ppp_system := None;
     cli_proxy := None |}.

#[export] Instance Cli_eta : Eta Cli := λ c,
  {|
     cli_gateway := cli_gateway c;
     cli_version := cli_version c;
     cli_config := cli_config c;
     cli_username := cli_username c;
     cli_password := cli_password c;
     cli_cookie := cli_cookie c;
     cli_cookie_on_stdin := cli_cookie_on_stdin c;
     cli_saml_login := cli_saml_login c;
     cli_otp := cli_otp c;
     cli_otp_prompt := cli_otp_prompt c;
     cli_otp_delay := cli_otp_delay c;
     cli_no_ftm_push := cli_no_ftm_push c;
     cli_pinentry := cli_pinentry c;
     cli_realm := cli_realm c;
     cli_ifname := cli_ifname c;
     cli_sni := cli_sni c;
     cli_set_routes := cli_set_routes c;
     cli_no_routes := cli_no_routes c;
     cli_half_internet_routes := cli_half_internet_routes c;
     cli_set_dns := cli_set_dns c;
     cli_no_dns := cli_no_dns c;
     cli_ca_file := cli_ca_file c;
     cli_user_cert := cli_user_cert c;
     cli_user_key := cli_user_key c;
     cli_pem_passphrase := cli_pem_passphrase c;
     cli_use_syslog := cli_use_syslog c;
     cli_use_resolvconf := cli_use_resolvconf c;
     cli_user_agent := cli_user_agent c;
     cli_hostcheck := cli_hostcheck c;
     cli_check_virtual_desktop := cli_check_virtual_desktop c;
     cli_trusted_cert := cli_trusted_cert c;
     cli_insecure_ssl := cli_insecure_ssl c;
     cli_cipher_list := cli_cipher_list c;
     cli_min_tls := cli_min_tls c;
     cli_seclevel_1 := cli_seclevel_1 c;
     cli_reconnect_delay := cli_reconnect_delay c;
     cli_persistent := cli_persistent c;
     cli_max_reconnects := cli_max_reconnects c;
     cli_verbose := cli_verbose c;
     cli_quiet := cli_quiet c;
     cli_pppd_use_peerdns := cli_pppd_use_peerdns c;
     cli_pppd_no_peerdns := cli_pppd_no_peerdns c;
     cli_pppd_log := cli_pppd_log c;
     cli_pppd_plugin := cli_pppd_plugin c;
     cli_pppd_ifname := cli_pppd_ifname c;
     cli_pppd_ipparam := cli_pppd_ipparam c;
     cli_pppd_call := cli_pppd_call c;
     cli_pppd_accept_remote := cli_pppd_accept_remote c;
     cli_ppp_system := cli_ppp_system c;
     cli_proxy := cli_proxy c |}.

(** ** Values *)

Definition svpn_cookie_with_prefix (value : str) : str :=
  if starts_with "SVPNCOOKIE=" value then value else "SVPNCOOKIE=" +:+ value.

(** [i16] arithmetic clamped to the levels; no overflow on two [u8]s. *)
Definition cli_log_verbosity (verbose quiet : u8) : u8 :=
  let adjusted := DEFAULT_LOG_VERBOSITY + verbose - quiet in
  as_u8 (Z.max 0 (Z.min adjusted MAX_LOG_VERBOSITY)).

Definition parse_bool (value : str) : result bool :=
  if str_is_empty value then Ok false else
  if eq_ignore_ascii_case value "true" then Ok true else
  if eq_ignore_ascii_case value "false" then Ok false else
  match RustStd.parse_u8 value with
  | Some n => if n =? 0 then Ok false else if n =? 1 then Ok true else Err (BadBoolean value)
  | None => Err (BadBoolean value)
  end.

(** The copy of it that clap calls: an error is a text. *)
Definition parse_cli_bool (value : str) : bool + str :=
  if str_is_empty value then inl false else
  if eq_ignore_ascii_case value "true" then inl true else
  if eq_ignore_ascii_case value "false" then inl false else
  match RustStd.parse_u8 value with
  | Some n =>
      if n =? 0 then inl false else if n =? 1 then inl true
      else inr ("bad boolean value: " +:+ value)
  | None => inr ("bad boolean value: " +:+ value)
  end.

Definition parse_socket_addr (key value : str) : result SocketAddr :=
  ok_or (parse_socket value) (Network ("bad socket address for " +:+ key +:+ ": " +:+ value)).

Definition parse_port (key value : str) : result u16 :=
  let* port := ok_or (RustStd.parse_u16 value) (BadPort key value) in
  if port =? 0 then Err (BadPort key value) else Ok port.

Definition parse_u32 (key value : str) : result u32 :=
  ok_or (RustStd.parse_u32 value) (BadInteger key value).

Definition parse_tls_version (value : str) : result TlsVersion :=
  if (value =? "1.0")%string then Ok Tls10 else
  if (value =? "1.1")%string then Ok Tls11 else
  if (value =? "1.2")%string then Ok Tls12 else
  if (value =? "1.3")%string then Ok Tls13 else
  Err (BadTlsVersion value).

Definition parse_gateway (value : str) : result (str * option u16) :=
  match rsplit_once ":"%char value with
  | Some (host, port) =>
      if negb (str_is_empty host) && negb (str_is_empty port) && all_chars is_ascii_digit port
      then let* port := parse_port "gateway" port in Ok (host, Some port)
      else Ok (value, None)
  | None => Ok (value, None)
  end.

(** ** The configuration file *)

Definition push_trusted_cert (self : Config) (digest : str) : result Config :=
  if negb (str_len digest =? SHA256_DIGEST_HEX_LEN) || negb (all_chars is_ascii_hexdigit digest)
  then Err (BadCertificateDigest digest)
  else Ok (self <| trusted_certs := (trusted_certs self ++ [to_ascii_lowercase digest])%list |>).

Definition apply_pair (self : Config) (key value : str) : result Config :=
  if (key =? "host")%string then Ok (self <| gateway_host := value |>) else
  if (key =? "port")%string then let* v := parse_port key value in Ok (self <| gateway_port := v |>) else
  if (key =? "username")%string then Ok (self <| username := value |>) else
  if (key =? "password")%string then Ok (self <| password := Some value |>) else
  if (key =? "otp")%string then Ok (self <| otp := Some value |>) else
  if (key =? "otp-prompt")%string then Ok (self <| otp_prompt := Some value |>) else
  if (key =? "otp-delay")%string then let* v := parse_u32 key value in Ok (self <| otp_delay := v |>) else
  if (key =? "cookie")%string || (key =? "cookie-on-stdin")%string then Ok self else
  if (key =? "no-ftm-push")%string then let* v := parse_bool value in Ok (self <| no_ftm_push := v |>) else
  if (key =? "pinentry")%string then Ok (self <| pinentry := Some value |>) else
  if (key =? "realm")%string then Ok (self <| realm := Some value |>) else
  if (key =? "ifname")%string then Ok (self <| iface_name := Some value |>) else
  if (key =? "sni")%string then Ok (self <| sni := Some value |>) else
  if (key =? "set-routes")%string then let* v := parse_bool value in Ok (self <| set_routes := v |>) else
  if (key =? "half-internet-routes")%string then let* v := parse_bool value in Ok (self <| half_internet_routes := v |>) else
  if (key =? "reconnect-delay")%string || (key =? "reconnect_delay")%string || (key =? "persistent")%string then let* v := parse_u32 key value in Ok (self <| reconnect_delay := Some v |>) else
  if (key =? "max_recoonects")%string || (key =? "max_reconnects")%string || (key =? "max-reconnects")%string then let* v := parse_u32 key value in Ok (self <| max_reconnects := v |>) else
  if (key =? "set-dns")%string then let* v := parse_bool value in Ok (self <| set_dns := v |>) else
  if (key =? "pppd-use-peerdns")%string then let* v := parse_bool value in Ok (self <| pppd_use_peerdns := v |>) else
  if (key =? "pppd-log")%string then Ok (self <| pppd_log := Some value |>) else
  if (key =? "pppd-plugin")%string then Ok (self <| pppd_plugin := Some value |>) else
  if (key =? "pppd-ipparam")%string then Ok (self <| pppd_ipparam := Some value |>) else
  if (key =? "pppd-ifname")%string then Ok (self <| pppd_ifname := Some value |>) else
  if (key =? "pppd-call")%string then Ok (self <| pppd_call := Some value |>) else
  if (key =? "pppd-accept-remote")%string then let* v := parse_bool value in Ok (self <| pppd_accept_remote := v |>) else
  if (key =? "ppp-system")%string then Ok (self <| ppp_system := Some value |>) else
  if (key =? "use-syslog")%string then let* v := parse_bool value in Ok (self <| use_syslog := v |>) else
  if (key =? "use-resolvconf")%string then let* v := parse_bool value in Ok (self <| use_resolvconf := v |>) else
  if (key =? "trusted-cert")%string then push_trusted_cert self value else
  if (key =? "ca-file")%string then Ok (self <| ca_file := Some value |>) else
  if (key =? "user-cert")%string then Ok (self <| user_cert := Some value |>) else
  if (key =? "saml-login")%string then let* v := parse_port key value in Ok (self <| saml_port := Some v |>) else
  if (key =? "user-key")%string then Ok (self <| user_key := Some value |>) else
  if (key =? "pem-passphrase")%string then Ok (self <| pem_passphrase := Some value |>) else
  if (key =? "insecure-ssl")%string then let* v := parse_bool value in Ok (self <| insecure_ssl := v |>) else
  if (key =? "cipher-list")%string then Ok (self <| cipher_list := Some value |>) else
  if (key =? "min-tls")%string then let* v := parse_tls_version value in Ok (self <| min_tls := Some v |>) else
  if (key =? "seclevel-1")%string then let* v := parse_bool value in Ok (self <| seclevel_1 := v |>) else
  if (key =? "user-agent")%string then Ok (self <| user_agent := value |>) else
  if (key =? "hostcheck")%string then Ok (self <| hostcheck := Some value |>) else
  if (key =? "check-virtual-desktop")%string then Ok (self <| check_virtual_desktop := Some value |>) else
  if (key =? "proxy")%string then let* v := parse_socket_addr "proxy" value in Ok (self <| proxy := Some v |>) else
  Err (UnknownConfigKey key).

(** One line of the file: blank lines, comments and lines without an equals
    sign are skipped. *)
Definition apply_line (self : Config) (raw_line : str) : result Config :=
  let line := trim raw_line in
  if str_is_empty line || starts_with "#" line then Ok self else
  match split_once "="%char line with
  | None => Ok self
  | Some (key, value) => apply_pair self (trim key) (trim value)
  end.

Fixpoint apply_lines (self : Config) (lines : list str) : result Config :=
  match lines with
  | [] => Ok self
  | line :: lines => let* self := apply_line self line in apply_lines self lines
  end.

Definition parse_config_file (contents : str) : result Config :=
  apply_lines default_config (str_lines contents).

(** [read_to_string] is [std::fs::read_to_string] on the path. *)
Definition from_file (read_to_string : str → result str) (path : str) : result Config :=
  let* contents := read_to_string path in
  parse_config_file contents.

(** ** Combining the sources *)

Definition merge_option {A} (dst src : option A) : option A :=
  match src with Some _ => src | None => dst end.

Definition merge (self other : Config) : Config :=
  self
    <| gateway_host := if negb (str_is_empty (gateway_host other)) then gateway_host other else gateway_host self |>
    <| gateway_port := if negb (gateway_port other =? DEFAULT_GATEWAY_PORT) then gateway_port other else gateway_port self |>
    <| username := if negb (str_is_empty (username other)) then username other else username self |>
    <| password := merge_option (password self) (password other) |>
    <| cookie := merge_option (cookie self) (cookie other) |>
    <| cookie_on_stdin := cookie_on_stdin self || cookie_on_stdin other |>
    <| saml_port := merge_option (saml_port self) (saml_port other) |>
    <| saml_session_id := merge_option (saml_session_id self) (saml_session_id other) |>
    <| otp := merge_option (otp self) (otp other) |>
    <| otp_prompt := merge_option (otp_prompt self) (otp_prompt other) |>
    <| otp_delay := if negb (otp_delay other =? 0) then otp_delay other else otp_delay self |>
    <| no_ftm_push := no_ftm_push self || no_ftm_push other |>
    <| pinentry := merge_option (pinentry self) (pinentry other) |>
    <| realm := merge_option (realm self) (realm other) |>
    <| iface_name := merge_option (iface_name self) (iface_name other) |>
    <| sni := merge_option (sni self) (sni other) |>
    <| set_routes := set_routes other |>
    <| set_dns := set_dns other |>
    <| half_internet_routes := half_internet_routes other |>
    <| reconnect_delay := merge_option (reconnect_delay self) (reconnect_delay other) |>
    <| max_reconnects := if negb (max_reconnects other =? 0) then max_reconnects other else max_reconnects self |>
    <| use_syslog := use_syslog self || use_syslog other |>
    <| log_verbosity := log_verbosity other |>
    <| use_resolvconf := use_resolvconf other |>
    <| user_agent := if negb (String.eqb (user_agent other) (user_agent default_config)) then user_agent other else user_agent self |>
    <| hostcheck := merge_option (hostcheck self) (hostcheck other) |>
    <| check_virtual_desktop := merge_option (check_virtual_desktop self) (check_virtual_desktop other) |>
    <| pppd_use_peerdns := pppd_use_peerdns other |>
    <| pppd_log := merge_option (pppd_log self) (pppd_log other) |>
    <| pppd_plugin := merge_option (pppd_plugin self) (pppd_plugin other) |>
    <| pppd_ipparam := merge_option (pppd_ipparam self) (pppd_ipparam other) |>
    <| pppd_ifname := merge_option (pppd_ifname self) (pppd_ifname other) |>
    <| pppd_call := merge_option (pppd_call self) (pppd_call other) |>
    <| pppd_accept_remote := pppd_accept_remote other |>
    <| ppp_system := merge_option (ppp_system self) (ppp_system other) |>
    <| ca_file := merge_option (ca_file self) (ca_file other) |>
    <| user_cert := merge_option (user_cert self) (user_cert other) |>
    <| user_key := merge_option (user_key self) (user_key other) |>
    <| pem_passphrase := merge_option (pem_passphrase self) (pem_passphrase other) |>
    <| insecure_ssl := insecure_ssl self || insecure_ssl other |>
    <| cipher_list := merge_option (cipher_list self) (cipher_list other) |>
    <| min_tls := merge_option (min_tls self) (min_tls other) |>
    <| seclevel_1 := seclevel_1 self || seclevel_1 other |>
    <| trusted_certs := (trusted_certs self ++ trusted_certs other)%list |>
    <| proxy := merge_option (proxy self) (proxy other) |>.

(** ** The command line *)

Definition if_some {A} (o : option A) (f : A → Config → Config) (c : Config) : Config :=
  match o with Some v => f v c | None => c end.
Definition if_set (b : bool) (f : Config → Config) (c : Config) : Config :=
  if b then f c else c.
Definition option_or {A} (a b : option A) : option A :=
  match a with Some _ => a | None => b end.

Fixpoint push_trusted_certs (self : Config) (digests : list str) : result Config :=
  match digests with
  | [] => Ok self
  | digest :: digests =>
      let* self := push_trusted_cert self digest in push_trusted_certs self digests
  end.

(** The assignments of [apply_cli] up to the certificates, which cannot fail. *)
Definition apply_cli_login (cli : Cli) (self : Config) : Config :=
  let self := if_some (cli_username cli) (λ value c, c <| username := value |>) self in
  let self := if_some (cli_password cli) (λ value c, c <| password := Some value |>) self in
  let self := if_some (cli_cookie cli) (λ value c, c <| cookie := Some (svpn_cookie_with_prefix value) |>) self in
  let self := if_set (cli_cookie_on_stdin cli) (λ c, c <| cookie_on_stdin := true |>) self in
  let self := if_some (cli_saml_login cli) (λ value c, c <| saml_port := Some value |>) self in
  let self := if_some (cli_otp cli) (λ value c, c <| otp := Some value |>) self in
  let self := if_some (cli_otp_prompt cli) (λ value c, c <| otp_prompt := Some value |>) self in
  let self := if_some (cli_otp_delay cli) (λ value c, c <| otp_delay := value |>) self in
  let self := if_set (cli_no_ftm_push cli) (λ c, c <| no_ftm_push := true |>) self in
  let self := if_some (cli_pinentry cli) (λ value c, c <| pinentry := Some value |>) self in
  let self := if_some (cli_realm cli) (λ value c, c <| realm := Some value |>) self in
  let self := if_some (cli_ifname cli) (λ value c, c <| iface_name := Some value |>) self in
  let self := if_some (cli_sni cli) (λ value c, c <| sni := Some value |>) self in
  let self := if_some (cli_set_routes cli) (λ value c, c <| set_routes := value |>) self in
  let self := if_set (cli_no_routes cli) (λ c, c <| set_routes := false |>) self in
  let self := if_some (cli_half_internet_routes cli) (λ value c, c <| half_internet_routes := value |>) self in
  let self := if_some (cli_set_dns cli) (λ value c, c <| set_dns := value |>) self in
  let self := if_set (cli_no_dns cli) (λ c, c <| set_dns := false |>) self in
  let self := if_some (cli_ca_file cli) (λ value c, c <| ca_file := Some value |>) self in
  let self := if_some (cli_user_cert cli) (λ value c, c <| user_cert := Some value |>) self in
  let self := if_some (cli_user_key cli) (λ value c, c <| user_key := Some value |>) self in
  let self := if_some (cli_pem_passphrase cli) (λ value c, c <| pem_passphrase := Some value |>) self in
  let self := if_set (cli_use_syslog cli) (λ c, c <| use_syslog := true |>) self in
  let self := self <| log_verbosity := cli_log_verbosity (cli_verbose cli) (cli_quiet cli) |> in
  let self := if_some (cli_use_resolvconf cli) (λ value c, c <| use_resolvconf := value |>) self in
  let self := if_some (cli_user_agent cli) (λ value c, c <| user_agent := value |>) self in
  let self := if_some (cli_hostcheck cli) (λ value c, c <| hostcheck := Some value |>) self in
  let self := if_some (cli_check_virtual_desktop cli) (λ value c, c <| check_virtual_desktop := Some value |>) self in
  self.

(** Those between the certificates and the TLS version. *)
Definition apply_cli_tls (cli : Cli) (self : Config) : Config :=
  let self := if_set (cli_insecure_ssl cli) (λ c, c <| insecure_ssl := true |>) self in
  let self := if_some (cli_cipher_list cli) (λ value c, c <| cipher_list := Some value |>) self in
  self.

(** Those after the TLS version. *)
Definition apply_cli_pppd (cli : Cli) (self : Config) : Config :=
  let self := if_set (cli_seclevel_1 cli) (λ c, c <| seclevel_1 := true |>) self in
  let self := if_some (option_or (cli_reconnect_delay cli) (cli_persistent cli)) (λ value c, c <| reconnect_delay := Some value |>) self in
  let self := if_some (cli_max_reconnects cli) (λ value c, c <| max_reconnects := value |>) self in
  let self := if_some (cli_pppd_use_peerdns cli) (λ value c, c <| pppd_use_peerdns := value |>) self in
  let self := if_set (cli_pppd_no_peerdns cli) (λ c, c <| pppd_use_peerdns := false |>) self in
  let self := if_some (cli_pppd_log cli) (λ value c, c <| pppd_log := Some value |>) self in
  let self := if_some (cli_pppd_plugin cli) (λ value c, c <| pppd_plugin := Some value |>) self in
  let self := if_some (cli_pppd_ifname cli) (λ value c, c <| pppd_ifname := Some value |>) self in
  let self := if_some (cli_pppd_ipparam cli) (λ value c, c <| pppd_ipparam := Some value |>) self in
  let self := if_some (cli_pppd_call cli) (λ value c, c <| pppd_call := Some value |>) self in
  let self := if_some (cli_pppd_accept_remote cli) (λ value c, c <| pppd_accept_remote := value |>) self in
  let self := if_some (cli_ppp_system cli) (λ value c, c <| ppp_system := Some value |>) self in
  let self := if_some (cli_proxy cli) (λ value c, c <| proxy := Some value |>) self in
  self.

Definition apply_cli (self : Config) (cli : Cli) : result Config :=
  let* self :=
    match cli_gateway cli with
    | Some gateway =>
        let* '(host, port) := parse_gateway gateway in
        let self := self <| gateway_host := host |> in
        Ok (match port with Some port => self <| gateway_port := port |> | None => self end)
    | None => Ok self
    end in
  let self := apply_cli_login cli self in
  let* self := push_trusted_certs self (cli_trusted_cert cli) in
  let self := apply_cli_tls cli self in
  let* self :=
    match cli_min_tls cli with
    | Some value => let* v := parse_tls_version value in Ok (self <| min_tls := Some v |>)
    | None => Ok self
    end in
  Ok (apply_cli_pppd cli self).

Definition from_sources (read_to_string : str → result str) (cli : Cli) : result Config :=
  let cfg := default_config in
  let* cfg :=
    match cli_config cli with
    | Some config_path =>
        let* other := from_file read_to_string config_path in Ok (merge cfg other)
    | None => Ok cfg
    end in
  apply_cli cfg cli.

(** ** Specification *)

Definition is_port (n : Z) : Prop := 1 <= n < 65536.
Definition opt_all {A} (P : A → Prop) (o : option A) : Prop := match o with Some a => P a | None => True end.

(** A certificate digest as it is stored: 64 lower-case hexadecimal digits. *)
Definition stored_digest (d : str) : Prop :=
  str_len d = 64 ∧ all_chars (λ c, is_ascii_digit c || in_range 97 102 (u8_of_ascii c)) d = true.

(** What every configuration of the program satisfies.  A SAML port given on the
    command line may be 0: clap accepts any 16-bit number. *)
Record config_wf (c : Config) : Prop := {
  wf_port : is_port (gateway_port c);
  wf_saml : opt_all is_u16 (saml_port c);
  wf_otp_delay : is_u32 (otp_delay c);
  wf_max_reconnects : is_u32 (max_reconnects c);
  wf_reconnect_delay : opt_all is_u32 (reconnect_delay c);
  wf_verbosity : 0 <= log_verbosity c <= MAX_LOG_VERBOSITY;
  wf_certs : Forall stored_digest (trusted_certs c);
}.

(** What clap guarantees of the numbers it parsed. *)
Record cli_wf (cli : Cli) : Prop := {
  cli_wf_saml : opt_all is_u16 (cli_saml_login cli);
  cli_wf_otp_delay : opt_all is_u32 (cli_otp_delay cli);
  cli_wf_reconnect_delay : opt_all is_u32 (cli_reconnect_delay cli);
  cli_wf_persistent : opt_all is_u32 (cli_persistent cli);
  cli_wf_max_reconnects : opt_all is_u32 (cli_max_reconnects cli);
  cli_wf_verbose : is_u8 (cli_verbose cli);
  cli_wf_quiet : is_u8 (cli_quiet cli);
}.

(** A line of a configuration file, and how it is written. *)
Inductive file_line :=
  | Pair (key value : str)
  | Comment (text : str)
  | Blank.

Definition printable (c : ascii) : bool := in_range 32 126 (u8_of_ascii c).
Definition graphic (c : ascii) : bool := in_range 33 126 (u8_of_ascii c).
Definition key_char (c : ascii) : bool := graphic c && negb (Ascii.eqb c "="%char).

Definition no_outer_space (s : str) : Prop := starts_with " " s = false ∧ ends_with " " s = false.

Definition line_ok (l : file_line) : Prop :=
  match l with
  | Pair key value =>
      all_chars key_char key = true ∧ starts_with "#" key = false ∧
      all_chars printable value = true ∧ no_outer_space value
  | Comment text => all_chars printable text = true
  | Blank => True
  end.

Definition render_line (l : file_line) : str :=
  match l with
  | Pair key value => key +:+ "=" +:+ value
  | Comment text => "#" +:+ text
  | Blank => ""
  end.

Fixpoint render (ls : list file_line) : str :=
  match ls with [] => "" | l :: ls => render_line l +:+ String newline (render ls) end.

(** The assignments of a file, in order. *)
Fixpoint apply_pairs (self : Config) (ls : list file_line) : result Config :=
  match ls with
  | [] => Ok self
  | Pair key value :: ls => let* self := apply_pair self key value in apply_pairs self ls
  | _ :: ls => apply_pairs self ls
  end.

(** ** Merging *)

(** Evaluates a field of a chain of assignments, lazily: only what the field
    depends on. *)
Ltac config_red :=
  lazy beta iota zeta delta [set_field
    gateway_host gateway_port username password cookie cookie_on_stdin saml_port
    saml_session_id otp otp_prompt otp_delay no_ftm_push pinentry realm iface_name sni
    set_routes set_dns half_internet_routes reconnect_delay max_reconnects use_syslog
    log_verbosity use_resolvconf user_agent hostcheck check_virtual_desktop
    pppd_use_peerdns pppd_log pppd_plugin pppd_ipparam pppd_ifname pppd_call
    pppd_accept_remote ppp_system ca_file user_cert user_key pem_passphrase insecure_ssl
    cipher_list min_tls seclevel_1 trusted_certs proxy].

Lemma config_eta (c : Config) : c = eta c.
Proof. by destruct c. Qed.

Lemma merge_default other : merge default_config other = other.
Proof.
  assert (∀ s : str, (if negb (str_is_empty s) then s else EmptyString) = s) as Hs by by intros [].
  assert (∀ n d, (if negb (n =? d) then n else d) = n) as Hn.
  { intros n d. by destruct (Z.eqb_spec n d). }
  assert (∀ A (o : option A), merge_option None o = o) as Ho by by intros A [].
  assert (∀ s d : str, (if negb (s =? d)%string then s else d) = s) as Hd.
  { intros s d. by destruct (String.eqb_spec s d). }
  rewrite (config_eta (merge _ _)). destruct other. unfold merge, eta, Config_eta.
  f_equal; config_red; unfold default_config; config_red; (reflexivity || apply Hs || apply Hn || apply Ho || apply Hd).
Qed.

(** The file is not distorted by merging it into the defaults: the program's
    configuration is the one the file describes with the command line applied
    on top, or an error of the file; without a file it starts from the
    defaults. *)
Theorem from_sources_layers read_to_string cli :
  from_sources read_to_string cli =
    (let* base := match cli_config cli with
                  | Some path => from_file read_to_string path
                  | None => Ok default_config
                  end in
     apply_cli base cli).
Proof.
  unfold from_sources. destruct (cli_config cli) as [path|]; [|done].
  destruct (from_file read_to_string path) as [c| | |]; cbn [bind]; try done. by rewrite merge_default.
Qed.

(** ** Values *)

Lemma parse_digits_range max acc s n : 0 <= acc → acc <= max → parse_digits max acc s = Some n → 0 <= n <= max.
Proof.
  revert acc. induction s as [|c s IH]; intros acc H0 Hm; simpl; [intros [= <-]; lia|].
  unfold digit_value, is_ascii_digit, in_range. destruct (_ && _) eqn:E; [|done].
  apply andb_true_iff in E as [E1%Z.leb_le E2%Z.leb_le].
  destruct (Z.leb_spec (acc * 10 + (u8_of_ascii c - 48)) max); [|done]. apply IH; lia.
Qed.

Lemma parse_uint_range max s n : 0 <= max → parse_uint max s = Some n → 0 <= n <= max.
Proof.
  intros Hm. unfold parse_uint. destruct s as [|c s]; [done|].
  repeat case_match; intros Hd; try done; by apply (parse_digits_range max 0) in Hd; lia.
Qed.

Lemma parse_port_ok key value n : parse_port key value = Ok n → is_port n.
Proof.
  unfold parse_port, RustStd.parse_u16. destruct (parse_uint 65535 value) as [m|] eqn:E; cbn; [|done].
  apply parse_uint_range in E; [|lia]. destruct (Z.eqb_spec m 0) as [|Hne]; [done|]. intros [= <-]. unfold is_port. lia.
Qed.

Lemma parse_u32_ok key value n : parse_u32 key value = Ok n → is_u32 n.
Proof.
  unfold parse_u32, RustStd.parse_u32. destruct (parse_uint _ value) as [m|] eqn:E; cbn; [|done].
  apply parse_uint_range in E; [|lia]. intros [= <-]. unfold is_u32. lia.
Qed.

Lemma lower_hex_char c :
  is_ascii_hexdigit c = true →
  is_ascii_digit (to_ascii_lowercase_char c) || in_range 97 102 (u8_of_ascii (to_ascii_lowercase_char c)) = true.
Proof.
  pose proof (u8_of_ascii_range c) as Hr. rewrite <- (ascii_of_u8_of_ascii c). generalize dependent (u8_of_ascii c).
  intros b Hb.
  assert (implb (is_ascii_hexdigit (ascii_of_u8 b))
    (is_ascii_digit (to_ascii_lowercase_char (ascii_of_u8 b))
     || in_range 97 102 (u8_of_ascii (to_ascii_lowercase_char (ascii_of_u8 b)))) = true) as Hi
    by by_all_u8 (λ b, implb (is_ascii_hexdigit (ascii_of_u8 b))
      (is_ascii_digit (to_ascii_lowercase_char (ascii_of_u8 b))
       || in_range 97 102 (u8_of_ascii (to_ascii_lowercase_char (ascii_of_u8 b))))) b.
  intros H. by rewrite H in Hi.
Qed.

Lemma stored_digest_lowercase d :
  str_len d = 64 → all_chars is_ascii_hexdigit d = true → stored_digest (to_ascii_lowercase d).
Proof.
  intros Hl Ha. split.
  - rewrite <- Hl. unfold str_len. f_equal. clear. induction d; simpl; auto.
  - clear Hl. induction d as [|c d IH]; simpl in *; [done|]. apply andb_true_iff in Ha as [Hc Hd].
    by rewrite lower_hex_char, IH.
Qed.

Lemma push_trusted_cert_ok c d c' :
  push_trusted_cert c d = Ok c' →
  c' = c <| trusted_certs := (trusted_certs c ++ [to_ascii_lowercase d])%list |> ∧
  stored_digest (to_ascii_lowercase d).
Proof.
  unfold push_trusted_cert, SHA256_DIGEST_HEX_LEN. destruct (Z.eqb_spec (str_len d) 64); [|done].
  destruct (all_chars is_ascii_hexdigit d) eqn:Ha; [|done]. intros [= <-].
  split; [done|]. by apply stored_digest_lowercase.
Qed.

Lemma cli_log_verbosity_range v q : 0 <= cli_log_verbosity v q <= MAX_LOG_VERBOSITY.
Proof.
  unfold cli_log_verbosity, MAX_LOG_VERBOSITY, as_u8. rewrite Z.mod_small; lia.
Qed.

(** ** Well-formedness *)

Lemma default_config_wf : config_wf default_config.
Proof.
  constructor; cbn; unfold is_port, DEFAULT_GATEWAY_PORT, is_u32, MAX_LOG_VERBOSITY, DEFAULT_LOG_VERBOSITY;
    try lia; try done.
Qed.

Lemma push_trusted_cert_wf c d c' : config_wf c → push_trusted_cert c d = Ok c' → config_wf c'.
Proof.
  intros [H1 H2 H3 H4 H5 H6 H7] [-> Hd]%push_trusted_cert_ok.
  constructor; cbn; auto. apply Forall_app. auto.
Qed.

Lemma is_port_u16 n : is_port n → is_u16 n.
Proof. unfold is_port, is_u16. lia. Qed.

(** One arm of [apply_pair]: the parsed value is in range and the assignment
    touches one field. *)
Ltac pair_arm :=
  let H := fresh in intros H;
  first [ solve [eauto using push_trusted_cert_wf]
        | apply bind_ok_inv in H as (? & ? & H); injection H as <-;
          constructor; cbn; eauto using parse_port_ok, parse_u32_ok, is_port_u16
        | injection H as <-; (assumption || (constructor; cbn; eauto)) ].

Lemma apply_pair_wf c key value c' : config_wf c → apply_pair c key value = Ok c' → config_wf c'.
Proof.
  intros Hc. pose proof Hc as [H1 H2 H3 H4 H5 H6 H7]. unfold apply_pair.
  repeat match goal with
  | |- (if ?b then _ else _) = Ok _ → _ => destruct b; [pair_arm|]
  end.
  done.
Qed.

Lemma apply_lines_wf ls c c' : config_wf c → apply_lines c ls = Ok c' → config_wf c'.
Proof.
  revert c. induction ls as [|l ls IH]; intros c Hc; cbn [apply_lines]; [by intros [= <-]|].
  intros (c1 & H1 & H2)%bind_ok_inv. revert H2. apply IH. revert H1. unfold apply_line. cbn zeta.
  destruct (str_is_empty _ || _); [by intros [= <-]|].
  destruct (split_once _ _) as [[key value]|]; [by apply apply_pair_wf|by intros [= <-]].
Qed.

(** A conditional assignment keeps what its assignment keeps. *)
Lemma if_some_wf {A} (o : option A) f c :
  config_wf c → (∀ v, o = Some v → config_wf c → config_wf (f v c)) → config_wf (if_some o f c).
Proof. destruct o; simpl; auto. Qed.

Lemma if_set_wf b f c : config_wf c → (config_wf c → config_wf (f c)) → config_wf (if_set b f c).
Proof. destruct b; simpl; auto. Qed.

Lemma push_trusted_certs_wf ds c c' : config_wf c → push_trusted_certs c ds = Ok c' → config_wf c'.
Proof.
  revert c. induction ds as [|d ds IH]; intros c Hc; cbn [push_trusted_certs]; [by intros [= <-]|].
  intros (c1 & H1%push_trusted_cert_wf & H2)%bind_ok_inv; [|done]. eauto.
Qed.

Lemma parse_gateway_ok g host port : parse_gateway g = Ok (host, port) → opt_all is_port port.
Proof.
  unfold parse_gateway. destruct (rsplit_once _ g) as [[h p]|]; [|by intros [= _ <-]].
  case_match; [|by intros [= _ <-]]. intros (n & Hn%parse_port_ok & [= _ <-])%bind_ok_inv. done.
Qed.

Lemma set_verbosity_wf c v q : config_wf c → config_wf (c <| log_verbosity := cli_log_verbosity v q |>).
Proof. intros [????? ? ?]. constructor; cbn; auto using cli_log_verbosity_range. Qed.

Lemma opt_all_option_or {A} (P : A → Prop) a b :
  opt_all P a → opt_all P b → opt_all P (option_or a b).
Proof. by destruct a. Qed.

(** One step of [apply_cli], from the last assignment backwards: the value
    assigned is one clap parsed. *)
Ltac cli_step :=
  lazymatch goal with
  | |- config_wf (if_some _ _ _) =>
      apply if_some_wf; [|intros ? ? [????? ? ?]; constructor; cbn;
        repeat match goal with
        | L : opt_all _ ?o, E : ?o = Some _ |- _ => rewrite E in L; cbn in L
        end; auto]
  | |- config_wf (if_set _ _ _) => apply if_set_wf; [|intros [????? ? ?]; constructor; cbn; auto]
  | |- _ => apply set_verbosity_wf
  end.

Lemma apply_cli_wf c cli c' : config_wf c → cli_wf cli → apply_cli c cli = Ok c' → config_wf c'.
Proof.
  intros Hc [L1 L2 L3 L4 L5 _ _]. pose proof (opt_all_option_or _ _ _ L3 L4) as L6. unfold apply_cli, apply_cli_login, apply_cli_tls, apply_cli_pppd.
  intros (c1 & H1 & H)%bind_ok_inv. assert (config_wf c1) as Hc1.
  { clear H. destruct (cli_gateway cli) as [g|]; [|by injection H1 as <-].
    apply bind_ok_inv in H1 as ([host port] & Hg%parse_gateway_ok & [= <-]).
    destruct Hc. destruct port; constructor; cbn; auto. }
  clear H1 Hc. cbn zeta in H. apply bind_ok_inv in H as (c2 & H2 & H).
  apply push_trusted_certs_wf in H2; [|by repeat cli_step].
  apply bind_ok_inv in H as (c3 & H3 & H). injection H as <-.
  assert (config_wf c3) as Hc3.
  { destruct (cli_min_tls cli) as [value|]; [|injection H3 as <-; by repeat cli_step].
    apply bind_ok_inv in H3 as (v & _ & [= <-]).
    assert (∀ c, config_wf c → config_wf (c <| min_tls := Some v |>)) as Hm
      by (intros ? []; constructor; cbn; auto).
    apply Hm. by repeat cli_step. }
  by repeat cli_step.
Qed.

(** C38: Every configuration the program runs with is well formed, wherever its
    values come from: ports are valid ports, numbers fit their width, the
    verbosity is one of the levels, and every trusted certificate is stored as
    64 lower-case hexadecimal digits, which is what the comparison with the
    digest of the peer relies on. *)
Theorem from_sources_well_formed read_to_string cli cfg :
  cli_wf cli → from_sources read_to_string cli = Ok cfg → config_wf cfg.
Proof.
  intros Hcli. unfold from_sources. intros (c & Hc & Ha)%bind_ok_inv.
  eapply apply_cli_wf; [|done..]. destruct (cli_config cli) as [path|].
  - apply bind_ok_inv in Hc as (other & Ho & [= <-]). rewrite merge_default. revert Ho.
    unfold from_file. intros (contents & _ & Hp)%bind_ok_inv. revert Hp.
    apply apply_lines_wf, default_config_wf.
  - injection Hc as <-. apply default_config_wf.
Qed.

Definition example_cli : Cli :=
  no_options <| cli_gateway := Some "vpn.example:8443" |> <| cli_config := Some "cfg" |>
    <| cli_verbose := 9 |> <| cli_no_routes := true |>.

Definition example_file : str :=
  render [Comment " a comment"; Pair "port" "10443"; Blank; Pair "username" "user";
          Pair "trusted-cert" "0123456789ABCDEF0123456789ABCDEF0123456789ABCDEF0123456789ABCDEF"].

Lemma from_sources_well_formed_witness :
  ∃ cfg, from_sources (λ _, Ok example_file) example_cli = Ok cfg ∧ config_wf cfg ∧
    gateway_port cfg = 8443 ∧ log_verbosity cfg = 6 ∧ username cfg = "user" ∧ set_routes cfg = false.
Proof.
  assert (cli_wf example_cli) as Hw.
  { constructor; cbn; try exact I; split; try discriminate; reflexivity. }
  destruct (from_sources (λ _, Ok example_file) example_cli) as [cfg|e| |] eqn:E;
    [|vm_compute in E; discriminate..].
  exists cfg. split; [reflexivity|]. split; [exact (from_sources_well_formed _ _ _ Hw E)|].
  vm_compute in E. injection E as <-. repeat split; vm_compute; reflexivity.
Defined.

(** ** The command line overrides the file *)

Lemma if_some_keep {A T} (p : Config → T) (o : option A) f c :
  (∀ v c, p (f v c) = p c) → p (if_some o f c) = p c.
Proof. destruct o; simpl; auto. Qed.

Lemma if_set_keep {T} (p : Config → T) b f c : (∀ c, p (f c) = p c) → p (if_set b f c) = p c.
Proof. destruct b; simpl; auto. Qed.

Lemma if_some_set {A T} (p : Config → T) (o : option A) f g c :
  (∀ v c, p (f v c) = g v) → p (if_some o f c) = match o with Some v => g v | None => p c end.
Proof. destruct o; simpl; auto. Qed.

Lemma if_set_set {T} (p : Config → T) b f v c :
  (∀ c, p (f c) = v) → p (if_set b f c) = if b then v else p c.
Proof. destruct b; simpl; auto. Qed.

Lemma verbosity_keep {T} (p : Config → T) v c :
  (∀ c, p (c <| log_verbosity := v |>) = p c) → p (c <| log_verbosity := v |>) = p c.
Proof. auto. Qed.

Lemma certs_keep {T} (p : Config → T) v c :
  (∀ c, p (c <| trusted_certs := v |>) = p c) → p (c <| trusted_certs := v |>) = p c.
Proof. auto. Qed.


(** Skips the assignments that do not touch the field [p]. *)
Ltac skip_others p :=
  repeat first
    [ rewrite (if_some_keep p) by reflexivity
    | rewrite (if_set_keep p) by reflexivity
    | rewrite (verbosity_keep p) by reflexivity
    | rewrite (certs_keep p) by reflexivity ].

Lemma push_trusted_certs_ok ds c c' :
  push_trusted_certs c ds = Ok c' →
  c' = c <| trusted_certs := (trusted_certs c ++ map to_ascii_lowercase ds)%list |>.
Proof.
  revert c. induction ds as [|d ds IH]; intros c; cbn [push_trusted_certs map].
  - intros [= <-]. rewrite app_nil_r. by destruct c.
  - intros (c1 & [-> _]%push_trusted_cert_ok & ->%IH)%bind_ok_inv. cbn. by rewrite <- app_assoc.
Qed.

(** [apply_cli] without its errors. *)
Lemma apply_cli_ok c cli c' :
  apply_cli c cli = Ok c' →
  ∃ gw tls,
    match cli_gateway cli with
    | Some g => ∃ hp, parse_gateway g = Ok hp ∧ gw = Some hp
    | None => gw = None
    end ∧
    match cli_min_tls cli with
    | Some value => ∃ v, parse_tls_version value = Ok v ∧ tls = Some v
    | None => tls = None
    end ∧
    let c1 := if_some gw (λ hp c, if_some (snd hp) (λ port c, c <| gateway_port := port |>)
                                    (c <| gateway_host := fst hp |>)) c in
    let c2 := apply_cli_login cli c1 in
    let c3 := c2 <| trusted_certs := (trusted_certs c2 ++ map to_ascii_lowercase (cli_trusted_cert cli))%list |> in
    c' = apply_cli_pppd cli (if_some tls (λ v c, c <| min_tls := Some v |>) (apply_cli_tls cli c3)).
Proof.
  unfold apply_cli. intros (c1 & H1 & H)%bind_ok_inv. cbn zeta in *.
  apply bind_ok_inv in H as (c2 & ->%push_trusted_certs_ok & H).
  apply bind_ok_inv in H as (c3 & H3 & [= <-]).
  assert (∃ gw, match cli_gateway cli with
    | Some g => ∃ hp, parse_gateway g = Ok hp ∧ gw = Some hp
    | None => gw = None
    end ∧ c1 = if_some gw (λ hp c, if_some (snd hp) (λ port c, c <| gateway_port := port |>)
                                    (c <| gateway_host := fst hp |>)) c) as (gw & Hgw & ->).
  { destruct (cli_gateway cli) as [g|].
    - apply bind_ok_inv in H1 as ([host port] & Hg & [= <-]). exists (Some (host, port)).
      split; [eauto|]. by destruct port.
    - injection H1 as <-. by exists None. }
  exists gw. destruct (cli_min_tls cli) as [value|].
  - apply bind_ok_inv in H3 as (v & Hv & [= <-]). exists (Some v). eauto.
  - injection H3 as <-. by exists None.
Qed.

(** The assignments left are to other fields, or to the gateway. *)
Ltac last_field p :=
  skip_others p;
  repeat case_match;
  match goal with gw : option (str * option u16) |- _ => destruct gw as [[? []]|]; reflexivity end.

(** The command line overrides the file, and only where it says something.
    An option that is given determines its field; one that is not given leaves
    the value of the file; the negative flags win over the positive options;
    certificates are added to those of the file; and the verbosity is always
    the one of the command line. *)
Theorem command_line_overrides c cli c' :
  apply_cli c cli = Ok c' →
  (∀ g, cli_gateway cli = Some g → ∃ port, parse_gateway g = Ok (gateway_host c', port) ∧
     gateway_port c' = default (gateway_port c) port) ∧
  (cli_gateway cli = None → gateway_host c' = gateway_host c ∧ gateway_port c' = gateway_port c) ∧
  username c' = default (username c) (cli_username cli) ∧
  password c' = option_or (cli_password cli) (password c) ∧
  cookie c' = option_or (svpn_cookie_with_prefix <$> cli_cookie cli) (cookie c) ∧
  set_routes c' = (if cli_no_routes cli then false else default (set_routes c) (cli_set_routes cli)) ∧
  set_dns c' = (if cli_no_dns cli then false else default (set_dns c) (cli_set_dns cli)) ∧
  pppd_use_peerdns c' =
    (if cli_pppd_no_peerdns cli then false else default (pppd_use_peerdns c) (cli_pppd_use_peerdns cli)) ∧
  reconnect_delay c' =
    option_or (cli_reconnect_delay cli) (option_or (cli_persistent cli) (reconnect_delay c)) ∧
  trusted_certs c' = (trusted_certs c ++ map to_ascii_lowercase (cli_trusted_cert cli))%list ∧
  log_verbosity c' = cli_log_verbosity (cli_verbose cli) (cli_quiet cli).
Proof.
  intros (gw & tls & Hgw & Htls & ->)%apply_cli_ok. cbn zeta.
  unfold apply_cli_pppd, apply_cli_tls, apply_cli_login. cbn zeta.
  split_and!.
  - intros g Hg. rewrite Hg in Hgw. destruct Hgw as ([host port] & Hp & ->). exists port.
    skip_others gateway_host. skip_others gateway_port. by destruct port.
  - intros Hg. rewrite Hg in Hgw. subst gw. by skip_others gateway_host; skip_others gateway_port.
  - skip_others username. rewrite (if_some_set username _ _ id) by reflexivity. last_field username.
  - skip_others password. rewrite (if_some_set password _ _ Some) by reflexivity. last_field password.
  - skip_others cookie. rewrite (if_some_set cookie _ _ (λ v, Some (svpn_cookie_with_prefix v))) by reflexivity.
    last_field cookie.
  - skip_others set_routes. rewrite (if_set_set set_routes _ _ false) by reflexivity.
    rewrite (if_some_set set_routes _ _ id) by reflexivity. last_field set_routes.
  - skip_others set_dns. rewrite (if_set_set set_dns _ _ false) by reflexivity.
    skip_others set_dns. rewrite (if_some_set set_dns _ _ id) by reflexivity. last_field set_dns.
  - skip_others pppd_use_peerdns. rewrite (if_set_set pppd_use_peerdns _ _ false) by reflexivity.
    rewrite (if_some_set pppd_use_peerdns _ _ id) by reflexivity. last_field pppd_use_peerdns.
  - skip_others reconnect_delay. rewrite (if_some_set reconnect_delay _ _ Some) by reflexivity.
    skip_others reconnect_delay.
    destruct (cli_reconnect_delay cli), (cli_persistent cli), gw as [[? []]|]; reflexivity.
  - skip_others trusted_certs. cbn [trusted_certs set_field]. skip_others trusted_certs.
    destruct gw as [[? []]|]; reflexivity.
  - skip_others log_verbosity. reflexivity.
Qed.

Lemma command_line_overrides_witness :
  ∃ c', apply_cli default_config example_cli = Ok c' ∧ set_routes c' = false ∧ log_verbosity c' = 6 ∧
    gateway_port c' = 8443.
Proof.
  destruct (apply_cli default_config example_cli) as [c'|e| |] eqn:E; [|vm_compute in E; discriminate..].
  exists c'. split; [reflexivity|].
  destruct (command_line_overrides _ _ _ E) as (Hg & _ & _ & _ & _ & Hr & _ & _ & _ & _ & Hv).
  destruct (Hg "vpn.example:8443" eq_refl) as (port & Hp & Hport).
  split; [exact Hr|]. split; [exact Hv|]. rewrite Hport. vm_compute in Hp. injection Hp as _ <-. reflexivity.
Defined.

(** ** The file format *)

(** A property of characters decided by evaluating it on all of them. *)
Lemma all_ascii (P : ascii → bool) c : all_u8 (λ b, P (ascii_of_u8 b)) = true → P c = true.
Proof.
  intros H. rewrite <- (ascii_of_u8_of_ascii c).
  apply (all_u8_spec (λ b, P (ascii_of_u8 b)) (u8_of_ascii c) H). apply u8_of_ascii_range.
Qed.

Lemma char_impl (p q : ascii → bool) c :
  all_u8 (λ b, implb (p (ascii_of_u8 b)) (q (ascii_of_u8 b))) = true → p c = true → q c = true.
Proof.
  intros H Hp. pose proof (all_ascii (λ c, implb (p c) (q c)) c H) as Hi. cbn in Hi. by rewrite Hp in Hi.
Qed.

Lemma chars_impl (p q : ascii → bool) s :
  all_u8 (λ b, implb (p (ascii_of_u8 b)) (q (ascii_of_u8 b))) = true → all_chars p s = true → all_chars q s = true.
Proof. intros H. apply all_chars_impl. intros c. by apply char_impl. Qed.

Lemma all_chars_bytes (p : ascii → bool) (q : u8 → bool) s :
  all_u8 (λ b, implb (p (ascii_of_u8 b)) (q b)) = true → all_chars p s = true → Forall (λ b, q b = true) (as_bytes s).
Proof.
  intros Hpq. induction s as [|c s IH]; simpl; [by constructor|]. intros [Hc Hs]%andb_true_iff.
  constructor; [|auto].
  pose proof (all_u8_spec _ (u8_of_ascii c) Hpq (u8_of_ascii_range c)) as Hi. cbn in Hi.
  rewrite ascii_of_u8_of_ascii, Hc in Hi. done.
Qed.

Lemma printable_bytes s : all_chars printable s = true → Forall (λ x, x < 128) (as_bytes s).
Proof.
  intros Hs%(all_chars_bytes printable (λ b, b <? 128)); [|vm_compute; reflexivity].
  eapply Forall_impl; [exact Hs|]. by intros x ?%Z.ltb_lt.
Qed.

Lemma starts_with_char c s t : starts_with (String c "") (String s t) = Ascii.eqb c s.
Proof. unfold starts_with. simpl. by destruct (Ascii.eqb c s). Qed.

Lemma str_rev_bytes s acc : as_bytes (str_rev s acc) = (reverse (as_bytes s) ++ as_bytes acc)%list.
Proof.
  revert acc. induction s as [|c s IH]; intros acc; simpl; [done|].
  by rewrite IH, reverse_cons, <- app_assoc.
Qed.

(** Printable text without outer spaces starts and ends with visible bytes. *)
Lemma outer_visible s :
  all_chars printable s = true → no_outer_space s →
  s = EmptyString ∨ ∃ b l e m, as_bytes s = b :: l ∧ as_bytes s = (m ++ [e])%list ∧
    visible b = true ∧ visible e = true.
Proof.
  intros Hp [Hs He]. destruct s as [|c s]; [by left|]. right.
  pose proof (all_chars_bytes printable (λ b, in_range 32 126 b) _ ltac:(vm_compute; reflexivity) Hp) as Hb.
  assert (∀ x, in_range 32 126 x = true → x ≠ 32 → visible x = true) as Hvis.
  { intros x. unfold visible, in_range. rewrite !andb_true_iff, !Z.leb_le. lia. }
  destruct (exists_last (l := as_bytes (String c s))) as (m & e & Hm); [done|].
  exists (u8_of_ascii c), (as_bytes s), e, m. split; [done|]. split; [done|]. split.
  - apply Hvis; [by inversion Hb|]. intros H32. rewrite starts_with_char in Hs.
    apply Ascii.eqb_neq in Hs. apply Hs. rewrite <- (ascii_of_u8_of_ascii c), H32. reflexivity.
  - rewrite Hm in Hb. apply Forall_app in Hb as [_ Hb]. apply Hvis; [by inversion Hb|]. intros ->.
    revert He. unfold ends_with. change (str_rev " " "") with " ".
    pose proof (str_rev_bytes (String c s) "") as Hr. rewrite Hm, reverse_snoc in Hr.
    destruct (str_rev (String c s) "") as [|d t]; [done|]. rewrite starts_with_char. cbn in Hr.
    injection Hr as Hd _. rewrite <- (ascii_of_u8_of_ascii d), Hd. done.
Qed.

Lemma trim_printable s : all_chars printable s = true → no_outer_space s → trim s = s.
Proof.
  intros Hp Ho. destruct (outer_visible s Hp Ho) as [->|(b & l & e & m & H1 & H2 & H3 & H4)]; [done|].
  by eapply trim_visible.
Qed.

Lemma key_no_outer_space key : all_chars key_char key = true → all_chars printable key = true ∧ no_outer_space key.
Proof.
  intros Hk. split; [by apply (chars_impl key_char printable)|]. split.
  - destruct key as [|c key]; [done|]. simpl in Hk. apply andb_true_iff in Hk as [Hc _].
    rewrite starts_with_char. apply (char_impl key_char (λ c, negb (Ascii.eqb " " c))) in Hc; [|done].
    by apply negb_true_iff.
  - unfold ends_with. change (str_rev " " "") with " ".
    assert (all_chars key_char (str_rev key "") = true) as Hr.
    { assert (∀ s acc, all_chars key_char s = true → all_chars key_char acc = true →
        all_chars key_char (str_rev s acc) = true) as Hg; [|by apply Hg].
      intros s. induction s as [|c s IH]; intros acc; simpl; [done|]. intros [H1 H2]%andb_true_iff Ha.
      apply IH; [done|]. simpl. by rewrite H1. }
    destruct (str_rev key "") as [|c t]; [done|]. simpl in Hr. apply andb_true_iff in Hr as [Hc _].
    rewrite starts_with_char. apply (char_impl key_char (λ c, negb (Ascii.eqb " " c))) in Hc; [|done].
    by apply negb_true_iff.
Qed.

Lemma ends_with_space s : ends_with " " s = match last (as_bytes s) with Some b => b =? 32 | None => false end.
Proof.
  unfold ends_with. change (str_rev " " "") with " ".
  pose proof (str_rev_bytes s "") as Hr. rewrite app_nil_r in Hr.
  rewrite <- head_reverse, <- Hr. destruct (str_rev s "") as [|c t]; [done|].
  rewrite starts_with_char. cbn [as_bytes head]. destruct (Z.eqb_spec (u8_of_ascii c) 32) as [E|E].
  - rewrite <- (ascii_of_u8_of_ascii c), E. reflexivity.
  - apply Ascii.eqb_neq. intros <-. by apply E.
Qed.

Lemma pair_line_trim key value :
  all_chars key_char key = true → all_chars printable value = true → no_outer_space value →
  trim (key +:+ String "=" value) = key +:+ String "=" value.
Proof.
  intros Hk Hv [_ Hve]. destruct (key_no_outer_space key Hk) as [Hkp [Hks _]]. apply trim_printable.
  - rewrite all_chars_app, Hkp. simpl. by rewrite Hv.
  - split; [destruct key as [|k key]; [done|]; change (String k key +:+ String "=" value) with (String k (key +:+ String "=" value)); rewrite starts_with_char in *; exact Hks|]. rewrite ends_with_space in *. rewrite as_bytes_app, last_app. cbn [as_bytes].
    rewrite last_cons. by destruct (last (as_bytes value)).
Qed.

Lemma apply_line_rendered c l :
  line_ok l →
  apply_line c (render_line l) =
    match l with Pair key value => apply_pair c key value | _ => Ok c end.
Proof.
  destruct l as [key value|text|]; cbn [line_ok render_line]; unfold apply_line; cbn zeta.
  - intros (Hk & Hh & Hv & Ho). change (key +:+ "=" +:+ value) with (key +:+ String "=" value).
    rewrite pair_line_trim by done.
    assert (str_is_empty (key +:+ String "=" value) || starts_with "#" (key +:+ String "=" value) = false) as ->.
    { destruct key as [|k key]; [done|]. change (String k key +:+ String "=" value) with (String k (key +:+ String "=" value)).
      cbn [str_is_empty orb]. rewrite starts_with_char in *. done. }
    rewrite split_once_app by by apply (chars_impl key_char _ key).
    destruct (key_no_outer_space key Hk) as [Hkp Hko]. by rewrite !trim_printable.
  - intros Ht. assert (starts_with "#" (trim ("#" +:+ text)) = true) as ->; [|by rewrite orb_true_r].
    unfold trim, trim_start. rewrite as_bytes_app. cbn [as_bytes app].
    rewrite trim_start_id by done. change (u8_of_ascii "#") with 35.
    unfold trim_end. rewrite as_bytes_of_bytes by (constructor; [unfold is_u8; lia|apply as_bytes_range]).
    destruct (trim_end_keeps_head 35 (as_bytes text)) as [l' ->]; [done|by apply printable_bytes|].
    reflexivity.
  - reflexivity.
Qed.

Lemma render_line_chars l c :
  line_ok l → printable c = false → all_chars (λ d, negb (Ascii.eqb d c)) (render_line l) = true.
Proof.
  intros Hl Hc. apply (all_chars_impl printable).
  { intros d Hd. apply negb_true_iff, Ascii.eqb_neq. intros ->. congruence. }
  destruct l as [key value|text|]; cbn [line_ok render_line] in *; [|simpl; done|done].
  destruct Hl as (Hk & _ & Hv & _). rewrite all_chars_app. apply andb_true_iff.
  split; [by apply (chars_impl key_char printable)|exact Hv].
Qed.

(** The file format.  A file of assignments, comments and blank lines means
    exactly its assignments, applied in order: comments and blank lines have no
    effect, a value may contain equals signs and hash signs, a later assignment
    wins, and the first bad one is the error. *)
Theorem parse_config_file_rendered ls :
  Forall line_ok ls → parse_config_file (render ls) = apply_pairs default_config ls.
Proof.
  unfold parse_config_file. generalize default_config.
  induction ls as [|l ls IH]; intros c Hls; [done|]. apply Forall_cons in Hls as [Hl Hls].
  cbn [render]. rewrite str_lines_cons by (by apply render_line_chars). cbn [apply_lines].
  rewrite apply_line_rendered by done. destruct l as [key value|text|]; cbn [apply_pairs bind]; [|by apply IH..].
  destruct (apply_pair c key value) as [c'| | |]; cbn [bind]; try done. by apply IH.
Qed.

Lemma parse_config_file_rendered_witness :
  parse_config_file (render [Comment "x = y"; Pair "password" "a=b #c"; Blank; Pair "port" "1"; Pair "port" "2"])
    = Ok (default_config <| password := Some "a=b #c" |> <| gateway_port := 2 |>).
Proof.
  rewrite (parse_config_file_rendered
    [Comment "x = y"; Pair "password" "a=b #c"; Blank; Pair "port" "1"; Pair "port" "2"]).
  - vm_compute. reflexivity.
  - repeat constructor; vm_compute; reflexivity.
Defined.

(** The two boolean parsers of the program (configuration file and command
    line) accept the same texts with the same meaning and refuse the same ones. *)
Theorem boolean_parsers_agree value :
  match parse_bool value, parse_cli_bool value with
  | Ok a, inl b => a = b
  | Err (BadBoolean v), inr text => v = value ∧ text = "bad boolean value: " +:+ value
  | _, _ => False
  end.
Proof. unfold parse_bool, parse_cli_bool. repeat case_match; simplify_eq; done. Qed.
