(* ===== verification/Http.v ===== *)
(** * [http.rs]: the HTTP/1.1 client

    Sending a request, receiving a response (headers, body by length or in
    chunks), cookies and percent-encoding.  The stream is a reader and a writer
    of [Stream]; what is only logged is left out. *)

From S2P Require Import Prelude Stream RustStd Config.

#[local] Open Scope string_scope.
#[local] Open Scope list_scope.
#[local] Open Scope Z_scope.

Definition COOKIE_SIZE : usize := 4096.
Definition MAX_HEADER_SIZE : usize := 64 * 1024.
Definition READ_CHUNK_SIZE : usize := 4096.

Definition PERMISSION_DENIED_MARKERS : list bytes :=
  [as_bytes "<!--sslvpnerrmsgkey=sslvpn_login_permission_denied-->";
   as_bytes "permission_denied denied";
   as_bytes "Permission denied"].

Definition crlf : str := String carriage_return (String newline EmptyString).

Abbreviation header := (str * str)%type.

Record HttpResponse := {
  status_code : u16;
  reason : str;
  headers : list header;
  body : bytes;
}.

(** ** Headers *)

Definition header_is (name : str) (h : header) : bool := eq_ignore_ascii_case (fst h) name.

(** [iter().find(..).map(..)], the three copies of the look-up. *)
Definition header_value (hs : list header) (name : str) : option str :=
  snd <$> List.find (header_is name) hs.
Definition header_value_in : list header → str → option str := header_value.
Definition header_of (self : HttpResponse) (name : str) : option str :=
  header_value (headers self) name.

Definition headers_of (self : HttpResponse) (name : str) : list str :=
  map snd (List.filter (header_is name) (headers self)).

Definition body_as_str (self : HttpResponse) : option str := from_utf8 (body self).

Definition header_names (self : HttpResponse) : list str := map fst (headers self).

(** ** Cookies *)

Definition valid_cookie_pair (cookie : str) : option str :=
  match split_once "="%char cookie with
  | None => None
  | Some (name, value) =>
      if (COOKIE_SIZE <? str_len cookie) || str_is_empty name || str_is_empty value
      then None else Some cookie
  end.

Definition cookie_end (c : ascii) : bool :=
  Ascii.eqb c carriage_return || Ascii.eqb c newline || Ascii.eqb c ";"%char.

Definition extract_svpn_cookie_from_header (line : str) : option str :=
  match split_at_str "SVPNCOOKIE=" line with
  | None => None
  | Some (_, rest) => valid_cookie_pair (fst (span_until cookie_end ("SVPNCOOKIE=" +:+ rest)))
  end.

(** The text before the first semicolon, trimmed. *)
Definition cookie_part (line : str) : str :=
  trim (match split_once ";"%char line with Some (cookie, _) => cookie | None => line end).

Definition extract_cookie_pair_from_set_cookie_header (line : str) : option str :=
  valid_cookie_pair (cookie_part line).

Definition named_cookie (cookie : str) : option str :=
  match split_once "="%char cookie with
  | None => None
  | Some (name, value) => if str_is_empty name || str_is_empty value then None else Some name
  end.

Definition cookie_name_from_set_cookie_header (line : str) : option str :=
  named_cookie (cookie_part line).

Definition cookie_names_from_cookie_header (header : str) : list str :=
  omap (λ cookie, named_cookie (trim cookie)) (str_split ";"%char header).

Definition svpn_cookie (self : HttpResponse) : option str :=
  head (omap extract_svpn_cookie_from_header (headers_of self "Set-Cookie")).

Definition cookie_header (self : HttpResponse) : option str :=
  match omap extract_cookie_pair_from_set_cookie_header (headers_of self "Set-Cookie") with
  | [] => None
  | cookies => Some (str_join "; " cookies)
  end.

Definition set_cookie_names (self : HttpResponse) : list str :=
  omap cookie_name_from_set_cookie_header (headers_of self "Set-Cookie").

(** The two scanners over a raw response; [&line[..n]] may fall inside a
    character. *)
Fixpoint find_prefixed_line (header : str) (lines : list str) : result (option str) :=
  match lines with
  | [] => Ok None
  | line :: lines =>
      if str_len header <=? str_len line then
        let* prefix := str_to (str_len header) line in
        if eq_ignore_ascii_case prefix header then
          let* rest := str_from (str_len header) line in Ok (Some rest)
        else find_prefixed_line header lines
      else find_prefixed_line header lines
  end.

Definition header_section (response : str) : str :=
  match split_str (crlf +:+ crlf) response with s :: _ => s | [] => response end.

Definition find_header (response header : str) : result (option str) :=
  find_prefixed_line header (str_lines (header_section response)).

Fixpoint find_svpn_cookie_line (lines : list str) : result (option str) :=
  match lines with
  | [] => Ok None
  | line :: lines =>
      let* found := find_prefixed_line "Set-Cookie: " [line] in
      match found ≫= extract_svpn_cookie_from_header with
      | Some cookie => Ok (Some cookie)
      | None => find_svpn_cookie_line lines
      end
  end.

Definition extract_svpn_cookie (response : str) : result (option str) :=
  find_svpn_cookie_line (str_lines (header_section response)).

Definition is_sha256_hex_digest (value : str) : bool :=
  (str_len value =? SHA256_DIGEST_HEX_LEN) && all_chars is_ascii_hexdigit value.

(** ** Percent-encoding *)

Definition unreserved (b : u8) : bool :=
  in_range 65 90 b || in_range 97 122 b || in_range 48 57 b ||
  (b =? 45) || (b =? 95) || (b =? 46) || (b =? 126).

Definition hex_digit (n : Z) : ascii :=
  ascii_of_u8 (if n <? 10 then 48 + n else 55 + n).

Definition url_encode_byte (b : u8) : str :=
  if unreserved b then String (ascii_of_u8 b) EmptyString
  else String "%"%char (String (hex_digit (Z.shiftr b 4))
         (String (hex_digit (Z.land b 0x0f)) EmptyString)).

Fixpoint url_encode (input : str) : str :=
  match input with
  | EmptyString => EmptyString
  | String c input => url_encode_byte (u8_of_ascii c) +:+ url_encode input
  end.

(** ** Sending *)

Definition is_managed_request_header (name : str) : bool :=
  let n := to_ascii_lowercase name in
  (n =? "user-agent")%string || (n =? "content-type")%string || (n =? "cookie")%string
  || (n =? "content-length")%string.

(** [write!] hands the pieces of its text to [write_all] one by one. *)
Fixpoint write_pieces (pieces : list str) (w : writer) : result unit * writer :=
  match pieces with
  | [] => (Ok tt, w)
  | piece :: pieces => let! _ & w := write_all (as_bytes piece) w in write_pieces pieces w
  end.

Fixpoint write_headers (hs : list header) (w : writer) : result unit * writer :=
  match hs with
  | [] => (Ok tt, w)
  | (name, value) :: hs =>
      if is_managed_request_header name then write_headers hs w
      else let! _ & w := write_pieces [name; ": "; value; crlf] w in write_headers hs w
  end.

Definition http_send (host method path : str) (hs : list header) (content : bytes) (w : writer)
    : result unit * writer :=
  let user_agent := default "openfortivpn-rs" (header_value_in hs "User-Agent") in
  let content_type :=
    default "application/x-www-form-urlencoded" (header_value_in hs "Content-Type") in
  let cookie := default "" (header_value_in hs "Cookie") in
  let! _ & w := write_pieces [method; " "; path; " HTTP/1.1" +:+ crlf] w in
  let! _ & w := write_pieces ["Host: "; host; crlf] w in
  let! _ & w := write_pieces ["User-Agent: "; user_agent; crlf] w in
  let! _ & w := write_pieces ["Accept: */*" +:+ crlf] w in
  let! _ & w := write_pieces ["Accept-Encoding: identity" +:+ crlf] w in
  let! _ & w := write_pieces ["Pragma: no-cache" +:+ crlf] w in
  let! _ & w := write_pieces ["Cache-Control: no-store, no-cache, must-revalidate" +:+ crlf] w in
  let! _ & w := write_pieces ["If-Modified-Since: Sat, 1 Jan 2000 00:00:00 GMT" +:+ crlf] w in
  let! _ & w := write_pieces ["Content-Type: "; content_type; crlf] w in
  let! _ & w := write_pieces ["Cookie: "; cookie; crlf] w in
  let! _ & w := write_pieces ["Content-Length: "; print_uint (len content); crlf] w in
  let! _ & w := write_headers hs w in
  let! _ & w := write_pieces [crlf] w in
  let! _ & w := write_all content w in
  let! _ & w := flush w in
  (Ok tt, w).

(** ** Receiving *)

Definition find_bytes (haystack needle : bytes) : option usize := position_bytes needle haystack.

Definition contains_permission_denied_marker (content : bytes) : bool :=
  existsb (λ marker, match position_bytes marker content with Some _ => true | None => false end)
    PERMISSION_DENIED_MARKERS.

Definition chunk_marker : bytes := as_bytes (crlf +:+ "0" +:+ crlf).

Definition chunked_body_end (content : bytes) : option usize :=
  match find_bytes content chunk_marker with
  | None => None
  | Some marker =>
      let end_ := marker + len chunk_marker in
      match slice content end_ (end_ + 2) with
      | Ok l => if decide (l = as_bytes crlf) then Some (end_ + 2) else Some end_
      | _ => Some end_
      end
  end.

(** One [read] of a chunk, appended to the buffer; an empty one is the error
    [closed]. *)
Definition read_more (closed : str) (buffer : bytes) (r : reader) : result bytes * reader :=
  let! chunk & r := read READ_CHUNK_SIZE r in
  match chunk with
  | [] => (Err (HttpProtocol closed), r)
  | _ => (Ok (buffer ++ chunk), r)
  end.

Fixpoint read_until_headers_complete (fuel : nat) (buffer : bytes) (r : reader)
    : result (usize * bytes) * reader :=
  match fuel with
  | O => (Diverge, r)
  | S fuel =>
      match find_bytes buffer (as_bytes (crlf +:+ crlf)) with
      | Some header_end => (Ok (header_end + 4, buffer), r)
      | None =>
          if MAX_HEADER_SIZE <? len buffer
          then (Err (HttpProtocol "HTTP headers exceed maximum size"), r) else
          let! buffer & r := read_more "connection closed before HTTP headers were complete" buffer r in
          read_until_headers_complete fuel buffer r
      end
  end.

(** [splitn(3, ' ')] *)
Definition splitn3 (s : str) : str * option str * option str :=
  match split_once " "%char s with
  | None => (s, None, None)
  | Some (a, rest) =>
      match split_once " "%char rest with
      | None => (a, Some rest, None)
      | Some (b, c) => (a, Some b, Some c)
      end
  end.

Fixpoint parse_header_lines (lines : list str) : result (list header) :=
  match lines with
  | [] => Ok []
  | line :: lines =>
      if str_is_empty line then Ok [] else
      match split_once ":"%char line with
      | None => Err (HttpProtocol ("malformed HTTP header: " +:+ line))
      | Some (name, value) =>
          let* rest := parse_header_lines lines in Ok ((trim name, trim value) :: rest)
      end
  end.

Definition parse_headers (raw_headers : bytes) : result (u16 * str * list header) :=
  let* text := ok_or (from_utf8 raw_headers) (HttpProtocol "headers are not valid UTF-8") in
  match split_str crlf text with
  | [] => Err (HttpProtocol "missing status line")
  | status_line :: lines =>
      let '(version, code, reason) := splitn3 status_line in
      if negb (starts_with "HTTP/" version)
      then Err (HttpProtocol "status line does not start with HTTP/") else
      let* code := ok_or code (HttpProtocol "missing status code") in
      let* status_code := ok_or (parse_u16 code) (HttpProtocol "invalid status code") in
      let* hs := parse_header_lines lines in
      Ok (status_code, default EmptyString reason, hs)
  end.

(** [while body.len() < expected] *)
Fixpoint read_body (fuel : nat) (expected : usize) (content : bytes) (r : reader)
    : result bytes * reader :=
  if len content <? expected then
    match fuel with
    | O => (Diverge, r)
    | S fuel =>
        let! content & r := read_more "connection closed before full HTTP body was received" content r in
        read_body fuel expected content r
    end
  else (Ok content, r).

(** [while chunked_body_end(&body).is_none()] *)
Fixpoint read_chunked_body (fuel : nat) (content : bytes) (r : reader) : result bytes * reader :=
  match chunked_body_end content with
  | Some _ => (Ok content, r)
  | None =>
      match fuel with
      | O => (Diverge, r)
      | S fuel =>
          let! content & r := read_more "connection closed before chunked HTTP body ended" content r in
          read_chunked_body fuel content r
      end
  end.

Definition is_chunked (hs : list header) : bool :=
  match header_value hs "Transfer-Encoding" with
  | Some value => str_contains "chunked" (to_ascii_lowercase value)
  | None => false
  end.

Definition http_receive (r : reader) : result HttpResponse * reader :=
  let! '(header_end, buffer) & r := read_until_headers_complete (S (reader_fuel r)) [] r in
  let! raw & r := lift (slice buffer 0 header_end) r in
  let! '(status_code, reason, hs) & r := lift (parse_headers raw) r in
  let! content & r := lift (slice_from buffer header_end) r in
  let! content & r :=
    match header_value hs "Content-Length" with
    | Some content_length =>
        let! expected & r := lift
          (ok_or (parse_usize (trim content_length)) (HttpProtocol "invalid Content-Length")) r in
        let! content & r := read_body (reader_fuel r) expected content r in
        (Ok (take (Z.to_nat expected) content), r)
    | None =>
        if is_chunked hs then
          let! content & r := read_chunked_body (reader_fuel r) content r in
          (Ok (match chunked_body_end content with
               | Some end_ => take (Z.to_nat end_) content
               | None => content
               end), r)
        else (Ok content, r)
    end in
  if contains_permission_denied_marker content then (Err PermissionDenied, r)
  else (Ok {| status_code := status_code; reason := reason; headers := hs; body := content |}, r).

Definition do_http_request (host method path : str) (hs : list header) (content : bytes)
    (s : connection) : result HttpResponse * connection :=
  let '(sent, w) := http_send host method path hs content (conn_w s) in
  let s := {| conn_r := conn_r s; conn_w := w |} in
  let! _ & s := lift sent s in
  let '(response, r) := http_receive (conn_r s) in
  (response, {| conn_r := r; conn_w := w |}).

(** ** Specifications *)

Definition hex_value (c : ascii) : option Z :=
  let b := u8_of_ascii c in
  if in_range 48 57 b then Some (b - 48) else if in_range 65 70 b then Some (b - 55) else None.

(** The decoder a gateway applies to a form field. *)
Fixpoint url_decode (s : str) : option str :=
  match s with
  | EmptyString => Some EmptyString
  | String c t =>
      if Ascii.eqb c "%"%char then
        match t with
        | String a (String b u) =>
            match hex_value a, hex_value b with
            | Some x, Some y => String (ascii_of_u8 (x * 16 + y)) <$> url_decode u
            | _, _ => None
            end
        | _ => None
        end
      else String c <$> url_decode t
  end.

Definition form_safe (c : ascii) : bool := unreserved (u8_of_ascii c) || Ascii.eqb c "%"%char.

(** The bytes of a request. *)
Definition header_line (name value : str) : str := name +:+ ": " +:+ value +:+ crlf.

Definition request_head (host method path : str) (hs : list header) (length : Z) : str :=
  method +:+ " " +:+ path +:+ " HTTP/1.1" +:+ crlf +:+
  header_line "Host" host +:+
  header_line "User-Agent" (default "openfortivpn-rs" (header_value hs "User-Agent")) +:+
  header_line "Accept" "*/*" +:+
  header_line "Accept-Encoding" "identity" +:+
  header_line "Pragma" "no-cache" +:+
  header_line "Cache-Control" "no-store, no-cache, must-revalidate" +:+
  header_line "If-Modified-Since" "Sat, 1 Jan 2000 00:00:00 GMT" +:+
  header_line "Content-Type" (default "application/x-www-form-urlencoded" (header_value hs "Content-Type")) +:+
  header_line "Cookie" (default "" (header_value hs "Cookie")) +:+
  header_line "Content-Length" (print_uint length) +:+
  foldr (λ h acc, header_line (fst h) (snd h) +:+ acc) crlf
    (List.filter (λ h, negb (is_managed_request_header (fst h))) hs).

(** The head of a response: a status line and headers of printable text. *)
Definition response_head (code : u16) (reason : str) (hs : list header) : str :=
  "HTTP/1.1 " +:+ print_uint code +:+ " " +:+ reason +:+ crlf +:+
  foldr (λ h acc, header_line (fst h) (snd h) +:+ acc) crlf hs.

Definition header_ok (h : header) : Prop :=
  all_chars printable (fst h) = true ∧ all_chars (λ c, negb (Ascii.eqb c ":"%char)) (fst h) = true ∧
  no_outer_space (fst h) ∧ all_chars printable (snd h) = true ∧ no_outer_space (snd h).

(** ** Percent-encoding *)

Lemma url_decode_byte b rest :
  is_u8 b → url_decode (url_encode_byte b +:+ rest) = String (ascii_of_u8 b) <$> url_decode rest.
Proof.
  intros Hb. unfold url_encode_byte. destruct (unreserved b) eqn:Hu.
  - change (String (ascii_of_u8 b) "" +:+ rest) with (String (ascii_of_u8 b) rest). cbn [url_decode].
    assert (Ascii.eqb (ascii_of_u8 b) "%"%char = false) as ->; [|done].
    assert (implb (unreserved b) (negb (Ascii.eqb (ascii_of_u8 b) "%"%char)) = true) as H
      by by_all_u8 (λ b, implb (unreserved b) (negb (Ascii.eqb (ascii_of_u8 b) "%"%char))) b.
    rewrite Hu in H. by apply negb_true_iff.
  - set (h := hex_digit (Z.shiftr b 4)). set (l := hex_digit (Z.land b 0x0f)).
    change (String "%" (String h (String l "")) +:+ rest) with (String "%" (String h (String l rest))).
    cbn [url_decode]. rewrite Ascii.eqb_refl. subst h l.
    assert (match hex_value (hex_digit (Z.shiftr b 4)), hex_value (hex_digit (Z.land b 0x0f)) with
            | Some x, Some y => x * 16 + y =? b | _, _ => false end = true) as H
      by by_all_u8 (λ b, match hex_value (hex_digit (Z.shiftr b 4)), hex_value (hex_digit (Z.land b 0x0f)) with
            | Some x, Some y => x * 16 + y =? b | _, _ => false end) b.
    destruct (hex_value (hex_digit (Z.shiftr b 4))) as [x|]; [|done].
    destruct (hex_value (hex_digit (Z.land b 0x0f))) as [y|]; [|done].
    apply Z.eqb_eq in H. by rewrite H.
Qed.

Lemma url_encode_ok input :
  url_decode (url_encode input) = Some input ∧ all_chars form_safe (url_encode input) = true.
Proof.
  induction input as [|c input [IH1 IH2]]; cbn [url_encode]; [done|].
  pose proof (u8_of_ascii_range c) as Hc. split.
  - by rewrite url_decode_byte, IH1, ascii_of_u8_of_ascii.
  - rewrite all_chars_app, IH2, andb_true_r.
    by by_all_u8 (λ b, all_chars form_safe (url_encode_byte b)) (u8_of_ascii c).
Qed.

(** Percent-encoding is injective and safe: a form field is decoded back to
    the text that was encoded, and the encoded text contains no separator of a
    form or a request (ampersand, equals sign, space, line end). *)
Theorem url_encode_roundtrip input :
  url_decode (url_encode input) = Some input ∧ all_chars form_safe (url_encode input) = true.
Proof. apply url_encode_ok. Qed.

(** ** Cookies *)

Lemma valid_cookie_pair_ok cookie c :
  valid_cookie_pair cookie = Some c →
  c = cookie ∧ str_len c <= COOKIE_SIZE ∧
  ∃ name value, split_once "="%char c = Some (name, value) ∧ name ≠ EmptyString ∧ value ≠ EmptyString.
Proof.
  unfold valid_cookie_pair. destruct (split_once _ cookie) as [[name value]|] eqn:E; [|done].
  destruct (Z.ltb_spec COOKIE_SIZE (str_len cookie)); [done|].
  destruct name as [|n name]; [done|]. destruct value as [|v value]; [done|]. intros [= <-].
  split; [done|]. split; [done|]. eauto.
Qed.

Lemma span_until_spec p s :
  s = fst (span_until p s) +:+ snd (span_until p s) ∧
  all_chars (λ c, negb (p c)) (fst (span_until p s)) = true.
Proof.
  induction s as [|c s [IH1 IH2]]; simpl; [done|]. destruct (p c) eqn:Hp; simpl; [done|].
  destruct (span_until p s) as [a b]. cbn in *. rewrite Hp, IH2. split; [|done].
  change (String c a +:+ b) with (String c (a +:+ b)). by rewrite <- IH1.
Qed.

Lemma span_until_app p a s :
  all_chars (λ c, negb (p c)) a = true → fst (span_until p (a +:+ s)) = a +:+ fst (span_until p s).
Proof.
  induction a as [|c a IH]; [done|]. cbn [all_chars]. intros [Hc%negb_true_iff Ha]%andb_true_iff.
  change (String c a +:+ s) with (String c (a +:+ s)). cbn [span_until]. rewrite Hc.
  specialize (IH Ha). destruct (span_until p (a +:+ s)) as [x y]. cbn [fst] in *. by rewrite IH.
Qed.

Lemma strip_prefix_app p s : strip_prefix p (p +:+ s) = Some s.
Proof. induction p as [|c p IH]; simpl; [by destruct s|]. by rewrite Ascii.eqb_refl. Qed.

(** The session cookie that is extracted can be sent back safely: it is the
    SVPNCOOKIE pair, at most 4096 bytes long, with a value, and it carries no
    line end or semicolon of the response into the next request. *)
Theorem svpn_cookie_is_safe line c :
  extract_svpn_cookie_from_header line = Some c →
  ∃ value, c = "SVPNCOOKIE=" +:+ value ∧ value ≠ EmptyString ∧ str_len c <= COOKIE_SIZE ∧
    all_chars (λ d, negb (cookie_end d)) c = true.
Proof.
  unfold extract_svpn_cookie_from_header. destruct (split_at_str _ line) as [[a rest]|]; [|done].
  intros (-> & Hl & name & value & Hs & Hn & Hv)%valid_cookie_pair_ok.
  rewrite span_until_app in * by reflexivity.
  pose proof (proj2 (span_until_spec cookie_end rest)) as Hend.
  exists (fst (span_until cookie_end rest)). split; [done|]. split.
  - intros E. rewrite E in Hs. vm_compute in Hs. injection Hs as <- <-. done.
  - split; [done|]. rewrite all_chars_app. apply andb_true_iff. split; [vm_compute; reflexivity|done].
Qed.

Lemma svpn_cookie_is_safe_witness :
  extract_svpn_cookie_from_header "lang=en; SVPNCOOKIE=abc%3d; path=/; secure" = Some "SVPNCOOKIE=abc%3d" ∧
  ∃ value, "SVPNCOOKIE=abc%3d" = "SVPNCOOKIE=" +:+ value ∧ value ≠ EmptyString ∧
    str_len "SVPNCOOKIE=abc%3d" <= COOKIE_SIZE ∧
    all_chars (λ d, negb (cookie_end d)) "SVPNCOOKIE=abc%3d" = true.
Proof.
  assert (extract_svpn_cookie_from_header "lang=en; SVPNCOOKIE=abc%3d; path=/; secure" = Some "SVPNCOOKIE=abc%3d") as H
    by (vm_compute; reflexivity).
  split; [exact H|]. exact (svpn_cookie_is_safe _ _ H).
Defined.

(** ** Sending *)

Lemma write_pieces_ok ps w w' :
  write_pieces ps w = (Ok tt, w') → written w' = written w ++ as_bytes (foldr String.append EmptyString ps).
Proof.
  revert w. induction ps as [|p ps IH]; intros w; cbn [write_pieces foldr].
  - intros [= <-]. by rewrite app_nil_r.
  - intros ([] & w1 & H1%write_all_ok & H2%IH)%sbind_ok_inv. rewrite H2, H1, as_bytes_app.
    by rewrite <- app_assoc.
Qed.

Lemma write_headers_ok hs w w' :
  write_headers hs w = (Ok tt, w') →
  ∀ tail, written w' ++ as_bytes tail = written w ++ as_bytes
    (foldr (λ h acc, header_line (fst h) (snd h) +:+ acc) tail
      (List.filter (λ h, negb (is_managed_request_header (fst h))) hs)).
Proof.
  revert w. induction hs as [|[name value] hs IH]; intros w; cbn [write_headers].
  - by intros [= <-] tail.
  - cbn [List.filter fst]. destruct (is_managed_request_header name) eqn:Hm; cbn [negb]; [by apply IH|].
    intros ([] & w1 & H1%write_pieces_ok & H2)%sbind_ok_inv tail. rewrite (IH _ H2 tail), H1.
    cbn [foldr fst snd]. unfold header_line.
    rewrite !as_bytes_app. cbn [as_bytes]. by rewrite app_nil_r, <- !app_assoc.
Qed.

Lemma http_send_writes host method path hs content w w' :
  http_send host method path hs content w = (Ok tt, w') →
  written w' = written w ++ as_bytes (request_head host method path hs (len content)) ++ content.
Proof.
  unfold http_send. intros H.
  repeat match type of H with
  | sbind (write_pieces _ _) _ = _ =>
      let x := fresh "x" in let w1 := fresh "w" in let E := fresh "E" in
      apply sbind_ok_inv in H as (x & w1 & E & H); destruct x; apply write_pieces_ok in E
  end.
  apply sbind_ok_inv in H as ([] & wh & Eh & H).
  apply sbind_ok_inv in H as ([] & wl & El & H). apply write_pieces_ok in El.
  apply sbind_ok_inv in H as ([] & wb & Eb & H). apply write_all_ok in Eb.
  apply sbind_ok_inv in H as ([] & wf & Ef & [= <-]).
  pose proof (flush_written wb) as Hf. rewrite Ef in Hf. cbn [snd] in Hf. rewrite Hf, Eb, El.
  pose proof (write_headers_ok _ _ _ Eh crlf) as Hh. cbn [foldr]. change (crlf +:+ "") with crlf.
  rewrite Hh. rewrite E9, E8, E7, E6, E5, E4, E3, E2, E1, E0, E. cbn [foldr].
  unfold request_head, header_line. rewrite !as_bytes_app. cbn [as_bytes].
  rewrite ?app_nil_r, <- !app_assoc. done.
Qed.

(** A request that is sent is exactly its text and its body, whatever the
    stream does with each write: the request line, each managed header once
    (the caller's User-Agent, Content-Type and Cookie or their defaults), the
    length of the body that follows, the other headers of the caller in order,
    and an empty line. *)
Theorem http_send_writes_request host method path hs content w w' :
  http_send host method path hs content w = (Ok tt, w') →
  written w' = written w ++ as_bytes (request_head host method path hs (len content)) ++ content.
Proof. apply http_send_writes. Qed.

Lemma http_send_writes_request_witness :
  ∃ w', http_send "h" "POST" "/p" [("user-agent", "ua"); ("X-A", "b")] [1; 2]
      {| written := [9]; w_script := [WAccept 3; WError Interrupted; WAccept 1] |} = (Ok tt, w') ∧
    written w' = [9] ++ as_bytes (request_head "h" "POST" "/p" [("user-agent", "ua"); ("X-A", "b")] 2) ++ [1; 2].
Proof.
  eexists. split; [vm_compute; reflexivity|].
  apply (http_send_writes_request "h" "POST" "/p" [("user-agent", "ua"); ("X-A", "b")] [1; 2]
    {| written := [9]; w_script := [WAccept 3; WError Interrupted; WAccept 1] |}).
  vm_compute. reflexivity.
Defined.

(** ** The head of a response *)

(** A text of non-empty lines, closed by an empty one. *)
Definition head_text (ls : list str) : str := foldr (λ l acc, l +:+ crlf +:+ acc) crlf ls.
Definition no_cr (s : str) : Prop := Forall (λ b, b ≠ 13) (as_bytes s).
Definition head_line (l : str) : Prop := l ≠ EmptyString ∧ no_cr l.

Lemma head_text_bytes l ls : as_bytes (head_text (l :: ls)) = as_bytes l ++ 13 :: 10 :: as_bytes (head_text ls).
Proof. cbn [head_text foldr]. rewrite !as_bytes_app. done. Qed.

Lemma position_bytes_skip needle l t :
  Forall (λ b, b ≠ 13) l →
  position_bytes (13 :: needle) (l ++ t) = option_map (Z.add (len l)) (position_bytes (13 :: needle) t).
Proof.
  induction 1 as [|b l Hb Hl IH].
  - cbn [app]. destruct (position_bytes _ t); done.
  - rewrite <- app_comm_cons. cbn [position_bytes strip_bytes].
    rewrite (proj2 (Z.eqb_neq 13 b)) by done. rewrite IH. destruct (position_bytes _ t); [|done].
    cbn. f_equal. len_lia.
Qed.

Definition blank_line : bytes := [13; 10; 13; 10].

Lemma head_text_head ls :
  Forall head_line ls → ls ≠ [] → ∃ b t, as_bytes (head_text ls) = b :: t ∧ b ≠ 13.
Proof.
  intros [|l ls' [Hne Hcr] _] Hls; [done|]. rewrite head_text_bytes.
  destruct l as [|c l]; [done|]. inversion Hcr. cbn [as_bytes app]. eauto.
Qed.

(** The empty line is found at the end, not before. *)
Lemma head_text_position ls :
  Forall head_line ls → ls ≠ [] →
  position_bytes blank_line (as_bytes (head_text ls)) = Some (len (as_bytes (head_text ls)) - 4).
Proof.
  induction 1 as [|l ls [Hne Hcr] Hls IH]; [done|]. intros _. rewrite head_text_bytes.
  unfold blank_line in *. rewrite position_bytes_skip by done.
  destruct (decide (ls = [])) as [->|Hne'].
  - change (position_bytes [13; 10; 13; 10] (13 :: 10 :: as_bytes (head_text []))) with (Some 0).
    cbn [option_map]. change (as_bytes (head_text [])) with [13; 10]. f_equal. len_lia.
  - destruct (head_text_head ls Hls Hne') as (b & t & Ht & Hb). specialize (IH Hne').
    rewrite Ht in *. cbn [position_bytes strip_bytes] in *. change (13 =? 13) with true.
    change (10 =? 10) with true. change (13 =? 10) with false.
    rewrite (proj2 (Z.eqb_neq 13 b)) in * by done. cbn [option_map].
    destruct (position_bytes [13; 10; 13; 10] t) as [i|]; [|done]. cbn [option_map] in *.
    injection IH as IH. cbn. f_equal. revert IH. len_lia.
Qed.

Lemma split_at_str_cr l rest :
  no_cr l → split_at_str crlf (l +:+ crlf +:+ rest) = Some (l, rest).
Proof.
  unfold no_cr. induction l as [|c l IH]; intros H.
  - change ("" +:+ crlf +:+ rest) with (String carriage_return (String newline rest)).
    cbn. rewrite !Ascii.eqb_refl. by destruct rest.
  - inversion H as [|? ? Hc Hl]; subst. change (String c l +:+ crlf +:+ rest) with (String c (l +:+ crlf +:+ rest)).
    cbn [split_at_str]. change (strip_prefix crlf (String c (l +:+ crlf +:+ rest)))
      with (if Ascii.eqb carriage_return c then strip_prefix (String newline EmptyString) (l +:+ crlf +:+ rest) else None).
    destruct (Ascii.eqb_spec carriage_return c) as [<-|_]; [done|]. by rewrite IH.
Qed.

Lemma split_str_head fuel ls :
  Forall head_line ls → (length ls < fuel)%nat →
  split_str_fuel fuel crlf (head_text ls) = (ls ++ [""; ""])%list.
Proof.
  intros H. revert fuel. induction H as [|l ls [Hne Hcr] Hls IH]; intros [|fuel] Hf; simpl in Hf; try lia.
  - by destruct fuel.
  - cbn [split_str_fuel head_text foldr]. fold (head_text ls). rewrite split_at_str_cr by done.
    cbn [app]. f_equal. apply IH. lia.
Qed.

Definition header_text (h : header) : str := fst h +:+ ": " +:+ snd h.
Definition status_line (code : u16) (reason : str) : str := "HTTP/1.1 " +:+ print_uint code +:+ " " +:+ reason.

Lemma str_app_assoc (a b c : str) : (a +:+ b) +:+ c = a +:+ b +:+ c.
Proof.
  induction a as [|x a IH]; [done|]. change (String x a +:+ b) with (String x (a +:+ b)).
  change (String x (a +:+ b) +:+ c) with (String x ((a +:+ b) +:+ c)). by rewrite IH.
Qed.

Lemma response_head_text code reason hs :
  response_head code reason hs = head_text (status_line code reason :: map header_text hs).
Proof.
  unfold response_head, head_text, status_line. cbn [foldr]. rewrite !str_app_assoc. repeat f_equal.
  induction hs as [|h hs IH]; [done|]. cbn [foldr map]. rewrite IH. unfold header_line, header_text.
  by rewrite !str_app_assoc.
Qed.

Definition ascii_text (s : str) : Prop := Forall (λ b, 0 <= b < 128) (as_bytes s).

Lemma printable_text s : all_chars printable s = true → ascii_text s ∧ no_cr s.
Proof.
  intros Hs. split.
  - apply (all_chars_bytes printable (λ b, in_range 0 127 b)) in Hs; [|vm_compute; reflexivity].
    eapply Forall_impl; [exact Hs|]. unfold in_range. intros b [H1%Z.leb_le H2%Z.leb_le]%andb_true_iff. lia.
  - apply (all_chars_bytes printable (λ b, negb (b =? 13))) in Hs; [|vm_compute; reflexivity].
    eapply Forall_impl; [exact Hs|]. by intros b ?%negb_true_iff%Z.eqb_neq.
Qed.

Lemma head_text_ascii ls : Forall ascii_text ls → ascii_text (head_text ls).
Proof.
  induction 1 as [|l ls Hl Hls IH].
  { unfold ascii_text. change (as_bytes (head_text [])) with [13; 10].
    by repeat (constructor; [lia|]). }
  unfold ascii_text in *.
  rewrite head_text_bytes. apply Forall_app. split; [done|]. constructor; [lia|]. constructor; [lia|done].
Qed.

Lemma trim_leading_space s : all_chars printable s = true → no_outer_space s → trim (String " " s) = s.
Proof.
  intros Hp Ho. assert (trim_start (String " " s) = s) as Hts.
  { unfold trim_start, trim_start_bytes. cbn [as_bytes length drop_white].
    change (white_prefix (u8_of_ascii " " :: as_bytes s)) with 1%nat. cbn [drop].
    rewrite drop_0. destruct (outer_visible s Hp Ho) as [->|(b & l & e & m & H1 & _ & H3 & _)]; [done|].
    pose proof (trim_start_id b l H3) as Hid. rewrite <- H1 in Hid.
    unfold trim_start_bytes in Hid. by rewrite Hid, string_of_as_bytes. }
  unfold trim. rewrite Hts. pose proof (trim_printable s Hp Ho) as Ht. unfold trim in Ht.
  destruct (outer_visible s Hp Ho) as [->|(b & l & e & m & H1 & H2 & H3 & H4)]; [done|].
  unfold trim_end. rewrite H2, trim_end_id by done. by rewrite <- H2, string_of_as_bytes.
Qed.

Lemma parse_header_lines_ok hs :
  Forall header_ok hs → parse_header_lines (map header_text hs ++ [""; ""])%list = Ok hs.
Proof.
  induction 1 as [|[name value] hs (Hn & Hc & Hno & Hv & Hvo) Hhs IH]; [done|]. cbn [fst snd] in *.
  cbn [map app parse_header_lines]. unfold header_text at 1 2. cbn [fst snd].
  change (name +:+ ": " +:+ value) with (name +:+ String ":" (String " " value)).
  assert (str_is_empty (name +:+ String ":" (String " " value)) = false) as -> by by destruct name.
  rewrite split_once_app by done. rewrite IH. cbn [bind].
  by rewrite trim_printable, trim_leading_space.
Qed.

Lemma digits_printable n : 0 <= n → all_chars printable (print_uint n) = true.
Proof. intros Hn. by apply (chars_impl is_ascii_digit printable), print_uint_digits. Qed.

Lemma split_once_printable_digits n rest :
  0 <= n → split_once " "%char (print_uint n +:+ String " " rest) = Some (print_uint n, rest).
Proof.
  intros Hn. apply split_once_app. by apply (chars_impl is_ascii_digit _), print_uint_digits.
Qed.

Lemma parse_headers_ok code reason hs :
  is_u16 code → all_chars printable reason = true → Forall header_ok hs →
  parse_headers (as_bytes (response_head code reason hs)) = Ok (code, reason, hs).
Proof.
  intros Hcode Hr Hhs. unfold is_u16 in Hcode. rewrite response_head_text.
  assert (all_chars printable (status_line code reason) = true) as Hsl.
  { unfold status_line. rewrite !all_chars_app, digits_printable, Hr by lia. reflexivity. }
  assert (Forall (λ h, all_chars printable (header_text h) = true) hs) as Hht.
  { eapply Forall_impl; [exact Hhs|]. intros [n v] (H1 & _ & _ & H2 & _). unfold header_text.
    rewrite !all_chars_app. cbn [fst snd] in *. by rewrite H1, H2. }
  assert (Forall head_line (status_line code reason :: map header_text hs)) as Hlines.
  { constructor; [split; [done|by apply printable_text]|]. apply Forall_map.
    eapply Forall_impl; [exact Hht|]. intros h Hh. split; [|by apply printable_text].
    unfold header_text. by destruct (fst h). }
  unfold parse_headers. rewrite from_utf8_ascii.
  2: { apply head_text_ascii. constructor; [by apply printable_text|]. apply Forall_map.
       eapply Forall_impl; [exact Hht|]. intros h Hh. by apply printable_text. }
  cbn [ok_or bind]. unfold split_str. rewrite split_str_head; [|done|].
  2: { clear. generalize (status_line code reason :: map header_text hs). intros ls.
       assert (∀ l, (length l <= String.length (head_text l))%nat) as Hlen; [|specialize (Hlen ls); lia].
       clear. induction l as [|x l IH]; [simpl; lia|].
       assert (∀ a b, String.length (a +:+ b) = (String.length a + String.length b)%nat) as Happ.
       { intros a b. induction a as [|c a IHa]; [done|].
         change (String c a +:+ b) with (String c (a +:+ b)). cbn [String.length]. lia. }
       cbn [head_text foldr length]. fold (head_text l). rewrite !Happ. change (String.length crlf) with 2%nat. lia. }
  cbn [app]. unfold splitn3, status_line.
  change ("HTTP/1.1 " +:+ print_uint code +:+ " " +:+ reason)
    with ("HTTP/1.1" +:+ String " " (print_uint code +:+ String " " reason)).
  rewrite (split_once_app " "%char "HTTP/1.1") by reflexivity.
  rewrite split_once_printable_digits by lia. cbn [ok_or bind].
  change (starts_with "HTTP/" "HTTP/1.1") with true. cbn [negb].
  unfold parse_u16. rewrite parse_print_uint by lia. cbn [ok_or bind].
  by rewrite parse_header_lines_ok.
Qed.

(** ** Receiving *)

Lemma read_more_chunked closed buffer cs :
  nonempty_chunks cs → cs ≠ [] →
  ∃ piece cs', read_more closed buffer (chunked cs) = (Ok (buffer ++ piece), chunked cs') ∧
    concat cs = piece ++ concat cs' ∧ nonempty_chunks cs' ∧ piece ≠ [] ∧
    (reader_fuel (chunked cs') < reader_fuel (chunked cs))%nat.
Proof.
  intros Hcs Hne. destruct (read_chunked READ_CHUNK_SIZE cs) as (piece & cs' & Hr & Hp & Hcat & Hcs'); [done..|].
  exists piece, cs'. unfold read_more. rewrite Hr. cbn [sbind]. destruct piece as [|x piece]; [done|].
  apply read_fuel in Hr; [|done]. done.
Qed.

Lemma read_headers_chunked fuel buffer cs hd rest :
  nonempty_chunks cs → buffer ++ concat cs = hd ++ rest →
  position_bytes blank_line hd = Some (len hd - 4) → len hd <= MAX_HEADER_SIZE →
  (reader_fuel (chunked cs) < fuel)%nat →
  ∃ body cs', read_until_headers_complete fuel buffer (chunked cs)
      = (Ok (len hd, hd ++ body), chunked cs') ∧
    body ++ concat cs' = rest ∧ nonempty_chunks cs'.
Proof.
  intros Hcs Hcat Hpos Hmax. revert buffer cs Hcs Hcat.
  induction fuel as [|fuel IH]; intros buffer cs Hcs Hcat Hf; [lia|].
  cbn [read_until_headers_complete]. unfold find_bytes. change (as_bytes (crlf +:+ crlf)) with blank_line.
  destruct (position_bytes blank_line buffer) as [i|] eqn:Ei.
  - apply (position_bytes_app _ _ (concat cs)) in Ei as (Hi & H0 & Hl).
    rewrite Hcat in Hi. apply (position_bytes_app _ _ rest) in Hpos as (Hpos & _ & _).
    rewrite Hpos in Hi. injection Hi as <-. change (len blank_line) with 4 in Hl.
    assert (∃ body, buffer = hd ++ body) as [body ->].
    { exists (drop (length hd) buffer). rewrite <- (take_drop (length hd) buffer) at 1. f_equal.
      apply (f_equal (take (length hd))) in Hcat. unfold len in Hl.
      rewrite take_app_length, take_app_le in Hcat by lia. done. }
    exists body, cs. rewrite <- app_assoc in Hcat. apply app_inv_head in Hcat.
    replace (len hd - 4 + 4) with (len hd) by lia. done.
  - assert (len buffer < len hd) as Hlt.
    { destruct (Z.lt_ge_cases (len buffer) (len hd)) as [|Hge]; [done|]. exfalso.
      apply app_eq_inv in Hcat as [(k & -> & _)|(k & Hk & _)].
      - apply (position_bytes_app _ _ k) in Hpos as (Hp & _). congruence.
      - assert (k = []) as -> by (apply len_zero; rewrite Hk in Hge; revert Hge; len_lia).
        rewrite app_nil_r in Hk. congruence. }
    rewrite (proj2 (Z.ltb_ge _ _)) by lia.
    destruct (decide (cs = [])) as [->|Hne].
    { exfalso. cbn [concat] in Hcat. rewrite app_nil_r in Hcat. subst buffer. revert Hlt. len_lia. }
    destruct (read_more_chunked "connection closed before HTTP headers were complete" buffer cs Hcs Hne)
      as (piece & cs1 & -> & Hc & Hcs1 & _ & Hfuel).
    cbn [sbind]. apply IH; [done| |lia]. by rewrite <- app_assoc, <- Hc.
Qed.

Lemma read_body_chunked fuel expected content extra buffer cs :
  nonempty_chunks cs → buffer ++ concat cs = content ++ extra → expected = len content →
  (reader_fuel (chunked cs) <= fuel)%nat →
  ∃ got cs', read_body fuel expected buffer (chunked cs) = (Ok (content ++ got), chunked cs').
Proof.
  intros Hcs Hcat ->. revert buffer cs Hcs Hcat. induction fuel as [|fuel IH]; intros buffer cs Hcs Hcat Hf.
  { destruct cs; simpl in Hf; lia. }
  cbn [read_body]. destruct (Z.ltb_spec (len buffer) (len content)) as [Hlt|Hge].
  - destruct (decide (cs = [])) as [->|Hne].
    { exfalso. cbn [concat] in Hcat. rewrite app_nil_r in Hcat. subst buffer. revert Hlt. len_lia. }
    destruct (read_more_chunked "connection closed before full HTTP body was received" buffer cs Hcs Hne)
      as (piece & cs1 & -> & Hc & Hcs1 & _ & Hfuel).
    cbn [sbind]. apply IH; [done| |lia]. by rewrite <- app_assoc, <- Hc.
  - exists (drop (length content) buffer), cs. rewrite <- (take_drop (length content) buffer) at 1. do 3 f_equal.
    apply (f_equal (take (length content))) in Hcat. unfold len in Hge.
    rewrite take_app_length, take_app_le in Hcat by lia. done.
Qed.

(** C25: A response is received as it was sent: status, reason, headers in order
    and exactly the announced number of body bytes, however the transport cuts
    the stream and whatever follows the body; unless the body carries one of
    the permission-denied markers, which is an error. *)
Theorem http_receive_response code reason hs content extra cs :
  is_u16 code → all_chars printable reason = true → Forall header_ok hs →
  header_value hs "Content-Length" = Some (print_uint (len content)) →
  len (as_bytes (response_head code reason hs)) <= MAX_HEADER_SIZE → len content < 2 ^ 64 →
  nonempty_chunks cs →
  concat cs = as_bytes (response_head code reason hs) ++ content ++ extra →
  fst (http_receive (chunked cs)) =
    if contains_permission_denied_marker content then Err PermissionDenied
    else Ok {| status_code := code; reason := reason; headers := hs; body := content |}.
Proof.
  intros Hcode Hr Hhs Hcl Hmax Hlen Hcs Hcat. unfold http_receive.
  set (hd := as_bytes (response_head code reason hs)) in *.
  assert (position_bytes blank_line hd = Some (len hd - 4)) as Hpos.
  { subst hd. rewrite response_head_text. apply head_text_position; [|done].
    constructor.
    - split; [done|]. apply printable_text. unfold status_line. unfold is_u16 in Hcode.
      rewrite !all_chars_app, digits_printable, Hr by lia. reflexivity.
    - apply Forall_map. eapply Forall_impl; [exact Hhs|]. intros [n v] (H1 & _ & _ & H2 & _).
      split; [by destruct n|]. apply printable_text. unfold header_text. rewrite !all_chars_app.
      cbn [fst snd] in *. by rewrite H1, H2. }
  destruct (read_headers_chunked (S (reader_fuel (chunked cs))) [] cs hd (content ++ extra))
    as (buf & cs1 & -> & Hbuf & Hcs1); [done..|lia|].
  cbn [sbind]. unfold lift.
  rewrite (slice_app_middle_n [] hd buf) by done. cbn [sbind]. subst hd.
  rewrite parse_headers_ok by done. cbn [sbind]. rewrite slice_from_app. cbn [sbind].
  rewrite Hcl. assert (trim (print_uint (len content)) = print_uint (len content)) as ->.
  { apply trim_printable; [by apply digits_printable, len_nonneg|].
    apply key_no_outer_space. by apply (chars_impl is_ascii_digit key_char), print_uint_digits, len_nonneg. }
  pose proof (len_nonneg content). unfold parse_usize. rewrite parse_print_uint by lia. cbn [ok_or sbind].
  destruct (read_body_chunked (reader_fuel (chunked cs1)) (len content) content extra buf cs1)
    as (got & cs2 & ->); [done..|]. cbn [sbind].
  unfold len. rewrite Nat2Z.id, take_app_length. by case_match.
Qed.

Lemma http_receive_response_witness :
  fst (http_receive (chunked [as_bytes (response_head 200 "OK" [("Set-Cookie", "SVPNCOOKIE=x"); ("content-length", "3")]);
      [1]; [2; 3; 4]])) =
    Ok {| status_code := 200; reason := "OK";
          headers := [("Set-Cookie", "SVPNCOOKIE=x"); ("content-length", "3")]; body := [1; 2; 3] |}.
Proof.
  apply (http_receive_response 200 "OK" [("Set-Cookie", "SVPNCOOKIE=x"); ("content-length", "3")] [1; 2; 3] [4]).
  - unfold is_u16. lia.
  - reflexivity.
  - repeat constructor.
  - reflexivity.
  - vm_compute. discriminate.
  - reflexivity.
  - repeat constructor; discriminate.
  - reflexivity.
Defined.

(** ** No response makes the client panic or loop *)

Lemma read_more_cases closed buffer r :
  match read_more closed buffer r with
  | (Ok _, r') => (reader_fuel r' < reader_fuel r)%nat
  | (Err _, _) => True
  | _ => False
  end.
Proof.
  unfold read_more. pose proof (returns_read READ_CHUNK_SIZE r) as Hr.
  destruct (read READ_CHUNK_SIZE r) as [[[|x l]|e| |] r'] eqn:E; try done.
  cbn [sbind]. by apply read_fuel in E.
Qed.

Lemma read_headers_returns fuel buffer r :
  (reader_fuel r < fuel)%nat →
  match read_until_headers_complete fuel buffer r with
  | (Ok (n, buf), _) => 0 <= n <= len buf
  | (Err _, _) => True
  | _ => False
  end.
Proof.
  revert buffer r. induction fuel as [|fuel IH]; intros buffer r Hf; [lia|].
  cbn [read_until_headers_complete]. unfold find_bytes. change (as_bytes (crlf +:+ crlf)) with blank_line.
  destruct (position_bytes blank_line buffer) as [i|] eqn:Ei.
  - apply (position_bytes_app _ _ []) in Ei as (_ & H0 & Hl). change (len blank_line) with 4 in Hl. lia.
  - destruct (MAX_HEADER_SIZE <? len buffer); [done|].
    pose proof (read_more_cases "connection closed before HTTP headers were complete" buffer r) as Hm.
    destruct (read_more _ buffer r) as [[buf|e| |] r']; cbn [sbind]; try done. apply IH. lia.
Qed.

Lemma read_body_returns fuel expected content r :
  (reader_fuel r <= fuel)%nat → returns (fst (read_body fuel expected content r)).
Proof.
  revert content r. induction fuel as [|fuel IH]; intros content r Hf.
  { destruct r as [|[c|k] r]; simpl in Hf; lia. }
  cbn [read_body]. destruct (len content <? expected); [|done].
  pose proof (read_more_cases "connection closed before full HTTP body was received" content r) as Hm.
  destruct (read_more _ content r) as [[buf|e| |] r']; cbn [sbind]; try done. apply IH. lia.
Qed.

Lemma read_chunked_body_returns fuel content r :
  (reader_fuel r <= fuel)%nat → returns (fst (read_chunked_body fuel content r)).
Proof.
  revert content r. induction fuel as [|fuel IH]; intros content r Hf.
  { destruct r as [|[c|k] r]; simpl in Hf; lia. }
  cbn [read_chunked_body]. destruct (chunked_body_end content); [done|].
  pose proof (read_more_cases "connection closed before chunked HTTP body ended" content r) as Hm.
  destruct (read_more _ content r) as [[buf|e| |] r']; cbn [sbind]; try done. apply IH. lia.
Qed.

Lemma parse_header_lines_returns ls : returns (parse_header_lines ls).
Proof.
  induction ls as [|l ls IH]; [done|]. cbn [parse_header_lines]. case_match; [done|].
  destruct (split_once _ l) as [[]|]; [|done]. by apply returns_bind.
Qed.

Lemma returns_ok_or {A} (o : option A) e : returns (ok_or o e).
Proof. by destruct o. Qed.

Lemma parse_headers_returns raw : returns (parse_headers raw).
Proof.
  unfold parse_headers. apply returns_bind; [apply returns_ok_or|]. intros text _.
  destruct (split_str _ _); [done|]. destruct (splitn3 _) as [[v c] reason]. case_match; [done|].
  repeat (apply returns_bind; [apply returns_ok_or|intros ? _]).
  apply returns_bind; [apply parse_header_lines_returns|done].
Qed.

Lemma receive_returns r : returns (fst (http_receive r)).
Proof.
  unfold http_receive. pose proof (read_headers_returns (S (reader_fuel r)) [] r ltac:(lia)) as Hh.
  apply sbind_returns; [by destruct (read_until_headers_complete _ [] r) as [[[]| | |] ]|].
  intros [n buf] r1 Hr. rewrite Hr in Hh. unfold lift.
  apply sbind_returns; [apply returns_slice; lia|]. intros raw ? [= _ <-].
  apply sbind_returns; [apply parse_headers_returns|]. intros [[code reason] hs] ? _.
  apply sbind_returns; [apply returns_slice_from; lia|]. intros content s2 _.
  apply sbind_returns.
  - destruct (header_value hs "Content-Length").
    + apply sbind_returns; [apply returns_ok_or|]. intros expected s' _.
      by apply sbind_returns; [by apply read_body_returns|].
    + case_match; [|done]. by apply sbind_returns; [by apply read_chunked_body_returns|].
  - intros content2 s3 _. by case_match.
Qed.

Lemma write_pieces_returns ps w : returns (fst (write_pieces ps w)).
Proof.
  revert w. induction ps as [|p ps IH]; intros w; cbn [write_pieces]; [done|].
  apply sbind_returns; [apply returns_write_all|]. intros [] w' _. apply IH.
Qed.

Lemma write_headers_returns hs w : returns (fst (write_headers hs w)).
Proof.
  revert w. induction hs as [|[name value] hs IH]; intros w; cbn [write_headers]; [done|].
  case_match; [apply IH|]. apply sbind_returns; [apply write_pieces_returns|]. intros [] w' _. apply IH.
Qed.

Lemma http_send_returns host method path hs content w : returns (fst (http_send host method path hs content w)).
Proof.
  unfold http_send. repeat (apply sbind_returns;
    [first [apply write_pieces_returns|apply write_headers_returns|apply returns_write_all|apply returns_flush]|intros [] ? _]).
  done.
Qed.

Lemma do_http_request_returns host method path hs content s :
  returns (fst (do_http_request host method path hs content s)).
Proof.
  unfold do_http_request. pose proof (http_send_returns host method path hs content (conn_w s)) as Hs.
  destruct (http_send _ _ _ _ _ _) as [sent w]. apply sbind_returns; [by destruct sent|]. intros [] s' E.
  pose proof (receive_returns (conn_r s')) as Hr. by destruct (http_receive (conn_r s')).
Qed.

(** ** A response is what was received *)

(** The response a stretch of bytes holds: its head, up to the first empty
    line, parsed; and a body that begins right behind. *)
Definition holds_response (raw : bytes) (response : HttpResponse) : Prop :=
  ∃ head more, raw = head ++ body response ++ more ∧
    option_map (Z.add 4) (position_bytes blank_line raw) = Some (len head) ∧
    parse_headers head = Ok (status_code response, reason response, headers response).

(** The bytes between two states of a reader. *)
Definition took (r : reader) (l : bytes) (r' : reader) : Prop := delivered r = l ++ delivered r'.

Lemma read_more_took closed buffer r buffer' r' : read_more closed buffer r = (Ok buffer', r') →
  ∃ l, buffer' = buffer ++ l ∧ took r l r'.
Proof.
  unfold read_more. intros (chunk & r1 & E & H)%sbind_ok_inv. pose proof (read_delivered READ_CHUNK_SIZE r) as Hd.
  rewrite E in Hd. destruct chunk as [|x l]; [done|]. injection H as <- <-. by exists (x :: l).
Qed.

Lemma read_headers_took fuel buffer r n buffer' r' :
  read_until_headers_complete fuel buffer r = (Ok (n, buffer'), r') →
  option_map (Z.add 4) (position_bytes blank_line buffer') = Some n ∧ ∃ l, buffer' = buffer ++ l ∧ took r l r'.
Proof.
  revert buffer r. induction fuel as [|fuel IH]; intros buffer r; [done|]. cbn [read_until_headers_complete].
  unfold find_bytes. change (as_bytes (crlf +:+ crlf)) with blank_line.
  destruct (position_bytes blank_line buffer) as [i|] eqn:Ei.
  - intros [= <- <- <-]. rewrite Ei. cbn [option_map]. split; [f_equal; lia|]. exists []. by rewrite app_nil_r.
  - destruct (MAX_HEADER_SIZE <? len buffer); [done|].
    intros (b1 & r1 & (l1 & -> & H1)%read_more_took & H)%sbind_ok_inv. apply IH in H as (Hp & l2 & -> & H2).
    split; [done|]. exists (l1 ++ l2). unfold took in *. by rewrite H1, H2, !app_assoc.
Qed.

Lemma read_body_took fuel expected content r content' r' : read_body fuel expected content r = (Ok content', r') →
  ∃ l, content' = content ++ l ∧ took r l r'.
Proof.
  revert content r. induction fuel as [|fuel IH]; intros content r; cbn [read_body];
    (destruct (len content <? expected); [|by intros [= <- <-]; exists []; rewrite app_nil_r]); [done|].
  intros (b1 & r1 & (l1 & -> & H1)%read_more_took & H)%sbind_ok_inv. apply IH in H as (l2 & -> & H2).
  exists (l1 ++ l2). unfold took in *. by rewrite H1, H2, !app_assoc.
Qed.

Lemma read_chunked_body_took fuel content r content' r' : read_chunked_body fuel content r = (Ok content', r') →
  ∃ l, content' = content ++ l ∧ took r l r'.
Proof.
  revert content r. induction fuel as [|fuel IH]; intros content r; cbn [read_chunked_body];
    (destruct (chunked_body_end content); [by intros [= <- <-]; exists []; rewrite app_nil_r|]); [done|].
  intros (b1 & r1 & (l1 & -> & H1)%read_more_took & H)%sbind_ok_inv. apply IH in H as (l2 & -> & H2).
  exists (l1 ++ l2). unfold took in *. by rewrite H1, H2, !app_assoc.
Qed.

Lemma receive_took r response r' : http_receive r = (Ok response, r') →
  ∃ raw, took r raw r' ∧ holds_response raw response.
Proof.
  unfold http_receive. intros ([n buf] & r1 & Hh & H)%sbind_ok_inv.
  pose proof (read_headers_returns (S (reader_fuel r)) [] r ltac:(lia)) as Hn. rewrite Hh in Hn.
  apply read_headers_took in Hh as (Hp & l1 & -> & H1). cbn [app] in *.
  destruct (position_bytes blank_line l1) as [i|] eqn:Ei; [|done]. cbn [option_map] in Hp.
  apply sbind_ok_inv in H as (head & r2 & Hs & H). unfold lift in Hs. rewrite slice_ok in Hs by lia.
  injection Hs as Hhead <-. rewrite Z.sub_0_r in Hhead. change (drop (Z.to_nat 0) l1) with l1 in Hhead.
  apply sbind_ok_inv in H as ([[code why] hs] & r2 & [= Hph <-] & H).
  apply sbind_ok_inv in H as (content & r2 & Hs & H). unfold lift in Hs. rewrite slice_from_ok in Hs by lia.
  injection Hs as Hcontent <-. apply sbind_ok_inv in H as (content' & r3 & Hb & H).
  destruct (contains_permission_denied_marker content'); [done|]. injection H as <- <-.
  assert (∃ l2 more, content ++ l2 = content' ++ more ∧ took r1 l2 r3) as (l2 & more & Hl2 & H2).
  { destruct (header_value hs "Content-Length") as [cl|].
    - apply sbind_ok_inv in Hb as (expected & r4 & [= _ <-] & Hb).
      apply sbind_ok_inv in Hb as (c2 & r4 & (l2 & -> & H2)%read_body_took & [= <- <-]).
      exists l2, (drop (Z.to_nat expected) (content ++ l2)). by rewrite take_drop.
    - destruct (is_chunked hs).
      + apply sbind_ok_inv in Hb as (c2 & r4 & (l2 & -> & H2)%read_chunked_body_took & [= <- <-]).
        destruct (chunked_body_end (content ++ l2)) as [e|]; [|by exists l2, []; rewrite app_nil_r].
        exists l2, (drop (Z.to_nat e) (content ++ l2)). by rewrite take_drop.
      + injection Hb as <- <-. by exists [], []. }
  exists (l1 ++ l2). split; [unfold took in *; by rewrite H1, H2, app_assoc|]. exists head, more. cbn.
  split; [rewrite <- Hl2, app_assoc; f_equal; rewrite <- Hhead, <- Hcontent; by rewrite take_drop|].
  destruct (position_bytes_app _ _ l2 _ Ei) as (-> & _). split; [|done]. cbn [option_map]. rewrite Hp. f_equal.
  rewrite <- Hhead. unfold len in *. rewrite length_take. lia.
Qed.

(** What an exchange leaves: the request, whole, and an answer that was received
    behind it. *)
Lemma do_http_request_ok host method path hs content s response s' :
  do_http_request host method path hs content s = (Ok response, s') →
  written (conn_w s') = written (conn_w s) ++ as_bytes (request_head host method path hs (len content)) ++ content ∧
  ∃ raw, took (conn_r s) raw (conn_r s') ∧ holds_response raw response.
Proof.
  unfold do_http_request. destruct (http_send host method path hs content (conn_w s)) as [sent w] eqn:Es.
  intros ([] & s1 & [= -> <-] & H)%sbind_ok_inv. cbn [conn_r] in H. apply http_send_writes in Es.
  destruct (http_receive (conn_r s)) as [r k] eqn:Er. injection H as -> <-. split; [done|]. cbn [conn_r].
  by apply receive_took.
Qed.

(** Whatever a server sends, and however the connection breaks,
    [http_receive] answers a response or an error: its loops end and no slice
    is out of range. *)
Theorem http_receive_returns r : returns (fst (http_receive r)).
Proof. apply receive_returns. Qed.

(** The search for the end of a chunked body: a last chunk with nothing before
    it is not found, and one inside the data of another chunk is. *)
Theorem chunked_body_end_misses :
  chunked_body_end (as_bytes ("0" +:+ crlf +:+ crlf)) = None ∧
  chunked_body_end (as_bytes ("8" +:+ crlf +:+ "a" +:+ crlf +:+ "0" +:+ crlf +:+ "bc" +:+ crlf +:+ "0" +:+ crlf +:+ crlf))
    = Some 9.
Proof. split; reflexivity. Qed.
