(* ===== verification/Portal.v ===== *)
(** * [auth/portal.rs]: the configuration of the tunnel

    The scanners over the XML document of the gateway, the configuration they
    extract, and the requests that allocate the tunnel, fetch the document and
    log out.  An offset into the document is the text from it on; what is only
    logged is left out. *)

From S2P Require Import Prelude Stream RustStd Config Http.

#[local] Open Scope string_scope.
#[local] Open Scope list_scope.
#[local] Open Scope Z_scope.

Record Ipv4Route := {
  destination : str;
  mask : str;
  route_gateway : option str;
}.

#[export] Instance Ipv4Route_eq_dec : EqDecision Ipv4Route.
Proof. solve_decision. Defined.

Record VpnConfigXml := {
  raw_xml : str;
  gateway : option str;
  assigned_ip : option str;
  dns_servers : list str;
  dns_suffix : option str;
  split_routes : list Ipv4Route;
}.

Definition double_quote : ascii := ascii_of_u8 34.
Definition single_quote : ascii := ascii_of_u8 39.

(** [starts_with(c)] *)
Definition begins_with (c : ascii) (s : str) : bool :=
  match s with String d _ => Ascii.eqb d c | EmptyString => false end.

(** ** The scanners *)

(** What may follow the name in a tag. *)
Definition tag_boundary (s : str) : bool :=
  match s with
  | EmptyString => true
  | String c _ => is_ascii_whitespace c || Ascii.eqb c "/"%char || Ascii.eqb c ">"%char
  end.

(** One round per [<] of the document. *)
Fixpoint start_tags_fuel (fuel : nat) (tag xml : str) : list str :=
  match fuel with
  | O => []
  | S fuel =>
      match split_once "<"%char xml with
      | None => []
      | Some (_, after_lt) =>
          if begins_with "/"%char after_lt || begins_with "!"%char after_lt
             || begins_with "?"%char after_lt
          then start_tags_fuel fuel tag after_lt
          else
            match strip_prefix tag after_lt with
            | Some after_name =>
                if tag_boundary after_name then
                  match split_once ">"%char after_name with
                  | Some (attrs, rest) => (tag +:+ attrs) :: start_tags_fuel fuel tag rest
                  | None => []
                  end
                else start_tags_fuel fuel tag after_lt
            | None => start_tags_fuel fuel tag after_lt
            end
      end
  end.
Definition start_tags (xml tag : str) : list str := start_tags_fuel (S (String.length xml)) tag xml.

Definition close_tag (tag : str) : str := "</" +:+ tag +:+ ">".

Fixpoint element_bodies_fuel (fuel : nat) (tag xml : str) : list str :=
  match fuel with
  | O => []
  | S fuel =>
      match split_once "<"%char xml with
      | None => []
      | Some (_, after_lt) =>
          match strip_prefix tag after_lt with
          | None => element_bodies_fuel fuel tag after_lt
          | Some after_name =>
              if tag_boundary after_name then
                match split_once ">"%char after_name with
                | None => []
                | Some (attrs, body_start) =>
                    if ends_with "/>" (trim_end ("<" +:+ tag +:+ attrs +:+ ">"))
                    then element_bodies_fuel fuel tag body_start
                    else
                      match split_at_str (close_tag tag) body_start with
                      | None => []
                      | Some (body, rest) => body :: element_bodies_fuel fuel tag rest
                      end
                end
              else element_bodies_fuel fuel tag after_lt
          end
      end
  end.
Definition element_bodies (xml tag : str) : list str :=
  element_bodies_fuel (S (String.length xml)) tag xml.

(** The replacements in the order of the code. *)
Definition xml_unescape (value : str) : str :=
  str_replace "&apos;" (String single_quote EmptyString)
    (str_replace "&quot;" (String double_quote EmptyString)
      (str_replace "&amp;" "&" (str_replace "&gt;" ">" (str_replace "&lt;" "<" value)))).

Definition attr_name_end (c : ascii) : bool :=
  is_ascii_whitespace c || Ascii.eqb c "="%char || Ascii.eqb c "/"%char || Ascii.eqb c ">"%char.

(** The loop over the attributes; each round takes at least a character. *)
Fixpoint attr_value_loop (fuel : nat) (attr rest : str) : option str :=
  match fuel with
  | O => None
  | S fuel =>
      if str_is_empty rest then None else
      let rest := trim_start rest in
      if begins_with "/"%char rest then None else
      let '(name, rest) := span_until attr_name_end rest in
      if str_is_empty name then None else
      let rest := trim_start rest in
      match rest with
      | String c rest' =>
          if Ascii.eqb c "="%char then
            match trim_start rest' with
            | EmptyString => None
            | String quote value_rest =>
                if Ascii.eqb quote single_quote || Ascii.eqb quote double_quote then
                  match split_once quote value_rest with
                  | None => None
                  | Some (value, rest) =>
                      if (name =? attr)%string then Some (xml_unescape value)
                      else attr_value_loop fuel attr rest
                  end
                else None
            end
          else attr_value_loop fuel attr rest
      | EmptyString => attr_value_loop fuel attr rest
      end
  end.

Definition attr_value (start_tag attr : str) : option str :=
  match split_once_whitespace (trim_start start_tag) with
  | Some (_, rest) => attr_value_loop (S (String.length rest)) attr rest
  | None => None
  end.

Fixpoint xml_values_fuel (fuel : nat) (tag rest : str) : list str :=
  match fuel with
  | O => []
  | S fuel =>
      match split_at_str ("<" +:+ tag +:+ ">") rest with
      | None => []
      | Some (_, value_start) =>
          match split_at_str (close_tag tag) value_start with
          | None => []
          | Some (value, rest) => xml_unescape (trim value) :: xml_values_fuel fuel tag rest
          end
      end
  end.
Definition xml_values (xml tag : str) : list str := xml_values_fuel (S (String.length xml)) tag xml.

Definition first_xml_value (xml tag : str) : option str := head (xml_values xml tag).

Definition tag_attr_values (xml tag attr : str) : list str :=
  omap (λ start_tag, attr_value start_tag attr) (start_tags xml tag).

Definition first_tag_attr (xml tag attr : str) : option str := head (tag_attr_values xml tag attr).

Definition split_route (gateway : option str) (start_tag : str) : option Ipv4Route :=
  destination ← attr_value start_tag "ip";
  mask ← attr_value start_tag "mask";
  Some {| destination := destination; mask := mask; route_gateway := gateway |}.

Definition parse_split_routes (xml : str) (gateway : option str) : list Ipv4Route :=
  omap (split_route gateway)
    (concat (map (λ body, start_tags body "addr") (element_bodies xml "split-tunnel-info"))).

(** [or_else] *)
Definition or_else {A} (a b : option A) : option A := match a with Some _ => a | None => b end.

Definition parse_vpn_config_xml (raw_xml : str) : VpnConfigXml :=
  let gateway := first_tag_attr raw_xml "assigned-addr" "ipv4" in
  let assigned_ip :=
    or_else (or_else (or_else gateway (first_xml_value raw_xml "assigned-addr"))
      (first_xml_value raw_xml "ip")) (first_xml_value raw_xml "addr") in
  let dns_servers := tag_attr_values raw_xml "dns" "ip" ++ xml_values raw_xml "dns-server" in
  let dns_servers := match dns_servers with [] => xml_values raw_xml "dns" | _ => dns_servers end in
  let dns_suffix :=
    or_else (or_else (first_tag_attr raw_xml "dns" "domain") (first_xml_value raw_xml "dns-suffix"))
      (first_xml_value raw_xml "domain") in
  {| raw_xml := raw_xml; gateway := gateway; assigned_ip := assigned_ip; dns_servers := dns_servers;
     dns_suffix := dns_suffix; split_routes := parse_split_routes raw_xml gateway |}.

(** ** The requests *)

Definition http_host (config : Config) : str :=
  if gateway_port config =? 443 then gateway_host config
  else gateway_host config +:+ ":" +:+ print_uint (gateway_port config).

Definition valid_redirect_path (path : option str) : option str :=
  match path with
  | Some p => if begins_with "/"%char p && negb (starts_with "//" p) then path else None
  | None => None
  end.

Definition unexpected_status (path : str) (response : HttpResponse) : OpenfortivpnError :=
  HttpProtocol (path +:+ ": unexpected HTTP status: " +:+ print_uint (status_code response)
    +:+ " " +:+ reason response).

Definition ensure_success (path : str) (response : HttpResponse) : result unit :=
  if (200 <=? status_code response) && (status_code response <? 300) then Ok tt
  else Err (unexpected_status path response).

(** A [GET] of the session, whose answer must be a success. *)
Definition session_headers (config : Config) (cookie : str) : list header :=
  [("Cookie", cookie); ("User-Agent", user_agent config)].

Definition get_success (config : Config) (cookie path : str) (s : connection) : result unit * connection :=
  let! response & s := do_http_request (http_host config) "GET" path (session_headers config cookie) [] s in
  lift (ensure_success path response) s.

Definition request_vpn_allocation (config : Config) (cookie : str) (portal_redirect : option str)
    (s : connection) : result unit * connection :=
  let! _ & s :=
    match valid_redirect_path portal_redirect with
    | Some path => get_success config cookie path s
    | None => get_success config cookie "/remote/index" s
    end in
  let! _ & s := get_success config cookie "/remote/fortisslvpn" s in
  (Ok tt, s).

Definition get_vpn_config (config : Config) (cookie : str) (s : connection)
    : result VpnConfigXml * connection :=
  let! response & s :=
    do_http_request (http_host config) "GET" "/remote/fortisslvpn_xml" (session_headers config cookie) [] s in
  let! _ & s := lift (ensure_success "/remote/fortisslvpn_xml" response) s in
  let! raw_xml & s := lift (ok_or (body_as_str response) (HttpProtocol "VPN config XML is not UTF-8")) s in
  (Ok (parse_vpn_config_xml raw_xml), s).

Definition log_out (config : Config) (cookie : str) (s : connection) : result unit * connection :=
  get_success config cookie "/remote/logout" s.

(** ** Documents

    A document as a gateway writes it: start tags with double-quoted
    attributes, end tags and text. *)

Inductive token :=
  | Start (name : str) (attrs : list (str * str)) (empty : bool)
  | End_ (name : str)
  | Text (t : str).

Definition attr_text (a : str * str) : str :=
  fst a +:+ "=" +:+ String double_quote (snd a +:+ String double_quote EmptyString).

Definition attrs_text (l : list (str * str)) : str :=
  foldr (λ a acc, " " +:+ attr_text a +:+ acc) EmptyString l.

Definition slash (empty : bool) : str := if empty then "/" else "".

Definition tag_text (name : str) (attrs : list (str * str)) (empty : bool) : str :=
  name +:+ attrs_text attrs +:+ slash empty.

Definition render_token (t : token) : str :=
  match t with
  | Start name attrs empty => "<" +:+ tag_text name attrs empty +:+ ">"
  | End_ name => close_tag name
  | Text t => t
  end.

Definition render (l : list token) : str := foldr (λ t acc, render_token t +:+ acc) EmptyString l.

Definition name_char (c : ascii) : bool :=
  let b := u8_of_ascii c in
  in_range 97 122 b || in_range 65 90 b || in_range 48 57 b || (b =? 45).
Definition is_name (s : str) : Prop := s ≠ EmptyString ∧ all_chars name_char s = true.

(** No markup in a value. *)
Definition value_char (c : ascii) : bool :=
  negb (Ascii.eqb c "<"%char) && negb (Ascii.eqb c ">"%char) && negb (Ascii.eqb c "&"%char)
  && negb (Ascii.eqb c double_quote).
Definition attr_ok (a : str * str) : Prop := is_name (fst a) ∧ all_chars value_char (snd a) = true.

Definition token_ok (t : token) : Prop :=
  match t with
  | Start name attrs _ => is_name name ∧ Forall attr_ok attrs
  | End_ name => is_name name
  | Text t => all_chars (λ c, negb (Ascii.eqb c "<"%char)) t = true
  end.

Definition token_name (t : token) : option str :=
  match t with Start name _ _ | End_ name => Some name | Text _ => None end.

(** The attribute of a start tag. *)
Definition lookup_attr (attrs : list (str * str)) (attr : str) : option str :=
  snd <$> List.find (λ a, (fst a =? attr)%string) attrs.

(** The values of an attribute in the start tags of a name. *)
Definition token_attrs (name : str) (t : token) : option (list (str * str)) :=
  match t with
  | Start n attrs _ => if (n =? name)%string then Some attrs else None
  | _ => None
  end.

Definition attr_of (name attr : str) (t : token) : option str :=
  attrs ← token_attrs name t; lookup_attr attrs attr.

Definition route_of (gateway : option str) (t : token) : option Ipv4Route :=
  destination ← attr_of "addr" "ip" t; mask ← attr_of "addr" "mask" t;
  Some {| destination := destination; mask := mask; route_gateway := gateway |}.

(** The tags whose text is a fall-back of the attributes. *)
Definition text_tags : list str :=
  ["assigned-addr"; "ip"; "addr"; "dns-server"; "dns"; "dns-suffix"; "domain"].
Definition attribute_style (t : token) : Prop := ∀ name, name ∈ text_tags → t ≠ Start name [] false.

(** *** Strings *)

Abbreviation no_char c := (all_chars (λ d, negb (Ascii.eqb d c))).

Lemma cons_app c (s t : str) : String c s +:+ t = String c (s +:+ t).
Proof. done. Qed.

Lemma app_empty_r (s : str) : s +:+ "" = s.
Proof. induction s as [|c s IH]; [done|]. by rewrite cons_app, IH. Qed.

Lemma str_length_app (a b : str) : String.length (a +:+ b) = (String.length a + String.length b)%nat.
Proof. induction a as [|c a IH]; [done|]. rewrite cons_app. cbn [String.length]. lia. Qed.

Lemma split_once_length c s a b : split_once c s = Some (a, b) → (String.length b < String.length s)%nat.
Proof.
  revert a b. induction s as [|d s IH]; intros a b; cbn [split_once]; [done|].
  case_match; [intros [= _ <-]; simpl; lia|].
  destruct (split_once c s) as [[x y]|]; [|done]. intros [= _ <-]. specialize (IH _ _ eq_refl). simpl. lia.
Qed.

Lemma strip_prefix_length p s r : strip_prefix p s = Some r → (String.length r <= String.length s)%nat.
Proof.
  revert s. induction p as [|c p IH]; intros [|d s]; cbn [strip_prefix]; try done.
  - by intros [= <-].
  - by intros [= <-].
  - case_match; [|done]. intros H'%IH. simpl. lia.
Qed.

Lemma split_at_str_length p s a b : split_at_str p s = Some (a, b) → (String.length b <= String.length s)%nat.
Proof.
  revert a b. induction s as [|c s IH]; intros a b; cbn [split_at_str].
  - destruct (strip_prefix p "") eqn:E; [|done]. intros [= _ <-]. by apply strip_prefix_length in E.
  - destruct (strip_prefix p (String c s)) eqn:E; [intros [= _ <-]; by apply strip_prefix_length in E|].
    destruct (split_at_str p s) as [[x y]|]; [|done]. intros [= _ <-]. specialize (IH _ _ eq_refl). simpl. lia.
Qed.

Lemma split_once_skip c a s :
  no_char c a = true → split_once c (a +:+ s) = prod_map (λ x, a +:+ x) id <$> split_once c s.
Proof.
  induction a as [|d a IH]; intros H.
  - change ("" +:+ s) with s. destruct (split_once c s) as [[]|]; done.
  - cbn [all_chars] in H. apply andb_true_iff in H as [H1%negb_true_iff H2].
    rewrite cons_app. cbn [split_once]. rewrite H1, IH by done. destruct (split_once c s) as [[]|]; done.
Qed.

Lemma split_at_str_skip c p a s :
  no_char c a = true →
  split_at_str (String c p) (a +:+ s) = prod_map (λ x, a +:+ x) id <$> split_at_str (String c p) s.
Proof.
  induction a as [|d a IH]; intros H.
  - change ("" +:+ s) with s. destruct (split_at_str (String c p) s) as [[]|]; done.
  - cbn [all_chars] in H. apply andb_true_iff in H as [H1%negb_true_iff H2].
    rewrite cons_app. cbn [split_at_str strip_prefix]. rewrite Ascii.eqb_sym, H1, IH by done.
    destruct (split_at_str (String c p) s) as [[]|]; done.
Qed.

(** *** The scanners round by round

    The fuel is the length of the text, and every round takes a character. *)

Ltac shorter :=
  repeat match goal with
  | H : split_once _ _ = Some _ |- _ => apply split_once_length in H
  | H : strip_prefix _ _ = Some _ |- _ => apply strip_prefix_length in H
  | H : split_at_str _ _ = Some _ |- _ => apply split_at_str_length in H
  end; lia.

Lemma start_tags_enough tag n m xml :
  (String.length xml < n)%nat → (String.length xml < m)%nat →
  start_tags_fuel n tag xml = start_tags_fuel m tag xml.
Proof.
  revert m xml. induction n as [|n IH]; intros [|m] xml Hn Hm; [lia..|]. cbn [start_tags_fuel].
  destruct (split_once "<" xml) as [[a s]|] eqn:E; [|done].
  case_match; [apply IH; shorter|].
  destruct (strip_prefix tag s) as [r|] eqn:Er; [|apply IH; shorter].
  case_match; [|apply IH; shorter].
  destruct (split_once ">" r) as [[b t]|] eqn:Et; [|done]. f_equal. apply IH; shorter.
Qed.

Lemma element_bodies_enough tag n m xml :
  (String.length xml < n)%nat → (String.length xml < m)%nat →
  element_bodies_fuel n tag xml = element_bodies_fuel m tag xml.
Proof.
  revert m xml. induction n as [|n IH]; intros [|m] xml Hn Hm; [lia..|]. cbn [element_bodies_fuel].
  destruct (split_once "<" xml) as [[a s]|] eqn:E; [|done].
  destruct (strip_prefix tag s) as [r|] eqn:Er; [|apply IH; shorter].
  case_match; [|apply IH; shorter].
  destruct (split_once ">" r) as [[b t]|] eqn:Et; [|done].
  case_match; [apply IH; shorter|].
  destruct (split_at_str _ t) as [[c u]|] eqn:Eu; [|done]. f_equal. apply IH; shorter.
Qed.

Lemma start_tags_round xml tag :
  start_tags xml tag =
    match split_once "<"%char xml with
    | None => []
    | Some (_, after_lt) =>
        if begins_with "/"%char after_lt || begins_with "!"%char after_lt
           || begins_with "?"%char after_lt
        then start_tags after_lt tag
        else
          match strip_prefix tag after_lt with
          | Some after_name =>
              if tag_boundary after_name then
                match split_once ">"%char after_name with
                | Some (attrs, rest) => (tag +:+ attrs) :: start_tags rest tag
                | None => []
                end
              else start_tags after_lt tag
          | None => start_tags after_lt tag
          end
    end.
Proof.
  unfold start_tags at 1. cbn [start_tags_fuel].
  destruct (split_once "<" xml) as [[a s]|] eqn:E; [|done].
  case_match; [apply start_tags_enough; shorter|].
  destruct (strip_prefix tag s) as [r|] eqn:Er; [|apply start_tags_enough; shorter].
  case_match; [|apply start_tags_enough; shorter].
  destruct (split_once ">" r) as [[b t]|] eqn:Et; [|done]. f_equal. apply start_tags_enough; shorter.
Qed.

Lemma element_bodies_round xml tag :
  element_bodies xml tag =
    match split_once "<"%char xml with
    | None => []
    | Some (_, after_lt) =>
        match strip_prefix tag after_lt with
        | None => element_bodies after_lt tag
        | Some after_name =>
            if tag_boundary after_name then
              match split_once ">"%char after_name with
              | None => []
              | Some (attrs, body_start) =>
                  if ends_with "/>" (trim_end ("<" +:+ tag +:+ attrs +:+ ">"))
                  then element_bodies body_start tag
                  else
                    match split_at_str (close_tag tag) body_start with
                    | None => []
                    | Some (body, rest) => body :: element_bodies rest tag
                    end
              end
            else element_bodies after_lt tag
        end
    end.
Proof.
  unfold element_bodies at 1. cbn [element_bodies_fuel].
  destruct (split_once "<" xml) as [[a s]|] eqn:E; [|done].
  destruct (strip_prefix tag s) as [r|] eqn:Er; [|apply element_bodies_enough; shorter].
  case_match; [|apply element_bodies_enough; shorter].
  destruct (split_once ">" r) as [[b t]|] eqn:Et; [|done].
  case_match; [apply element_bodies_enough; shorter|].
  destruct (split_at_str _ t) as [[c u]|] eqn:Eu; [|done]. f_equal. apply element_bodies_enough; shorter.
Qed.

(** Text without [<] is skipped. *)
Lemma start_tags_skip a s tag : no_char "<"%char a = true → start_tags (a +:+ s) tag = start_tags s tag.
Proof.
  intros H. rewrite start_tags_round, (start_tags_round s), split_once_skip by done.
  by destruct (split_once "<" s) as [[]|].
Qed.

Lemma element_bodies_skip a s tag :
  no_char "<"%char a = true → element_bodies (a +:+ s) tag = element_bodies s tag.
Proof.
  intros H. rewrite element_bodies_round, (element_bodies_round s), split_once_skip by done.
  by destruct (split_once "<" s) as [[]|].
Qed.

(** *** Tags *)

(** A name is compared whole: what follows it is no name character. *)
Lemma strip_prefix_name tag name rest :
  all_chars name_char tag = true → all_chars name_char name = true →
  (∃ c t, rest = String c t ∧ name_char c = false) →
  match strip_prefix tag (name +:+ rest) with
  | Some after_name => if (name =? tag)%string then after_name = rest else tag_boundary after_name = false
  | None => name ≠ tag
  end.
Proof.
  intros Htag Hname (c & t & -> & Hc). revert name Hname.
  induction tag as [|a tag IH]; intros name Hname.
  - destruct name as [|b name]; [done|]. rewrite cons_app. cbn [strip_prefix].
    change (String b name =? "")%string with false. cbv iota. cbn [tag_boundary].
    cbn [all_chars] in Hname. apply andb_true_iff in Hname as [Hb _].
    apply negb_true_iff, (char_impl name_char (λ b, negb (tag_boundary (String b name)))); [|done].
    vm_compute. reflexivity.
  - cbn [all_chars] in Htag. apply andb_true_iff in Htag as [Ha Htag].
    destruct name as [|b name].
    + change ("" +:+ String c t) with (String c t). cbn [strip_prefix].
      destruct (Ascii.eqb_spec a c) as [->|]; [congruence|done].
    + cbn [all_chars] in Hname. apply andb_true_iff in Hname as [Hb Hname].
      rewrite cons_app. cbn [strip_prefix]. destruct (Ascii.eqb_spec a b) as [->|Hne]; [|congruence].
      specialize (IH Htag name Hname). cbn [String.eqb]. rewrite Ascii.eqb_refl.
      destruct (strip_prefix tag _); [done|congruence].
Qed.

Lemma name_no_char c name :
  all_u8 (λ b, implb (name_char (ascii_of_u8 b)) (negb (Ascii.eqb (ascii_of_u8 b) c))) = true →
  all_chars name_char name = true → no_char c name = true.
Proof. intros H. apply (chars_impl name_char (λ d, negb (Ascii.eqb d c))), H. Qed.

Lemma attrs_no_char c attrs :
  all_u8 (λ b, implb (name_char (ascii_of_u8 b) || value_char (ascii_of_u8 b)) (negb (Ascii.eqb (ascii_of_u8 b) c))) = true →
  no_char c (" =" +:+ String double_quote EmptyString) = true →
  Forall attr_ok attrs → no_char c (attrs_text attrs) = true.
Proof.
  intros Hc Hq. induction 1 as [|[n v] attrs [[_ Hn] Hv] _ IH]; [done|].
  cbn [attrs_text foldr]. fold (attrs_text attrs). unfold attr_text. cbn [fst snd] in *.
  rewrite !all_chars_app, IH. cbn [all_chars]. rewrite all_chars_app. cbn [all_chars].
  cbn [all_chars String.append] in Hq. change (" =" +:+ String double_quote "") with (String " " (String "=" (String double_quote ""))) in Hq.
  cbn [all_chars] in Hq.
  assert (no_char c n = true) as ->.
  { apply (chars_impl name_char (λ d, negb (Ascii.eqb d c))); [|done].
    revert Hc. unfold all_u8. rewrite !forallb_forall. intros Hc b Hb. specialize (Hc b Hb).
    by destruct (name_char (ascii_of_u8 b)). }
  assert (no_char c v = true) as ->.
  { apply (chars_impl value_char (λ d, negb (Ascii.eqb d c))); [|done].
    revert Hc. unfold all_u8. rewrite !forallb_forall. intros Hc b Hb. specialize (Hc b Hb).
    destruct (value_char (ascii_of_u8 b)); [|done]. by rewrite orb_true_r in Hc. }
  by destruct (negb (Ascii.eqb " " c)), (negb (Ascii.eqb "=" c)), (negb (Ascii.eqb double_quote c)).
Qed.

Lemma tag_text_no_char c name attrs empty :
  c = "<"%char ∨ c = ">"%char → is_name name → Forall attr_ok attrs →
  no_char c (tag_text name attrs empty) = true.
Proof.
  intros Hc [_ Hn] Ha. unfold tag_text. rewrite !all_chars_app, andb_true_iff, andb_true_iff.
  destruct Hc as [->| ->]; (split; [apply name_no_char; [vm_compute; reflexivity|done]|]);
    (split; [apply attrs_no_char; [vm_compute; reflexivity|done..]|by destruct empty]).
Qed.

(** What follows the name of a tag starts with a blank, a slash or the end. *)
Lemma after_name_head attrs empty rest :
  ∃ c t, (attrs_text attrs +:+ slash empty) +:+ ">" +:+ rest = String c t ∧ name_char c = false ∧
    tag_boundary (String c t) = true.
Proof.
  destruct attrs as [|a attrs].
  - destruct empty; eexists _, _; (split; [reflexivity|done]).
  - cbn [attrs_text foldr]. eexists _, _; (split; [reflexivity|done]).
Qed.

Lemma begins_with_name name rest :
  is_name name →
  (begins_with "/" (name +:+ rest) || begins_with "!" (name +:+ rest) || begins_with "?" (name +:+ rest))%char = false.
Proof.
  intros [Hne Hn]. destruct name as [|c name]; [done|]. rewrite cons_app. cbn [begins_with].
  cbn [all_chars] in Hn. apply andb_true_iff in Hn as [Hc _]. apply negb_true_iff. revert Hc.
  apply (char_impl name_char (λ c, negb (Ascii.eqb c "/" || Ascii.eqb c "!" || Ascii.eqb c "?")%char)).
  vm_compute. reflexivity.
Qed.

Lemma split_once_here c s : split_once c (String c s) = Some ("", s).
Proof. cbn [split_once]. by rewrite Ascii.eqb_refl. Qed.

Lemma split_once_tag name attrs empty rest :
  is_name name → Forall attr_ok attrs →
  split_once ">"%char ((attrs_text attrs +:+ slash empty) +:+ ">" +:+ rest) = Some (attrs_text attrs +:+ slash empty, rest).
Proof.
  intros Hn Ha. apply split_once_app.
  assert (no_char ">" (tag_text name attrs empty) = true)%char as H by (apply tag_text_no_char; auto).
  unfold tag_text in H. rewrite all_chars_app in H. by apply andb_true_iff in H as [_ H].
Qed.

Lemma render_start name attrs empty s :
  render_token (Start name attrs empty) +:+ s =
    String "<" (name +:+ (attrs_text attrs +:+ slash empty) +:+ ">" +:+ s).
Proof. cbn [render_token]. unfold tag_text. rewrite !str_app_assoc. done. Qed.

Lemma render_end name s : render_token (End_ name) +:+ s = String "<" (("/" +:+ name +:+ ">") +:+ s).
Proof. cbn [render_token]. unfold close_tag. rewrite !str_app_assoc. done. Qed.

Lemma end_no_lt name : is_name name → no_char "<"%char ("/" +:+ name +:+ ">") = true.
Proof.
  intros [_ Hn]. rewrite !all_chars_app. cbn [all_chars].
  rewrite (name_no_char "<"%char) by (done || (vm_compute; reflexivity)). reflexivity.
Qed.

Lemma after_start_no_lt name attrs empty :
  is_name name → Forall attr_ok attrs →
  no_char "<"%char (name +:+ (attrs_text attrs +:+ slash empty) +:+ ">") = true.
Proof.
  intros Hn Ha. pose proof (tag_text_no_char "<"%char name attrs empty (or_introl eq_refl) Hn Ha) as H.
  unfold tag_text in H. rewrite !all_chars_app in *. by rewrite !andb_assoc in *; rewrite H.
Qed.

(** The start tags of a name are those of the tokens. *)
Lemma start_tags_render tag l :
  is_name tag → Forall token_ok l →
  start_tags (render l) tag =
    omap (λ t, match t with
               | Start n attrs empty => if (n =? tag)%string then Some (tag_text n attrs empty) else None
               | _ => None end) l.
Proof.
  intros [Htne Htag]. induction 1 as [|t l Ht Hl IH]; [done|].
  cbn [render foldr]. fold (render l). destruct t as [name attrs empty|name|t]; cbn [token_ok] in Ht.
  - destruct Ht as [Hn Ha]. rewrite render_start, start_tags_round, split_once_here.
    rewrite begins_with_name by done. cbn [omap list_omap].
    destruct (after_name_head attrs empty (render l)) as (c & u & Hrest & Hc & Hb).
    pose proof (strip_prefix_name tag name ((attrs_text attrs +:+ slash empty) +:+ ">" +:+ render l)
      Htag (proj2 Hn)) as Hsp.
    assert (start_tags (name +:+ (attrs_text attrs +:+ slash empty) +:+ ">" +:+ render l) tag = start_tags (render l) tag) as Hskip.
    { rewrite <- (start_tags_skip (name +:+ (attrs_text attrs +:+ slash empty) +:+ ">") (render l)).
      - by rewrite !str_app_assoc.
      - by apply after_start_no_lt. }
    destruct (strip_prefix tag _) as [r|].
    + specialize (Hsp ltac:(eauto)). destruct (String.eqb_spec name tag) as [->|Hne].
      * subst r. rewrite Hrest, Hb, <- Hrest, (split_once_tag tag) by done.
        f_equal. apply IH.
      * rewrite Hsp, Hskip. apply IH.
    + specialize (Hsp ltac:(eauto)). destruct (String.eqb_spec name tag) as [->|Hne]; [done|].
      rewrite Hskip. apply IH.
  - rewrite render_end, start_tags_round, split_once_here.
    change (begins_with "/" (("/" +:+ name +:+ ">") +:+ render l))%char with true. cbv iota.
    cbn [orb]. rewrite start_tags_skip by by apply end_no_lt. apply IH.
  - cbn [render_token]. rewrite start_tags_skip by done. apply IH.
Qed.

(** A search for markup skips the tokens that do not start with it. *)
Lemma split_at_str_token p t s :
  token_ok t →
  (∀ u, token_name t ≠ None → render_token t +:+ s = String "<" u → strip_prefix p u = None) →
  split_at_str (String "<" p) (render_token t +:+ s) =
    prod_map (λ x, render_token t +:+ x) id <$> split_at_str (String "<" p) s.
Proof.
  intros Ht Hp. destruct t as [name attrs empty|name|t]; cbn [token_ok] in Ht.
  - rewrite render_start in *. specialize (Hp _ ltac:(done) eq_refl). cbn [split_at_str strip_prefix].
    rewrite Ascii.eqb_refl, Hp. destruct Ht as [Hn Ha].
    pose proof (split_at_str_skip "<" p _ s (after_start_no_lt name attrs empty Hn Ha)) as H.
    rewrite !str_app_assoc in H. rewrite <- !str_app_assoc in *. rewrite H.
    destruct (split_at_str _ s) as [[a b]|]; [|done]. cbn. unfold tag_text. f_equal. f_equal.
    by rewrite !str_app_assoc.
  - rewrite render_end in *. specialize (Hp _ ltac:(done) eq_refl). cbn [split_at_str strip_prefix].
    rewrite Ascii.eqb_refl, Hp, (split_at_str_skip "<" p _ s (end_no_lt name Ht)).
    destruct (split_at_str _ s) as [[a b]|]; [|done]; done.
  - by apply split_at_str_skip.
Qed.

Lemma strip_prefix_app_l p q s : strip_prefix (p +:+ q) s = strip_prefix p s ≫= strip_prefix q.
Proof.
  revert s. induction p as [|c p IH]; intros s; [by destruct s|].
  rewrite cons_app. destruct s as [|d s]; [done|]. cbn [strip_prefix]. case_match; [apply IH|done].
Qed.

Lemma strip_prefix_other_head c p d s : c ≠ d → strip_prefix (String c p) (String d s) = None.
Proof. intros Hne. cbn [strip_prefix]. by destruct (Ascii.eqb_spec c d). Qed.

Lemma name_head name c :
  is_name name → name_char c = false → ∃ d t, name = String d t ∧ d ≠ c.
Proof.
  intros [Hne Hn] Hc. destruct name as [|d t]; [done|]. exists d, t. split; [done|]. intros ->.
  cbn [all_chars] in Hn. rewrite Hc in Hn. done.
Qed.

(** [<tag>] is found at no start tag but the bare one of that name. *)
Lemma strip_open_tag tag name attrs empty s :
  is_name tag → is_name name → Start name attrs empty ≠ Start tag [] false →
  strip_prefix (tag +:+ ">") (name +:+ (attrs_text attrs +:+ slash empty) +:+ ">" +:+ s) = None.
Proof.
  intros [_ Htag] [_ Hn] Hne. rewrite strip_prefix_app_l.
  destruct (after_name_head attrs empty s) as (c & u & Hrest & Hc & Hb).
  pose proof (strip_prefix_name tag name ((attrs_text attrs +:+ slash empty) +:+ ">" +:+ s) Htag Hn
    ltac:(eauto)) as Hsp.
  destruct (strip_prefix tag _) as [r|]; [|done]. cbn [mbind option_bind].
  destruct (String.eqb_spec name tag) as [->|Hnt].
  - subst r. destruct attrs as [|a attrs]; [|done]. by destruct empty.
  - destruct r as [|d r]; [done|]. cbn [tag_boundary] in Hsp. apply orb_false_iff in Hsp as [_ Hd].
    cbn [strip_prefix]. by rewrite Ascii.eqb_sym, Hd.
Qed.

Lemma strip_close_tag tag name s :
  is_name tag → is_name name → name ≠ tag → strip_prefix (tag +:+ ">") (name +:+ ">" +:+ s) = None.
Proof.
  intros Ht Hn Hne. exact (strip_open_tag tag name [] false s Ht Hn ltac:(congruence)).
Qed.

Lemma open_tag_absent tag l :
  is_name tag → Forall token_ok l → Forall (λ t, t ≠ Start tag [] false) l →
  split_at_str ("<" +:+ tag +:+ ">") (render l) = None.
Proof.
  intros Htag Hl Hb. change ("<" +:+ tag +:+ ">") with (String "<" (tag +:+ ">")).
  induction Hl as [|t l Ht Hl IH]; [done|]. inversion Hb; subst.
  cbn [render foldr]. fold (render l). rewrite split_at_str_token, IH; [done..|].
  intros u Hname Hu. destruct t as [name attrs empty|name|t]; cbn [token_ok] in Ht; [..|done].
  - rewrite render_start in Hu. injection Hu as <-. destruct Ht. by apply strip_open_tag.
  - rewrite render_end in Hu. injection Hu as <-.
    destruct (name_head tag "/"%char Htag eq_refl) as (d & x & -> & Hd). by apply strip_prefix_other_head.
Qed.

Lemma xml_values_absent tag l :
  is_name tag → Forall token_ok l → Forall (λ t, t ≠ Start tag [] false) l → xml_values (render l) tag = [].
Proof. intros. unfold xml_values. cbn [xml_values_fuel]. by rewrite open_tag_absent. Qed.

(** The end tag of an element is found behind its body. *)
Lemma close_tag_found tag l s :
  is_name tag → Forall token_ok l → Forall (λ t, token_name t ≠ Some tag) l →
  split_at_str (close_tag tag) (render l +:+ close_tag tag +:+ s) = Some (render l, s).
Proof.
  intros Htag Hl Hb. change (close_tag tag) with (String "<" ("/" +:+ tag +:+ ">")).
  induction Hl as [|t l Ht Hl IH].
  - change (render [] +:+ String "<" ("/" +:+ tag +:+ ">") +:+ s) with (String "<" ("/" +:+ tag +:+ ">") +:+ s).
    pose proof (strip_prefix_app (String "<" ("/" +:+ tag +:+ ">")) s) as H.
    destruct (String "<" _ +:+ s) eqn:E; cbn [split_at_str]; by rewrite H.
  - inversion Hb as [|? ? Hnt Hb']; subst. cbn [render foldr]. fold (render l).
    rewrite str_app_assoc, split_at_str_token, IH; [done..|].
    intros u Hname Hu. destruct t as [name attrs empty|name|t]; cbn [token_ok] in Ht; [..|done].
    + rewrite render_start in Hu. injection Hu as <-.
      destruct (name_head name "/"%char (proj1 Ht) eq_refl) as (d & x & -> & Hd).
      rewrite cons_app. by apply strip_prefix_other_head.
    + rewrite render_end in Hu. injection Hu as <-. rewrite !str_app_assoc.
      change ("/" +:+ name +:+ ">" +:+ ?s) with (String "/" (name +:+ ">" +:+ s)).
      change ("/" +:+ tag +:+ ">") with (String "/" (tag +:+ ">")). cbn [strip_prefix].
      rewrite Ascii.eqb_refl. apply strip_close_tag; [done..|]. cbn [token_name] in Hnt. congruence.
Qed.

(** The bodies of an element: the tokens around it are skipped. *)
Lemma element_bodies_token tag t s :
  is_name tag → token_ok t → token_name t ≠ Some tag → element_bodies (render_token t +:+ s) tag = element_bodies s tag.
Proof.
  intros [Hne Htag] Ht Hnt. destruct t as [name attrs empty|name|t]; cbn [token_ok token_name] in *.
  - destruct Ht as [Hn Ha]. rewrite render_start, element_bodies_round, split_once_here.
    destruct (after_name_head attrs empty s) as (c & u & Hrest & Hc & Hb).
    pose proof (strip_prefix_name tag name ((attrs_text attrs +:+ slash empty) +:+ ">" +:+ s)
      Htag (proj2 Hn) ltac:(eauto)) as Hsp.
    assert (element_bodies (name +:+ (attrs_text attrs +:+ slash empty) +:+ ">" +:+ s) tag = element_bodies s tag) as Hskip.
    { rewrite <- (element_bodies_skip (name +:+ (attrs_text attrs +:+ slash empty) +:+ ">") s).
      - by rewrite !str_app_assoc.
      - by apply after_start_no_lt. }
    destruct (strip_prefix tag _) as [r|]; [|done].
    destruct (String.eqb_spec name tag) as [->|Hne']; [done|]. by rewrite Hsp.
  - rewrite render_end, element_bodies_round, split_once_here, str_app_assoc.
    destruct (name_head tag "/"%char (conj Hne Htag) eq_refl) as (d & x & -> & Hd).
    change ("/" +:+ (name +:+ ">") +:+ s) with (String "/" ((name +:+ ">") +:+ s)).
    rewrite strip_prefix_other_head by done.
    change (String "/" ((name +:+ ">") +:+ s)) with (("/" +:+ (name +:+ ">")) +:+ s).
    apply element_bodies_skip. by apply end_no_lt.
  - by apply element_bodies_skip.
Qed.

Lemma element_bodies_tokens tag l s :
  is_name tag → Forall token_ok l → Forall (λ t, token_name t ≠ Some tag) l →
  element_bodies (render l +:+ s) tag = element_bodies s tag.
Proof.
  intros Htag. induction 1 as [|t l Ht Hl IH]; intros Hb; [done|]. inversion Hb; subst.
  cbn [render foldr]. fold (render l). rewrite str_app_assoc, element_bodies_token by done. auto.
Qed.

(** *** Attributes *)

Lemma trim_start_visible c s : visible (u8_of_ascii c) = true → trim_start (String c s) = String c s.
Proof.
  intros Hc. unfold trim_start. cbn [as_bytes]. rewrite trim_start_id by done.
  exact (string_of_as_bytes (String c s)).
Qed.

Lemma trim_start_blank c s :
  visible (u8_of_ascii c) = true → trim_start (String " " (String c s)) = String c s.
Proof.
  intros Hc. unfold trim_start, trim_start_bytes. cbn [as_bytes length drop_white].
  change (white_prefix (u8_of_ascii " " :: ?l)) with 1%nat. cbn [drop drop_white]. unfold white_prefix. cbn [nth].
  destruct (visible_not_white (u8_of_ascii c) (nth 0 (as_bytes s) 0) (nth 1 (as_bytes s) 0) Hc) as (H1 & H2 & H3).
  rewrite H1, H2, H3. exact (string_of_as_bytes (String c s)).
Qed.

Lemma name_visible c : name_char c = true → visible (u8_of_ascii c) = true.
Proof. apply (char_impl name_char (λ c, visible (u8_of_ascii c))). vm_compute. reflexivity. Qed.

Lemma trim_start_name name s : is_name name → trim_start (name +:+ s) = name +:+ s.
Proof.
  intros [Hne Hn]. destruct name as [|c name]; [done|]. rewrite cons_app. apply trim_start_visible.
  apply name_visible. cbn [all_chars] in Hn. by apply andb_true_iff in Hn as [? _].
Qed.

Lemma span_until_stop p a c s :
  all_chars (λ c, negb (p c)) a = true → p c = true → span_until p (a +:+ String c s) = (a, String c s).
Proof.
  intros Ha Hc. induction a as [|d a IH].
  - change ("" +:+ String c s) with (String c s). cbn [span_until]. by rewrite Hc.
  - cbn [all_chars] in Ha. apply andb_true_iff in Ha as [Hd%negb_true_iff Ha]. rewrite cons_app.
    cbn [span_until]. by rewrite Hd, IH.
Qed.

Lemma xml_unescape_plain v : no_char "&"%char v = true → xml_unescape v = v.
Proof.
  intros Hv. unfold xml_unescape.
  assert (∀ p by_, str_replace (String "&" p) by_ v = v) as H.
  { intros p by_. unfold str_replace, split_str. cbn [split_str_fuel].
    pose proof (split_at_str_skip "&" p v "" Hv) as Hs. rewrite app_empty_r in Hs. rewrite Hs. apply app_empty_r. }
  by rewrite !H.
Qed.

(** One attribute read by the loop, with a blank before it or not. *)
Lemma attr_value_loop_attr fuel attr n v rest lead :
  attr_ok (n, v) → lead = "" ∨ lead = " " →
  attr_value_loop (S fuel) attr (lead +:+ attr_text (n, v) +:+ rest) =
    if (n =? attr)%string then Some v else attr_value_loop fuel attr rest.
Proof.
  intros [[Hne Hn] Hv] Hlead. cbn [fst snd] in *. cbn [attr_value_loop].
  set (value_rest := v +:+ String double_quote rest).
  assert (attr_text (n, v) +:+ rest = n +:+ String "=" (String double_quote value_rest)) as Ht.
  { unfold attr_text, value_rest. cbn [fst snd]. rewrite str_app_assoc. f_equal.
    change ("=" +:+ ?x) with (String "=" x). rewrite !cons_app. f_equal. f_equal. by rewrite str_app_assoc. }
  assert (trim_start (lead +:+ attr_text (n, v) +:+ rest) = n +:+ String "=" (String double_quote value_rest)) as ->.
  { rewrite Ht. destruct n as [|c n]; [done|]. rewrite cons_app. cbn [all_chars] in Hn.
    apply andb_true_iff in Hn as [Hc _].
    destruct Hlead as [->| ->]; [apply trim_start_visible|apply trim_start_blank]; by apply name_visible. }
  assert (str_is_empty (lead +:+ attr_text (n, v) +:+ rest) = false) as ->.
  { rewrite Ht. destruct Hlead as [->| ->]; [|done]. by destruct n. }
  assert (begins_with "/" (n +:+ String "=" (String double_quote value_rest)) = false)%char as ->.
  { destruct (name_head n "/"%char (conj Hne Hn) eq_refl) as (d & t & -> & Hd). rewrite cons_app. cbn [begins_with].
    by destruct (Ascii.eqb_spec d "/"%char). }
  rewrite span_until_stop; [|by apply (chars_impl name_char (λ c, negb (attr_name_end c)))|done].
  assert (str_is_empty n = false) as -> by by destruct n.
  rewrite trim_start_visible by done. rewrite Ascii.eqb_refl, trim_start_visible by done.
  change (Ascii.eqb double_quote single_quote || Ascii.eqb double_quote double_quote) with true. cbv iota.
  unfold value_rest. rewrite split_once_app.
  - rewrite xml_unescape_plain; [done|]. revert Hv. by apply (chars_impl value_char (λ d, negb (Ascii.eqb d "&"%char))).
  - revert Hv. by apply (chars_impl value_char (λ d, negb (Ascii.eqb d double_quote))).
Qed.

Lemma attr_value_loop_end fuel attr empty : attr_value_loop (S fuel) attr (slash empty) = None.
Proof. destruct empty; reflexivity. Qed.

Lemma attr_value_loop_attrs fuel attr attrs empty :
  Forall attr_ok attrs → (length attrs < fuel)%nat →
  attr_value_loop fuel attr (attrs_text attrs +:+ slash empty) = lookup_attr attrs attr.
Proof.
  intros H. revert fuel. induction H as [|[n v] attrs Ha Hattrs IH]; intros [|fuel] Hf; simpl in Hf; try lia.
  - apply attr_value_loop_end.
  - cbn [attrs_text foldr]. fold (attrs_text attrs). rewrite !str_app_assoc.
    rewrite attr_value_loop_attr by auto. unfold lookup_attr. cbn [List.find fst].
    destruct (n =? attr)%string; [done|]. apply IH. lia.
Qed.

Lemma split_once_whitespace_name name s :
  is_name name → split_once_whitespace (name +:+ s) =
    match split_once_whitespace s with Some (a, b) => Some (name +:+ a, b) | None => None end.
Proof.
  intros [_ Hn]. unfold split_once_whitespace.
  assert (split_once_white_bytes (as_bytes (name +:+ s)) =
    match split_once_white_bytes (as_bytes s) with Some (a, b) => Some (as_bytes name ++ a, b) | None => None end) as ->.
  { induction name as [|c name IH].
    - change ("" +:+ s) with s. by destruct (split_once_white_bytes (as_bytes s)) as [[]|].
    - cbn [all_chars] in Hn. apply andb_true_iff in Hn as [Hc Hn]. rewrite cons_app. cbn [as_bytes split_once_white_bytes].
      unfold white_prefix. cbn [nth].
      destruct (visible_not_white (u8_of_ascii c) (nth 0 (as_bytes (name +:+ s)) 0) (nth 1 (as_bytes (name +:+ s)) 0)
        (name_visible c Hc)) as (H1 & H2 & H3).
      rewrite H1, H2, H3, IH by done. by destruct (split_once_white_bytes (as_bytes s)) as [[]|]. }
  destruct (split_once_white_bytes (as_bytes s)) as [[a b]|]; [|done]. do 2 f_equal.
  clear Hn. induction name as [|c name IH]; [done|]. rewrite cons_app. cbn [as_bytes app string_of_bytes].
  by rewrite ascii_of_u8_of_ascii, IH.
Qed.

Lemma attrs_text_length attrs : (length attrs <= String.length (attrs_text attrs))%nat.
Proof.
  induction attrs as [|a attrs IH]; [done|]. cbn [attrs_text foldr length]. fold (attrs_text attrs).
  rewrite !str_length_app. cbn [String.length]. lia.
Qed.

Lemma attr_value_tag name attrs empty attr :
  is_name name → Forall attr_ok attrs → attr_value (tag_text name attrs empty) attr = lookup_attr attrs attr.
Proof.
  intros Hn Ha. unfold attr_value, tag_text. rewrite trim_start_name, split_once_whitespace_name by done.
  destruct Ha as [|[n v] attrs Ha Hattrs]; [by destruct empty|].
  cbn [attrs_text foldr]. fold (attrs_text attrs). rewrite !str_app_assoc.
  set (rest := attr_text (n, v) +:+ attrs_text attrs +:+ slash empty).
  assert (split_once_whitespace (" " +:+ rest) = Some ("", rest)) as ->.
  { change (" " +:+ rest) with (String " " rest). unfold split_once_whitespace. cbn [as_bytes split_once_white_bytes].
    change (white_prefix (u8_of_ascii " " :: ?l)) with 1%nat. cbn [drop string_of_bytes].
    by rewrite drop_0, string_of_as_bytes. }
  unfold rest at 1. unfold rest. change (attr_text (n, v) +:+ ?x) with ("" +:+ attr_text (n, v) +:+ x) at 2.
  rewrite attr_value_loop_attr by auto. unfold lookup_attr. cbn [List.find fst].
  destruct (n =? attr)%string; [done|]. apply attr_value_loop_attrs; [done|].
  rewrite !str_length_app. pose proof (attrs_text_length attrs). unfold attr_text. cbn [fst snd].
  rewrite !str_length_app. cbn [String.length]. lia.
Qed.

Lemma omap_compose {A B C} (f : A → option B) (g : B → option C) (l : list A) :
  omap g (omap f l) = omap (λ x, f x ≫= g) l.
Proof. induction l as [|x l IH]; [done|]. cbn. destruct (f x) as [y|]; cbn; [|done]. destruct (g y); by rewrite IH. Qed.

Lemma omap_ext_Forall {A B} (P : A → Prop) (f g : A → option B) (l : list A) :
  Forall P l → (∀ x, P x → f x = g x) → omap f l = omap g l.
Proof. intros Hl Hfg. induction Hl as [|x l Hx Hl IH]; [done|]. cbn. by rewrite IH, Hfg. Qed.

Lemma tag_attr_values_render tag attr l :
  is_name tag → Forall token_ok l → tag_attr_values (render l) tag attr = omap (attr_of tag attr) l.
Proof.
  intros Htag Hl. unfold tag_attr_values. rewrite start_tags_render, omap_compose by done.
  apply (omap_ext_Forall token_ok); [done|]. intros [name attrs empty| |]; [|done..]. intros [Hn Ha].
  unfold attr_of. cbn [token_attrs]. destruct (name =? tag)%string; [|done]. cbn. by rewrite attr_value_tag.
Qed.

Lemma split_routes_render gateway l :
  Forall token_ok l → omap (split_route gateway) (start_tags (render l) "addr") = omap (route_of gateway) l.
Proof.
  intros Hl. rewrite start_tags_render, omap_compose by (done || split; done).
  apply (omap_ext_Forall token_ok); [done|]. intros [name attrs empty| |]; [|done..]. intros [Hn Ha].
  unfold route_of, attr_of. cbn [token_attrs]. destruct (name =? "addr")%string; [|done]. cbn.
  unfold split_route. by rewrite !attr_value_tag.
Qed.

Lemma render_app l k : render (l ++ k) = render l +:+ render k.
Proof. induction l as [|t l IH]; [done|]. cbn [app render foldr]. fold (render l) (render (l ++ k)). by rewrite IH, str_app_assoc. Qed.

(** ** The configuration document *)

Abbreviation routes_tag := "split-tunnel-info".

(** A document in the attribute style of the gateways, with one list of split
    routes. *)
Definition config_document (before body after : list token) : list token :=
  before ++ Start routes_tag [] false :: body ++ End_ routes_tag :: after.

Lemma routes_tag_name : is_name routes_tag.
Proof. split; [done|reflexivity]. Qed.

Lemma element_bodies_document before body after :
  Forall token_ok before → Forall token_ok body → Forall token_ok after →
  Forall (λ t, token_name t ≠ Some routes_tag) (before ++ body ++ after) →
  element_bodies (render (config_document before body after)) routes_tag = [render body].
Proof.
  intros Hb Hm Ha (Hb' & Hm' & Ha')%(λ H, conj (proj1 (proj1 (Forall_app _ _ _) H))
    (proj1 (Forall_app _ _ _) (proj2 (proj1 (Forall_app _ _ _) H)))).
  unfold config_document. rewrite render_app, element_bodies_tokens by auto using routes_tag_name.
  cbn [render foldr]. fold (render (body ++ End_ routes_tag :: after)).
  rewrite render_start, element_bodies_round, split_once_here, strip_prefix_app.
  change (attrs_text [] +:+ slash false) with "".
  change ("" +:+ ">" +:+ ?s) with (String ">" s). change (tag_boundary (String ">" ?s)) with true. cbv iota.
  rewrite split_once_here.
  change (ends_with "/>" _) with false. cbv iota.
  rewrite render_app. cbn [render foldr]. fold (render after).
  change (render_token (End_ routes_tag)) with (close_tag routes_tag).
  rewrite close_tag_found by auto using routes_tag_name. f_equal.
  pose proof (element_bodies_tokens routes_tag after "" routes_tag_name Ha Ha') as H.
  by rewrite app_empty_r in H.
Qed.

(** C26: The configuration document is read as it is meant: of a document of
    tags with quoted attributes, the gateway is the first [ipv4] of an
    [assigned-addr], the name servers are every [ip] of a [dns], the suffix the
    first [domain] of a [dns], and the routes are the pairs of [ip] and [mask]
    of the [addr] tags inside [split-tunnel-info] and nowhere else, all in the
    order of the document. *)
Theorem parse_vpn_config_xml_document before body after :
  let doc := config_document before body after in
  Forall token_ok before → Forall token_ok body → Forall token_ok after →
  Forall (λ t, token_name t ≠ Some routes_tag) (before ++ body ++ after) →
  Forall attribute_style (before ++ body ++ after) →
  let gateway := head (omap (attr_of "assigned-addr" "ipv4") doc) in
  parse_vpn_config_xml (render doc) =
    {| raw_xml := render doc; gateway := gateway; assigned_ip := gateway;
       dns_servers := omap (attr_of "dns" "ip") doc;
       dns_suffix := head (omap (attr_of "dns" "domain") doc);
       split_routes := omap (route_of gateway) body |}.
Proof.
  intros doc Hb Hm Ha Hr Hs gw.
  assert (Forall token_ok doc) as Hdoc.
  { unfold doc, config_document. rewrite Forall_app, Forall_cons, Forall_app, Forall_cons.
    cbn [token_ok]. auto using routes_tag_name. }
  assert (∀ name, name ∈ text_tags → xml_values (render doc) name = []) as Hx.
  { intros name Hname. assert (is_name name ∧ name ≠ routes_tag) as [Hn Hne].
    { unfold text_tags in Hname. rewrite !elem_of_cons, elem_of_nil in Hname.
      destruct_or!; subst; (split; [split; [done|reflexivity]|done]). }
    apply xml_values_absent; [done..|]. unfold doc, config_document.
    rewrite !Forall_app in Hs. destruct Hs as (H1 & H2 & H3).
    rewrite Forall_app, Forall_cons, Forall_app, Forall_cons.
    split_and!; try congruence; eapply Forall_impl; try eassumption; intros t Ht; by apply Ht. }
  assert (∀ name attr, is_name name → tag_attr_values (render doc) name attr = omap (attr_of name attr) doc) as Hattr.
  { intros. by apply tag_attr_values_render. }
  unfold parse_vpn_config_xml, first_tag_attr, first_xml_value.
  rewrite !Hattr by (split; [done|reflexivity]).
  rewrite !Hx by (unfold text_tags; rewrite !elem_of_cons; tauto).
  fold gw. cbn [head]. f_equal.
  - by destruct gw.
  - rewrite app_nil_r. by destruct (omap (attr_of "dns" "ip") doc).
  - by destruct (head (omap (attr_of "dns" "domain") doc)).
  - unfold parse_split_routes, doc. rewrite element_bodies_document by done. cbn [map concat].
    rewrite app_nil_r. by apply split_routes_render.
Qed.

Lemma parse_vpn_config_xml_document_witness :
  let before := [Start "root" [] false; Start "assigned-addr" [("ipv4", "10.0.0.1")] true;
    Start "dns" [("ip", "1.1.1.1")] true; Text " "; Start "dns" [("domain", "corp"); ("ip", "8.8.8.8")] true] in
  let body := [Start "addr" [("ip", "10.10.0.0"); ("mask", "255.255.0.0")] true] in
  let after := [Start "addr" [("ip", "10.9.9.9"); ("mask", "255.255.0.0")] true; End_ "root"] in
  parse_vpn_config_xml (render (config_document before body after)) =
    {| raw_xml := render (config_document before body after); gateway := Some "10.0.0.1"; assigned_ip := Some "10.0.0.1";
       dns_servers := ["1.1.1.1"; "8.8.8.8"]; dns_suffix := Some "corp";
       split_routes := [{| destination := "10.10.0.0"; mask := "255.255.0.0"; route_gateway := Some "10.0.0.1" |}] |}.
Proof.
  intros before body after.
  apply (parse_vpn_config_xml_document before body after);
    repeat constructor; try done; intros name Hname; try congruence.
  intros [= <-]. unfold text_tags in Hname. rewrite !elem_of_cons, elem_of_nil in Hname. destruct_or!; discriminate.
Defined.

(** The order of the replacements: an escaped ampersand before [quot;] or
    [apos;] is unescaped twice. *)
Theorem xml_unescape_twice :
  xml_unescape "&amp;lt;" = "&lt;" ∧ xml_unescape "&amp;quot;" = String double_quote EmptyString.
Proof. split; reflexivity. Qed.

(** ** The requests *)

(** The bytes of a session request. *)
Definition session_request (config : Config) (cookie path : str) : bytes :=
  as_bytes (request_head (http_host config) "GET" path (session_headers config cookie) 0).

Lemma do_http_request_written host method path hs content s x s' :
  do_http_request host method path hs content s = (Ok x, s') →
  written (conn_w s') =
    written (conn_w s) ++ as_bytes (request_head host method path hs (len content)) ++ content.
Proof.
  unfold do_http_request. destruct (http_send host method path hs content (conn_w s)) as [sent w] eqn:E.
  destruct sent as [[]|e| |]; cbn [lift sbind]; try done.
  apply http_send_writes in E. cbn [conn_r]. destruct (http_receive (conn_r s)) as [r1 r2].
  intros [= _ <-]. exact E.
Qed.

Lemma get_success_ok config cookie path s s' :
  get_success config cookie path s = (Ok tt, s') →
  written (conn_w s') = written (conn_w s) ++ session_request config cookie path.
Proof.
  unfold get_success. intros (response & s1 & E & H)%sbind_ok_inv. injection H as _ <-.
  apply do_http_request_written in E. rewrite E. unfold session_request. by rewrite len_nil, app_nil_r.
Qed.

(** The path that is followed after a login is a path of the gateway. *)
Lemma valid_redirect_path_local path p :
  valid_redirect_path path = Some p → path = Some p ∧ begins_with "/"%char p = true ∧ starts_with "//" p = false.
Proof.
  destruct path as [q|]; [|done]. cbn [valid_redirect_path].
  destruct (begins_with "/" q) eqn:E1; [|done]. destruct (starts_with "//" q) eqn:E2; [done|].
  intros [= ->]. done.
Qed.

(** An allocated tunnel was asked for with two requests that carry the
    session cookie: the redirection of the login if it is a path of this
    gateway, otherwise the portal's index, and then the allocation; nothing
    else was sent. *)
Lemma request_vpn_allocation_sends config cookie redirect s s' :
  request_vpn_allocation config cookie redirect s = (Ok tt, s') →
  ∃ path, written (conn_w s') =
      written (conn_w s) ++ session_request config cookie path
        ++ session_request config cookie "/remote/fortisslvpn" ∧
    match redirect with
    | Some p => if begins_with "/"%char p && negb (starts_with "//" p) then path = p else path = "/remote/index"
    | None => path = "/remote/index"
    end.
Proof.
  unfold request_vpn_allocation. intros ([] & s1 & H1 & H)%sbind_ok_inv.
  apply sbind_ok_inv in H as ([] & s2 & H2%get_success_ok & [= <-]).
  unfold valid_redirect_path in H1.
  destruct redirect as [p|]; [destruct (begins_with "/" p && negb (starts_with "//" p))|];
    apply get_success_ok in H1; rewrite H2, H1, <- app_assoc; eauto.
Qed.

Definition ok_response : bytes := as_bytes (response_head 200 "OK" [("Content-Length", "0")]).

Definition demo_connection : connection :=
  {| conn_r := [RBytes ok_response; RBytes ok_response]; conn_w := {| written := []; w_script := [] |} |}.

Lemma request_vpn_allocation_sends_witness :
  ∃ path, written (conn_w (snd (request_vpn_allocation default_config "SVPNCOOKIE=x" (Some "/p") demo_connection))) =
      [] ++ session_request default_config "SVPNCOOKIE=x" path
        ++ session_request default_config "SVPNCOOKIE=x" "/remote/fortisslvpn" ∧ path = "/p".
Proof.
  apply (request_vpn_allocation_sends default_config "SVPNCOOKIE=x" (Some "/p") demo_connection).
  vm_compute. reflexivity.
Defined.
