(* ===== verification/RouteTable.v ===== *)
(** * [proxy/route_table.rs]: the destinations of the proxy

    The networks a proxy session may reach, from the configuration of the
    gateway, and the test of a destination. *)

From S2P Require Import Prelude Stream RustStd Config Http Portal.

#[local] Open Scope string_scope.
#[local] Open Scope list_scope.
#[local] Open Scope Z_scope.

Definition U32_MAX : u32 := 0xffffffff.

(** [a + 1] on [u8], with overflow checks. *)
Definition u8_succ (n : u8) : result u8 := if n <? 255 then Ok (n + 1) else Panic.

(** [u32::MAX << (32 - prefix)] *)
Definition prefix_mask (prefix : u8) : result u32 :=
  if prefix =? 0 then Ok 0
  else let* shift := usub 32 prefix in Ok (Z.land (Z.shiftl U32_MAX shift) U32_MAX).

(** ** Masks *)

(** The loop over the bits of an octet, from the highest; [None] is the early
    return. *)
Fixpoint mask_bits (octet : u8) (bits : list Z) (prefix : u8) (saw_zero : bool)
    : result (option (u8 * bool)) :=
  match bits with
  | [] => Ok (Some (prefix, saw_zero))
  | bit :: bits =>
      if negb (Z.land octet (Z.shiftl 1 bit) =? 0) then
        if saw_zero then Ok None
        else let* prefix := u8_succ prefix in mask_bits octet bits prefix saw_zero
      else mask_bits octet bits prefix true
  end.

Definition BITS : list Z := [7; 6; 5; 4; 3; 2; 1; 0].

Fixpoint mask_octets (octets : Z) (l : list str) (prefix : u8) (saw_zero : bool)
    : result (option (u8 * Z)) :=
  match l with
  | [] => Ok (Some (prefix, octets))
  | octet :: l =>
      let octets := octets + 1 in
      match parse_u8 octet with
      | None => Ok None
      | Some octet =>
          let* bits := mask_bits octet BITS prefix saw_zero in
          match bits with
          | None => Ok None
          | Some (prefix, saw_zero) => mask_octets octets l prefix saw_zero
          end
      end
  end.

Definition ipv4_mask_to_prefix (mask : str) : result (option u8) :=
  let* r := mask_octets 0 (str_split "."%char mask) 0 false in
  match r with
  | Some (prefix, octets) => if octets =? 4 then Ok (Some prefix) else Ok None
  | None => Ok None
  end.

(** ** Networks *)

Record Ipv4Net := { network : Ipv4Addr; prefix : u8 }.

#[export] Instance Ipv4Net_eq_dec : EqDecision Ipv4Net.
Proof. solve_decision. Defined.

Definition new (network : Ipv4Addr) (prefix : u8) : result Ipv4Net :=
  let prefix := Z.min prefix 32 in
  let* mask := prefix_mask prefix in
  Ok {| network := ipv4_of_u32 (Z.land (u32_of_ipv4 network) mask); prefix := prefix |}.

Definition from_addr_and_mask (addr mask : str) : result (option Ipv4Net) :=
  match parse_ipv4 addr with
  | None => Ok None
  | Some addr =>
      let* prefix := ipv4_mask_to_prefix mask in
      match prefix with
      | None => Ok None
      | Some prefix => let* net := new addr prefix in Ok (Some net)
      end
  end.

Definition contains (self : Ipv4Net) (addr : Ipv4Addr) : result bool :=
  let* mask := prefix_mask (prefix self) in
  Ok (Z.land (u32_of_ipv4 addr) mask =? u32_of_ipv4 (network self)).

(** ** The table *)

Record ProxyRouteTable := { routes : list Ipv4Net }.

Fixpoint split_route_nets (l : list Ipv4Route) : result (list Ipv4Net) :=
  match l with
  | [] => Ok []
  | route :: l =>
      let* net := from_addr_and_mask (destination route) (mask route) in
      let* nets := split_route_nets l in
      Ok (match net with Some net => net :: nets | None => nets end)
  end.

Definition from_config (config : Config) (vpn_config : VpnConfigXml) : result ProxyRouteTable :=
  if negb (set_routes config) then Ok {| routes := [] |} else
  let* nets :=
    match split_routes vpn_config with
    | _ :: _ => split_route_nets (split_routes vpn_config)
    | [] =>
        if half_internet_routes config then
          let* low := new (Ipv4 0 0 0 0) 1 in
          let* high := new (Ipv4 128 0 0 0) 1 in
          Ok [low; high]
        else let* all := new (Ipv4 0 0 0 0) 0 in Ok [all]
    end in
  Ok {| routes := nets |}.

Definition table_len (self : ProxyRouteTable) : usize := len (routes self).
Definition table_is_empty (self : ProxyRouteTable) : bool :=
  match routes self with [] => true | _ => false end.

(** [iter().any(..)] *)
Fixpoint any_contains (l : list Ipv4Net) (destination : Ipv4Addr) : result bool :=
  match l with
  | [] => Ok false
  | route :: l => contains route destination ||| any_contains l destination
  end.

Definition can_route (self : ProxyRouteTable) (destination : Ipv4Addr) : result bool :=
  any_contains (routes self) destination.

(** ** Specifications *)

(** The mask of a prefix, and the addresses of a network. *)
Definition mask_value (p : Z) : u32 := 2 ^ 32 - 2 ^ (32 - p).
Definition same_prefix (p : Z) (a b : Ipv4Addr) : bool :=
  u32_of_ipv4 a / 2 ^ (32 - p) =? u32_of_ipv4 b / 2 ^ (32 - p).

(** The octets of a mask in text, as the code reads them. *)
Definition mask_text (mask : str) : option (list u8) := mapM parse_u8 (str_split "."%char mask).

(** Whether a split route of the gateway covers an address. *)
Definition route_covers (dest : Ipv4Addr) (r : Ipv4Route) : Prop :=
  ∃ a p, parse_ipv4 (destination r) = Some a ∧ 0 <= p <= 32 ∧ same_prefix p a dest = true ∧
    ∃ m, ipv4_wf m ∧ mask_text (mask r) = Some (octets m) ∧ u32_of_ipv4 m = mask_value p.

(** ** Masks *)

(** How many bits an octet of a mask adds: the nine octets of ones before
    zeros. *)
Definition octet_ones (b : u8) : option Z := List.find (λ k, b =? 256 - 2 ^ (8 - k)) (seqZ 0 9).

Definition bits_outcome (b prefix : Z) (saw_zero : bool) : option (u8 * bool) :=
  match octet_ones b with
  | Some k => if saw_zero then if k =? 0 then Some (prefix, true) else None
              else Some (prefix + k, negb (k =? 8))
  | None => None
  end.

Lemma mask_bits_octet b p z :
  is_u8 b → 0 <= p <= 24 → mask_bits b BITS p z = Ok (bits_outcome b p z).
Proof.
  intros Hb Hp. destruct (decide (mask_bits b BITS p z = Ok (bits_outcome b p z))) as [|Hn]; [done|].
  exfalso. apply Hn. clear Hn.
  assert (bool_decide (mask_bits b BITS p z = Ok (bits_outcome b p z)) = true) as H; [|by apply bool_decide_eq_true in H].
  assert (p ∈ seqZ 0 25) as Hp' by (apply elem_of_seqZ; lia).
  assert (forallb (λ p, bool_decide (mask_bits b BITS p z = Ok (bits_outcome b p z))) (seqZ 0 25) = true) as Hall.
  { destruct z.
    - by_all_u8 (λ b, forallb (λ p, bool_decide (mask_bits b BITS p true = Ok (bits_outcome b p true))) (seqZ 0 25)) b.
    - by_all_u8 (λ b, forallb (λ p, bool_decide (mask_bits b BITS p false = Ok (bits_outcome b p false))) (seqZ 0 25)) b. }
  rewrite forallb_forall in Hall. apply Hall. by apply list_elem_of_In.
Qed.

Lemma octet_ones_some b k : octet_ones b = Some k → 0 <= k <= 8 ∧ b = 256 - 2 ^ (8 - k).
Proof.
  intros [H1 H2%Z.eqb_eq]%find_some. apply list_elem_of_In, elem_of_seqZ in H1. split; [lia|done].
Qed.

(** The octets the loop has read. *)
Lemma mask_octets_some n l p z p' n' :
  mask_octets n l p z = Ok (Some (p', n')) → ∃ bs, mapM parse_u8 l = Some bs ∧ n' = n + len l.
Proof.
  revert n p z. induction l as [|s l IH]; intros n p z; cbn [mask_octets mapM].
  - intros [= _ ->]. exists []. split; [done|]. rewrite len_nil. lia.
  - destruct (parse_u8 s) as [b|] eqn:E; [|done]. intros ([[q y]|] & H1 & H2)%bind_ok_inv; [|done].
    apply IH in H2 as (bs & Hbs & ->). exists (b :: bs). cbn. rewrite Hbs. split; [done|].
    rewrite len_cons. lia.
Qed.

(** The same loop on octets already read: four of them never overflow. *)
Fixpoint octets_outcome (bs : list u8) (p : Z) (z : bool) : option Z :=
  match bs with
  | [] => Some p
  | b :: bs => match bits_outcome b p z with Some (p, z) => octets_outcome bs p z | None => None end
  end.

Lemma bits_outcome_bound b p z p' z' : bits_outcome b p z = Some (p', z') → p <= p' <= p + 8.
Proof.
  unfold bits_outcome. destruct (octet_ones b) as [k|] eqn:E; [|done]. apply octet_ones_some in E as [Hk _].
  destruct z; [case_match|]; intros [= <- _]; lia.
Qed.

Lemma mask_octets_outcome n l bs p z :
  mapM parse_u8 l = Some bs → is_bytes bs → 0 <= p → p + 8 * len bs <= 32 →
  mask_octets n l p z = Ok ((λ p, (p, n + len l)) <$> octets_outcome bs p z).
Proof.
  revert n bs p z. induction l as [|s l IH]; intros n bs p z; cbn [mapM mask_octets].
  - intros [= <-] _ _ _. cbn. by rewrite len_nil, Z.add_0_r.
  - destruct (parse_u8 s) as [b|]; [|done]. cbn [mbind option_bind].
    destruct (mapM parse_u8 l) as [bs'|] eqn:E; [|done].
    intros [= <-] [Hb Hbs]%Forall_cons Hp Hl. rewrite len_cons in Hl. pose proof (len_nonneg bs').
    rewrite mask_bits_octet by (done || lia). cbn [bind octets_outcome].
    destruct (bits_outcome b p z) as [[p' z']|] eqn:Eb; [|done].
    apply bits_outcome_bound in Eb. rewrite (IH _ bs') by (done || lia).
    f_equal. destruct (octets_outcome bs' p' z'); [|done]. cbn. rewrite len_cons. do 2 f_equal. lia.
Qed.

Lemma parse_u8_range s b : parse_u8 s = Some b → is_u8 b.
Proof. intros H%parse_uint_range; [unfold is_u8|]; lia. Qed.

Lemma mapM_parse_u8_bytes l bs : mapM parse_u8 l = Some bs → is_bytes bs ∧ len bs = len l.
Proof.
  revert bs. induction l as [|s l IH]; intros bs; [intros [= <-]; done|].
  cbn. destruct (parse_u8 s) as [b|] eqn:E; [|done]. cbn. destruct (mapM parse_u8 l) as [bs'|]; [|done].
  intros [= <-]. destruct (IH _ eq_refl) as [H1 H2]. split; [constructor; [by apply parse_u8_range in E|done]|].
  rewrite !len_cons. lia.
Qed.

Lemma octets_outcome_zeros bs p p' :
  octets_outcome bs p true = Some p' → p' = p ∧ Forall (λ b, b = 0) bs.
Proof.
  revert p. induction bs as [|b bs IH]; intros p; cbn [octets_outcome]; [by intros [= ->]|].
  unfold bits_outcome. destruct (octet_ones b) as [k|] eqn:E; [|done].
  apply octet_ones_some in E as [_ ->]. destruct (Z.eqb_spec k 0) as [->|]; [|done].
  intros [-> H]%IH. split; [done|]. by constructor.
Qed.

Lemma octets_outcome_first b bs p p' :
  octets_outcome (b :: bs) p false = Some p' →
  (b = 255 ∧ octets_outcome bs (p + 8) false = Some p') ∨
  (∃ k, 0 <= k < 8 ∧ b = 256 - 2 ^ (8 - k) ∧ p' = p + k ∧ Forall (λ b, b = 0) bs).
Proof.
  cbn [octets_outcome]. unfold bits_outcome. destruct (octet_ones b) as [k|] eqn:E; [|done].
  apply octet_ones_some in E as [Hk ->]. destruct (Z.eqb_spec k 8) as [->|]; cbn [negb].
  - intros H. by left.
  - intros [-> H]%octets_outcome_zeros. right. exists k. split_and!; [lia..|done].
Qed.

Lemma pow_split k n : 0 <= k <= 8 → 8 <= n → 2 ^ (n - k) = 2 ^ (8 - k) * 2 ^ (n - 8).
Proof. intros. rewrite <- Z.pow_add_r by lia. f_equal. lia. Qed.

Lemma octets_outcome_mask a b c d p :
  ipv4_wf (Ipv4 a b c d) →
  octets_outcome [a; b; c; d] 0 false = Some p ↔ 0 <= p <= 32 ∧ u32_of_ipv4 (Ipv4 a b c d) = mask_value p.
Proof.
  intros Hwf. split.
  - unfold mask_value, u32_of_ipv4. intros [[-> H]|(k & Hk & -> & -> & Hz)]%octets_outcome_first.
    2:{ rewrite !Forall_cons in Hz. destruct Hz as (-> & -> & -> & _).
        rewrite (pow_split (0 + k) 32) by lia. change (2 ^ (32 - 8)) with 16777216. change (2 ^ 32) with 4294967296.
        replace (0 + k) with k by lia. lia. }
    apply octets_outcome_first in H as [[-> H]|(k & Hk & -> & -> & Hz)].
    2:{ rewrite !Forall_cons in Hz. destruct Hz as (-> & -> & _).
        replace (32 - (0 + 8 + k)) with (24 - k) by lia. rewrite (pow_split k 24) by lia.
        change (2 ^ (24 - 8)) with 65536. change (2 ^ 32) with 4294967296. lia. }
    apply octets_outcome_first in H as [[-> H]|(k & Hk & -> & -> & Hz)].
    2:{ rewrite !Forall_cons in Hz. destruct Hz as (-> & _).
        replace (32 - (0 + 8 + 8 + k)) with (16 - k) by lia. rewrite (pow_split k 16) by lia.
        change (2 ^ (16 - 8)) with 256. change (2 ^ 32) with 4294967296. lia. }
    apply octets_outcome_first in H as [[-> H]|(k & Hk & -> & -> & Hz)].
    2:{ replace (32 - (0 + 8 + 8 + 8 + k)) with (8 - k) by lia. change (2 ^ 32) with 4294967296. lia. }
    injection H as <-. split; [lia|reflexivity].
  - intros [Hp Hu]. apply (f_equal ipv4_of_u32) in Hu. rewrite ipv4_of_u32_of_ipv4 in Hu by done.
    assert (forallb (λ p, let '(Ipv4 a b c d) := ipv4_of_u32 (mask_value p) in
      bool_decide (octets_outcome [a; b; c; d] 0 false = Some p)) (seqZ 0 33) = true) as Hall by (vm_compute; reflexivity).
    rewrite forallb_forall in Hall. specialize (Hall p). rewrite <- Hu in Hall.
    refine (bool_decide_eq_true_1 _ (Hall _)). apply list_elem_of_In, elem_of_seqZ. lia.
Qed.

Lemma mask_to_prefix_spec mask p :
  ipv4_mask_to_prefix mask = Ok (Some p) ↔
    0 <= p <= 32 ∧ ∃ ip, ipv4_wf ip ∧ mask_text mask = Some (octets ip) ∧ u32_of_ipv4 ip = mask_value p.
Proof.
  unfold ipv4_mask_to_prefix, mask_text. set (l := str_split "."%char mask). split.
  - intros ([[p' n]|] & H1 & H2)%bind_ok_inv; [|done].
    destruct (Z.eqb_spec n 4) as [->|]; [|done]. injection H2 as ->.
    destruct (mask_octets_some _ _ _ _ _ _ H1) as (bs & Hbs & Hn).
    destruct (mapM_parse_u8_bytes l bs Hbs) as [Hb Hl].
    destruct bs as [|a [|b [|c [|d [|e bs]]]]]; try (exfalso; revert Hn Hl; len_lia).
    rewrite (mask_octets_outcome _ _ _ _ _ Hbs Hb) in H1 by (done || (unfold len; simpl; lia)).
    destruct (octets_outcome [a; b; c; d] 0 false) as [q|] eqn:Eo; [|done]. injection H1 as ->.
    apply octets_outcome_mask in Eo as [Hp Hu]; [|done]. split; [done|]. by exists (Ipv4 a b c d).
  - intros (Hp & [a b c d] & Hwf & Hbs & Hu).
    destruct (mapM_parse_u8_bytes _ _ Hbs) as [_ Hl]. cbn [octets] in *.
    rewrite (mask_octets_outcome _ _ _ _ _ Hbs Hwf) by (done || (unfold len; simpl; lia)).
    rewrite (proj2 (octets_outcome_mask a b c d p Hwf)) by done. cbn [fmap option_fmap option_map bind].
    rewrite <- Hl. done.
Qed.

(** A mask is read as a prefix exactly when it is the mask of that prefix:
    four octets whose number has [p] ones in front of [32 - p] zeros. *)
Theorem ipv4_mask_to_prefix_spec mask p :
  ipv4_mask_to_prefix mask = Ok (Some p) ↔
    0 <= p <= 32 ∧ ∃ ip, ipv4_wf ip ∧ mask_text mask = Some (octets ip) ∧ u32_of_ipv4 ip = mask_value p.
Proof. apply mask_to_prefix_spec. Qed.

(** More octets than an address has are only rejected after the loop: 32 of
    them overflow the counter of the prefix. *)
Theorem ipv4_mask_to_prefix_overflows :
  ipv4_mask_to_prefix (str_join "." (replicate 32 "255")) = Panic.
Proof. vm_compute. reflexivity. Qed.

(** ** Networks *)

Lemma prefix_mask_value p : 0 <= p <= 32 → prefix_mask p = Ok (mask_value p).
Proof.
  intros Hp. assert (forallb (λ p, bool_decide (prefix_mask p = Ok (mask_value p))) (seqZ 0 33) = true) as Hall
    by (vm_compute; reflexivity).
  rewrite forallb_forall in Hall. refine (bool_decide_eq_true_1 _ (Hall _ _)).
  apply list_elem_of_In, elem_of_seqZ. lia.
Qed.

Lemma mask_value_ones p : 0 <= p <= 32 → mask_value p = Z.shiftl (Z.ones p) (32 - p).
Proof.
  intros. unfold mask_value. rewrite Z.shiftl_mul_pow2, Z.ones_equiv by lia.
  replace (2 ^ 32) with (2 ^ p * 2 ^ (32 - p)) by (rewrite <- Z.pow_add_r by lia; f_equal; lia). lia.
Qed.

Lemma land_mask_value a p :
  0 <= p <= 32 → is_u32 a → Z.land a (mask_value p) = a / 2 ^ (32 - p) * 2 ^ (32 - p).
Proof.
  intros Hp Ha. rewrite mask_value_ones by done. rewrite <- Z.shiftl_mul_pow2, <- Z.shiftr_div_pow2 by lia.
  apply Z.bits_inj'. intros i Hi. rewrite Z.land_spec, !Z.shiftl_spec by done.
  destruct (Z.lt_ge_cases i (32 - p)) as [Hlt|Hge].
  - rewrite !(Z.testbit_neg_r _ (i - (32 - p))) by lia. apply andb_false_r.
  - rewrite Z.shiftr_spec by lia. replace (i - (32 - p) + (32 - p)) with i by lia.
    destruct (Z.lt_ge_cases i 32) as [Hl|Hl].
    + rewrite Z.ones_spec_low by lia. apply andb_true_r.
    + rewrite (bounded_bits a 32) by (done || exact Ha). done.
Qed.

Lemma masked_u32 a p : 0 <= p <= 32 → is_u32 a → is_u32 (a / 2 ^ (32 - p) * 2 ^ (32 - p)).
Proof.
  intros Hp [H1 H2]. pose proof (Z.pow_pos_nonneg 2 (32 - p)).
  pose proof (Z.div_pos a (2 ^ (32 - p))). pose proof (Z.mul_div_le a (2 ^ (32 - p))). unfold is_u32. lia.
Qed.

Lemma new_ok ip q :
  ipv4_wf ip → 0 <= q →
  new ip q = Ok {| network := ipv4_of_u32 (u32_of_ipv4 ip / 2 ^ (32 - Z.min q 32) * 2 ^ (32 - Z.min q 32));
                   prefix := Z.min q 32 |}.
Proof.
  intros Hip Hq. unfold new. rewrite prefix_mask_value by lia. cbn [bind].
  by rewrite land_mask_value by (lia || by apply u32_of_ipv4_range).
Qed.

(** A network contains the addresses that share its prefix. *)
Lemma contains_new ip q net addr :
  ipv4_wf ip → 0 <= q → ipv4_wf addr → new ip q = Ok net → contains net addr = Ok (same_prefix (Z.min q 32) ip addr).
Proof.
  intros Hip Hq Ha. rewrite new_ok by done. intros [= <-]. unfold contains. cbn [network prefix].
  pose proof (u32_of_ipv4_range _ Hip). pose proof (u32_of_ipv4_range _ Ha).
  rewrite prefix_mask_value by lia. cbn [bind]. rewrite land_mask_value by (done || lia).
  rewrite u32_of_ipv4_of_u32 by (apply masked_u32; [lia|done]).
  f_equal. unfold same_prefix. pose proof (Z.pow_pos_nonneg 2 (32 - Z.min q 32)).
  apply Bool.eq_iff_eq_true. rewrite !Z.eqb_eq, Z.mul_cancel_r by lia. split; congruence.
Qed.

(** ** The table *)

Lemma read_octet_range s v rest : read_octet s = Some (v, rest) → is_u8 v.
Proof.
  unfold read_octet, read_number. intros H.
  assert (∀ m n v c s r, 0 <= v <= 255 → read_digits 10 255 m v n s = Some (c, r) →
    0 <= fst c <= 255) as Hd.
  { clear. intros m n v c s. revert n v. induction s as [|d s IH]; intros n v r Hv; cbn [read_digits]; [by intros [= <- _]|].
    destruct (digit_of 10 d) as [x|] eqn:Ed; [|by intros [= <- _]].
    case_match; [done|]. destruct (Z.leb_spec (v * 10 + x) 255); [|done]. apply IH.
    unfold digit_of in Ed. assert (0 <= x); [|lia]. revert Ed.
    pose proof (u8_of_ascii_range d) as Hu. unfold is_u8 in Hu. unfold in_range.
    repeat case_match; intros [= <-]; rewrite ?andb_true_iff, ?Z.leb_le in *; lia. }
  destruct (read_digits 10 255 (Some 3%nat) 0 0 s) as [[[w c] r]|] eqn:E; [|done].
  apply Hd in E; [|lia]. repeat case_match; try done. injection H as <- _. cbn in E. unfold is_u8. lia.
Qed.

Lemma parse_ipv4_wf s ip : parse_ipv4 s = Some ip → ipv4_wf ip.
Proof.
  unfold parse_ipv4, whole. case_match; [done|].
  destruct (read_ipv4_addr s) as [[a r]|] eqn:E; [|done]. destruct r; [|done]. intros [= ->].
  unfold read_ipv4_addr in E.
  destruct (read_octet s) as [[x1 s1]|] eqn:E1; [|done]. cbn in E.
  destruct (read_char "." s1) as [s1'|]; [|done]. cbn in E.
  destruct (read_octet s1') as [[x2 s2]|] eqn:E2; [|done]. cbn in E.
  destruct (read_char "." s2) as [s2'|]; [|done]. cbn in E.
  destruct (read_octet s2') as [[x3 s3]|] eqn:E3; [|done]. cbn in E.
  destruct (read_char "." s3) as [s3'|]; [|done]. cbn in E.
  destruct (read_octet s3') as [[x4 s4]|] eqn:E4; [|done]. cbn in E.
  injection E as <- _. apply read_octet_range in E1, E2, E3, E4. unfold ipv4_wf, octets. auto 10.
Qed.

Lemma from_addr_and_mask_ok addr mask net :
  from_addr_and_mask addr mask = Ok (Some net) ↔
    ∃ a p, parse_ipv4 addr = Some a ∧ ipv4_mask_to_prefix mask = Ok (Some p) ∧ new a p = Ok net.
Proof.
  unfold from_addr_and_mask. destruct (parse_ipv4 addr) as [a|]; [|split; [done|by intros (? & ? & ? & _)]].
  split.
  - intros ([p|] & Hp & H)%bind_ok_inv; [|done]. apply bind_ok_inv in H as (n & Hn & [= <-]). eauto.
  - intros (a' & p & [= <-] & -> & Hn). cbn [bind]. by rewrite Hn.
Qed.

Lemma any_contains_ok l dest (P : Ipv4Net → Prop) :
  (∀ net, net ∈ l → ∃ b, contains net dest = Ok b ∧ (b = true ↔ P net)) →
  ∃ b, any_contains l dest = Ok b ∧ (b = true ↔ ∃ net, net ∈ l ∧ P net).
Proof.
  induction l as [|net l IH]; intros H; cbn [any_contains].
  - exists false. split; [done|]. split; [done|]. intros (net & Hn & _). by apply elem_of_nil in Hn.
  - destruct (H net) as (b & -> & Hb); [by left|].
    destruct IH as (b' & IH & Hb'); [intros n Hn; apply H; by right|].
    exists (b || b'). cbn [ror]. split; [by destruct b; cbn [ror]|].
    rewrite orb_true_iff, Hb, Hb'. setoid_rewrite elem_of_cons. naive_solver.
Qed.

Lemma split_route_nets_ok l nets :
  split_route_nets l = Ok nets →
  ∀ net, net ∈ nets ↔ ∃ r, r ∈ l ∧ from_addr_and_mask (destination r) (mask r) = Ok (Some net).
Proof.
  revert nets. induction l as [|r l IH]; intros nets; cbn [split_route_nets].
  - intros [= <-] net. setoid_rewrite elem_of_nil. split; [done|]. by intros (r & Hr & _).
  - intros (o & Ho & H)%bind_ok_inv. apply bind_ok_inv in H as (ns & Hns & [= <-]). intros net.
    specialize (IH ns Hns net). setoid_rewrite elem_of_cons.
    destruct o as [n|]; [rewrite elem_of_cons|]; rewrite IH; split.
    + intros [->|(r' & Hr & Hr')]; eauto.
    + intros (r' & [->|Hr] & Hr'); [left; congruence|eauto].
    + intros (r' & Hr & Hr'); eauto.
    + intros (r' & [->|Hr] & Hr'); [congruence|eauto].
Qed.

(** Prefixes are at most the width of an address. *)
Definition table_wf (self : ProxyRouteTable) : Prop := Forall (λ net, 0 <= prefix net <= 32) (routes self).

Lemma can_route_total self dest : table_wf self → ∃ b, can_route self dest = Ok b.
Proof.
  intros Hwf. destruct (any_contains_ok (routes self) dest (λ net, contains net dest = Ok true)) as (b & Hb & _); [|by exists b].
  intros net Hn. unfold table_wf in Hwf. rewrite Forall_forall in Hwf. specialize (Hwf net Hn).
  unfold contains. rewrite prefix_mask_value by done. cbn [bind]. eexists. split; [done|]. split; congruence.
Qed.

Lemma new_wf ip q net : 0 <= q → new ip q = Ok net → 0 <= prefix net <= 32.
Proof.
  unfold new. intros Hq. rewrite prefix_mask_value by lia. cbn [bind]. intros [= <-]. cbn. lia.
Qed.

Lemma from_config_wf config vpn_config table : from_config config vpn_config = Ok table → table_wf table.
Proof.
  unfold from_config, table_wf. destruct (negb _); [by intros [= <-]|].
  intros (nets & Hn & [= <-])%bind_ok_inv. cbn [routes]. destruct (split_routes vpn_config) as [|r0 rs].
  - destruct (half_internet_routes config).
    + apply bind_ok_inv in Hn as (low & Hl & Hn). apply bind_ok_inv in Hn as (high & Hh & [= <-]).
      apply new_wf in Hl; [|lia]. apply new_wf in Hh; [|lia]. by rewrite !Forall_cons.
    + apply bind_ok_inv in Hn as (net & Hl & [= <-]). constructor; [|done]. by eapply (new_wf _ 0 net).
  - apply Forall_forall. intros net (r & _ & (a & p & Ha & Hp & Hnew)%from_addr_and_mask_ok)%(split_route_nets_ok _ _ Hn).
    apply mask_to_prefix_spec in Hp as [Hp _]. eapply new_wf; [|exact Hnew]. lia.
Qed.

(** C20: The table of a session admits exactly the destinations of the
    configuration: none if routes are switched off, those that share the
    prefix of one of the split routes if the gateway sent any (a route whose
    address or mask cannot be read admits nothing), and all otherwise. *)
Theorem can_route_spec config vpn_config table dest :
  from_config config vpn_config = Ok table → ipv4_wf dest →
  ∃ b, can_route table dest = Ok b ∧
    (b = true ↔ set_routes config = true ∧
      (split_routes vpn_config = [] ∨ Exists (route_covers dest) (split_routes vpn_config))).
Proof.
  unfold from_config, can_route. intros Ht Hd.
  destruct (set_routes config) eqn:Hset; cbn [negb] in Ht.
  2:{ injection Ht as <-. exists false. split; [done|]. split; [done|]. by intros [? _]. }
  apply bind_ok_inv in Ht as (nets & Hn & [= <-]). cbn [routes].
  destruct (split_routes vpn_config) as [|r0 rs] eqn:Hs.
  - assert (any_contains nets dest = Ok true) as ->.
    { pose proof (u32_of_ipv4_range _ Hd) as Hr. unfold is_u32 in Hr. destruct (half_internet_routes config).
      - apply bind_ok_inv in Hn as (low & Hl & Hn). apply bind_ok_inv in Hn as (high & Hh & [= <-]).
        cbn [any_contains]. rewrite (contains_new (Ipv4 0 0 0 0) 1 low), (contains_new (Ipv4 128 0 0 0) 1 high)
          by (done || lia || by repeat constructor).
        unfold same_prefix. change (2 ^ (32 - Z.min 1 32)) with 2147483648.
        change (u32_of_ipv4 (Ipv4 0 0 0 0) / 2147483648) with 0.
        change (u32_of_ipv4 (Ipv4 128 0 0 0) / 2147483648) with 1.
        destruct (Z.lt_ge_cases (u32_of_ipv4 dest) 2147483648).
        + by rewrite (Z.div_small (u32_of_ipv4 dest)) by lia.
        + replace (u32_of_ipv4 dest / 2147483648) with 1; [done|].
          apply (Z.div_unique _ _ _ (u32_of_ipv4 dest - 2147483648)); lia.
      - apply bind_ok_inv in Hn as (net & Hl & [= <-]). cbn [any_contains].
        rewrite (contains_new (Ipv4 0 0 0 0) 0 net) by (done || lia || by repeat constructor).
        unfold same_prefix. change (2 ^ (32 - Z.min 0 32)) with 4294967296.
        by rewrite (Z.div_small (u32_of_ipv4 dest)) by lia. }
    exists true. split; [done|]. split; auto.
  - destruct (any_contains_ok nets dest (λ net, contains net dest = Ok true)) as (b & -> & Hb).
    { intros net (r & _ & (a & p & Ha & Hp & Hnew)%from_addr_and_mask_ok)%(split_route_nets_ok _ _ Hn).
      apply mask_to_prefix_spec in Hp as [Hp _]. apply parse_ipv4_wf in Ha.
      rewrite (contains_new a p) by (done || lia). eexists. split; [done|]. split; congruence. }
    exists b. split; [done|]. rewrite Hb. split.
    + intros (net & (r & Hr & Hnet)%(split_route_nets_ok _ _ Hn) & Hc). split; [done|]. right.
      apply Exists_exists. exists r. split; [done|].
      apply from_addr_and_mask_ok in Hnet as (a & p & Ha & Hp & Hnew).
      apply mask_to_prefix_spec in Hp as (Hp & Hm). pose proof (parse_ipv4_wf _ _ Ha).
      rewrite (contains_new a p) in Hc by (done || lia). injection Hc as Hc.
      rewrite Z.min_l in Hc by lia. exists a, p. eauto.
    + intros (_ & [|(r & Hr & a & p & Ha & Hp & Hsame & Hm)%Exists_exists]); [done|].
      pose proof (parse_ipv4_wf _ _ Ha). pose proof (new_ok a p ltac:(done) ltac:(lia)) as Hnew.
      eexists. split.
      * apply (split_route_nets_ok _ _ Hn). exists r. split; [done|]. apply from_addr_and_mask_ok.
        exists a, p. split_and!; [done| |exact Hnew]. by apply mask_to_prefix_spec.
      * rewrite (contains_new a p) by (done || lia). by rewrite Z.min_l by lia; rewrite Hsame.
Qed.

Definition demo_vpn_config : VpnConfigXml :=
  {| raw_xml := ""; gateway := Some "10.212.134.200"; assigned_ip := Some "10.212.134.200";
     dns_servers := ["10.0.0.10"]; dns_suffix := Some "corp.example";
     split_routes :=
       [{| destination := "10.10.0.0"; mask := "255.255.0.0"; route_gateway := Some "10.212.134.200" |};
        {| destination := "x"; mask := "255.255.0.0"; route_gateway := None |}] |}.

Lemma can_route_spec_witness :
  ∃ b, can_route {| routes := [{| network := Ipv4 10 10 0 0; prefix := 16 |}] |} (Ipv4 10 10 25 1) = Ok b ∧
    (b = true ↔ set_routes default_config = true ∧
      (split_routes demo_vpn_config = [] ∨ Exists (route_covers (Ipv4 10 10 25 1)) (split_routes demo_vpn_config))).
Proof.
  apply (can_route_spec default_config demo_vpn_config).
  - vm_compute. reflexivity.
  - repeat constructor; vm_compute; congruence.
Defined.
