(* ===== verification/NetPlan.v ===== *)
(** * [net_plan.rs]: the plan of the network actions

    What is to be done to the routes and the name servers of the host, as a
    list of actions [NetApply] performs in order. *)

From S2P Require Import Prelude Stream RustStd Config Http Portal RouteTable.

#[local] Open Scope string_scope.
#[local] Open Scope list_scope.
#[local] Open Scope Z_scope.

Inductive Platform := Linux | MacOs.

#[export] Instance Platform_eq_dec : EqDecision Platform.
Proof. solve_decision. Defined.

Inductive NetworkAction :=
  | DropWrongTunnelRoute (platform : Platform) (endpoint : Ipv4Addr) (interface : str)
  | ProtectTunnelRoute (platform : Platform) (endpoint : Ipv4Addr)
  | RunCommand (program : str) (args : list str)
  | ReplaceDefaultRoute (platform : Platform) (interface : str)
  | ConfigureDns (platform : Platform) (interface : str) (servers : list str) (search_domain : option str).

#[export] Instance NetworkAction_eq_dec : EqDecision NetworkAction.
Proof. solve_decision. Defined.

Record NetworkPlan := { actions : list NetworkAction }.

(** The copy of the mask parser of this file: the octets are counted by a
    second split. *)
Fixpoint mask_octets (l : list str) (prefix : u8) (saw_zero : bool) : result (option u8) :=
  match l with
  | [] => Ok (Some prefix)
  | octet :: l =>
      match parse_u8 octet with
      | None => Ok None
      | Some octet =>
          let* bits := RouteTable.mask_bits octet RouteTable.BITS prefix saw_zero in
          match bits with
          | None => Ok None
          | Some (prefix, saw_zero) => mask_octets l prefix saw_zero
          end
      end
  end.

Definition ipv4_mask_to_prefix (mask : str) : result (option u8) :=
  let* r := mask_octets (str_split "."%char mask) 0 false in
  match r with
  | Some prefix =>
      if len (str_split "."%char mask) =? 4 then Ok (Some prefix) else Ok None
  | None => Ok None
  end.

Definition route_action_from_parts (destination mask : str) (gateway : option str) (platform : Platform)
    (interface : str) : result NetworkAction :=
  match platform with
  | Linux =>
      let* prefix := ipv4_mask_to_prefix mask in
      let destination :=
        match prefix with
        | Some prefix => destination +:+ "/" +:+ print_uint prefix
        | None => destination +:+ "/" +:+ mask
        end in
      Ok (RunCommand "ip"
        (["route"; "add"; destination] ++ match gateway with Some g => ["via"; g] | None => [] end
         ++ ["dev"; interface]))
  | MacOs =>
      Ok (RunCommand "/sbin/route"
        (["add"; "-net"; destination; "-netmask"; mask]
         ++ match gateway with Some g => [g] | None => ["-interface"; interface] end))
  end.

Definition route_action (route : Ipv4Route) (platform : Platform) (interface : str)
    : result (option NetworkAction) :=
  match route_gateway route with
  | None => Ok None
  | Some gateway =>
      let* action :=
        route_action_from_parts (destination route) (mask route) (Some gateway) platform interface in
      Ok (Some action)
  end.

Fixpoint route_actions (l : list Ipv4Route) (platform : Platform) (interface : str)
    : result (list NetworkAction) :=
  match l with
  | [] => Ok []
  | route :: l =>
      let* action := route_action route platform interface in
      let* rest := route_actions l platform interface in
      Ok (match action with Some action => action :: rest | None => rest end)
  end.

Definition plan_routes (split_routes : list Ipv4Route) (half_internet_routes : bool)
    (_gateway : option str) (platform : Platform) (interface : str) : result (list NetworkAction) :=
  match split_routes with
  | _ :: _ => route_actions split_routes platform interface
  | [] =>
      if half_internet_routes then
        let* low := route_action_from_parts "0.0.0.0" "128.0.0.0" None platform interface in
        let* high := route_action_from_parts "128.0.0.0" "128.0.0.0" None platform interface in
        Ok [low; high]
      else Ok [ReplaceDefaultRoute platform interface]
  end.

Definition plan_network_actions (config : Config) (vpn_config : VpnConfigXml) (platform : Platform)
    (interface : str) (tunnel_endpoint : option Ipv4Addr) : result NetworkPlan :=
  let* route_actions :=
    if set_routes config then
      let endpoint_actions :=
        match tunnel_endpoint with
        | Some endpoint =>
            [DropWrongTunnelRoute platform endpoint interface; ProtectTunnelRoute platform endpoint]
        | None => []
        end in
      let* routes :=
        plan_routes (split_routes vpn_config) (half_internet_routes config) (gateway vpn_config)
          platform interface in
      Ok (endpoint_actions ++ routes)
    else Ok [] in
  let dns_actions :=
    if set_dns config
       && (match dns_servers vpn_config with [] => false | _ => true end
           || match dns_suffix vpn_config with Some _ => true | None => false end)
    then [ConfigureDns platform interface (dns_servers vpn_config) (dns_suffix vpn_config)]
    else [] in
  Ok {| actions := route_actions ++ dns_actions |}.

(** A plan is always made, unless a mask makes its parser overflow. *)
Lemma bind_ends {A B} (c : result A) (f : A → result B) :
  c ≠ Diverge → (∀ x, f x ≠ Diverge) → bind c f ≠ Diverge.
Proof. destruct c; cbn; auto. Qed.

Lemma mask_bits_ends octet bits prefix saw_zero : RouteTable.mask_bits octet bits prefix saw_zero ≠ Diverge.
Proof.
  revert prefix saw_zero. induction bits as [|b bits IH]; intros prefix saw_zero; cbn [RouteTable.mask_bits]; [done|].
  destruct (negb _); [|apply IH]. destruct saw_zero; [done|]. apply bind_ends; [|intros p; apply IH].
  unfold RouteTable.u8_succ. by case_match.
Qed.

Lemma route_action_from_parts_ends destination mask gateway platform interface :
  route_action_from_parts destination mask gateway platform interface ≠ Diverge.
Proof.
  destruct platform; [|done]. cbn [route_action_from_parts]. apply bind_ends; [|done]. unfold ipv4_mask_to_prefix.
  apply bind_ends; [|by intros []; [case_match|]]. generalize (str_split "."%char mask). intros l.
  generalize 0 false. induction l as [|o l IH]; intros prefix saw_zero; cbn [mask_octets]; [done|].
  destruct (parse_u8 o); [|done]. apply bind_ends; [apply mask_bits_ends|]. intros [[p x]|]; [apply IH|done].
Qed.

Lemma route_actions_ends l platform interface : route_actions l platform interface ≠ Diverge.
Proof.
  induction l as [|r l IH]; cbn [route_actions]; [done|]. apply bind_ends.
  - unfold route_action. destruct (route_gateway r); [|done]. apply bind_ends; [apply route_action_from_parts_ends|done].
  - intros a. by apply bind_ends.
Qed.

Lemma plan_ends config vpn_config platform interface endpoint :
  plan_network_actions config vpn_config platform interface endpoint ≠ Diverge.
Proof.
  unfold plan_network_actions. apply bind_ends; [|done]. destruct (set_routes config); [|done].
  apply bind_ends; [|done]. unfold plan_routes. destruct (split_routes vpn_config); [|apply route_actions_ends].
  destruct (half_internet_routes config); [|done].
  repeat (apply bind_ends; [apply route_action_from_parts_ends|intros ?]). done.
Qed.

(** ** Specifications *)

(** The network a planned action routes into the tunnel, read from its command
    line. *)
Definition command_net (a : NetworkAction) : result (option RouteTable.Ipv4Net) :=
  match a with
  | RunCommand "ip" ("route" :: "add" :: target :: _) =>
      match rsplit_once "/"%char target with
      | Some (addr, prefix) =>
          match parse_ipv4 addr, parse_u8 prefix with
          | Some addr, Some prefix =>
              let* net := RouteTable.new addr prefix in Ok (Some net)
          | _, _ => Ok None
          end
      | None => Ok None
      end
  | RunCommand "/sbin/route" ("add" :: "-net" :: addr :: "-netmask" :: mask :: _) =>
      RouteTable.from_addr_and_mask addr mask
  | ReplaceDefaultRoute _ _ => let* net := RouteTable.new (Ipv4 0 0 0 0) 0 in Ok (Some net)
  | _ => Ok None
  end.

Fixpoint plan_nets (l : list NetworkAction) : result (list RouteTable.Ipv4Net) :=
  match l with
  | [] => Ok []
  | a :: l =>
      let* net := command_net a in
      let* nets := plan_nets l in
      Ok (match net with Some net => net :: nets | None => nets end)
  end.

(** ** The two mask parsers *)

Lemma mask_octets_agree n l p z :
  RouteTable.mask_octets n l p z =
    let* r := mask_octets l p z in Ok (option_map (λ p, (p, n + len l)) r).
Proof.
  revert n p z. induction l as [|s l IH]; intros n p z; cbn [mask_octets RouteTable.mask_octets].
  - cbn. by rewrite len_nil, Z.add_0_r.
  - destruct (parse_u8 s) as [b|]; [|done].
    destruct (RouteTable.mask_bits b RouteTable.BITS p z) as [[[q y]|]| | |]; try done. cbn [bind].
    rewrite IH. destruct (mask_octets l q y) as [[r|]| | |]; try done. cbn. by rewrite len_cons, Z.add_assoc.
Qed.

Lemma mask_parsers_equal mask : ipv4_mask_to_prefix mask = RouteTable.ipv4_mask_to_prefix mask.
Proof.
  unfold ipv4_mask_to_prefix, RouteTable.ipv4_mask_to_prefix. rewrite mask_octets_agree.
  by destruct (mask_octets _ 0 false) as [[r|]| | |].
Qed.

(** The planner and the proxy read every mask alike, the one that counts
    the octets as it goes and the one that splits the text again. *)
Theorem mask_parsers_agree mask : ipv4_mask_to_prefix mask = RouteTable.ipv4_mask_to_prefix mask.
Proof. apply mask_parsers_equal. Qed.

(** ** The plan and the proxy's table *)

Lemma print_uint_no_slash n : 0 <= n → no_char "/"%char (print_uint n) = true.
Proof.
  intros Hn. apply (chars_impl is_ascii_digit (λ d, negb (Ascii.eqb d "/"%char))); [vm_compute; reflexivity|].
  by apply print_uint_digits.
Qed.

Lemma rsplit_once_none c s : no_char c s = true → rsplit_once c s = None.
Proof.
  induction s as [|d s IH]; [done|]. cbn [all_chars rsplit_once]. intros [H1%negb_true_iff H2]%andb_true_iff.
  by rewrite IH, H1.
Qed.

Lemma rsplit_once_last c a b : no_char c b = true → rsplit_once c (a +:+ String c b) = Some (a, b).
Proof.
  intros Hb. induction a as [|d a IH].
  - change ("" +:+ String c b) with (String c b). cbn [rsplit_once]. by rewrite rsplit_once_none, Ascii.eqb_refl.
  - rewrite cons_app. cbn [rsplit_once]. by rewrite IH.
Qed.

(** A mask as it is written: octets with dots, whatever they are. *)
Definition dotted (m : str) : Prop := no_char "/"%char m = true ∧ no_char "."%char m = false.

Lemma parse_digits_dot max acc s : no_char "."%char s = false → parse_digits max acc s = None.
Proof.
  revert acc. induction s as [|c s IH]; intros acc; [done|]. cbn [all_chars parse_digits].
  intros [Hc%negb_false_iff|H]%andb_false_iff.
  - apply Ascii.eqb_eq in Hc as ->. reflexivity.
  - destruct (digit_value c); [|done]. case_match; [by apply IH|done].
Qed.

Lemma parse_u8_dot s : no_char "."%char s = false → parse_u8 s = None.
Proof.
  intros H. unfold parse_u8, parse_uint. destruct s as [|c s]; [done|].
  destruct (Ascii.eqb_spec c "+"%char) as [->|_]; [|by apply parse_digits_dot].
  assert (no_char "."%char s = false) as Hs by exact H. destruct s; [done|]. by apply parse_digits_dot.
Qed.

(** A route as the command the plan has for it. *)
Lemma command_net_route dest mask gw platform interface a :
  dotted mask → route_action_from_parts dest mask gw platform interface = Ok a →
  command_net a = RouteTable.from_addr_and_mask dest mask.
Proof.
  intros [Hslash Hdot]. unfold route_action_from_parts. destruct platform; [|by intros [= <-]].
  rewrite mask_parsers_equal. intros (o & Hp & [= <-])%bind_ok_inv. cbn [command_net app].
  unfold RouteTable.from_addr_and_mask. rewrite Hp. destruct o as [p|].
  - pose proof Hp as Hr. apply mask_to_prefix_spec in Hr as [Hr _].
    change (dest +:+ "/" +:+ print_uint p) with (dest +:+ String "/" (print_uint p)).
    rewrite rsplit_once_last by (apply print_uint_no_slash; lia).
    unfold parse_u8. rewrite parse_print_uint by lia. by destruct (parse_ipv4 dest).
  - change (dest +:+ "/" +:+ mask) with (dest +:+ String "/" mask). rewrite rsplit_once_last by done.
    rewrite parse_u8_dot by done. by destruct (parse_ipv4 dest).
Qed.

(** The routes the planner has commands for. *)
Definition has_gateway (r : Ipv4Route) : bool := match route_gateway r with Some _ => true | None => false end.

Lemma plan_nets_routes l platform interface acts :
  Forall (λ r, dotted (mask r)) l → route_actions l platform interface = Ok acts →
  plan_nets acts = RouteTable.split_route_nets (List.filter has_gateway l).
Proof.
  intros H. revert acts. induction H as [|r l Hd Hl IH]; intros acts; cbn [route_actions List.filter].
  - by intros [= <-].
  - unfold route_action, has_gateway at 1. destruct (route_gateway r) as [g|].
    + intros (o & Ho & Hr)%bind_ok_inv. apply bind_ok_inv in Ho as (a & Ha & [= <-]).
      apply bind_ok_inv in Hr as (rest & Hrest & [= <-]).
      cbn [plan_nets RouteTable.split_route_nets]. rewrite (command_net_route _ _ _ _ _ _ Hd Ha).
      by rewrite (IH _ Hrest).
    + cbn [bind]. intros (rest & Hrest & [= <-])%bind_ok_inv. by apply IH.
Qed.

Lemma split_route_nets_filter f l nets : RouteTable.split_route_nets l = Ok nets →
  ∃ kept, RouteTable.split_route_nets (List.filter f l) = Ok kept ∧ sublist kept nets.
Proof.
  revert nets. induction l as [|r l IH]; intros nets; cbn [RouteTable.split_route_nets List.filter].
  { intros [= <-]. by exists []. }
  intros (o & Ho & H)%bind_ok_inv. apply bind_ok_inv in H as (rest & (kept & Hk & Hs)%IH & [= <-]).
  destruct (f r); cbn [RouteTable.split_route_nets]; rewrite ?Ho, Hk; cbn [bind]; eexists; (split; [reflexivity|]);
    destruct o; try done; by constructor.
Qed.

Lemma plan_nets_app l k :
  plan_nets (l ++ k) = let* a := plan_nets l in let* b := plan_nets k in Ok (a ++ b).
Proof.
  induction l as [|x l IH]; cbn [app plan_nets].
  - by destruct (plan_nets k).
  - rewrite IH. destruct (command_net x) as [[n|]| | |], (plan_nets l); try done; cbn [bind];
      by destruct (plan_nets k).
Qed.

(** What the plan has of routes, besides the protection of the endpoint and the
    names, is what [plan_routes] made. *)
Lemma plan_nets_of_routes config vpn_config platform interface endpoint plan :
  plan_network_actions config vpn_config platform interface endpoint = Ok plan →
  if set_routes config
  then ∃ racts, plan_routes (split_routes vpn_config) (half_internet_routes config) (gateway vpn_config) platform interface = Ok racts ∧
    ∀ nets, plan_nets racts = Ok nets → plan_nets (actions plan) = Ok nets
  else plan_nets (actions plan) = Ok [].
Proof.
  unfold plan_network_actions.
  assert (∀ e, plan_nets match e with Some endpoint => [DropWrongTunnelRoute platform endpoint interface;
    ProtectTunnelRoute platform endpoint] | None => [] end = Ok []) as He by (intros []; reflexivity).
  assert (∀ b : bool, plan_nets (if b then [ConfigureDns platform interface (dns_servers vpn_config) (dns_suffix vpn_config)]
    else []) = Ok []) as Hb by (intros []; reflexivity).
  destruct (set_routes config); intros (acts & Ha & [= <-])%bind_ok_inv; cbn [actions].
  - apply bind_ok_inv in Ha as (racts & Hra & [= <-]). exists racts. split; [done|]. intros nets Hn.
    rewrite !plan_nets_app, He, Hb, Hn. cbn [bind app]. by rewrite app_nil_r.
  - injection Ha as <-. by rewrite plan_nets_app, Hb.
Qed.

Lemma default_routes_nets (half : bool) gw platform interface racts nets :
  plan_routes [] half gw platform interface = Ok racts →
  (if half then let* low := RouteTable.new (Ipv4 0 0 0 0) 1 in let* high := RouteTable.new (Ipv4 128 0 0 0) 1 in Ok [low; high]
   else let* all := RouteTable.new (Ipv4 0 0 0 0) 0 in Ok [all]) = Ok nets →
  plan_nets racts = Ok nets.
Proof.
  intros Hra <-. destruct half; cbn [plan_routes] in Hra; [|by injection Hra as <-].
  apply bind_ok_inv in Hra as (low & Hl & Hra). apply bind_ok_inv in Hra as (high & Hh & [= <-]).
  assert (dotted "128.0.0.0") as Hm by done.
  cbn [plan_nets]. by rewrite (command_net_route _ _ _ _ _ _ Hm Hl), (command_net_route _ _ _ _ _ _ Hm Hh).
Qed.

Lemma filter_all {A} (f : A → bool) l : Forall (λ x, f x = true) l → List.filter f l = l.
Proof. induction 1 as [|x l Hx Hl IH]; [done|]. cbn [List.filter]. by rewrite Hx, IH. Qed.

Lemma plan_nets_actions config vpn_config platform interface endpoint plan table :
  Forall (λ r, dotted (mask r)) (split_routes vpn_config) →
  plan_network_actions config vpn_config platform interface endpoint = Ok plan →
  RouteTable.from_config config vpn_config = Ok table →
  ∃ nets, plan_nets (actions plan) = Ok nets ∧ sublist nets (RouteTable.routes table) ∧
    (Forall (λ r, has_gateway r = true) (split_routes vpn_config) → nets = RouteTable.routes table) ∧
    (set_routes config = true → split_routes vpn_config ≠ [] →
      RouteTable.split_route_nets (List.filter has_gateway (split_routes vpn_config)) = Ok nets ∧
      RouteTable.split_route_nets (split_routes vpn_config) = Ok (RouteTable.routes table)).
Proof.
  intros Hd Hplan%plan_nets_of_routes. unfold RouteTable.from_config.
  destruct (set_routes config); cbn [negb]; [|by intros [= <-]; exists []].
  intros (nets & Hn & [= <-])%bind_ok_inv. cbn [RouteTable.routes]. destruct Hplan as (racts & Hra & Hplan).
  destruct (split_routes vpn_config) as [|r rs].
  { exists nets. split; [by eapply Hplan, default_routes_nets|]. by split_and!. }
  destruct (split_route_nets_filter has_gateway _ _ Hn) as (kept & Hk & Hs). exists kept.
  split; [apply Hplan; by rewrite (plan_nets_routes _ _ _ _ Hd Hra)|]. split_and!; try done.
  intros Hall. rewrite filter_all in Hk by done. congruence.
Qed.


Definition demo_routes : VpnConfigXml :=
  {| raw_xml := ""; gateway := Some "10.212.134.200"; assigned_ip := None; dns_servers := ["10.0.0.10"];
     dns_suffix := None;
     split_routes :=
       [{| destination := "10.10.0.0"; mask := "255.255.0.0"; route_gateway := Some "10.212.134.200" |};
        {| destination := "192.168.1.0"; mask := "255.255.255.0"; route_gateway := Some "10.212.134.200" |}] |}.

Definition demo_plan : NetworkPlan :=
  {| actions :=
       [DropWrongTunnelRoute Linux (Ipv4 1 2 3 4) "ppp0"; ProtectTunnelRoute Linux (Ipv4 1 2 3 4);
        RunCommand "ip" ["route"; "add"; "10.10.0.0/16"; "via"; "10.212.134.200"; "dev"; "ppp0"];
        RunCommand "ip" ["route"; "add"; "192.168.1.0/24"; "via"; "10.212.134.200"; "dev"; "ppp0"];
        ConfigureDns Linux "ppp0" ["10.0.0.10"] None] |}.


(** Without an assigned address the host routes nothing, the proxy does. *)
Definition unassigned : VpnConfigXml :=
  {| raw_xml := ""; gateway := None; assigned_ip := None; dns_servers := []; dns_suffix := None;
     split_routes := [{| destination := "10.10.0.0"; mask := "255.255.0.0"; route_gateway := None |}] |}.

Example unassigned_routes :
  plan_network_actions default_config unassigned Linux "ppp0" None = Ok {| actions := [] |} ∧
  RouteTable.from_config default_config unassigned =
    Ok {| RouteTable.routes := [{| RouteTable.network := Ipv4 10 10 0 0; RouteTable.prefix := 16 |}] |}.
Proof. split; vm_compute; reflexivity. Qed.

(** ** The order of the plan *)

Definition is_route_action (a : NetworkAction) : bool :=
  match a with RunCommand _ _ | ReplaceDefaultRoute _ _ => true | _ => false end.

Lemma plan_routes_kind l half gw platform interface acts :
  plan_routes l half gw platform interface = Ok acts → Forall (λ a, is_route_action a = true) acts.
Proof.
  assert (∀ d m g p i a, route_action_from_parts d m g p i = Ok a → is_route_action a = true) as Hp.
  { intros d m g [] i a; unfold route_action_from_parts.
    - by intros (x & _ & [= <-])%bind_ok_inv.
    - by intros [= <-]. }
  assert (∀ l acts, route_actions l platform interface = Ok acts → Forall (λ a, is_route_action a = true) acts) as Hl.
  { clear acts. intros k. induction k as [|r k IH]; intros acts; cbn [route_actions]; [by intros [= <-]|].
    unfold route_action. destruct (route_gateway r).
    - intros (o & Ho & H)%bind_ok_inv. apply bind_ok_inv in Ho as (a & Ha & [= <-]).
      apply bind_ok_inv in H as (rest & Hr & [= <-]). constructor; eauto.
    - intros H. apply bind_ok_inv in H as (o & [= <-] & H). apply bind_ok_inv in H as (rest & Hr & [= <-]). eauto. }
  unfold plan_routes. destruct l as [|r l]; [|apply Hl]. destruct half; [|by intros [= <-]; repeat constructor].
  intros (a & Ha%Hp & H)%bind_ok_inv. apply bind_ok_inv in H as (b & Hb%Hp & [= <-]). auto.
Qed.

(** C32: A plan never cuts the tunnel it installs: when routes are set and the
    gateway's address is known, its wrong route is dropped and its own route
    protected before any other route is touched, name servers come last, and
    without [set_routes] the plan touches no route at all. *)
Theorem plan_protects_endpoint_first config vpn_config platform interface endpoint plan :
  plan_network_actions config vpn_config platform interface endpoint = Ok plan →
  ∃ guard routes dns, actions plan = guard ++ routes ++ dns ∧
    Forall (λ a, is_route_action a = true) routes ∧
    (guard = match endpoint with
             | Some e => if set_routes config
                         then [DropWrongTunnelRoute platform e interface; ProtectTunnelRoute platform e] else []
             | None => []
             end) ∧
    (set_routes config = false → routes = []) ∧
    (dns = [] ∨ (set_dns config = true ∧
      dns = [ConfigureDns platform interface (dns_servers vpn_config) (dns_suffix vpn_config)])).
Proof.
  unfold plan_network_actions. intros (acts & Ha & [= <-])%bind_ok_inv. cbn [actions].
  set (dns := if set_dns config && _ then _ else _).
  assert (dns = [] ∨ set_dns config = true ∧
    dns = [ConfigureDns platform interface (dns_servers vpn_config) (dns_suffix vpn_config)]) as Hdns.
  { unfold dns. destruct (set_dns config); cbn [andb]; [|by left].
    destruct (_ || _); auto. }
  destruct (set_routes config).
  - apply bind_ok_inv in Ha as (routes & Hr%plan_routes_kind & [= <-]).
    exists (match endpoint with Some e => [DropWrongTunnelRoute platform e interface; ProtectTunnelRoute platform e]
            | None => [] end), routes, dns.
    rewrite <- app_assoc. split_and!; try done.
  - injection Ha as <-. exists [], [], dns. by destruct endpoint.
Qed.

Lemma plan_protects_endpoint_first_witness :
  ∃ guard routes dns, actions demo_plan = guard ++ routes ++ dns ∧
    Forall (λ a, is_route_action a = true) routes ∧
    guard = [DropWrongTunnelRoute Linux (Ipv4 1 2 3 4) "ppp0"; ProtectTunnelRoute Linux (Ipv4 1 2 3 4)] ∧
    (set_routes default_config = false → routes = []) ∧
    (dns = [] ∨ (set_dns default_config = true ∧
      dns = [ConfigureDns Linux "ppp0" (dns_servers demo_routes) (dns_suffix demo_routes)])).
Proof.
  apply (plan_protects_endpoint_first default_config demo_routes Linux "ppp0" (Some (Ipv4 1 2 3 4))).
  vm_compute. reflexivity.
Defined.
