(* ===== verification/Dns.v ===== *)
(** * [proxy/dns.rs]: DNS over TCP

    Building the query for the address of a name, and reading the addresses of
    a response. *)

From S2P Require Import Prelude RustStd.

#[local] Open Scope string_scope.
#[local] Open Scope list_scope.
#[local] Open Scope Z_scope.

Definition DNS_TYPE_A : u16 := 1.
Definition DNS_CLASS_IN : u16 := 1.
Definition DNS_HEADER_LEN : usize := 12.

Definition bad_label (name : str) : OpenfortivpnError := Network ("bad DNS label in " +:+ name).

(** ** Queries *)

Fixpoint encode_labels (name : str) (labels : list str) : result bytes :=
  match labels with
  | [] => Ok []
  | label :: labels =>
      if str_is_empty label || (63 <? str_len label) then Err (bad_label name)
      else let* rest := encode_labels name labels in
           Ok (as_u8 (str_len label) :: as_bytes label ++ rest)
  end.

Definition encode_name (name : str) : result bytes :=
  let trimmed := trim_end_matches "."%char name in
  if str_is_empty trimmed then Ok [0]
  else let* labels := encode_labels name (str_split "."%char trimmed) in Ok (labels ++ [0]).

Definition build_tcp_query (id : u16) (name : str) : result bytes :=
  let* encoded := encode_name name in
  let message :=
    u16_to_be id ++ u16_to_be 0x0100 ++ u16_to_be 1 ++ u16_to_be 0 ++ u16_to_be 0 ++ u16_to_be 0
      ++ encoded ++ u16_to_be DNS_TYPE_A ++ u16_to_be DNS_CLASS_IN in
  if 65535 <? len message then Err (Network ("DNS query for " +:+ name +:+ " is too large"))
  else Ok (u16_to_be (as_u16 (len message)) ++ message).

(** ** Responses *)

(** [u16::from_be_bytes([l[i], l[i + 1]])] *)
Definition be16_at (l : bytes) (i : usize) : result u16 :=
  let* hi := index l i in let* lo := index l (i + 1) in Ok (u16_from_be hi lo).

(** The loop ends after 129 labels at the latest. *)
Definition MAX_JUMPS : nat := 129.

Fixpoint skip_name_loop (fuel : nat) (message : bytes) (offset : usize) (jumps : Z) : result usize :=
  match fuel with
  | O => Diverge
  | S fuel =>
      if len message <=? offset then Err (Network "truncated DNS name") else
      let* n := index message offset in
      if Z.land n 0xc0 =? 0xc0 then
        if len message <=? offset + 1 then Err (Network "truncated DNS name pointer")
        else Ok (offset + 2)
      else if n =? 0 then Ok (offset + 1)
      else if negb (Z.land n 0xc0 =? 0) then Err (Network "unsupported DNS label encoding")
      else
        let jumps := jumps + 1 in
        if 128 <? jumps then Err (Network "DNS name too deep")
        else skip_name_loop fuel message (offset + (1 + n)) jumps
  end.

Definition skip_name (message : bytes) (offset : usize) : result usize :=
  skip_name_loop MAX_JUMPS message offset 0.

Fixpoint skip_questions (n : nat) (message : bytes) (offset : usize) : result usize :=
  match n with
  | O => Ok offset
  | S n =>
      let* offset := skip_name message offset in
      if len message <? offset + 4 then Err (Network "truncated DNS question")
      else skip_questions n message (offset + 4)
  end.

Definition ipv4_at (l : bytes) (i : usize) : result Ipv4Addr :=
  let* a := index l i in let* b := index l (i + 1) in
  let* c := index l (i + 2) in let* d := index l (i + 3) in Ok (Ipv4 a b c d).

Fixpoint read_answers (n : nat) (message : bytes) (offset : usize) : result (list Ipv4Addr) :=
  match n with
  | O => Ok []
  | S n =>
      let* offset := skip_name message offset in
      if len message <? offset + 10 then Err (Network "truncated DNS answer") else
      let* rr_type := be16_at message offset in
      let* class := be16_at message (offset + 2) in
      let* rdlen := be16_at message (offset + 8) in
      let offset := offset + 10 in
      if len message <? offset + rdlen then Err (Network "truncated DNS rdata") else
      let* addr :=
        if (rr_type =? DNS_TYPE_A) && (class =? DNS_CLASS_IN) && (rdlen =? 4)
        then let* ip := ipv4_at message offset in Ok [ip]
        else Ok [] in
      let* addrs := read_answers n message (offset + rdlen) in
      Ok (addr ++ addrs)
  end.

Definition parse_message (message : bytes) (expected_id : u16) : result (list Ipv4Addr) :=
  if len message <? DNS_HEADER_LEN then Err (Network "short DNS response") else
  let* id := be16_at message 0 in
  if negb (id =? expected_id) then Err (Network "DNS response id mismatch") else
  let* flags := be16_at message 2 in
  if Z.land flags 0x8000 =? 0 then Err (Network "DNS response is not marked as response") else
  let rcode := Z.land flags 0x000f in
  if negb (rcode =? 0) then Err (Network ("DNS response returned rcode " +:+ print_uint rcode)) else
  let* qdcount := be16_at message 4 in
  let* ancount := be16_at message 6 in
  let* offset := skip_questions (Z.to_nat qdcount) message DNS_HEADER_LEN in
  read_answers (Z.to_nat ancount) message offset.

Definition parse_tcp_response (frame : bytes) (expected_id : u16) : result (list Ipv4Addr) :=
  if len frame <? 2 then Ok [] else
  let* n := be16_at frame 0 in
  if len frame <? 2 + n then Ok [] else
  let* message := slice frame 2 (2 + n) in
  parse_message message expected_id.

(** ** Specifications *)

(** Names on the wire: labels, then the root or a pointer. *)
Inductive name_end := Root | Pointer (hi lo : u8).
Record wire_name := { labels : list bytes; ending : name_end }.

Definition label_bytes (label : bytes) : bytes := len label :: label.
Definition name_bytes (n : wire_name) : bytes :=
  concat (map label_bytes (labels n)) ++ match ending n with Root => [0] | Pointer hi lo => [hi; lo] end.

Definition label_ok (label : bytes) : Prop := 0 < len label <= 63.
Definition name_ok (n : wire_name) : Prop :=
  Forall label_ok (labels n) ∧ (length (labels n) <= 128)%nat ∧
  match ending n with Root => True | Pointer hi _ => 192 <= hi < 256 end.

Record question := { q_name : wire_name; q_type : u16; q_class : u16 }.
Record answer := { a_name : wire_name; a_type : u16; a_class : u16; a_ttl : u32; a_data : bytes }.

Definition question_bytes (q : question) : bytes :=
  name_bytes (q_name q) ++ u16_to_be (q_type q) ++ u16_to_be (q_class q).
Definition answer_bytes (a : answer) : bytes :=
  name_bytes (a_name a) ++ u16_to_be (a_type a) ++ u16_to_be (a_class a) ++ u32_to_be (a_ttl a)
    ++ u16_to_be (len (a_data a)) ++ a_data a.

Definition answer_ok (a : answer) : Prop :=
  name_ok (a_name a) ∧ is_u16 (a_type a) ∧ is_u16 (a_class a) ∧ is_u16 (len (a_data a)).

(** The address of an answer. *)
Definition answer_addr (a : answer) : option Ipv4Addr :=
  match a_data a with
  | [x; y; z; w] => if (a_type a =? 1) && (a_class a =? 1) then Some (Ipv4 x y z w) else None
  | _ => None
  end.

Definition response_message (id flags : u16) (qs : list question) (ans : list answer) (more : bytes) : bytes :=
  u16_to_be id ++ u16_to_be flags ++ u16_to_be (len qs) ++ u16_to_be (len ans) ++ u16_to_be 0 ++ u16_to_be 0
    ++ concat (map question_bytes qs) ++ concat (map answer_bytes ans) ++ more.

(** ** Names *)

Lemma label_length_byte n : 0 < n <= 63 → Z.land n 0xc0 = 0.
Proof.
  intros Hn. assert (implb ((0 <? n) && (n <=? 63)) (Z.land n 0xc0 =? 0) = true) as H.
  { assert (is_u8 n) by (unfold is_u8; lia). by_all_u8 (λ n, implb ((0 <? n) && (n <=? 63)) (Z.land n 0xc0 =? 0)) n. }
  rewrite (proj2 (Z.ltb_lt _ _)), (proj2 (Z.leb_le _ _)) in H by lia. by apply Z.eqb_eq.
Qed.

Lemma pointer_byte n : 192 <= n < 256 → Z.land n 0xc0 = 0xc0.
Proof.
  intros Hn. assert (implb (192 <=? n) (Z.land n 0xc0 =? 0xc0) = true) as H.
  { assert (is_u8 n) by (unfold is_u8; lia). by_all_u8 (λ n, implb (192 <=? n) (Z.land n 0xc0 =? 0xc0)) n. }
  rewrite (proj2 (Z.leb_le _ _)) in H by lia. by apply Z.eqb_eq.
Qed.

Lemma index_app_at {A} (p : list A) x s i : i = len p → index (p ++ x :: s) i = Ok x.
Proof.
  intros ->. apply index_lookup; [apply len_nonneg|]. unfold len. rewrite Nat2Z.id. by apply list_lookup_middle.
Qed.

Lemma name_bytes_cons l ls e :
  name_bytes {| labels := l :: ls; ending := e |} = len l :: l ++ name_bytes {| labels := ls; ending := e |}.
Proof. unfold name_bytes. cbn [labels ending map concat label_bytes app]. unfold label_bytes. by rewrite <- app_assoc. Qed.

Lemma skip_name_loop_ok ls e fuel jumps pre rest :
  Forall label_ok ls → (length ls < fuel)%nat → jumps + len ls <= 128 →
  match e with Root => True | Pointer hi _ => 192 <= hi < 256 end →
  skip_name_loop fuel (pre ++ name_bytes {| labels := ls; ending := e |} ++ rest) (len pre) jumps =
    Ok (len pre + len (name_bytes {| labels := ls; ending := e |})).
Proof.
  intros Hls. revert fuel jumps pre. induction Hls as [|l ls Hl Hls IH]; intros [|fuel] jumps pre Hf Hj He;
    cbn [length] in Hf; try lia; cbn [skip_name_loop].
  - destruct e as [|hi lo]; unfold name_bytes; cbn [labels ending map concat app].
    + rewrite (proj2 (Z.leb_gt _ _)) by len_lia. rewrite index_app_at by done. done.
    + rewrite (proj2 (Z.leb_gt _ _)) by len_lia. rewrite index_app_at by done. cbn [bind].
      rewrite pointer_byte by done. rewrite Z.eqb_refl. rewrite (proj2 (Z.leb_gt _ _)) by len_lia. done.
  - rewrite name_bytes_cons. cbn [app]. unfold label_ok in Hl. rewrite <- app_assoc.
    rewrite (proj2 (Z.leb_gt _ _)) by len_lia. rewrite index_app_at by done. cbn [bind].
    rewrite label_length_byte by done. change (0 =? 0xc0) with false. cbv iota. rewrite (proj2 (Z.eqb_neq _ _)) by lia.
    change (0 =? 0) with true. cbn [negb].
    rewrite len_cons in Hj. pose proof (len_nonneg ls). rewrite (proj2 (Z.ltb_ge 128 _)) by lia.
    replace (pre ++ len l :: l ++ name_bytes {| labels := ls; ending := e |} ++ rest)
      with ((pre ++ len l :: l) ++ name_bytes {| labels := ls; ending := e |} ++ rest) by by rewrite <- app_assoc.
    replace (len pre + (1 + len l)) with (len (pre ++ len l :: l)) by len_lia.
    rewrite IH by (done || lia). f_equal. len_lia.
Qed.

Lemma skip_name_ok n pre rest :
  name_ok n → skip_name (pre ++ name_bytes n ++ rest) (len pre) = Ok (len pre + len (name_bytes n)).
Proof.
  intros (Hl & Hn & He). destruct n as [ls e]. cbn [labels ending] in *.
  apply skip_name_loop_ok; [done|unfold MAX_JUMPS; lia| |done]. unfold len. lia.
Qed.

(** ** Responses *)

Lemma be16_at_app p n s i : is_u16 n → i = len p → be16_at (p ++ u16_to_be n ++ s) i = Ok n.
Proof.
  intros Hn ->. unfold be16_at, u16_to_be. cbn [app]. rewrite index_app_at by done. cbn [bind].
  replace (p ++ n / 256 mod 256 :: n mod 256 :: s) with ((p ++ [n / 256 mod 256]) ++ n mod 256 :: s)
    by by rewrite <- app_assoc.
  rewrite index_app_at by len_lia. cbn [bind]. by rewrite u16_from_be_to_be.
Qed.

Lemma len_u16_to_be n : len (u16_to_be n) = 2.
Proof. done. Qed.

Lemma len_u32_to_be n : len (u32_to_be n) = 4.
Proof. done. Qed.

#[local] Hint Rewrite len_u16_to_be len_u32_to_be : len.

Lemma skip_questions_ok qs pre rest :
  Forall (λ q, name_ok (q_name q)) qs →
  skip_questions (length qs) (pre ++ concat (map question_bytes qs) ++ rest) (len pre) =
    Ok (len pre + len (concat (map question_bytes qs))).
Proof.
  intros Hqs. revert pre. induction Hqs as [|q qs Hq Hqs IH]; intros pre; cbn [length skip_questions map concat].
  - f_equal. len_lia.
  - rewrite <- app_assoc. unfold question_bytes at 1. rewrite <- !app_assoc, skip_name_ok by done. cbn [bind].
    rewrite (proj2 (Z.ltb_ge _ _)) by (unfold question_bytes; len_lia). rewrite (app_assoc pre).
    replace (len pre + len (name_bytes (q_name q)) + 4) with (len (pre ++ question_bytes q))
      by (unfold question_bytes; len_lia).
    rewrite IH. f_equal. len_lia.
Qed.

Lemma ipv4_at_app p x y z w s i : i = len p → ipv4_at (p ++ x :: y :: z :: w :: s) i = Ok (Ipv4 x y z w).
Proof.
  intros ->. unfold ipv4_at. rewrite index_app_at by done. cbn [bind].
  replace (p ++ x :: y :: z :: w :: s) with ((p ++ [x]) ++ y :: z :: w :: s) by by rewrite <- app_assoc.
  rewrite index_app_at by len_lia. cbn [bind].
  replace ((p ++ [x]) ++ y :: z :: w :: s) with ((p ++ [x; y]) ++ z :: w :: s) by by rewrite <- !app_assoc.
  rewrite index_app_at by len_lia. cbn [bind].
  replace ((p ++ [x; y]) ++ z :: w :: s) with ((p ++ [x; y; z]) ++ w :: s) by by rewrite <- !app_assoc.
  by rewrite index_app_at by len_lia.
Qed.

(** The address the code reads at an answer's data. *)
Lemma answer_data_read a p s :
  (if (a_type a =? DNS_TYPE_A) && (a_class a =? DNS_CLASS_IN) && (len (a_data a) =? 4)
   then let* ip := ipv4_at (p ++ a_data a ++ s) (len p) in Ok [ip] else Ok []) =
  Ok (option_list (answer_addr a)).
Proof.
  unfold answer_addr. destruct (a_data a) as [|x [|y [|z [|w [|v l]]]]];
    try (rewrite (proj2 (Z.eqb_neq _ 4)) by len_lia; by rewrite andb_false_r).
  change (len [x; y; z; w] =? 4) with true. rewrite andb_true_r. unfold DNS_TYPE_A, DNS_CLASS_IN.
  destruct ((a_type a =? 1) && (a_class a =? 1)); [|done]. cbn [app]. by rewrite ipv4_at_app.
Qed.

Lemma read_answers_ok ans pre rest :
  Forall answer_ok ans →
  read_answers (length ans) (pre ++ concat (map answer_bytes ans) ++ rest) (len pre) = Ok (omap answer_addr ans).
Proof.
  intros Hans. revert pre. induction Hans as [|a ans (Hn & Ht & Hc & Hd) Hans IH]; intros pre;
    cbn [length read_answers map concat]; [done|].
  set (more := concat (map answer_bytes ans) ++ rest).
  assert (pre ++ (answer_bytes a ++ concat (map answer_bytes ans)) ++ rest =
    pre ++ name_bytes (a_name a) ++ u16_to_be (a_type a) ++ u16_to_be (a_class a) ++ u32_to_be (a_ttl a)
      ++ u16_to_be (len (a_data a)) ++ a_data a ++ more) as Hm
    by (unfold answer_bytes, more; by rewrite <- !app_assoc).
  rewrite Hm, skip_name_ok by done. cbn [bind].
  set (p1 := pre ++ name_bytes (a_name a)).
  replace (len pre + len (name_bytes (a_name a))) with (len p1) by (unfold p1; len_lia).
  rewrite (proj2 (Z.ltb_ge _ _)) by (unfold p1; len_lia).
  rewrite (app_assoc pre). fold p1. rewrite be16_at_app by done. cbn [bind].
  rewrite (app_assoc p1). set (p2 := p1 ++ u16_to_be (a_type a)).
  rewrite be16_at_app by (done || (unfold p2; len_lia)). cbn [bind].
  rewrite (app_assoc p2), (app_assoc (p2 ++ _)).
  set (p3 := (p2 ++ u16_to_be (a_class a)) ++ u32_to_be (a_ttl a)).
  rewrite be16_at_app by (done || (unfold p3, p2; len_lia)). cbn [bind].
  rewrite (app_assoc p3). set (p4 := p3 ++ u16_to_be (len (a_data a))).
  assert (len p1 + 10 = len p4) as -> by (unfold p4, p3, p2; len_lia).
  rewrite (proj2 (Z.ltb_ge _ _)) by len_lia. rewrite answer_data_read. cbn [bind].
  assert (p4 ++ a_data a ++ more = (pre ++ answer_bytes a) ++ concat (map answer_bytes ans) ++ rest) as ->
    by (unfold p4, p3, p2, p1, more, answer_bytes; by rewrite <- !app_assoc).
  replace (len p4 + len (a_data a)) with (len (pre ++ answer_bytes a))
    by (unfold p4, p3, p2, p1, answer_bytes; len_lia).
  rewrite IH. cbn [bind omap list_omap]. by destruct (answer_addr a).
Qed.

(** C31: The addresses of a response are found: for a complete response without
    an error, to the query that was sent, [parse_tcp_response] answers the
    addresses of its A records in order, whatever else the message carries
    (several questions, other types, compressed names, authority records); and
    until the message has arrived whole it answers none. *)
Theorem parse_tcp_response_addresses id flags qs ans more extra :
  let m := response_message id flags qs ans more in
  is_u16 id → is_u16 flags → Z.land flags 0x8000 ≠ 0 → Z.land flags 0x000f = 0 →
  is_u16 (len qs) → is_u16 (len ans) → is_u16 (len m) →
  Forall (λ q, name_ok (q_name q)) qs → Forall answer_ok ans →
  parse_tcp_response (u16_to_be (len m) ++ m ++ extra) id = Ok (omap answer_addr ans) ∧
  ∀ k, (k < 2 + length m)%nat → parse_tcp_response (take k (u16_to_be (len m) ++ m)) id = Ok [].
Proof.
  intros m Hid Hfl Hresp Hrc Hqn Han Hm Hqs Hans. split.
  - unfold parse_tcp_response. rewrite (proj2 (Z.ltb_ge _ 2)) by len_lia.
    pose proof (be16_at_app [] (len m) (m ++ extra) 0 Hm eq_refl) as Hlen. cbn [app] in Hlen.
    rewrite Hlen. cbn [bind]. rewrite (proj2 (Z.ltb_ge _ _)) by len_lia.
    rewrite (slice_app_middle_n (u16_to_be (len m)) m extra) by (done || len_lia). cbn [bind].
    unfold parse_message. subst m. set (m := response_message id flags qs ans more) in *.
    assert (∀ p n s i, m = p ++ u16_to_be n ++ s → is_u16 n → i = len p → be16_at m i = Ok n) as Hat.
    { intros p n s i -> Hn Hi. by apply be16_at_app. }
    unfold DNS_HEADER_LEN. rewrite (proj2 (Z.ltb_ge _ _)) by (unfold m, response_message; len_lia).
    rewrite (Hat [] id _ 0) by done. cbn [bind]. rewrite Z.eqb_refl. cbn [negb].
    rewrite (Hat (u16_to_be id) flags _ 2) by done. cbn [bind].
    rewrite (proj2 (Z.eqb_neq _ _)) by done. rewrite Hrc. change (negb (0 =? 0)) with false. cbv iota.
    rewrite (Hat (u16_to_be id ++ u16_to_be flags) (len qs) _ 4)
      by (done || (unfold m, response_message; by rewrite <- !app_assoc)). cbn [bind].
    rewrite (Hat (u16_to_be id ++ u16_to_be flags ++ u16_to_be (len qs)) (len ans) _ 6)
      by (done || (unfold m, response_message; by rewrite <- !app_assoc)). cbn [bind].
    set (h := u16_to_be id ++ u16_to_be flags ++ u16_to_be (len qs) ++ u16_to_be (len ans) ++ u16_to_be 0 ++ u16_to_be 0).
    assert (m = h ++ concat (map question_bytes qs) ++ concat (map answer_bytes ans) ++ more) as ->
      by (unfold m, response_message, h; by rewrite <- !app_assoc).
    change 12 with (len h). unfold len at 1. rewrite Nat2Z.id, skip_questions_ok by done. cbn [bind].
    rewrite app_assoc, <- len_app. unfold len at 1. rewrite Nat2Z.id. by apply read_answers_ok.
  - intros k Hk. unfold parse_tcp_response. case_match eqn:E; [done|]. apply Z.ltb_ge in E.
    destruct k as [|[|k]]; [by rewrite take_0, len_nil in E|revert E; len_lia|].
    change (take (S (S k)) (u16_to_be (len m) ++ m)) with (u16_to_be (len m) ++ take k m).
    pose proof (be16_at_app [] (len m) (take k m) 0 Hm eq_refl) as Hlen. cbn [app] in Hlen. rewrite Hlen.
    cbn [bind]. rewrite (proj2 (Z.ltb_lt _ _)); [done|]. rewrite len_app, len_take, len_u16_to_be. unfold len. lia.
Qed.

Definition demo_response : bytes :=
  response_message 0x1234 0x8180
    [{| q_name := {| labels := [[118; 112; 110]]; ending := Root |}; q_type := 1; q_class := 1 |}]
    [{| a_name := {| labels := []; ending := Pointer 192 12 |}; a_type := 5; a_class := 1; a_ttl := 60; a_data := [1; 97; 0] |};
     {| a_name := {| labels := []; ending := Pointer 192 12 |}; a_type := 1; a_class := 1; a_ttl := 60; a_data := [10; 0; 0; 7] |}]
    [].

Lemma parse_tcp_response_addresses_witness :
  parse_tcp_response (u16_to_be (len demo_response) ++ demo_response ++ []) 0x1234 = Ok [Ipv4 10 0 0 7] ∧
  ∀ k, (k < 2 + length demo_response)%nat →
    parse_tcp_response (take k (u16_to_be (len demo_response) ++ demo_response)) 0x1234 = Ok [].
Proof.
  apply (parse_tcp_response_addresses 0x1234 0x8180
    [{| q_name := {| labels := [[118; 112; 110]]; ending := Root |}; q_type := 1; q_class := 1 |}]
    [{| a_name := {| labels := []; ending := Pointer 192 12 |}; a_type := 5; a_class := 1; a_ttl := 60; a_data := [1; 97; 0] |};
     {| a_name := {| labels := []; ending := Pointer 192 12 |}; a_type := 1; a_class := 1; a_ttl := 60; a_data := [10; 0; 0; 7] |}]
    [] []); try (vm_compute; (discriminate || reflexivity)); try (split; vm_compute; (discriminate || reflexivity)).
  - repeat constructor; vm_compute; discriminate || reflexivity.
  - repeat constructor; vm_compute; discriminate || reflexivity.
Defined.

(** ** No response makes the parser panic *)

Lemma index_u8 l i : is_bytes l → 0 <= i < len l → ∃ b, index l i = Ok b ∧ is_u8 b.
Proof.
  intros Hl Hi. destruct (index_in_range l i Hi) as (b & Hb & H). exists b. split; [done|].
  by apply (proj1 (Forall_lookup _ _) Hl) in H.
Qed.

Lemma be16_at_returns l i : is_bytes l → 0 <= i → i + 2 <= len l → ∃ n, be16_at l i = Ok n ∧ is_u16 n.
Proof.
  intros Hl H0 Hi. unfold be16_at. destruct (index_u8 l i Hl ltac:(lia)) as (a & -> & Ha).
  destruct (index_u8 l (i + 1) Hl ltac:(lia)) as (b & -> & Hb). eauto using u16_from_be_range.
Qed.

Lemma skip_name_loop_range m fuel offset jumps :
  is_bytes m → 0 <= offset → 0 <= jumps → 129 <= Z.of_nat fuel + jumps → (jumps <= 128) →
  match skip_name_loop fuel m offset jumps with Ok o => offset < o <= len m | Err _ => True | _ => False end.
Proof.
  intros Hm. revert offset jumps. induction fuel as [|fuel IH]; intros offset jumps Ho Hj Hf Hl; [lia|].
  cbn [skip_name_loop]. destruct (Z.leb_spec (len m) offset); [done|].
  destruct (index_u8 m offset Hm ltac:(lia)) as (n & -> & Hn). cbn [bind].
  destruct (Z.eqb_spec (Z.land n 0xc0) 0xc0).
  { destruct (Z.leb_spec (len m) (offset + 1)); [done|lia]. }
  destruct (Z.eqb_spec n 0); [lia|]. destruct (negb (Z.land n 0xc0 =? 0)); [done|].
  destruct (Z.ltb_spec 128 (jumps + 1)); [done|]. unfold is_u8 in Hn.
  specialize (IH (offset + (1 + n)) (jumps + 1)).
  destruct (skip_name_loop fuel m _ _); try done; [lia|by apply IH; lia..].
Qed.

Lemma skip_name_range m offset :
  is_bytes m → 0 <= offset →
  match skip_name m offset with Ok o => offset < o <= len m | Err _ => True | _ => False end.
Proof. intros. apply skip_name_loop_range; unfold MAX_JUMPS; lia || done. Qed.

Lemma skip_questions_range n m offset :
  is_bytes m → 0 <= offset →
  match skip_questions n m offset with Ok o => 0 <= o | Err _ => True | _ => False end.
Proof.
  intros Hm. revert offset. induction n as [|n IH]; intros offset Ho; cbn [skip_questions]; [done|].
  pose proof (skip_name_range m offset Hm Ho). destruct (skip_name m offset) as [o| | |]; try done. cbn [bind].
  destruct (len m <? o + 4); [done|]. apply IH. lia.
Qed.

Lemma read_answers_returns n m offset : is_bytes m → 0 <= offset → returns (read_answers n m offset).
Proof.
  intros Hm. revert offset. induction n as [|n IH]; intros offset Ho; cbn [read_answers]; [done|].
  pose proof (skip_name_range m offset Hm Ho). destruct (skip_name m offset) as [o| | |]; try done. cbn [bind].
  destruct (Z.ltb_spec (len m) (o + 10)); [done|].
  destruct (be16_at_returns m o Hm) as (t & -> & _); [lia..|]. cbn [bind].
  destruct (be16_at_returns m (o + 2) Hm) as (c & -> & _); [lia..|]. cbn [bind].
  destruct (be16_at_returns m (o + 8) Hm) as (r & -> & Hr); [lia..|]. cbn [bind]. unfold is_u16 in Hr.
  destruct (Z.ltb_spec (len m) (o + 10 + r)); [done|].
  apply returns_bind.
  - destruct (Z.eqb_spec r 4); [|by rewrite andb_false_r].
    destruct (_ && _); [|done]. apply returns_bind; [|done]. unfold ipv4_at.
    repeat (apply returns_bind; [apply returns_index; lia|intros ? _]). done.
  - intros x _. apply returns_bind; [apply IH; lia|done].
Qed.

Lemma parse_tcp_response_total frame expected_id :
  is_bytes frame → returns (parse_tcp_response frame expected_id).
Proof.
  intros Hf. unfold parse_tcp_response. destruct (Z.ltb_spec (len frame) 2); [done|].
  destruct (be16_at_returns frame 0 Hf) as (n & -> & Hn); [lia..|]. cbn [bind]. unfold is_u16 in Hn.
  destruct (Z.ltb_spec (len frame) (2 + n)); [done|]. rewrite slice_ok by lia. cbn [bind].
  set (m := take _ _). assert (is_bytes m) as Hm by by apply Forall_take, Forall_drop.
  unfold parse_message, DNS_HEADER_LEN. destruct (Z.ltb_spec (len m) 12); [done|].
  destruct (be16_at_returns m 0 Hm) as (id & -> & _); [lia..|]. cbn [bind]. case_match; [done|].
  destruct (be16_at_returns m 2 Hm) as (fl & -> & _); [lia..|]. cbn [bind]. do 2 (case_match; [done|]).
  destruct (be16_at_returns m 4 Hm) as (qd & -> & _); [lia..|]. cbn [bind].
  destruct (be16_at_returns m 6 Hm) as (an & -> & _); [lia..|]. cbn [bind].
  pose proof (skip_questions_range (Z.to_nat qd) m 12 Hm ltac:(lia)).
  destruct (skip_questions _ m 12); try done. cbn [bind]. by apply read_answers_returns.
Qed.

(** Whatever bytes a name server sends, [parse_tcp_response] answers
    addresses or an error: no index is out of range, counts, lengths and
    pointers included, and the walk over a name ends. *)
Theorem parse_tcp_response_returns frame expected_id :
  is_bytes frame → returns (parse_tcp_response frame expected_id).
Proof. apply parse_tcp_response_total. Qed.

Lemma parse_tcp_response_returns_witness :
  is_bytes [0; 14; 1; 2; 128; 0; 0; 1; 0; 0; 0; 0; 0; 0; 63; 255] ∧
  returns (parse_tcp_response [0; 14; 1; 2; 128; 0; 0; 1; 0; 0; 0; 0; 0; 0; 63; 255] 258).
Proof.
  assert (is_bytes [0; 14; 1; 2; 128; 0; 0; 1; 0; 0; 0; 0; 0; 0; 63; 255]) as H
    by (repeat constructor; vm_compute; discriminate || reflexivity).
  split; [exact H|]. apply (parse_tcp_response_returns _ 258 H).
Defined.

(** ** Queries *)

(** The labels a name stands for: its parts, without the dots at its end. *)
Definition name_labels (name : str) : list str :=
  let trimmed := trim_end_matches "."%char name in
  if str_is_empty trimmed then [] else str_split "."%char trimmed.

Definition label_valid (label : str) : Prop := 0 < str_len label <= 63.

Definition query_message (id : u16) (labels : list str) : bytes :=
  response_message id 0x0100
    [{| q_name := {| labels := map as_bytes labels; ending := Root |}; q_type := 1; q_class := 1 |}] [] [].

Lemma str_is_empty_len s : str_is_empty s = true ↔ str_len s = 0.
Proof. destruct s; [done|]. split; [done|]. unfold str_len. cbn [String.length]. lia. Qed.

Lemma encode_labels_ok name ls :
  match encode_labels name ls with
  | Ok b => Forall label_valid ls ∧ b = concat (map label_bytes (map as_bytes ls))
  | Err e => ¬ Forall label_valid ls ∧ e = bad_label name
  | _ => False
  end.
Proof.
  induction ls as [|l ls IH]; cbn [encode_labels]; [done|].
  destruct (str_is_empty l) eqn:E.
  { apply str_is_empty_len in E. cbn [orb]. split; [|done]. intros [H _]%Forall_cons. unfold label_valid in H. lia. }
  cbn [orb]. destruct (Z.ltb_spec 63 (str_len l)).
  { split; [|done]. intros [H' _]%Forall_cons. unfold label_valid in H'. lia. }
  assert (label_valid l) as Hl.
  { split; [|done]. assert (0 <= str_len l) by (unfold str_len; lia).
    destruct (Z.eq_dec (str_len l) 0) as [Hz|]; [|lia]. apply str_is_empty_len in Hz. congruence. }
  destruct (encode_labels name ls) as [b|e| |]; try done; cbn [bind].
  - destruct IH as [IH ->]. split; [by constructor|]. cbn [map concat]. unfold label_bytes at 2.
    rewrite <- str_len_bytes. unfold as_u8. rewrite Z.mod_small by (unfold label_valid in Hl; lia). done.
  - destruct IH as [IH ->]. split; [|done]. by intros [_ ?]%Forall_cons.
Qed.

Lemma build_tcp_query_total id name : returns (build_tcp_query id name).
Proof.
  unfold build_tcp_query, encode_name. apply returns_bind; [|intros b _; by case_match].
  case_match; [done|]. apply returns_bind; [|done]. generalize (str_split "."%char (trim_end_matches "."%char name)).
  intros ls. pose proof (encode_labels_ok name ls). by destruct (encode_labels name ls).
Qed.

(** A query asks for what it should: the frame of [build_tcp_query] is the
    length and the standard recursive query for the A record of the name's
    labels; a name with an empty or too long label is refused, and so is a
    query that no length could announce. *)
Theorem build_tcp_query_spec id name :
  let m := query_message id (name_labels name) in
  build_tcp_query id name =
    if decide (Forall label_valid (name_labels name)) then
      if 65535 <? len m then Err (Network ("DNS query for " +:+ name +:+ " is too large"))
      else Ok (u16_to_be (len m) ++ m)
    else Err (bad_label name).
Proof.
  intros m. unfold build_tcp_query.
  assert (encode_name name = if decide (Forall label_valid (name_labels name))
    then Ok (name_bytes {| labels := map as_bytes (name_labels name); ending := Root |}) else Err (bad_label name)) as ->.
  { unfold encode_name, name_labels. destruct (str_is_empty _); [done|].
    pose proof (encode_labels_ok name (str_split "." (trim_end_matches "." name))) as H.
    destruct (encode_labels _ _) as [b|e| |]; [..|done|done]; destruct H as [H ->];
      destruct (decide _); done. }
  destruct (decide _); [|done]. cbn [bind].
  set (message := u16_to_be id ++ _).
  assert (message = m) as ->.
  { unfold message, m, query_message, response_message. cbn [map concat]. unfold question_bytes.
    cbn [q_name q_type q_class]. by rewrite !app_nil_r. }
  destruct (Z.ltb_spec 65535 (len m)); [done|]. rewrite as_u16_small; [done|]. pose proof (len_nonneg m). unfold is_u16. lia.
Qed.
