(* ===== verification/Socks5.v ===== *)
(** * [proxy/socks5.rs]: the server side of SOCKS5

    The negotiation with a client, its connect request and the replies.  The
    client's stream is read through one half of a [connection] and answered
    through the other. *)

From S2P Require Import Prelude Stream RustStd.

#[local] Open Scope string_scope.
#[local] Open Scope list_scope.
#[local] Open Scope Z_scope.

Definition VERSION : u8 := 0x05.
Definition METHOD_NO_AUTH : u8 := 0x00.
Definition METHOD_NO_ACCEPTABLE : u8 := 0xff.
Definition COMMAND_CONNECT : u8 := 0x01.
Definition ATYP_IPV4 : u8 := 0x01.
Definition ATYP_DOMAIN : u8 := 0x03.
Definition ATYP_IPV6 : u8 := 0x04.
Definition REPLY_SUCCEEDED : u8 := 0x00.
Definition REPLY_GENERAL_FAILURE : u8 := 0x01.
Definition REPLY_HOST_UNREACHABLE : u8 := 0x04.
Definition REPLY_COMMAND_NOT_SUPPORTED : u8 := 0x07.
Definition REPLY_ADDRESS_TYPE_NOT_SUPPORTED : u8 := 0x08.

Inductive SocksTarget := TargetIpv4 (ip : Ipv4Addr) | TargetDomain (name : str).
Record SocksConnectRequest := { target : SocksTarget; port : u16 }.

#[export] Instance SocksTarget_eq_dec : EqDecision SocksTarget.
Proof. solve_decision. Defined.

(** [write_all] and [flush]. *)
Definition send (bytes : bytes) (s : connection) : result unit * connection :=
  let! _ & s := on_writer (write_all bytes) s in on_writer flush s.

Definition write_error (reply : u8) (s : connection) : result unit * connection :=
  send [VERSION; reply; 0x00; ATYP_IPV4; 0; 0; 0; 0; 0; 0] s.

Definition write_success (bound : Ipv4Addr) (port : u16) (s : connection) : result unit * connection :=
  send ([VERSION; REPLY_SUCCEEDED; 0x00; ATYP_IPV4] ++ octets bound ++ u16_to_be port) s.

Definition write_failure (reply : u8) (s : connection) : result unit * connection := write_error reply s.

Definition discard_bytes (n : usize) (s : connection) : result unit * connection :=
  let! _ & s := on_reader (read_exact n) s in (Ok tt, s).

Definition negotiate_no_auth (s : connection) : result unit * connection :=
  let! header & s := on_reader (read_exact 2) s in
  let! version & s := lift (index header 0) s in
  if negb (version =? VERSION)
  then (Err (Network ("unsupported SOCKS version " +:+ print_uint version)), s) else
  let! method_count & s := lift (index header 1) s in
  let! methods & s := on_reader (read_exact method_count) s in
  if existsb (Z.eqb METHOD_NO_AUTH) methods then send [VERSION; METHOD_NO_AUTH] s
  else
    let! _ & s := send [VERSION; METHOD_NO_ACCEPTABLE] s in
    (Err (Network "SOCKS5 client did not offer no-auth method"), s).

Definition read_ipv4_connect (s : connection) : result SocksConnectRequest * connection :=
  let! tail & s := on_reader (read_exact 6) s in
  let! a & s := lift (index tail 0) s in let! b & s := lift (index tail 1) s in
  let! c & s := lift (index tail 2) s in let! d & s := lift (index tail 3) s in
  let! hi & s := lift (index tail 4) s in let! lo & s := lift (index tail 5) s in
  (Ok {| target := TargetIpv4 (Ipv4 a b c d); port := u16_from_be hi lo |}, s).

Definition read_domain_connect (s : connection) : result SocksConnectRequest * connection :=
  let! n & s := on_reader (read_exact 1) s in
  let! n & s := lift (index n 0) s in
  let! domain & s := on_reader (read_exact n) s in
  let! port & s := on_reader (read_exact 2) s in
  let! domain & s := lift
    (ok_or (from_utf8 domain) (Network "SOCKS5 domain target is not valid UTF-8")) s in
  let! hi & s := lift (index port 0) s in let! lo & s := lift (index port 1) s in
  (Ok {| target := TargetDomain domain; port := u16_from_be hi lo |}, s).

Definition read_connect_command (s : connection) : result SocksConnectRequest * connection :=
  let! header & s := on_reader (read_exact 4) s in
  let! version & s := lift (index header 0) s in
  if negb (version =? VERSION)
  then (Err (Network ("unsupported SOCKS request version " +:+ print_uint version)), s) else
  let! command & s := lift (index header 1) s in
  if negb (command =? COMMAND_CONNECT) then
    let! _ & s := write_error REPLY_COMMAND_NOT_SUPPORTED s in
    (Err (Network ("unsupported SOCKS5 command " +:+ print_uint command)), s)
  else
    let! atyp & s := lift (index header 3) s in
    if atyp =? ATYP_IPV4 then read_ipv4_connect s
    else if atyp =? ATYP_DOMAIN then read_domain_connect s
    else if atyp =? ATYP_IPV6 then
      let! _ & s := discard_bytes 18 s in
      let! _ & s := write_error REPLY_ADDRESS_TYPE_NOT_SUPPORTED s in
      (Err (Network "SOCKS5 IPv6 requests are not supported in IPv4-only proxy mode"), s)
    else
      let! _ & s := write_error REPLY_ADDRESS_TYPE_NOT_SUPPORTED s in
      (Err (Network ("unsupported SOCKS5 address type " +:+ print_uint atyp)), s).

Definition read_connect_request (s : connection) : result SocksConnectRequest * connection :=
  let! _ & s := negotiate_no_auth s in
  read_connect_command s.

(** ** Specifications: the client's side *)

Definition target_bytes (t : SocksTarget) : bytes :=
  match t with
  | TargetIpv4 ip => ATYP_IPV4 :: octets ip
  | TargetDomain name => ATYP_DOMAIN :: str_len name :: as_bytes name
  end.

Definition greeting (methods : bytes) : bytes := [VERSION; len methods] ++ methods.
Definition connect_command (command : u8) (t : SocksTarget) (port : u16) : bytes :=
  [VERSION; command; 0x00] ++ target_bytes t ++ u16_to_be port.

Definition target_ok (t : SocksTarget) : Prop :=
  match t with
  | TargetIpv4 ip => ipv4_wf ip
  | TargetDomain name => str_len name < 256 ∧ from_utf8 (as_bytes name) = Some name
  end.

Definition failure_reply (reply : u8) : bytes := [VERSION; reply; 0; ATYP_IPV4; 0; 0; 0; 0; 0; 0].

(** ** Sending and reading in general *)

(** Sending leaves what can be read alone. *)
Lemma send_cases b (c : connection) :
  conn_r (snd (send b c)) = conn_r c ∧
  ((fst (send b c) = Ok tt ∧ written (conn_w (snd (send b c))) = written (conn_w c) ++ b) ∨
   ∃ e, fst (send b c) = Err e).
Proof.
  unfold send, on_writer. destruct (write_all b (conn_w c)) as [r w] eqn:E. cbn [fst snd].
  pose proof (returns_write_all b (conn_w c)) as Hr. rewrite E in Hr. cbn in Hr.
  destruct r as [[]|e| |]; cbn [sbind conn_w conn_r]; try done; [|by eauto].
  apply write_all_ok in E. pose proof (flush_written w) as Hw. pose proof (returns_flush w) as Hf.
  destruct (flush w) as [[[]|e| |] w']; cbn in *; try done; split; eauto.
  left. by rewrite Hw.
Qed.

Lemma on_reader_read_exact n c :
  0 <= n → match on_reader (read_exact n) c with
           | (Ok l, _) => len l = n
           | (Err _, _) => True
           | _ => False
           end.
Proof.
  intros Hn. unfold on_reader. pose proof (returns_read_exact n (conn_r c)).
  destruct (read_exact n (conn_r c)) as [[l|e| |] r] eqn:E; cbn in *; try done.
  by eapply read_exact_len.
Qed.

Lemma read_exact_returns n c : returns (fst (on_reader (read_exact n) c)).
Proof.
  unfold on_reader. pose proof (returns_read_exact n (conn_r c)). by destruct (read_exact n (conn_r c)).
Qed.

Lemma returns_send b c : returns (fst (send b c)).
Proof. by destruct (send_cases b c) as [_ [[-> _]|[e ->]]]. Qed.

Lemma returns_sbind {S A B} (x : result A * S) (f : A → S → result B * S) :
  returns (fst x) → (∀ a s, x = (Ok a, s) → returns (fst (f a s))) → returns (fst (sbind x f)).
Proof. destruct x as [[] s]; cbn; auto. Qed.

Lemma returns_sbind_lift {S A B} (c : result A) (s : S) (f : A → S → result B * S) x :
  c = Ok x → returns (fst (f x s)) → returns (fst (sbind (lift c s) f)).
Proof. by intros ->. Qed.

(** One step of an exchange: a field of a fixed size, one of its bytes, a
    reply, a decision. *)
Ltac returns_step :=
  match goal with
  | |- returns (fst (sbind (on_reader (read_exact ?n) ?c) _)) =>
      let l := fresh "l" in let s := fresh "s" in let E := fresh "E" in let H := fresh "H" in
      apply returns_sbind; [apply read_exact_returns|]; intros l s E;
      pose proof (on_reader_read_exact n c) as H; rewrite E in H; clear E;
      try specialize (H ltac:(lia))
  | |- returns (fst (sbind (lift (index ?l ?i) ?s) _)) =>
      let x := fresh "x" in let H := fresh "H" in
      destruct (index_in_range l i) as (x & H & _); [lia|]; apply (returns_sbind_lift _ _ _ x H); cbn beta
  | |- returns (fst (sbind (lift (ok_or ?o _) _) _)) => destruct o; [eapply returns_sbind_lift; [reflexivity|]; cbn beta|done]
  | |- returns (fst (sbind (send _ _) _)) => apply returns_sbind; [apply returns_send|]; intros ? ? _
  | |- returns (fst (send _ _)) => apply returns_send
  | |- returns (fst (if ?b then _ else _)) => destruct b
  | |- returns (fst (_, _)) => done
  | |- returns (fst (sbind (let! _ & s := _ in _) _)) => apply returns_sbind; [|intros ? ? _]
  end.

(** Whatever a client sends, [read_connect_request] answers a request or an error. *)
Lemma read_connect_request_total s : returns (fst (read_connect_request s)).
Proof.
  unfold read_connect_request, negotiate_no_auth, read_connect_command, read_ipv4_connect,
    read_domain_connect, write_error, discard_bytes.
  apply returns_sbind; [repeat returns_step|intros ? ? _; repeat returns_step].
Qed.

(** An exchange reads on from where the stream stands. *)
Definition consumes (s s' : connection) : Prop :=
  ∃ taken, delivered (conn_r s) = taken ++ delivered (conn_r s').

Lemma consumes_refl s : consumes s s.
Proof. by exists []. Qed.

Lemma consumes_trans s1 s2 s3 : consumes s1 s2 → consumes s2 s3 → consumes s1 s3.
Proof. intros (t1 & E1) (t2 & E2). exists (t1 ++ t2). by rewrite E1, E2, <- app_assoc. Qed.

Lemma consumes_sbind {A B} s (x : result A * connection) (f : A → connection → result B * connection) :
  consumes s (snd x) → (∀ a s', consumes s' (snd (f a s'))) → consumes s (snd (sbind x f)).
Proof. destruct x as [[a|e| |] s']; cbn; try done. intros H1 H2. eapply consumes_trans; [exact H1|apply H2]. Qed.

Lemma consumes_read n s : consumes s (snd (on_reader (read_exact n) s)).
Proof.
  unfold on_reader, consumes. destruct (read_exact_delivered n (conn_r s)) as (t & Ht).
  destruct (read_exact n (conn_r s)) as [r rd]. by exists t.
Qed.

Lemma consumes_send b s : consumes s (snd (send b s)).
Proof. exists []. by destruct (send_cases b s) as [-> _]. Qed.

(** One step, as above. *)
Ltac consumes_step :=
  match goal with
  | |- consumes _ (snd (sbind _ _)) => apply consumes_sbind; [|intros ? ?]
  | |- consumes _ (snd (on_reader _ _)) => apply consumes_read
  | |- consumes _ (snd (send _ _)) => apply consumes_send
  | |- consumes _ (snd (if ?b then _ else _)) => destruct b
  | |- consumes ?s (snd (_, ?s)) => apply consumes_refl
  | |- consumes ?s (snd (lift _ ?s)) => apply consumes_refl
  end.

Lemma read_connect_request_consumes s : consumes s (snd (read_connect_request s)).
Proof.
  unfold read_connect_request, negotiate_no_auth, read_connect_command, read_ipv4_connect,
    read_domain_connect, write_error, discard_bytes.
  repeat consumes_step.
Qed.

(** ** A client that reads its replies *)

Definition client (cs : list bytes) (out : bytes) : connection :=
  {| conn_r := chunked cs; conn_w := vec_writer out |}.

Lemma send_vec b r out :
  send b {| conn_r := r; conn_w := vec_writer out |} = (Ok tt, {| conn_r := r; conn_w := vec_writer (out ++ b) |}).
Proof. unfold send, on_writer. cbn [conn_w conn_r]. by rewrite write_all_vec. Qed.

Lemma read_client n (a b : bytes) cs out :
  nonempty_chunks cs → concat cs = a ++ b → n = len a →
  ∃ cs', on_reader (read_exact n) (client cs out) = (Ok a, client cs' out) ∧ concat cs' = b ∧ nonempty_chunks cs'.
Proof.
  intros Hcs Hcat ->. destruct (read_exact_chunked a b cs Hcs Hcat) as (cs' & H & Hb & Hne).
  exists cs'. unfold on_reader, client. cbn [conn_r conn_w]. by rewrite H.
Qed.

(** Reads the next field [a] of the client's stream. *)
Ltac read_field n a cs out Hcs Hcat cs' Hcat' Hcs' :=
  let H := fresh in
  destruct (read_client n a _ cs out Hcs Hcat ltac:(done)) as (cs' & H & Hcat' & Hcs'); rewrite H; clear H.

Lemma negotiate_accepts methods rest cs out :
  nonempty_chunks cs → concat cs = greeting methods ++ rest → METHOD_NO_AUTH ∈ methods →
  ∃ cs', negotiate_no_auth (client cs out) = (Ok tt, client cs' (out ++ [VERSION; METHOD_NO_AUTH])) ∧
    concat cs' = rest ∧ nonempty_chunks cs'.
Proof.
  intros Hcs Hcat Hm. unfold negotiate_no_auth, greeting in *. rewrite <- app_assoc in Hcat.
  read_field 2 [VERSION; len methods] cs out Hcs Hcat cs1 Hcat1 Hcs1. cbn [sbind lift index Z.leb].
  change (index [VERSION; len methods] 0) with (Ok VERSION). change (index [VERSION; len methods] 1) with (Ok (len methods)).
  cbn [sbind]. change (negb (VERSION =? VERSION)) with false. cbv iota.
  read_field (len methods) methods cs1 out Hcs1 Hcat1 cs2 Hcat2 Hcs2. cbn [sbind].
  assert (existsb (Z.eqb METHOD_NO_AUTH) methods = true) as ->.
  { apply existsb_exists. exists METHOD_NO_AUTH. split; [by apply list_elem_of_In|apply Z.eqb_refl]. }
  exists cs2. unfold client. by rewrite send_vec.
Qed.

(** What follows the address type. *)
Definition target_tail (t : SocksTarget) : bytes := drop 1 (target_bytes t).

Lemma read_target_ok t port rest cs out :
  nonempty_chunks cs → concat cs = target_tail t ++ u16_to_be port ++ rest → target_ok t → is_u16 port →
  ∃ cs', match t with TargetIpv4 _ => read_ipv4_connect (client cs out)
                    | TargetDomain _ => read_domain_connect (client cs out) end =
    (Ok {| target := t; port := port |}, client cs' out) ∧ concat cs' = rest ∧ nonempty_chunks cs'.
Proof.
  intros Hcs Hcat Ht Hp. destruct t as [[a b c d]|name]; cbn [target_tail target_bytes octets drop] in Hcat.
  - change ([a; b; c; d] ++ u16_to_be port ++ rest)
      with ([a; b; c; d; port / 256 mod 256; port mod 256] ++ rest) in Hcat. unfold read_ipv4_connect.
    read_field 6 [a; b; c; d; port / 256 mod 256; port mod 256] cs out Hcs Hcat cs2 Hcat2 Hcs2.
    exists cs2. split; [|done].
    rewrite <- (u16_from_be_to_be port Hp) at 3. reflexivity.
  - destruct Ht as [Hl Hu].
    change ((str_len name :: as_bytes name) ++ u16_to_be port ++ rest)
      with ([str_len name] ++ as_bytes name ++ u16_to_be port ++ rest) in Hcat. unfold read_domain_connect.
    read_field 1 [str_len name] cs out Hcs Hcat cs2 Hcat2 Hcs2. cbn [sbind lift].
    change (index [str_len name] 0) with (Ok (str_len name)). cbn [sbind].
    destruct (read_client (str_len name) (as_bytes name) _ cs2 out Hcs2 Hcat2 (str_len_bytes name))
      as (cs3 & -> & Hcat3 & Hcs3). cbn [sbind].
    read_field 2 (u16_to_be port) cs3 out Hcs3 Hcat3 cs4 Hcat4 Hcs4. cbn [sbind]. rewrite Hu. cbn [ok_or sbind lift].
    exists cs4. split; [|done]. unfold u16_to_be.
    change (index [port / 256 mod 256; port mod 256] 0) with (Ok (port / 256 mod 256)).
    change (index [port / 256 mod 256; port mod 256] 1) with (Ok (port mod 256)). cbn [sbind].
    by rewrite u16_from_be_to_be.
Qed.

(** The head of a command, after a greeting. *)
Lemma command_head command atyp rest cs out :
  nonempty_chunks cs → concat cs = [VERSION; command; 0; atyp] ++ rest →
  ∃ cs', read_connect_command (client cs out) =
    (let s := client cs' out in
     if negb (command =? COMMAND_CONNECT) then
       let! _ & s := write_error REPLY_COMMAND_NOT_SUPPORTED s in
       (Err (Network ("unsupported SOCKS5 command " +:+ print_uint command)), s)
     else if atyp =? ATYP_IPV4 then read_ipv4_connect s
     else if atyp =? ATYP_DOMAIN then read_domain_connect s
     else if atyp =? ATYP_IPV6 then
       let! _ & s := discard_bytes 18 s in
       let! _ & s := write_error REPLY_ADDRESS_TYPE_NOT_SUPPORTED s in
       (Err (Network "SOCKS5 IPv6 requests are not supported in IPv4-only proxy mode"), s)
     else
       let! _ & s := write_error REPLY_ADDRESS_TYPE_NOT_SUPPORTED s in
       (Err (Network ("unsupported SOCKS5 address type " +:+ print_uint atyp)), s)) ∧
    concat cs' = rest ∧ nonempty_chunks cs'.
Proof.
  intros Hcs Hcat. unfold read_connect_command.
  read_field 4 [VERSION; command; 0; atyp] cs out Hcs Hcat cs' Hcat' Hcs'. exists cs'. split; [|done].
  cbn [sbind lift].
  change (index [VERSION; command; 0; atyp] 0) with (Ok VERSION).
  change (index [VERSION; command; 0; atyp] 1) with (Ok command).
  change (index [VERSION; command; 0; atyp] 3) with (Ok atyp). reflexivity.
Qed.

(** A client that offers no authentication and asks to connect gets its
    target and port understood, and the no-auth reply; the stream is left at
    the first byte behind the request, however the client's bytes arrive. *)
Theorem read_connect_request_accepts methods t port rest cs out :
  nonempty_chunks cs →
  concat cs = greeting methods ++ connect_command COMMAND_CONNECT t port ++ rest →
  METHOD_NO_AUTH ∈ methods → target_ok t → is_u16 port →
  ∃ cs', read_connect_request (client cs out) =
      (Ok {| target := t; port := port |}, client cs' (out ++ [VERSION; METHOD_NO_AUTH])) ∧
    concat cs' = rest.
Proof.
  intros Hcs Hcat Hm Ht Hp. unfold read_connect_request.
  destruct (negotiate_accepts _ _ cs out Hcs Hcat Hm) as (cs1 & -> & Hcat1 & Hcs1). cbn [sbind].
  set (out' := out ++ [VERSION; METHOD_NO_AUTH]).
  assert (concat cs1 = [VERSION; COMMAND_CONNECT; 0; match t with TargetIpv4 _ => ATYP_IPV4 | _ => ATYP_DOMAIN end]
    ++ target_tail t ++ u16_to_be port ++ rest) as Hcat2.
  { rewrite Hcat1. unfold connect_command. rewrite <- !app_assoc. by destruct t as [[]|]. }
  destruct (command_head _ _ _ cs1 out' Hcs1 Hcat2) as (cs2 & -> & Hcat3 & Hcs2). cbv zeta.
  change (negb (COMMAND_CONNECT =? COMMAND_CONNECT)) with false. cbv iota.
  destruct (read_target_ok t port rest cs2 out' Hcs2 Hcat3 Ht Hp) as (cs3 & H3 & Hcat4 & _).
  exists cs3. split; [|done]. by destruct t.
Qed.

Lemma read_connect_request_accepts_witness :
  ∃ cs', read_connect_request (client [[5; 2; 2]; [0; 5; 1; 0; 3; 3; 118; 112]; [110; 1; 187; 22]] []) =
      (Ok {| target := TargetDomain "vpn"; port := 443 |}, client cs' [5; 0]) ∧ concat cs' = [22].
Proof.
  apply (read_connect_request_accepts [2; 0] (TargetDomain "vpn") 443 [22]
    [[5; 2; 2]; [0; 5; 1; 0; 3; 3; 118; 112]; [110; 1; 187; 22]] []).
  - repeat constructor; discriminate.
  - reflexivity.
  - right. left.
  - split; vm_compute; reflexivity.
  - split; vm_compute; discriminate || reflexivity.
Defined.

(** C33: A request the proxy cannot serve is refused with the reply of its
    reason: no acceptable method, command not supported, address type not
    supported (an IPv6 request is taken from the stream first). *)
Theorem read_connect_request_refuses methods command atyp rest cs out :
  nonempty_chunks cs → concat cs = greeting methods ++ [VERSION; command; 0; atyp] ++ rest →
  let answer := read_connect_request (client cs out) in
  (METHOD_NO_AUTH ∉ methods →
     is_ok (fst answer) = false ∧ conn_w (snd answer) = vec_writer (out ++ [VERSION; METHOD_NO_ACCEPTABLE])) ∧
  (METHOD_NO_AUTH ∈ methods → command ≠ COMMAND_CONNECT →
     is_ok (fst answer) = false ∧
     conn_w (snd answer) = vec_writer (out ++ [VERSION; METHOD_NO_AUTH] ++ failure_reply REPLY_COMMAND_NOT_SUPPORTED)) ∧
  (METHOD_NO_AUTH ∈ methods → command = COMMAND_CONNECT → atyp ≠ ATYP_IPV4 → atyp ≠ ATYP_DOMAIN →
     (atyp = ATYP_IPV6 → 18 <= len rest) →
     is_ok (fst answer) = false ∧
     conn_w (snd answer) =
       vec_writer (out ++ [VERSION; METHOD_NO_AUTH] ++ failure_reply REPLY_ADDRESS_TYPE_NOT_SUPPORTED)).
Proof.
  intros Hcs Hcat answer. unfold answer, read_connect_request. split_and!.
  - intros Hm. unfold negotiate_no_auth, greeting in *. rewrite <- app_assoc in Hcat.
    read_field 2 [VERSION; len methods] cs out Hcs Hcat cs1 Hcat1 Hcs1. cbn [sbind lift].
    change (index [VERSION; len methods] 0) with (Ok VERSION).
    change (index [VERSION; len methods] 1) with (Ok (len methods)). cbn [sbind].
    change (negb (VERSION =? VERSION)) with false. cbv iota.
    read_field (len methods) methods cs1 out Hcs1 Hcat1 cs2 Hcat2 Hcs2. cbn [sbind].
    assert (existsb (Z.eqb METHOD_NO_AUTH) methods = false) as ->.
    { apply not_true_iff_false. intros (x & Hx & Heq%Z.eqb_eq)%existsb_exists. subst x. by apply Hm, list_elem_of_In. }
    unfold client. rewrite send_vec. done.
  - intros Hm Hc. destruct (negotiate_accepts _ _ cs out Hcs Hcat Hm) as (cs1 & -> & Hcat1 & Hcs1). cbn [sbind].
    destruct (command_head _ _ _ cs1 (out ++ [VERSION; METHOD_NO_AUTH]) Hcs1 Hcat1) as (cs2 & -> & _ & _). cbv zeta.
    rewrite (proj2 (Z.eqb_neq _ _)) by done. cbn [negb]. unfold write_error, client. rewrite send_vec.
    by rewrite <- app_assoc.
  - intros Hm -> H4 Hd H6. destruct (negotiate_accepts _ _ cs out Hcs Hcat Hm) as (cs1 & -> & Hcat1 & Hcs1). cbn [sbind].
    destruct (command_head _ _ _ cs1 (out ++ [VERSION; METHOD_NO_AUTH]) Hcs1 Hcat1) as (cs2 & -> & Hcat2 & Hcs2). cbv zeta.
    change (negb (COMMAND_CONNECT =? COMMAND_CONNECT)) with false. cbv iota.
    rewrite (proj2 (Z.eqb_neq atyp ATYP_IPV4)), (proj2 (Z.eqb_neq atyp ATYP_DOMAIN)) by done.
    destruct (Z.eqb_spec atyp ATYP_IPV6) as [E|_].
    + specialize (H6 E). rewrite <- (take_drop 18 rest) in Hcat2. unfold discard_bytes.
      destruct (read_client 18 (take 18 rest) _ cs2 (out ++ [VERSION; METHOD_NO_AUTH]) Hcs2 Hcat2 ltac:(len_lia))
        as (cs3 & -> & _ & _). cbn [sbind]. unfold write_error, client. rewrite send_vec. by rewrite <- app_assoc.
    + unfold write_error, client. rewrite send_vec. by rewrite <- app_assoc.
Qed.

Lemma read_connect_request_refuses_witness :
  let answer := read_connect_request (client [[5; 1; 0]; [5; 2; 0; 1]; [10; 0; 0; 1; 0; 80]] []) in
  is_ok (fst answer) = false ∧ conn_w (snd answer) = vec_writer [5; 0; 5; 7; 0; 1; 0; 0; 0; 0; 0; 0].
Proof.
  pose proof (read_connect_request_refuses [0] 2 1 [10; 0; 0; 1; 0; 80] [[5; 1; 0]; [5; 2; 0; 1]; [10; 0; 0; 1; 0; 80]] []
    ltac:(repeat constructor; discriminate) ltac:(reflexivity)) as (_ & H & _).
  apply H; [left|discriminate].
Defined.
