(* ===== verification/Runtime.v ===== *)
(** * [proxy/runtime.rs]: the event loop of the proxy mode

    The loop that accepts SOCKS clients, moves packets between the tunnel and
    the TCP stack, and bytes between clients, the stack and direct connections.
    The environment is part of the state: the listener, the clock and what the
    system answers to connection attempts and name lookups are scripts. *)

From stdpp Require Import gmap.
From S2P Require Import Prelude Stream RustStd Packet Fortinet PppEngine Net NetStack ToyStack RouteTable Dns Socks5.

#[local] Open Scope string_scope.
#[local] Open Scope list_scope.
#[local] Open Scope Z_scope.

(** Durations are in milliseconds. *)
Definition DNS_RESOLVE_TIMEOUT : Z := 5000.
Definition LOOP_SLEEP : Z := 1.
Definition DNS_CACHE_TTL : Z := 300000.
Definition IO_BUFFER_SIZE : usize := 16 * 1024.

(** ** State *)

Record ProxySession {Handle : Type} := {
  id : u64;
  client : TcpStream;
  handle : Handle;
  to_remote : bytes;
  to_client : bytes;
  socks_replied : bool;
  local_closed : bool;
  remote_closed : bool;
  client_to_remote_bytes : u64;
  remote_to_client_bytes : u64;
  client_addr : SocketAddr;
  target : str;
  close_reason : option str;
}.
Arguments ProxySession : clear implicits.

#[export] Instance ProxySession_eta {H} : Eta (ProxySession H) := λ s,
  {| id := id s; client := client s; handle := handle s; to_remote := to_remote s; to_client := to_client s;
     socks_replied := socks_replied s; local_closed := local_closed s; remote_closed := remote_closed s;
     client_to_remote_bytes := client_to_remote_bytes s; remote_to_client_bytes := remote_to_client_bytes s;
     client_addr := client_addr s; target := target s; close_reason := close_reason s |}.

Record DirectProxySession := {
  d_id : u64;
  d_client : TcpStream;
  d_remote : TcpStream;
  d_to_remote : bytes;
  d_to_client : bytes;
  d_local_closed : bool;
  d_remote_closed : bool;
  d_client_to_remote_bytes : u64;
  d_remote_to_client_bytes : u64;
  d_client_addr : SocketAddr;
  d_target : str;
  d_close_reason : option str;
}.

#[export] Instance DirectProxySession_eta : Eta DirectProxySession := λ s,
  {| d_id := d_id s; d_client := d_client s; d_remote := d_remote s; d_to_remote := d_to_remote s;
     d_to_client := d_to_client s; d_local_closed := d_local_closed s; d_remote_closed := d_remote_closed s;
     d_client_to_remote_bytes := d_client_to_remote_bytes s;
     d_remote_to_client_bytes := d_remote_to_client_bytes s;
     d_client_addr := d_client_addr s; d_target := d_target s; d_close_reason := d_close_reason s |}.

Record DnsCacheEntry := { addr : Ipv4Addr; expires_at : Z }.

(** The three objects that packets pass through. *)
Record Link {Interface Sockets : Type} := {
  transport : FortinetTransport;
  ppp : PppEngine;
  netstack : ProxyNetStack Interface Sockets;
}.
Arguments Link : clear implicits.

#[export] Instance Link_eta {I S} : Eta (Link I S) := λ l,
  {| transport := transport l; ppp := ppp l; netstack := netstack l |}.

(** The variables of [run] and its environment.  [connects] answers
    [TcpStream::connect_timeout] and [lookups] [to_socket_addrs]; when a script
    is over, connecting times out and a lookup finds nothing.  [dropped] has the
    clients that were let go before a session was made of them, as they were. *)
Record Runtime {Interface Sockets Handle : Type} := {
  link : Link Interface Sockets;
  sessions : list (ProxySession Handle);
  direct_sessions : list DirectProxySession;
  dns_cache : gmap string DnsCacheEntry;
  next_session_id : u64;
  listener : list accept_event;
  connects : list (TcpStream + ErrorKind);
  lookups : list (list SocketAddr + ErrorKind);
  the_clock : clock;
  smol_start : option Z;
  dropped : list TcpStream;
}.
Arguments Runtime : clear implicits.

#[export] Instance Runtime_eta {I S H} : Eta (Runtime I S H) := λ r,
  {| link := link r; sessions := sessions r; direct_sessions := direct_sessions r; dns_cache := dns_cache r;
     next_session_id := next_session_id r; listener := listener r; connects := connects r;
     lookups := lookups r; the_clock := the_clock r; smol_start := smol_start r;
     dropped := dropped r |}.

(** ** Queues *)

Definition drain_chunk (queue : bytes) (max_len : usize) : bytes * bytes :=
  let n := Z.to_nat (Z.min (len queue) max_len) in (take n queue, drop n queue).

(** [push_front] of every byte, the last one first. *)
Definition push_front_bytes (queue bytes_ : bytes) : bytes :=
  foldl (λ queue byte, byte :: queue) queue (reverse bytes_).

(** ** Small helpers *)

Definition mark_closed {H} (reason : str) (s : ProxySession H) : ProxySession H :=
  match close_reason s with None => s <| close_reason := Some reason |> | Some _ => s end.

Definition mark_direct_closed (reason : str) (s : DirectProxySession) : DirectProxySession :=
  match d_close_reason s with None => s <| d_close_reason := Some reason |> | Some _ => s end.

Definition rotate_left_5 (n : u16) : u16 :=
  Z.lor (Z.land (Z.shiftl n 5) 0xffff) (Z.shiftr n 11).

Definition dns_query_id (domain : str) : u16 :=
  foldl (λ acc byte, Z.lxor (rotate_left_5 acc) byte) 0x4f56 (as_bytes domain).

(** The operating system is not Windows. *)
Definition is_temporary_read_error (k : ErrorKind) : bool :=
  match k with WouldBlock | TimedOut => true | _ => false end.

(** The first address that the table routes. *)
Fixpoint find_routable (route_table : ProxyRouteTable) (addrs : list Ipv4Addr) : result (option Ipv4Addr) :=
  match addrs with
  | [] => Ok None
  | addr :: addrs =>
      let* routable := can_route route_table addr in
      if routable then Ok (Some addr) else find_routable route_table addrs
  end.

Section Loop.
Context {Interface Sockets Handle : Type} `{!Smoltcp Interface Sockets Handle}.

Abbreviation stack := (ProxyNetStack Interface Sockets).
Abbreviation session := (ProxySession Handle).
Abbreviation link_state := (Link Interface Sockets).
Abbreviation runtime := (Runtime Interface Sockets Handle).

(** ** The tunnel *)

Definition write_packet (packet : PppPacket) (l : link_state) : result unit * link_state :=
  let '(r, t) := Fortinet.write_packet (transport l) packet in (r, l <| transport := t |>).

(** The [while let] loop; a turn takes one queued packet. *)
Fixpoint flush_loop (fuel : nat) (l : link_state) : result unit * link_state :=
  match next_outgoing (ppp l) with
  | (None, _) => (Ok tt, l)
  | (Some packet, e) =>
      match fuel with
      | O => (Diverge, l)
      | S fuel => let! _ & l := write_packet packet (l <| ppp := e |>) in flush_loop fuel l
      end
  end.

Definition flush_ppp_control (l : link_state) : result unit * link_state :=
  flush_loop (length (outgoing (ppp l))) l.

Fixpoint deliver_events (events : list PppEvent) (l : link_state) : result unit * link_state :=
  match events with
  | [] => (Ok tt, l)
  | Ipv4Packet packet :: events =>
      deliver_events events (l <| netstack := push_rx_ipv4 packet (netstack l) |>)
  | Down :: _ => (Err (Pppd "proxy PPP link terminated by peer"), l)
  | Up _ _ _ :: events => deliver_events events l
  end.

(** A turn takes a frame from the stream. *)
Fixpoint read_packets_loop (fuel : nat) (l : link_state) : result unit * link_state :=
  match fuel with
  | O => (Diverge, l)
  | S fuel =>
      match read_packet (transport l) with
      | (Ok packet, t) =>
          let l := l <| transport := t |> in
          let '(events, e) := handle_incoming packet (ppp l) in
          let l := l <| ppp := e |> in
          let! events & l := lift events l in
          let! _ & l := deliver_events events l in
          let! _ & l := flush_ppp_control l in
          read_packets_loop fuel l
      | (Err (Io k m), t) =>
          (if is_temporary_read_error k then Ok tt else Err (Io k m), l <| transport := t |>)
      | (Err err, t) => (Err err, l <| transport := t |>)
      | (Panic, t) => (Panic, l <| transport := t |>)
      | (Diverge, t) => (Diverge, l <| transport := t |>)
      end
  end.

Definition read_fortinet_packets (l : link_state) : result unit * link_state :=
  read_packets_loop (S (length (unconsumed (transport l)))) l.

(** A turn sends a packet of the stack. *)
Fixpoint drain_loop (fuel : nat) (l : link_state) : result unit * link_state :=
  match pop_tx_ipv4 (netstack l) with
  | (None, _) => flush_ppp_control l
  | (Some packet, n) =>
      match fuel with
      | O => (Diverge, l)
      | S fuel =>
          let l := l <| netstack := n |> in
          let! ppp_packet & l := lift (encode_ipv4_packet packet) l in
          let! _ & l := write_packet ppp_packet l in
          drain_loop fuel l
      end
  end.

Definition drain_netstack_to_fortinet (l : link_state) : result unit * link_state :=
  drain_loop (length (tx (device (netstack l)))) l.

(** ** Sessions through the tunnel *)

(** A session and the stack it uses. *)
Record pump := { p_session : session; p_stack : stack }.

Definition on_stack {A} (f : stack → result A * stack) (p : pump) : result A * pump :=
  let '(r, n) := f (p_stack p) in (r, {| p_session := p_session p; p_stack := n |}).
Definition change (f : session → session) (p : pump) : pump :=
  {| p_session := f (p_session p); p_stack := p_stack p |}.
Definition on_client {A} (f : TcpStream → result A * TcpStream) (p : pump) : result A * pump :=
  let '(r, c) := f (client (p_session p)) in
  (r, {| p_session := p_session p <| client := c |>; p_stack := p_stack p |}).

Definition count_sent (n : usize) (p : pump) : result unit * pump :=
  let! total & p := lift (u64_add (client_to_remote_bytes (p_session p)) n) p in
  (Ok tt, change (λ s, s <| client_to_remote_bytes := total |>) p).
Definition count_received (n : usize) (p : pump) : result unit * pump :=
  let! total & p := lift (u64_add (remote_to_client_bytes (p_session p)) n) p in
  (Ok tt, change (λ s, s <| remote_to_client_bytes := total |>) p).

(** [mark_closed] and [tcp_close]. *)
Definition end_pump (reason : str) (p : pump) : result unit * pump :=
  on_stack (tcp_close (handle (p_session p))) (change (mark_closed reason) p).

(** The loop that sends what is queued for the remote side. *)
Fixpoint send_queued (fuel : nat) (p : pump) : result unit * pump :=
  let! can_send & p := lift (tcp_can_send (handle (p_session p)) (p_stack p)) p in
  if can_send && negb (bool_decide (to_remote (p_session p) = [])) then
    match fuel with
    | O => (Diverge, p)
    | S fuel =>
        let '(chunk, queue) := drain_chunk (to_remote (p_session p)) IO_BUFFER_SIZE in
        let p := change (λ s, s <| to_remote := queue |>) p in
        let! sent & p := on_stack (tcp_send (handle (p_session p)) chunk) p in
        match sent with
        | inl written =>
            let! _ & p := count_sent written p in
            if written <? len chunk then
              let! rest & p := lift (slice_from chunk written) p in
              (Ok tt, change (λ s, s <| to_remote := push_front_bytes (to_remote s) rest |>) p)
            else send_queued fuel p
        | inr err => end_pump ("proxy TCP send failed: " +:+ err) p
        end
    end
  else (Ok tt, p).

(** The loop that reads the client as long as the stack takes its bytes. *)
Fixpoint read_client (fuel : nat) (p : pump) : result unit * pump :=
  let! can_send & p := lift (tcp_can_send (handle (p_session p)) (p_stack p)) p in
  if can_send then
    match fuel with
    | O => (Diverge, p)
    | S fuel =>
        match on_client (tcp_read IO_BUFFER_SIZE) p with
        | (Ok [], p) =>
            end_pump "client closed connection" (change (λ s, s <| local_closed := true |>) p)
        | (Ok buf, p) =>
            let! sent & p := on_stack (tcp_send (handle (p_session p)) buf) p in
            match sent with
            | inl written =>
                let! _ & p := count_sent written p in
                if written <? len buf then
                  let! rest & p := lift (slice_from buf written) p in
                  (Ok tt, change (λ s, s <| to_remote := to_remote s ++ rest |>) p)
                else read_client fuel p
            | inr err => end_pump ("proxy TCP send failed: " +:+ err) p
            end
        | (Err (Io WouldBlock _), p) => (Ok tt, p)
        | (Err err, p) => end_pump ("client read failed: " +:+ io_text err) p
        | (Panic, p) => (Panic, p)
        | (Diverge, p) => (Diverge, p)
        end
    end
  else (Ok tt, p).

(** The body of the loop of [pump_local_to_tcp]. *)
Definition pump_out (p : pump) : result unit * pump :=
  if local_closed (p_session p) || negb (socks_replied (p_session p)) then (Ok tt, p) else
  let! _ & p := send_queued (S (length (to_remote (p_session p)))) p in
  read_client (reader_fuel (conn_r (conn (client (p_session p))))) p.

(** The loop that takes what the stack has received. *)
Fixpoint receive_all (fuel : nat) (p : pump) : result unit * pump :=
  match fuel with
  | O => (Diverge, p)
  | S fuel =>
      let! received & p := on_stack (tcp_recv (handle (p_session p)) IO_BUFFER_SIZE) p in
      match received with
      | inl [] => (Ok tt, p)
      | inl buf =>
          let! _ & p := count_received (len buf) p in
          receive_all fuel (change (λ s, s <| to_client := to_client s ++ buf |>) p)
      | inr _ => (Ok tt, p)
      end
  end.

Definition put_back (rest : bytes) (p : pump) : pump :=
  change (λ s, s <| to_client := push_front_bytes (to_client s) rest |>) p.

(** The loop that writes what is queued for the client. *)
Fixpoint write_client (fuel : nat) (p : pump) : result unit * pump :=
  match to_client (p_session p) with
  | [] => (Ok tt, p)
  | queue =>
      match fuel with
      | O => (Diverge, p)
      | S fuel =>
          let '(chunk, queue) := drain_chunk queue IO_BUFFER_SIZE in
          let p := change (λ s, s <| to_client := queue |>) p in
          match on_client (tcp_write chunk) p with
          | (Ok written, p) =>
              if written =? 0 then end_pump "client write returned zero" (put_back chunk p)
              else if written <? len chunk then
                let! rest & p := lift (slice_from chunk written) p in (Ok tt, put_back rest p)
              else write_client fuel p
          | (Err (Io WouldBlock _), p) => (Ok tt, put_back chunk p)
          | (Err err, p) => end_pump ("client write failed: " +:+ io_text err) p
          | (Panic, p) => (Panic, p)
          | (Diverge, p) => (Diverge, p)
          end
      end
  end.

(** The reply of the SOCKS request, once the connection stands. *)
Definition reply_established (p : pump) : result unit * pump :=
  if socks_replied (p_session p) then (Ok tt, p) else
  let! established & p := lift (tcp_is_established (handle (p_session p)) (p_stack p)) p in
  if established then
    let! _ & p := on_client (on_conn (write_success UNSPECIFIED 0)) p in
    (Ok tt, change (λ s, s <| socks_replied := true |>) p)
  else (Ok tt, p).

(** A socket empties in at most as many reads as it has octets. *)
Definition receive_fuel (p : pump) : nat :=
  match socket_recv_queue (handle (p_session p)) (sockets (p_stack p)) with
  | Ok n => S (Z.to_nat n)
  | _ => 1
  end.

(** The body of the loop of [pump_tcp_to_local]. *)
Definition pump_in (p : pump) : result unit * pump :=
  let! _ & p := reply_established p in
  let! _ & p := receive_all (receive_fuel p) p in
  write_client (length (to_client (p_session p))) p.

(** [for session in sessions] *)
Fixpoint for_sessions (f : pump → result unit * pump) (l : list session) (n : stack)
    : result unit * (list session * stack) :=
  match l with
  | [] => (Ok tt, ([], n))
  | s :: l =>
      match f {| p_session := s; p_stack := n |} with
      | (Ok _, p) =>
          let '(r, (l, n)) := for_sessions f l (p_stack p) in (r, (p_session p :: l, n))
      | (r, p) => (r, (p_session p :: l, p_stack p))
      end
  end.

Definition pump_local_to_tcp : list session → stack → result unit * (list session * stack) :=
  for_sessions pump_out.

Definition pump_tcp_to_local : list session → stack → result unit * (list session * stack) :=
  for_sessions pump_in.

Definition removable (s : session) (active : bool) : bool :=
  (local_closed s || remote_closed s) && bool_decide (to_client s = [])
    && bool_decide (to_remote s = []) && negb active.

Fixpoint cleanup_sessions (l : list session) (n : stack) : result unit * (list session * stack) :=
  match l with
  | [] => (Ok tt, ([], n))
  | s :: l =>
      match tcp_is_active (handle s) n with
      | Ok active =>
          let s := if negb active && negb (remote_closed s)
                   then mark_closed "remote TCP closed" (s <| remote_closed := true |>) else s in
          if removable s active then
            match remove_tcp_socket (handle s) n with
            | (Ok _, n) => cleanup_sessions l n
            | (r, n) => (r, (l, n))
            end
          else let '(r, (l, n)) := cleanup_sessions l n in (r, (s :: l, n))
      | Err e => (Err e, (s :: l, n))
      | Panic => (Panic, (s :: l, n))
      | Diverge => (Diverge, (s :: l, n))
      end
  end.

End Loop.

(** ** Direct sessions *)

(** Both streams of a direct session are used by the same loops, one for each
    direction: [write_loop] writes a queue to a stream, [read_loop] reads a
    stream into a queue. *)
Inductive write_end := WriteDone | WroteZero | WriteBlocked | WriteFailed (err : OpenfortivpnError).

(** Writes chunks until the queue is empty or the stream does not take one;
    answers how the loop ended, the bytes left, the total counted and the stream. *)
Fixpoint write_loop (fuel : nat) (queue : bytes) (total : u64) (t : TcpStream)
    : result write_end * (bytes * u64 * TcpStream) :=
  match queue with
  | [] => (Ok WriteDone, (queue, total, t))
  | _ =>
      match fuel with
      | O => (Diverge, (queue, total, t))
      | S fuel =>
          let '(chunk, queue) := drain_chunk queue IO_BUFFER_SIZE in
          match tcp_write chunk t with
          | (Ok written, t) =>
              if written =? 0 then (Ok WroteZero, (push_front_bytes queue chunk, total, t)) else
              match u64_add total written with
              | Ok total =>
                  if written <? len chunk then
                    let! rest & s := lift (slice_from chunk written) (queue, total, t) in
                    (Ok WriteBlocked, (push_front_bytes queue rest, total, t))
                  else write_loop fuel queue total t
              | Err e => (Err e, (queue, total, t))
              | Panic => (Panic, (queue, total, t))
              | Diverge => (Diverge, (queue, total, t))
              end
          | (Err (Io WouldBlock _), t) => (Ok WriteBlocked, (push_front_bytes queue chunk, total, t))
          | (Err err, t) => (Ok (WriteFailed err), (queue, total, t))
          | (Panic, t) => (Panic, (queue, total, t))
          | (Diverge, t) => (Diverge, (queue, total, t))
          end
      end
  end.

Inductive read_end := ReadEof | ReadBlocked | ReadFailed (err : OpenfortivpnError).

Fixpoint read_loop (fuel : nat) (queue : bytes) (t : TcpStream) : result read_end * (bytes * TcpStream) :=
  match fuel with
  | O => (Diverge, (queue, t))
  | S fuel =>
      match tcp_read IO_BUFFER_SIZE t with
      | (Ok [], t) => (Ok ReadEof, (queue, t))
      | (Ok buf, t) => read_loop fuel (queue ++ buf) t
      | (Err (Io WouldBlock _), t) => (Ok ReadBlocked, (queue, t))
      | (Err err, t) => (Ok (ReadFailed err), (queue, t))
      | (Panic, t) => (Panic, (queue, t))
      | (Diverge, t) => (Diverge, (queue, t))
      end
  end.

Definition write_remote (s : DirectProxySession) : result unit * DirectProxySession :=
  let '(r, (queue, total, t)) :=
    write_loop (length (d_to_remote s)) (d_to_remote s) (d_client_to_remote_bytes s) (d_remote s) in
  let s := s <| d_to_remote := queue |> <| d_client_to_remote_bytes := total |> <| d_remote := t |> in
  let! how & s := lift r s in
  (Ok tt, match how with
          | WroteZero =>
              mark_direct_closed "direct remote write returned zero" s <| d_remote_closed := true |>
          | WriteFailed err =>
              mark_direct_closed ("direct remote write failed: " +:+ io_text err) s <| d_remote_closed := true |>
          | WriteDone | WriteBlocked => s
          end).

Definition write_direct_client (s : DirectProxySession) : result unit * DirectProxySession :=
  let '(r, (queue, total, t)) :=
    write_loop (length (d_to_client s)) (d_to_client s) (d_remote_to_client_bytes s) (d_client s) in
  let s := s <| d_to_client := queue |> <| d_remote_to_client_bytes := total |> <| d_client := t |> in
  let! how & s := lift r s in
  (Ok tt, match how with
          | WroteZero =>
              mark_direct_closed "direct client write returned zero" s <| d_local_closed := true |>
          | WriteFailed err =>
              mark_direct_closed ("direct client write failed: " +:+ io_text err) s <| d_local_closed := true |>
          | WriteDone | WriteBlocked => s
          end).

Definition read_direct_client (s : DirectProxySession) : result unit * DirectProxySession :=
  if negb (d_local_closed s) && bool_decide (d_to_remote s = []) then
    let '(r, (queue, t)) := read_loop (reader_fuel (conn_r (conn (d_client s)))) (d_to_remote s) (d_client s) in
    let s := s <| d_to_remote := queue |> <| d_client := t |> in
    let! how & s := lift r s in
    let close reason s :=
      (mark_direct_closed reason (s <| d_local_closed := true |>))
        <| d_remote := shutdown_write (d_remote s) |> in
    (Ok tt, match how with
            | ReadEof => close "client closed connection" s
            | ReadFailed err => close ("direct client read failed: " +:+ io_text err) s
            | ReadBlocked => s
            end)
  else (Ok tt, s).

Definition read_remote (s : DirectProxySession) : result unit * DirectProxySession :=
  if negb (d_remote_closed s) && bool_decide (d_to_client s = []) then
    let '(r, (queue, t)) := read_loop (reader_fuel (conn_r (conn (d_remote s)))) (d_to_client s) (d_remote s) in
    let s := s <| d_to_client := queue |> <| d_remote := t |> in
    let! how & s := lift r s in
    let close reason s :=
      (mark_direct_closed reason (s <| d_remote_closed := true |>))
        <| d_client := shutdown_write (d_client s) |> in
    (Ok tt, match how with
            | ReadEof => close "direct remote closed connection" s
            | ReadFailed err => close ("direct remote read failed: " +:+ io_text err) s
            | ReadBlocked => s
            end)
  else (Ok tt, s).

(** The body of the loop of [pump_direct_sessions]. *)
Definition pump_direct (s : DirectProxySession) : result unit * DirectProxySession :=
  let! _ & s := write_remote s in
  let! _ & s := write_direct_client s in
  let! _ & s := read_direct_client s in
  read_remote s.

Fixpoint pump_direct_sessions (l : list DirectProxySession) : result unit * list DirectProxySession :=
  match l with
  | [] => (Ok tt, [])
  | s :: l =>
      match pump_direct s with
      | (Ok _, s) => let '(r, l) := pump_direct_sessions l in (r, s :: l)
      | (r, s) => (r, s :: l)
      end
  end.

Definition direct_removable (s : DirectProxySession) : bool :=
  d_local_closed s && d_remote_closed s && bool_decide (d_to_client s = [])
    && bool_decide (d_to_remote s = []).

Fixpoint cleanup_direct_sessions (l : list DirectProxySession) : list DirectProxySession :=
  match l with
  | [] => []
  | s :: l => if direct_removable s then cleanup_direct_sessions l else s :: cleanup_direct_sessions l
  end.

(** ** Specifications *)

(** *** Queues *)

Lemma drain_chunk_app queue n chunk rest :
  drain_chunk queue n = (chunk, rest) → 0 <= n → queue = chunk ++ rest ∧ len chunk = Z.min (len queue) n.
Proof.
  unfold drain_chunk. intros [= <- <-] Hn. rewrite take_drop. split; [done|]. len_lia.
Qed.

Lemma push_front_bytes_app queue l : push_front_bytes queue l = l ++ queue.
Proof.
  unfold push_front_bytes. rewrite <- (reverse_involutive l) at 2. generalize (reverse l). clear l.
  intros l. revert queue. induction l as [|b l IH]; intros queue; cbn [foldl]; [done|].
  by rewrite IH, reverse_cons, <- app_assoc.
Qed.

Lemma drain_chunk_nonempty queue chunk rest :
  queue ≠ [] → drain_chunk queue IO_BUFFER_SIZE = (chunk, rest) → 0 < len chunk.
Proof.
  intros Hq%len_pos [_ H]%drain_chunk_app; unfold IO_BUFFER_SIZE in *; lia.
Qed.

Lemma slice_from_drop {A} (l : list A) n : 0 <= n <= len l → slice_from l n = Ok (drop (Z.to_nat n) l).
Proof. apply slice_from_ok. Qed.

Section SessionLaws.
Context {Interface Sockets Handle : Type} `{!Smoltcp Interface Sockets Handle}
  `{!SmoltcpView Sockets Handle} `{!SmoltcpLaws Interface Sockets Handle}.

Abbreviation stack := (ProxyNetStack Interface Sockets).
Abbreviation session := (ProxySession Handle).
Abbreviation pump := (@pump Interface Sockets Handle).

(** *** What a session carries

    The bytes of the client on their way: what its socket has accepted, what
    waits in the session, and what the client will still deliver.  Once the
    sending half is closed nothing more is sent, and what was sent is a prefix
    of what the client wrote. *)
Definition unread (s : session) : bytes := delivered (conn_r (conn (client s))).
Definition sent_of (s : session) (n : stack) : bytes := sent (handle s) (sockets n).
Definition closed_of (s : session) (n : stack) : Prop := send_closed (handle s) (sockets n).

Definition carries (stream : bytes) (s : session) (n : stack) : Prop :=
  sent_of s n ++ to_remote s ++ unread s = stream ∨
  (closed_of s n ∧ ∃ rest, stream = sent_of s n ++ rest).

Definition same_session (s s' : session) : Prop :=
  id s' = id s ∧ handle s' = handle s ∧ client_addr s' = client_addr s ∧ target s' = target s.

(** What the client-to-remote direction of a pass may do. *)
Record sends (p p' : pump) : Prop := {
  sends_same : same_session (p_session p) (p_session p');
  sends_touches : touches (handle (p_session p)) (p_stack p) (p_stack p');
  sends_pending : pending (handle (p_session p)) (sockets (p_stack p')) =
                  pending (handle (p_session p)) (sockets (p_stack p));
  sends_closed : closed_of (p_session p) (p_stack p) → closed_of (p_session p') (p_stack p');
  sends_other : to_client (p_session p') = to_client (p_session p) ∧
    remote_to_client_bytes (p_session p') = remote_to_client_bytes (p_session p) ∧
    socks_replied (p_session p') = socks_replied (p_session p) ∧
    remote_closed (p_session p') = remote_closed (p_session p) ∧
    conn_w (conn (client (p_session p'))) = conn_w (conn (client (p_session p))) ∧
    read_shut (client (p_session p')) = read_shut (client (p_session p)) ∧
    write_shut (client (p_session p')) = write_shut (client (p_session p));
  sends_count : client_to_remote_bytes (p_session p') - client_to_remote_bytes (p_session p) =
    len (sent_of (p_session p') (p_stack p')) - len (sent_of (p_session p) (p_stack p));
  sends_headroom : client_to_remote_bytes (p_session p') + len (to_remote (p_session p')) + len (unread (p_session p')) <=
    client_to_remote_bytes (p_session p) + len (to_remote (p_session p)) + len (unread (p_session p));
  sends_carries : ∀ stream, carries stream (p_session p) (p_stack p) → carries stream (p_session p') (p_stack p');
}.

Definition alive_pump (p : pump) : Prop := alive (handle (p_session p)) (p_stack p).

Lemma sends_refl p : sends p p.
Proof. split; try done; try lia. all: apply touches_refl. Qed.

Lemma sends_trans p1 p2 p3 : sends p1 p2 → sends p2 p3 → sends p1 p3.
Proof.
  intros [(A1 & A2 & A3 & A4) B C D (E1 & E2 & E3 & E4 & E5 & E6 & E7) F G H]
         [(A1' & A2' & A3' & A4') B' C' D' (E1' & E2' & E3' & E4' & E5' & E6' & E7') F' G' H'].
  rewrite A2 in *. split; try (by split_and!; congruence); try lia; auto; try congruence.
  by eapply touches_trans.
Qed.

Lemma sends_alive p p' : sends p p' → alive_pump p → alive_pump p'.
Proof.
  intros H Hl. unfold alive_pump. destruct (sends_same _ _ H) as (_ & -> & _).
  by apply (touches_alive _ _ _ _ (sends_touches _ _ H)).
Qed.

(** Giving a session up closes its sending half and changes nothing else. *)
Lemma end_pump_ok reason p : alive_pump p → ∃ p', end_pump reason p = (Ok tt, p') ∧ sends p p' ∧
  to_remote (p_session p') = to_remote (p_session p) ∧ unread (p_session p') = unread (p_session p) ∧
  sent_of (p_session p') (p_stack p') = sent_of (p_session p) (p_stack p) ∧
  closed_of (p_session p') (p_stack p') ∧ is_Some (close_reason (p_session p')) ∧
  local_closed (p_session p') = local_closed (p_session p).
Proof.
  intros Hl. unfold end_pump, on_stack, change.
  destruct p as [s n]. cbn [p_session p_stack] in *.
  assert (handle (mark_closed reason s) = handle s ∧ same_session s (mark_closed reason s) ∧
    to_remote (mark_closed reason s) = to_remote s ∧ client (mark_closed reason s) = client s ∧
    to_client (mark_closed reason s) = to_client s ∧ socks_replied (mark_closed reason s) = socks_replied s ∧
    remote_closed (mark_closed reason s) = remote_closed s ∧ local_closed (mark_closed reason s) = local_closed s ∧
    client_to_remote_bytes (mark_closed reason s) = client_to_remote_bytes s ∧
    remote_to_client_bytes (mark_closed reason s) = remote_to_client_bytes s ∧
    is_Some (close_reason (mark_closed reason s))) as (Eh & Es & Er & Ec & Etc & Ek & Erc & Elc & Ecb & Erb & Ecr).
  { unfold mark_closed. destruct (close_reason s) eqn:E; cbn; rewrite ?E; by split_and!. }
  destruct (tcp_close_ok (handle s) n Hl) as (n' & -> & Ht & (Hs & Hp & Hc) & Hcl).
  eexists. split; [reflexivity|]. split.
  - split; unfold carries, unread, sent_of, closed_of in *; cbn [p_session p_stack];
      rewrite ?Eh, ?Er, ?Ec, ?Etc, ?Ek, ?Erc, ?Ecb, ?Erb, ?Hs; try done; try lia. naive_solver.
  - unfold unread, sent_of, closed_of. cbn [p_session p_stack]. rewrite Eh, Er, Ec, Elc, Hs. by split_and!.
Qed.

Lemma count_sent_ok k (p : pump) : client_to_remote_bytes (p_session p) + k < 2 ^ 64 →
  count_sent k p =
    (Ok tt, change (λ s, s <| client_to_remote_bytes := client_to_remote_bytes (p_session p) + k |>) p).
Proof. intros H. unfold count_sent, u64_add, lift. by rewrite (proj2 (Z.ltb_lt _ _) H). Qed.

(** The session has taken [data] off its queue or off its client. *)
Record takes (data : bytes) (p p' : pump) : Prop := {
  takes_same : same_session (p_session p) (p_session p');
  takes_stack : p_stack p' = p_stack p;
  takes_data : to_remote (p_session p) ++ unread (p_session p) =
    data ++ to_remote (p_session p') ++ unread (p_session p');
  takes_count : client_to_remote_bytes (p_session p') = client_to_remote_bytes (p_session p);
  takes_open : local_closed (p_session p') = local_closed (p_session p);
  takes_other : to_client (p_session p') = to_client (p_session p) ∧
    remote_to_client_bytes (p_session p') = remote_to_client_bytes (p_session p) ∧
    socks_replied (p_session p') = socks_replied (p_session p) ∧
    remote_closed (p_session p') = remote_closed (p_session p) ∧
    conn_w (conn (client (p_session p'))) = conn_w (conn (client (p_session p))) ∧
    read_shut (client (p_session p')) = read_shut (client (p_session p)) ∧
    write_shut (client (p_session p')) = write_shut (client (p_session p));
}.

Definition out_headroom (s : session) : Prop :=
  client_to_remote_bytes s + len (to_remote s) + len (unread s) < 2 ^ 64.

(** Sending what was taken: all of it is on its way, or the rest has to be put
    back and the socket takes no more, or the session is given up. *)
Lemma send_taken data p p1 :
  alive_pump p → ¬ closed_of (p_session p) (p_stack p) → out_headroom (p_session p) → takes data p p1 →
  ∃ r p2, on_stack (tcp_send (handle (p_session p1)) data) p1 = (Ok r, p2) ∧
    match r with
    | inl k => 0 <= k <= len data ∧ ∃ p3, count_sent k p2 = (Ok tt, p3) ∧
        client (p_session p3) = client (p_session p1) ∧ to_remote (p_session p3) = to_remote (p_session p1) ∧
        local_closed (p_session p3) = local_closed (p_session p) ∧
        (k = len data → sends p p3 ∧ sent_of (p_session p3) (p_stack p3) = sent_of (p_session p) (p_stack p) ++ data) ∧
        (k < len data → tcp_can_send (handle (p_session p3)) (p_stack p3) = Ok false ∧
          ∀ q, q = drop (Z.to_nat k) data ++ to_remote (p_session p1) →
            sends p (change (λ s, s <| to_remote := q |>) p3))
    | inr _ => ∀ reason, ∃ p3, end_pump reason p2 = (Ok tt, p3) ∧ sends p p3 ∧
        closed_of (p_session p3) (p_stack p3) ∧ local_closed (p_session p3) = local_closed (p_session p)
    end.
Proof.
  intros Hl Hopen Hroom [(I1 & I2 & I3 & I4) Hst Hdata Hcount Hloc (O1 & O2 & O3 & O4 & O5 & O6 & O7)].
  destruct p as [s n], p1 as [s1 n1]. unfold alive_pump, on_stack, out_headroom, unread, closed_of in *.
  cbn [p_session p_stack] in *. subst n1. rewrite I2.
  destruct (tcp_send_ok (handle s) data n Hl) as (r & n2 & -> & Ht & Hp & Hc & Hr).
  eexists _, _. split; [reflexivity|]. apply (f_equal len) in Hdata as Hlen. simpl_len.
  destruct r as [k|err].
  - destruct Hr as (Hk & Hs & Hfull). split; [done|].
    rewrite count_sent_ok by (cbn [p_session]; rewrite Hcount; len_lia).
    eexists. split; [reflexivity|]. cbn [change p_session p_stack]. split; [done|]. split; [done|]. split; [done|].
    assert (∀ q, q = drop (Z.to_nat k) data ++ to_remote s1 →
      len (sent (handle s) (sockets n2)) = len (sent (handle s) (sockets n)) + k ∧ len q = len data - k + len (to_remote s1) ∧
      sent (handle s) (sockets n2) ++ q ++ delivered (conn_r (conn (client s1))) =
      sent (handle s) (sockets n) ++ to_remote s ++ delivered (conn_r (conn (client s)))) as Hq.
    { intros q ->. rewrite Hs. rewrite Hdata. split; [len_lia|]. split; [len_lia|].
      rewrite <- (take_drop (Z.to_nat k) data) at 3. by rewrite <- !app_assoc. }
    split.
    + intros ->. destruct (Hq (to_remote s1)) as (Q1 & _ & Q3).
      { rewrite drop_ge; [done|]. unfold len. lia. }
      split; [|unfold sent_of; cbn; rewrite I2, Hs, take_ge; [done|unfold len; lia]].
      split; unfold same_session, carries, unread, sent_of, closed_of in *; cbn;
        rewrite ?I2; try done; try (split_and!; congruence); try len_lia.
      rewrite Q3. intros stream [?|[? _]]; [by left|done].
    + intros Hlt. split; [cbn; rewrite I2; by apply Hfull|]. intros q Hqq.
      destruct (Hq q Hqq) as (Q1 & Q2 & Q3).
      split; unfold same_session, carries, unread, sent_of, closed_of in *;
        cbn; rewrite ?I2; try done; try (split_and!; congruence); try len_lia.
      rewrite Q3. intros stream [?|[? _]]; [by left|done].
  - intros reason.
    destruct (end_pump_ok reason {| p_session := s1; p_stack := n2 |}) as (p3 & -> & Hg & E1 & E2 & E3 & E4 & _ & E6).
    { unfold alive_pump. cbn. rewrite I2. by apply (touches_alive _ _ _ _ Ht). }
    exists p3. split; [done|]. split; [|by rewrite E6].
    destruct Hg as [(A1 & A2 & A3 & A4) B C D (F1 & F2 & F3 & F4 & F5 & F6 & F7) G1 G2 G3].
    unfold unread, sent_of, closed_of in *. cbn [p_session p_stack] in *.
    split; unfold same_session, carries, unread, sent_of, closed_of in *; cbn [p_session p_stack] in *;
      rewrite ?I2 in *; try (split_and!; congruence); try congruence; rewrite ?E3, ?Hr in *; try len_lia.
    + eapply touches_trans; [exact Ht|exact B].
    + intros stream [H|[? _]]; [|done]. right. split; [done|].
      exists (to_remote s ++ delivered (conn_r (conn (client s)))). by rewrite H.
Qed.

(** A change that neither sends nor loses bytes. *)
Lemma sends_quiet (p p' : pump) :
  same_session (p_session p) (p_session p') → p_stack p' = p_stack p →
  to_remote (p_session p') = to_remote (p_session p) → unread (p_session p') = unread (p_session p) →
  client_to_remote_bytes (p_session p') = client_to_remote_bytes (p_session p) →
  to_client (p_session p') = to_client (p_session p) ∧
    remote_to_client_bytes (p_session p') = remote_to_client_bytes (p_session p) ∧
    socks_replied (p_session p') = socks_replied (p_session p) ∧
    remote_closed (p_session p') = remote_closed (p_session p) ∧
    conn_w (conn (client (p_session p'))) = conn_w (conn (client (p_session p))) ∧
    read_shut (client (p_session p')) = read_shut (client (p_session p)) ∧
    write_shut (client (p_session p')) = write_shut (client (p_session p)) →
  sends p p'.
Proof.
  intros Hs Hst Hr Hu Hc Ho. split; try done; unfold sent_of, closed_of, carries, sent_of, closed_of;
    destruct Hs as (_ & Eh & _); rewrite ?Eh, ?Hst, ?Hr, ?Hu; try done; try lia. all: apply touches_refl.
Qed.

Definition blocked (p : pump) : Prop := tcp_can_send (handle (p_session p)) (p_stack p) = Ok false.

(** All of [data] was sent, and nothing waits. *)
Definition sends_all (data : bytes) (p p' : pump) : Prop :=
  sent_of (p_session p') (p_stack p') = sent_of (p_session p) (p_stack p) ++ data ∧ to_remote (p_session p') = [].

Lemma closed_blocked p : alive_pump p → closed_of (p_session p) (p_stack p) → blocked p.
Proof. apply closed_law. Qed.

Lemma sendable_open p : alive_pump p → tcp_can_send (handle (p_session p)) (p_stack p) = Ok true →
  ¬ closed_of (p_session p) (p_stack p).
Proof. intros Hl Hs Hc. pose proof (closed_blocked p Hl Hc). unfold blocked in *. congruence. Qed.

Lemma sends_out_headroom (p p' : pump) : sends p p' → out_headroom (p_session p) → out_headroom (p_session p').
Proof. intros H. pose proof (sends_headroom _ _ H). unfold out_headroom. lia. Qed.

Lemma send_queued_ok fuel (p : pump) :
  alive_pump p → out_headroom (p_session p) → (length (to_remote (p_session p)) <= fuel)%nat →
  ∃ p', send_queued fuel p = (Ok tt, p') ∧ sends p p' ∧ local_closed (p_session p') = local_closed (p_session p) ∧
    (client (p_session p') = client (p_session p) ∧ sends_all (to_remote (p_session p)) p p' ∨ blocked p').
Proof.
  revert p. induction fuel as [|fuel IH]; intros p Hl Hroom Hf; cbn [send_queued];
    destruct (tcp_can_send_ok _ _ Hl) as ([] & Hcan); rewrite Hcan; cbn [lift sbind andb];
    try (exists p; split; [done|]; split; [apply sends_refl|]; split; [done|]; by right);
    (destruct (bool_decide_reflect (to_remote (p_session p) = [])) as [Hq|Hq]; cbn [negb];
      [exists p; split; [done|]; split; [apply sends_refl|]; split; [done|]; left; rewrite Hq;
       split; [done|]; split; [by rewrite app_nil_r|done]|]).
  { exfalso. apply Hq. destruct (to_remote _); [done|cbn in Hf; lia]. }
  destruct (drain_chunk (to_remote (p_session p)) IO_BUFFER_SIZE) as [chunk queue] eqn:Hd.
  pose proof (drain_chunk_nonempty _ _ _ Hq Hd) as Hpos. apply drain_chunk_app in Hd as [Hd _]; [|done].
  set (p1 := change (λ s, s <| to_remote := queue |>) p).
  assert (takes chunk p p1) as Ht.
  { split; try done. unfold p1, unread. cbn. by rewrite Hd, <- app_assoc. }
  destruct (send_taken chunk p p1 Hl (sendable_open p Hl Hcan) Hroom Ht) as (r & p2 & -> & Hr). cbn [sbind].
  destruct r as [k|err].
  - destruct Hr as (Hk & p3 & -> & Hc3 & Hq3 & Hl3 & Hall & Hpart). cbn [sbind].
    destruct (Z.ltb_spec k (len chunk)) as [Hlt|Hge].
    + rewrite slice_from_drop by lia. cbn [lift sbind]. destruct (Hpart Hlt) as [Hb Hs].
      eexists. split; [reflexivity|].
      specialize (Hs (push_front_bytes (to_remote (p_session p3)) (drop (Z.to_nat k) chunk))).
      rewrite push_front_bytes_app, Hq3 in Hs. specialize (Hs eq_refl).
      rewrite <- Hq3, <- push_front_bytes_app in Hs. split; [exact Hs|]. split; [exact Hl3|]. right. exact Hb.
    + destruct (Hall ltac:(lia)) as [Hs Hsent].
      destruct (IH p3) as (p4 & -> & Hs4 & Hl4 & H4).
      * by eapply sends_alive.
      * by eapply sends_out_headroom.
      * rewrite Hq3. cbn. rewrite Hd, length_app in Hf. unfold len in Hpos. lia.
      * exists p4. split; [done|]. split; [by eapply sends_trans|]. split; [congruence|].
        destruct H4 as [[H4 [H5 H6]]|]; [left|by right]. split; [by rewrite H4, Hc3|].
        split; [|done]. rewrite H5, Hsent, Hq3, Hd. by rewrite <- app_assoc.
  - destruct (Hr ("proxy TCP send failed: " +:+ err)) as (p3 & -> & Hs & Hc & Hlc). exists p3.
    split; [done|]. split; [done|]. split; [done|]. right. apply closed_blocked; [by eapply sends_alive|done].
Qed.

(** Reading the client. *)
Lemma on_client_read (p : pump) : ∃ r p1, on_client (tcp_read IO_BUFFER_SIZE) p = (r, p1) ∧
  same_session (p_session p) (p_session p1) ∧ p_stack p1 = p_stack p ∧
  to_remote (p_session p1) = to_remote (p_session p) ∧
  client_to_remote_bytes (p_session p1) = client_to_remote_bytes (p_session p) ∧
  local_closed (p_session p1) = local_closed (p_session p) ∧
  (to_client (p_session p1) = to_client (p_session p) ∧
    remote_to_client_bytes (p_session p1) = remote_to_client_bytes (p_session p) ∧
    socks_replied (p_session p1) = socks_replied (p_session p) ∧
    remote_closed (p_session p1) = remote_closed (p_session p) ∧
    conn_w (conn (client (p_session p1))) = conn_w (conn (client (p_session p))) ∧
    read_shut (client (p_session p1)) = read_shut (client (p_session p)) ∧
    write_shut (client (p_session p1)) = write_shut (client (p_session p))) ∧
  match r with
  | Ok l => unread (p_session p) = l ++ unread (p_session p1) ∧
      arrived (client (p_session p)) = l ++ (if decide (l = []) then [] else arrived (client (p_session p1))) ∧
      (l ≠ [] → (reader_fuel (conn_r (conn (client (p_session p1)))) <
                 reader_fuel (conn_r (conn (client (p_session p)))))%nat)
  | Err _ => unread (p_session p1) = unread (p_session p) ∧ arrived (client (p_session p)) = []
  | _ => False
  end.
Proof.
  unfold on_client, unread. pose proof (tcp_read_arrived IO_BUFFER_SIZE (client (p_session p)) ltac:(done)) as Ha. pose proof (tcp_read_cases IO_BUFFER_SIZE (client (p_session p))) as Hr.
  pose proof (tcp_read_conn IO_BUFFER_SIZE (client (p_session p))) as (Hw & Hws & Hrs).
  assert (∀ l t', tcp_read IO_BUFFER_SIZE (client (p_session p)) = (Ok l, t') → l ≠ [] →
    (reader_fuel (conn_r (conn t')) < reader_fuel (conn_r (conn (client (p_session p)))))%nat) as Hf.
  { intros l t'. unfold tcp_read, on_reader. destruct (read_shut _); [by intros [= <- <-]|].
    destruct (read IO_BUFFER_SIZE _) as [r rd] eqn:E. intros [= -> <-]. destruct l as [|x l]; [done|].
    intros _. cbn. by apply read_fuel in E. }
  destruct (tcp_read IO_BUFFER_SIZE (client (p_session p))) as [r t]. cbn [fst snd] in *.
  eexists _, _. split; [reflexivity|]. cbn. split_and!; try done.
  destruct r as [l|e| |]; try done. split; [|split; [exact Ha|by apply Hf]].
  destruct Hr as [Hr|(_ & -> & ->)]; done.
Qed.

Lemma read_client_blocked fuel (p : pump) : blocked p → read_client fuel p = (Ok tt, p).
Proof. unfold blocked. destruct fuel; cbn [read_client]; by intros ->. Qed.

Lemma read_client_ok fuel (p : pump) :
  alive_pump p → out_headroom (p_session p) → to_remote (p_session p) = [] →
  (reader_fuel (conn_r (conn (client (p_session p)))) <= fuel)%nat →
  ∃ p', read_client fuel p = (Ok tt, p') ∧ sends p p' ∧
    (sends_all (arrived (client (p_session p))) p p' ∨
     blocked p' ∧ local_closed (p_session p') = local_closed (p_session p)).
Proof.
  revert p. induction fuel as [|fuel IH]; intros p Hl Hroom Hq Hf.
  { destruct (conn_r (conn (client (p_session p)))) as [|[]]; cbn in Hf; lia. }
  cbn [read_client]. destruct (tcp_can_send_ok _ _ Hl) as ([] & Hcan); rewrite Hcan; cbn [lift sbind];
    [|exists p; split; [done|]; split; [apply sends_refl|by right]].
  destruct (on_client_read p) as (r & p1 & -> & Hsame & Hst & Hr1 & Hc1 & Hl1 & Ho1 & Hr).
  assert (arrived (client (p_session p)) = [] → sent_of (p_session p1) (p_stack p1) = sent_of (p_session p) (p_stack p) →
    sends_all (arrived (client (p_session p))) p p1) as Hnone.
  { intros -> Hs. split; [by rewrite app_nil_r|congruence]. }
  assert (sent_of (p_session p1) (p_stack p1) = sent_of (p_session p) (p_stack p)) as Hsent1.
  { unfold sent_of. rewrite Hst. by destruct Hsame as (_ & -> & _). }
  destruct r as [l|e| |]; [| |done..].
  - destruct Hr as (Hu & Ha & Hfuel). destruct l as [|x l].
    + (* the end of the stream *)
      set (p2 := change (λ s, s <| local_closed := true |>) p1).
      assert (sends p p2) as Hs2 by (apply sends_quiet; done).
      destruct (end_pump_ok "client closed connection" p2) as (p3 & -> & Hs3 & Hr3 & _ & Hsent3 & _); [by eapply sends_alive|].
      exists p3. split; [done|]. split; [by eapply sends_trans|]. left. destruct (Hnone Ha Hsent1) as [N1 N2].
      split; [|by rewrite Hr3]. by rewrite Hsent3.
    + rewrite decide_False in Ha by done. set (buf := x :: l) in *. assert (takes buf p p1) as Ht.
      { split; try done. by rewrite Hq, Hr1, Hq, Hu. }
      specialize (Hfuel ltac:(done)). clearbody buf.
      destruct (send_taken buf p p1 Hl (sendable_open p Hl Hcan) Hroom Ht) as (r & p2 & -> & Hr). cbn [sbind].
      destruct r as [k|err].
      * destruct Hr as (Hk & p3 & -> & Hc3 & Hq3 & Hl3 & Hall & Hpart). cbn [sbind].
        destruct (Z.ltb_spec k (len buf)) as [Hlt|Hge].
        -- rewrite slice_from_drop by lia. cbn [lift sbind]. destruct (Hpart Hlt) as [Hb Hs].
           eexists. split; [reflexivity|]. split; [apply Hs; by rewrite Hq3, Hr1, Hq, app_nil_r|]. right. split; [exact Hb|exact Hl3].
        -- destruct (Hall ltac:(lia)) as [Hs Hsent].
           destruct (IH p3) as (p4 & -> & Hs4 & H4).
           ++ by eapply sends_alive.
           ++ by eapply sends_out_headroom.
           ++ congruence.
           ++ rewrite Hc3. lia.
           ++ exists p4. split; [done|]. split; [by eapply sends_trans|].
              destruct H4 as [[H4 H5]|[H4 H5]]; [left|right; split; [done|congruence]].
              split; [|done]. by rewrite H4, Hsent, Ha, Hc3, <- app_assoc.
      * destruct (Hr ("proxy TCP send failed: " +:+ err)) as (p3 & -> & Hs & Hc & Hlc). exists p3. split; [done|]. split; [done|].
        right. split; [|done]. apply closed_blocked; [by eapply sends_alive|done].
  - destruct Hr as [Hu Ha]. assert (sends p p1) as Hs1 by (by apply sends_quiet).
    assert (∃ p', end_pump ("client read failed: " +:+ io_text e) p1 = (Ok tt, p') ∧ sends p p' ∧
      sends_all (arrived (client (p_session p))) p p') as (p3 & Hg & Hs3 & Hall).
    { destruct (end_pump_ok ("client read failed: " +:+ io_text e) p1) as (p3 & Hg & Hs3 & Hr3 & _ & Hsent3 & _); [by eapply sends_alive|].
      exists p3. split; [done|]. split; [by eapply sends_trans|]. destruct (Hnone Ha Hsent1) as [N1 N2].
      split; [by rewrite Hsent3|by rewrite Hr3]. }
    specialize (Hnone Ha Hsent1).
    destruct e as [[] m| | | | | | | | | | | | | | | | | |]; try (exists p3; split; [done|]; split; [done|by left]).
    exists p1. split; [done|]. split; [done|by left].
Qed.

(** A pass over a session that is open sends all that waits and all that has
    arrived, unless the socket takes no more; it leaves others as they are. *)
Definition proceeds (p p' : pump) : Prop :=
  if local_closed (p_session p) || negb (socks_replied (p_session p)) then p' = p else
  sends_all (to_remote (p_session p) ++ arrived (client (p_session p))) p p' ∨
  blocked p' ∧ local_closed (p_session p') = false.

Lemma pump_out_ok (p : pump) :
  alive_pump p → out_headroom (p_session p) → ∃ p', pump_out p = (Ok tt, p') ∧ sends p p' ∧ proceeds p p'.
Proof.
  intros Hl Hroom. unfold pump_out, proceeds. destruct (local_closed (p_session p)) eqn:El; cbn [orb].
  { exists p. split; [done|]. split; [apply sends_refl|done]. }
  destruct (socks_replied (p_session p)) eqn:Ek; cbn [negb].
  2: { exists p. split; [done|]. split; [apply sends_refl|done]. }
  destruct (send_queued_ok (S (length (to_remote (p_session p)))) p) as (p1 & -> & Hs1 & Hl1 & Hq); [done..|lia|].
  cbn [sbind]. destruct Hq as [[Ec [Q1 Q2]]|Hb].
  - destruct (read_client_ok (reader_fuel (conn_r (conn (client (p_session p1))))) p1) as (p2 & -> & Hs2 & Hp);
      [by eapply sends_alive|by eapply sends_out_headroom|done|done|].
    exists p2. split; [done|]. split; [by eapply sends_trans|].
    destruct Hp as [[P1 P2]|[P1 P2]]; [left|right; split; [done|congruence]].
    split; [|done]. by rewrite P1, Q1, Ec, app_assoc.
  - rewrite read_client_blocked by done. exists p1. split; [done|]. split; [done|]. right. split; [done|congruence].
Qed.

(** *** The other direction *)

(** What the remote-to-client direction never touches. *)
Record receives (p p' : pump) : Prop := {
  receives_same : same_session (p_session p) (p_session p');
  receives_touches : touches (handle (p_session p)) (p_stack p) (p_stack p');
  receives_sent : sent_of (p_session p') (p_stack p') = sent_of (p_session p) (p_stack p);
  receives_closed : closed_of (p_session p) (p_stack p) → closed_of (p_session p') (p_stack p');
  receives_other : to_remote (p_session p') = to_remote (p_session p) ∧
    client_to_remote_bytes (p_session p') = client_to_remote_bytes (p_session p) ∧
    local_closed (p_session p') = local_closed (p_session p) ∧
    remote_closed (p_session p') = remote_closed (p_session p) ∧
    conn_r (conn (client (p_session p'))) = conn_r (conn (client (p_session p))) ∧
    read_shut (client (p_session p')) = read_shut (client (p_session p)) ∧
    write_shut (client (p_session p')) = write_shut (client (p_session p));
}.

Definition pending_of (p : pump) : bytes := pending (handle (p_session p)) (sockets (p_stack p)).
Definition written_to (p : pump) : bytes := written (conn_w (conn (client (p_session p)))).

Lemma receives_refl p : receives p p.
Proof. split; try done. all: apply touches_refl. Qed.

Lemma receives_trans p1 p2 p3 : receives p1 p2 → receives p2 p3 → receives p1 p3.
Proof.
  intros [(A1 & A2 & A3 & A4) B C D (E1 & E2 & E3 & E4 & E5 & E6 & E7)]
         [(A1' & A2' & A3' & A4') B' C' D' (E1' & E2' & E3' & E4' & E5' & E6' & E7')].
  rewrite A2 in *. split; try (by split_and!; congruence); auto; try congruence.
  by eapply touches_trans.
Qed.

Lemma receives_alive p p' : receives p p' → alive_pump p → alive_pump p'.
Proof.
  intros H Hl. unfold alive_pump. destruct (receives_same _ _ H) as (_ & -> & _).
  by apply (touches_alive _ _ _ _ (receives_touches _ _ H)).
Qed.

(** Giving up, seen from this direction. *)
Lemma end_pump_receives reason p : alive_pump p → ∃ p', end_pump reason p = (Ok tt, p') ∧ receives p p' ∧
  to_client (p_session p') = to_client (p_session p) ∧ written_to p' = written_to p ∧
  pending_of p' = pending_of p ∧ remote_to_client_bytes (p_session p') = remote_to_client_bytes (p_session p) ∧
  is_Some (close_reason (p_session p')) ∧ socks_replied (p_session p') = socks_replied (p_session p) ∧
  client (p_session p') = client (p_session p).
Proof.
  intros Hl. unfold end_pump, on_stack, change. destruct p as [s n]. cbn [p_session p_stack] in *.
  destruct (tcp_close_ok (handle s) n Hl) as (n' & -> & Ht & (Hs & Hp & Hc) & Hcl).
  eexists. split; [reflexivity|]. unfold mark_closed, pending_of, written_to, is_Some.
  destruct (close_reason s) eqn:E; cbn; (split; [|by rewrite ?E; eauto 10]); (split; cbn; unfold sent_of, closed_of; done).
Qed.

Lemma receive_all_ok fuel p :
  alive_pump p → remote_to_client_bytes (p_session p) + len (pending_of p) < 2 ^ 64 →
  (length (pending_of p) < fuel)%nat →
  ∃ p' taken, receive_all fuel p = (Ok tt, p') ∧ receives p p' ∧ pending_of p = taken ++ pending_of p' ∧
    pending_of p' = [] ∧ to_client (p_session p') = to_client (p_session p) ++ taken ∧
    remote_to_client_bytes (p_session p') = remote_to_client_bytes (p_session p) + len taken ∧
    client (p_session p') = client (p_session p) ∧
    close_reason (p_session p') = close_reason (p_session p) ∧
    socks_replied (p_session p') = socks_replied (p_session p).
Proof.
  revert p. induction fuel as [|fuel IH]; intros p Hl Hroom Hf; [lia|]. cbn [receive_all].
  destruct p as [s n]. unfold on_stack, alive_pump, pending_of in *. cbn [p_session p_stack] in *.
  destruct (tcp_recv_ok (handle s) IO_BUFFER_SIZE n Hl) as (r & n' & -> & Ht & Hs & Hc & Hr); [done|].
  cbn [sbind]. set (p1 := {| p_session := s; p_stack := n' |}).
  assert (receives {| p_session := s; p_stack := n |} p1) as Hr1 by (by split).
  destruct r as [[|x l]|err].
  - exists p1, []. destruct Hr as (_ & Hr & Hnil). specialize (Hnil eq_refl ltac:(done)). cbn [app] in Hr.
    rewrite app_nil_r, len_nil, Z.add_0_r. split_and!; try done. cbn. congruence.
  - set (buf := x :: l) in *. assert (0 < len buf) as Hpos by (apply len_pos; done). clearbody buf.
    destruct Hr as (_ & Hr & _). pose proof (f_equal len Hr) as Hlen. simpl_len.
    pose proof (len_nonneg (pending (handle s) (sockets n'))).
    unfold count_received, u64_add, lift. change (p_session p1) with s. rewrite (proj2 (Z.ltb_lt _ _)) by lia. cbn [sbind].
    set (p2 := change _ _). assert (receives p1 p2) as Hr2 by (split; try done; apply touches_refl).
    destruct (IH p2) as (p3 & taken & -> & Hr3 & Hp & Hnil & Htc & Hcount & Hcl & Hcr & Hsr).
    + by apply (touches_alive _ _ _ _ Ht).
    + cbn. lia.
    + cbn. unfold len in *. lia.
    + exists p3, (buf ++ taken). cbn in Hp, Htc, Hcount, Hcl, Hcr, Hsr. split; [done|].
      split; [eapply receives_trans; [exact Hr1|]; by eapply receives_trans|].
      rewrite Hr, Hp, Htc, Hcount, Hcl, Hcr, Hsr. simpl_len. rewrite <- !app_assoc. split_and!; try done. lia.
  - exists p1, []. destruct Hr as [Hr Hr']. cbn. rewrite Hr, Hr', app_nil_r, len_nil, Z.add_0_r. by split_and!.
Qed.

(** What is written leaves the front of the queue in order; only a failed write
    loses the chunk it was given, and then the session is given up. *)
Lemma put_back_ok rest p :
  receives p (put_back rest p) ∧ pending_of (put_back rest p) = pending_of p ∧
  to_client (p_session (put_back rest p)) = rest ++ to_client (p_session p) ∧
  remote_to_client_bytes (p_session (put_back rest p)) = remote_to_client_bytes (p_session p) ∧
  written_to (put_back rest p) = written_to p ∧
  socks_replied (p_session (put_back rest p)) = socks_replied (p_session p).
Proof.
  split_and!; try done. all: unfold put_back; cbn; try by rewrite push_front_bytes_app.
  all: split; try done; apply touches_refl.
Qed.

(** Of what is queued for the client, [out] was written and [lost] refused; a
    session that loses octets notes why. *)
Definition passed (p p' : pump) (out lost : bytes) : Prop :=
  receives p p' ∧ pending_of p' = pending_of p ∧ written_to p' = written_to p ++ out ∧
  to_client (p_session p) = out ++ lost ++ to_client (p_session p') ∧
  remote_to_client_bytes (p_session p') = remote_to_client_bytes (p_session p) ∧
  (lost ≠ [] → is_Some (close_reason (p_session p'))) ∧
  socks_replied (p_session p') = socks_replied (p_session p).

Lemma passed_refl p : passed p p [] [].
Proof. unfold passed. rewrite app_nil_r. split; [apply receives_refl|]. by split_and!. Qed.

Lemma passed_trans p1 p2 p3 out1 out2 lost : passed p1 p2 out1 [] → passed p2 p3 out2 lost → passed p1 p3 (out1 ++ out2) lost.
Proof.
  intros (A1 & A2 & A3 & A4 & A5 & _ & A7) (B1 & B2 & B3 & B4 & B5 & B6 & B7). unfold passed.
  rewrite B2, B3, B5, B7, A3, A4, B4. split; [by eapply receives_trans|]. rewrite <- !app_assoc. by split_and!.
Qed.

Definition script_left (p : pump) : Z := len (w_script (conn_w (conn (client (p_session p))))).

(** One write of what was taken off the queue. *)
Lemma client_write_ok chunk queue p : to_client (p_session p) = chunk ++ queue →
  ∃ r p1, on_client (tcp_write chunk) (change (λ s, s <| to_client := queue |>) p) = (r, p1) ∧
    to_client (p_session p1) = queue ∧ script_left p1 <= script_left p ∧
    (r = Ok (len chunk) ∨ stalls (client (p_session p)) (client (p_session p1))) ∧
    match r with
    | Ok k => 0 <= k <= len chunk ∧ passed p (put_back (drop (Z.to_nat k) chunk) p1) (take (Z.to_nat k) chunk) []
    | Err _ => passed p (put_back chunk p1) [] [] ∧ ∀ reason, alive_pump p →
        ∃ p', end_pump reason p1 = (Ok tt, p') ∧ passed p p' [] chunk ∧ client (p_session p') = client (p_session p1)
    | _ => False
    end.
Proof.
  intros Hd. unfold on_client. cbn [change p_session p_stack].
  pose proof (tcp_write_cases chunk (client (p_session p))) as Hw.
  pose proof (tcp_write_conn chunk (client (p_session p))) as (Hcr & Hws & Hrs).
  pose proof (tcp_write_short chunk (client (p_session p))) as Hsh.
  change (client (p_session p <| to_client := queue |>)) with (client (p_session p)).
  destruct (tcp_write chunk (client (p_session p))) as [r t]. cbn [fst snd] in *.
  eexists r, _. split; [reflexivity|]. split; [done|]. destruct Hsh as [Hsh1 Hsh2].
  split; [unfold script_left, len; cbn; lia|]. split; [exact Hsh2|]. set (p1 := {| p_session := _ |}).
  assert (receives p p1) as Hr1 by (split; try done; cbn; try apply touches_refl; by rewrite Hcr, Hws, Hrs).
  pose proof (λ rest, put_back_ok rest p1) as Hput.
  assert (∀ k, written (conn_w (conn t)) = written_to p ++ take k chunk →
    passed p (put_back (drop k chunk) p1) (take k chunk) []) as Hback.
  { intros k Hk. destruct (Hput (drop k chunk)) as (G1 & G2 & G3 & G4 & G5 & G6). unfold passed.
    rewrite G2, G3, G4, G5, G6. split; [by eapply receives_trans|]. split_and!; try done.
    change (to_client (p_session p1)) with queue. cbn [app]. by rewrite Hd, app_assoc, take_drop. }
  destruct r as [k|e| |]; try done.
  - destruct Hw as [Hk Hw]. split; [done|]. by apply Hback.
  - split; [apply (Hback 0%nat); by rewrite take_0, app_nil_r|]. intros reason Hl.
    destruct (end_pump_receives reason p1) as (p3 & Hg & Hr3 & H31 & H32 & H33 & H34 & H35 & H36 & H37); [by eapply receives_alive|].
    exists p3. split; [done|]. split; [|done]. unfold passed. rewrite H31, H32, H33, H34, H36, app_nil_r.
    split; [by eapply receives_trans|]. by split_and!.
Qed.

Lemma end_pump_passed reason p p2 out : alive_pump p → passed p p2 out [] →
  ∃ p3, end_pump reason p2 = (Ok tt, p3) ∧ passed p p3 out [] ∧ client (p_session p3) = client (p_session p2).
Proof.
  intros Hl (A1 & A2 & A3 & A4 & A5 & _ & A7).
  destruct (end_pump_receives reason p2) as (p3 & Hg & Hr3 & H31 & H32 & H33 & H34 & H35 & H36 & H37); [by eapply receives_alive|].
  exists p3. split; [done|]. split; [|done]. unfold passed. rewrite H31, H32, H33, H34, H36.
  split; [by eapply receives_trans|]. by split_and!.
Qed.

(** The client refused a part of what it was offered. *)
Definition refused (p p' : pump) : Prop := stalls (client (p_session p)) (client (p_session p')).

Lemma refused_trans p p1 p' out : passed p p1 out [] →
  script_left p1 <= script_left p → refused p1 p' → refused p p'.
Proof.
  intros Hp Hs [Hw|Hw]; unfold refused, stalls, shorter, script_left, len in *; [left|right; lia].
  assert (receives p p1) as [_ _ _ _ (_ & _ & _ & _ & _ & _ & <-)] by (by destruct Hp). done.
Qed.

Lemma write_client_ok fuel p :
  alive_pump p → (length (to_client (p_session p)) <= fuel)%nat →
  ∃ p' out lost, write_client fuel p = (Ok tt, p') ∧ passed p p' out lost ∧
    (lost = [] ∧ to_client (p_session p') = [] ∨ refused p p').
Proof.
  revert p. induction fuel as [|fuel IH]; intros p Hl Hf; cbn [write_client];
    (destruct (to_client (p_session p)) as [|x q0] eqn:Eq; [exists p, [], []; split; [done|]; split; [apply passed_refl|by left]|]);
    [cbn in Hf; lia|].
  set (q := x :: q0) in *. assert (q ≠ []) as Hq by done. clearbody q.
  destruct (drain_chunk q IO_BUFFER_SIZE) as [chunk queue] eqn:Hd.
  pose proof (drain_chunk_nonempty _ _ _ Hq Hd) as Hpos. apply drain_chunk_app in Hd as [Hd _]; [|done].
  destruct (client_write_ok chunk queue p) as (r & p1 & -> & Hq1 & Hleft & Hshort & Hr); [congruence|].
  destruct r as [k|e| |]; [| |done..].
  - destruct Hr as [Hk Hp]. destruct (Z.eqb_spec k 0) as [->|Hk0].
    { rewrite drop_0, take_0 in Hp. destruct (end_pump_passed "client write returned zero" _ _ _ Hl Hp) as (p3 & -> & Hp3 & Hc3).
      exists p3, [], []. split; [done|]. split; [done|]. right. unfold refused. rewrite Hc3.
      destruct Hshort as [[= ?]|]; [lia|done]. }
    destruct (Z.ltb_spec k (len chunk)) as [Hlt|Hge].
    + rewrite slice_from_drop by lia. eexists _, _, []. split; [done|]. split; [exact Hp|].
      right. destruct Hshort as [[= ?]|]; [lia|done].
    + rewrite take_ge, drop_ge in Hp by (unfold len in *; lia).
      assert (put_back [] p1 = p1) as E by (destruct p1 as [s n]; by destruct s). rewrite E in Hp.
      destruct (IH p1) as (p2 & out & lost & -> & Hp2 & Hend).
      { eapply receives_alive; [|exact Hl]. by destruct Hp. }
      { rewrite Hq1. rewrite Hd, length_app in Hf. unfold len in Hpos. lia. }
      exists p2, (chunk ++ out), lost. split; [done|]. split; [by eapply passed_trans|].
      destruct Hend as [|Hend]; [by left|right]. by eapply refused_trans.
  - destruct Hshort as [|Hshort]; [done|].
    destruct Hr as [Hback Hend]. destruct (Hend ("client write failed: " +:+ io_text e) Hl) as (p3 & Hg & Hp3 & Hc3).
    assert (refused p p3) as Href by (unfold refused; by rewrite Hc3).
    destruct e as [[] m| | | | | | | | | | | | | | | | | |]; try (exists p3, [], chunk; split; [done|]; split; [done|by right]).
    eexists _, [], []. split; [done|]. split; [exact Hback|by right].
Qed.

(** The reply to the client's request. *)
Definition success_reply : bytes := [VERSION; REPLY_SUCCEEDED; 0x00; ATYP_IPV4; 0; 0; 0; 0; 0; 0].

Definition ok_or_err {A} (r : result A) (a : A) : Prop := r = Ok a ∨ ∃ e, r = Err e.

(** The reply is written once, in the first pass that finds the connection
    established; a session whose connection is not (or no longer) established
    stays without one. *)
Definition replies_due (reply : bytes) (p p' : pump) : Prop :=
  if socks_replied (p_session p) then reply = [] ∧ socks_replied (p_session p') = true
  else match tcp_is_established (handle (p_session p)) (p_stack p) with
       | Ok true => reply = success_reply ∧ socks_replied (p_session p') = true
       | Ok false => reply = [] ∧ socks_replied (p_session p') = false
       | _ => False
       end.

Lemma reply_established_ok p : alive_pump p →
  ∃ r p' reply, reply_established p = (r, p') ∧ ok_or_err r tt ∧ receives p p' ∧ pending_of p' = pending_of p ∧
    to_client (p_session p') = to_client (p_session p) ∧
    remote_to_client_bytes (p_session p') = remote_to_client_bytes (p_session p) ∧
    close_reason (p_session p') = close_reason (p_session p) ∧
    (r = Ok tt → written_to p' = written_to p ++ reply ∧ replies_due reply p p' ∧
      (reply = [] → client (p_session p') = client (p_session p))).
Proof.
  intros Hl. unfold reply_established. destruct (socks_replied (p_session p)) eqn:Ek.
  { exists (Ok tt), p, []. rewrite app_nil_r. split_and!; try done;
      first [by left|apply receives_refl|intros _; unfold replies_due; by rewrite Ek]. }
  destruct (tcp_is_established_ok _ _ Hl) as ([] & He); rewrite He; cbn [lift sbind].
  2: { exists (Ok tt), p, []. rewrite app_nil_r. split_and!; try done;
      first [by left|apply receives_refl|intros _; unfold replies_due; by rewrite Ek, He]. }
  unfold on_client, on_conn, write_success. change (send _) with (send success_reply).
  destruct (send_cases success_reply (conn (client (p_session p)))) as [Hr Hw].
  destruct (send success_reply _) as [r c]. cbn [fst snd] in *.
  set (p1 := {| p_session := _ |}).
  assert (receives p p1 ∧ pending_of p1 = pending_of p ∧ to_client (p_session p1) = to_client (p_session p) ∧
    remote_to_client_bytes (p_session p1) = remote_to_client_bytes (p_session p) ∧
    close_reason (p_session p1) = close_reason (p_session p)) as (R1 & R2 & R3 & R4 & R5).
  { split_and!; try done. all: split; try done; cbn; first [apply touches_refl|by rewrite Hr]. }
  destruct Hw as [[-> Hw]|[e ->]]; cbn [sbind].
  - eexists _, _, success_reply. split; [reflexivity|]. split_and!; try done; first [by left|intros _; unfold replies_due; by rewrite Ek, He|idtac].
    all: eapply receives_trans; [exact R1|]; split; try done; apply touches_refl.
  - exists (Err e), p1, []. split; [done|]. split_and!; try done. all: right; by eexists.
Qed.

Definition in_headroom (s : session) (n : stack) : Prop :=
  remote_to_client_bytes s + len (pending (handle s) (sockets n)) < 2 ^ 64.

(** What one pass delivers to the client: the reply, if it is due, then what
    was queued followed by all that the socket had received, in order; the
    counter counts what was received.  Only a failed write loses a chunk, and
    something is left in the queue only if the client, as the reply has left
    it, did not take all that it was offered. *)
Definition delivers (p p' : pump) : Prop :=
  ∃ reply out lost c,
    written_to p' = written_to p ++ reply ++ out ∧
    pending_of p' = [] ∧
    to_client (p_session p) ++ pending_of p = out ++ lost ++ to_client (p_session p') ∧
    remote_to_client_bytes (p_session p') = remote_to_client_bytes (p_session p) + len (pending_of p) ∧
    (lost ≠ [] → is_Some (close_reason (p_session p'))) ∧
    replies_due reply p p' ∧
    written (conn_w (conn c)) = written_to p ++ reply ∧ (reply = [] → c = client (p_session p)) ∧
    (lost = [] ∧ to_client (p_session p') = [] ∨ stalls c (client (p_session p'))).

Lemma pump_in_ok p : alive_pump p → in_headroom (p_session p) (p_stack p) →
  ∃ r p', pump_in p = (r, p') ∧ ok_or_err r tt ∧ receives p p' ∧ (r = Ok tt → delivers p p').
Proof.
  intros Hl Hroom. unfold pump_in.
  destruct (reply_established_ok p Hl) as (r & p1 & reply & -> & [->|[e ->]] & R1 & E1 & E2 & E3 & E4 & Hrep); cbn [sbind].
  2: { exists (Err e), p1. split; [done|]. split; [right; by eexists|done]. }
  destruct (Hrep eq_refl) as (Hw1 & Hreply & Hsame). assert (alive_pump p1) as Hl1 by (by eapply receives_alive).
  assert (receive_fuel p1 = S (length (pending_of p1))) as ->.
  { unfold receive_fuel. rewrite (recv_queue_law (handle (p_session p1)) (sockets (p_stack p1))) by done.
    unfold len, pending_of. by rewrite Nat2Z.id. }
  destruct (receive_all_ok (S (length (pending_of p1))) p1) as (p2 & taken & -> & R2 & F1 & F0 & F2 & F3 & F4 & F5 & F6);
    [done| |lia|].
  { rewrite E1, E3. exact Hroom. }
  rewrite F0, app_nil_r in F1. subst taken.
  cbn [sbind]. assert (alive_pump p2) as Hl2 by (by eapply receives_alive).
  destruct (write_client_ok (length (to_client (p_session p2))) p2)
    as (p3 & out & lost & -> & (R3 & G1 & G2 & G3 & G4 & G5 & G6) & Hend); [done..|].
  exists (Ok tt), p3. split; [done|]. split; [by left|].
  split; [eapply receives_trans; [exact R1|]; by eapply receives_trans|]. intros _.
  exists reply, out, lost, (client (p_session p1)). split_and!; try done.
  - rewrite G2. unfold written_to in *. rewrite F4, Hw1. by rewrite <- app_assoc.
  - by rewrite G1.
  - by rewrite <- E2, <- E1, <- F2, G3.
  - by rewrite G4, F3, E3, E1.
  - unfold replies_due in *. by rewrite G6, F6.
  - destruct Hend as [|Hend]; [by left|right]. unfold refused in Hend. by rewrite F4 in Hend.
Qed.

(** *** All sessions *)

(** Every pass over the sessions: each one is pumped once, in order, and none
    disturbs another.  [Q] is what a pump does when it succeeds. *)
Lemma for_sessions_ok (f : pump → result unit * pump) (Pre : session → stack → Prop) (Q : pump → pump → Prop) :
  (∀ s n n', same_at (handle s) (sockets n) (sockets n') → Pre s n → Pre s n') →
  (∀ p, alive_pump p → Pre (p_session p) (p_stack p) →
    ∃ r p', f p = (r, p') ∧ ok_or_err r tt ∧ same_session (p_session p) (p_session p') ∧
      touches (handle (p_session p)) (p_stack p) (p_stack p') ∧ (r = Ok tt → Q p p')) →
  ∀ l n, NoDup (handle <$> l) → Forall (λ s, alive (handle s) n) l → Forall (λ s, Pre s n) l →
  ∃ r l' n', for_sessions f l n = (r, (l', n')) ∧ ok_or_err r tt ∧ device n' = device n ∧
    (∀ h, alive h n' ↔ alive h n) ∧
    (∀ h, alive h n → h ∉ handle <$> l → same_at h (sockets n) (sockets n')) ∧
    (r = Ok tt → Forall2 (λ s s', same_session s s' ∧
      ∃ n1 n2, same_at (handle s) (sockets n) (sockets n1) ∧ same_at (handle s) (sockets n2) (sockets n') ∧
        Q {| p_session := s; p_stack := n1 |} {| p_session := s'; p_stack := n2 |}) l l').
Proof.
  intros Hstable Hf l. induction l as [|s l IH]; intros n Hnd Hal Hpre; cbn [for_sessions].
  { exists (Ok tt), [], n. split_and!; try done; by left. }
  cbn in Hnd. inversion Hnd as [|? ? Hni Hnd']; subst. apply Forall_cons in Hal as [Hl Hal].
  apply Forall_cons in Hpre as [Hp Hpre].
  destruct (Hf {| p_session := s; p_stack := n |} Hl Hp) as (r & [s1 n1] & -> & Hr & Hs & Ht & HQ).
  cbn [p_session p_stack] in *. destruct Ht as (Hdev & Hlive & Hoth).
  assert (∀ h, alive h n → h ≠ handle s → same_at h (sockets n) (sockets n1)) as Hoth' by auto.
  assert (∀ s0, s0 ∈ l → handle s0 ≠ handle s) as Hne.
  { intros s0 Hin E. apply Hni. rewrite <- E. by apply list_elem_of_fmap_2. }
  destruct Hr as [->|[e ->]].
  2: { exists (Err e), (s1 :: l), n1. split_and!; try done; try (right; by eexists).
       intros h Hh Hnin. apply Hoth'; [done|]. intros ->. apply Hnin. cbn. by left. }
  destruct (IH n1) as (r & l' & n2 & -> & Hr & Hdev2 & Hlive2 & Hoth2 & Hall).
  - done.
  - rewrite Forall_forall in Hal |- *. intros s0 Hin. apply Hlive. by apply Hal.
  - rewrite Forall_forall in Hal, Hpre |- *. intros s0 Hin. apply (Hstable s0 n); [|by apply Hpre].
    apply Hoth'; [by apply Hal|by apply Hne].
  - exists r, (s1 :: l'), n2. split; [done|]. split; [done|]. split; [congruence|].
    split; [intros h; by rewrite Hlive2; apply Hlive|]. split.
    + intros h Hh Hnin. rewrite fmap_cons, not_elem_of_cons in Hnin. destruct Hnin as [Hn1 Hn2].
      destruct (Hoth' h Hh Hn1) as (X1 & X2 & X3).
      destruct (Hoth2 h (proj2 (Hlive h) Hh) Hn2) as (Y1 & Y2 & Y3). split_and!; [congruence..|auto].
    + intros ->. specialize (Hall eq_refl). constructor.
      * split; [done|]. exists n, n1. split; [by split_and!|]. split; [|by apply HQ].
        apply Hoth2; [by apply Hlive|done].
      * rewrite Forall_forall in Hal. apply (Forall2_weaken (λ s0, s0 ∈ l) _ _ _ _ Hall); [done|].
        intros s0 s0' Hin (X & m1 & m2 & M1 & M2 & M3). split; [done|]. exists m1, m2. split; [|done].
        destruct (Hoth' (handle s0)) as (Y1 & Y2 & Y3); [by apply Hal|by apply Hne|].
        destruct M1 as (Z1 & Z2 & Z3). split_and!; [congruence..|auto].
Qed.

(** *** Cleaning up *)

(** A session that stays: at most it has learned that its socket is gone. *)
Definition kept (s s' : session) : Prop :=
  s' = s ∨ (remote_closed s = false ∧ s' = mark_closed "remote TCP closed" (s <| remote_closed := true |>)).

Lemma kept_fields s s' : kept s s' →
  same_session s s' ∧ client s' = client s ∧ to_remote s' = to_remote s ∧ to_client s' = to_client s ∧
  local_closed s' = local_closed s ∧ client_to_remote_bytes s' = client_to_remote_bytes s ∧
  remote_to_client_bytes s' = remote_to_client_bytes s ∧ socks_replied s' = socks_replied s.
Proof.
  intros [->|[_ ->]]; [by split_and!|]. unfold mark_closed. by destruct (close_reason _).
Qed.

Lemma cleanup_sessions_ok l : ∀ n,
  NoDup (handle <$> l) → Forall (λ s, alive (handle s) n) l →
  ∃ l' n', cleanup_sessions l n = (Ok tt, (l', n')) ∧ device n' = device n ∧
    (∀ h, alive h n' ↔ alive h n ∧ (h ∈ handle <$> l → h ∈ handle <$> l')) ∧
    (∀ h, alive h n' → same_at h (sockets n) (sockets n')) ∧
    sublist (handle <$> l') (handle <$> l) ∧
    (∀ s', s' ∈ l' → ∃ s, s ∈ l ∧ kept s s').
Proof.
  induction l as [|s l IH]; intros n Hnd Hal; cbn [cleanup_sessions].
  { exists [], n. split_and!; try done; [naive_solver|]. intros s'. by rewrite elem_of_nil. }
  cbn in Hnd. inversion Hnd as [|? ? Hni Hnd']; subst. apply Forall_cons in Hal as [Hl Hal].
  destruct (tcp_is_active_ok _ _ Hl) as (active & ->).
  set (s1 := if negb active && negb (remote_closed s) then _ else s).
  assert (kept s s1) as Hk. { subst s1. destruct (negb active && negb (remote_closed s)) eqn:E; [right|by left].
    apply andb_true_iff in E as [_ E%negb_true_iff]. done. }
  clearbody s1. assert (handle s1 = handle s) as Eh by (by destruct (kept_fields _ _ Hk) as [(_ & -> & _) _]).
  destruct (removable s1 active).
  - rewrite Eh. destruct (remove_tcp_socket_ok _ _ Hl) as (n1 & -> & Hdev & Hlive & Hsame).
    assert (∀ s0, s0 ∈ l → handle s0 ≠ handle s) as Hne.
    { intros s0 Hin E. apply Hni. rewrite <- E. by apply list_elem_of_fmap_2. }
    destruct (IH n1) as (l' & n2 & -> & Hdev2 & Hlive2 & Hsame2 & Hsub & Hkept).
    { done. }
    { rewrite Forall_forall in Hal |- *. intros s0 Hin. apply Hlive. split; [by apply Hne|by apply Hal]. }
    exists l', n2. split; [done|]. split; [congruence|]. split; [|split; [|split]].
    + intros h. rewrite Hlive2, Hlive. cbn. rewrite elem_of_cons.
      assert (handle s ∉ handle <$> l') as Hn'.
      { intros Hin. apply Hni. by apply (sublist_subseteq _ _ Hsub). }
      naive_solver.
    + intros h Hh. apply Hlive2 in Hh as Hh'. destruct Hh' as [[Hn1 Hn2]%Hlive _].
      destruct (Hsame h Hn1 Hn2) as (X1 & X2 & X3). destruct (Hsame2 h Hh) as (Y1 & Y2 & Y3).
      split_and!; [congruence..|auto].
    + cbn. by apply sublist_cons.
    + intros s' (s0 & Hin & Hk0)%Hkept. exists s0. split; [by right|done].
  - destruct (IH n) as (l' & n2 & -> & Hdev2 & Hlive2 & Hsame2 & Hsub & Hkept); [done..|].
    exists (s1 :: l'), n2. split; [done|]. split; [done|]. split; [|split; [|split]].
    + intros h. rewrite Hlive2. cbn. rewrite Eh, !elem_of_cons. naive_solver.
    + done.
    + cbn. rewrite Eh. by apply sublist_skip.
    + intros s' [->|(s0 & Hin & Hk0)%Hkept]%elem_of_cons; [exists s|exists s0]; (split; [|done]); [by left|by right].
Qed.
(** C16: The bytes of a client reach the tunnel, each once, in order, and as
    soon as the socket takes them.  One pass over a session ends without an
    error or a panic and disturbs no other socket.  What the session carries
    (what its socket accepted, what it has queued, what the client will still
    deliver) is the same stream as before, unless its sending half was closed,
    and then what was sent is a prefix of that stream; the counter counts what
    the socket accepted.  And when the pass is over, all that was queued and
    all that had arrived from the client was accepted by the socket, or the
    socket takes no more (unless the handshake is not answered yet or the
    client had closed before: then nothing changes). *)
Theorem pump_out_carries p : alive_pump p → out_headroom (p_session p) →
  ∃ p', pump_out p = (Ok tt, p') ∧ same_session (p_session p) (p_session p') ∧
    touches (handle (p_session p)) (p_stack p) (p_stack p') ∧
    client_to_remote_bytes (p_session p') - client_to_remote_bytes (p_session p) =
      len (sent_of (p_session p') (p_stack p')) - len (sent_of (p_session p) (p_stack p)) ∧
    (∀ stream, carries stream (p_session p) (p_stack p) → carries stream (p_session p') (p_stack p')) ∧
    proceeds p p'.
Proof. intros Hl Hr. destruct (pump_out_ok p Hl Hr) as (p' & -> & S & P). exists p'. by destruct S. Qed.

End SessionLaws.

(** *** Direct sessions *)

Lemma write_loop_ok fuel : ∀ queue total t,
  0 <= total → total + len queue < 2 ^ 64 → (length queue <= fuel)%nat →
  ∃ how queue' total' t' out lost, write_loop fuel queue total t = (Ok how, (queue', total', t')) ∧
    written (conn_w (conn t')) = written (conn_w (conn t)) ++ out ∧ queue = out ++ lost ++ queue' ∧
    total' = total + len out ∧ (lost ≠ [] → ∃ e, how = WriteFailed e) ∧
    conn_r (conn t') = conn_r (conn t) ∧ read_shut t' = read_shut t ∧ write_shut t' = write_shut t.
Proof.
  induction fuel as [|fuel IH]; intros queue total t H0 Hroom Hf; cbn [write_loop].
  { destruct queue; [|cbn in Hf; lia]. exists WriteDone, [], total, t, [], []. rewrite app_nil_r, len_nil.
    split_and!; try done. lia. }
  destruct queue as [|x q0].
  { exists WriteDone, [], total, t, [], []. rewrite app_nil_r, len_nil. split_and!; try done. lia. }
  set (q := x :: q0) in *. assert (q ≠ []) as Hq by done. clearbody q.
  destruct (drain_chunk q IO_BUFFER_SIZE) as [chunk rest] eqn:Hd.
  pose proof (drain_chunk_nonempty _ _ _ Hq Hd) as Hpos. apply drain_chunk_app in Hd as [Hd _]; [|done].
  pose proof (f_equal len Hd) as Hlen. rewrite len_app in Hlen. pose proof (len_nonneg rest).
  pose proof (tcp_write_cases chunk t) as Hw. pose proof (tcp_write_conn chunk t) as (Hcr & Hws & Hrs).
  destruct (tcp_write chunk t) as [r t1]. cbn [fst snd] in *.
  destruct r as [k|e| |]; [| |done..].
  - destruct Hw as [Hk Hw]. destruct (Z.eqb_spec k 0) as [->|Hk0].
    { exists WroteZero, (push_front_bytes rest chunk), total, t1, [], []. rewrite push_front_bytes_app, Hw.
      split_and!; try done; [by rewrite len_nil; lia]. }
    unfold u64_add. rewrite (proj2 (Z.ltb_lt _ _)) by lia.
    destruct (Z.ltb_spec k (len chunk)) as [Hlt|Hge].
    + rewrite slice_from_drop by lia. cbn [lift sbind].
      eexists _, _, _, t1, (take (Z.to_nat k) chunk), []. split; [reflexivity|].
      rewrite push_front_bytes_app, Hw. split_and!; try done; [|len_lia].
      cbn. by rewrite app_assoc, take_drop.
    + destruct (IH rest (total + k) t1) as (how & q' & total' & t' & out & lost & -> & E1 & E2 & E3 & E4 & E5 & E6 & E7).
      { lia. } { lia. } { rewrite Hd, length_app in Hf. unfold len in *. lia. }
      exists how, q', total', t', (chunk ++ out), lost. split; [done|].
      rewrite E1, Hw, take_ge, E5, E6, E7, Hd by (unfold len in *; lia). rewrite <- !app_assoc, <- E2.
      split_and!; try done. rewrite E3. len_lia.
  - assert (∃ how queue' total' t' out lost, (Ok (WriteFailed e), (rest, total, t1)) = (Ok how, (queue', total', t')) ∧
      written (conn_w (conn t')) = written (conn_w (conn t)) ++ out ∧ q = out ++ lost ++ queue' ∧
      total' = total + len out ∧ (lost ≠ [] → ∃ e, how = WriteFailed e) ∧
      conn_r (conn t') = conn_r (conn t) ∧ read_shut t' = read_shut t ∧ write_shut t' = write_shut t) as Hfail.
    { eexists _, _, _, _, [], chunk. split; [reflexivity|]. rewrite Hw, app_nil_r, len_nil.
      split_and!; try done; [lia|eauto]. }
    destruct e as [[] m| | | | | | | | | | | | | | | | | |]; try exact Hfail.
    exists WriteBlocked, (push_front_bytes rest chunk), total, t1, [], []. rewrite push_front_bytes_app, Hw, app_nil_r.
    split_and!; try done; [by rewrite len_nil; lia].
Qed.

Lemma read_loop_ok fuel : ∀ queue t, (reader_fuel (conn_r (conn t)) <= fuel)%nat →
  ∃ how l t', read_loop fuel queue t = (Ok how, (queue ++ l, t')) ∧
    delivered (conn_r (conn t)) = l ++ delivered (conn_r (conn t')) ∧
    conn_w (conn t') = conn_w (conn t) ∧ write_shut t' = write_shut t ∧ read_shut t' = read_shut t.
Proof.
  induction fuel as [|fuel IH]; intros queue t Hf.
  { destruct (conn_r (conn t)) as [|[]]; cbn in Hf; lia. }
  cbn [read_loop]. pose proof (tcp_read_cases IO_BUFFER_SIZE t) as Hr.
  pose proof (tcp_read_conn IO_BUFFER_SIZE t) as (Hw & Hws & Hrs).
  assert (∀ l t', tcp_read IO_BUFFER_SIZE t = (Ok l, t') → l ≠ [] →
    (reader_fuel (conn_r (conn t')) < reader_fuel (conn_r (conn t)))%nat) as Hfuel.
  { intros l t'. unfold tcp_read, on_reader. destruct (read_shut _); [by intros [= <- <-]|].
    destruct (read IO_BUFFER_SIZE _) as [r rd] eqn:E. intros [= -> <-]. destruct l as [|x l]; [done|].
    intros _. cbn. by apply read_fuel in E. }
  destruct (tcp_read IO_BUFFER_SIZE t) as [r t1]. cbn [fst snd] in *.
  destruct r as [[|x l]|e| |]; [| | |done..].
  - exists ReadEof, [], t1. rewrite app_nil_r. split; [done|]. split; [|done]. destruct Hr as [Hr|(_ & _ & ->)]; done.
  - specialize (Hfuel _ _ eq_refl ltac:(done)). destruct Hr as [Hr|(_ & Hr & _)]; [|done].
    set (buf := x :: l) in *. clearbody buf.
    destruct (IH (queue ++ buf) t1) as (how & l2 & t2 & -> & E1 & E2 & E3 & E4); [lia|].
    exists how, (buf ++ l2), t2. rewrite E2, E3, E4, Hr, E1, <- !app_assoc. by split_and!.
  - destruct e as [[] m| | | | | | | | | | | | | | | | | |]; eexists _, [], t1; (split; [by rewrite app_nil_r|]);
      by rewrite <- Hr.
Qed.

(** One direction of a direct session: what was read follows what was queued,
    leaves in order, and only a failed write loses bytes. *)
Definition flows (src src' : TcpStream) (queue queue' : bytes) (dst dst' : TcpStream) (total total' : u64)
    (failed : Prop) : Prop :=
  ∃ got out lost,
    delivered (conn_r (conn src)) = got ++ delivered (conn_r (conn src')) ∧
    written (conn_w (conn dst')) = written (conn_w (conn dst)) ++ out ∧
    queue ++ got = out ++ lost ++ queue' ∧ total' = total + len out ∧ (lost ≠ [] → failed).

Definition direct_headroom (s : DirectProxySession) : Prop :=
  0 <= d_client_to_remote_bytes s ∧ 0 <= d_remote_to_client_bytes s ∧
  d_client_to_remote_bytes s + len (d_to_remote s) < 2 ^ 64 ∧
  d_remote_to_client_bytes s + len (d_to_client s) < 2 ^ 64.

Lemma mark_direct_closed_fields reason s :
  let s' := mark_direct_closed reason s in
  d_id s' = d_id s ∧ d_client s' = d_client s ∧ d_remote s' = d_remote s ∧ d_to_remote s' = d_to_remote s ∧
  d_to_client s' = d_to_client s ∧ d_local_closed s' = d_local_closed s ∧ d_remote_closed s' = d_remote_closed s ∧
  d_client_to_remote_bytes s' = d_client_to_remote_bytes s ∧
  d_remote_to_client_bytes s' = d_remote_to_client_bytes s ∧ d_target s' = d_target s ∧
  d_client_addr s' = d_client_addr s.
Proof. unfold mark_direct_closed. by destruct (d_close_reason s). Qed.

(** What a session keeps whatever happens. *)
Definition same_direct (s s' : DirectProxySession) : Prop :=
  d_id s' = d_id s ∧ d_target s' = d_target s ∧ d_client_addr s' = d_client_addr s.

Ltac direct_fields :=
  repeat match goal with
  | |- context [mark_direct_closed ?r ?s] =>
      let E1 := fresh in let E2 := fresh in let E3 := fresh in let E4 := fresh in let E5 := fresh in
      let E6 := fresh in let E7 := fresh in let E8 := fresh in let E9 := fresh in let E10 := fresh in
      let E11 := fresh in
      destruct (mark_direct_closed_fields r s) as (E1 & E2 & E3 & E4 & E5 & E6 & E7 & E8 & E9 & E10 & E11);
      rewrite ?E1, ?E2, ?E3, ?E4, ?E5, ?E6, ?E7, ?E8, ?E9, ?E10, ?E11;
      clear E1 E2 E3 E4 E5 E6 E7 E8 E9 E10 E11
  end.

(** A write loop of a session, as a step: only one stream, its queue and its
    counter change. *)
Lemma write_remote_ok s : direct_headroom s → ∃ s' out lost, write_remote s = (Ok tt, s') ∧ same_direct s s' ∧
  written (conn_w (conn (d_remote s'))) = written (conn_w (conn (d_remote s))) ++ out ∧
  d_to_remote s = out ++ lost ++ d_to_remote s' ∧
  d_client_to_remote_bytes s' = d_client_to_remote_bytes s + len out ∧
  (lost ≠ [] → d_remote_closed s' = true) ∧
  conn_r (conn (d_remote s')) = conn_r (conn (d_remote s)) ∧
  d_client s' = d_client s ∧ d_to_client s' = d_to_client s ∧
  d_remote_to_client_bytes s' = d_remote_to_client_bytes s ∧ d_local_closed s' = d_local_closed s.
Proof.
  intros (H0 & _ & Hroom & _). unfold write_remote.
  destruct (write_loop_ok (length (d_to_remote s)) (d_to_remote s) (d_client_to_remote_bytes s) (d_remote s))
    as (how & q & total & t & out & lost & -> & E1 & E2 & E3 & E4 & E5 & E6 & E7); [done..|].
  cbn [lift sbind]. eexists _, out, lost. split; [reflexivity|]. unfold same_direct.
  destruct how; cbn; direct_fields; cbn; split_and!; try done; try (intros Hlost; by destruct (E4 Hlost)).
Qed.

Lemma write_direct_client_ok s : direct_headroom s → ∃ s' out lost, write_direct_client s = (Ok tt, s') ∧ same_direct s s' ∧
  written (conn_w (conn (d_client s'))) = written (conn_w (conn (d_client s))) ++ out ∧
  d_to_client s = out ++ lost ++ d_to_client s' ∧
  d_remote_to_client_bytes s' = d_remote_to_client_bytes s + len out ∧
  (lost ≠ [] → d_local_closed s' = true) ∧
  conn_r (conn (d_client s')) = conn_r (conn (d_client s)) ∧
  d_remote s' = d_remote s ∧ d_to_remote s' = d_to_remote s ∧
  d_client_to_remote_bytes s' = d_client_to_remote_bytes s ∧ d_remote_closed s' = d_remote_closed s.
Proof.
  intros (_ & H0 & _ & Hroom). unfold write_direct_client.
  destruct (write_loop_ok (length (d_to_client s)) (d_to_client s) (d_remote_to_client_bytes s) (d_client s))
    as (how & q & total & t & out & lost & -> & E1 & E2 & E3 & E4 & E5 & E6 & E7); [done..|].
  cbn [lift sbind]. eexists _, out, lost. split; [reflexivity|]. unfold same_direct.
  destruct how; cbn; direct_fields; cbn; split_and!; try done; try (intros Hlost; by destruct (E4 Hlost)).
Qed.

Lemma read_direct_client_ok s : ∃ s' got, read_direct_client s = (Ok tt, s') ∧ same_direct s s' ∧
  delivered (conn_r (conn (d_client s))) = got ++ delivered (conn_r (conn (d_client s'))) ∧
  d_to_remote s' = d_to_remote s ++ got ∧
  conn_w (conn (d_client s')) = conn_w (conn (d_client s)) ∧
  conn (d_remote s') = conn (d_remote s) ∧ d_to_client s' = d_to_client s ∧
  d_client_to_remote_bytes s' = d_client_to_remote_bytes s ∧
  d_remote_to_client_bytes s' = d_remote_to_client_bytes s ∧
  d_remote_closed s' = d_remote_closed s ∧ (d_local_closed s = true → d_local_closed s' = true).
Proof.
  unfold read_direct_client. case_match.
  2: { exists s, []. rewrite app_nil_r. unfold same_direct. by split_and!. }
  destruct (read_loop_ok (reader_fuel (conn_r (conn (d_client s)))) (d_to_remote s) (d_client s))
    as (how & got & t & -> & E1 & E2 & E3 & E4); [done|].
  cbn [lift sbind]. eexists _, got. split; [reflexivity|]. unfold same_direct.
  destruct how; cbn; direct_fields; cbn; by split_and!.
Qed.

Lemma read_remote_ok s : ∃ s' got, read_remote s = (Ok tt, s') ∧ same_direct s s' ∧
  delivered (conn_r (conn (d_remote s))) = got ++ delivered (conn_r (conn (d_remote s'))) ∧
  d_to_client s' = d_to_client s ++ got ∧
  conn_w (conn (d_remote s')) = conn_w (conn (d_remote s)) ∧
  conn (d_client s') = conn (d_client s) ∧ d_to_remote s' = d_to_remote s ∧
  d_client_to_remote_bytes s' = d_client_to_remote_bytes s ∧
  d_remote_to_client_bytes s' = d_remote_to_client_bytes s ∧
  d_local_closed s' = d_local_closed s ∧ (d_remote_closed s = true → d_remote_closed s' = true).
Proof.
  unfold read_remote. case_match.
  2: { exists s, []. rewrite app_nil_r. unfold same_direct. by split_and!. }
  destruct (read_loop_ok (reader_fuel (conn_r (conn (d_remote s)))) (d_to_client s) (d_remote s))
    as (how & got & t & -> & E1 & E2 & E3 & E4); [done|].
  cbn [lift sbind]. eexists _, got. split; [reflexivity|]. unfold same_direct.
  destruct how; cbn; direct_fields; cbn; by split_and!.
Qed.

(** One pass relays both ways. *)
Lemma pump_direct_ok s : direct_headroom s →
  ∃ s', pump_direct s = (Ok tt, s') ∧ same_direct s s' ∧
    flows (d_client s) (d_client s') (d_to_remote s) (d_to_remote s') (d_remote s) (d_remote s')
      (d_client_to_remote_bytes s) (d_client_to_remote_bytes s') (d_remote_closed s' = true) ∧
    flows (d_remote s) (d_remote s') (d_to_client s) (d_to_client s') (d_client s) (d_client s')
      (d_remote_to_client_bytes s) (d_remote_to_client_bytes s') (d_local_closed s' = true).
Proof.
  intros Hroom. unfold pump_direct, flows.
  destruct (write_remote_ok s Hroom) as (s1 & o1 & l1 & -> & (I1 & I2 & I3) & A1 & A2 & A3 & A4 & A5 & A6 & A7 & A8 & A9).
  cbn [sbind]. assert (direct_headroom s1) as Hroom1.
  { destruct Hroom as (? & ? & ? & ?). apply (f_equal len) in A2. unfold direct_headroom. rewrite A3, A7, A8. len_lia. }
  destruct (write_direct_client_ok s1 Hroom1) as (s2 & o2 & l2 & -> & (J1 & J2 & J3) & B1 & B2 & B3 & B4 & B5 & B6 & B7 & B8 & B9).
  cbn [sbind].
  destruct (read_direct_client_ok s2) as (s3 & g3 & -> & (K1 & K2 & K3) & C1 & C2 & C3 & C4 & C5 & C6 & C7 & C8 & C9).
  cbn [sbind].
  destruct (read_remote_ok s3) as (s4 & g4 & -> & (L1 & L2 & L3) & D1 & D2 & D3 & D4 & D5 & D6 & D7 & D8 & D9).
  exists s4. split; [done|]. split; [by split_and!; congruence|]. split.
  - exists g3, o1, l1. split_and!.
    + rewrite D4, <- C1, B5. by rewrite A6.
    + by rewrite D3, C4, B6, A1.
    + by rewrite D5, C2, B7, A2, <- !app_assoc.
    + by rewrite D6, C6, B8, A3.
    + intros Hl. apply D9. rewrite C8, B9. by apply A4.
  - exists g4, o2, l2. split_and!.
    + by rewrite <- D1, C4, B6, A5.
    + by rewrite D4, C3, B1, A6.
    + by rewrite D2, C5, <- A7, B2, <- !app_assoc.
    + by rewrite D7, C7, B3, A8.
    + intros Hl. rewrite D8. apply C9. by apply B4.
Qed.

(** A side that is closed stays closed. *)
Definition flags_kept (s s' : DirectProxySession) : Prop :=
  (d_remote_closed s = true → d_remote_closed s' = true) ∧ (d_local_closed s = true → d_local_closed s' = true).

Lemma flags_kept_bind (x : result unit * DirectProxySession) (f : unit → DirectProxySession → result unit * DirectProxySession) s :
  flags_kept s (snd x) → (∀ s', flags_kept s' (snd (f tt s'))) → flags_kept s (snd (sbind x f)).
Proof.
  intros [H1 H2] Hf. destruct x as [[[]|e| |] s']; cbn in *; try done. destruct (Hf s'). split; auto.
Qed.

Lemma pump_direct_flags s : flags_kept s (snd (pump_direct s)).
Proof.
  unfold pump_direct. apply flags_kept_bind; [|intros s1; apply flags_kept_bind; [|intros s2; apply flags_kept_bind; [|intros s3]]].
  - unfold write_remote. destruct (write_loop _ _ _ _) as [[how|e| |] [[q n] t]]; cbn; try done.
    destruct how; unfold flags_kept; cbn; direct_fields; cbn; by split.
  - unfold write_direct_client. destruct (write_loop _ _ _ _) as [[how|e| |] [[q n] t]]; cbn; try done.
    destruct how; unfold flags_kept; cbn; direct_fields; cbn; by split.
  - unfold read_direct_client. destruct (negb _ && _); [|done]. destruct (read_loop _ _ _) as [[how|e| |] [q t]]; cbn; try done.
    destruct how; unfold flags_kept; cbn; direct_fields; cbn; by split.
  - unfold read_remote. destruct (negb _ && _); [|done]. destruct (read_loop _ _ _) as [[how|e| |] [q t]]; cbn; try done.
    destruct how; unfold flags_kept; cbn; direct_fields; cbn; by split.
Qed.

(** What a direct session relays: as long as the receiving side of a direction
    is open, what it was given, what is queued for it and what is still to be
    read from the other side are the whole of what it is to get. *)
Definition relays (out back : bytes) (s : DirectProxySession) : Prop :=
  (d_remote_closed s = true ∨
    written (conn_w (conn (d_remote s))) ++ d_to_remote s ++ delivered (conn_r (conn (d_client s))) = out) ∧
  (d_local_closed s = true ∨
    written (conn_w (conn (d_client s))) ++ d_to_client s ++ delivered (conn_r (conn (d_remote s))) = back).

Lemma flows_whole src src' queue queue' dst dst' total total' (failed : bool) whole :
  flows src src' queue queue' dst dst' total total' (failed = true) →
  written (conn_w (conn dst)) ++ queue ++ delivered (conn_r (conn src)) = whole →
  failed = true ∨ written (conn_w (conn dst')) ++ queue' ++ delivered (conn_r (conn src')) = whole.
Proof.
  intros (got & out & lost & H1 & H2 & H3 & _ & H5) <-. destruct (decide (lost = [])) as [->|]; [right|by left; auto].
  rewrite H1, H2, (app_assoc queue), H3. cbn [app]. by rewrite <- !app_assoc.
Qed.

Lemma pump_direct_keeps_relaying out back s s' : direct_headroom s → pump_direct s = (Ok tt, s') →
  relays out back s → relays out back s'.
Proof.
  intros Hroom E [Hout Hback]. destruct (pump_direct_ok s Hroom) as (s1 & E' & _ & F1 & F2).
  pose proof (pump_direct_flags s) as [K1 K2]. rewrite E in *. injection E' as <-. cbn [snd] in *. split.
  - destruct Hout as [?|Hout]; [left; auto|]. by eapply flows_whole.
  - destruct Hback as [?|Hback]; [left; auto|]. by eapply flows_whole.
Qed.

(** A direct connection relays faithfully.  One pass over a direct session
    ends without an error, and in each direction what is read follows what was
    queued, leaves in order and is counted; bytes are lost only to a stream
    that refuses them, whose side is then marked closed. *)
Theorem pump_direct_relays s : direct_headroom s →
  ∃ s', pump_direct s = (Ok tt, s') ∧ same_direct s s' ∧
    flows (d_client s) (d_client s') (d_to_remote s) (d_to_remote s') (d_remote s) (d_remote s')
      (d_client_to_remote_bytes s) (d_client_to_remote_bytes s') (d_remote_closed s' = true) ∧
    flows (d_remote s) (d_remote s') (d_to_client s) (d_to_client s') (d_client s) (d_client s')
      (d_remote_to_client_bytes s) (d_remote_to_client_bytes s') (d_local_closed s' = true).
Proof. apply pump_direct_ok. Qed.

Definition demo_direct : DirectProxySession :=
  {| d_id := 1; d_client := stream_of (chunked [[1; 2]; [3]]) (vec_writer []);
     d_remote := stream_of [RBytes [9]; RError WouldBlock] {| written := []; w_script := [WAccept 1] |};
     d_to_remote := [7; 8]; d_to_client := [6]; d_local_closed := false; d_remote_closed := false;
     d_client_to_remote_bytes := 10; d_remote_to_client_bytes := 0;
     d_client_addr := SocketAddrV4 (Ipv4 127 0 0 1) 4000; d_target := "192.0.2.1:80"; d_close_reason := None |}.

Lemma pump_direct_relays_witness :
  ∃ s', pump_direct demo_direct = (Ok tt, s') ∧ same_direct demo_direct s' ∧
    flows (d_client demo_direct) (d_client s') [7; 8] (d_to_remote s') (d_remote demo_direct) (d_remote s')
      10 (d_client_to_remote_bytes s') (d_remote_closed s' = true) ∧
    flows (d_remote demo_direct) (d_remote s') [6] (d_to_client s') (d_client demo_direct) (d_client s')
      0 (d_remote_to_client_bytes s') (d_local_closed s' = true).
Proof. apply (pump_direct_relays demo_direct). vm_compute. repeat split; discriminate || reflexivity. Defined.

(** *** A session on the concrete stack *)

Definition demo_stack : ProxyNetStack unit toys :=
  {| iface := tt;
     sockets := {[ 0%nat := {| t_sent := [1]; t_rx := [20; 21]; t_room := 3; t_closed := false; t_connected := true |} ]};
     device := new_device DEFAULT_PROXY_MTU; next_ephemeral_port := 49153 |}.

Definition demo_session (replied : bool) : ProxySession nat :=
  {| id := 1; client := stream_of (chunked [[4; 5; 6]; [7]]) (vec_writer []); handle := 0%nat;
     to_remote := [2; 3]; to_client := [19]; socks_replied := replied; local_closed := false; remote_closed := false;
     client_to_remote_bytes := 1; remote_to_client_bytes := 1;
     client_addr := SocketAddrV4 (Ipv4 127 0 0 1) 4000; target := "10.1.2.3:443"; close_reason := None |}.

Definition demo_pump (replied : bool) : pump :=
  {| p_session := demo_session replied; p_stack := demo_stack |}.

Lemma pump_out_carries_witness :
  alive_pump (demo_pump true) ∧
  ∃ p', pump_out (demo_pump true) = (Ok tt, p') ∧ same_session (demo_session true) (p_session p') ∧
    touches 0%nat demo_stack (p_stack p') ∧
    client_to_remote_bytes (p_session p') - 1 = len (sent_of (p_session p') (p_stack p')) - 1 ∧
    (∀ stream, carries stream (demo_session true) demo_stack → carries stream (p_session p') (p_stack p')) ∧
    proceeds (demo_pump true) p'.
Proof.
  assert (alive_pump (demo_pump true)) as H by (vm_compute; eexists; reflexivity).
  split; [exact H|]. apply (pump_out_carries (demo_pump true) H). vm_compute. reflexivity.
Defined.


(** A connection that has received data and is no longer established when the
    next pass looks: the client gets the data and no reply to its request. *)
Theorem data_without_reply :
  let half_closed := demo_stack <| sockets := {[ 0%nat :=
    {| t_sent := []; t_rx := [20; 21]; t_room := 3; t_closed := false; t_connected := false |} ]} |> in
  let '(r, p') := pump_in {| p_session := demo_session false <| to_client := [] |>; p_stack := half_closed |} in
  r = Ok tt ∧ written_to p' = [20; 21] ∧ socks_replied (p_session p') = false.
Proof. vm_compute. split_and!; reflexivity. Qed.

Example pump_in_demo :
  let '(r, p') := pump_in (demo_pump false) in
  r = Ok tt ∧ written_to p' = success_reply ++ [19; 20; 21] ∧ remote_to_client_bytes (p_session p') = 3.
Proof. vm_compute. split_and!; reflexivity. Qed.
