(* ===== verification/ProxyLink.v ===== *)
(** * The tunnel side of the proxy runtime

    What the loops of [proxy/runtime.rs] that move packets between the TLS
    stream, the PPP engine and the TCP stack do, against a reference that
    handles a whole list of packets at once. *)

From S2P Require Import Prelude Stream RustStd Packet Io Fortinet PppEngine Net NetStack Runtime.

#[local] Open Scope string_scope.
#[local] Open Scope list_scope.
#[local] Open Scope Z_scope.

(** ** Reference *)

Definition frames (packets : list PppPacket) : bytes := concat (map (tls_frame ∘ data) packets).

Definition ipv4_of (events : list PppEvent) : list bytes :=
  omap (λ ev, match ev with Ipv4Packet packet => Some packet | _ => None end) events.

(** The engine over a list of packets: the IP packets it hands over, the
    packets it answers, and where it ends. *)
Fixpoint handle_all (packets : list PppPacket) (e : PppEngine) : list bytes * list PppPacket * PppEngine :=
  match packets with
  | [] => ([], [], e)
  | packet :: packets =>
      let '(r, e) := handle_incoming packet e in
      let events := match r with Ok events => events | _ => [] end in
      let '(replies, e) := drain_outgoing e in
      let '(ips, more, e) := handle_all packets e in
      (ipv4_of events ++ ips, replies ++ more, e)
  end.

(** The PPP packet of an IP packet. *)
Definition ipv4_ppp (packet : bytes) : PppPacket := {| data := u16_to_be PROTOCOL_IPV4 ++ packet |}.

(** One packet on the stream. *)
Lemma transport_write_ok packet t : ∃ r t', Fortinet.write_packet t packet = (r, t') ∧ ok_or_err r tt ∧
  stream_r t' = stream_r t ∧ read_buffer t' = read_buffer t ∧
  (r = Ok tt → written (stream_w t') = written (stream_w t) ++ tls_frame (data packet)).
Proof.
  unfold Fortinet.write_packet, write_tls_packet, lift.
  rewrite encode_for_tls_eq. destruct (Z.ltb_spec 65529 (len (data packet))); cbn [sbind].
  { eexists _, _. split; [reflexivity|]. split; [right; by eexists|]. by split_and!. }
  pose proof (returns_write_all (tls_frame (data packet)) (stream_w t)) as Hr.
  pose proof (write_all_ok (tls_frame (data packet)) (stream_w t)) as Hw.
  destruct (write_all _ _) as [[[]|e| |] w]; cbn [sbind]; try done.
  2: { eexists _, _. split; [reflexivity|]. split; [right; by eexists|]. by split_and!. }
  pose proof (returns_flush w) as Hf. pose proof (flush_written w) as Hfw.
  destruct (flush w) as [[[]|e| |] w']; cbn [sbind fst snd] in *; try done.
  - eexists _, _. split; [reflexivity|]. split; [by left|]. split_and!; try done. intros _.
    cbn. by rewrite Hfw, (Hw w).
  - eexists _, _. split; [reflexivity|]. split; [right; by eexists|]. by split_and!.
Qed.

(** The reference on reachable engines. *)
Lemma handle_all_reachable packets e : Forall received packets → reachable e →
  reachable (snd (handle_all packets e)).
Proof.
  intros Hp. revert e. induction Hp as [|p packets Hr _ IH]; intros e He; [done|]. cbn [handle_all].
  destruct (handle_incoming p e) as [r e1] eqn:E. unfold drain_outgoing.
  specialize (IH (set_outgoing [] e1)). destruct (handle_all packets (set_outgoing [] e1)) as [[ips more] e2].
  apply IH. eapply rtc_r; [eapply rtc_r; [exact He|eapply step_incoming; [exact Hr|exact E]]|].
  apply (step_drain e1).
Qed.

Section Link.
Context {Interface Sockets : Type}.
Abbreviation link_state := (Link Interface Sockets).

Definition sent_to_tunnel (l : link_state) : bytes := written (stream_w (transport l)).
Definition from_tunnel (l : link_state) : bytes := unconsumed (transport l).

(** The engine is in order and the stream carries octets. *)
Definition link_inv (l : link_state) : Prop := engine_inv (ppp l) ∧ is_bytes (from_tunnel l).

(** What every loop keeps, however it ends. *)
Record link_kept (l l' : link_state) : Prop := {
  kept_inv : link_inv l → link_inv l';
  kept_suffix : ∃ taken, from_tunnel l = taken ++ from_tunnel l';
  kept_sockets : sockets (netstack l') = sockets (netstack l);
  kept_iface : iface (netstack l') = iface (netstack l);
  kept_port : next_ephemeral_port (netstack l') = next_ephemeral_port (netstack l);
}.

Lemma link_kept_refl l : link_kept l l.
Proof. split; try done. by exists []. Qed.

Lemma link_kept_trans l1 l2 l3 : link_kept l1 l2 → link_kept l2 l3 → link_kept l1 l3.
Proof.
  intros [A1 (t1 & A2) A3 A4 A5] [B1 (t2 & B2) B3 B4 B5]. split; [auto| |congruence..].
  exists (t1 ++ t2). by rewrite A2, B2, <- app_assoc.
Qed.

(** ** Writing *)

(** Writing leaves what is to be read alone. *)
Definition input_kept (l l' : link_state) : Prop :=
  from_tunnel l' = from_tunnel l ∧ on_hand (transport l') = on_hand (transport l).

Lemma write_packet_ok (packet : PppPacket) l : ∃ r l', write_packet packet l = (r, l') ∧ ok_or_err r tt ∧
  input_kept l l' ∧ ppp l' = ppp l ∧ netstack l' = netstack l ∧
  (r = Ok tt → sent_to_tunnel l' = sent_to_tunnel l ++ tls_frame (data packet)).
Proof.
  unfold write_packet. destruct (transport_write_ok packet (transport l)) as (r & t & -> & Hr & H1 & H2 & H3).
  eexists _, _. split; [reflexivity|]. split; [done|]. unfold input_kept, from_tunnel, unconsumed, on_hand. cbn. rewrite H1, H2. by split_and!.
Qed.

Lemma frames_cons p ps : frames (p :: ps) = tls_frame (data p) ++ frames ps.
Proof. done. Qed.

Lemma frames_app ps qs : frames (ps ++ qs) = frames ps ++ frames qs.
Proof. unfold frames. by rewrite map_app, concat_app. Qed.

(** Flushing sends the queue of the engine, in order, and leaves it empty. *)
Lemma flush_loop_ok fuel l : (length (outgoing (ppp l)) <= fuel)%nat →
  ∃ r l', flush_loop fuel l = (r, l') ∧ ok_or_err r tt ∧ link_kept l l' ∧
    input_kept l l' ∧ netstack l' = netstack l ∧
    (r = Ok tt → ppp l' = set_outgoing [] (ppp l) ∧
      sent_to_tunnel l' = sent_to_tunnel l ++ frames (outgoing (ppp l))).
Proof.
  revert l. induction fuel as [|fuel IH]; intros l Hf; cbn [flush_loop];
    (unfold next_outgoing; destruct (outgoing (ppp l)) as [|packet ps] eqn:Eo; [|try (cbn in Hf; lia)]).
  1, 2: exists (Ok tt), l; split_and!; try done; [by left|apply link_kept_refl|];
    intros _; rewrite app_nil_r; split; [|done]; destruct (ppp l); cbn in *; by subst.
  destruct (write_packet_ok packet (l <| ppp := set_outgoing ps (ppp l) |>)) as (r & l1 & -> & Hr & [H1 H1'] & H2 & H3 & H4).
  assert (link_kept l l1) as Hk.
  { split; try (by rewrite H3); [|exists []; by rewrite H1]. intros [He Hb]. split; [|by rewrite H1].
    rewrite H2. apply set_outgoing_inv; [done|]. pose proof (inv_outgoing _ He) as Ho. rewrite Eo in Ho.
    by inversion Ho. }
  destruct Hr as [->|[e ->]]; cbn [sbind].
  2: { exists (Err e), l1. split_and!; try done. right; by eexists. }
  destruct (IH l1) as (r & l2 & -> & Hr & Hk2 & E1 & E2 & E3).
  { rewrite H2. cbn in *. lia. }
  exists r, l2. split_and!; try done; [by eapply link_kept_trans|split; (etransitivity; [apply E1|done])|by rewrite E2|].
  intros ->. destruct (E3 eq_refl) as [E4 E5]. rewrite E4, E5, H2, (H4 eq_refl), frames_cons. cbn.
  by rewrite <- app_assoc.
Qed.

Lemma flush_ppp_control_ok l :
  ∃ r l', flush_ppp_control l = (r, l') ∧ ok_or_err r tt ∧ link_kept l l' ∧
    input_kept l l' ∧ netstack l' = netstack l ∧
    (r = Ok tt → ppp l' = set_outgoing [] (ppp l) ∧
      sent_to_tunnel l' = sent_to_tunnel l ++ frames (outgoing (ppp l))).
Proof. by apply flush_loop_ok. Qed.

Lemma encode_ipv4_packet_cases packet :
  encode_ipv4_packet packet = Ok (ipv4_ppp packet) ∨ ∃ e, encode_ipv4_packet packet = Err e.
Proof.
  unfold encode_ipv4_packet. destruct packet as [|b packet]; [right; by eexists|].
  rewrite bool_decide_eq_false_2 by done. unfold index. simpl. case_match; [right; by eexists|by left].
Qed.

Lemma drain_loop_ok fuel l : (length (tx (device (netstack l))) <= fuel)%nat →
  ∃ r l', drain_loop fuel l = (r, l') ∧ ok_or_err r tt ∧ link_kept l l' ∧
    from_tunnel l' = from_tunnel l ∧ rx (device (netstack l')) = rx (device (netstack l)) ∧
    (r = Ok tt → tx (device (netstack l')) = [] ∧ ppp l' = set_outgoing [] (ppp l) ∧
      sent_to_tunnel l' = sent_to_tunnel l ++ frames (map ipv4_ppp (tx (device (netstack l)))) ++
        frames (outgoing (ppp l))).
Proof.
  revert l. induction fuel as [|fuel IH]; intros l Hf; cbn [drain_loop];
    (unfold pop_tx_ipv4, pop_tx; destruct (tx (device (netstack l))) as [|packet ps] eqn:Et; [|try (cbn in Hf; lia)]).
  1, 2: destruct (flush_ppp_control_ok l) as (r & l' & -> & Hr & Hk & [E1 _] & E2 & E3);
    exists r, l'; split_and!; try done; [by rewrite E2|]; intros ->; destruct (E3 eq_refl);
    rewrite E2, Et; by split_and!.
  set (l0 := l <| netstack := _ |>).
  assert (link_kept l l0) as Hk0 by (split; try done; by exists []).
  destruct (encode_ipv4_packet_cases packet) as [-> |[e ->]]; cbn [lift sbind].
  2: { exists (Err e), l0. split_and!; try done. right; by eexists. }
  destruct (write_packet_ok (ipv4_ppp packet) l0) as (r & l1 & -> & Hr & [H1 H1'] & H2 & H3 & H4).
  assert (link_kept l l1) as Hk1.
  { eapply link_kept_trans; [exact Hk0|]. split; try (by rewrite H3); [|exists []; by rewrite H1].
    unfold link_inv. by rewrite H1, H2. }
  destruct Hr as [->|[e ->]]; cbn [sbind].
  2: { exists (Err e), l1. split_and!; try done; [right; by eexists|by rewrite H3]. }
  destruct (IH l1) as (r & l2 & -> & Hr & Hk2 & E1 & E2 & E3).
  { rewrite H3. cbn in *. lia. }
  exists r, l2. split_and!; try done; [by eapply link_kept_trans|by rewrite E1|by rewrite E2, H3|].
  intros ->. destruct (E3 eq_refl) as (E4 & E5 & E6). rewrite E5, E6, H2, H3, (H4 eq_refl). cbn [map].
  rewrite frames_cons. split_and!; try done. by rewrite <- !app_assoc.
Qed.

(** ** Reading *)

(** Empty packets are not queued. *)
Definition queued (packets : list bytes) : list bytes := filter (λ p, p ≠ []) packets.

Lemma push_rx_queued packet d : rx (push_rx packet d) = rx d ++ queued [packet] ∧ tx (push_rx packet d) = tx d.
Proof. destruct packet; [|done]. cbn. by rewrite app_nil_r. Qed.

Lemma deliver_events_ok events l : ∃ r l', deliver_events events l = (r, l') ∧ ok_or_err r tt ∧ link_kept l l' ∧
  transport l' = transport l ∧ ppp l' = ppp l ∧ tx (device (netstack l')) = tx (device (netstack l)) ∧
  (r = Ok tt → rx (device (netstack l')) = rx (device (netstack l)) ++ queued (ipv4_of events)).
Proof.
  revert l. induction events as [|[ip peer dns|packet|] events IH]; intros l; cbn [deliver_events].
  - exists (Ok tt), l. split_and!; try done; [by left|apply link_kept_refl|]. by rewrite app_nil_r.
  - apply IH.
  - set (l0 := l <| netstack := _ |>).
    assert (link_kept l l0) as Hk0 by (split; try done; by exists []).
    destruct (push_rx_queued packet (device (netstack l))) as [Hrx Htx].
    destruct (IH l0) as (r & l' & -> & Hr & Hk & E1 & E2 & E3 & E4). exists r, l'.
    split_and!; try done; [by eapply link_kept_trans|by rewrite E3|]. intros ->. rewrite (E4 eq_refl).
    cbn. rewrite Hrx, <- app_assoc. f_equal. unfold queued. cbn.
    by destruct (decide (packet ≠ [])).
  - exists (Err (Pppd "proxy PPP link terminated by peer")), l.
    split_and!; try done; [right; by eexists|apply link_kept_refl].
Qed.

Lemma handle_incoming_ok packet e : engine_inv e → received packet → ∃ r e', handle_incoming packet e = (r, e') ∧
  engine_inv e' ∧ ((∃ events, r = Ok events) ∨ ∃ err, r = Err err).
Proof.
  intros He Hp. destruct (handle_incoming_handled packet e He Hp) as (H1 & _ & H3).
  destruct (handle_incoming packet e) as [[events|err| |] e']; cbn [fst snd] in *; try done; eauto 8.
Qed.

(** What one call takes off the stream. *)
Lemma read_packet_taken t : is_bytes (unconsumed t) →
  match read_packet t with
  | (Ok packet, t') => unconsumed t = tls_frame (data packet) ++ unconsumed t' ∧ received packet ∧
      on_hand t = tls_frame (data packet) ++ on_hand t'
  | (Err (Io _ _), t') => unconsumed t' = unconsumed t ∧ read_buffer t' = on_hand t ∧ incomplete (on_hand t)
  | (Err _, _) => True
  | _ => False
  end ∧ stream_w (snd (read_packet t)) = stream_w t ∧ is_bytes (unconsumed (snd (read_packet t))).
Proof.
  intros Hb. pose proof (read_packet_loop_outcome _ t Hb (le_n _)) as Hout. fold (read_packet t) in Hout.
  pose proof (read_packet_suffix t) as ((c & Hc) & Hw). split; [|split; [done|]].
  2: { rewrite Hc in Hb. by apply Forall_app in Hb as [_ Hb]. }
  destruct (read_packet t) as [[packet|[]| |] t']; cbn [packet_outcome] in Hout; try done.
  destruct Hout as (frame & Hcons & Hhand & Hdec). rewrite Hcons in Hb. apply Forall_app in Hb as [Hbf _].
  destruct (decode_from_tls_frame_inv _ _ Hbf Hdec) as (_ & Hsz & Hbd & ->).
  split; [done|]. split; [|done]. split; [done|unfold HEADER_LEN in Hsz; lia].
Qed.

(** The packets are all that are on hand: what is left over is buffered and
    holds no whole frame. *)
Definition takes_all (packets : list PppPacket) (l l' : link_state) : Prop :=
  on_hand (transport l) = frames packets ++ read_buffer (transport l') ∧ incomplete (read_buffer (transport l')).

(** Frames are read whole, in order, and up to the first one that is not there. *)
Lemma read_packets_loop_ok fuel l : link_inv l → (length (from_tunnel l) < fuel)%nat →
  ∃ r l', read_packets_loop fuel l = (r, l') ∧ ok_or_err r tt ∧ link_kept l l' ∧
    tx (device (netstack l')) = tx (device (netstack l)) ∧
    (r = Ok tt → ∃ packets ips replies, from_tunnel l = frames packets ++ from_tunnel l' ∧
      Forall received packets ∧ handle_all packets (ppp l) = (ips, replies, ppp l') ∧
      sent_to_tunnel l' = sent_to_tunnel l ++ frames replies ∧
      rx (device (netstack l')) = rx (device (netstack l)) ++ queued ips ∧ takes_all packets l l').
Proof.
  revert l. induction fuel as [|fuel IH]; intros l Hinv Hf; [lia|]. cbn [read_packets_loop].
  destruct (Hinv) as [He Hb].
  pose proof (read_packet_taken (transport l) Hb) as (Hout & Hw & Hbt). pose proof (read_packet_suffix (transport l)) as (Hsuf & _).
  destruct (read_packet (transport l)) as [[packet|err| |] t]; cbn [fst snd] in *; try done.
  2: { assert (link_kept l (l <| transport := t |>)) as Hk by (split; try done; intros _; by split).
       destruct err; try (eexists _, _; split; [reflexivity|]; split; [right; by eexists|by split_and!]).
       destruct (is_temporary_read_error _); (eexists _, _; split; [reflexivity|]).
       + split; [by left|]. split_and!; try done. intros _. exists [], [], [].
         destruct Hout as (Hun & Hbuf & Hinc). unfold queued, frames, sent_to_tunnel, takes_all, from_tunnel. cbn.
         rewrite Hw, Hun, !app_nil_r, Hbuf. by split_and!.
       + split; [right; by eexists|]. by split_and!. }
  destruct Hout as (Hcons & Hrec & Hhand). cbn [ppp]. destruct (handle_incoming_ok packet (ppp l) He Hrec) as (r & e1 & Hhi & He1 & Hev).
  change (ppp (l <| transport := t |>)) with (ppp l). rewrite Hhi.
  set (l1 := l <| transport := t |> <| ppp := e1 |>).
  assert (link_kept l l1) as Hk1 by (split; try done; intros _; by split).
  destruct Hev as [(events & ->)|(err & ->)]; cbn [lift sbind].
  2: { exists (Err err), l1. split; [done|]. split; [right; by eexists|]. by split_and!. }
  destruct (deliver_events_ok events l1) as (r2 & l2 & -> & Hr2 & Hk2 & E1 & E2 & E3 & E4).
  destruct Hr2 as [->|(err & ->)]; cbn [sbind].
  2: { exists (Err err), l2. split; [done|]. split; [right; by eexists|]. split_and!; try done. by eapply link_kept_trans. }
  destruct (flush_ppp_control_ok l2) as (r3 & l3 & -> & Hr3 & Hk3 & [F1 F1'] & F2 & F3).
  assert (link_kept l l3) as Hk by (eapply link_kept_trans; [exact Hk1|]; by eapply link_kept_trans).
  destruct Hr3 as [->|(err & ->)]; cbn [sbind].
  2: { exists (Err err), l3. split; [done|]. split; [right; by eexists|]. split_and!; try done. by rewrite F2. }
  assert (from_tunnel l3 = unconsumed t) as Hft by (rewrite F1; unfold from_tunnel; by rewrite E1).
  destruct (IH l3) as (r4 & l4 & -> & Hr4 & Hk4 & G1 & G2).
  { by apply (kept_inv _ _ Hk). }
  { rewrite Hft. unfold from_tunnel in Hf. rewrite Hcons, length_app in Hf.
    pose proof (tls_frame_len (data packet)) as Hl. unfold len, HEADER_LEN in Hl. lia. }
  exists r4, l4. split; [done|]. split; [done|]. split; [by eapply link_kept_trans|].
  split; [by rewrite G1, F2|]. intros ->. destruct (G2 eq_refl) as (ps & ips & replies & P1 & P2 & P3 & P4 & P5 & P6 & P7).
  destruct (F3 eq_refl) as [F4 F5]. specialize (E4 eq_refl).
  exists (packet :: ps), (ipv4_of events ++ ips), (outgoing e1 ++ replies). split_and!.
  - unfold from_tunnel at 1. rewrite Hcons, frames_cons, <- app_assoc, <- P1, Hft. done.
  - by constructor.
  - cbn [handle_all]. rewrite Hhi.
    assert (set_outgoing [] e1 = ppp l3) as Hl3 by (rewrite F4, E2; reflexivity).
    unfold drain_outgoing. by rewrite Hl3, P3.
  - rewrite P4, F5, frames_app, app_assoc, E2. f_equal. f_equal. unfold sent_to_tunnel. rewrite E1. cbn. by rewrite Hw.
  - rewrite P5, F2, E4. unfold queued. by rewrite filter_app, <- app_assoc.
  - split; [|done]. rewrite Hhand, frames_cons, <- app_assoc, <- P6. f_equal. by rewrite F1', E1.
Qed.

Lemma read_fortinet_packets_ok l : link_inv l →
  ∃ r l', read_fortinet_packets l = (r, l') ∧ ok_or_err r tt ∧ link_kept l l' ∧
    tx (device (netstack l')) = tx (device (netstack l)) ∧
    (r = Ok tt → ∃ packets ips replies, from_tunnel l = frames packets ++ from_tunnel l' ∧
      Forall received packets ∧ handle_all packets (ppp l) = (ips, replies, ppp l') ∧
      sent_to_tunnel l' = sent_to_tunnel l ++ frames replies ∧
      rx (device (netstack l')) = rx (device (netstack l)) ++ queued ips ∧ takes_all packets l l').
Proof. intros H. apply read_packets_loop_ok; [done|]. unfold from_tunnel. lia. Qed.

Lemma drain_ok l :
  ∃ r l', drain_netstack_to_fortinet l = (r, l') ∧ ok_or_err r tt ∧ link_kept l l' ∧
    from_tunnel l' = from_tunnel l ∧ rx (device (netstack l')) = rx (device (netstack l)) ∧
    (r = Ok tt → tx (device (netstack l')) = [] ∧ ppp l' = set_outgoing [] (ppp l) ∧
      sent_to_tunnel l' = sent_to_tunnel l ++ frames (map ipv4_ppp (tx (device (netstack l)))) ++
        frames (outgoing (ppp l))).
Proof. by apply drain_loop_ok. Qed.

(** ** Properties *)

(** Sending empties both queues: every packet of the TCP stack, framed, in
    the order in which the stack made them, then every packet the PPP engine
    had to send.  What was received and what is still to be read is not
    touched.  It always ends, and only a packet that cannot be framed or a
    stream that fails ends it with an error. *)
Theorem tunnel_packets_sent (l : link_state) : ∃ r l', drain_netstack_to_fortinet l = (r, l') ∧ ok_or_err r tt ∧
  from_tunnel l' = from_tunnel l ∧ sockets (netstack l') = sockets (netstack l) ∧
  rx (device (netstack l')) = rx (device (netstack l)) ∧
  (r = Ok tt → tx (device (netstack l')) = [] ∧ ppp l' = set_outgoing [] (ppp l) ∧
    sent_to_tunnel l' = sent_to_tunnel l ++ frames (map ipv4_ppp (tx (device (netstack l))) ++ outgoing (ppp l))).
Proof.
  destruct (drain_ok l) as (r & l' & -> & Hr & Hk & H1 & H2 & H3). exists r, l'. split_and!; try done; [by destruct Hk|].
  intros E. destruct (H3 E) as (? & ? & ->). by rewrite frames_app.
Qed.

End Link.

(** An IP packet in two pieces, and the first octets of another frame. *)
Definition demo_link : Link unit unit :=
  {| transport := {| stream_r := [RBytes [0; 12; 0x50; 0x50; 0; 6; 0]; RBytes [0x21; 0x45; 0; 0; 7; 0; 9]; RError WouldBlock];
                     stream_w := vec_writer []; read_buffer := [] |};
     ppp := PppEngine.new;
     netstack := {| iface := tt; sockets := tt; device := new_device DEFAULT_PROXY_MTU; next_ephemeral_port := 49152 |} |}.


Example read_demo :
  let '(r, l) := read_fortinet_packets demo_link in
  r = Ok tt ∧ rx (device (netstack l)) = [[0x45; 0; 0; 7]] ∧ from_tunnel l = [0; 9].
Proof. vm_compute. split_and!; reflexivity. Qed.
