(* ===== verification/ProxyLoop.v ===== *)
(** * [proxy/runtime.rs]: names, new clients and the loop

    Resolving a name over the tunnel, accepting clients, one turn of the loop
    and [run]. *)

From stdpp Require Import gmap.
From S2P Require Import Prelude Stream RustStd Packet Fortinet PppEngine Net NetStack RouteTable Dns Socks5 Runtime.

#[local] Open Scope string_scope.
#[local] Open Scope list_scope.
#[local] Open Scope Z_scope.

Section Loop.
Context {Interface Sockets Handle : Type} `{!Smoltcp Interface Sockets Handle}.

Abbreviation stack := (ProxyNetStack Interface Sockets).
Abbreviation link_state := (Link Interface Sockets).
Abbreviation runtime := (Runtime Interface Sockets Handle).

(** ** Operations of a part of the state *)

Definition on_link {A} (f : link_state → result A * link_state) (rt : runtime) : result A * runtime :=
  let '(r, l) := f (link rt) in (r, rt <| link := l |>).

Definition on_netstack {A} (f : stack → result A * stack) (rt : runtime) : result A * runtime :=
  let '(r, n) := f (netstack (link rt)) in (r, rt <| link := link rt <| netstack := n |> |>).

Definition the_stack (rt : runtime) : stack := netstack (link rt).

Definition now (rt : runtime) : Z * runtime :=
  let '(t, c) := instant_now (the_clock rt) in (t, rt <| the_clock := c |>).

Definition sleep_loop (rt : runtime) : runtime := rt <| the_clock := sleep LOOP_SLEEP (the_clock rt) |>.

(** Milliseconds since the first call. *)
Definition smol_now (rt : runtime) : Z * runtime :=
  match smol_start rt with
  | Some start => let '(t, rt) := now rt in (t - start, rt)
  | None =>
      let '(start, rt) := now rt in
      let '(t, rt) := now (rt <| smol_start := Some start |>) in (t - start, rt)
  end.

Definition poll_netstack (rt : runtime) : runtime :=
  let '(t, rt) := smol_now rt in
  let '(_, n) := poll t (the_stack rt) in rt <| link := link rt <| netstack := n |> |>.

(** ** Names *)

(** How the loop over one name server ends: an address to return, or the next
    server with the error it leaves. *)
Inductive dns_outcome := Resolved (addr : Ipv4Addr) | NextServer (last_error : option OpenfortivpnError).

(** Sending the query, once. *)
Definition send_query (server : Ipv4Addr) (handle : Handle) (query : bytes) (sent : bool) (rt : runtime)
    : result (bool + OpenfortivpnError) * runtime :=
  let! established & rt := lift (tcp_is_established handle (the_stack rt)) rt in
  if established && negb sent then
    let! answer & rt := on_netstack (tcp_send handle query) rt in
    (Ok (match answer with
         | inl written =>
             if written =? len query then inl true else inr (Network "partial DNS query write")
         | inr err => inr (Network ("failed to send DNS query to " +:+ print_ipv4 server +:+ ": " +:+ err))
         end), rt)
  else (Ok (inl sent), rt).

(** What the octets received so far say: addresses, none of them yet, or an
    error that ends the wait for this server. *)
Definition answer_so_far (received : bytes + string) (response : bytes) (query_id : u16)
    : result (list Ipv4Addr + dns_outcome) :=
  match received with
  | inl (_ :: _) =>
      match parse_tcp_response response query_id with
      | Err err => Ok (inr (NextServer (Some err)))
      | parsed => let* addrs := parsed in Ok (inl addrs)
      end
  | _ => Ok (inl [])
  end.

(** The address of an answer, once the socket of the query is gone. *)
Definition take_answer (handle : Handle) (route_table : ProxyRouteTable) (first : Ipv4Addr) (addrs : list Ipv4Addr)
    (rt : runtime) : result dns_outcome * runtime :=
  let! _ & rt := on_netstack (tcp_close handle) rt in
  let! _ & rt := on_netstack (remove_tcp_socket handle) rt in
  let! routable & rt := lift (find_routable route_table addrs) rt in
  (Ok (Resolved (default first routable)), rt).

(** The [while] loop: a turn sleeps, so the time that is left bounds the turns. *)
Fixpoint await_response (fuel : nat) (server : Ipv4Addr) (handle : Handle) (query_id : u16) (query : bytes)
    (route_table : ProxyRouteTable) (deadline : Z) (sent : bool) (response : bytes)
    (last_error : option OpenfortivpnError) (rt : runtime) : result dns_outcome * runtime :=
  let '(t, rt) := now rt in
  if t <? deadline then
    match fuel with
    | O => (Diverge, rt)
    | S fuel =>
        let! _ & rt := on_link read_fortinet_packets rt in
        let rt := poll_netstack rt in
        let! sending & rt := send_query server handle query sent rt in
        match sending with
        | inr err => (Ok (NextServer (Some err)), rt)
        | inl sent =>
            let! _ & rt := on_link drain_netstack_to_fortinet rt in
            let! received & rt :=
              if sent then on_netstack (tcp_recv handle IO_BUFFER_SIZE) rt else (Ok (inl []), rt) in
            let response := response ++ match received with inl buf => buf | inr _ => [] end in
            let! answer & rt := lift (answer_so_far received response query_id) rt in
            match answer with
            | inr next => (Ok next, rt)
            | inl ((first :: _) as addrs) => take_answer handle route_table first addrs rt
            | inl [] =>
                let! active & rt := lift (tcp_is_active handle (the_stack rt)) rt in
                if negb active && sent then (Ok (NextServer last_error), rt)
                else
                  await_response fuel server handle query_id query route_table deadline sent response
                    last_error (sleep_loop rt)
            end
        end
    end
  else (Ok (NextServer last_error), rt).

Definition DNS_FUEL : nat := S (Z.to_nat DNS_RESOLVE_TIMEOUT).

(** [for dns_server in dns_servers] *)
Fixpoint ask_servers (servers : list Ipv4Addr) (domain : str) (query_id : u16) (query : bytes)
    (route_table : ProxyRouteTable) (last_error : option OpenfortivpnError) (rt : runtime)
    : result Ipv4Addr * runtime :=
  match servers with
  | [] =>
      (Err (default (Network ("timed out resolving " +:+ domain +:+ " via VPN DNS")) last_error), rt)
  | server :: servers =>
      let '(handle, n) := add_tcp_socket (the_stack rt) in
      let rt := rt <| link := link rt <| netstack := n |> |> in
      let! connected & rt := on_netstack (connect_tcp handle server 53) rt in
      match connected with
      | inr err =>
          let! _ & rt := on_netstack (remove_tcp_socket handle) rt in
          ask_servers servers domain query_id query route_table
            (Some (Network ("failed to connect to DNS server " +:+ print_ipv4 server +:+ ": " +:+ err))) rt
      | inl _ =>
          let '(start, rt) := now rt in
          let! outcome & rt :=
            await_response DNS_FUEL server handle query_id query route_table (start + DNS_RESOLVE_TIMEOUT)
              false [] last_error rt in
          match outcome with
          | Resolved addr => (Ok addr, rt)
          | NextServer last_error =>
              let! _ & rt := on_netstack (tcp_close handle) rt in
              let! _ & rt := on_netstack (remove_tcp_socket handle) rt in
              ask_servers servers domain query_id query route_table last_error rt
          end
      end
  end.

Definition resolve_domain (domain : str) (dns_servers : list Ipv4Addr) (route_table : ProxyRouteTable)
    (rt : runtime) : result Ipv4Addr * runtime :=
  match dns_servers with
  | [] => (Err (Network "VPN configuration did not provide DNS servers"), rt)
  | _ =>
      let query_id := dns_query_id domain in
      let! query & rt := lift (build_tcp_query query_id domain) rt in
      ask_servers dns_servers domain query_id query route_table None rt
  end.

Definition resolve_domain_cached (domain : str) (dns_servers : list Ipv4Addr) (route_table : ProxyRouteTable)
    (rt : runtime) : result Ipv4Addr * runtime :=
  let key := to_ascii_lowercase domain in
  let '(t, rt) := now rt in
  let fresh :=
    match dns_cache rt !! key with
    | Some entry => if t <? expires_at entry then Some (addr entry) else None
    | None => None
    end in
  match fresh with
  | Some addr => (Ok addr, rt)
  | None =>
      let! addr & rt := resolve_domain domain dns_servers route_table rt in
      (Ok addr, rt <| dns_cache := <[key := {| addr := addr; expires_at := t + DNS_CACHE_TTL |}]> (dns_cache rt) |>)
  end.

(** The first IPv4 address of the answer, or the complaint about the last other one. *)
Fixpoint first_ipv4 (domain : str) (last_error : option str) (addrs : list SocketAddr) : result Ipv4Addr :=
  match addrs with
  | [] =>
      Err (Network (default ("system DNS returned no IPv4 address for " +:+ domain) last_error))
  | SocketAddrV4 ip _ :: _ => Ok ip
  | SocketAddrV6 _ _ _ as addr :: addrs =>
      first_ipv4 domain (Some ("resolved " +:+ print_socket addr +:+ ", but proxy mode supports IPv4 only")) addrs
  end.

Definition resolve_domain_direct (domain : str) (port : u16) (rt : runtime) : result Ipv4Addr * runtime :=
  match lookups rt with
  | [] => (first_ipv4 domain None [], rt)
  | inl addrs :: rest => (first_ipv4 domain None addrs, rt <| lookups := rest |>)
  | inr k :: rest => (Err (io_error k), rt <| lookups := rest |>)
  end.

(** ** Clients *)

(** [next_session_id.wrapping_add(1).max(1)] *)
Definition take_session_id (rt : runtime) : u64 * runtime :=
  (next_session_id rt, rt <| next_session_id := Z.max ((next_session_id rt + 1) mod 2 ^ 64) 1 |>).

(** [TcpStream::connect_timeout] *)
Definition connect_timeout (rt : runtime) : result TcpStream * runtime :=
  match connects rt with
  | [] => (Err (io_error TimedOut), rt)
  | inl t :: rest => (Ok t, rt <| connects := rest |>)
  | inr k :: rest => (Err (io_error k), rt <| connects := rest |>)
  end.

Definition set_options (n : nat) : TcpStream → result unit * TcpStream :=
  Nat.iter n (λ k t, let! _ & t := set_option t in k t) (λ t, (Ok tt, t)).

(** A client is let go. *)
Definition drop_client (client : TcpStream) (rt : runtime) : runtime :=
  rt <| dropped := dropped rt ++ [client] |>.

(** [let _ = socks5::write_failure(..)], and the client is let go. *)
Definition refuse (reply : u8) (client : TcpStream) (rt : runtime) : runtime :=
  drop_client (snd (on_conn (write_failure reply) client)) rt.

(** An operation on a stream that is a local variable; the stream is dropped
    when it fails. *)
Definition prepare (f : TcpStream → result unit * TcpStream) (t : TcpStream) (rt : runtime)
    : result TcpStream * runtime :=
  match f t with
  | (Ok _, t) => (Ok t, rt)
  | (Err e, t) => (Err e, drop_client t rt)
  | (Panic, t) => (Panic, rt)
  | (Diverge, t) => (Diverge, rt)
  end.

Definition print_target (destination : Ipv4Addr) (port : u16) : str :=
  print_ipv4 destination +:+ ":" +:+ print_uint port.

Definition start_direct_session (id : u64) (client : TcpStream) (client_addr : SocketAddr)
    (destination : Ipv4Addr) (port : u16) (rt : runtime) : result DirectProxySession * runtime :=
  match connect_timeout rt with
  | (Err err, rt) => (Err err, refuse REPLY_HOST_UNREACHABLE client rt)
  | (remote, rt) =>
  let! remote & rt := lift remote rt in
  let! client & rt := prepare (on_conn (write_success UNSPECIFIED 0)) client rt in
  let! client & rt := prepare (set_options 3) client rt in
  let! remote & rt := prepare (set_options 3) remote rt in
  (Ok {| d_id := id; d_client := client; d_remote := remote; d_to_remote := []; d_to_client := [];
         d_local_closed := false; d_remote_closed := false; d_client_to_remote_bytes := 0;
         d_remote_to_client_bytes := 0; d_client_addr := client_addr;
         d_target := print_target destination port; d_close_reason := None |}, rt)
  end.

(** The destination of a request; [None] when no name service knows it. *)
Definition find_destination (request : SocksConnectRequest) (dns_servers : list Ipv4Addr)
    (route_table : ProxyRouteTable) (rt : runtime) : result (option Ipv4Addr) * runtime :=
  match Socks5.target request with
  | TargetIpv4 addr => (Ok (Some addr), rt)
  | TargetDomain domain =>
      match resolve_domain_cached domain dns_servers route_table rt with
      | (Ok addr, rt) => (Ok (Some addr), rt)
      | (Err _, rt) =>
          match resolve_domain_direct domain (Socks5.port request) rt with
          | (Ok addr, rt) => (Ok (Some addr), rt)
          | (Err _, rt) => (Ok None, rt)
          | (Panic, rt) => (Panic, rt)
          | (Diverge, rt) => (Diverge, rt)
          end
      | (Panic, rt) => (Panic, rt)
      | (Diverge, rt) => (Diverge, rt)
      end
  end.

(** A client whose destination the table routes. *)
Definition open_session (client : TcpStream) (client_addr : SocketAddr) (destination : Ipv4Addr) (port : u16)
    (rt : runtime) : result unit * runtime :=
  let '(handle, n) := add_tcp_socket (the_stack rt) in
  let rt := rt <| link := link rt <| netstack := n |> |> in
  let! connected & rt := on_netstack (connect_tcp handle destination port) rt in
  match connected with
  | inr _ =>
      let! _ & rt := on_netstack (remove_tcp_socket handle) rt in
      (Ok tt, refuse REPLY_GENERAL_FAILURE client rt)
  | inl _ =>
      let '(session_id, rt) := take_session_id rt in
      let! client & rt := prepare (set_options 3) client rt in
      let session :=
        {| id := session_id; client := client; handle := handle; to_remote := []; to_client := [];
           socks_replied := false; local_closed := false; remote_closed := false;
           client_to_remote_bytes := 0; remote_to_client_bytes := 0; client_addr := client_addr;
           target := print_target destination port; close_reason := None |} in
      (Ok tt, rt <| sessions := sessions rt ++ [session] |>)
  end.

(** A client whose destination it does not route. *)
Definition open_direct_session (client : TcpStream) (client_addr : SocketAddr) (destination : Ipv4Addr)
    (port : u16) (rt : runtime) : result unit * runtime :=
  let '(session_id, rt) := take_session_id rt in
  match start_direct_session session_id client client_addr destination port rt with
  | (Ok session, rt) => (Ok tt, rt <| direct_sessions := direct_sessions rt ++ [session] |>)
  | (Err _, rt) => (Ok tt, rt)
  | (Panic, rt) => (Panic, rt)
  | (Diverge, rt) => (Diverge, rt)
  end.

(** One accepted client: the body of the loop behind [accept]. *)
Definition serve_client (client : TcpStream) (client_addr : SocketAddr) (dns_servers : list Ipv4Addr)
    (route_table : ProxyRouteTable) (rt : runtime) : result unit * runtime :=
  let! client & rt := prepare (set_options 4) client rt in
  match on_conn read_connect_request client with
  | (Ok request, client) =>
      let! destination & rt := find_destination request dns_servers route_table rt in
      match destination with
      | None => (Ok tt, refuse REPLY_HOST_UNREACHABLE client rt)
      | Some destination =>
          let! routable & rt := lift (can_route route_table destination) rt in
          if routable then open_session client client_addr destination (Socks5.port request) rt
          else open_direct_session client client_addr destination (Socks5.port request) rt
      end
  | (Err _, client) => (Ok tt, drop_client client rt)
  | (Panic, _) => (Panic, rt)
  | (Diverge, _) => (Diverge, rt)
  end.

Fixpoint accept_loop (events : list accept_event) (dns_servers : list Ipv4Addr) (route_table : ProxyRouteTable)
    (rt : runtime) : result unit * runtime :=
  match events with
  | [] => (Ok tt, rt <| listener := [] |>)
  | AcceptError WouldBlock :: events => (Ok tt, rt <| listener := events |>)
  | AcceptError k :: events => (Err (io_error k), rt <| listener := events |>)
  | Accepted client client_addr :: events =>
      let! _ & rt := serve_client client client_addr dns_servers route_table (rt <| listener := events |>) in
      accept_loop events dns_servers route_table rt
  end.

Definition accept_ready_clients (dns_servers : list Ipv4Addr) (route_table : ProxyRouteTable) (rt : runtime)
    : result unit * runtime :=
  accept_loop (listener rt) dns_servers route_table rt.

(** ** The loop *)

Definition on_sessions (f : list (ProxySession Handle) → stack → result unit * (list (ProxySession Handle) * stack))
    (rt : runtime) : result unit * runtime :=
  let '(r, (l, n)) := f (sessions rt) (the_stack rt) in
  (r, rt <| sessions := l |> <| link := link rt <| netstack := n |> |>).

Definition on_direct (f : list DirectProxySession → result unit * list DirectProxySession) (rt : runtime)
    : result unit * runtime :=
  let '(r, l) := f (direct_sessions rt) in (r, rt <| direct_sessions := l |>).

(** The body of the [while] loop of [run]. *)
Definition turn (dns_servers : list Ipv4Addr) (route_table : ProxyRouteTable) (rt : runtime)
    : result unit * runtime :=
  let! _ & rt := accept_ready_clients dns_servers route_table rt in
  let! _ & rt := on_link read_fortinet_packets rt in
  let! _ & rt := on_sessions pump_local_to_tcp rt in
  let rt := poll_netstack rt in
  let! _ & rt := on_sessions pump_tcp_to_local rt in
  let! _ & rt := on_direct pump_direct_sessions rt in
  let! _ & rt := on_link drain_netstack_to_fortinet rt in
  let! _ & rt := on_sessions cleanup_sessions rt in
  let! _ & rt := on_direct (λ l, (Ok tt, cleanup_direct_sessions l)) rt in
  (Ok tt, sleep_loop rt).

Fixpoint close_sessions (l : list (ProxySession Handle)) (n : stack) : result unit * stack :=
  match l with
  | [] => (Ok tt, n)
  | s :: l => let! _ & n := tcp_close (handle s) n in close_sessions l n
  end.

Definition shut_direct (s : DirectProxySession) : DirectProxySession :=
  s <| d_client := shutdown_both (d_client s) |> <| d_remote := shutdown_both (d_remote s) |>.

(** Behind the loop. *)
Definition finish (rt : runtime) : result unit * runtime :=
  let! _ & rt := on_netstack (close_sessions (sessions rt)) rt in
  let rt := rt <| direct_sessions := map shut_direct (direct_sessions rt) |> in
  on_link drain_netstack_to_fortinet rt.

(** The loop, over what [stop_requested] is at the head of each turn. *)
Fixpoint run_loop (stops : list bool) (dns_servers : list Ipv4Addr) (route_table : ProxyRouteTable)
    (rt : runtime) : result unit * runtime :=
  match stops with
  | [] => (Diverge, rt)
  | true :: _ => finish rt
  | false :: stops =>
      let! _ & rt := turn dns_servers route_table rt in
      run_loop stops dns_servers route_table rt
  end.

(** What [run] does before the loop: [timeouts] is the outcome of setting the
    time-outs of the transport, [bind] that of binding the listener, and
    [started] what the static [START] of [smol_now] holds, which outlives a run. *)
Definition start_runtime (transport : FortinetTransport) (ppp : PppEngine) (timeouts : result unit)
    (bind : result (list accept_event)) (connects : list (TcpStream + ErrorKind))
    (lookups : list (list SocketAddr + ErrorKind)) (started : option Z) (c : clock) : result runtime :=
  let* local_ip := ok_or (local_ip ppp) (Pppd "proxy runtime requires an opened PPP link") in
  let '(start, c) := match started with Some start => (start, c) | None => instant_now c end in
  let '(t, c) := instant_now c in
  let* n := NetStack.new local_ip (peer_ip ppp) (t - start) in
  let* _ := timeouts in
  let* listener := bind in
  Ok {| link := {| transport := transport; ppp := ppp; netstack := n |}; sessions := [];
        direct_sessions := []; dns_cache := ∅; next_session_id := 1; listener := listener;
        connects := connects; lookups := lookups; the_clock := c; smol_start := Some start; dropped := [] |}.

Definition run (transport : FortinetTransport) (ppp : PppEngine) (timeouts : result unit)
    (bind : result (list accept_event)) (connects : list (TcpStream + ErrorKind))
    (lookups : list (list SocketAddr + ErrorKind)) (started : option Z) (c : clock) (stops : list bool)
    (route_table : ProxyRouteTable) (dns_servers : list Ipv4Addr) : result unit * option runtime :=
  match start_runtime transport ppp timeouts bind connects lookups started c with
  | Ok rt => let '(r, rt) := run_loop stops dns_servers route_table rt in (r, Some rt)
  | Err e => (Err e, None)
  | Panic => (Panic, None)
  | Diverge => (Diverge, None)
  end.

End Loop.
