(* ===== verification/ProxyDns.v ===== *)
(** * Names over the tunnel

    What [resolve_domain] and its cache do: they end, within the time they are
    given, they disturb no session, and what they answer is an address a name
    server sent. *)

From stdpp Require Import gmap.
From S2P Require Import Prelude Stream RustStd Packet Fortinet PppEngine Net NetStack ToyStack RouteTable Dns Socks5.
From S2P Require Import Runtime ProxyLink ProxyLoop.

#[local] Open Scope string_scope.
#[local] Open Scope list_scope.
#[local] Open Scope Z_scope.

Section Names.
Context {Interface Sockets Handle : Type} `{!Smoltcp Interface Sockets Handle}
  `{!SmoltcpView Sockets Handle} `{!SmoltcpLaws Interface Sockets Handle}.

Abbreviation stack := (ProxyNetStack Interface Sockets).
Abbreviation link_state := (Link Interface Sockets).
Abbreviation runtime := (Runtime Interface Sockets Handle).

(** ** Steps that leave the sessions alone *)

(** The sockets in [P] keep what they have sent, the link stays in order, and
    apart from the link and the time nothing changes. *)
Record spares (P : Handle → Prop) (rt rt' : runtime) : Prop := {
  sp_rest : sessions rt' = sessions rt ∧ direct_sessions rt' = direct_sessions rt ∧
    next_session_id rt' = next_session_id rt ∧ listener rt' = listener rt ∧ connects rt' = connects rt ∧
    lookups rt' = lookups rt ∧ dropped rt' = dropped rt;
  sp_cache : dns_cache rt' = dns_cache rt;
  sp_inv : link_inv (link rt) → link_inv (link rt');
  sp_live : ∀ h, P h → alive h (the_stack rt) → alive h (the_stack rt') ∧
    sent h (sockets (the_stack rt')) = sent h (sockets (the_stack rt)) ∧
    (send_closed h (sockets (the_stack rt)) → send_closed h (sockets (the_stack rt')));
  sp_time : time (the_clock rt) <= time (the_clock rt');
}.

Lemma spares_refl P rt : spares P rt rt.
Proof. split; try done.  Qed.

Lemma spares_trans P rt1 rt2 rt3 : spares P rt1 rt2 → spares P rt2 rt3 → spares P rt1 rt3.
Proof.
  intros [(A1 & A2 & A3 & A4 & A5 & A6 & A7) Ac Ai Al At] [(B1 & B2 & B3 & B4 & B5 & B6 & B7) Bc Bi Bl Bt].
  split; [split_and!; congruence|congruence|auto| |lia].
  intros h Hp Hh. destruct (Al h Hp Hh) as (H1 & H2 & H3). destruct (Bl h Hp H1) as (H4 & H5 & H6).
  split_and!; [done|congruence|auto].
Qed.

Lemma spares_weaken (P Q : Handle → Prop) rt rt' : (∀ h, Q h → P h) → spares P rt rt' → spares Q rt rt'.
Proof. intros H [A B C D E]. split; auto. Qed.

(** A step of the link that leaves the sockets alone. *)
Lemma on_link_ok {A} P (f : link_state → result A * link_state) rt r l :
  f (link rt) = (r, l) → link_kept (link rt) l →
  ∃ rt', on_link f rt = (r, rt') ∧ spares P rt rt' ∧ link rt' = l ∧ the_clock rt' = the_clock rt ∧
    ∀ h, alive h (the_stack rt') ↔ alive h (the_stack rt).
Proof.
  intros E Hk. unfold on_link. rewrite E. eexists. split; [reflexivity|].
  assert (∀ h, alive h (netstack l) ↔ alive h (the_stack rt)) as Hal.
  { intros h. unfold alive, the_stack. by rewrite (kept_sockets _ _ Hk). }
  split; [|by split_and!]. split; try done; cbn.
  - apply (kept_inv _ _ Hk).
  - intros h _ Hh. split; [by apply Hal|]. unfold the_stack. cbn. by rewrite (kept_sockets _ _ Hk).
Qed.

(** A step of one socket. *)
Lemma on_netstack_ok {A} h (f : stack → result A * stack) rt r n :
  f (the_stack rt) = (r, n) → touches h (the_stack rt) n →
  ∃ rt', on_netstack f rt = (r, rt') ∧ spares (λ h', h' ≠ h) rt rt' ∧ the_stack rt' = n ∧
    the_clock rt' = the_clock rt ∧ (alive h (the_stack rt) → alive h (the_stack rt')).
Proof.
  intros E Ht. unfold on_netstack. unfold the_stack in E. rewrite E. eexists. split; [reflexivity|].
  split; [|split_and!; try done; intros Hh; by apply (touches_alive _ _ _ _ Ht)].
  split; try done. intros h' Hne Hh. split; [by apply (touches_alive _ _ _ _ Ht)|].
  destruct Ht as (_ & _ & Ho). by destruct (Ho h' Hne Hh) as (? & _ & ?).
Qed.

Lemma now_ok P rt : ∃ t rt', now rt = (t, rt') ∧ spares P rt rt' ∧ t = time (the_clock rt') ∧
  link rt' = link rt ∧ smol_start rt' = smol_start rt.
Proof.
  unfold now. destruct (instant_now (the_clock rt)) as [t c] eqn:E. apply instant_now_time in E as [Ht ->].
  eexists _, _. split; [reflexivity|]. split_and!; try done; split; try done; cbn; lia.
Qed.

Lemma sleep_loop_ok P rt : spares P rt (sleep_loop rt) ∧ link (sleep_loop rt) = link rt ∧
  time (the_clock rt) + 1 <= time (the_clock (sleep_loop rt)).
Proof.
  pose proof (elapse_time LOOP_SLEEP (the_clock rt)) as H. unfold LOOP_SLEEP in *.
  split; [|split; [done|exact H]]. split; try done. cbn. unfold sleep, LOOP_SLEEP. lia.
Qed.

Lemma smol_now_ok P rt : ∃ t rt', smol_now rt = (t, rt') ∧ spares P rt rt' ∧ link rt' = link rt.
Proof.
  unfold smol_now. destruct (smol_start rt) as [start|].
  - destruct (now_ok P rt) as (t & rt' & -> & Hs & _ & Hl & _). by eexists _, _.
  - destruct (now_ok P rt) as (start & rt1 & -> & Hs & _ & Hl & _).
    set (rt1' := rt1 <| smol_start := Some start |>).
    assert (spares P rt1 rt1') as Hs1.
    { by split. }
    destruct (now_ok P rt1') as (t & rt2 & -> & Hs2 & _ & Hl2 & _).
    eexists _, _. split; [reflexivity|]. split; [|by rewrite Hl2].
    eapply spares_trans; [exact Hs|]. by eapply spares_trans.
Qed.

Lemma poll_netstack_ok P rt : spares P rt (poll_netstack rt) ∧
  (∀ h, alive h (the_stack (poll_netstack rt)) ↔ alive h (the_stack rt)) ∧
  transport (link (poll_netstack rt)) = transport (link rt) ∧ ppp (link (poll_netstack rt)) = ppp (link rt).
Proof.
  unfold poll_netstack. destruct (smol_now_ok P rt) as (t & rt1 & -> & Hs & Hl).
  pose proof (poll_ok t (the_stack rt1)) as [Hal Hsent]. destruct (poll t (the_stack rt1)) as [b n]. cbn [snd] in *.
  unfold the_stack in *. rewrite Hl in *. cbn. split_and!; try done; [|by rewrite Hl..].
  eapply spares_trans; [exact Hs|]. split; try done.
  - rewrite Hl. intros H. exact H.
  - unfold the_stack. cbn. rewrite Hl. intros h _ Hh. by split; [apply Hal|apply Hsent].
Qed.

(** ** One name server *)

Abbreviation but h := (λ h', h' ≠ h).
Abbreviation sent_on h rt := (sent h (sockets (the_stack rt))).
Abbreviation ready_on h rt := (pending h (sockets (the_stack rt))).

Section Query.
Context (server : Ipv4Addr) (h : Handle) (query : bytes).

(** A turn of waiting for the reply: the tunnel is served and the query sent if
    it can be; then, if it has been, [m] is taken off the socket [h]. *)
Definition query_turn (asked : bool) (rt : runtime) (m : bytes) (asked' : bool) (rt' : runtime) : Prop :=
  ∃ rt1 rt2 rt3, on_link read_fortinet_packets (snd (now rt)) = (Ok tt, rt1) ∧
    send_query server h query asked (poll_netstack rt1) = (Ok (inl asked'), rt2) ∧
    on_link drain_netstack_to_fortinet rt2 = (Ok tt, rt3) ∧
    ready_on h rt3 = m ++ ready_on h rt' ∧
    if asked' then ∃ received, on_netstack (tcp_recv h IO_BUFFER_SIZE) rt3 = (Ok received, rt') ∧
      m = match received with inl buf => buf | inr _ => [] end
    else m = [] ∧ rt' = rt3.

(** What has come in on the socket, turn by turn. *)
Inductive hears (rt : runtime) : bool → bytes → runtime → Prop :=
  | hears_nothing : hears rt false [] rt
  | hears_more asked l rt1 m asked' rt2 : hears rt asked l rt1 → query_turn asked rt1 m asked' rt2 →
      hears rt asked' (l ++ m) (sleep_loop rt2).

(** The query was sent on the socket, whole and nothing else, and [response] is
    what had come in on it. *)
Definition replied (rt : runtime) (response : bytes) (rt' : runtime) : Prop :=
  ∃ asked l rt1 m, hears rt asked l rt1 ∧ query_turn asked rt1 m true rt' ∧ response = l ++ m ∧ sent_on h rt' = query.

End Query.

Lemma send_query_ok server h query sent rt : alive h (the_stack rt) →
  ∃ r rt', send_query server h query sent rt = (Ok r, rt') ∧ spares (but h) rt rt' ∧ alive h (the_stack rt') ∧
    the_clock rt' = the_clock rt ∧
    (sent_on h rt = (if sent then query else []) → ∀ sent', r = inl sent' → sent_on h rt' = if sent' then query else []).
Proof.
  intros Hl. unfold send_query. destruct (tcp_is_established_ok _ _ Hl) as (b & ->). cbn [lift sbind].
  destruct (b && negb sent) eqn:Eb; [|eexists _, rt; split_and!; try done; by intros H ? [= <-]].
  apply andb_true_iff in Eb as [_ ->%negb_true_iff].
  destruct (tcp_send_ok h query _ Hl) as (r & n & E & Ht & _ & _ & Hr).
  destruct (on_netstack_ok h _ rt _ _ E Ht) as (rt' & -> & Hs & Hn & Hc & Ha).
  cbn [sbind]. eexists _, rt'. split_and!; try done; [by apply Ha|]. intros H0 sent' Hr'. rewrite Hn.
  destruct r as [k|err]; [|done]. destruct (Z.eqb_spec k (len query)) as [->|]; [|done]. injection Hr' as <-.
  destruct Hr as (_ & -> & _). rewrite H0. cbn [app]. unfold len. by rewrite Nat2Z.id, firstn_all.
Qed.

(** What the socket hands over is octets. *)
Lemma receive_response_ok h (sent : bool) rt : alive h (the_stack rt) →
  ∃ r rt', (if sent then on_netstack (tcp_recv h IO_BUFFER_SIZE) rt else (Ok (inl []), rt)) = (Ok r, rt') ∧
    spares (but h) rt rt' ∧ alive h (the_stack rt') ∧ the_clock rt' = the_clock rt ∧ sent_on h rt' = sent_on h rt ∧
    ready_on h rt = match r with inl buf => buf | inr _ => [] end ++ ready_on h rt' ∧
    is_bytes (match r with inl buf => buf | inr _ => [] end).
Proof.
  intros Hl. destruct sent.
  2: { eexists _, rt. split; [reflexivity|]. split_and!; try done; apply spares_refl. }
  destruct (tcp_recv_ok h IO_BUFFER_SIZE _ Hl) as (r & n & E & Ht & Hsent & _ & Hr); [done|].
  destruct (on_netstack_ok h _ rt _ _ E Ht) as (rt' & -> & Hs & Hn & Hc & Ha).
  eexists _, rt'. split_and!; try done; [by apply Ha|by rewrite Hn|..].
  { rewrite Hn. destruct r as [l|]; [by destruct Hr as (_ & ? & _)|]. by destruct Hr as [-> ->]. }
  destruct r as [l|]; [|done]. destruct Hr as (_ & Hr & _). pose proof (pending_bytes h _ Hl) as Hb. unfold the_stack in *. rewrite Hr in Hb. apply Forall_app in Hb as [Hb _]; exact Hb.
Qed.

Lemma find_routable_total table l : table_wf table → ∃ o, find_routable table l = Ok o.
Proof.
  intros Hw. induction l as [|a l [o IH]]; cbn [find_routable]; [by eexists|].
  destruct (can_route_total table a Hw) as ([] & ->); cbn [bind]; eauto.
Qed.

(** The first address of an answer that the tunnel routes, or if it routes none
    the first one. *)
Definition chosen (table : ProxyRouteTable) (addrs : list Ipv4Addr) (a : Ipv4Addr) : Prop :=
  let unroutable b := can_route table b = Ok false in
  (∃ pre post, addrs = pre ++ a :: post ∧ Forall unroutable pre ∧ can_route table a = Ok true) ∨
  (Forall unroutable addrs ∧ head addrs = Some a).

Lemma find_routable_chosen table first addrs o :
  find_routable table (first :: addrs) = Ok o → chosen table (first :: addrs) (default first o).
Proof.
  intros H. assert (∀ l, find_routable table l = Ok o → match o with
    | Some a => ∃ pre post, l = pre ++ a :: post ∧ Forall (λ b, can_route table b = Ok false) pre ∧ can_route table a = Ok true
    | None => Forall (λ b, can_route table b = Ok false) l end) as Hl.
  { clear. induction l as [|b l IH]; cbn [find_routable]; [by intros [= <-]|].
    intros ([] & Hb & H)%bind_ok_inv; [injection H as <-; by exists [], l|]. apply IH in H.
    destruct o as [a|]; [|by constructor]. destruct H as (pre & post & -> & Hp & Ha).
    exists (b :: pre), post. split_and!; [done|by constructor|done]. }
  apply Hl in H. by destruct o; [left|right].
Qed.

(** The address was chosen from a reply to the query. *)
Definition answered (server : Ipv4Addr) (h : Handle) (query : bytes) (query_id : u16) (table : ProxyRouteTable)
    (rt : runtime) (a : Ipv4Addr) : Prop :=
  ∃ response rt' addrs, replied server h query rt response rt' ∧
    parse_tcp_response response query_id = Ok addrs ∧ chosen table addrs a.

(** The socket of the query is closed and gone. *)
Lemma release_ok h rt : alive h (the_stack rt) → ∃ rt1 rt2, on_netstack (tcp_close h) rt = (Ok tt, rt1) ∧
  on_netstack (remove_tcp_socket h) rt1 = (Ok tt, rt2) ∧ spares (but h) rt rt2 ∧ ¬ alive h (the_stack rt2) ∧
  the_clock rt2 = the_clock rt.
Proof.
  intros Hl. destruct (tcp_close_ok h _ Hl) as (n & E & Ht & _).
  destruct (on_netstack_ok h _ rt _ _ E Ht) as (rt1 & -> & Hs & Hst & Hc & Ha). specialize (Ha Hl).
  destruct (remove_tcp_socket_ok h _ Ha) as (n2 & E2 & Hd & Hal & Hsame).
  exists rt1. eexists. split; [done|]. unfold on_netstack. unfold the_stack in E2. rewrite E2.
  split; [reflexivity|]. split; [|split; [|done]].
  - eapply spares_trans; [exact Hs|]. split; try done. intros h' Hne Hh. split; [by apply Hal|].
    by destruct (Hsame h' Hne Hh) as (? & _ & ?).
  - unfold the_stack. cbn. intros [Hne _]%Hal. done.
Qed.

(** Removing a socket alone. *)
Lemma remove_ok h rt : alive h (the_stack rt) → ∃ rt', on_netstack (remove_tcp_socket h) rt = (Ok tt, rt') ∧
  spares (but h) rt rt' ∧ the_clock rt' = the_clock rt.
Proof.
  intros Hl. destruct (remove_tcp_socket_ok h _ Hl) as (n2 & E2 & Hd & Hal & Hsame).
  eexists. unfold on_netstack. unfold the_stack in E2. rewrite E2.
  split; [reflexivity|]. split; [|done]. split; try done. intros h' Hne Hh. split; [by apply Hal|].
  by destruct (Hsame h' Hne Hh) as (? & _ & ?).
Qed.

(** How waiting for one name server may end. *)
Definition await_outcome (server : Ipv4Addr) (h : Handle) (query : bytes) (query_id : u16) (table : ProxyRouteTable)
    (rt rt' : runtime) (r : result dns_outcome) : Prop :=
  match r with
  | Ok (Resolved a) => answered server h query query_id table rt a ∧ ¬ alive h (the_stack rt')
  | Ok (NextServer _) => alive h (the_stack rt')
  | Err _ => True
  | _ => False
  end.

(** What an answer so far may be. *)
Lemma answer_so_far_ok received response query_id : is_bytes response →
  ∃ answer, answer_so_far received response query_id = Ok answer ∧
    match answer with
    | inl [] => True
    | inl addrs => parse_tcp_response response query_id = Ok addrs
    | inr (NextServer (Some _)) => True
    | inr _ => False
    end.
Proof.
  intros Hb. pose proof (parse_tcp_response_total response query_id Hb) as Hret. unfold answer_so_far.
  destruct received as [[|x buf]|err]; [by exists (inl [])| |by exists (inl [])].
  destruct (parse_tcp_response response query_id) as [addrs|err| |]; try done; cbn [bind]; eexists; (split; [reflexivity|]); [|done].
  by destruct addrs.
Qed.

Lemma take_answer_ok server h query query_id table response first addrs rt0 rt : table_wf table → alive h (the_stack rt) →
  parse_tcp_response response query_id = Ok (first :: addrs) → replied server h query rt0 response rt →
  ∃ r rt', take_answer h table first (first :: addrs) rt = (r, rt') ∧ spares (but h) rt rt' ∧
    await_outcome server h query query_id table rt0 rt' r.
Proof.
  intros Hwf Hl Hp Hrep. unfold take_answer.
  destruct (release_ok h rt Hl) as (rt7 & rt8 & -> & E8 & S8 & Hgone & _). cbn [sbind].
  rewrite E8. cbn [sbind]. destruct (find_routable_total table (first :: addrs) Hwf) as (o & Ho). rewrite Ho.
  exists (Ok (Resolved (default first o))), rt8. split; [done|]. split; [done|]. split; [|done].
  apply find_routable_chosen in Ho. by exists response, rt, (first :: addrs).
Qed.

Abbreviation all := (λ _ : Handle, True).

(** Waiting ends before its fuel does, since every turn sleeps. *)
Lemma await_response_ok fuel server h query_id query table deadline asked response last rt0 rt :
  table_wf table → alive h (the_stack rt) → link_inv (link rt) → is_bytes response →
  deadline <= time (the_clock rt) + Z.of_nat fuel →
  hears server h query rt0 asked response rt → sent_on h rt = (if asked then query else []) →
  ∃ r rt', await_response fuel server h query_id query table deadline asked response last rt = (r, rt') ∧
    spares (but h) rt rt' ∧ await_outcome server h query query_id table rt0 rt' r.
Proof.
  intros Hwf. revert asked response last rt. induction fuel as [|fuel IH]; intros asked response last rt Hl Hinv Hb Hf Hhears Hsent;
    cbn [await_response]; destruct (now_ok all rt) as (t & rt1 & Enow & S1 & Ht & L1 & _); rewrite Enow;
    pose proof (sp_time _ _ _ S1) as Htime; apply (spares_weaken _ (but h)) in S1 as S1b; try done.
  { rewrite (proj2 (Z.ltb_ge t deadline)) by lia. exists (Ok (NextServer last)), rt1. split_and!; try done.
    unfold await_outcome, the_stack. by rewrite L1. }
  destruct (Z.ltb_spec t deadline) as [_|_].
  2: { exists (Ok (NextServer last)), rt1. split_and!; try done. unfold await_outcome, the_stack. by rewrite L1. }
  assert (alive h (the_stack rt1)) as Hl1 by (unfold the_stack; by rewrite L1).
  destruct (read_fortinet_packets_ok (link rt1)) as (r2 & l2 & E2 & Hr2 & Hk2 & _); [by rewrite L1|].
  destruct (on_link_ok all _ rt1 _ _ E2 Hk2) as (rt2 & Er2 & S2 & _ & C2 & A2). rewrite Er2.
  pose proof (spares_trans _ _ _ _ S1 S2) as S12. apply A2 in Hl1 as Hl2. clear E2 Hk2.
  destruct Hr2 as [->|(e & ->)]; cbn [sbind]; [|by exists (Err e), rt2; split_and!; [|eapply spares_weaken, S12|]].
  destruct (poll_netstack_ok all rt2) as (S3 & A3 & _).
  pose proof (spares_trans _ _ _ _ S12 S3) as S13. apply A3 in Hl2 as Hl3. remember (poll_netstack rt2) as rt3 eqn:E3.
  destruct (sp_live _ _ _ S13 h I Hl) as (_ & Hsent3 & _). rewrite Hsent in Hsent3.
  apply (spares_weaken _ (but h)) in S13 as S13b; [|done].
  destruct (send_query_ok server h query asked rt3 Hl3) as (sending & rt4 & Er4 & S4 & Hl4 & C4 & Hs4). rewrite Er4. cbn [sbind].
  pose proof (spares_trans _ _ _ _ S13b S4) as S14.
  destruct sending as [asked'|err]; [|by exists (Ok (NextServer (Some err))), rt4]. specialize (Hs4 Hsent3 asked' eq_refl).
  destruct (drain_ok (link rt4)) as (r5 & l5 & E5 & Hr5 & Hk5 & _).
  destruct (on_link_ok all _ rt4 _ _ E5 Hk5) as (rt5 & Er5 & S5 & _ & C5 & A5). rewrite Er5.
  destruct (sp_live _ _ _ S5 h I Hl4) as (_ & Hsent5 & _). rewrite Hs4 in Hsent5.
  apply (spares_weaken _ (but h)) in S5; [|done].
  pose proof (spares_trans _ _ _ _ S14 S5) as S15. apply A5 in Hl4 as Hl5. clear E5 Hk5.
  destruct Hr5 as [->|(e & ->)]; cbn [sbind]; [|by exists (Err e), rt5].
  destruct (receive_response_ok h asked' rt5 Hl5) as (received & rt6 & Er6 & S6 & Hl6 & C6 & Hsent6 & Hready & Hbr).
  rewrite Er6. cbn [sbind]. pose proof (spares_trans _ _ _ _ S15 S6) as S16. rewrite Hsent5 in Hsent6.
  set (m := match received with inl _ => _ | inr _ => _ end) in *.
  assert (query_turn server h query asked rt m asked' rt6) as Hturn.
  { exists rt2, rt4, rt5. rewrite Enow. cbn [snd]. rewrite <- E3. split_and!; try done.
    destruct asked'; [by exists received|]. by injection Er6 as <- <-. }
  assert (is_bytes (response ++ m)) as Hb' by by apply Forall_app.
  destruct (answer_so_far_ok received (response ++ m) query_id Hb') as (answer & Eans & Hans). rewrite Eans. cbn [lift sbind].
  destruct answer as [[|first addrs]|[a|[err|]]]; try done; [..|by exists (Ok (NextServer (Some err))), rt6].
  - destruct (tcp_is_active_ok _ _ Hl6) as (active & ->). cbn [lift sbind].
    destruct (negb active && asked'); [by exists (Ok (NextServer last)), rt6|].
    destruct (sleep_loop_ok (but h) rt6) as (S7 & L7 & T7). pose proof (spares_trans _ _ _ _ S16 S7) as S17.
    destruct (IH asked' (response ++ m) last (sleep_loop rt6)) as (r & rt' & -> & S8 & Ho); try done.
    + by apply (sp_inv _ _ _ S17).
    + pose proof (sp_time _ _ _ S16). lia.
    + by apply (hears_more _ _ _ _ asked _ rt).
    + exists r, rt'. split; [reflexivity|]. split; [|done]. by eapply spares_trans.
  - assert (asked' = true) as ->.
    { destruct asked'; [done|]. injection Er6 as <- _. by injection Eans. }
    destruct (take_answer_ok server h query query_id table (response ++ m) first addrs rt0 rt6 Hwf Hl6 Hans)
      as (r & rt' & -> & S7 & Ho); [by exists asked, response, rt, m|].
    exists r, rt'. split; [done|]. split; [by eapply spares_trans|done].
Qed.

(** ** All name servers *)

(** A socket that is new is none that was alive. *)
Lemma add_socket_ok rt h n : add_tcp_socket (the_stack rt) = (h, n) →
  let rt' := rt <| link := link rt <| netstack := n |> |> in
  ¬ alive h (the_stack rt) ∧ alive h (the_stack rt') ∧ spares all rt rt' ∧
  sent h (sockets (the_stack rt')) = [].
Proof.
  intros (Hnew & _ & Hal & Hsent & Hsame)%add_tcp_socket_ok.
  split; [done|]. split; [apply Hal; by left|]. split; [|done]. split; try done.
  intros h' _ Hh. split; [apply Hal; by right|]. by destruct (Hsame h' Hh) as (? & _ & ?).
Qed.

(** What spares all but a new socket spares every old one. *)
Lemma spares_new h rt rt1 rt2 : ¬ alive h (the_stack rt) → spares all rt rt1 → spares (but h) rt1 rt2 →
  spares all rt rt2.
Proof.
  intros Hnew S1 S2. assert (spares (λ h', alive h' (the_stack rt)) rt rt2) as [A B C D E].
  { eapply spares_trans; [by eapply spares_weaken, S1|]. eapply spares_weaken, S2. by intros h' Hh ->. }
  by split; auto.
Qed.

Section Lookup.
Context (domain : str) (query_id : u16) (query : bytes) (table : ProxyRouteTable).

(** The servers are asked in turn: [server] is asked in the state [rt1] that the
    failure of all before it has left. *)
Inductive asks : list Ipv4Addr → runtime → Ipv4Addr → runtime → Prop :=
  | asks_first server servers rt : asks (server :: servers) rt server rt
  | asks_later failed last err servers rt rt' server rt1 :
      ask_servers [failed] domain query_id query table last rt = (Err err, rt') →
      asks servers rt' server rt1 → asks (failed :: servers) rt server rt1.

(** An address that is the answer of a name server: in its turn a new socket was
    connected to port 53 of the server, the query went out on it alone, and the
    address was chosen from what came in on it. *)
Definition looked_up (servers : list Ipv4Addr) (rt : runtime) (a : Ipv4Addr) : Prop :=
  ∃ server rt1 h n rt2, asks servers rt server rt1 ∧
    add_tcp_socket (the_stack rt1) = (h, n) ∧ ¬ alive h (the_stack rt1) ∧
    on_netstack (connect_tcp h server 53) (rt1 <| link := link rt1 <| netstack := n |> |>) = (Ok (inl tt), rt2) ∧
    answered server h query query_id table (snd (now rt2)) a.

(** How a lookup may end. *)
Definition lookup_outcome (servers : list Ipv4Addr) (rt : runtime) (r : result Ipv4Addr) : Prop :=
  match r with Ok a => looked_up servers rt a | Err _ => True | _ => False end.

Lemma lookup_later failed servers last err rt rt' r :
  ask_servers [failed] domain query_id query table last rt = (Err err, rt') →
  lookup_outcome servers rt' r → lookup_outcome (failed :: servers) rt r.
Proof.
  intros E. destruct r as [a| | |]; try done. intros (s & rt1 & h & n & rt2 & Hs & H).
  exists s, rt1, h, n, rt2. split; [by eapply asks_later|done].
Qed.

Lemma ask_servers_ok servers last rt : table_wf table → link_inv (link rt) →
  ∃ r rt', ask_servers servers domain query_id query table last rt = (r, rt') ∧ spares all rt rt' ∧
    lookup_outcome servers rt r.
Proof.
  intros Hwf. revert last rt. induction servers as [|server servers IH]; intros last rt Hinv; cbn [ask_servers].
  { eexists _, rt. split; [reflexivity|]. split; [apply spares_refl|done]. }
  destruct (add_tcp_socket (the_stack rt)) as [h n] eqn:Eadd. apply add_socket_ok in Eadd as Hadd.
  destruct Hadd as (Hnew & Hl & S1 & Hnone). remember (rt <| link := link rt <| netstack := n |> |>) as rt1 eqn:E1.
  assert (∀ rt2 err last', spares (but h) rt1 rt2 →
    ask_servers [server] domain query_id query table last rt = (Err err, rt2) → ∃ r rt', ask_servers servers domain query_id query table last' rt2 = (r, rt') ∧
    spares all rt rt' ∧ lookup_outcome (server :: servers) rt r) as Hnext.
  { intros rt2 err last' S Eone. pose proof (spares_new h _ _ _ Hnew S1 S) as S'.
    destruct (IH last' rt2) as (r & rt' & -> & S2 & Hr); [by apply (sp_inv _ _ _ S')|].
    exists r, rt'. split_and!; [done|by eapply spares_trans|by eapply lookup_later]. }
  destruct (connect_tcp_ok h server 53 _ Hl) as (c & n2 & E2 & Ht & Hsent).
  destruct (on_netstack_ok h _ rt1 _ _ E2 Ht) as (rt2 & Econ & S2 & Hn2 & _ & Ha). specialize (Ha Hl). rewrite Econ. cbn [sbind].
  destruct c as [[]|err].
  2: { destruct (remove_ok h rt2 Ha) as (rt3 & E3 & S3 & _). rewrite E3. cbn [sbind].
    eapply Hnext; [by eapply spares_trans|]. cbn [ask_servers]. rewrite Eadd, <- E1, Econ. cbn [sbind]. by rewrite E3. }
  destruct (now_ok (but h) rt2) as (t & rt3 & Enow & S3 & -> & L3 & _). rewrite Enow.
  pose proof (spares_trans _ _ _ _ S2 S3) as S23.
  destruct (await_response_ok DNS_FUEL server h query_id query table (time (the_clock rt3) + DNS_RESOLVE_TIMEOUT)
    false [] last rt3 rt3) as (r & rt4 & Eaw & S4 & Hout); try done.
  { unfold the_stack. by rewrite L3. }
  { apply (sp_inv _ _ _ (spares_new h _ _ _ Hnew S1 S23)). done. }
  { unfold DNS_FUEL, DNS_RESOLVE_TIMEOUT. lia. }
  { constructor. }
  { unfold the_stack in *. by rewrite L3, Hn2, Hsent, Hnone. }
  rewrite Eaw. pose proof (spares_trans _ _ _ _ S23 S4) as S24.
  destruct r as [[a|last']|e| |]; cbn [sbind await_outcome] in *; try done.
  - exists (Ok a), rt4. split; [done|]. split; [by eapply spares_new|]. destruct Hout as [Hout _].
    exists server, rt, h, n, rt2. rewrite <- E1, Enow. split_and!; try done. constructor.
  - destruct (release_ok h rt4 Hout) as (rt5 & rt6 & E5 & E6 & S6 & _). rewrite E5. cbn [sbind]. rewrite E6. cbn [sbind].
    eapply Hnext; [by eapply spares_trans|]. cbn [ask_servers]. rewrite Eadd, <- E1, Econ. cbn [sbind].
    rewrite Enow, Eaw. cbn [sbind]. rewrite E5. cbn [sbind]. by rewrite E6.
  - exists (Err e), rt4. split_and!; try done. by eapply spares_new.
Qed.

End Lookup.

(** The name is resolved or it is not; either way the sessions go on. *)
Lemma resolve_domain_ok domain servers table rt : table_wf table → link_inv (link rt) →
  ∃ r rt', resolve_domain domain servers table rt = (r, rt') ∧ spares all rt rt' ∧
    match r with
    | Ok a => ∃ query, build_tcp_query (dns_query_id domain) domain = Ok query ∧
        looked_up domain (dns_query_id domain) query table servers rt a
    | Err _ => True
    | _ => False
    end.
Proof.
  intros Hwf Hinv. unfold resolve_domain. destruct servers as [|s servers].
  { eexists _, rt. split; [reflexivity|]. split; [apply spares_refl|done]. }
  pose proof (build_tcp_query_total (dns_query_id domain) domain) as Hq.
  destruct (build_tcp_query _ _) as [query|e| |]; try done; cbn [lift sbind].
  - destruct (ask_servers_ok domain (dns_query_id domain) query table (s :: servers) None rt Hwf Hinv) as (r & rt' & E & S & Hr).
    exists r, rt'. split; [done|]. split; [done|]. destruct r; try done. by exists query.
  - eexists _, rt. split; [reflexivity|]. split; [apply spares_refl|done].
Qed.

(** The same with the cache, which is all that it changes besides. *)
Lemma resolve_domain_cached_ok domain servers table rt : table_wf table → link_inv (link rt) →
  ∃ r rt' cache, resolve_domain_cached domain servers table rt = (r, rt' <| dns_cache := cache |>) ∧ spares all rt rt' ∧
    returns r.
Proof.
  intros Hwf Hinv. unfold resolve_domain_cached. destruct (now_ok all rt) as (t & rt1 & -> & S1 & Ht & L1 & _).
  assert (∀ rt : runtime, rt = rt <| dns_cache := dns_cache rt |>) as Hsame by by intros [].
  destruct (match dns_cache rt1 !! _ with Some _ => _ | None => _ end) as [a|].
  { exists (Ok a), rt1, (dns_cache rt1). by rewrite <- Hsame. }
  destruct (resolve_domain_ok domain servers table rt1) as (r & rt2 & -> & S2 & Hr); [done|by rewrite L1|].
  assert (spares all rt rt2) as S by by eapply spares_trans.
  destruct r as [a|e| |]; cbn [sbind]; try done.
  - by eexists _, rt2, _.
  - exists (Err e), rt2, (dns_cache rt2). by rewrite <- Hsame.
Qed.

(** ** Properties *)

(** C27: Resolving a name over the tunnel ends whatever the clock, the tunnel
    and the name servers do, never with a panic.  Every session goes on: its
    socket stays and keeps what it has sent, and the link stays in order.  An
    address that is returned is the answer of a name server: in its turn a new
    socket was connected to port 53 of one of the servers, the query for the
    name and nothing else was sent on it, what then came in on it parses as a
    reply to that query, and the address is the first one of that reply that
    the tunnel routes, or if it routes none the first one. *)
Theorem resolve_domain_answers domain servers table rt : table_wf table → link_inv (link rt) →
  ∃ r rt', resolve_domain domain servers table rt = (r, rt') ∧ spares all rt rt' ∧
    match r with
    | Ok a => ∃ query, build_tcp_query (dns_query_id domain) domain = Ok query ∧
        looked_up domain (dns_query_id domain) query table servers rt a
    | Err _ => True
    | _ => False
    end.
Proof. apply resolve_domain_ok. Qed.

(** An address that a lookup found is used until it expires, five minutes
    after it was looked up.  Until then a name that differs only in case is
    answered with it, and the tunnel is not touched; afterwards the name is
    looked up again. *)
Theorem dns_cache_holds domain domain' servers servers' table table' rt rt1 rt2 a :
  let key := to_ascii_lowercase domain in
  resolve_domain_cached domain servers table rt = (Ok a, rt1) →
  to_ascii_lowercase domain' = key → dns_cache rt2 !! key = dns_cache rt1 !! key →
  ∃ expires, fst (now rt) < expires ∧
    (dns_cache rt !! key = Some {| addr := a; expires_at := expires |} ∨ expires = fst (now rt) + DNS_CACHE_TTL) ∧
    (fst (now rt2) < expires → resolve_domain_cached domain' servers' table' rt2 = (Ok a, snd (now rt2))) ∧
    (expires <= fst (now rt2) → fst (resolve_domain_cached domain' servers' table' rt2) =
      fst (resolve_domain domain' servers' table' (snd (now rt2)))).
Proof.
  intros key H Hkey Hcache. unfold resolve_domain_cached in *. fold key in H. rewrite Hkey.
  assert (dns_cache (snd (now rt2)) = dns_cache rt2) as E2 by (unfold now; by destruct (instant_now _)).
  assert (dns_cache (snd (now rt)) = dns_cache rt) as E by (unfold now; by destruct (instant_now _)).
  destruct (now rt) as [t rt']. destruct (now rt2) as [t2 rt2']. cbn [fst snd] in *. rewrite E2, Hcache.
  assert (∃ expires, dns_cache rt1 !! key = Some {| addr := a; expires_at := expires |} ∧ t < expires ∧
    (dns_cache rt !! key = Some {| addr := a; expires_at := expires |} ∨ expires = t + DNS_CACHE_TTL))
    as (expires & -> & Ht & Hex).
  { rewrite E in H. assert (∀ r rt'', (let! addr & rt := (r, rt'') in
        (Ok addr, rt <| dns_cache := <[key:={| addr := addr; expires_at := t + DNS_CACHE_TTL |}]> (dns_cache rt) |>))
        = (Ok a, rt1) → dns_cache rt1 !! key = Some {| addr := a; expires_at := t + DNS_CACHE_TTL |}) as Hins.
    { intros [a'|e| |] rt''; cbn [sbind]; try done. intros [= -> <-]. cbn. by rewrite lookup_insert_eq. }
    destruct (resolve_domain domain servers table rt') as [r rt''].
    destruct (dns_cache rt !! key) as [[a' ex]|] eqn:Ec; cbn [expires_at addr] in H.
    - destruct (Z.ltb_spec t ex) as [Hlt|].
      + injection H as -> <-. exists ex. rewrite E, Ec. auto.
      + apply Hins in H. eexists. split; [exact H|]. unfold DNS_CACHE_TTL. split; [lia|auto].
    - apply Hins in H. eexists. split; [exact H|]. unfold DNS_CACHE_TTL. split; [lia|auto]. }
  exists expires. cbn [expires_at addr]. split_and!; try done; intros Hlt.
  - by rewrite (proj2 (Z.ltb_lt _ _) Hlt).
  - rewrite (proj2 (Z.ltb_ge _ _) Hlt). by destruct (resolve_domain _ _ _ rt2') as [[] ?].
Qed.
End Names.

(** ** On the concrete stack *)

(** A reply to the query for [vpn]. *)
Definition demo_reply : bytes :=
  let m := response_message (dns_query_id "vpn") 0x8180 []
    [{| a_name := {| labels := []; ending := Root |}; a_type := 1; a_class := 1; a_ttl := 60; a_data := [192; 0; 2; 1] |};
     {| a_name := {| labels := []; ending := Root |}; a_type := 1; a_class := 1; a_ttl := 60; a_data := [10; 0; 0; 7] |}] [] in
  u16_to_be (len m) ++ m.

Definition demo_table : ProxyRouteTable := {| routes := [{| network := Ipv4 10 0 0 0; prefix := 8 |}] |}.

(** A runtime without sessions, whose tunnel delivers [packets]. *)
Definition demo_runtime (packets : list bytes) (clients : list accept_event) : Runtime unit toys nat :=
  {| link := {| transport := {| stream_r := [RBytes (frames (map ipv4_ppp packets)); RError WouldBlock];
                                stream_w := vec_writer []; read_buffer := [] |};
                ppp := PppEngine.new;
                netstack := {| iface := tt; sockets := ∅; device := new_device DEFAULT_PROXY_MTU;
                               next_ephemeral_port := 49152 |} |};
     sessions := []; direct_sessions := []; dns_cache := ∅; next_session_id := 1; listener := clients; connects := [];
     lookups := []; the_clock := {| time := 0; delays := [] |}; smol_start := None; dropped := [] |}.

Lemma demo_table_wf : table_wf demo_table.
Proof. repeat constructor; vm_compute; discriminate. Qed.

Lemma demo_link_inv : link_inv (link (demo_runtime [demo_reply] [])).
Proof. split; [exact engine_inv_new|]. apply is_bytes_check. vm_compute. reflexivity. Qed.

Example resolve_demo :
  fst (resolve_domain "vpn" [UNSPECIFIED; Ipv4 10 0 0 1] demo_table (demo_runtime [demo_reply] [])) = Ok (Ipv4 10 0 0 7).
Proof. vm_compute. reflexivity. Qed.

Lemma resolve_domain_answers_witness :
  ∃ query, build_tcp_query (dns_query_id "vpn") "vpn" = Ok query ∧
    looked_up "vpn" (dns_query_id "vpn") query demo_table [UNSPECIFIED; Ipv4 10 0 0 1] (demo_runtime [demo_reply] []) (Ipv4 10 0 0 7).
Proof.
  destruct (resolve_domain_answers "vpn" [UNSPECIFIED; Ipv4 10 0 0 1] demo_table _ demo_table_wf demo_link_inv)
    as (r & rt' & E & _ & H).
  pose proof resolve_demo as D. rewrite E in D. cbn [fst] in D. subst r. exact H.
Defined.

Lemma dns_cache_holds_witness :
  let '(r, rt1) := resolve_domain_cached "vpn" [Ipv4 10 0 0 1] demo_table (demo_runtime [demo_reply] []) in
  r = Ok (Ipv4 10 0 0 7) ∧
  ∃ expires, fst (now (demo_runtime [demo_reply] [])) < expires ∧
    (dns_cache (demo_runtime [demo_reply] []) !! "vpn" = Some {| addr := Ipv4 10 0 0 7; expires_at := expires |} ∨
      expires = fst (now (demo_runtime [demo_reply] [])) + DNS_CACHE_TTL) ∧
    (fst (now rt1) < expires → resolve_domain_cached "VPN" [] demo_table rt1 = (Ok (Ipv4 10 0 0 7), snd (now rt1))) ∧
    (expires <= fst (now rt1) → fst (resolve_domain_cached "VPN" [] demo_table rt1) =
      fst (resolve_domain "VPN" [] demo_table (snd (now rt1)))).
Proof.
  assert (fst (resolve_domain_cached "vpn" [Ipv4 10 0 0 1] demo_table (demo_runtime [demo_reply] [])) = Ok (Ipv4 10 0 0 7))
    as Hr by (vm_compute; reflexivity).
  destruct (resolve_domain_cached "vpn" _ demo_table _) as [r rt1] eqn:E. cbn [fst] in Hr. subst r.
  split; [reflexivity|]. exact (dns_cache_holds "vpn" "VPN" _ [] _ demo_table _ rt1 rt1 _ E eq_refl eq_refl).
Defined.
