(* ===== verification/ProxyTurn.v ===== *)
(** * The loop of the proxy

    Clients, one turn of the loop and the whole run: what holds of the state
    at the head of every turn, that a turn keeps it, and that no byte of a
    client is lost or reordered on its way into the tunnel, in a turn and over
    a whole run. *)

From stdpp Require Import gmap.
From S2P Require Import Prelude Stream RustStd Packet Fortinet PppEngine Net NetStack ToyStack RouteTable Dns Socks5.
From S2P Require Import Runtime ProxyLink ProxyLoop ProxyDns Config Portal.

#[local] Open Scope string_scope.
#[local] Open Scope list_scope.
#[local] Open Scope Z_scope.

(** A stream that delivers fewer octets than a counter can count. *)
Definition countable (t : TcpStream) : Prop := len (delivered (conn_r (conn t))) < 2 ^ 64.

Definition countable_event (ev : accept_event) : Prop :=
  match ev with Accepted t _ => countable t | AcceptError _ => True end.

Definition countable_connect (c : TcpStream + ErrorKind) : Prop :=
  match c with inl t => countable t | inr _ => True end.

(** Both counters of a direct session have room for all that is to come. *)
Definition direct_room (s : DirectProxySession) : Prop :=
  0 <= d_client_to_remote_bytes s ∧ 0 <= d_remote_to_client_bytes s ∧
  d_client_to_remote_bytes s + len (d_to_remote s) + len (delivered (conn_r (conn (d_client s)))) < 2 ^ 64 ∧
  d_remote_to_client_bytes s + len (d_to_client s) + len (delivered (conn_r (conn (d_remote s)))) < 2 ^ 64.

Section Turn.
Context {Interface Sockets Handle : Type} `{!Smoltcp Interface Sockets Handle}
  `{!SmoltcpView Sockets Handle} `{!SmoltcpLaws Interface Sockets Handle}.

Abbreviation stack := (ProxyNetStack Interface Sockets).
Abbreviation session := (ProxySession Handle).
Abbreviation runtime := (Runtime Interface Sockets Handle).

(** ** The invariant *)

(** At the head of a turn: the link is in order, every session has a socket of
    its own, and the counters have room; [received] bounds what any session has
    counted of its remote side. *)
Record rt_inv (received : Z) (rt : runtime) : Prop := {
  ri_link : link_inv (link rt);
  ri_handles : NoDup (handle <$> sessions rt);
  ri_alive : Forall (λ s, alive (handle s) (the_stack rt)) (sessions rt);
  ri_out : Forall out_headroom (sessions rt);
  ri_in : Forall (λ s, 0 <= remote_to_client_bytes s <= received) (sessions rt);
  ri_direct : Forall direct_room (direct_sessions rt);
  ri_listener : Forall countable_event (listener rt);
  ri_connects : Forall countable_connect (connects rt);
}.

(** The sockets that are alive stay, with what they have sent. *)
Definition socks_kept (n n' : stack) : Prop := ∀ h, alive h n → alive h n' ∧
  sent h (sockets n') = sent h (sockets n) ∧ (send_closed h (sockets n) → send_closed h (sockets n')).

Lemma socks_kept_refl n : socks_kept n n.
Proof. by intros h Hh. Qed.

Lemma socks_kept_trans n1 n2 n3 : socks_kept n1 n2 → socks_kept n2 n3 → socks_kept n1 n3.
Proof.
  intros H1 H2 h Hh. destruct (H1 h Hh) as (A1 & A2 & A3). destruct (H2 h A1) as (B1 & B2 & B3).
  split_and!; [done|congruence|auto].
Qed.

Lemma carries_kept stream s (n n' : stack) : alive (handle s) n → socks_kept n n' → carries stream s n → carries stream s n'.
Proof.
  intros Hl Hk. destruct (Hk _ Hl) as (_ & Hs & Hc). unfold carries, sent_of, closed_of. rewrite Hs. naive_solver.
Qed.

(** A step that leaves the sessions and their sockets alone. *)
Record calm (rt rt' : runtime) : Prop := {
  calm_sessions : sessions rt' = sessions rt;
  calm_direct : direct_sessions rt' = direct_sessions rt;
  calm_listener : listener rt' = listener rt;
  calm_connects : ∃ used, connects rt = used ++ connects rt';
  calm_link : link_inv (link rt) → link_inv (link rt');
  calm_socks : socks_kept (the_stack rt) (the_stack rt');
}.

Lemma calm_refl rt : calm rt rt.
Proof. split; try done; by exists []. Qed.

Lemma calm_trans rt1 rt2 rt3 : calm rt1 rt2 → calm rt2 rt3 → calm rt1 rt3.
Proof.
  intros [A1 A2 A3 (u & A4) A5 A6] [B1 B2 B3 (v & B4) B5 B6]. split; try congruence; auto.
  - exists (u ++ v). by rewrite A4, B4, <- app_assoc.
  - by eapply socks_kept_trans.
Qed.

Lemma spares_calm rt rt' : spares (λ _, True) rt rt' → calm rt rt'.
Proof.
  intros [(A1 & A2 & A3 & A4 & A5 & A6 & A7) Ac Ai Al At]. split; try done.
  - exists []. by rewrite A5.
  - intros h Hh. by apply Al.
Qed.

(** A step of the runtime that changes nothing the relation sees. *)
Lemma calm_quiet rt rt' : sessions rt' = sessions rt → direct_sessions rt' = direct_sessions rt →
  listener rt' = listener rt → connects rt' = connects rt → link rt' = link rt → calm rt rt'.
Proof.
  intros E1 E2 E3 E4 E5. split; try done; [exists []; by rewrite E4|by rewrite E5|].
  unfold the_stack. rewrite E5. apply socks_kept_refl.
Qed.

Lemma calm_inv received rt rt' : calm rt rt' → rt_inv received rt → rt_inv received rt'.
Proof.
  intros [A1 A2 A3 (u & A4) A5 A6] [B1 B2 B3 B4 B5 B6 B7 B8]. split; rewrite ?A1, ?A2, ?A3; auto.
  - eapply Forall_impl; [exact B3|]. intros s Hs. by apply A6.
  - rewrite A4 in B8. apply Forall_app in B8. by destruct B8.
Qed.

(** ** One client *)

Lemma drop_client_calm c rt : calm rt (drop_client c rt).
Proof. by apply calm_quiet. Qed.

Lemma refuse_calm reply c rt : calm rt (refuse reply c rt).
Proof. apply drop_client_calm. Qed.

Lemma prepare_ok f t rt : returns (fst (f t)) →
  ∃ r rt', prepare f t rt = (r, rt') ∧ calm rt rt' ∧ (r = Ok (snd (f t)) ∨ ∃ e, r = Err e).
Proof.
  unfold prepare. destruct (f t) as [[u|e| |] t']; cbn; try done; intros _.
  - eexists _, rt. split; [reflexivity|]. split; [apply calm_refl|]. by left.
  - eexists _, _. split; [reflexivity|]. split; [apply drop_client_calm|]. eauto.
Qed.

Lemma set_options_ok n t : returns (fst (set_options n t)) ∧ conn (snd (set_options n t)) = conn t.
Proof.
  unfold set_options. revert t. induction n as [|n IH]; intros t; cbn; [done|].
  unfold set_option. destruct (option_errors t) as [|[k|] es]; cbn [sbind]; [apply IH|done|].
  exact (IH (t <| option_errors := es |>)).
Qed.

Lemma set_options_prepare n t rt :
  ∃ r rt', prepare (set_options n) t rt = (r, rt') ∧ calm rt rt' ∧
    ((∃ t', r = Ok t' ∧ conn t' = conn t) ∨ ∃ e, r = Err e).
Proof.
  destruct (set_options_ok n t) as [H1 H2]. destruct (prepare_ok _ _ rt H1) as (r & rt' & E & C & Hr).
  exists r, rt'. split; [done|]. split; [done|]. destruct Hr as [->|?]; eauto.
Qed.

Lemma write_success_prepare ip port t rt :
  ∃ r rt', prepare (on_conn (write_success ip port)) t rt = (r, rt') ∧ calm rt rt' ∧
    ((∃ t', r = Ok t' ∧ conn_r (conn t') = conn_r (conn t) ∧ written (conn_w (conn t')) = written (conn_w (conn t)) ++
        [VERSION; REPLY_SUCCEEDED; 0x00; ATYP_IPV4] ++ octets ip ++ u16_to_be port) ∨ ∃ e, r = Err e).
Proof.
  set (reply := [VERSION; REPLY_SUCCEEDED; 0x00; ATYP_IPV4] ++ octets ip ++ u16_to_be port).
  destruct (send_cases reply (conn t)) as [Hr Hw]. unfold prepare, on_conn, write_success. fold reply.
  destruct (send reply (conn t)) as [r c]. cbn [fst snd] in *. destruct Hw as [[-> Hw]|[e ->]].
  - eexists _, rt. split; [reflexivity|]. split; [apply calm_refl|]. left. by eexists.
  - eexists _, _. split; [reflexivity|]. split; [apply drop_client_calm|]. eauto.
Qed.

(** Finding the destination always ends with an answer. *)
Lemma find_destination_ok request servers table rt : table_wf table → link_inv (link rt) →
  ∃ o rt', find_destination request servers table rt = (Ok o, rt') ∧ calm rt rt'.
Proof.
  intros Hwf Hinv. unfold find_destination. destruct (Socks5.target request) as [a|domain].
  { eexists _, rt. split; [reflexivity|apply calm_refl]. }
  destruct (resolve_domain_cached_ok domain servers table rt Hwf Hinv) as (r & rt1 & cache & -> & S & Hr).
  assert (calm rt (rt1 <| dns_cache := cache |>)) as Hc.
  { eapply calm_trans; [by apply spares_calm|]. by apply calm_quiet. }
  destruct r as [a|e| |]; try done; [by eexists _, _|].
  set (rt2 := rt1 <| dns_cache := cache |>) in *. clearbody rt2.
  assert (∃ r rt', resolve_domain_direct domain (Socks5.port request) rt2 = (r, rt') ∧ returns r ∧ calm rt2 rt')
    as (r & rt3 & -> & Hr3 & C3).
  { unfold resolve_domain_direct. assert (∀ last l, returns (first_ipv4 domain last l)) as Hf.
    { intros last l. revert last. induction l as [|[] l IH]; intros last; cbn; [done|done|apply IH]. }
    destruct (lookups rt2) as [|[l|k] rest]; (eexists _, _; split; [reflexivity|]; split; [by try apply Hf|]);
      first [apply calm_refl|by apply calm_quiet]. }
  destruct r; try done; (eexists _, rt3; split; [reflexivity|]); by eapply calm_trans.
Qed.

(** A session of the client that was accepted as [c] from [addr]: the SOCKS5
    handshake succeeded, and what the session carries into the tunnel is what
    the client's stream delivers behind it. *)
Definition opened (c : TcpStream) (addr : SocketAddr) (n : stack) (s : session) : Prop :=
  client_addr s = addr ∧ ∃ request k, read_connect_request (conn c) = (Ok request, k) ∧ carries (delivered (conn_r k)) s n.

(** A direct session of the client that was accepted as [c]: one that relays
    between what the client sends behind its request and the destination that
    was reached as [remote]; the client got the reply first. *)
Definition opened_direct (c : TcpStream) (addr : SocketAddr) (remote : TcpStream) (s : DirectProxySession) : Prop :=
  d_client_addr s = addr ∧ ∃ request k, read_connect_request (conn c) = (Ok request, k) ∧
    relays (written (conn_w (conn remote)) ++ delivered (conn_r k))
      (written (conn_w k) ++ success_reply ++ delivered (conn_r (conn remote))) s.

Definition direct_of (c : TcpStream) (addr : SocketAddr) (reached : list (TcpStream + ErrorKind)) (s : DirectProxySession) : Prop :=
  ∃ remote, inl remote ∈ reached ∧ opened_direct c addr remote s.

(** The connections that were not asked for yet. *)
Definition connects_left (rt rt' : runtime) : Prop := ∃ used, connects rt = used ++ connects rt'.

Lemma connects_left_trans rt1 rt2 rt3 : connects_left rt1 rt2 → connects_left rt2 rt3 → connects_left rt1 rt3.
Proof. intros [u H1] [v H2]. exists (u ++ v). by rewrite H1, H2, app_assoc. Qed.

Lemma direct_of_left c addr rt rt' s : connects_left rt rt' → direct_of c addr (connects rt') s → direct_of c addr (connects rt) s.
Proof. intros [u H] (remote & Hin & Ho). exists remote. split; [|done]. rewrite H, elem_of_app. by right. Qed.

(** What serving a client may do. *)
Record served (received : Z) (c : TcpStream) (addr : SocketAddr) (rt rt' : runtime) : Prop := {
  served_inv : rt_inv received rt';
  served_listener : listener rt' = listener rt;
  served_socks : socks_kept (the_stack rt) (the_stack rt');
  served_sessions : ∃ new, sessions rt' = sessions rt ++ new ∧ Forall (opened c addr (the_stack rt')) new;
  served_connects : connects_left rt rt';
  served_direct : ∃ new, direct_sessions rt' = direct_sessions rt ++ new ∧ Forall (direct_of c addr (connects rt)) new;
}.

Lemma calm_served received c addr rt rt' : rt_inv received rt → calm rt rt' → served received c addr rt rt'.
Proof.
  intros Hi Hc. split; [by eapply calm_inv|by destruct Hc..| |by destruct Hc|]; exists []; rewrite app_nil_r; by destruct Hc.
Qed.

Lemma calm_served_trans received c addr rt1 rt2 rt3 :
  calm rt1 rt2 → served received c addr rt2 rt3 → served received c addr rt1 rt3.
Proof.
  intros [A1 A2 A3 A4 A5 A6] [B1 B2 B3 (new & B4 & B5) B6 (newd & B7 & B8)].
  split; [done|congruence|by eapply socks_kept_trans| |by eapply connects_left_trans|].
  - exists new. by rewrite B4, A1.
  - exists newd. rewrite B7, A2. split; [done|]. eapply Forall_impl; [exact B8|]. intros s. by apply direct_of_left.
Qed.

Lemma consumed_countable (c c' : TcpStream) : consumes (conn c) (conn c') → countable c → countable c'.
Proof. unfold countable. intros (t & ->). len_lia. Qed.

Lemma request_countable (c c' : TcpStream) request :
  read_connect_request (conn c) = (Ok request, conn c') → countable c → countable c'.
Proof.
  intros E. apply consumed_countable. pose proof (read_connect_request_consumes (conn c)) as H. by rewrite E in H.
Qed.

Lemma take_session_id_calm rt : calm rt (take_session_id rt).2.
Proof. by apply calm_quiet. Qed.

(** A session over the tunnel: its socket is new and has sent nothing. *)
Lemma open_session_ok received c0 c addr request destination port rt :
  0 <= received → rt_inv received rt → countable c0 → read_connect_request (conn c0) = (Ok request, conn c) →
  ∃ r rt', open_session c addr destination port rt = (r, rt') ∧ ok_or_err r tt ∧ served received c0 addr rt rt'.
Proof.
  intros Hrec Hi Hc0 Hreq. unfold open_session.
  destruct (add_tcp_socket (the_stack rt)) as [h n] eqn:E. apply add_socket_ok in E as (Hnew & Hl & S1 & Hsent).
  set (rt1 := rt <| link := link rt <| netstack := n |> |>) in *. clearbody rt1.
  destruct (connect_tcp_ok h destination port _ Hl) as (w & n2 & E2 & Ht & Hs2).
  destruct (on_netstack_ok h _ rt1 _ _ E2 Ht) as (rt2 & -> & S2 & Est2 & _ & Ha). specialize (Ha Hl). cbn [sbind].
  assert (calm rt rt2) as C2 by (apply spares_calm; by eapply spares_new).
  destruct w as [u|err].
  2: { destruct (remove_ok h rt2 Ha) as (rt3 & -> & S3 & _). cbn [sbind].
       eexists _, _. split; [reflexivity|]. split; [by left|]. apply calm_served; [done|].
       eapply calm_trans; [|apply refuse_calm]. apply spares_calm. eapply spares_new; [done..|by eapply spares_trans]. }
  pose proof (take_session_id_calm rt2) as C3.
  destruct (take_session_id rt2) as [sid rt3] eqn:E3. cbn [snd] in C3.
  assert (the_stack rt3 = the_stack rt2) as Est3 by (by injection E3 as <- <-).
  destruct (set_options_prepare 3 c rt3) as (r & rt4 & E4 & C4 & Hr). rewrite E4.
  assert (calm rt rt4) as C by (eapply calm_trans; [exact C2|]; by eapply calm_trans).
  destruct Hr as [(c' & -> & Hc')|(e & ->)]; cbn [sbind].
  2: { eexists _, _. split; [reflexivity|]. split; [right; by eexists|]. by apply calm_served. }
  assert (rt4 = rt3) as ->.
  { unfold prepare in E4. destruct (set_options 3 c) as [[] ?]; congruence. }
  eexists _, _. split; [reflexivity|]. split; [by left|].
  eapply (calm_served_trans _ _ _ _ rt3); [done|].
  pose proof (calm_inv received _ _ C Hi) as [I1 I2 I3 I4 I5 I6 I7 I8].
  set (s := {| id := sid; client := c'; handle := h; to_remote := []; to_client := []; socks_replied := false;
               local_closed := false; remote_closed := false; client_to_remote_bytes := 0; remote_to_client_bytes := 0;
               client_addr := addr; target := print_target destination port; close_reason := None |}).
  assert (unread s = delivered (conn_r (conn c))) as Hun by (unfold unread; cbn; by rewrite Hc').
  assert (alive h (the_stack rt3)) as Hal3 by by rewrite Est3.
  split; [|done|apply socks_kept_refl| |by exists []|exists []; by rewrite app_nil_r].
  - split; cbn; try done; rewrite ?fmap_app, ?Forall_app; try (split; [done|]; apply Forall_singleton).
    + apply NoDup_app. split; [done|]. split; [|apply NoDup_singleton]. intros h' Hin Hh'.
      apply list_elem_of_singleton in Hh' as ->. change (handle s) with h in Hin. apply Hnew. apply list_elem_of_fmap in Hin as (s' & Es' & Hin).
      pose proof (ri_alive _ _ Hi) as Hold. rewrite Forall_forall in Hold. rewrite Es'. apply Hold.
      by rewrite <- (calm_sessions _ _ C).
    + done.
    + unfold out_headroom. rewrite Hun. cbn. apply (request_countable _ _ _ Hreq) in Hc0. unfold countable in Hc0. len_lia.
    + cbn. lia.
  - exists [s]. split; [done|]. apply Forall_singleton. split; [done|].
    exists request, (conn c). split; [done|]. rewrite <- Hun. left. unfold sent_of. cbn [to_remote s handle].
    change (the_stack (rt3 <| sessions := sessions rt3 ++ [s] |>)) with (the_stack rt3).
    by rewrite Est3, Est2, Hs2, Hsent.
Qed.

(** A session past the tunnel. *)
Lemma open_direct_session_ok received c0 c addr request destination port rt :
  rt_inv received rt → countable c0 → read_connect_request (conn c0) = (Ok request, conn c) →
  ∃ r rt', open_direct_session c addr destination port rt = (r, rt') ∧ ok_or_err r tt ∧ served received c0 addr rt rt'.
Proof.
  intros Hi Hc0 Hreq. unfold open_direct_session.
  pose proof (take_session_id_calm rt) as C1. destruct (take_session_id rt) as [sid rt1]. cbn [snd] in C1.
  unfold start_direct_session.
  assert (∃ r rt2, connect_timeout rt1 = (r, rt2) ∧ calm rt1 rt2 ∧
    ((∃ t, r = Ok t ∧ inl t ∈ connects rt1) ∨ ∃ e, r = Err e)) as (r & rt2 & -> & C2 & Hr).
  { unfold connect_timeout. destruct (connects rt1) as [|[t|k] rest] eqn:E.
    - eexists _, rt1. split; [reflexivity|]. split; [apply calm_refl|]. right. by eexists.
    - eexists _, _. split; [reflexivity|]. split; [|left; eexists; split; [done|by left]].
      split; try done. exists [inl t]; by rewrite E.
    - eexists _, _. split; [reflexivity|]. split; [|right; by eexists].
      split; try done. exists [inr k]; by rewrite E. }
  pose proof (calm_trans _ _ _ C1 C2) as C12.
  assert (∀ rt3 (e : OpenfortivpnError), calm rt rt3 → ∃ r rt', (Ok (), rt3) = (r, rt') ∧ ok_or_err r () ∧
    served received c0 addr rt rt') as Hquit.
  { intros rt3 _ C. eexists _, _. split; [reflexivity|]. split; [by left|]. by apply calm_served. }
  destruct Hr as [(remote & -> & Hin)|(e & ->)]; cbn [lift sbind].
  2: { apply Hquit; [done|]. eapply calm_trans; [exact C12|]. apply refuse_calm. }
  destruct (write_success_prepare UNSPECIFIED 0 c rt2) as (r & rt3 & -> & C3 & Hr).
  pose proof (calm_trans _ _ _ C12 C3) as C13.
  destruct Hr as [(c1 & -> & Hc1 & Hw1)|(e & ->)]; cbn [sbind]; [|by apply Hquit].
  destruct (set_options_prepare 3 c1 rt3) as (r & rt4 & -> & C4 & Hr).
  pose proof (calm_trans _ _ _ C13 C4) as C14.
  destruct Hr as [(c2 & -> & Hc2)|(e & ->)]; cbn [sbind]; [|by apply Hquit].
  destruct (set_options_prepare 3 remote rt4) as (r & rt5 & -> & C5 & Hr).
  pose proof (calm_trans _ _ _ C14 C5) as C15.
  destruct Hr as [(remote' & -> & Hremote)|(e & ->)]; cbn [sbind]; [|by apply Hquit].
  eexists _, _. split; [reflexivity|]. split; [by left|].
  pose proof (calm_inv received _ _ C15 Hi) as [I1 I2 I3 I4 I5 I6 I7 I8].
  pose proof (ri_connects _ _ (calm_inv received _ _ C1 Hi)) as Hcs. rewrite Forall_forall in Hcs.
  specialize (Hcs _ Hin). cbn in Hcs.
  destruct C15 as [E1 E2 E3 E4 _ E6].
  split; [|done|done|exists []; by rewrite app_nil_r|done|].
  2: { eexists [_]. split; [cbn; by rewrite E2|]. apply Forall_singleton. exists remote. split.
       { destruct (calm_connects _ _ C1) as [used ->]. apply elem_of_app. by right. }
       split; [done|]. exists request, (conn c). split; [done|]. split; right; cbn.
       - by rewrite Hremote, Hc2, Hc1.
       - rewrite Hremote, Hc2, Hw1. by rewrite <- !app_assoc. }
  split; cbn; try done. apply Forall_app. split; [done|]. apply Forall_singleton. split_and!; cbn; try done.
  - rewrite Hc2, Hc1. apply (request_countable _ _ _ Hreq) in Hc0. unfold countable in Hc0. len_lia.
  - rewrite Hremote. unfold countable in Hcs. len_lia.
Qed.

Lemma serve_client_ok received c addr servers table rt :
  table_wf table → 0 <= received → rt_inv received rt → countable c →
  ∃ r rt', serve_client c addr servers table rt = (r, rt') ∧ ok_or_err r tt ∧ served received c addr rt rt'.
Proof.
  intros Hwf Hrec Hi Hc. unfold serve_client.
  destruct (set_options_prepare 4 c rt) as (r & rt1 & -> & C1 & Hr).
  destruct Hr as [(c1 & -> & Hc1)|(e & ->)]; cbn [sbind].
  2: { eexists _, _. split; [reflexivity|]. split; [right; by eexists|]. by apply calm_served. }
  pose proof (read_connect_request_total (conn c1)) as Hret.
  unfold on_conn. rewrite Hc1 in *.
  destruct (read_connect_request (conn c)) as [r k] eqn:Hreq. cbn [fst snd] in *.
  destruct r as [request|e| |]; try done.
  2: { eexists _, _. split; [reflexivity|]. split; [by left|]. apply calm_served; [done|].
       eapply calm_trans; [exact C1|]. apply drop_client_calm. }
  destruct (find_destination_ok request servers table rt1 Hwf) as (o & rt2 & -> & C2).
  { by apply (calm_link _ _ C1), (ri_link received). }
  cbn [sbind]. pose proof (calm_trans _ _ _ C1 C2) as C12. pose proof (calm_inv received _ _ C12 Hi) as Hi2.
  destruct o as [destination|].
  2: { eexists _, _. split; [reflexivity|]. split; [by left|]. apply calm_served; [done|].
       eapply calm_trans; [exact C12|]. apply refuse_calm. }
  destruct (can_route_total table destination Hwf) as (b & ->). cbn [lift sbind].
  set (c2 := c1 <| conn := k |>).
  assert (∃ r rt', (if b then open_session c2 addr destination (Socks5.port request) rt2
      else open_direct_session c2 addr destination (Socks5.port request) rt2) = (r, rt') ∧ ok_or_err r tt ∧
      served received c addr rt2 rt') as (r & rt3 & -> & Hr & Hs).
  { destruct b; [by eapply open_session_ok|by eapply open_direct_session_ok]. }
  exists r, rt3. split; [done|]. split; [done|]. by eapply calm_served_trans.
Qed.

(** A session of one of the clients among [events]. *)
Definition stems (events : list accept_event) (n : stack) (s : session) : Prop :=
  ∃ c addr, Accepted c addr ∈ events ∧ opened c addr n s.

Lemma stems_app_l events events' n s : stems events n s → stems (events' ++ events) n s.
Proof. intros (c & addr & Hin & Ho). exists c, addr. split; [|done]. apply elem_of_app. by right. Qed.

(** A direct session of one of the clients among [events]. *)
Definition direct_stems (events : list accept_event) (reached : list (TcpStream + ErrorKind)) (s : DirectProxySession) : Prop :=
  ∃ c addr, Accepted c addr ∈ events ∧ direct_of c addr reached s.

Lemma direct_stems_left events taken rt rt' s : connects_left rt rt' →
  direct_stems events (connects rt') s → direct_stems (taken ++ events) (connects rt) s.
Proof.
  intros Hl (c & addr & Hin & Ho). exists c, addr. split; [apply elem_of_app; by right|]. by eapply direct_of_left.
Qed.

Lemma opened_follows c addr (n n' : stack) s s' : same_session s s' →
  (∀ stream, carries stream s n → carries stream s' n') → opened c addr n s → opened c addr n' s'.
Proof.
  intros (_ & _ & Ea & _) Hc (E & request & k & Hr & Hs). split; [by rewrite Ea|]. exists request, k. auto.
Qed.

(** The clients of a turn become new sessions, behind the old ones. *)
Lemma accept_loop_ok received events servers table rt :
  table_wf table → 0 <= received → rt_inv received (rt <| listener := events |>) →
  ∃ r rt', accept_loop events servers table rt = (r, rt') ∧ ok_or_err r tt ∧ rt_inv received rt' ∧
    (∃ taken, events = taken ++ listener rt') ∧ socks_kept (the_stack rt) (the_stack rt') ∧ connects_left rt rt' ∧
    (∃ new, sessions rt' = sessions rt ++ new ∧ Forall (stems events (the_stack rt')) new) ∧
    ∃ new, direct_sessions rt' = direct_sessions rt ++ new ∧ Forall (direct_stems events (connects rt)) new.
Proof.
  intros Hwf Hrec. revert rt. induction events as [|ev events IH]; intros rt Hi; cbn [accept_loop].
  { eexists _, _. split; [reflexivity|]. split; [by left|]. split; [done|]. split; [by exists []|].
    split; [apply socks_kept_refl|]. split; [by exists []|]. split; exists []; by rewrite app_nil_r. }
  assert (rt_inv received (rt <| listener := events |>) ∧ countable_event ev) as [Hi' Hev].
  { destruct Hi as [I1 I2 I3 I4 I5 I6 I7 I8]. cbn in I7. apply Forall_cons in I7 as [? ?]. by split. }
  assert (∀ r, ok_or_err r () → ∃ r' rt', (r, rt <| listener := events |>) = (r', rt') ∧ ok_or_err r' () ∧
      rt_inv received rt' ∧ (∃ taken, ev :: events = taken ++ listener rt') ∧
      socks_kept (the_stack rt) (the_stack rt') ∧ connects_left rt rt' ∧
      (∃ new, sessions rt' = sessions rt ++ new ∧ Forall (stems (ev :: events) (the_stack rt')) new) ∧
      ∃ new, direct_sessions rt' = direct_sessions rt ++ new ∧ Forall (direct_stems (ev :: events) (connects rt)) new) as Hstop.
  { intros r Hr. eexists _, _. split; [reflexivity|]. split; [done|]. split; [done|]. split; [by exists [ev]|].
    split; [apply socks_kept_refl|]. split; [by exists []|]. split; exists []; by rewrite app_nil_r. }
  destruct ev as [c addr|k].
  2: { destruct k; try (apply Hstop; right; by eexists). apply Hstop. by left. }
  destruct (serve_client_ok received c addr servers table (rt <| listener := events |>)) as (r & rt1 & -> & Hr & S); [done..|].
  destruct S as [Hi1 Hl1 Hk1 (new1 & Hs1 & Hn1) Hc1 (newd1 & Hd1 & Hnd1)]. cbn [listener] in Hl1.
  destruct Hr as [->|(e & ->)]; cbn [sbind].
  2: { exists (Err e), rt1. split; [done|]. split; [right; by eexists|]. split; [done|].
       split; [exists [Accepted c addr]; by rewrite Hl1|]. split; [done|]. split; [done|]. split.
       - exists new1. split; [done|]. eapply Forall_impl; [exact Hn1|]. intros s Hs. exists c, addr. split; [by left|done].
       - exists newd1. split; [done|]. eapply Forall_impl; [exact Hnd1|]. intros s Hs. exists c, addr. split; [by left|done]. }
  destruct (IH rt1) as (r & rt2 & -> & Hr & Hi2 & (taken & Ht) & Hk2 & Hc2 & (new2 & Hs2 & Hn2) & newd2 & Hd2 & Hnd2).
  { replace (rt1 <| listener := events |>) with rt1; [done|]. destruct rt1. cbn in *. by rewrite Hl1. }
  exists r, rt2. split; [done|]. split; [done|]. split; [done|].
  split; [exists (Accepted c addr :: taken); by rewrite Ht|]. split; [by eapply socks_kept_trans|].
  split; [by eapply connects_left_trans|]. split.
  2: { exists (newd1 ++ newd2). rewrite Hd2, Hd1, app_assoc. split; [done|]. apply Forall_app. split.
       - eapply Forall_impl; [exact Hnd1|]. intros s Hs. exists c, addr. split; [by left|done].
       - eapply Forall_impl; [exact Hnd2|]. intros s. by apply (direct_stems_left _ [_]). }
  exists (new1 ++ new2). rewrite Hs2, Hs1, app_assoc. split; [done|]. apply Forall_app. split.
  - rewrite Forall_forall in Hn1 |- *. intros s Hin. exists c, addr. split; [by left|].
    eapply opened_follows, (Hn1 s Hin); [done|]. intros stream Hc. eapply carries_kept; [|exact Hk2|exact Hc]. pose proof (ri_alive _ _ Hi1) as Hal. rewrite Forall_forall in Hal.
    apply Hal. rewrite Hs1. apply elem_of_app. by right.
  - eapply Forall_impl; [exact Hn2|]. intros s. apply (stems_app_l _ [_]).
Qed.

(** ** The other steps of a turn *)

(** The direct sessions behind a step are among those before it, and relay what
    they relayed. *)
Definition relayed (l l' : list DirectProxySession) : Prop := ∀ s', s' ∈ l' → ∃ s, s ∈ l ∧
  d_client_addr s' = d_client_addr s ∧ ∀ out back, relays out back s → relays out back s'.

Lemma relayed_sub l l' : l' ⊆ l → relayed l l'.
Proof. intros H s Hin. exists s. split; [by apply H|done]. Qed.

Lemma relayed_trans l1 l2 l3 : relayed l1 l2 → relayed l2 l3 → relayed l1 l3.
Proof.
  intros H1 H2 s3 (s2 & (s1 & Hin1 & E1 & R1)%H1 & E2 & R2)%H2. exists s1. split; [done|]. split; [congruence|auto].
Qed.

Lemma relayed_stems l l' events reached : relayed l l' → Forall (direct_stems events reached) l → Forall (direct_stems events reached) l'.
Proof.
  intros H. rewrite !Forall_forall. intros Hs s' (s & Hin & E & Hr)%H.
  destruct (Hs s Hin) as (c & addr & Hacc & remote & Hre & Ea & request & k & Hreq & Hrel).
  exists c, addr. split; [done|]. exists remote. split; [done|]. split; [by rewrite E|]. exists request, k. auto.
Qed.

(** The sessions behind a step are among those before it, and carry what they
    carried. *)
Definition follows (rt rt' : runtime) : Prop := relayed (direct_sessions rt) (direct_sessions rt') ∧
  ∀ s', s' ∈ sessions rt' → ∃ s, s ∈ sessions rt ∧ same_session s s' ∧
    ∀ stream, carries stream s (the_stack rt) → carries stream s' (the_stack rt').

Lemma follows_trans rt1 rt2 rt3 : follows rt1 rt2 → follows rt2 rt3 → follows rt1 rt3.
Proof.
  intros [D1 H1] [D2 H2]. split; [by eapply relayed_trans|]. intros s3 Hin3. destruct (H2 s3 Hin3) as (s2 & Hin2 & (E1 & E2 & E3 & E4) & C2).
  destruct (H1 s2 Hin2) as (s1 & Hin1 & (F1 & F2 & F3 & F4) & C1). exists s1. split; [done|].
  split; [split_and!; congruence|auto].
Qed.

Lemma calm_follows received rt rt' : rt_inv received rt → calm rt rt' → follows rt rt'.
Proof.
  intros Hi Hc. split; [apply relayed_sub; by rewrite (calm_direct _ _ Hc)|].
  intros s Hin. rewrite (calm_sessions _ _ Hc) in Hin. exists s. split; [done|]. split; [done|].
  intros stream. apply carries_kept; [|by destruct Hc]. pose proof (ri_alive _ _ Hi) as Hal. rewrite Forall_forall in Hal. auto.
Qed.

(** A step that keeps the invariant, if it goes well. *)
Definition good (received received' : Z) (rt : runtime) (x : result unit * runtime) : Prop :=
  ok_or_err (fst x) tt ∧ (listener (snd x) = listener rt ∧ connects_left rt (snd x)) ∧
  (fst x = Ok tt → rt_inv received' (snd x) ∧ follows rt (snd x)).

Lemma calm_good received rt r rt' : rt_inv received rt → ok_or_err r tt → calm rt rt' → good received received rt (r, rt').
Proof.
  intros Hi Hr Hc. split; [done|]. split; [split; by destruct Hc|]. intros _. split; [by eapply calm_inv|by eapply calm_follows].
Qed.

Lemma good_bind received1 received2 received3 rt x (f : unit → runtime → result unit * runtime) :
  good received1 received2 rt x →
  (∀ rt', rt_inv received2 rt' → good received2 received3 rt' (f tt rt')) → good received1 received3 rt (sbind x f).
Proof.
  intros (Hr & Hl & Hx) Hf. destruct x as [r rt']. cbn [fst snd] in *. destruct Hr as [->|(e & ->)]; cbn [sbind].
  - destruct (Hx eq_refl) as [Hi Ha]. destruct (Hf rt' Hi) as (Hr' & [Hl' Hc'] & Hx'). split; [done|].
    split; [split; [by rewrite Hl'; destruct Hl|destruct Hl; by eapply connects_left_trans]|].
    intros E. destruct (Hx' E). split; [done|]. by eapply follows_trans.
  - split; [right; by eexists|done].
Qed.

(** A pass over the sessions. *)
Lemma session_pass_good received received' (f : pump → result unit * pump) (Pre : session → stack → Prop)
    (Q : pump → pump → Prop) rt :
  rt_inv received rt → Forall (λ s, Pre s (the_stack rt)) (sessions rt) →
  (∀ s (n n' : stack), same_at (handle s) (sockets n) (sockets n') → Pre s n → Pre s n') →
  (∀ p, alive_pump p → Pre (p_session p) (p_stack p) →
    ∃ r p', f p = (r, p') ∧ ok_or_err r tt ∧ same_session (p_session p) (p_session p') ∧
      touches (handle (p_session p)) (p_stack p) (p_stack p') ∧ (r = Ok tt → Q p p')) →
  (∀ p p', Q p p' → (out_headroom (p_session p) → out_headroom (p_session p')) ∧
    (0 <= remote_to_client_bytes (p_session p) <= received → 0 <= remote_to_client_bytes (p_session p') <= received') ∧
    ∀ stream, carries stream (p_session p) (p_stack p) → carries stream (p_session p') (p_stack p')) →
  good received received' rt (on_sessions (for_sessions f) rt).
Proof.
  intros Hi Hpre Hstable Hf HQ. pose proof Hi as [I1 I2 I3 I4 I5 I6 I7 I8].
  destruct (for_sessions_ok f Pre Q Hstable Hf (sessions rt) (the_stack rt) I2 I3 Hpre)
    as (r & l & n & E & Hr & _ & Hal & _ & Hall).
  unfold on_sessions. rewrite E. split; [done|]. split; [by split; [|exists []]|]. cbn [fst snd]. intros ->. specialize (Hall eq_refl).
  assert (handle <$> l = handle <$> sessions rt) as Hh.
  { clear -Hall. induction Hall as [|s s' l l' [(_ & E & _) _] _ IH]; [done|]. cbn. by rewrite IH, E. }
  assert (∀ s', s' ∈ l → ∃ s n1 n2, s ∈ sessions rt ∧ same_session s s' ∧
    same_at (handle s) (sockets (the_stack rt)) (sockets n1) ∧ same_at (handle s) (sockets n2) (sockets n) ∧
    Q {| p_session := s; p_stack := n1 |} {| p_session := s'; p_stack := n2 |}) as Hfrom.
  { clear -Hall. induction Hall as [|s s' l l' (Hs & n1 & n2 & H1 & H2 & H3) _ IH]; intros t Hin; [by apply elem_of_nil in Hin|].
    apply elem_of_cons in Hin as [->|Hin]; [exists s, n1, n2; split_and!; try done; by left|].
    destruct (IH t Hin) as (s0 & m1 & m2 & ? & ?). exists s0, m1, m2. split; [by right|done]. }
  split.
  - split; cbn; try done; [by rewrite Hh| | |].
    + apply Forall_forall. intros s' Hin. apply Hal. rewrite Forall_forall in I3.
      destruct (Hfrom s' Hin) as (s & _ & _ & Hs & (_ & -> & _) & _). by apply I3.
    + apply Forall_forall. intros s' Hin. rewrite Forall_forall in I4.
      destruct (Hfrom s' Hin) as (s & n1 & n2 & Hs & _ & _ & _ & (H & _ & _)%HQ). by apply H, I4.
    + apply Forall_forall. intros s' Hin. rewrite Forall_forall in I5.
      destruct (Hfrom s' Hin) as (s & n1 & n2 & Hs & _ & _ & _ & (_ & H & _)%HQ). by apply H, I5.
  - split; [by apply relayed_sub|]. intros s' Hin. destruct (Hfrom s' Hin) as (s & n1 & n2 & Hs & Hsame & (A1 & _ & A3) & (B1 & _ & B3) & (_ & _ & H)%HQ).
    exists s. split; [done|]. split; [done|]. intros stream Hc. destruct Hsame as (_ & Eh & _).
    assert (carries stream s' n2) as Hc2.
    { apply H. revert Hc. unfold carries, sent_of, closed_of. cbn [p_session p_stack]. rewrite A1. naive_solver. }
    revert Hc2. unfold carries, sent_of, closed_of, the_stack. cbn. rewrite Eh, B1. naive_solver.
Qed.

Lemma pump_local_to_tcp_good received rt : rt_inv received rt →
  good received received rt (on_sessions pump_local_to_tcp rt).
Proof.
  intros Hi. apply (session_pass_good _ _ _ (λ s _, out_headroom s) sends); [done|by destruct Hi|done| |].
  - intros p Hl Hp. destruct (pump_out_ok p Hl Hp) as (p' & -> & S & _). exists (Ok tt), p'. split; [done|].
    split; [by left|]. split; [by destruct S|]. split; [by destruct S|done].
  - intros p p' [A1 A2 A3 A4 (B1 & B2 & B3 & B4 & B5 & B6 & B7) A6 A7 A8]. split; [|split; [by rewrite B2|done]].
    unfold out_headroom. lia.
Qed.

Lemma pump_tcp_to_local_good received rt : rt_inv received rt → received + DEFAULT_TCP_BUFFER_SIZE < 2 ^ 64 →
  good received (received + DEFAULT_TCP_BUFFER_SIZE) rt (on_sessions pump_tcp_to_local rt).
Proof.
  intros Hi Hrec.
  apply (session_pass_good _ _ _ (λ s _, 0 <= remote_to_client_bytes s <= received)
    (λ p p', receives p p' ∧ delivers p p' ∧ alive_pump p)); [done|by destruct Hi|done| |].
  - intros p Hl Hp. destruct (pump_in_ok p Hl) as (r & p' & -> & Hr & R & D).
    { unfold in_headroom. pose proof (pending_bounded (handle (p_session p)) (sockets (p_stack p)) Hl). lia. }
    exists r, p'. split; [done|]. split; [done|]. split; [by destruct R|]. split; [by destruct R|].
    intros E. split_and!; auto.
  - intros p p' (R & (reply & out & lost & c & _ & _ & _ & D4 & _) & Hl).
    destruct R as [A1 A2 A3 A4 (B1 & B2 & B3 & B4 & B5 & B6 & B7)].
    pose proof (pending_bounded (handle (p_session p)) (sockets (p_stack p)) Hl) as Hb.
    unfold pending_of in D4. unfold carries, out_headroom, unread. rewrite D4, B1, B2, A3, B5. split; [done|]. split; [len_lia|].
    intros stream [?|[? ?]]; [by left|right; auto].
Qed.

Lemma pump_direct_room s : direct_room s → ∃ s', pump_direct s = (Ok tt, s') ∧ direct_room s' ∧
  d_client_addr s' = d_client_addr s ∧ ∀ out back, relays out back s → relays out back s'.
Proof.
  intros (H1 & H2 & H3 & H4). pose proof (len_nonneg (delivered (conn_r (conn (d_client s))))).
  pose proof (len_nonneg (delivered (conn_r (conn (d_remote s))))).
  assert (direct_headroom s) as Hroom by (unfold direct_headroom; lia).
  destruct (pump_direct_ok s Hroom) as (s' & E & (_ & _ & Ha) & (g1 & o1 & l1 & A1 & _ & A2 & A3 & _) & (g2 & o2 & l2 & B1 & _ & B2 & B3 & _)).
  exists s'. split; [done|]. split; [apply (f_equal len) in A1, A2, B1, B2; unfold direct_room; len_lia|].
  split; [done|]. intros out back. by apply pump_direct_keeps_relaying.
Qed.

Lemma pump_direct_sessions_room l : Forall direct_room l →
  ∃ l', pump_direct_sessions l = (Ok tt, l') ∧ Forall direct_room l' ∧ relayed l l'.
Proof.
  induction 1 as [|s l Hs _ (l' & IH & Hl' & Hr)]; cbn [pump_direct_sessions]; [by exists []; split_and!; [| |apply relayed_sub]|].
  destruct (pump_direct_room s Hs) as (s' & E & Hs' & Ha & Hr'). rewrite E, IH. exists (s' :: l'). rewrite Forall_cons.
  split; [done|]. split; [done|]. intros t [->|Hin]%elem_of_cons; [exists s; split; [by left|done]|].
  destruct (Hr t Hin) as (t0 & ? & ?). exists t0. split; [by right|done].
Qed.

Lemma cleanup_direct_sessions_sublist l : sublist (cleanup_direct_sessions l) l.
Proof.
  induction l as [|s l IH]; cbn [cleanup_direct_sessions]; [done|].
  destruct (direct_removable s); [by apply sublist_cons|by apply sublist_skip].
Qed.

Lemma on_direct_good received f rt l : rt_inv received rt → f (direct_sessions rt) = (Ok tt, l) →
  Forall direct_room l → relayed (direct_sessions rt) l → good received received rt (on_direct f rt).
Proof.
  intros [I1 I2 I3 I4 I5 I6 I7 I8] E Hl Hr. unfold on_direct. rewrite E. split; [by left|]. split; [by split; [|exists []]|].
  intros _. split; [by split|]. split; [done|]. intros s Hin. by exists s.
Qed.

Lemma cleanup_sessions_good received rt : rt_inv received rt → good received received rt (on_sessions cleanup_sessions rt).
Proof.
  intros Hi. pose proof Hi as [I1 I2 I3 I4 I5 I6 I7 I8].
  destruct (cleanup_sessions_ok (sessions rt) (the_stack rt) I2 I3) as (l & n & E & _ & Hal & Hsame & Hsub & Hkept).
  unfold on_sessions. rewrite E. split; [by left|]. split; [by split; [|exists []]|]. intros _. cbn [fst snd].
  assert (∀ s', s' ∈ l → alive (handle s') n) as Hlive.
  { intros s' Hin. destruct (Hkept s' Hin) as (s & Hs & ((_ & Eh & _) & _)%kept_fields).
    apply Hal. rewrite Forall_forall in I3. split; [rewrite Eh; by apply I3|].
    intros _. by apply list_elem_of_fmap_2. }
  rewrite Forall_forall in I4, I5. split.
  - split; cbn; try done; [by eapply sublist_NoDup|..]; apply Forall_forall; intros s' Hin.
    + by apply Hlive.
    + destruct (Hkept s' Hin) as (s & Hs & (_ & E1 & E2 & _ & _ & E3 & _)%kept_fields).
      unfold out_headroom, unread. rewrite E1, E2, E3. by apply I4.
    + destruct (Hkept s' Hin) as (s & Hs & (_ & _ & _ & _ & _ & _ & E3 & _)%kept_fields). rewrite E3. by apply I5.
  - split; [by apply relayed_sub|]. intros s' Hin. destruct (Hkept s' Hin) as (s & Hs & (Esame & E1 & E2 & _)%kept_fields).
    exists s. split; [done|]. split; [done|]. intros stream. destruct Esame as (_ & Eh & _).
    destruct (Hsame (handle s')) as (S1 & _ & S3); [by apply Hlive|].
    unfold carries, sent_of, closed_of, unread, the_stack in *. cbn. rewrite E1, E2, S1, Eh. rewrite Eh in S3. naive_solver.
Qed.

Lemma read_fortinet_good received rt : rt_inv received rt → good received received rt (on_link read_fortinet_packets rt).
Proof.
  intros Hi. destruct (read_fortinet_packets_ok (link rt)) as (r & l & E & Hr & Hk & _); [by destruct Hi|].
  destruct (on_link_ok (λ _, True) _ rt _ _ E Hk) as (rt' & -> & S & _). apply calm_good; [done..|by apply spares_calm].
Qed.

Lemma drain_good received rt : rt_inv received rt → good received received rt (on_link drain_netstack_to_fortinet rt).
Proof.
  intros Hi. destruct (drain_ok (link rt)) as (r & l & E & Hr & Hk & _).
  destruct (on_link_ok (λ _, True) _ rt _ _ E Hk) as (rt' & -> & S & _). apply calm_good; [done..|by apply spares_calm].
Qed.

Lemma calm_step_good received1 received2 rt rt' x : rt_inv received1 rt → calm rt rt' → good received1 received2 rt' x →
  good received1 received2 rt x.
Proof.
  intros Hi Hc (Hr & Hl & Hx). split; [done|]. split; [destruct Hl as [Hl Hcl]; split; [by rewrite Hl, (calm_listener _ _ Hc)|]|].
  { eapply connects_left_trans, Hcl. by destruct Hc. }
  intros E. destruct (Hx E) as [? ?]. split; [done|].
  eapply follows_trans; [by eapply calm_follows|done].
Qed.

(** Everything in a turn behind the clients. *)
Lemma turn_rest_good received rt : rt_inv received rt → received + DEFAULT_TCP_BUFFER_SIZE < 2 ^ 64 →
  good received (received + DEFAULT_TCP_BUFFER_SIZE) rt
    (let! _ & rt := on_link read_fortinet_packets rt in
     let! _ & rt := on_sessions pump_local_to_tcp rt in
     let rt := poll_netstack rt in
     let! _ & rt := on_sessions pump_tcp_to_local rt in
     let! _ & rt := on_direct pump_direct_sessions rt in
     let! _ & rt := on_link drain_netstack_to_fortinet rt in
     let! _ & rt := on_sessions cleanup_sessions rt in
     let! _ & rt := on_direct (λ l, (Ok tt, cleanup_direct_sessions l)) rt in
     (Ok tt, sleep_loop rt)).
Proof.
  intros Hi Hrec. eapply good_bind; [by apply read_fortinet_good|]. intros rt1 H1.
  eapply good_bind; [by apply pump_local_to_tcp_good|]. intros rt2 H2.
  assert (calm rt2 (poll_netstack rt2)) as C by (apply spares_calm, poll_netstack_ok).
  cbv zeta. eapply calm_step_good; [exact H2|exact C|]. pose proof (calm_inv _ _ _ C H2) as H2'.
  eapply good_bind; [by apply pump_tcp_to_local_good|]. intros rt3 H3.
  destruct (pump_direct_sessions_room _ (ri_direct _ _ H3)) as (l & E & Hl & Hrel).
  eapply good_bind; [by eapply on_direct_good|]. intros rt4 H4.
  eapply good_bind; [by apply drain_good|]. intros rt5 H5.
  eapply good_bind; [by apply cleanup_sessions_good|]. intros rt6 H6.
  eapply good_bind.
  { pose proof (sublist_subseteq _ _ (cleanup_direct_sessions_sublist (direct_sessions rt6))) as Hsub.
    eapply on_direct_good; [done|reflexivity| |by apply relayed_sub]. rewrite Forall_forall. intros s Hin.
    pose proof (ri_direct _ _ H6) as Hd. rewrite Forall_forall in Hd. by apply Hd, Hsub. }
  intros rt7 H7. apply calm_good; [done|by left|]. apply spares_calm, sleep_loop_ok.
Qed.

(** A whole turn. *)
Lemma turn_ok received servers table rt :
  table_wf table → 0 <= received → received + DEFAULT_TCP_BUFFER_SIZE < 2 ^ 64 → rt_inv received rt →
  ∃ r rt', turn servers table rt = (r, rt') ∧ ok_or_err r tt ∧
    (r = Ok tt → rt_inv (received + DEFAULT_TCP_BUFFER_SIZE) rt' ∧ (∃ taken, listener rt = taken ++ listener rt') ∧
      connects_left rt rt' ∧
      (∃ l, relayed (direct_sessions rt ++ l) (direct_sessions rt') ∧ Forall (direct_stems (listener rt) (connects rt)) l) ∧
      ∀ s', s' ∈ sessions rt' →
        (∃ s, s ∈ sessions rt ∧ same_session s s' ∧
          ∀ stream, carries stream s (the_stack rt) → carries stream s' (the_stack rt')) ∨
        stems (listener rt) (the_stack rt') s').
Proof.
  intros Hwf Hrec Hroom Hi. unfold turn, accept_ready_clients.
  destruct (accept_loop_ok received (listener rt) servers table rt Hwf Hrec) as (r1 & rt1 & -> & Hr1 & Hi1 & Ht1 & Hk1 & Hc1 & (new & Hs1 & Hnew) & newd & Hd1 & Hnewd).
  { by destruct rt. }
  destruct Hr1 as [->|(e & ->)]; cbn [sbind].
  2: { eexists _, _. split; [reflexivity|]. split; [right; by eexists|done]. }
  pose proof (turn_rest_good received rt1 Hi1 Hroom) as (Hr & [Hl Hcl] & Hx). destruct (sbind _ _) as [r rt']. cbn [fst snd] in *.
  exists r, rt'. split; [done|]. split; [done|]. intros ->. destruct (Hx eq_refl) as [Hi' [Hrel Hf]]. split; [done|].
  split; [by rewrite Hl|]. split; [by eapply connects_left_trans|]. split; [exists newd; by rewrite <- Hd1|]. intros s' Hin. destruct (Hf s' Hin) as (s & Hs & Hsame & Hc). rewrite Hs1, elem_of_app in Hs. destruct Hs as [Hs|Hs].
  - left. exists s. split; [done|]. split; [done|]. intros stream Hst. apply Hc.
    eapply carries_kept; [|exact Hk1|done]. pose proof (ri_alive _ _ Hi) as Hal. rewrite Forall_forall in Hal. by apply Hal.
  - right. rewrite Forall_forall in Hnew. destruct (Hnew s Hs) as (c & addr & Hacc & Ho).
    exists c, addr. split; [done|]. by eapply opened_follows.
Qed.

(** ** The whole run *)

(** Handles can be told apart ([SocketHandle] is [Eq]). *)
Context `{!EqDecision Handle}.

(** Closing all sessions leaves what they have sent, and ends their sending. *)
Lemma close_sessions_ok l n : Forall (λ s : session, alive (handle s) n) l →
  ∃ n', close_sessions l n = (Ok tt, n') ∧ socks_kept n n' ∧ Forall (λ s, closed_of s n') l.
Proof.
  revert n. induction l as [|s l IH]; intros n.
  { intros _. exists n. split; [done|]. split; [apply socks_kept_refl|done]. }
  intros [Hs Hl]%Forall_cons. cbn [close_sessions].
  destruct (tcp_close_ok _ _ Hs) as (n1 & -> & Ht & (S1 & _ & S3) & Hcl). cbn [sbind].
  assert (socks_kept n n1) as Hk.
  { intros h Hh. split; [by apply (touches_alive _ _ _ _ Ht)|]. destruct (decide (h = handle s)) as [->|Hne]; [done|].
    destruct Ht as (_ & _ & Ho). by destruct (Ho h Hne Hh) as (? & _ & ?). }
  destruct (IH n1) as (n' & E & Hk' & Hcl').
  { eapply Forall_impl; [exact Hl|]. intros s' Hs'. by apply Hk. }
  exists n'. split; [done|]. split; [by eapply socks_kept_trans|]. constructor; [|done]. unfold closed_of.
  apply (Hk' (handle s)); [by apply Hk|done].
Qed.

(** What is behind the loop when it was stopped: the same sessions, with what
    they have sent, and closed. *)
Definition wound_up (rt rt' : runtime) : Prop :=
  sessions rt' = sessions rt ∧ listener rt' = listener rt ∧ connects rt' = connects rt ∧
  direct_sessions rt' = map shut_direct (direct_sessions rt) ∧ socks_kept (the_stack rt) (the_stack rt') ∧
  Forall (λ s, closed_of s (the_stack rt')) (sessions rt').

Lemma finish_ok received rt : rt_inv received rt →
  ∃ r rt', finish rt = (r, rt') ∧ ok_or_err r tt ∧ wound_up rt rt'.
Proof.
  intros Hi. unfold finish. destruct (close_sessions_ok (sessions rt) (the_stack rt)) as (n & E & Hk & Hc); [by destruct Hi|].
  unfold on_netstack. unfold the_stack in E. rewrite E. cbn [sbind]. unfold on_link.
  match goal with |- context [drain_netstack_to_fortinet ?l] => destruct (drain_ok l) as (r & l' & -> & Hr & Hl & _) end.
  eexists _, _. split; [reflexivity|]. split; [done|]. apply kept_sockets in Hl. cbn in Hl.
  assert (socks_kept n (netstack l')) as Hk'.
  { intros h. unfold alive. by rewrite Hl. }
  split; [done|]. split; [done|]. split; [done|]. split; [done|]. split; [by eapply socks_kept_trans|]. cbn.
  eapply Forall_impl; [exact Hc|].
  intros s. unfold closed_of, the_stack. cbn. by rewrite Hl.
Qed.

(** How a run may end: it is over, or it goes on because nobody stopped it. *)
Definition run_outcome (stops : list bool) (r : result unit) : Prop :=
  match r with Ok _ | Err _ => True | Diverge => true ∉ stops | Panic => False end.

Lemma run_loop_ok stops servers table received rt :
  table_wf table → 0 <= received → received + len stops * DEFAULT_TCP_BUFFER_SIZE < 2 ^ 64 → rt_inv received rt →
  run_outcome stops (fst (run_loop stops servers table rt)).
Proof.
  intros Hwf. revert received rt. induction stops as [|[] stops IH]; intros received rt Hrec Hroom Hi; cbn [run_loop].
  - cbn. by intros ?%elem_of_nil.
  - destruct (finish_ok received rt Hi) as (r & rt' & -> & [->|(e & ->)] & _); done.
  - rewrite len_cons in Hroom. pose proof (len_nonneg stops). unfold DEFAULT_TCP_BUFFER_SIZE in *.
    destruct (turn_ok received servers table rt Hwf Hrec) as (r & rt' & -> & Hr & Hx); [unfold DEFAULT_TCP_BUFFER_SIZE; lia|done|].
    destruct Hr as [->|(e & ->)]; cbn [sbind]; [|done]. destruct (Hx eq_refl) as [Hi' _].
    specialize (IH (received + 256 * 1024) rt' ltac:(lia) ltac:(lia) Hi'). unfold run_outcome in *.
    case_match; try done. rewrite not_elem_of_cons. by split.
Qed.

Lemma shut_relayed l : relayed l (map shut_direct l).
Proof. intros s (s0 & -> & Hin)%list_elem_of_fmap. exists s0. split; [done|]. split; [done|]. by intros out back. Qed.

(** What may be said of every session when a run without an error is over. *)
Lemma run_loop_stems stops servers table received rt taken used :
  table_wf table → 0 <= received → received + len stops * DEFAULT_TCP_BUFFER_SIZE < 2 ^ 64 → rt_inv received rt →
  Forall (stems (taken ++ listener rt) (the_stack rt)) (sessions rt) →
  Forall (direct_stems (taken ++ listener rt) (used ++ connects rt)) (direct_sessions rt) →
  let '(r, rt') := run_loop stops servers table rt in
  (r = Ok tt ∨ r = Diverge → Forall (stems (taken ++ listener rt) (the_stack rt')) (sessions rt') ∧
    Forall (direct_stems (taken ++ listener rt) (used ++ connects rt)) (direct_sessions rt')) ∧
  (r = Ok tt → Forall (λ s, closed_of s (the_stack rt')) (sessions rt')).
Proof.
  intros Hwf. revert received rt taken used.
  induction stops as [|[] stops IH]; intros received rt taken used Hrec Hroom Hi Hs Hd; cbn [run_loop]; [done|..].
  - destruct (finish_ok received rt Hi) as (r & rt' & -> & Hr & Es & El & Ec & Ed & Hk & Hc). split; [|done]. intros _.
    split; [|rewrite Ed; by eapply relayed_stems; [apply shut_relayed|]]. rewrite Es. pose proof (ri_alive _ _ Hi) as Ha. rewrite Forall_forall in Hs, Ha |- *. intros s Hin.
    destruct (Hs s Hin) as (c & addr & Hacc & Ho). exists c, addr. split; [done|].
    eapply opened_follows, Ho; [done|]. intros stream. by apply carries_kept; [apply Ha|].
  - rewrite len_cons in Hroom. pose proof (len_nonneg stops). unfold DEFAULT_TCP_BUFFER_SIZE in *.
    destruct (turn_ok received servers table rt Hwf Hrec) as (r & rt' & -> & Hr & Hx); [unfold DEFAULT_TCP_BUFFER_SIZE; lia|done|].
    destruct Hr as [->|(e & ->)]; cbn [sbind]; [|by split; [intros [|]|]].
    destruct (Hx eq_refl) as (Hi' & (more & El) & [reached Ec] & (new & Hrel & Hnd) & Hfrom).
    specialize (IH (received + 256 * 1024) rt' (taken ++ more) (used ++ reached) ltac:(lia) ltac:(lia) Hi').
    rewrite <- !app_assoc, <- El, <- Ec in IH. apply IH; clear IH.
    2: { eapply relayed_stems; [exact Hrel|]. apply Forall_app. split; [done|]. eapply Forall_impl; [exact Hnd|].
         intros s (c & addr & Hin & remote & Hre & Ho). exists c, addr. split; [apply elem_of_app; by right|].
         exists remote. split; [apply elem_of_app; by right|done]. }
    rewrite Forall_forall in Hs |- *. intros s' Hin.
    destruct (Hfrom s' Hin) as [(s & Hs0 & Hsame & Hc)|Hnew]; [|by apply stems_app_l].
    destruct (Hs s Hs0) as (c & addr & Hacc & Ho). exists c, addr. split; [done|]. by eapply opened_follows.
Qed.

Lemma new_stack_ok ip peer t : ip ≠ UNSPECIFIED →
  if is_unicast ip then ∃ n : stack, NetStack.new ip peer t = Ok n else (NetStack.new ip peer t : result stack) = Panic.
Proof.
  intros Hne. unfold NetStack.new. destruct (is_unicast ip) eqn:Eu.
  - destruct (push_addr_law (random_seed ip) (mtu (new_device DEFAULT_PROXY_MTU)) t ip Eu) as [i1 E1].
    rewrite E1. cbn [NetStack.unwrap bind].
    destruct (add_route_law _ _ _ _ _ (default ip peer) E1) as [i2 E2]. rewrite E2. by eexists.
  - by rewrite push_addr_panics.
Qed.

(** The address of the link cannot be one of an interface. *)
Definition unusable (ppp : PppEngine) : Prop := ∃ ip, local_ip ppp = Some ip ∧ is_unicast ip = false.

(** The state before the first turn. *)
Lemma start_runtime_ok transport ppp timeouts listening connects lookups started c :
  engine_inv ppp → is_bytes (unconsumed transport) → returns timeouts → returns listening →
  (∀ events, listening = Ok events → Forall countable_event events) → Forall countable_connect connects →
  match start_runtime transport ppp timeouts listening connects lookups started c : result runtime with
  | Ok rt => is_Some (local_ip ppp) ∧ rt_inv 0 rt ∧ sessions rt = [] ∧ direct_sessions rt = []
  | Err _ => True
  | Panic => unusable ppp
  | Diverge => False
  end ∧ (unusable ppp → (start_runtime transport ppp timeouts listening connects lookups started c : result runtime) = Panic).
Proof.
  intros He Hb Ht Hbind Hev Hc. unfold start_runtime, unusable. destruct (local_ip ppp) as [ip|] eqn:Eip; cbn [ok_or bind].
  2: { split; [done|]. by intros (? & ? & _). }
  destruct (match started with Some start => _ | None => _ end) as [start c1]. destruct (instant_now c1) as [t c2].
  pose proof (new_stack_ok ip (peer_ip ppp) (t - start) (proj1 (inv_local _ He ip Eip))) as Hn.
  destruct (is_unicast ip) eqn:Eu; [|rewrite Hn; split; [by exists ip|done]].
  assert (¬ ∃ ip0, Some ip = Some ip0 ∧ is_unicast ip0 = false) as Hok by (intros (? & [= <-] & ?); congruence).
  split; [|by intros Hx]. clear Hok. destruct Hn as (n & ->). cbn [bind].
  destruct timeouts as [u|e| |]; try done. destruct listening as [events|e| |]; try done. cbn [bind].
  split; [done|]. split; [|done]. split; cbn; try done; [apply NoDup_nil_2|by apply Hev].
Qed.

Lemma run_ok config vpn_config table transport ppp timeouts listening connects lookups started c stops servers :
  from_config config vpn_config = Ok table → reachable ppp → is_bytes (unconsumed transport) →
  returns timeouts → returns listening → (∀ events, listening = Ok events → Forall countable_event events) →
  Forall countable_connect connects → len stops * DEFAULT_TCP_BUFFER_SIZE < 2 ^ 64 →
  let r := run (Handle:=Handle) transport ppp timeouts listening connects lookups started c stops table servers in
  match fst r with
  | Ok _ => is_Some (local_ip ppp) ∧ true ∈ stops
  | Err _ => True
  | Diverge => true ∉ stops
  | Panic => unusable ppp
  end ∧ (local_ip ppp = None → fst r = Err (Pppd "proxy runtime requires an opened PPP link")) ∧
  (unusable ppp → fst r = Panic).
Proof.
  intros Ht%from_config_wf He%reachable_inv Hb Htm Hl Hev Hc Hlen. unfold run.
  pose proof (start_runtime_ok transport ppp timeouts listening connects lookups started c He Hb Htm Hl Hev Hc) as [Hs Hun].
  assert (local_ip ppp = None → (start_runtime transport ppp timeouts listening connects lookups started c : result runtime) =
    Err (Pppd "proxy runtime requires an opened PPP link")) as Hnone.
  { unfold start_runtime. by intros ->. }
  destruct (start_runtime _ _ _ _ _ _ _ _) as [rt|e| |]; try done; cbn [fst].
  2: { split; [done|]. split; [|by intros E%Hun]. intros E. specialize (Hnone E). by injection Hnone as ->. }
  2: { split; [done|]. split; [|done]. intros E. by specialize (Hnone E). }
  destruct Hs as (Hip & Hi & _). split; [|split; [intros E; by specialize (Hnone E)|by intros E%Hun]].
  pose proof (run_loop_ok stops servers table 0 rt Ht ltac:(lia) ltac:(lia) Hi) as Hr.
  assert (∀ stops (rt : runtime), fst (run_loop stops servers table rt) = Ok tt → true ∈ stops) as Hstop.
  { clear. induction stops as [|[] stops IH]; intros rt; cbn [run_loop]; [done|by left|].
    destruct (turn servers table rt) as [[[]|e| |] rt']; cbn [sbind]; try done. intros H. right. by eapply IH. }
  specialize (Hstop stops rt). destruct (run_loop stops servers table rt) as [[[]|e| |] rt']; cbn [fst run_outcome] in *; auto; by exfalso.
Qed.

(** What a session carries it has sent in part, from the front. *)
Lemma carries_sent stream s (n : stack) : carries stream s n → ∃ rest, stream = sent_of s n ++ rest.
Proof. intros [<-|[_ ?]]; [by eexists|done]. Qed.

(** ** Properties *)

(** C4: The proxy is transparent from the first turn to the last.  In a run
    that goes on or was stopped in the regular way, every session belongs to a
    client that connected to the listener and whose SOCKS5 request was
    accepted, and the octets its socket in the tunnel accepted are exactly a
    beginning of what that client sent behind its request: nothing lost,
    doubled, reordered or mixed in from another client, over any number of
    turns, whatever other sessions, the tunnel and the name servers did in
    between.  A session past the tunnel belongs to such a client, too, and to a
    destination that was reached for it: as long as the destination has not
    closed, what it was given, what is queued for it and what is still to be
    read are what the client sends behind its request, and the same holds the
    other way, behind the reply to the request.  A run that was stopped has closed the socket of every session. *)
Theorem run_is_transparent config vpn_config table transport ppp timeouts events connects lookups started c stops servers :
  from_config config vpn_config = Ok table → reachable ppp → is_bytes (unconsumed transport) →
  returns timeouts → Forall countable_event events → Forall countable_connect connects →
  len stops * DEFAULT_TCP_BUFFER_SIZE < 2 ^ 64 →
  ∀ r rt, run (Handle:=Handle) transport ppp timeouts (Ok events) connects lookups started c stops table servers = (r, Some rt) →
  r = Ok tt ∨ r = Diverge →
  Forall (λ s, ∃ client addr request k rest,
    Accepted client addr ∈ events ∧ client_addr s = addr ∧
    read_connect_request (conn client) = (Ok request, k) ∧
    delivered (conn_r k) = sent_of s (the_stack rt) ++ rest) (sessions rt) ∧
  Forall (direct_stems events connects) (direct_sessions rt) ∧
  (r = Ok tt → Forall (λ s, closed_of s (the_stack rt)) (sessions rt)).
Proof.
  intros Ht%from_config_wf He%reachable_inv Hb Htm Hev Hc Hlen r rt E Hr. unfold run in E.
  pose proof (start_runtime_ok transport ppp timeouts (Ok events) connects lookups started c He Hb Htm I
    ltac:(by intros ? [= <-]) Hc) as [Hs _].
  assert (∀ rt0, start_runtime transport ppp timeouts (Ok events) connects lookups started c = (Ok rt0 : result runtime) →
    listener rt0 = events ∧ Runtime.connects rt0 = connects) as Hl.
  { unfold start_runtime. intros rt0. destruct (ok_or _ _); cbn [bind]; try done.
    destruct (match started with Some start => _ | None => _ end) as [? c1]. destruct (instant_now c1). destruct (NetStack.new _ _ _); cbn [bind]; try done.
    destruct timeouts; cbn [bind]; try done. by intros [= <-]. }
  destruct (start_runtime _ _ _ _ _ _ _ _) as [rt0|e| |]; try done. destruct (Hl rt0 eq_refl) as [Hl1 Hl2]. clear Hl.
  destruct Hs as (_ & Hi & Es & Ed).
  pose proof (run_loop_stems stops servers table 0 rt0 [] [] Ht ltac:(lia) ltac:(lia) Hi ltac:(by rewrite Es) ltac:(by rewrite Ed)) as Hx.
  cbn [app] in Hx. rewrite Hl1, Hl2 in Hx.
  destruct (run_loop stops servers table rt0) as [r' rt']. injection E as -> ->. destruct Hx as [Hx1 Hx2].
  destruct (Hx1 Hr) as [Hx3 Hx4]. split; [|done]. eapply Forall_impl; [exact Hx3|]. cbn.
  intros s (client & addr & Hacc & Ea & request & k & Hreq & (rest & Hrest)%carries_sent).
  by exists client, addr, request, k, rest.
Qed.

(** C3: A turn of the loop keeps what holds at its head.  It never panics and
    always ends; if it ends well, the link is in order, every session has a
    socket of its own that is alive, and no counter has overflowed; and every
    session that is left is either one from before, which still carries the
    same stream of its client (the octets its socket accepted, then those it
    queued, then those still to be read, with nothing lost or reordered until
    it is closed), or one of a client accepted in this turn, which carries what
    its client sends behind the handshake.  Likewise every direct session that
    is left relays what one from before relayed, or what a client accepted in
    this turn sends to a destination that was reached for it. *)
Theorem turn_preserves received servers table rt :
  table_wf table → 0 <= received → received + DEFAULT_TCP_BUFFER_SIZE < 2 ^ 64 → rt_inv received rt →
  ∃ r rt', turn servers table rt = (r, rt') ∧ ok_or_err r tt ∧
    (r = Ok tt → rt_inv (received + DEFAULT_TCP_BUFFER_SIZE) rt' ∧ (∃ taken, listener rt = taken ++ listener rt') ∧
      connects_left rt rt' ∧
      (∃ l, relayed (direct_sessions rt ++ l) (direct_sessions rt') ∧ Forall (direct_stems (listener rt) (connects rt)) l) ∧
      ∀ s', s' ∈ sessions rt' →
        (∃ s, s ∈ sessions rt ∧ same_session s s' ∧
          ∀ stream, carries stream s (the_stack rt) → carries stream s' (the_stack rt')) ∨
        stems (listener rt) (the_stack rt') s').
Proof. apply turn_ok. Qed.

(** C12: The proxy runs until it is stopped or fails.  Started with an engine
    that negotiation has reached, a tunnel that delivers octets and a routing
    table of the configuration, it refuses a link without an address, and
    panics exactly on a link whose address is not unicast, at its very start;
    otherwise it runs, whatever the clients, the tunnel, the name servers and
    the clock do, and ends, if it is stopped or fails, with a result.  (The bound on the turns
    keeps the 64-bit counters from overflowing; with a turn a millisecond it
    allows two thousand years.) *)
Theorem run_ends config vpn_config table transport ppp timeouts listening connects lookups started c stops servers :
  from_config config vpn_config = Ok table → reachable ppp → is_bytes (unconsumed transport) →
  returns timeouts → returns listening → (∀ events, listening = Ok events → Forall countable_event events) →
  Forall countable_connect connects → len stops * DEFAULT_TCP_BUFFER_SIZE < 2 ^ 64 →
  let r := run (Handle:=Handle) transport ppp timeouts listening connects lookups started c stops table servers in
  match fst r with
  | Ok _ => is_Some (local_ip ppp) ∧ true ∈ stops
  | Err _ => True
  | Diverge => true ∉ stops
  | Panic => unusable ppp
  end ∧ (local_ip ppp = None → fst r = Err (Pppd "proxy runtime requires an opened PPP link")) ∧
  (unusable ppp → fst r = Panic).
Proof. apply run_ok. Qed.

(** C18: The table alone decides where a connection goes.  Once the destination
    of an accepted client is known, a routed one leaves the direct connections
    alone (nothing is connected outside the tunnel for it), and any other one
    leaves the tunnel alone: not a packet, not a socket, not a session of it
    changes. *)
Theorem serve_client_splits c c1 k request addr servers table rt rt1 rt2 destination b :
  prepare (set_options 4) c rt = (Ok c1, rt1) → read_connect_request (conn c1) = (Ok request, k) →
  find_destination request servers table rt1 = (Ok (Some destination), rt2) →
  can_route table destination = Ok b →
  let rt' := snd (serve_client c addr servers table rt) in
  if b then direct_sessions rt' = direct_sessions rt2 ∧ connects rt' = connects rt2
  else link rt' = link rt2 ∧ sessions rt' = sessions rt2.
Proof.
  intros E1 E2 E3 E4. unfold serve_client. rewrite E1. cbn [sbind]. unfold on_conn. rewrite E2.
  cbn [fst snd]. rewrite E3. cbn [sbind]. rewrite E4. cbn [lift sbind].
  set (c2 := c1 <| conn := k |>). clearbody c2. clear. destruct b; cbv zeta.
  - unfold open_session. destruct (add_tcp_socket (the_stack rt2)) as [h n].
    unfold on_netstack. destruct (connect_tcp _ _ _ _) as [[[u|e]|e| |] n2]; cbn [sbind snd]; try done.
    + unfold take_session_id, prepare. by destruct (set_options 3 c2) as [[] ?].
    + by destruct (remove_tcp_socket _ _) as [[] ?].
  - unfold open_direct_session, take_session_id, start_direct_session.
    assert (∀ f t (rt : runtime), link (snd (prepare f t rt)) = link rt ∧ sessions (snd (prepare f t rt)) = sessions rt) as Hp.
    { intros f t rt. unfold prepare. by destruct (f t) as [[] ?]. }
    set (rt3 := rt2 <| next_session_id := _ |>). assert (link rt3 = link rt2 ∧ sessions rt3 = sessions rt2) as [<- <-] by done.
    clearbody rt3.
    assert (link (snd (connect_timeout rt3)) = link rt3 ∧ sessions (snd (connect_timeout rt3)) = sessions rt3) as [Hl Hs].
    { unfold connect_timeout. by destruct (connects rt3) as [|[] ?]. }
    destruct (connect_timeout rt3) as [[remote|e| |] rt4]; cbn [lift sbind fst snd] in *; try done.
    destruct (Hp (on_conn (write_success UNSPECIFIED 0)) c2 rt4) as [Hl5 Hs5].
    destruct (prepare _ c2 rt4) as [[c5|e| |] rt5]; cbn [sbind snd] in *; try (split; congruence).
    destruct (Hp (set_options 3) c5 rt5) as [Hl6 Hs6].
    destruct (prepare _ c5 rt5) as [[c6|e| |] rt6]; cbn [sbind snd] in *; try (split; congruence).
    destruct (Hp (set_options 3) remote rt6) as [Hl7 Hs7].
    destruct (prepare _ remote rt6) as [[c7|e| |] rt7]; cbn [sbind snd] in *; split; cbn; congruence.
Qed.
End Turn.

(** ** On the concrete stack *)

(** A client that asks for a routed destination, and one that does not. *)
Definition demo_client (destination : Ipv4Addr) : TcpStream :=
  stream_of (chunked [greeting [METHOD_NO_AUTH]; connect_command COMMAND_CONNECT (TargetIpv4 destination) 443; [1; 2; 3]])
    (vec_writer []).
Definition demo_addr : SocketAddr := SocketAddrV4 (Ipv4 127 0 0 1) 4000.

Definition demo_loop : Runtime unit toys nat :=
  demo_runtime [[0x45; 1; 2]]
    [Accepted (demo_client (Ipv4 10 1 2 3)) demo_addr; Accepted (demo_client (Ipv4 192 0 2 1)) demo_addr; AcceptError WouldBlock]
    <| connects := [inl (stream_of [RBytes [7; 8; 9]; RError WouldBlock] (vec_writer []))] |>.

Lemma demo_loop_inv : rt_inv 0 demo_loop.
Proof.
  split.
  - split; [exact engine_inv_new|]. apply is_bytes_check. vm_compute. reflexivity.
  - apply NoDup_nil_2.
  - apply Forall_nil_2.
  - apply Forall_nil_2.
  - apply Forall_nil_2.
  - apply Forall_nil_2.
  - repeat constructor.
  - repeat constructor.
Qed.

Lemma turn_preserves_witness :
  rt_inv 0 demo_loop ∧
  ∃ r rt', turn [] demo_table demo_loop = (r, rt') ∧ ok_or_err r tt ∧
    (r = Ok tt → rt_inv DEFAULT_TCP_BUFFER_SIZE rt' ∧ (∃ taken, listener demo_loop = taken ++ listener rt') ∧
      connects_left demo_loop rt' ∧
      (∃ l, relayed ([] ++ l) (direct_sessions rt') ∧ Forall (direct_stems (listener demo_loop) (connects demo_loop)) l) ∧
      ∀ s', s' ∈ sessions rt' →
        (∃ s, s ∈ [] ∧ same_session s s' ∧
          ∀ stream, carries stream s (the_stack demo_loop) → carries stream s' (the_stack rt')) ∨
        stems (listener demo_loop) (the_stack rt') s').
Proof.
  split; [exact demo_loop_inv|].
  apply (turn_preserves 0 [] demo_table demo_loop demo_table_wf); [vm_compute; discriminate|vm_compute; reflexivity|exact demo_loop_inv].
Defined.

(** In one turn the routed client gets its reply and what the tunnel delivers;
    the other one talks to its destination directly. *)
Example turn_demo :
  let '(r, rt) := turn [] demo_table demo_loop in
  r = Ok tt ∧
  map (λ s, (target s, written (conn_w (conn (client s))), to_remote s)) (sessions rt) =
    [("10.1.2.3:443", [VERSION; METHOD_NO_AUTH] ++ success_reply ++ [0x45; 1; 2], [])] ∧
  map (λ s, (d_target s, d_to_remote s, d_to_client s)) (direct_sessions rt) =
    [("192.0.2.1:443", [1; 2; 3], [7; 8; 9])].
Proof. vm_compute. split_and!; reflexivity. Qed.

Lemma serve_client_splits_witness :
  let c := demo_client (Ipv4 192 0 2 1) in
  let rt' := snd (serve_client c demo_addr [] demo_table demo_loop) in
  link rt' = link demo_loop ∧ sessions rt' = [].
Proof.
  intros c. cbv zeta.
  destruct (read_connect_request (conn c)) as [r k] eqn:E.
  assert (fst (read_connect_request (conn c)) = Ok {| Socks5.target := TargetIpv4 (Ipv4 192 0 2 1); Socks5.port := 443 |})
    as Hr by (vm_compute; reflexivity).
  rewrite E in Hr. cbn [fst] in Hr. subst r.
  exact (serve_client_splits c c k _ demo_addr [] demo_table demo_loop demo_loop demo_loop (Ipv4 192 0 2 1) false
    eq_refl E eq_refl eq_refl).
Defined.

(** An engine whose link is open. *)
Definition demo_packets : list PppPacket :=
  [control_packet PROTOCOL_LCP CODE_CONFIGURE_ACK 1 []; control_packet PROTOCOL_IPCP CODE_CONFIGURE_ACK 2 (ipcp_request_options (Ipv4 10 0 0 42))].
Definition demo_engine : PppEngine := foldl (λ e p, snd (handle_incoming p e)) (start PppEngine.new) demo_packets.

Lemma reachable_packets packets e : Forall received packets → reachable e →
  reachable (foldl (λ e p, snd (handle_incoming p e)) e packets).
Proof.
  intros Hp. revert e. induction Hp as [|p packets Hr _ IH]; intros e He; [done|]. cbn. apply IH.
  eapply rtc_r; [exact He|]. eapply step_incoming; [exact Hr|apply surjective_pairing].
Qed.

Lemma demo_engine_reachable : reachable demo_engine.
Proof.
  apply reachable_packets; [|apply rtc_once; constructor].
  repeat constructor; first [apply is_bytes_check; vm_compute; reflexivity|vm_compute; discriminate].
Qed.

Lemma run_ends_witness :
  let r := run (Handle:=nat) (transport (link demo_loop)) demo_engine (Ok tt) (Ok (listener demo_loop)) [] [] None
    {| time := 0; delays := [] |} [false; true] demo_table [] in
  match fst r with
  | Ok _ => is_Some (local_ip demo_engine) ∧ true ∈ [false; true]
  | Err _ => True
  | Diverge => true ∉ [false; true]
  | Panic => unusable demo_engine
  end ∧ (local_ip demo_engine = None → fst r = Err (Pppd "proxy runtime requires an opened PPP link")) ∧
  (unusable demo_engine → fst r = Panic).
Proof.
  apply (run_ends default_config
    {| raw_xml := ""; gateway := None; assigned_ip := None; dns_servers := []; dns_suffix := None;
       split_routes := [{| destination := "10.0.0.0"; mask := "255.0.0.0"; route_gateway := None |}] |}).
  - vm_compute. reflexivity.
  - exact demo_engine_reachable.
  - apply is_bytes_check. vm_compute. reflexivity.
  - exact I.
  - exact I.
  - intros events [= <-]. repeat constructor.
  - constructor.
  - vm_compute. reflexivity.
Defined.

(** A run of two turns, with a client to each side of the table; the tunnel is
    silent in the second turn. *)
Definition patient_client (destination : Ipv4Addr) : TcpStream :=
  stream_of (chunked [greeting [METHOD_NO_AUTH]; connect_command COMMAND_CONNECT (TargetIpv4 destination) 443; [1; 2; 3]]
    ++ [RBytes [4; 5]; RError WouldBlock; RError WouldBlock]) (vec_writer []).
Definition demo_events : list accept_event :=
  [Accepted (patient_client (Ipv4 10 1 2 3)) demo_addr; Accepted (patient_client (Ipv4 192 0 2 1)) demo_addr;
   AcceptError WouldBlock].
Definition demo_reached : list (TcpStream + ErrorKind) :=
  [inl (stream_of [RBytes [7; 8; 9]; RError WouldBlock; RError WouldBlock] (vec_writer []))].

Definition demo_tunnel : FortinetTransport :=
  {| stream_r := stream_r (transport (link demo_loop)) ++ [RError WouldBlock]; stream_w := vec_writer []; read_buffer := [] |}.

Definition demo_run :=
  run (Handle:=nat) demo_tunnel demo_engine (Ok tt) (Ok demo_events) demo_reached [] None
    {| time := 0; delays := [] |} [false; false; true] demo_table [].

(** The target of each session, and what its socket or its destination got. *)
Definition shown (rt : Runtime unit toys nat) : list (str * bytes) :=
  map (λ s, (target s, sent_of s (the_stack rt))) (sessions rt) ++
  map (λ s, (d_target s, written (conn_w (conn (d_remote s))))) (direct_sessions rt).

Lemma run_is_transparent_witness :
  ∃ rt, demo_run = (Ok tt, Some rt) ∧ shown rt = [("10.1.2.3:443", [1; 2; 3; 4; 5]); ("192.0.2.1:443", [1; 2; 3; 4; 5])] ∧
    Forall (λ s, ∃ client addr request k rest,
      Accepted client addr ∈ demo_events ∧ client_addr s = addr ∧
      read_connect_request (conn client) = (Ok request, k) ∧
      delivered (conn_r k) = sent_of s (the_stack rt) ++ rest) (sessions rt) ∧
    Forall (direct_stems demo_events demo_reached) (direct_sessions rt) ∧
    (Ok tt = Ok tt → Forall (λ s, closed_of s (the_stack rt)) (sessions rt)).
Proof.
  destruct demo_run as [r o] eqn:E.
  assert (r = Ok tt) as -> by (apply (f_equal fst) in E; cbn [fst] in E; rewrite <- E; vm_compute; reflexivity).
  destruct o as [rt|]; [|exfalso; apply (f_equal snd) in E; vm_compute in E; discriminate].
  exists rt. split; [reflexivity|]. split.
  { transitivity (from_option shown [] (snd demo_run)); [by rewrite E|]. clear E. vm_compute. reflexivity. }
  apply (run_is_transparent default_config
    {| raw_xml := ""; gateway := None; assigned_ip := None; dns_servers := []; dns_suffix := None;
       split_routes := [{| destination := "10.0.0.0"; mask := "255.0.0.0"; route_gateway := None |}] |}
    demo_table demo_tunnel demo_engine (Ok tt) demo_events demo_reached [] None
    {| time := 0; delays := [] |} [false; false; true] []).
  - vm_compute. reflexivity.
  - exact demo_engine_reachable.
  - apply is_bytes_check. vm_compute. reflexivity.
  - exact I.
  - repeat constructor.
  - repeat constructor.
  - vm_compute. reflexivity.
  - exact E.
  - by left.
Defined.

(** The link is open, and the run ends when it is stopped. *)
Example run_demo :
  local_ip demo_engine = Some (Ipv4 10 0 0 42) ∧
  fst (run (Handle:=nat) (transport (link demo_loop)) demo_engine (Ok tt) (Ok (listener demo_loop)) [] [] None
    {| time := 0; delays := [] |} [true] demo_table []) = Ok tt.
Proof. vm_compute. split; reflexivity. Qed.

(** A gateway that assigns a multicast address, which the engine acknowledges
    to itself like any other, ends the program: the proxy panics on it. *)
Definition multicast_packets : list PppPacket :=
  [control_packet PROTOCOL_LCP CODE_CONFIGURE_ACK 1 []; control_packet PROTOCOL_IPCP CODE_CONFIGURE_ACK 2 (ipcp_request_options (Ipv4 224 0 0 1))].

Theorem multicast_address_panics :
  let e := foldl (λ e p, snd (handle_incoming p e)) (start PppEngine.new) multicast_packets in
  state e = Opened ∧ local_ip e = Some (Ipv4 224 0 0 1) ∧
  fst (run (Handle:=nat) (transport (link demo_loop)) e (Ok tt) (Ok []) [] [] None
    {| time := 0; delays := [] |} [false; true] demo_table []) = Panic.
Proof. vm_compute. split_and!; reflexivity. Qed.
