(* ===== verification/NetApply.v ===== *)
(** * [net_apply.rs]: performing a plan and undoing it

    The commands that change the routes and the name servers of the host, the
    record of what was done, and its undoing.  The host is a script of the
    outcomes of its commands and file operations, the contents of resolv.conf,
    and the log of what was asked of it; quantifying over hosts covers every
    way the commands may fail.  What is only logged to the user is left out. *)

From S2P Require Import Prelude Stream RustStd Config Http Portal RouteTable NetPlan.

#[local] Open Scope string_scope.
#[local] Open Scope list_scope.
#[local] Open Scope Z_scope.

Definition RESOLV_CONF_PATH : str := "/etc/resolv.conf".
Definition RESOLVCONF_CANDIDATES : list str := ["/sbin/resolvconf"; "/usr/sbin/resolvconf"; "resolvconf"].
Definition SCUTIL_CANDIDATES : list str := ["/usr/sbin/scutil"; "/usr/bin/scutil"; "scutil"].

Record ApplyOptions := { use_resolvconf : bool }.
Definition default_options : ApplyOptions := {| use_resolvconf := true |}.

Inductive AppliedNetworkAction :=
  | ProtectedTunnelRoute (program : str) (rollback_args : list str)
  | Command (program : str) (rollback_args : list str)
  | DefaultRoute (platform : Platform) (interface : str) (restore : option (str * list str))
  | Resolvconf (program interface : str)
  | MacOsScutilDns (program key : str)
  | ResolvConfFile (added_lines : list str).

Record AppliedNetworkPlan := { applied : list AppliedNetworkAction }.

Definition is_empty (self : AppliedNetworkPlan) : bool :=
  match applied self with [] => true | _ => false end.

(** ** The host *)

(** [std::process::Output]; [status] is the text of the exit status. *)
Record Output := { success : bool; stdout : bytes; stderr : bytes; status : str }.

Inductive reply := Ran (output : Output) | Failed (kind : ErrorKind).

(** What was asked of the host. *)
Inductive host_event :=
  | RanCommand (program : str) (args : list str) (stdin : option bytes)
  | ReadFile (path : str)
  | WroteFile (path : str) (contents : bytes).

(** [log] is all that was asked, [effects] what of it succeeded.  A file
    operation that fails leaves a file of its own: a write has truncated it. *)
Record host := {
  log : list host_event;
  effects : list host_event;
  replies : list reply;
  resolv_conf : bytes;
  file_replies : list (option (ErrorKind * bytes));
  path_exists : str → bool;
  in_path : str → option str;
}.

#[export] Instance host_eta : Eta host := λ h,
  {| log := log h; effects := effects h; replies := replies h; resolv_conf := resolv_conf h; file_replies := file_replies h;
     path_exists := path_exists h; in_path := in_path h |}.

Definition succeeded : Output := {| success := true; stdout := []; stderr := []; status := "exit status: 0" |}.

(** One command, [output()] or [spawn()] with its input written; a finished
    script succeeds without output. *)
Definition command_output (program : str) (args : list str) (stdin : option bytes) (h : host)
    : result Output * host :=
  let event := RanCommand program args stdin in
  let h := h <| log := log h ++ [event] |> in
  let effect (o : Output) := if success o then [event] else [] in
  match replies h with
  | [] => (Ok succeeded, h <| effects := effects h ++ [event] |>)
  | Ran o :: rest => (Ok o, h <| effects := effects h ++ effect o |> <| replies := rest |>)
  | Failed k :: rest => (Err (io_error k), h <| replies := rest |>)
  end.

Definition file_reply (h : host) : option (ErrorKind * bytes) * host :=
  match file_replies h with
  | [] => (None, h)
  | r :: rest => (r, h <| file_replies := rest |>)
  end.

(** [fs::read] and [fs::write] of resolv.conf. *)
Definition read_resolv_conf (h : host) : result bytes * host :=
  let h := h <| log := log h ++ [ReadFile RESOLV_CONF_PATH] |> in
  match file_reply h with
  | (None, h) => (Ok (resolv_conf h), h)
  | (Some (k, _), h) => (Err (io_error k), h)
  end.
Definition write_resolv_conf (contents : bytes) (h : host) : result unit * host :=
  let event := WroteFile RESOLV_CONF_PATH contents in
  let h := h <| log := log h ++ [event] |> in
  match file_reply h with
  | (None, h) => (Ok tt, h <| effects := effects h ++ [event] |> <| resolv_conf := contents |>)
  | (Some (k, rest), h) => (Err (io_error k), h <| resolv_conf := rest |>)
  end.

(** [Display] of the error type. *)
Definition error_text (e : OpenfortivpnError) : str :=
  match e with
  | Io _ m => "I/O error: " +:+ m
  | TlsHandshake m => "TLS handshake failed: " +:+ m
  | MissingPeerCertificate => "server did not present a TLS certificate"
  | CertificateVerification m => "TLS certificate verification failed: " +:+ m
  | HttpProtocol m => "HTTP protocol error: " +:+ m
  | PermissionDenied => "VPN gateway denied permission"
  | Auth m => "authentication error: " +:+ m
  | Pppd m => "pppd error: " +:+ m
  | Network m => "network configuration error: " +:+ m
  | BadBoolean v => "bad boolean value: " +:+ v
  | BadInteger k v => "bad integer value for " +:+ k +:+ ": " +:+ v
  | BadPort k v => "bad port for " +:+ k +:+ ": " +:+ v
  | BadTlsVersion v => "bad TLS version: " +:+ v
  | BadCertificateDigest v => "bad certificate sha256 digest: " +:+ v
  | UnknownConfigKey k => "unknown configuration key: " +:+ k
  | HdlcBufferTooSmall => "HDLC output buffer too small"
  | HdlcNoFrameFound => "no HDLC frame found"
  | HdlcInvalidFrame => "invalid HDLC frame"
  | HdlcBadChecksum => "bad HDLC checksum"
  end.

(** ** Running commands *)

Definition command_error (program : str) (args : list str) (o : Output) : OpenfortivpnError :=
  let err := trim (from_utf8_lossy (stderr o)) in
  let out := trim (from_utf8_lossy (stdout o)) in
  let detail := if negb (str_is_empty err) then err else if negb (str_is_empty out) then out else status o in
  Network ("command failed: " +:+ program +:+ " " +:+ str_join " " args +:+ ": " +:+ detail).

Definition run_command_with (stdin : option bytes) (program : str) (args : list str) (h : host)
    : result unit * host :=
  let! output & h := command_output program args stdin h in
  if success output then (Ok tt, h) else (Err (command_error program args output), h).

Definition run_command : str → list str → host → result unit * host := run_command_with None.
Definition run_command_with_stdin (program : str) (args : list str) (stdin : bytes) : host → result unit * host :=
  run_command_with (Some stdin) program args.

Definition command_output_mentions_existing_route (stdout stderr : bytes) : bool :=
  let text := to_ascii_lowercase (from_utf8_lossy stdout) +:+ to_ascii_lowercase (from_utf8_lossy stderr) in
  str_contains "file exists" text || str_contains "route already exists" text.

Definition run_command_ignore_existing_route (program : str) (args : list str) (h : host) : result bool * host :=
  let! output & h := command_output program args None h in
  if success output then (Ok true, h)
  else if command_output_mentions_existing_route (stdout output) (stderr output) then (Ok false, h)
  else (Err (command_error program args output), h).

Definition rollback_args_for_command (program : str) (args : list str) : option (list str) :=
  match args with
  | a0 :: a1 :: a2 :: rest =>
      if (program =? "ip")%string && (a0 =? "route")%string && (a1 =? "add")%string
      then Some (a0 :: "del" :: a2 :: rest)
      else if ends_with "route" program && (a0 =? "add")%string then Some ("delete" :: a1 :: a2 :: rest)
      else None
  | a0 :: rest => if ends_with "route" program && (a0 =? "add")%string then Some ("delete" :: rest) else None
  | [] => None
  end.

(** ** The output of the route commands *)

(** [windows(2).find_map(..)] *)
Fixpoint token_after (tokens : list str) (needle : str) : option str :=
  match tokens with
  | [] => None
  | a :: rest =>
      match rest with
      | [] => None
      | b :: _ => if (a =? needle)%string then Some b else token_after rest needle
      end
  end.

Definition macos_route_value (output key : str) : option str :=
  head (omap (λ line, option_map trim (strip_prefix key (trim line))) (str_lines output)).

Definition parse_linux_route_get_for_host_route (output endpoint : str) : option (list str) :=
  line ← head (str_lines output);
  let line := trim line in
  if str_is_empty line || str_contains " dev ppp" line then None else
  let tokens := split_whitespace line in
  let via := token_after tokens "via" in
  dev ← token_after tokens "dev";
  Some (["route"; "add"; endpoint +:+ "/32"]
    ++ match via with Some via => ["via"; via] | None => [] end ++ ["dev"; dev]).

Definition parse_macos_route_get_for_host_route (output endpoint : str) : option (list str) :=
  let gateway := macos_route_value output "gateway:" in
  interface ← macos_route_value output "interface:";
  if starts_with "ppp" interface then None else
  Some (["add"; "-host"; endpoint]
    ++ match gateway with
       | Some gateway => if str_is_empty gateway then ["-interface"; interface] else [gateway]
       | None => ["-interface"; interface]
       end).

Definition parse_linux_default_route (output : str) : option (list str) :=
  line ← head (str_lines output);
  let line := trim line in
  if str_is_empty line then None else Some (["route"; "add"] ++ split_whitespace line).

Definition parse_macos_default_route (output : str) : option (list str) :=
  gateway ← macos_route_value output "gateway:";
  if str_is_empty gateway then None else Some ["add"; "default"; gateway].

(** ** Routes to the gateway *)

Definition drop_wrong_linux_tunnel_route (endpoint : Ipv4Addr) (interface : str) (h : host)
    : result unit * host :=
  let destination := print_ipv4 endpoint +:+ "/32" in
  let! output & h := command_output "ip" ["route"; "show"; destination; "dev"; interface] None h in
  if negb (success output) || match stdout output with [] => true | _ => false end then (Ok tt, h)
  else run_command "ip" ["route"; "del"; destination; "dev"; interface] h.

Definition drop_wrong_macos_tunnel_route (endpoint : Ipv4Addr) (interface : str) (h : host)
    : result unit * host :=
  let endpoint := print_ipv4 endpoint in
  let! output & h := command_output "/sbin/route" ["-n"; "get"; endpoint] None h in
  if negb (success output) then (Ok tt, h) else
  if decide (macos_route_value (from_utf8_lossy (stdout output)) "interface:" = Some interface)
  then run_command "/sbin/route" ["delete"; "-host"; endpoint] h
  else (Ok tt, h).

(** An error is only a warning. *)
Definition drop_wrong_tunnel_route (platform : Platform) (endpoint : Ipv4Addr) (interface : str) (h : host) : host :=
  snd (match platform with
       | Linux => drop_wrong_linux_tunnel_route endpoint interface h
       | MacOs => drop_wrong_macos_tunnel_route endpoint interface h
       end).

Definition build_linux_protect_tunnel_route_commands (endpoint : Ipv4Addr) (h : host)
    : result (option (str * list str * list str)) * host :=
  let endpoint := print_ipv4 endpoint in
  let! output & h := command_output "ip" ["route"; "get"; endpoint] None h in
  if negb (success output) then (Ok None, h) else
  (Ok ((λ args, ("ip", args, ["route"; "del"; endpoint +:+ "/32"]))
         <$> parse_linux_route_get_for_host_route (from_utf8_lossy (stdout output)) endpoint), h).

Definition build_macos_protect_tunnel_route_commands (endpoint : Ipv4Addr) (h : host)
    : result (option (str * list str * list str)) * host :=
  let endpoint := print_ipv4 endpoint in
  let! output & h := command_output "/sbin/route" ["-n"; "get"; endpoint] None h in
  if negb (success output) then (Ok None, h) else
  (Ok ((λ args, ("/sbin/route", args, ["delete"; "-host"; endpoint]))
         <$> parse_macos_route_get_for_host_route (from_utf8_lossy (stdout output)) endpoint), h).

Definition build_protect_tunnel_route_commands (platform : Platform) (endpoint : Ipv4Addr) (h : host)
    : result (option (str * list str * list str)) * host :=
  match platform with
  | Linux => build_linux_protect_tunnel_route_commands endpoint h
  | MacOs => build_macos_protect_tunnel_route_commands endpoint h
  end.

(** The actions that may add to the plan answer what they applied. *)
Definition protect_tunnel_route (platform : Platform) (endpoint : Ipv4Addr) (h : host)
    : result (list AppliedNetworkAction) * host :=
  let! commands & h := build_protect_tunnel_route_commands platform endpoint h in
  match commands with
  | None => (Ok [], h)
  | Some (program, args, rollback_args) =>
      let! added & h := run_command_ignore_existing_route program args h in
      (Ok (if added : bool then [ProtectedTunnelRoute program rollback_args] else []), h)
  end.

(** ** The default route *)

Definition capture_linux_default_route (h : host) : result (option (str * list str)) * host :=
  let! output & h := command_output "ip" ["route"; "show"; "default"] None h in
  if negb (success output) then (Ok None, h)
  else (Ok (pair "ip" <$> parse_linux_default_route (from_utf8_lossy (stdout output))), h).

Definition capture_macos_default_route (h : host) : result (option (str * list str)) * host :=
  let! output & h := command_output "/sbin/route" ["-n"; "get"; "default"] None h in
  if negb (success output) then (Ok None, h)
  else (Ok (pair "/sbin/route" <$> parse_macos_default_route (from_utf8_lossy (stdout output))), h).

Definition capture_default_route (platform : Platform) (h : host) : result (option (str * list str)) * host :=
  match platform with
  | Linux => capture_linux_default_route h
  | MacOs => capture_macos_default_route h
  end.

(** [first.or_else(|_| second)], whose error is only a warning. *)
Definition delete_default_route (platform : Platform) (interface : str) (h : host) : host :=
  let '(program, first, second) :=
    match platform with
    | Linux => ("ip", ["route"; "del"; "default"; "dev"; interface], ["route"; "del"; "default"])
    | MacOs => ("/sbin/route", ["delete"; "default"; "-interface"; interface], ["delete"; "default"])
    end in
  match run_command program first h with
  | (Ok _, h) => h
  | (_, h) => snd (run_command program second h)
  end.

Definition add_default_route (platform : Platform) (interface : str) (h : host) : result unit * host :=
  match platform with
  | Linux => run_command "ip" ["route"; "add"; "default"; "dev"; interface] h
  | MacOs => run_command "/sbin/route" ["add"; "default"; "-interface"; interface] h
  end.

Definition apply_default_route (platform : Platform) (interface : str) (h : host)
    : result (list AppliedNetworkAction) * host :=
  let! restore & h := capture_default_route platform h in
  let h := delete_default_route platform interface h in
  match add_default_route platform interface h with
  | (Ok _, h) => (Ok [DefaultRoute platform interface restore], h)
  | (Err err, h) =>
      match restore with
      | Some (program, args) =>
          match run_command program args h with
          | (Err restore_err, h) =>
              (Err (Network (error_text err +:+ "; failed to restore previous default route: "
                 +:+ error_text restore_err)), h)
          | (_, h) => (Err err, h)
          end
      | None => (Err err, h)
      end
  | (Panic, h) => (Panic, h)
  | (Diverge, h) => (Diverge, h)
  end.

Definition rollback_default_route (platform : Platform) (interface : str)
    (restore : option (str * list str)) (h : host) : result unit * host :=
  let h := delete_default_route platform interface h in
  match restore with
  | Some (program, args) => run_command program args h
  | None => (Ok tt, h)
  end.

(** ** Name servers *)

Definition build_resolvconf_body (servers : list str) (search_domain : option str) : str :=
  foldr (λ server acc, "nameserver " +:+ server +:+ String newline acc)
    (match search_domain with
     | Some domain => if str_is_empty domain then ""
                      else "search " +:+ str_replace ";" " " domain +:+ String newline ""
     | None => ""
     end) servers.

Definition build_dns_lines (servers : list str) (search_domain : option str) : list str :=
  map (λ server, "nameserver " +:+ server) servers
    ++ match search_domain with
       | Some domain => if str_is_empty domain then [] else ["search " +:+ str_replace ";" " " domain]
       | None => []
       end.

Definition dns_lines_to_add (original : bytes) (servers : list str) (search_domain : option str) : list str :=
  let existing := str_lines (from_utf8_lossy original) in
  List.filter (λ line, negb (existsb (String.eqb line) existing)) (build_dns_lines servers search_domain).

Definition prepend_dns_lines_to_resolv_conf (original : bytes) (added_lines : list str) : bytes :=
  concat (map (λ line, as_bytes line ++ [10]) added_lines) ++ original.

(** [pending.iter().position(..)] and [pending.remove(pos)] *)
Fixpoint remove_first (line : str) (pending : list str) : option (list str) :=
  match pending with
  | [] => None
  | added :: pending =>
      if (added =? line)%string then Some pending else cons added <$> remove_first line pending
  end.

Fixpoint remove_added_loop (lines pending : list str) : str :=
  match lines with
  | [] => ""
  | line :: lines =>
      match remove_first line pending with
      | Some pending => remove_added_loop lines pending
      | None => line +:+ String newline (remove_added_loop lines pending)
      end
  end.

Definition remove_added_dns_lines (current : bytes) (added_lines : list str) : bytes :=
  as_bytes (remove_added_loop (str_lines (from_utf8_lossy current)) added_lines).

(** [find_map] over the candidates: an absolute path that exists, or a name
    found in [PATH]. *)
Fixpoint find_program_from_candidates (h : host) (candidates : list str) : option str :=
  match candidates with
  | [] => None
  | candidate :: candidates =>
      match (if str_contains "/" candidate
             then if path_exists h candidate then Some candidate else None
             else in_path h candidate) with
      | Some program => Some program
      | None => find_program_from_candidates h candidates
      end
  end.
Definition find_resolvconf (h : host) : option str := find_program_from_candidates h RESOLVCONF_CANDIDATES.
Definition find_scutil (h : host) : option str := find_program_from_candidates h SCUTIL_CANDIDATES.

Definition is_ascii_alphanumeric (c : ascii) : bool :=
  is_ascii_digit c || is_ascii_upper c || is_ascii_lower c.

(** One character at a time: the continuation bytes of a character go with its
    first byte. *)
Fixpoint sanitize_chars (value : str) : str :=
  match value with
  | EmptyString => EmptyString
  | String c value =>
      if is_ascii_alphanumeric c || Ascii.eqb c "-"%char || Ascii.eqb c "_"%char
      then String c (sanitize_chars value)
      else if cont (u8_of_ascii c) then sanitize_chars value
      else String "-" (sanitize_chars value)
  end.
Definition sanitize_scutil_key_component (value : str) : str :=
  let sanitized := sanitize_chars value in
  if str_is_empty sanitized then "vpn" else sanitized.

Definition macos_scutil_dns_key (interface : str) : str :=
  "State:/Network/Service/openfortivpn-" +:+ sanitize_scutil_key_component interface +:+ "/DNS".

Definition search_separator (c : ascii) : bool :=
  Ascii.eqb c ";"%char || Ascii.eqb c " "%char || Ascii.eqb c (ascii_of_u8 9).

(** [split([';', ' ', '\t'])] *)
Fixpoint split_chars (p : ascii → bool) (s : str) : list str :=
  match s with
  | EmptyString => [EmptyString]
  | String c s =>
      if p c then EmptyString :: split_chars p s
      else match split_chars p s with
           | piece :: pieces => String c piece :: pieces
           | [] => [String c EmptyString]
           end
  end.
Definition split_dns_search_domains (search_domain : option str) : list str :=
  List.filter (λ part, negb (str_is_empty part)) (split_chars search_separator (default "" search_domain)).

Definition scutil_plain (c : ascii) : bool :=
  is_ascii_alphanumeric c || Ascii.eqb c "."%char || Ascii.eqb c "-"%char || Ascii.eqb c "_"%char
  || Ascii.eqb c ":"%char || Ascii.eqb c "/"%char.
Definition backslash : ascii := ascii_of_u8 92.

Fixpoint scutil_quote (value : str) : str :=
  match value with
  | EmptyString => String double_quote EmptyString
  | String c value =>
      if Ascii.eqb c backslash || Ascii.eqb c double_quote
      then String backslash (String c (scutil_quote value))
      else String c (scutil_quote value)
  end.
Definition scutil_value (value : str) : str :=
  if all_chars scutil_plain value then value else String double_quote (scutil_quote value).

Definition scutil_list (command : str) (values : list str) : str :=
  match values with
  | [] => ""
  | _ => command +:+ foldr (λ v acc, " " +:+ scutil_value v +:+ acc) "" values +:+ String newline ""
  end.

Definition build_macos_scutil_dns_script (key interface : str) (servers : list str) (search_domain : option str)
    : str :=
  let search_domains := split_dns_search_domains search_domain in
  "d.init" +:+ String newline "" +:+ "d.add InterfaceName " +:+ scutil_value interface +:+ String newline ""
    +:+ scutil_list "d.add ServerAddresses *" servers
    +:+ scutil_list "d.add SearchDomains *" search_domains
    +:+ scutil_list "d.add SupplementalMatchDomains *" search_domains
    +:+ "set " +:+ key +:+ String newline "".

Definition build_macos_scutil_remove_script (key : str) : str := "remove " +:+ key +:+ String newline "".

(** [None]: fall back to resolvconf or resolv.conf. *)
Definition apply_macos_scutil_dns (interface : str) (servers : list str) (search_domain : option str) (h : host)
    : result (option AppliedNetworkAction) * host :=
  match find_scutil h with
  | None => (Ok None, h)
  | Some program =>
      let key := macos_scutil_dns_key interface in
      let script := build_macos_scutil_dns_script key interface servers search_domain in
      match run_command_with_stdin program [] (as_bytes script) h with
      | (Ok _, h) => (Ok (Some (MacOsScutilDns program key)), h)
      | (_, h) => (Ok None, h)
      end
  end.

Definition apply_dns (platform : Platform) (interface : str) (servers : list str) (search_domain : option str)
    (options : ApplyOptions) (h : host) : result (list AppliedNetworkAction) * host :=
  if match servers, search_domain with [], None => true | _, _ => false end then (Ok [], h) else
  let! scutil & h :=
    match platform with
    | MacOs => apply_macos_scutil_dns interface servers search_domain h
    | Linux => (Ok None, h)
    end in
  match scutil with
  | Some action => (Ok [action], h)
  | None =>
      let resolv_body := build_resolvconf_body servers search_domain in
      match (if use_resolvconf options then find_resolvconf h else None) with
      | Some program =>
          let! _ & h := run_command_with_stdin program ["-a"; interface +:+ ".openfortivpn"]
                          (as_bytes resolv_body) h in
          (Ok [Resolvconf program interface], h)
      | None =>
          let! original_contents & h := read_resolv_conf h in
          match dns_lines_to_add original_contents servers search_domain with
          | [] => (Ok [], h)
          | added_lines =>
              let! _ & h := write_resolv_conf (prepend_dns_lines_to_resolv_conf original_contents added_lines) h in
              (Ok [ResolvConfFile added_lines], h)
          end
      end
  end.

(** ** Undoing and applying *)

(** Undoing one action; the first component is [true] where the error leaves
    the loop at once: reading resolv.conf. *)
Definition rollback_action (action : AppliedNetworkAction) (h : host) : bool * result unit * host :=
  match action with
  | ProtectedTunnelRoute program rollback_args | Command program rollback_args =>
      let '(r, h) := run_command program rollback_args h in (false, r, h)
  | DefaultRoute platform interface restore =>
      let '(r, h) := rollback_default_route platform interface restore h in (false, r, h)
  | Resolvconf program interface =>
      let '(r, h) := run_command program ["-d"; interface +:+ ".openfortivpn"] h in (false, r, h)
  | MacOsScutilDns program key =>
      let '(r, h) := run_command_with_stdin program [] (as_bytes (build_macos_scutil_remove_script key)) h in
      (false, r, h)
  | ResolvConfFile added_lines =>
      match read_resolv_conf h with
      | (Ok current, h) =>
          let '(r, h) := write_resolv_conf (remove_added_dns_lines current added_lines) h in (false, r, h)
      | (Err e, h) => (true, Err e, h)
      | (Panic, h) => (true, Panic, h)
      | (Diverge, h) => (true, Diverge, h)
      end
  end.

(** The actions from the last one on; the first error is kept. *)
Fixpoint rollback_loop (pending : list AppliedNetworkAction) (first_error : option OpenfortivpnError) (h : host)
    : result unit * host :=
  match pending with
  | [] => (match first_error with Some err => Err err | None => Ok tt end, h)
  | action :: pending =>
      match rollback_action action h with
      | (true, r, h) => (r, h)
      | (false, Err err, h) =>
          rollback_loop pending (match first_error with None => Some err | _ => first_error end) h
      | (false, _, h) => rollback_loop pending first_error h
      end
  end.

Definition rollback (self : AppliedNetworkPlan) (h : host) : result unit * host :=
  rollback_loop (reverse (applied self)) None h.

(** What the loop body does with one action: the actions it applied. *)
Definition apply_action (options : ApplyOptions) (action : NetworkAction) (h : host)
    : result (list AppliedNetworkAction) * host :=
  match action with
  | DropWrongTunnelRoute platform endpoint interface =>
      (Ok [], drop_wrong_tunnel_route platform endpoint interface h)
  | ProtectTunnelRoute platform endpoint => protect_tunnel_route platform endpoint h
  | RunCommand program args =>
      let! _ & h := run_command program args h in
      (Ok (match rollback_args_for_command program args with
           | Some rollback_args => [Command program rollback_args]
           | None => []
           end), h)
  | ReplaceDefaultRoute platform interface => apply_default_route platform interface h
  | ConfigureDns platform interface servers search_domain =>
      apply_dns platform interface servers search_domain options h
  end.

(** The [?] of a command leaves the function without undoing anything. *)
Definition returns_at_once (action : NetworkAction) : bool :=
  match action with RunCommand _ _ => true | _ => false end.

Fixpoint apply_loop (options : ApplyOptions) (actions : list NetworkAction) (done : AppliedNetworkPlan) (h : host)
    : result AppliedNetworkPlan * host :=
  match actions with
  | [] => (Ok done, h)
  | action :: actions =>
      match apply_action options action h with
      | (Ok added, h) => apply_loop options actions {| applied := applied done ++ added |} h
      | (Err err, h) =>
          if returns_at_once action then (Err err, h)
          else
            match rollback done h with
            | (Err rollback_err, h) =>
                (Err (Network (error_text err +:+ "; rollback also failed: " +:+ error_text rollback_err)), h)
            | (_, h) => (Err err, h)
            end
      | (Panic, h) => (Panic, h)
      | (Diverge, h) => (Diverge, h)
      end
  end.

Definition apply_network_plan (plan : NetworkPlan) (options : ApplyOptions) (h : host)
    : result AppliedNetworkPlan * host :=
  apply_loop options (actions plan) {| applied := [] |} h.

(** ** Specifications *)

(** What undoing an action asks of the host. *)
Definition undone (a : AppliedNetworkAction) (evs : list host_event) : Prop :=
  match a with
  | ProtectedTunnelRoute program args | Command program args => evs = [RanCommand program args None]
  | DefaultRoute platform interface restore =>
      ∃ deletes, evs = deletes ++ match restore with
                                  | Some (program, args) => [RanCommand program args None]
                                  | None => []
                                  end ∧
        deletes ≠ [] ∧ Forall (λ e, ∃ program args, e = RanCommand program args None ∧ "default" ∈ args) deletes
  | Resolvconf program interface => evs = [RanCommand program ["-d"; interface +:+ ".openfortivpn"] None]
  | MacOsScutilDns program key =>
      evs = [RanCommand program [] (Some (as_bytes (build_macos_scutil_remove_script key)))]
  | ResolvConfFile added =>
      ∃ current, evs = [ReadFile RESOLV_CONF_PATH;
                        WroteFile RESOLV_CONF_PATH (remove_added_dns_lines current added)]
  end.

(** The command that undoes a planned one, and the applied one it is recorded
    as. *)
Definition planned_undo (a : NetworkAction) : option (str * list str) :=
  match a with
  | RunCommand program args => pair program <$> rollback_args_for_command program args
  | _ => None
  end.
Definition applied_command (a : AppliedNetworkAction) : option (str * list str) :=
  match a with Command program args => Some (program, args) | _ => None end.

(** An effect that stays: a route that can be taken back, an input that was
    given to a name server program, a file that was written. *)
Definition installs (e : host_event) : bool :=
  match e with
  | RanCommand program args None =>
      match rollback_args_for_command program args with Some _ => true | None => false end
  | RanCommand _ _ (Some _) | WroteFile _ _ => true
  | ReadFile _ => false
  end.

(** The record that takes an effect back. *)
Inductive undoes : AppliedNetworkAction → host_event → Prop :=
  | undoes_command program args rollback_args :
      rollback_args_for_command program args = Some rollback_args →
      undoes (Command program rollback_args) (RanCommand program args None)
  | undoes_linux_host destination rest :
      undoes (ProtectedTunnelRoute "ip" ["route"; "del"; destination])
        (RanCommand "ip" ("route" :: "add" :: destination :: rest) None)
  | undoes_macos_host destination rest :
      undoes (ProtectedTunnelRoute "/sbin/route" ["delete"; "-host"; destination])
        (RanCommand "/sbin/route" ("add" :: "-host" :: destination :: rest) None)
  | undoes_linux_default interface restore :
      undoes (DefaultRoute Linux interface restore)
        (RanCommand "ip" ["route"; "add"; "default"; "dev"; interface] None)
  | undoes_macos_default interface restore :
      undoes (DefaultRoute MacOs interface restore)
        (RanCommand "/sbin/route" ["add"; "default"; "-interface"; interface] None)
  | undoes_resolvconf program interface body :
      undoes (Resolvconf program interface) (RanCommand program ["-a"; interface +:+ ".openfortivpn"] (Some body))
  | undoes_scutil program key interface servers domain :
      undoes (MacOsScutilDns program key)
        (RanCommand program [] (Some (as_bytes (build_macos_scutil_dns_script key interface servers domain))))
  | undoes_file original added :
      undoes (ResolvConfFile added)
        (WroteFile RESOLV_CONF_PATH (prepend_dns_lines_to_resolv_conf original added)).

(** ** Effects *)

Lemma command_output_effects program args stdin h r h' : command_output program args stdin h = (r, h') →
  effects h' = effects h ++ match r with Ok o => if success o then [RanCommand program args stdin] else [] | _ => [] end.
Proof.
  unfold command_output. cbn. destruct (replies h) as [|[o|k] rest]; intros [= <- <-]; cbn; [done|by destruct (success o)|].
  by rewrite app_nil_r.
Qed.

Lemma run_command_effects stdin program args h r h' : run_command_with stdin program args h = (r, h') →
  effects h' = effects h ++ match r with Ok _ => [RanCommand program args stdin] | _ => [] end.
Proof.
  unfold run_command_with. destruct (command_output program args stdin h) as [r1 h1] eqn:E.
  apply command_output_effects in E. destruct r1 as [o|e| |]; cbn [sbind]; [|by intros [= <- <-]..].
  destruct (success o); by intros [= <- <-].
Qed.

Lemma read_resolv_conf_effects h r h' : read_resolv_conf h = (r, h') → effects h' = effects h.
Proof. unfold read_resolv_conf, file_reply. cbn. destruct (file_replies h) as [|[[k l]|] rest]; by intros [= <- <-]. Qed.

Lemma write_resolv_conf_effects contents h r h' : write_resolv_conf contents h = (r, h') →
  effects h' = effects h ++ match r with Ok _ => [WroteFile RESOLV_CONF_PATH contents] | _ => [] end.
Proof.
  unfold write_resolv_conf, file_reply. cbn. destruct (file_replies h) as [|[[k l]|] rest]; intros [= <- <-]; cbn; try done.
  by rewrite app_nil_r.
Qed.

(** What [f] did to the host that stays. *)
Definition stays (h h' : host) (l : list host_event) : Prop :=
  ∃ evs, effects h' = effects h ++ evs ∧ List.filter installs evs = l.

Lemma stays_refl h : stays h h [].
Proof. exists []. by rewrite app_nil_r. Qed.

Lemma stays_trans h1 h2 h3 l k : stays h1 h2 l → stays h2 h3 k → stays h1 h3 (l ++ k).
Proof.
  intros (a & Ha & <-) (b & Hb & <-). exists (a ++ b). by rewrite Hb, Ha, <- app_assoc, List.filter_app.
Qed.

Lemma stays_event h h' evs : effects h' = effects h ++ evs → stays h h' (List.filter installs evs).
Proof. intros E. by exists evs. Qed.

Lemma stays_none h h' : effects h' = effects h → stays h h' [].
Proof. intros E. exists []. by rewrite app_nil_r. Qed.

(** A command that installs nothing, whatever it comes to. *)
Lemma query_stays program args h r h' : command_output program args None h = (r, h') →
  rollback_args_for_command program args = None → stays h h' [].
Proof.
  intros E%command_output_effects Hn. eexists. split; [exact E|]. destruct r as [o|e| |]; [destruct (success o)|..]; cbn; by rewrite ?Hn.
Qed.

Lemma run_stays program args h r h' : run_command program args h = (r, h') →
  rollback_args_for_command program args = None → stays h h' [].
Proof.
  intros E%run_command_effects Hn. eexists. split; [exact E|]. destruct r; cbn; by rewrite ?Hn.
Qed.

Lemma delete_default_stays platform interface h : stays h (delete_default_route platform interface h) [].
Proof.
  unfold delete_default_route.
  assert (∀ program first second, rollback_args_for_command program first = None → rollback_args_for_command program second = None →
    stays h (match run_command program first h with (Ok _, h) => h | (_, h) => snd (run_command program second h) end) []) as H.
  { intros program first second H1 H2. destruct (run_command program first h) as [r h1] eqn:E1.
    pose proof (run_stays _ _ _ _ _ E1 H1) as S1. destruct (run_command program second h1) as [r2 h2] eqn:E2.
    pose proof (run_stays _ _ _ _ _ E2 H2) as S2. pose proof (stays_trans _ _ _ _ _ S1 S2). by destruct r. }
  destruct platform; by apply H.
Qed.

(** What stays of an action, and the records it makes; an action that fails
    leaves nothing, but for a default route that it has put back. *)
Definition accounted (action : NetworkAction) (r : result (list AppliedNetworkAction)) (l : list host_event) : Prop :=
  match r with
  | Ok added => Forall2 undoes added l
  | _ => l = [] ∨ ∃ platform interface program args, action = ReplaceDefaultRoute platform interface ∧
           l = [RanCommand program args None]
  end.

Lemma protect_accounted platform endpoint h r h' : protect_tunnel_route platform endpoint h = (r, h') →
  ∃ l, stays h h' l ∧ accounted (ProtectTunnelRoute platform endpoint) r l.
Proof.
  unfold protect_tunnel_route.
  destruct (build_protect_tunnel_route_commands platform endpoint h) as [rb h1] eqn:E.
  assert (stays h h1 [] ∧ ∀ c, rb = Ok c → ∀ program args rollback_args, c = Some (program, args, rollback_args) →
    undoes (ProtectedTunnelRoute program rollback_args) (RanCommand program args None) ∧
    installs (RanCommand program args None) = true) as [S1 Hc].
  { revert E. destruct platform; cbn [build_protect_tunnel_route_commands];
      unfold build_linux_protect_tunnel_route_commands, build_macos_protect_tunnel_route_commands;
      (destruct (command_output _ _ None h) as [ro h2] eqn:Eo; pose proof (query_stays _ _ _ _ _ Eo eq_refl) as S;
       destruct ro as [o|e| |]; cbn [sbind]; [|by intros [= <- <-]..];
       destruct (success o); cbn [negb]; [|intros [= <- <-]; split; [done|]; by intros c [= <-]];
       intros [= <- <-]; split; [done|]; intros c [= <-] program args rb Hp).
    - unfold parse_linux_route_get_for_host_route in Hp.
      destruct (head _) as [line|]; [|done]. cbn [mbind option_bind] in Hp. destruct (_ || _); [done|].
      destruct (token_after _ "dev"); [|done]. cbn in Hp. injection Hp as <- <- <-. split; [constructor|done].
    - unfold parse_macos_route_get_for_host_route in Hp.
      destruct (macos_route_value _ "interface:"); [|done]. cbn [mbind option_bind] in Hp. destruct (starts_with _ _); [done|].
      cbn in Hp. injection Hp as <- <- <-. split; [constructor|].
      destruct (macos_route_value _ "gateway:") as [g|]; [|done]. by destruct (str_is_empty g). }
  destruct rb as [c|e| |]; cbn [sbind]; [|intros [= <- <-]; exists []; (split; [done|by left])..].
  destruct c as [[[program args] rollback_args]|]; [|intros [= <- <-]; exists []; (split; [done|constructor])].
  destruct (Hc _ eq_refl _ _ _ eq_refl) as [Hu Hi]. unfold run_command_ignore_existing_route.
  destruct (command_output program args None h1) as [ro h2] eqn:Eo. apply command_output_effects in Eo.
  assert (∀ l, List.filter installs match ro with Ok o => if success o then [RanCommand program args None] else [] | _ => [] end = l →
    stays h h2 l) as S2.
  { intros l <-. by apply (stays_trans _ h1 _ []), stays_event. }
  destruct ro as [o|e| |]; cbn [sbind]; [|by intros [= <- <-]; exists []; split; [apply S2|by left]..].
  destruct (success o); cbn [sbind].
  - intros [= <- <-]. exists [RanCommand program args None]. split; [apply S2; cbn [List.filter]; by rewrite Hi|]. by repeat constructor.
  - destruct (command_output_mentions_existing_route _ _); cbn [sbind]; intros [= <- <-]; exists [];
      (split; [by apply S2|]); [constructor|by left].
Qed.

Lemma default_accounted platform interface h r h' : apply_default_route platform interface h = (r, h') →
  ∃ l, stays h h' l ∧ accounted (ReplaceDefaultRoute platform interface) r l.
Proof.
  unfold apply_default_route. destruct (capture_default_route platform h) as [rc h1] eqn:E.
  assert (stays h h1 []) as S1.
  { revert E. destruct platform; cbn [capture_default_route]; unfold capture_linux_default_route, capture_macos_default_route;
      (destruct (command_output _ _ None h) as [ro h2] eqn:Eo; pose proof (query_stays _ _ _ _ _ Eo eq_refl) as S;
       destruct ro as [o|e| |]; cbn [sbind]; [|by intros [= <- <-]..]; destruct (success o); cbn [negb]; by intros [= <- <-]). }
  destruct rc as [restore|e| |]; cbn [sbind]; [|intros [= <- <-]; exists []; (split; [done|by left])..].
  pose proof (stays_trans _ _ _ _ _ S1 (delete_default_stays platform interface h1)) as S2.
  set (h2 := delete_default_route platform interface h1) in *. clearbody h2. cbn [app] in S2.
  destruct (add_default_route platform interface h2) as [ra h3] eqn:Ea.
  assert (∃ e, effects h3 = effects h2 ++ match ra with Ok _ => [e] | _ => [] end ∧ installs e = true ∧
    ∀ restore, undoes (DefaultRoute platform interface restore) e) as (ev & He & Hi & Hu).
  { unfold add_default_route in Ea. destruct platform; apply run_command_effects in Ea; eexists; (split; [exact Ea|]);
      (split; [done|]); constructor. }
  apply stays_event in He. pose proof (stays_trans _ _ _ _ _ S2 He) as S3. cbn [app] in S3.
  destruct ra as [u|e| |]; try (intros [= <- <-]; exists []; (split; [done|by left])).
  - intros [= <- <-]. eexists. split; [exact S3|]. cbn [List.filter]. rewrite Hi. by repeat constructor.
  - destruct restore as [[program args]|]; [|intros [= <- <-]; exists []; (split; [done|by left])].
    destruct (run_command program args h3) as [rr h4] eqn:Er. apply run_command_effects, stays_event in Er.
    pose proof (stays_trans _ _ _ _ _ S3 Er) as S4. cbn [app List.filter] in S4.
    assert (∃ l, stays h h4 l ∧ (l = [] ∨ ∃ pl i p a, ReplaceDefaultRoute platform interface = ReplaceDefaultRoute pl i ∧
      l = [RanCommand p a None])) as (l & Hl & Hcase).
    { eexists. split; [exact S4|]. destruct rr; cbn [List.filter]; try by left. destruct (installs (RanCommand program args None)); [right|by left].
      by exists platform, interface, program, args. }
    intros E'. exists l. destruct rr; injection E' as <- <-; by split.
Qed.

Lemma dns_accounted options platform interface servers domain h r h' :
  apply_dns platform interface servers domain options h = (r, h') →
  ∃ l, stays h h' l ∧ accounted (ConfigureDns platform interface servers domain) r l.
Proof.
  unfold apply_dns. destruct (match servers, domain with [], None => true | _, _ => false end).
  { intros [= <- <-]. exists []. split; [apply stays_refl|constructor]. }
  set (scutil := match platform with Linux => _ | MacOs => _ end). destruct scutil as [rs h1] eqn:E.
  assert (∃ l, stays h h1 l ∧ ((∃ a, rs = Ok (Some a) ∧ Forall2 undoes [a] l) ∨ rs = Ok None ∧ l = [])) as (l & S1 & Hcase).
  { subst scutil. destruct platform; [injection E as <- <-; exists []; split; [apply stays_refl|by right]|].
    unfold apply_macos_scutil_dns in E. destruct (find_scutil h) as [program|];
      [|injection E as <- <-; exists []; split; [apply stays_refl|by right]].
    unfold run_command_with_stdin in E. destruct (run_command_with _ program [] h) as [rr h2] eqn:Er.
    apply run_command_effects, stays_event in Er.
    destruct rr; injection E as <- <-; eexists; (split; [exact Er|]); [left|by right..]. eexists. split; [done|]. by repeat constructor. }
  destruct Hcase as [(a & -> & Hu)|[-> ->]]; cbn [sbind]; [intros [= <- <-]; by exists l|].
  destruct (if use_resolvconf options then find_resolvconf h1 else None) as [program|].
  - unfold run_command_with_stdin. destruct (run_command_with _ program _ h1) as [rr h2] eqn:Er.
    apply run_command_effects, stays_event in Er. pose proof (stays_trans _ _ _ _ _ S1 Er) as S2.
    destruct rr; cbn [sbind]; intros [= <- <-]; (eexists; split; [exact S2|]); first [by left|by repeat constructor].
  - destruct (read_resolv_conf h1) as [rr h2] eqn:Er. apply read_resolv_conf_effects, stays_none in Er.
    pose proof (stays_trans _ _ _ _ _ S1 Er) as S2. cbn [app] in S2.
    destruct rr as [original|e| |]; cbn [sbind]; [|intros [= <- <-]; exists []; (split; [done|by left])..].
    destruct (dns_lines_to_add original servers domain) as [|line lines]; [intros [= <- <-]; exists []; (split; [done|constructor])|].
    destruct (write_resolv_conf _ h2) as [rw h3] eqn:Ew. apply write_resolv_conf_effects, stays_event in Ew.
    pose proof (stays_trans _ _ _ _ _ S2 Ew) as S3.
    destruct rw; cbn [sbind]; intros [= <- <-]; (eexists; split; [exact S3|]); first [by left|by repeat constructor].
Qed.

Lemma action_accounted options action h r h' : apply_action options action h = (r, h') →
  ∃ l, stays h h' l ∧ accounted action r l.
Proof.
  destruct action as [pl ep i|pl ep|p args|pl i|pl i servers domain]; cbn [apply_action].
  - intros [= <- <-]. exists []. split; [|constructor]. unfold drop_wrong_tunnel_route.
    destruct pl; unfold drop_wrong_linux_tunnel_route, drop_wrong_macos_tunnel_route;
      (destruct (command_output _ _ None h) as [ro h2] eqn:Eo; pose proof (query_stays _ _ _ _ _ Eo eq_refl) as S;
       destruct ro as [o|e| |]; cbn [sbind snd]; try done).
    + destruct (_ || _); [done|]. destruct (run_command _ _ h2) as [rr h3] eqn:Er. cbn [snd].
      exact (stays_trans _ _ _ _ _ S (run_stays _ _ _ _ _ Er eq_refl)).
    + destruct (negb _); [done|]. destruct (decide _); [|done]. destruct (run_command _ _ h2) as [rr h3] eqn:Er. cbn [snd].
      exact (stays_trans _ _ _ _ _ S (run_stays _ _ _ _ _ Er eq_refl)).
  - apply protect_accounted.
  - destruct (run_command p args h) as [rr h1] eqn:Er. apply run_command_effects, stays_event in Er.
    destruct rr as [u|e| |]; cbn [sbind]; intros [= <- <-]; (eexists; split; [exact Er|]); [|by left..].
    cbn [List.filter installs]. destruct (rollback_args_for_command p args) as [rb|] eqn:Erb; repeat constructor. exact Erb.
  - apply default_accounted.
  - apply dns_accounted.
Qed.

Lemma apply_loop_app options before acts done h done1 h1 : apply_loop options before done h = (Ok done1, h1) →
  apply_loop options (before ++ acts) done h = apply_loop options acts done1 h1.
Proof.
  revert done h. induction before as [|a before IH]; intros done h; cbn [app apply_loop]; [by intros [= <- <-]|].
  destruct (apply_action options a h) as [[added|e| |] h2]; try done; [apply IH|].
  destruct (returns_at_once a); [done|]. by destruct (rollback done h2) as [[]].
Qed.

(** The records of a run of actions take back all that stays of them. *)
Lemma apply_loop_accounted options acts done h done' h' : apply_loop options acts done h = (Ok done', h') →
  ∃ added l, applied done' = applied done ++ added ∧ stays h h' l ∧ Forall2 undoes added l.
Proof.
  revert done h. induction acts as [|a acts IH]; intros done h; cbn [apply_loop].
  - intros [= <- <-]. exists [], []. rewrite app_nil_r. split; [done|]. split; [apply stays_refl|constructor].
  - destruct (apply_action options a h) as [[added|e| |] h1] eqn:Ha; try done.
    + intros (more & k & H1 & H2 & H3)%IH. apply action_accounted in Ha as (l & Hl & Hacc). cbn in Hacc.
      exists (added ++ more), (l ++ k). cbn [applied] in H1. rewrite H1, <- app_assoc. split; [done|].
      split; [by eapply stays_trans|by apply Forall2_app].
    + destruct (returns_at_once a); [done|]. by destruct (rollback done h1) as [[]].
Qed.

Lemma apply_network_plan_accounted plan options h done h' : apply_network_plan plan options h = (Ok done, h') →
  ∃ installed, stays h h' installed ∧ Forall2 undoes (applied done) installed.
Proof. intros (added & l & E & Hl & Hu)%apply_loop_accounted. exists l. by rewrite E. Qed.

(** ** What is recorded *)

Lemma host_command program args stdin h :
  ∃ r, fst (command_output program args stdin h) = r ∧ (is_ok r = true ∨ ∃ e, r = Err e) ∧
    log (snd (command_output program args stdin h)) = log h ++ [RanCommand program args stdin] ∧
    file_replies (snd (command_output program args stdin h)) = file_replies h.
Proof.
  unfold command_output. cbn. destruct (replies h) as [|[o|k] rest]; cbn; eauto 10.
Qed.

Lemma run_command_with_log stdin program args h :
  let '(r, h') := run_command_with stdin program args h in
  (r = Ok tt ∨ ∃ e, r = Err e) ∧ log h' = log h ++ [RanCommand program args stdin] ∧ file_replies h' = file_replies h.
Proof.
  unfold run_command_with. destruct (host_command program args stdin h) as (r & Hr & Hcase & Hl & Hf).
  destruct (command_output program args stdin h) as [r' h']. cbn [fst snd] in *. subst r'.
  destruct r as [o|e| |]; [| |by destruct Hcase as [|[]]..]; cbn [sbind]; [|by eauto].
  destruct (success o); eauto.
Qed.

Lemma no_command_added options action h added h' :
  apply_action options action h = (Ok added, h') →
  omap applied_command added = option_list (planned_undo action).
Proof.
  destruct action as [p e i|p e|prog args|p i|p i ss d]; cbn [apply_action planned_undo].
  - by intros [= <- _].
  - unfold protect_tunnel_route. intros (c & h1 & _ & H)%sbind_ok_inv.
    destruct c as [[[prog args] r]|]; [|by injection H as <- _].
    apply sbind_ok_inv in H as (b & h2 & _ & [= <- _]). by destruct b.
  - intros ([] & h1 & _ & [= <- _])%sbind_ok_inv. by destruct (rollback_args_for_command prog args).
  - unfold apply_default_route. intros (r & h1 & _ & H)%sbind_ok_inv.
    destruct (add_default_route p i _) as [[[]|err| |] h2]; try done; [by injection H as <- _|].
    destruct r as [[prog args]|]; [|done]. by destruct (run_command prog args h2) as [[]].
  - unfold apply_dns. destruct (match ss, d with [], None => true | _, _ => false end); [by intros [= <- _]|].
    intros (sc & h1 & Hsc & H)%sbind_ok_inv. destruct sc as [a|].
    + injection H as <- _. destruct p; [done|]. unfold apply_macos_scutil_dns in Hsc.
      destruct (find_scutil h); [|done]. destruct (run_command_with_stdin _ _ _ _) as [[]]; try done.
      by injection Hsc as <- _.
    + destruct (if use_resolvconf options then find_resolvconf h1 else None).
      * by apply sbind_ok_inv in H as (? & h2 & _ & [= <- _]).
      * apply sbind_ok_inv in H as (c & h2 & _ & H). destruct (dns_lines_to_add c ss d); [by injection H as <- _|].
        by apply sbind_ok_inv in H as (? & h3 & _ & [= <- _]).
Qed.

Lemma omap_app {A B} (f : A → option B) (l k : list A) : omap f (l ++ k) = omap f l ++ omap f k.
Proof. induction l as [|x l IH]; [done|]. cbn. destruct (f x); cbn; by rewrite IH. Qed.

Lemma apply_loop_records options acts done h done' h' :
  apply_loop options acts done h = (Ok done', h') →
  omap applied_command (applied done') = omap applied_command (applied done) ++ omap planned_undo acts.
Proof.
  revert done h. induction acts as [|a acts IH]; intros done h; cbn [apply_loop].
  - intros [= <- _]. by rewrite app_nil_r.
  - destruct (apply_action options a h) as [[added|e| |] h1] eqn:Ha; try done.
    + intros H%IH. rewrite H. cbn [applied]. rewrite omap_app, (no_command_added _ _ _ _ _ Ha), <- app_assoc.
      f_equal. cbn. by destruct (planned_undo a).
    + destruct (returns_at_once a); [done|]. by destruct (rollback done h1) as [[]].
Qed.

(** Nothing that a plan installs is forgotten: when a plan was applied, the
    record holds the undoing of every route command of the plan, in the order
    of the plan, and no other command. *)
Theorem apply_records_route_commands plan options h done h' :
  apply_network_plan plan options h = (Ok done, h') →
  omap applied_command (applied done) = omap planned_undo (actions plan).
Proof. intros H%apply_loop_records. done. Qed.

Definition demo_host : host :=
  {| log := []; effects := []; replies := []; resolv_conf := as_bytes ("nameserver 1.1.1.1" +:+ String newline ""); file_replies := [];
     path_exists := λ _, false; in_path := λ _, None |}.

Lemma apply_records_route_commands_witness :
  omap applied_command (applied {| applied :=
    [Command "ip" ["route"; "del"; "10.10.0.0/16"; "via"; "10.212.134.200"; "dev"; "ppp0"];
     Command "ip" ["route"; "del"; "192.168.1.0/24"; "via"; "10.212.134.200"; "dev"; "ppp0"];
     ResolvConfFile ["nameserver 10.0.0.10"]] |}) = omap planned_undo (actions demo_plan).
Proof.
  apply (apply_records_route_commands demo_plan default_options demo_host _
    (snd (apply_network_plan demo_plan default_options demo_host))).
  vm_compute. reflexivity.
Defined.

(** ** Undoing *)

Lemma delete_default_route_log platform interface h :
  let h' := delete_default_route platform interface h in
  ∃ deletes, log h' = log h ++ deletes ∧ file_replies h' = file_replies h ∧ deletes ≠ [] ∧
    Forall (λ e, ∃ program args, e = RanCommand program args None ∧ "default" ∈ args) deletes.
Proof.
  cbv zeta. unfold delete_default_route.
  destruct (match platform with Linux => _ | MacOs => _ end) as [[program first] second] eqn:E.
  assert ("default" ∈ first ∧ "default" ∈ second) as [H1 H2].
  { destruct platform; injection E as <- <- <-; rewrite !elem_of_cons; tauto. }
  pose proof (run_command_with_log None program first h) as Hr. fold (run_command program first) in Hr.
  change (run_command_with None program first h) with (run_command program first h) in Hr.
  destruct (run_command program first h) as [r h1]. destruct Hr as (Hc & Hl & Hf).
  assert (Forall (λ e, ∃ program args, e = RanCommand program args None ∧ "default" ∈ args) [RanCommand program first None]) as Hev
    by eauto.
  destruct Hc as [->|[e ->]]; [by exists [RanCommand program first None]|].
  pose proof (run_command_with_log None program second h1) as Hr.
  change (run_command_with None program second h1) with (run_command program second h1) in Hr.
  destruct (run_command program second h1) as [r2 h2]. destruct Hr as (_ & Hl2 & Hf2). cbn [snd].
  exists [RanCommand program first None; RanCommand program second None].
  rewrite Hl2, Hl, Hf2, Hf, <- app_assoc. split_and!; [done..|]. constructor; eauto.
Qed.

Lemma run_command_log program args h :
  let '(r, h') := run_command program args h in
  (r = Ok tt ∨ ∃ e, r = Err e) ∧ log h' = log h ++ [RanCommand program args None] ∧ file_replies h' = file_replies h.
Proof. apply run_command_with_log. Qed.

(** Undoing one action does what [undone] says, whatever fails. *)
Lemma rollback_action_undoes a h :
  file_replies h = [] →
  ∃ r h' evs, rollback_action a h = (false, r, h') ∧ (r = Ok tt ∨ ∃ e, r = Err e) ∧
    log h' = log h ++ evs ∧ undone a evs ∧ file_replies h' = [].
Proof.
  intros Hfile. destruct a as [p args|p args|pl i restore|p i|p k|added]; cbn [rollback_action undone].
  - pose proof (run_command_log p args h) as H. destruct (run_command p args h) as [r h'].
    destruct H as (? & ? & Hf). exists r, h', [RanCommand p args None]. rewrite Hf. auto.
  - pose proof (run_command_log p args h) as H. destruct (run_command p args h) as [r h'].
    destruct H as (? & ? & Hf). exists r, h', [RanCommand p args None]. rewrite Hf. auto.
  - unfold rollback_default_route. destruct (delete_default_route_log pl i h) as (dels & Hl & Hf & Hne & Hd).
    destruct restore as [[p args]|].
    + pose proof (run_command_log p args (delete_default_route pl i h)) as H.
      destruct (run_command p args (delete_default_route pl i h)) as [r h']. destruct H as (? & Hl' & Hf').
      exists r, h', (dels ++ [RanCommand p args None]). rewrite Hl', Hl, Hf', Hf, app_assoc. eauto 10.
    + exists (Ok tt), (delete_default_route pl i h), dels. rewrite Hf. split_and!; [done|by left|done| |done].
      exists dels. by rewrite app_nil_r.
  - pose proof (run_command_log p ["-d"; i +:+ ".openfortivpn"] h) as H.
    destruct (run_command p _ h) as [r h']. destruct H as (? & ? & Hf).
    exists r, h', [RanCommand p ["-d"; i +:+ ".openfortivpn"] None]. rewrite Hf. auto.
  - pose proof (run_command_with_log (Some (as_bytes (build_macos_scutil_remove_script k))) p [] h) as H.
    unfold run_command_with_stdin. destruct (run_command_with _ p [] h) as [r h']. destruct H as (? & ? & Hf).
    eexists r, h', _. rewrite Hf. eauto.
  - unfold read_resolv_conf, write_resolv_conf, file_reply. cbn. rewrite Hfile. cbn. rewrite Hfile. cbn.
    eexists (Ok tt), _, _. split; [reflexivity|]. cbn. rewrite <- app_assoc. eauto 10.
Qed.

Lemma rollback_loop_undoes pending first_error h :
  file_replies h = [] →
  ∃ r h' evs, rollback_loop pending first_error h = (r, h') ∧ (r = Ok tt ∨ ∃ e, r = Err e) ∧
    (∀ e, first_error = Some e → r = Err e) ∧ log h' = log h ++ concat evs ∧ Forall2 undone pending evs.
Proof.
  revert first_error h. induction pending as [|a pending IH]; intros first_error h Hf; cbn [rollback_loop].
  - eexists _, h, []. split; [reflexivity|]. rewrite app_nil_r. destruct first_error; split_and!; eauto; congruence.
  - destruct (rollback_action_undoes a h Hf) as (r & h1 & ev & -> & Hc & Hl & Hu & Hf1).
    assert (∃ err, match r with Err e => rollback_loop pending match first_error with None => Some e | _ => first_error end h1
      | _ => rollback_loop pending first_error h1 end = rollback_loop pending err h1 ∧
      (∀ e, first_error = Some e → err = Some e)) as (err & Heq & Herr).
    { destruct Hc as [->|[e ->]]; eexists; (split; [reflexivity|]); [done|]. by intros e' ->. }
    destruct (IH err h1 Hf1) as (r' & h' & evs & Hr & Hc' & Hfirst & Hl' & Hu').
    exists r', h', (ev :: evs). split_and!; [|done| |..].
    + rewrite <- Hr, <- Heq. by destruct Hc as [->|[e ->]].
    + intros e He. by apply Hfirst, Herr.
    + rewrite Hl', Hl. cbn [concat]. by rewrite app_assoc.
    + by constructor.
Qed.

(** C13: Undoing is complete: as long as resolv.conf can be read and written,
    [rollback] undoes every action that was applied, the last one first, no
    matter which of its commands fail, and only then answers success or the
    first error. *)
Theorem rollback_undoes_everything done h :
  file_replies h = [] →
  ∃ r h' evs, rollback done h = (r, h') ∧ (r = Ok tt ∨ ∃ e, r = Err e) ∧
    log h' = log h ++ concat evs ∧ Forall2 undone (reverse (applied done)) evs.
Proof.
  intros Hf. destruct (rollback_loop_undoes (reverse (applied done)) None h Hf) as (r & h' & evs & H1 & H2 & _ & H3).
  exists r, h', evs. auto.
Qed.

(** Every operation on the host answers. *)
Lemma command_output_returns program args stdin h : returns (fst (command_output program args stdin h)).
Proof. unfold command_output. by destruct (replies _) as [|[] ?]. Qed.

Lemma run_command_with_returns stdin program args h : returns (fst (run_command_with stdin program args h)).
Proof.
  unfold run_command_with. apply sbind_returns; [apply command_output_returns|]. intros o h' _. by destruct (success o).
Qed.

Lemma rollback_action_returns a h : returns (snd (fst (rollback_action a h))).
Proof.
  assert (∀ stdin p args h, returns (snd (fst (let '(r, h) := run_command_with stdin p args h in (false, r, h))))) as Hrun.
  { intros stdin p args h'. pose proof (run_command_with_returns stdin p args h') as H. by destruct (run_command_with _ _ _ _). }
  destruct a as [p args|p args|pl i [[p args]|]|p i|p k|added]; cbn [rollback_action rollback_default_route]; try apply Hrun; try done.
  unfold read_resolv_conf, write_resolv_conf, file_reply.
  repeat first [done|case_match; simplify_eq/=|done].
Qed.

Lemma rollback_loop_returns pending first_error h : returns (fst (rollback_loop pending first_error h)).
Proof.
  revert first_error h. induction pending as [|a pending IH]; intros first_error h; cbn [rollback_loop].
  { by destruct first_error. }
  pose proof (rollback_action_returns a h) as Ha. destruct (rollback_action a h) as [[[] [u|e| |]] h']; try done; apply IH.
Qed.

Lemma apply_action_returns options action h : returns (fst (apply_action options action h)).
Proof.
  pose proof (λ stdin p args h, run_command_with_returns stdin p args h) as Hrun.
  destruct action as [pl ep i|pl ep|p args|pl i|pl i servers domain]; cbn [apply_action]; [done| | | |].
  - unfold protect_tunnel_route. apply sbind_returns.
    { destruct pl; cbn; unfold build_linux_protect_tunnel_route_commands, build_macos_protect_tunnel_route_commands;
        (apply sbind_returns; [apply command_output_returns|]; intros o h' _; by destruct (success o)). }
    intros [[[p args] rb]|] h' _; [|done]. apply sbind_returns; [|done]. unfold run_command_ignore_existing_route.
    apply sbind_returns; [apply command_output_returns|]. intros o h2 _. by repeat case_match.
  - apply sbind_returns; [apply Hrun|done].
  - unfold apply_default_route. apply sbind_returns.
    { destruct pl; cbn; unfold capture_linux_default_route, capture_macos_default_route;
        (apply sbind_returns; [apply command_output_returns|]; intros o h' _; by destruct (success o)). }
    intros restore h' _.
    assert (∀ h, returns (fst (add_default_route pl i h))) as Hadd by (intros h2; destruct pl; apply Hrun).
    specialize (Hadd (delete_default_route pl i h')). destruct (add_default_route _ _ _) as [[u|e| |] h2]; try done.
    destruct restore as [[p args]|]; [|done]. by destruct (run_command p args h2) as [[] ?].
  - unfold apply_dns. match goal with |- context [if ?b then _ else _] => destruct b end; [done|]. apply sbind_returns.
    { destruct pl; [done|]. unfold apply_macos_scutil_dns. destruct (find_scutil h); [|done].
      by destruct (run_command_with_stdin _ _ _ _) as [[] ?]. }
    intros [a|] h' _; [done|]. destruct (if use_resolvconf options then _ else _).
    + apply sbind_returns; [apply Hrun|done].
    + unfold read_resolv_conf, write_resolv_conf, file_reply. apply sbind_returns; [by repeat (case_match; simplify_eq/=)|].
      intros original h2 _. destruct (dns_lines_to_add _ _ _); [done|]. apply sbind_returns; [|done]. by repeat (case_match; simplify_eq/=).
Qed.

Lemma apply_network_plan_returns plan options h : returns (fst (apply_network_plan plan options h)).
Proof.
  unfold apply_network_plan. generalize {| applied := [] |}. revert h.
  induction (actions plan) as [|a acts IH]; intros h done; cbn [apply_loop]; [exact I|].
  pose proof (apply_action_returns options a h) as Ha. destruct (apply_action options a h) as [[added|e| |] h']; try done.
  destruct (returns_at_once a); [exact I|]. pose proof (rollback_loop_returns (reverse (applied done)) None h') as Hr.
  unfold rollback. by destruct (rollback_loop _ _ _) as [[] ?].
Qed.

Definition failing_host : host :=
  {| log := []; effects := []; replies := [Failed NotFound; Failed NotFound]; resolv_conf := []; file_replies := [];
     path_exists := λ _, false; in_path := λ _, None |}.

Lemma rollback_undoes_everything_witness :
  let done := {| applied := [Command "ip" ["route"; "del"; "10.0.0.0/8"]; Command "ip" ["route"; "del"; "11.0.0.0/8"]] |} in
  ∃ r h' evs, rollback done failing_host = (r, h') ∧ (r = Ok tt ∨ ∃ e, r = Err e) ∧
    log h' = log failing_host ++ concat evs ∧ Forall2 undone (reverse (applied done)) evs.
Proof.
  intros done. apply (rollback_undoes_everything done failing_host). reflexivity.
Defined.

(** What undoing leaves of a record, in the order of the undoing. *)
Definition taken_back (done : AppliedNetworkPlan) (h h' : host) : Prop :=
  file_replies h = [] → ∃ evs, log h' = log h ++ concat evs ∧ Forall2 undone (reverse (applied done)) evs.

Lemma rollback_takes_back done h : taken_back done h (snd (rollback done h)).
Proof.
  intros Hf. unfold rollback.
  destruct (rollback_loop_undoes (reverse (applied done)) None h Hf) as (r & h' & evs & -> & _ & _ & Hl & Hd). by exists evs.
Qed.

(** How a plan that fails with [e] leaves the host. *)
Definition left_by_failure (plan : NetworkPlan) (options : ApplyOptions) (h : host) (e : OpenfortivpnError) (h' : host)
    : Prop :=
  ∃ before action after done h1 installed err h2 remains,
    actions plan = before ++ action :: after ∧
    apply_loop options before {| applied := [] |} h = (Ok done, h1) ∧
    stays h h1 installed ∧ Forall2 undoes (applied done) installed ∧
    apply_action options action h1 = (Err err, h2) ∧
    stays h1 h2 remains ∧ accounted action (Err err) remains ∧
    if returns_at_once action then h' = h2 ∧ e = err
    else h' = snd (rollback done h2) ∧ taken_back done h2 h'.

Lemma apply_failure plan options h e h' :
  apply_network_plan plan options h = (Err e, h') → left_by_failure plan options h e h'.
Proof.
  unfold apply_network_plan, left_by_failure.
  assert (∀ acts before d h0 h, apply_loop options before {| applied := [] |} h0 = (Ok d, h) →
    apply_loop options acts d h = (Err e, h') →
    ∃ more action after done h1 err h2, acts = more ++ action :: after ∧
      apply_loop options (before ++ more) {| applied := [] |} h0 = (Ok done, h1) ∧
      apply_action options action h1 = (Err err, h2) ∧
      if returns_at_once action then h' = h2 ∧ e = err else h' = snd (rollback done h2)) as Hloop.
  { induction acts as [|a acts IH]; intros before d h0 h2 Hb; cbn [apply_loop]; [done|].
    destruct (apply_action options a h2) as [[added|err| |] h3] eqn:Ha; try done.
    - intros (more & action & after & d4 & h4 & err & h5 & -> & H2 & H3 & H4)%(IH (before ++ [a]) _ h0).
      + exists (a :: more), action, after, d4, h4, err, h5. by rewrite <- app_assoc in H2.
      + by rewrite (apply_loop_app _ _ _ _ _ _ _ Hb); cbn [apply_loop]; rewrite Ha.
    - intros H. exists [], a, acts, d, h2, err, h3. rewrite app_nil_r. split_and!; [done..|].
      destruct (returns_at_once a); [by injection H as <- <-|]. by destruct (rollback d h3) as [[]]; injection H as _ <-. }
  intros (before & action & after & d1 & h1 & err & h2 & -> & H1 & H2 & H3)%(Hloop _ [] {| applied := [] |} h); [|done].
  destruct (apply_loop_accounted _ _ _ _ _ _ H1) as (added & l & Hd & Hl & Hu). cbn [applied app] in Hd.
  destruct (action_accounted _ _ _ _ _ H2) as (k & Hk & Hacc).
  exists before, action, after, d1, h1, l, err, h2, k. rewrite Hd. split_and!; try done.
  destruct (returns_at_once action); [done|]. split; [done|]. rewrite H3. apply rollback_takes_back.
Qed.


Definition no_such_command : Output := {| success := false; stdout := []; stderr := []; status := "exit status: 2" |}.

(** Two routes and name servers; the second route, or writing resolv.conf, fails. *)
Definition two_routes : NetworkPlan :=
  {| actions := [RunCommand "ip" ["route"; "add"; "10.0.0.0/8"; "dev"; "ppp0"];
                 RunCommand "ip" ["route"; "add"; "11.0.0.0/8"; "dev"; "ppp0"];
                 ConfigureDns Linux "ppp0" ["10.0.0.10"] None] |}.
Definition second_fails : host := demo_host <| replies := [Ran succeeded; Ran no_such_command] |>.
Definition write_fails : host := demo_host <| file_replies := [None; Some (OtherKind, [])] |>.


(** The exception of [apply_failure_rolls_back] is reached by every plan with
    two routes: the first one stays installed. *)
Theorem failing_command_keeps_routes :
  is_ok (fst (apply_network_plan two_routes default_options second_fails)) = false ∧
  log (snd (apply_network_plan two_routes default_options second_fails)) =
    [RanCommand "ip" ["route"; "add"; "10.0.0.0/8"; "dev"; "ppp0"] None;
     RanCommand "ip" ["route"; "add"; "11.0.0.0/8"; "dev"; "ppp0"] None].
Proof. split; vm_compute; reflexivity. Qed.

(** The condition of [rollback_undoes_everything] is needed: if resolv.conf
    cannot be read, what was applied before it is not undone. *)
Theorem unreadable_resolv_conf_stops_rollback :
  let done := {| applied := [Command "ip" ["route"; "del"; "10.0.0.0/8"]; ResolvConfFile ["nameserver 10.0.0.10"]] |} in
  log (snd (rollback done (demo_host <| file_replies := [Some (NotFound, [])] |>))) = [ReadFile RESOLV_CONF_PATH].
Proof. vm_compute. reflexivity. Qed.

(** ** resolv.conf *)

(** A text of lines. *)
Definition unlines (l : list str) : str := foldr (λ line acc, line +:+ String newline acc) "" l.
Definition ascii_char (c : ascii) : bool := u8_of_ascii c <? 128.
Definition line_text (line : str) : Prop :=
  no_char newline line = true ∧ no_char carriage_return line = true ∧ all_chars ascii_char line = true.

Lemma str_lines_unlines l : Forall line_text l → str_lines (unlines l) = l.
Proof.
  induction 1 as [|line l (Hn & Hc & _) Hl IH]; [done|]. cbn [unlines foldr]. fold (unlines l).
  rewrite str_lines_cons by done. by rewrite IH.
Qed.

Lemma ascii_text_lossy s : all_chars ascii_char s = true → from_utf8_lossy (as_bytes s) = s.
Proof.
  intros H. apply from_utf8_lossy_ascii. revert H. induction s as [|c s IH]; [constructor|]. cbn [all_chars as_bytes].
  intros [H1 H2]%andb_true_iff. constructor; [|by apply IH]. pose proof (u8_of_ascii_range c) as Hr.
  unfold ascii_char in H1. apply Z.ltb_lt in H1. unfold is_u8 in Hr. lia.
Qed.

Lemma unlines_ascii l : Forall line_text l → all_chars ascii_char (unlines l) = true.
Proof.
  induction 1 as [|line l (_ & _ & Ha) Hl IH]; [done|]. cbn [unlines foldr]. fold (unlines l).
  rewrite all_chars_app, Ha. cbn [all_chars]. by rewrite IH.
Qed.

Lemma unlines_app l k : unlines (l ++ k) = unlines l +:+ unlines k.
Proof.
  induction l as [|line l IH]; [done|]. cbn [app unlines foldr]. fold (unlines l) (unlines (l ++ k)).
  rewrite IH, str_app_assoc. done.
Qed.

Lemma prepend_unlines original added :
  prepend_dns_lines_to_resolv_conf (as_bytes (unlines original)) added = as_bytes (unlines (added ++ original)).
Proof.
  unfold prepend_dns_lines_to_resolv_conf. rewrite unlines_app, as_bytes_app. f_equal.
  induction added as [|line added IH]; [done|]. cbn [map concat unlines foldr]. fold (unlines added).
  rewrite as_bytes_app. cbn [as_bytes]. change (u8_of_ascii newline) with 10. by rewrite IH, <- app_assoc.
Qed.

Lemma remove_added_none l : remove_added_loop l [] = unlines l.
Proof. induction l as [|line l IH]; [done|]. cbn. by rewrite IH. Qed.

Lemma remove_added_prefix added original : remove_added_loop (added ++ original) added = unlines original.
Proof.
  induction added as [|line added IH]; [apply remove_added_none|]. cbn [app remove_added_loop remove_first].
  by rewrite String.eqb_refl.
Qed.

(** Removing the lines that were put in front of a file gives the file back,
    repeated and already present lines included. *)
Lemma resolv_conf_restored original added :
  Forall line_text original → Forall line_text added →
  remove_added_dns_lines (prepend_dns_lines_to_resolv_conf (as_bytes (unlines original)) added) added =
    as_bytes (unlines original).
Proof.
  intros Ho Ha. rewrite prepend_unlines. unfold remove_added_dns_lines.
  assert (Forall line_text (added ++ original)) as Hao by by apply Forall_app.
  by rewrite ascii_text_lossy, str_lines_unlines, remove_added_prefix by (done || by apply unlines_ascii).
Qed.

Lemma host_command_conf program args stdin h :
  resolv_conf (snd (command_output program args stdin h)) = resolv_conf h.
Proof. unfold command_output. cbn. by destruct (replies h) as [|[o|k] rest]. Qed.

Lemma run_command_conf stdin program args h :
  resolv_conf (snd (run_command_with stdin program args h)) = resolv_conf h.
Proof.
  unfold run_command_with. pose proof (host_command_conf program args stdin h) as H.
  destruct (command_output program args stdin h) as [[o|e| |] h1]; try done. cbn [sbind]. by destruct (success o).
Qed.

Lemma rollback_file added h :
  file_replies h = [] →
  resolv_conf (snd (rollback {| applied := [ResolvConfFile added] |} h)) = remove_added_dns_lines (resolv_conf h) added.
Proof. destruct h. cbn [file_replies]. intros ->. reflexivity. Qed.

Lemma read_resolv_conf_ok h :
  file_replies h = [] → read_resolv_conf h = (Ok (resolv_conf h), h <| log := log h ++ [ReadFile RESOLV_CONF_PATH] |>).
Proof. destruct h. cbn [file_replies]. intros ->. reflexivity. Qed.

Lemma write_resolv_conf_ok contents h x h' :
  file_replies h = [] → write_resolv_conf contents h = (Ok x, h') → file_replies h' = [] ∧ resolv_conf h' = contents.
Proof. destruct h. cbn [file_replies]. intros ->. by intros [= _ <-]. Qed.

(** Name servers come and go without a trace: after the configuration of
    the name servers and its undoing, resolv.conf is what it was, whether they
    went through resolvconf or into the file, and whatever the commands do. *)
Theorem configure_dns_restored interface servers domain options original h done h1 :
  file_replies h = [] → resolv_conf h = as_bytes (unlines original) →
  Forall line_text original → Forall line_text (build_dns_lines servers domain) →
  apply_action options (ConfigureDns Linux interface servers domain) h = (Ok done, h1) →
  resolv_conf (snd (rollback {| applied := done |} h1)) = resolv_conf h.
Proof.
  intros Hf Hconf Ho Hl. cbn [apply_action]. unfold apply_dns.
  destruct (match servers, domain with [], None => true | _, _ => false end); [by intros [= <- <-]|].
  cbn [sbind]. destruct (if use_resolvconf options then find_resolvconf h else None) as [program|].
  - intros ([] & h2 & Hr & [= <- <-])%sbind_ok_inv. unfold rollback. cbn [applied rollback_loop].
    change (reverse [Resolvconf program interface]) with [Resolvconf program interface].
    cbn [rollback_loop rollback_action].
    pose proof (run_command_conf None program ["-d"; interface +:+ ".openfortivpn"] h2) as H2.
    pose proof (run_command_conf (Some (as_bytes (build_resolvconf_body servers domain))) program
      ["-a"; interface +:+ ".openfortivpn"] h) as H1.
    unfold run_command_with_stdin in Hr. rewrite Hr in H1. cbn [snd] in H1. unfold run_command.
    destruct (run_command_with None program _ h2) as [[] h3]; cbn in *; congruence.
  - rewrite read_resolv_conf_ok by done. cbn [sbind]. rewrite Hconf.
    set (added := dns_lines_to_add (as_bytes (unlines original)) servers domain).
    assert (Forall line_text added) as Hadded.
    { unfold added, dns_lines_to_add. apply Forall_forall. intros x Hx%list_elem_of_In.
      apply filter_In in Hx as [Hx _]. apply list_elem_of_In in Hx. by apply (proj1 (Forall_forall _ _) Hl). }
    destruct added as [|a l] eqn:E; [by intros [= <- <-]|]. rewrite <- E in *. clear E.
    intros (x & h2 & [Hf2 Hc2]%write_resolv_conf_ok & [= <- <-])%sbind_ok_inv; [|by destruct h].
    rewrite rollback_file, Hc2 by done. by apply resolv_conf_restored.
Qed.

Lemma configure_dns_restored_witness :
  resolv_conf (snd (rollback {| applied := [ResolvConfFile ["nameserver 10.0.0.10"; "search corp vpn"]] |}
      (snd (apply_action default_options (ConfigureDns Linux "ppp0" ["10.0.0.10"; "1.1.1.1"] (Some "corp;vpn")) demo_host))))
    = resolv_conf demo_host.
Proof.
  apply (configure_dns_restored "ppp0" ["10.0.0.10"; "1.1.1.1"] (Some "corp;vpn") default_options ["nameserver 1.1.1.1"]).
  - reflexivity.
  - reflexivity.
  - repeat constructor.
  - repeat constructor.
  - vm_compute. reflexivity.
Defined.

(** A name server with a newline in it is written as two lines, which the undoing does not
    find. *)
Theorem newline_in_server_survives :
  let added := ["nameserver 1.1.1.1" +:+ String newline "x"] in
  remove_added_dns_lines (prepend_dns_lines_to_resolv_conf [] added) added = as_bytes (unlines ["nameserver 1.1.1.1"; "x"]).
Proof. vm_compute. reflexivity. Qed.

(** ** The keys and values given to scutil *)

Definition key_safe (c : ascii) : bool := is_ascii_alphanumeric c || Ascii.eqb c "-"%char || Ascii.eqb c "_"%char.

(** Reads a quoted value back. *)
Fixpoint scutil_unquote (s : str) : option str :=
  match s with
  | EmptyString => None
  | String c t =>
      if Ascii.eqb c double_quote then Some ""
      else if Ascii.eqb c backslash then
        match t with String d u => String d <$> scutil_unquote u | EmptyString => None end
      else String c <$> scutil_unquote t
  end.
Definition scutil_read (s : str) : option str :=
  match s with
  | String c t => if Ascii.eqb c double_quote then scutil_unquote t else Some s
  | EmptyString => Some s
  end.

Lemma scutil_unquote_quote v : scutil_unquote (scutil_quote v) = Some v.
Proof.
  induction v as [|c v IH]; [done|]. cbn [scutil_quote].
  destruct (Ascii.eqb_spec c backslash) as [->|Hb]; [cbn; by rewrite IH|].
  destruct (Ascii.eqb_spec c double_quote) as [->|Hq]; [cbn; by rewrite IH|].
  cbn [orb scutil_unquote]. apply Ascii.eqb_neq in Hb, Hq. by rewrite Hb, Hq, IH.
Qed.

Lemma sanitize_chars_safe v : all_chars key_safe (sanitize_chars v) = true.
Proof.
  induction v as [|c v IH]; [done|]. cbn [sanitize_chars].
  destruct (is_ascii_alphanumeric c || Ascii.eqb c "-" || Ascii.eqb c "_")%char eqn:E.
  - cbn [all_chars]. unfold key_safe at 1. by rewrite E, IH.
  - destruct (cont _); [done|]. cbn [all_chars]. by rewrite IH.
Qed.

(** Names and addresses from the gateway cannot break out of a scutil
    script: a value is read back as it was, quoted or not, and the key of an
    interface is never empty and made of letters, digits, dashes and
    underscores. *)
Theorem scutil_words_are_safe value :
  scutil_read (scutil_value value) = Some value ∧
  sanitize_scutil_key_component value ≠ "" ∧
  all_chars key_safe (sanitize_scutil_key_component value) = true.
Proof.
  split_and!.
  - unfold scutil_value. destruct (all_chars scutil_plain value) eqn:E.
    + destruct value as [|c v]; [done|]. cbn [all_chars] in E. apply andb_true_iff in E as [Hc _]. cbn [scutil_read].
      assert (Ascii.eqb c double_quote = false) as ->; [|done].
      apply negb_true_iff. revert Hc. apply (char_impl scutil_plain (λ c, negb (Ascii.eqb c double_quote))).
      vm_compute. reflexivity.
    + cbn [scutil_read]. rewrite Ascii.eqb_refl. apply scutil_unquote_quote.
  - unfold sanitize_scutil_key_component. by destruct (sanitize_chars value).
  - unfold sanitize_scutil_key_component. destruct (str_is_empty _); [done|]. apply sanitize_chars_safe.
Qed.
