(* ===== verification/Login.v ===== *)
(** * [auth/login.rs]: logging in

    The requests of a login, the forms they send, and the scanners over the
    pages the gateway answers with.  What the user types is a parameter; what
    is only logged, and the delay before a one-time password, are left out. *)

From S2P Require Import Prelude Stream RustStd Config Http Portal.

#[local] Open Scope string_scope.
#[local] Open Scope list_scope.
#[local] Open Scope Z_scope.

Definition FORM_CONTENT_TYPE : header := ("Content-Type", "application/x-www-form-urlencoded").

Record AuthSession := { session_cookie : str; portal_redirect_path : option str }.

Definition body_text (response : HttpResponse) : str := default "" (body_as_str response).

(** The copy of this file. *)
Definition http_host (config : Config) : str :=
  if gateway_port config =? 443 then gateway_host config
  else gateway_host config +:+ ":" +:+ print_uint (gateway_port config).

(** ** Scanning pages *)

Fixpoint strip_prefix_ci (p s : str) : option str :=
  match p, s with
  | EmptyString, s => Some s
  | String a p, String b s =>
      if Ascii.eqb (to_ascii_lowercase_char a) (to_ascii_lowercase_char b) then strip_prefix_ci p s else None
  | String _ _, EmptyString => None
  end.

(** The text from the first match of [needle] on, in any case of its letters. *)
Fixpoint find_ascii_case_insensitive (needle haystack : str) : option str :=
  match strip_prefix_ci needle haystack with
  | Some _ => Some haystack
  | None =>
      match haystack with
      | EmptyString => None
      | String _ haystack => find_ascii_case_insensitive needle haystack
      end
  end.

(** The text behind the first match. *)
Definition after_match (needle haystack : str) : option str :=
  str_drop (String.length needle) <$> find_ascii_case_insensitive needle haystack.

Definition is_quote (c : ascii) : bool := Ascii.eqb c double_quote || Ascii.eqb c single_quote.

Definition strip_quote (s : str) : str :=
  match s with String c t => if is_quote c then t else s | EmptyString => s end.

(** [&s[s.len().min(1)..]] *)
Definition skip_byte (s : str) : result str := str_from (Z.min (str_len s) 1) s.

Fixpoint action_url_loop (fuel : nat) (rest : str) : result (option str) :=
  match fuel with
  | O => Diverge
  | S fuel =>
      match after_match "action=" rest with
      | None => Ok None
      | Some after_key =>
          let '(url, _) := span_until (λ c, is_quote c || is_ascii_whitespace c) (strip_quote after_key) in
          if negb (str_is_empty url) then Ok (Some url)
          else let* rest := skip_byte after_key in action_url_loop fuel rest
      end
  end.
Definition action_url (body : str) : result (option str) := action_url_loop (S (String.length body)) body.

(** The loop for one marker; [None] goes on with the next one. *)
Fixpoint redirect_loop (fuel : nat) (marker rest : str) : result (option str) :=
  match fuel with
  | O => Diverge
  | S fuel =>
      match after_match marker rest with
      | None => Ok None
      | Some after_marker =>
          match strip_prefix "=" (trim_start after_marker) with
          | None => let* rest := skip_byte after_marker in redirect_loop fuel marker rest
          | Some after_equals =>
              match trim_start after_equals with
              | EmptyString => Ok None
              | String quote value_rest =>
                  if is_quote quote then
                    match split_once quote value_rest with
                    | None => Ok None
                    | Some (value, _) =>
                        if begins_with "/"%char value then Ok (Some value)
                        else let* rest := skip_byte after_marker in redirect_loop fuel marker rest
                    end
                  else let* rest := skip_byte after_marker in redirect_loop fuel marker rest
              end
          end
      end
  end.

Fixpoint portal_redirect_markers (body : str) (markers : list str) : result (option str) :=
  match markers with
  | [] => Ok None
  | marker :: markers =>
      let* found := redirect_loop (S (String.length body)) marker body in
      match found with
      | Some path => Ok (Some path)
      | None => portal_redirect_markers body markers
      end
  end.
Definition portal_redirect (body : str) : result (option str) :=
  portal_redirect_markers body ["document.location"; "window.location"; "location.href"].

Definition value_end (c : ascii) : bool :=
  Ascii.eqb c "&"%char || Ascii.eqb c carriage_return || Ascii.eqb c newline || Ascii.eqb c zero.

Definition get_value (body key : str) : option str :=
  match split_at_str key body with
  | Some (_, rest) => Some (fst (span_until value_end rest))
  | None => None
  end.

Definition html_attr (tag name : str) : option str :=
  rest ← after_match (name +:+ "=" +:+ String double_quote "") tag;
  fst <$> split_once double_quote rest.

Definition is_valid_saml_session_id (value : str) : bool :=
  negb (str_is_empty value)
  && all_chars (λ c, is_ascii_digit c || is_ascii_upper c || is_ascii_lower c || Ascii.eqb c "-"%char) value.

(** ** Forms *)

Definition hostcheck_fields (config : Config) : str :=
  match hostcheck config, check_virtual_desktop config with
  | None, None => ""
  | _, _ =>
      "&hostcheck=" +:+ url_encode (default "" (hostcheck config))
        +:+ "&check_virtual_desktop=" +:+ url_encode (default "" (check_virtual_desktop config))
  end.
Definition append_hostcheck_fields (config : Config) (body : str) : str := body +:+ hostcheck_fields config.

Definition initial_login_body (config : Config) : str :=
  let username := url_encode (username config) in
  let realm := url_encode (default "" (realm config)) in
  match password config with
  | Some password =>
      append_hostcheck_fields config
        ("username=" +:+ username +:+ "&credential=" +:+ url_encode password +:+ "&realm=" +:+ realm +:+ "&ajax=1")
  | None =>
      append_hostcheck_fields config
        ("username=" +:+ username +:+ "&realm=" +:+ realm
           +:+ "&ajax=1&redir=%2Fremote%2Findex&just_logged_in=1")
  end.

Definition hostcheck_action_body (config : Config) : str :=
  "hostcheck=" +:+ default "" (hostcheck config)
    +:+ "&check_virtual_desktop=" +:+ default "" (check_virtual_desktop config).

(** ** Requests *)

Definition post_form (config : Config) (host path body : str) (s : connection) : result HttpResponse * connection :=
  do_http_request host "POST" path [FORM_CONTENT_TYPE; ("User-Agent", user_agent config)] (as_bytes body) s.

Definition post_form_with_cookie (config : Config) (host path body cookie : str) (s : connection)
    : result HttpResponse * connection :=
  do_http_request host "POST" path [FORM_CONTENT_TYPE; ("Cookie", cookie); ("User-Agent", user_agent config)]
    (as_bytes body) s.

Definition post_logincheck (config : Config) (host body : str) (s : connection) : result HttpResponse * connection :=
  post_form config host "/remote/logincheck" body s.

Definition validate_auth_response (response : HttpResponse) : result unit :=
  match get_value (body_text response) "ret=" with
  | None => Ok tt
  | Some ret =>
      match RustStd.parse_u32 ret with
      | Some n =>
          if n =? 0 then Err PermissionDenied
          else if n =? 1 then Ok tt
          else if n =? 6 then Err (Auth "gateway replied with an unsupported authentication challenge")
          else Err (Auth ("unknown authentication result: " +:+ print_uint n))
      | None => Err (Auth ("invalid authentication result: " +:+ ret))
      end
  end.

Definition ensure_status_ok_for_path (path : str) (response : HttpResponse) : result unit :=
  if status_code response =? 200 then Ok tt else Err (unexpected_status path response).

(** [user_input::secret_hint] *)
Definition secret_hint (username : str) (realm : option str) (gateway_host purpose : str) : str :=
  username +:+ "_" +:+ default "" realm +:+ "_" +:+ gateway_host +:+ "_" +:+ purpose.

Definition non_empty (o : option str) : option str :=
  match o with Some s => if str_is_empty s then None else Some s | None => None end.

Section Authentication.

(** What the user answers: pinentry program, hint and prompt. *)
Context (read_secret : option str → str → str → result str).

Definition otp_value_with_purpose (config : Config) (purpose prompt : str) : result str :=
  match non_empty (otp config) with
  | Some otp => Ok otp
  | None =>
      let hint := secret_hint (username config) (realm config) (gateway_host config) purpose in
      let* otp := read_secret (pinentry config) hint prompt in
      if str_is_empty otp then Err (Auth "No token specified") else Ok otp
  end.

Definition otp_challenge_prompt (config : Config) (html_after_action : str) : str :=
  let marker := default "Please" (otp_prompt config) in
  match split_at_str marker html_after_action with
  | Some (_, rest) =>
      match split_once "<"%char (marker +:+ rest) with
      | Some (prompt, _) => prompt
      | None => "Please enter one-time password: "
      end
  | None => "Please enter one-time password: "
  end.

(** One input of the form: the fields it adds. *)
Definition input_fields (config : Config) (otp input : str) : result (list str) :=
  let input_type := default "" (html_attr input "type") in
  let hidden := eq_ignore_ascii_case input_type "hidden" in
  let password := eq_ignore_ascii_case input_type "password" in
  if hidden || password then
    let* name := ok_or (html_attr input "name") (Auth "OTP challenge input is missing a name") in
    let* value :=
      if hidden
      then ok_or (html_attr input "value") (Auth "OTP challenge hidden input is missing a value")
      else Ok otp in
    Ok ((url_encode name +:+ "=" +:+ url_encode value)
          :: if password
             then match non_empty (realm config) with
                  | Some realm => ["realm=" +:+ url_encode realm]
                  | None => []
                  end
             else [])
  else Ok [].

(** The loop over the inputs: an input that is not closed moves the search
    behind the end of the page, where the next slice panics. *)
Fixpoint inputs_loop (fuel : nat) (config : Config) (otp rest : str) : result (list str) :=
  match fuel with
  | O => Diverge
  | S fuel =>
      match find_ascii_case_insensitive "<input" rest with
      | None => Ok []
      | Some from_input =>
          let '(input, rest) :=
            match split_once ">"%char from_input with
            | Some (input, rest) => (input, Some rest)
            | None => (from_input, None)
            end in
          let* fields := input_fields config otp input in
          match rest with
          | None => Panic
          | Some rest => let* more := inputs_loop fuel config otp rest in Ok (fields ++ more)
          end
      end
  end.

Definition otp_challenge_form (config : Config) (html : str) : result (str * str * str) :=
  let* from_form := ok_or (find_ascii_case_insensitive "<form" html)
    (Auth "OTP challenge response does not contain a form") in
  let* after_action := ok_or (after_match ("action=" +:+ String double_quote "") from_form)
    (Auth "OTP challenge form does not contain an action") in
  let* '(path, after_path) := ok_or (split_once double_quote after_action)
    (Auth "OTP challenge form action is unterminated") in
  let prompt := otp_challenge_prompt config (String double_quote after_path) in
  let* otp := otp_value_with_purpose config "otp" prompt in
  let* fields := inputs_loop (S (String.length from_form)) config otp from_form in
  match fields with
  | [] => Err (Auth "OTP challenge form does not contain hidden or password inputs")
  | _ => Ok (path, str_join "&" fields, prompt)
  end.

Definition otp_login_body (config : Config) (previous_body tokeninfo : str) : result str :=
  let value key := default "" (get_value previous_body key) in
  let* tokenparams :=
    if match otp config with None => true | Some _ => false end
       && starts_with "ftm_push" tokeninfo && negb (no_ftm_push config)
    then Ok "ftmpush=1"
    else
      let* otp := otp_value_with_purpose config "2fa" "Two-factor authentication token: " in
      Ok ("code=" +:+ url_encode otp +:+ "&code2=&magic=" +:+ value "magic=") in
  Ok ("username=" +:+ url_encode (username config) +:+ "&realm=" +:+ url_encode (default "" (realm config))
        +:+ "&reqid=" +:+ value "reqid=" +:+ "&polid=" +:+ value "polid=" +:+ "&grp=" +:+ value "grp="
        +:+ "&portal=" +:+ value "portal=" +:+ "&peer=" +:+ value "peer=" +:+ "&" +:+ tokenparams).

Definition try_otp_challenge (config : Config) (host : str) (response : HttpResponse) (s : connection)
    : result (str * HttpResponse) * connection :=
  let! body & s := lift (ok_or (body_as_str response) (Auth "OTP challenge response is not valid UTF-8")) s in
  let! '(path, form_body, _) & s := lift (otp_challenge_form config body) s in
  let! response & s := post_form config host path form_body s in
  (Ok (path, response), s).

(** ** Sessions *)

Definition finish_authenticated_response (config : Config) (host : str) (response : HttpResponse) (s : connection)
    : result AuthSession * connection :=
  let! svpn & s := lift (ok_or (svpn_cookie response) (Auth "gateway did not return SVPNCOOKIE")) s in
  let cookie := default svpn (cookie_header response) in
  let! action & s := lift (action_url (body_text response)) s in
  let! _ & s :=
    match action with
    | Some action_path =>
        let! action_response & s :=
          post_form_with_cookie config host action_path (hostcheck_action_body config) cookie s in
        lift (ensure_status_ok_for_path action_path action_response) s
    | None => (Ok tt, s)
    end in
  let! redirect & s := lift (portal_redirect (body_text response)) s in
  (Ok {| session_cookie := cookie; portal_redirect_path := redirect |}, s).

Definition has_cookie (response : HttpResponse) : bool :=
  match svpn_cookie response with Some _ => true | None => false end.

(** The second factor by [tokeninfo], when the first answer has no cookie. *)
Definition second_factor (config : Config) (host : str) (response : HttpResponse) (s : connection)
    : result AuthSession * connection :=
  match get_value (body_text response) "tokeninfo=" with
  | None => (Err (Auth "gateway did not return SVPNCOOKIE"), s)
  | Some tokeninfo =>
      let! second_body & s := lift (otp_login_body config (body_text response) tokeninfo) s in
      let! response & s := post_logincheck config host second_body s in
      let! _ & s := lift (validate_auth_response response) s in
      let! _ & s := lift (ensure_status_ok_for_path "/remote/logincheck" response) s in
      if has_cookie response then finish_authenticated_response config host response s
      else (Err (Auth "gateway did not return SVPNCOOKIE"), s)
  end.

Definition authenticate (config : Config) (s : connection) : result AuthSession * connection :=
  match cookie config with
  | Some cookie => (Ok {| session_cookie := cookie; portal_redirect_path := None |}, s)
  | None =>
      let host := http_host config in
      let response_path :=
        if str_is_empty (username config) && match password config with None => true | Some _ => false end
        then "/remote/login" else "/remote/logincheck" in
      let! response & s :=
        if (response_path =? "/remote/login")%string
        then do_http_request host "GET" "/remote/login" [("User-Agent", user_agent config)] [] s
        else post_logincheck config host (initial_login_body config) s in
      let! _ & s := lift (validate_auth_response response) s in
      let! '(response_path, response) & s :=
        if status_code response =? 401 then
          let! '(path, challenge_response) & s := try_otp_challenge config host response s in
          let! _ & s := lift (validate_auth_response challenge_response) s in
          (Ok (path, challenge_response), s)
        else (Ok (response_path, response), s) in
      let! _ & s := lift (ensure_status_ok_for_path response_path response) s in
      if has_cookie response then finish_authenticated_response config host response s
      else second_factor config host response s
  end.

Definition authenticate_with_saml_session (config : Config) (saml_session_id : str) (s : connection)
    : result AuthSession * connection :=
  if negb (is_valid_saml_session_id saml_session_id) then (Err (Auth "invalid SAML session id"), s) else
  let host := http_host config in
  let path := "/remote/saml/auth_id?id=" +:+ saml_session_id in
  let! response & s := do_http_request host "GET" path [("User-Agent", user_agent config)] [] s in
  let! _ & s := lift (ensure_status_ok_for_path path response) s in
  if has_cookie response then finish_authenticated_response config host response s
  else (Err (Auth "SAML authentication did not return SVPNCOOKIE"), s).

End Authentication.

(** ** Specifications *)

(** The form a gateway decodes. *)
Definition parse_field (piece : str) : option (str * str) :=
  '(k, v) ← split_once "="%char piece; k ← url_decode k; v ← url_decode v; Some (k, v).
Definition parse_form (body : str) : option (list (str * str)) := mapM parse_field (str_split "&"%char body).

Definition field_text (f : str * str) : str := url_encode (fst f) +:+ "=" +:+ url_encode (snd f).

Definition login_fields (config : Config) : list (str * str) :=
  match password config with
  | Some password =>
      [("username", username config); ("credential", password); ("realm", default "" (realm config)); ("ajax", "1")]
  | None =>
      [("username", username config); ("realm", default "" (realm config)); ("ajax", "1");
       ("redir", "/remote/index"); ("just_logged_in", "1")]
  end
  ++ match hostcheck config, check_virtual_desktop config with
     | None, None => []
     | _, _ => [("hostcheck", default "" (hostcheck config));
                ("check_virtual_desktop", default "" (check_virtual_desktop config))]
     end.

(** ** Forms *)

Lemma form_safe_no_char c s :
  c = "&"%char ∨ c = "="%char → all_chars form_safe s = true → no_char c s = true.
Proof.
  intros Hc. apply (chars_impl form_safe (λ d, negb (Ascii.eqb d c))).
  destruct Hc as [->| ->]; vm_compute; reflexivity.
Qed.

Lemma parse_field_text f : parse_field (field_text f) = Some f.
Proof.
  destruct f as [k v]. unfold parse_field, field_text. cbn [fst snd].
  change ("=" +:+ url_encode v) with (String "=" (url_encode v)).
  destruct (url_encode_ok k) as [Hk Hks], (url_encode_ok v) as [Hv _].
  rewrite split_once_app by (apply form_safe_no_char; auto). cbn. rewrite Hk. cbn. by rewrite Hv.
Qed.

Lemma field_text_no_amp f : no_char "&"%char (field_text f) = true.
Proof.
  unfold field_text. rewrite !all_chars_app.
  rewrite (form_safe_no_char _ (url_encode (fst f))), (form_safe_no_char _ (url_encode (snd f)))
    by (auto || apply url_encode_ok). reflexivity.
Qed.

Lemma str_split_whole sep s : no_char sep s = true → str_split sep s = [s].
Proof.
  induction s as [|c s IH]; [done|]. cbn [all_chars str_split]. intros [H1%negb_true_iff H2]%andb_true_iff.
  by rewrite H1, IH.
Qed.

Lemma parse_form_fields fs : fs ≠ [] → parse_form (str_join "&" (map field_text fs)) = Some fs.
Proof.
  unfold parse_form. induction fs as [|f fs IH]; [done|]. intros _. destruct fs as [|g fs].
  - cbn [map str_join]. rewrite str_split_whole by apply field_text_no_amp. cbn [mapM]. by rewrite parse_field_text.
  - cbn [map str_join] in *.
    change ("&" +:+ ?s) with (String "&" s). rewrite str_split_app by apply field_text_no_amp.
    cbn [mapM]. rewrite parse_field_text, IH by done. done.
Qed.

Lemma initial_login_body_text config :
  initial_login_body config = str_join "&" (map field_text (login_fields config)).
Proof.
  unfold initial_login_body, append_hostcheck_fields, hostcheck_fields, login_fields.
  destruct (password config) as [p|], (hostcheck config) as [h|], (check_virtual_desktop config) as [v|];
    cbn [app map str_join default]; unfold field_text; cbn [fst snd];
    change (url_encode "username") with "username"; change (url_encode "credential") with "credential";
    change (url_encode "realm") with "realm"; change (url_encode "ajax") with "ajax"; change (url_encode "1") with "1";
    change (url_encode "redir") with "redir"; change (url_encode "just_logged_in") with "just_logged_in";
    change (url_encode "/remote/index") with "%2Fremote%2Findex";
    change (url_encode "hostcheck") with "hostcheck";
    change (url_encode "check_virtual_desktop") with "check_virtual_desktop";
    rewrite ?str_app_assoc; reflexivity.
Qed.

(** The login form says exactly what the user configured: the gateway
    decodes it to the user name, the password, the realm and the host check
    fields as they are in the configuration, whatever characters they hold. *)
Theorem initial_login_body_decodes config :
  parse_form (initial_login_body config) = Some (login_fields config).
Proof.
  rewrite initial_login_body_text. apply parse_form_fields. unfold login_fields. by destruct (password config).
Qed.

(** ** Scanning pages *)

Lemma find_ci_suffix needle s t :
  find_ascii_case_insensitive needle s = Some t → ∃ p, s = p +:+ t ∧ ∃ u, strip_prefix_ci needle t = Some u.
Proof.
  induction s as [|c s IH]; cbn [find_ascii_case_insensitive].
  - destruct (strip_prefix_ci needle "") eqn:E; [|done]. intros [= <-]. exists "". eauto.
  - destruct (strip_prefix_ci needle (String c s)) eqn:E.
    + intros [= <-]. exists "". eauto.
    + intros (p & -> & Hu)%IH. by exists (String c p).
Qed.

Lemma strip_prefix_ci_drop p s u : strip_prefix_ci p s = Some u → str_drop (String.length p) s = u.
Proof.
  revert s. induction p as [|c p IH]; intros [|d s]; cbn [strip_prefix_ci String.length str_drop]; try (by intros [= <-]); try done.
  case_match; [apply IH|done].
Qed.

(** The text behind a match is a shorter end of the page. *)
Lemma after_match_suffix needle s t :
  after_match needle s = Some t → ∃ p, s = p +:+ t ∧ (String.length needle <= String.length p)%nat.
Proof.
  unfold after_match. destruct (find_ascii_case_insensitive needle s) as [x|] eqn:E; [|done].
  cbn. intros [= <-]. apply find_ci_suffix in E as (p & -> & u & Hu).
  rewrite (strip_prefix_ci_drop _ _ _ Hu). assert (∃ q, x = q +:+ u ∧ String.length q = String.length needle) as (q & -> & Hq).
  { clear -Hu. revert x Hu. induction needle as [|c n IH]; intros [|d x]; cbn [strip_prefix_ci]; try done.
    - intros [= <-]. by exists "".
    - intros [= <-]. by exists "".
    - case_match; [|done]. intros (q & -> & Hq)%IH. exists (String d q). split; [done|]. cbn [String.length]. lia. }
  exists (p +:+ q). rewrite str_app_assoc, str_length_app. split; [done|lia].
Qed.

Lemma ascii_skip_byte s :
  all_chars (λ c, u8_of_ascii c <? 128) s = true → ∃ t, skip_byte s = Ok t ∧ ∃ p, s = p +:+ t ∧ String.length p = Nat.min 1 (String.length s).
Proof.
  intros Hs. unfold skip_byte, str_from. destruct s as [|c s].
  - exists "". split; [done|]. by exists "".
  - assert (str_len (String c s) = 1 + str_len s) as Hl by (unfold str_len; cbn [String.length]; lia).
    assert (0 <= str_len s) by (unfold str_len; lia).
    rewrite Z.min_r by lia. exists s. split; [|by exists (String c "")].
    assert (is_char_boundary (String c s) 1 = true) as ->; [|done].
    unfold is_char_boundary. rewrite Hl. change (1 =? 0) with false. change (0 <? 1) with true. cbn [orb andb].
    destruct s as [|d s]; [done|]. cbn [all_chars] in Hs. rewrite !andb_true_iff in Hs. destruct Hs as (_ & Hd & _).
    apply orb_true_iff. right. rewrite (proj2 (Z.ltb_lt _ _)) by (unfold str_len; cbn [String.length]; lia).
    cbn [andb]. change (as_bytes (String c (String d s)) !! Z.to_nat 1) with (Some (u8_of_ascii d)).
    unfold cont, in_range. apply Z.ltb_lt in Hd. by rewrite (proj2 (Z.leb_gt 128 _)) by lia.
Qed.

Abbreviation ascii_page := (all_chars (λ c, u8_of_ascii c <? 128)).

Lemma ascii_page_suffix p t : ascii_page (p +:+ t) = true → ascii_page t = true.
Proof. rewrite all_chars_app. by intros [_ ?]%andb_true_iff. Qed.

(** Behind a match of a non-empty needle the page is shorter, and one byte less
    can be skipped. *)
Lemma after_match_skip needle s t :
  needle ≠ "" → ascii_page s = true → after_match needle s = Some t →
  (String.length t < String.length s)%nat ∧
  ∃ u, skip_byte t = Ok u ∧ (String.length u < String.length s)%nat ∧ ascii_page u = true.
Proof.
  intros Hne Hs Ht. apply after_match_suffix in Ht as (p & -> & Hp).
  assert (0 < String.length p)%nat by (destruct needle; [done|simpl in Hp; lia]).
  rewrite str_length_app. split; [lia|]. apply ascii_page_suffix in Hs.
  destruct (ascii_skip_byte t Hs) as (u & -> & q & Ht & Hq). exists u. split; [done|]. split.
  - apply (f_equal String.length) in Ht. rewrite str_length_app in Ht. lia.
  - rewrite Ht in Hs. by apply ascii_page_suffix in Hs.
Qed.

Lemma action_url_loop_returns fuel rest :
  (String.length rest < fuel)%nat → ascii_page rest = true → returns (action_url_loop fuel rest).
Proof.
  revert rest. induction fuel as [|fuel IH]; intros rest Hf Hs; [lia|]. cbn [action_url_loop].
  destruct (after_match "action=" rest) as [t|] eqn:E; [|done].
  destruct (span_until _ (strip_quote t)) as [url x]. destruct (negb (str_is_empty url)); [done|].
  destruct (after_match_skip "action=" _ _ ltac:(done) Hs E) as (_ & u & -> & Hl & Hu). apply IH; [lia|done].
Qed.

Lemma redirect_loop_returns fuel marker rest :
  marker ≠ "" → (String.length rest < fuel)%nat → ascii_page rest = true → returns (redirect_loop fuel marker rest).
Proof.
  intros Hm. revert rest. induction fuel as [|fuel IH]; intros rest Hf Hs; [lia|]. cbn [redirect_loop].
  destruct (after_match marker rest) as [t|] eqn:E; [|done].
  destruct (after_match_skip _ _ _ Hm Hs E) as (_ & u & Hu & Hl & Hup).
  assert (returns (let* rest := skip_byte t in redirect_loop fuel marker rest)) as Hnext.
  { rewrite Hu. apply IH; [lia|done]. }
  destruct (strip_prefix "=" (trim_start t)) as [eq|]; [|done].
  destruct (trim_start eq) as [|quote v]; [done|]. destruct (is_quote quote); [|done].
  destruct (split_once quote v) as [[value x]|]; [|done]. by destruct (begins_with "/" value).
Qed.

(** On an ASCII page the searches for a host check action and a portal
    redirection end with an answer: no slice falls outside the page and every
    round moves forward. *)
Theorem page_scanners_return body :
  ascii_page body = true → returns (action_url body) ∧ returns (portal_redirect body).
Proof.
  intros Hb. split; [by apply action_url_loop_returns; [lia|]|].
  unfold portal_redirect. assert (Forall (λ m, m ≠ "") ["document.location"; "window.location"; "location.href"]) as Hms
    by (repeat (constructor; [done|]); constructor).
  induction Hms as [|m ms Hm Hms IH]; cbn [portal_redirect_markers]; [done|].
  apply returns_bind; [by apply redirect_loop_returns; [|lia|]|]. intros [p|] _; [done|apply IH].
Qed.

Lemma page_scanners_return_witness :
  returns (action_url "<script>action= action='' window.location = 1; window.location='x'</script>") ∧
  returns (portal_redirect "<script>action= action='' window.location = 1; window.location='x'</script>").
Proof. apply page_scanners_return. reflexivity. Defined.

(** Outside ASCII the step of one byte may land inside a character. *)
Theorem portal_redirect_panics :
  portal_redirect ("window.location" +:+ string_of_bytes [0xc3; 0xa9]) = Panic.
Proof. vm_compute. reflexivity. Qed.

Lemma redirect_loop_local fuel marker rest p : redirect_loop fuel marker rest = Ok (Some p) → begins_with "/"%char p = true.
Proof.
  revert rest. induction fuel as [|fuel IH]; intros rest; cbn [redirect_loop]; [done|].
  assert (∀ t, (let* rest := skip_byte t in redirect_loop fuel marker rest) = Ok (Some p) → begins_with "/"%char p = true) as Hnext.
  { intros t (u & _ & H)%bind_ok_inv. by apply IH in H. }
  destruct (after_match marker rest) as [t|]; [|done].
  destruct (strip_prefix "=" (trim_start t)) as [eq|]; [|apply Hnext].
  destruct (trim_start eq) as [|quote v]; [done|]. destruct (is_quote quote); [|apply Hnext].
  destruct (split_once quote v) as [[value x]|]; [|done].
  destruct (begins_with "/" value) eqn:E; [by intros [= <-]|apply Hnext].
Qed.

Lemma portal_redirect_local body p : portal_redirect body = Ok (Some p) → begins_with "/"%char p = true.
Proof.
  unfold portal_redirect. generalize ["document.location"; "window.location"; "location.href"].
  intros ms. induction ms as [|m ms IH]; cbn [portal_redirect_markers]; [done|].
  intros ([q|] & H & Hr)%bind_ok_inv; [|by apply IH]. injection Hr as ->. by apply redirect_loop_local in H.
Qed.

(** ** Sessions *)

Definition session_of (response : HttpResponse) (session : AuthSession) : Prop :=
  ∃ svpn, svpn_cookie response = Some svpn ∧ session_cookie session = default svpn (cookie_header response) ∧
    match portal_redirect_path session with Some p => begins_with "/"%char p = true | None => True end.

Lemma finish_authenticated_ok config host response s session s' :
  finish_authenticated_response config host response s = (Ok session, s') → session_of response session.
Proof.
  unfold finish_authenticated_response. intros (svpn & s1 & Hs & H)%sbind_ok_inv.
  apply sbind_ok_inv in H as (a & s2 & _ & H). apply sbind_ok_inv in H as (x & s3 & _ & H).
  apply sbind_ok_inv in H as (r & s4 & Hr & [= <- _]). exists svpn.
  destruct (svpn_cookie response) as [c|]; [|done]. injection Hs as -> _.
  split; [done|]. split; [done|]. cbn. destruct r as [p|]; [|done].
  injection Hr as Hr _. by apply portal_redirect_local in Hr.
Qed.

Lemma ensure_status_ok_inv path response : ensure_status_ok_for_path path response = Ok tt → status_code response = 200.
Proof. unfold ensure_status_ok_for_path. by destruct (Z.eqb_spec (status_code response) 200). Qed.

(** A request of the login, and an exchange of it for an answer: the request is
    written whole, and the answer is held by the bytes received behind it. *)
Record request := { method : str; path : str; fields : list header; form : str }.

Definition asked (host : str) (q : request) (s : connection) (answer : HttpResponse) (s' : connection) : Prop :=
  do_http_request host (method q) (path q) (fields q) (as_bytes (form q)) s = (Ok answer, s') ∧
  written (conn_w s') = written (conn_w s)
    ++ as_bytes (request_head host (method q) (path q) (fields q) (len (as_bytes (form q)))) ++ as_bytes (form q) ∧
  ∃ raw, took (conn_r s) raw (conn_r s') ∧ holds_response raw answer.

Lemma asked_ok host q s answer s' :
  do_http_request host (method q) (path q) (fields q) (as_bytes (form q)) s = (Ok answer, s') ↔ asked host q s answer s'.
Proof. split; [|by intros [? _]]. intros H. split; [done|]. by apply do_http_request_ok in H. Qed.

(** The gateway does not refuse: no result code, or the one of success. *)
Definition agrees (answer : HttpResponse) : Prop :=
  ∀ ret, get_value (body_text answer) "ret=" = Some ret → RustStd.parse_u32 ret = Some 1.

Lemma agrees_ok answer : validate_auth_response answer = Ok tt ↔ agrees answer.
Proof.
  unfold validate_auth_response, agrees. destruct (get_value (body_text answer) "ret=") as [ret|]; [|done].
  destruct (RustStd.parse_u32 ret) as [n|] eqn:E; split; try done; try (intros H; specialize (H ret eq_refl); congruence).
  - intros H ? [= <-]. destruct (Z.eqb_spec n 0); [done|]. destruct (Z.eqb_spec n 1) as [->|]; [done|]. by destruct (n =? 6).
  - intros H. specialize (H ret eq_refl). rewrite E in H. by injection H as ->.
Qed.

Section Login.

Context (read_secret : option str → str → str → result str) (config : Config).
Abbreviation host := (http_host config).

Definition form_fields : list header := [FORM_CONTENT_TYPE; ("User-Agent", user_agent config)].

(** The form with the credentials, or the page of the login without any. *)
Definition credentials : request :=
  if str_is_empty (username config) && match password config with None => true | Some _ => false end
  then {| method := "GET"; path := "/remote/login"; fields := [("User-Agent", user_agent config)]; form := "" |}
  else {| method := "POST"; path := "/remote/logincheck"; fields := form_fields; form := initial_login_body config |}.

(** The first factor: the credentials are accepted, or the form the gateway
    answers them with (status 401) is. *)
Inductive accepted (s : connection) : HttpResponse → connection → Prop :=
  | accepted_at_once answer s' :
      asked host credentials s answer s' → agrees answer → status_code answer = 200 → accepted s answer s'
  | accepted_challenge page html action filled prompt s1 answer s' :
      asked host credentials s page s1 → agrees page → status_code page = 401 →
      body_as_str page = Some html → otp_challenge_form read_secret config html = Ok (action, filled, prompt) →
      asked host {| method := "POST"; path := action; fields := form_fields; form := filled |} s1 answer s' →
      agrees answer → status_code answer = 200 → accepted s answer s'.

(** The second factor, for an answer that asks for a token instead of giving the
    cookie. *)
Inductive granted (s : connection) : HttpResponse → connection → Prop :=
  | granted_cookie answer s' : accepted s answer s' → svpn_cookie answer ≠ None → granted s answer s'
  | granted_token page tokeninfo filled s1 answer s' :
      accepted s page s1 → svpn_cookie page = None → get_value (body_text page) "tokeninfo=" = Some tokeninfo →
      otp_login_body read_secret config (body_text page) tokeninfo = Ok filled →
      asked host {| method := "POST"; path := "/remote/logincheck"; fields := form_fields; form := filled |} s1 answer s' →
      agrees answer → status_code answer = 200 → svpn_cookie answer ≠ None → granted s answer s'.

(** The end: the host check the page asks for is answered with status 200, and
    the session is made of the cookies and the redirection of the answer. *)
Definition concluded (answer : HttpResponse) (s : connection) (session : AuthSession) (s' : connection) : Prop :=
  (∃ svpn, svpn_cookie answer = Some svpn ∧ session_cookie session = default svpn (cookie_header answer)) ∧
  portal_redirect (body_text answer) = Ok (portal_redirect_path session) ∧
  ((action_url (body_text answer) = Ok None ∧ s' = s) ∨
   ∃ action checked, action_url (body_text answer) = Ok (Some action) ∧ status_code checked = 200 ∧
     asked host {| method := "POST"; path := action;
       fields := [FORM_CONTENT_TYPE; ("Cookie", session_cookie session); ("User-Agent", user_agent config)];
       form := hostcheck_action_body config |} s checked s').

(** What a login that succeeds has done. *)
Definition logged_in (s : connection) (session : AuthSession) (s' : connection) : Prop :=
  match cookie config with
  | Some c => session = {| session_cookie := c; portal_redirect_path := None |} ∧ s' = s
  | None => ∃ answer s1, granted s answer s1 ∧ concluded answer s1 session s'
  end.

Lemma finish_spec answer s session s' :
  finish_authenticated_response config host answer s = (Ok session, s') ↔ concluded answer s session s'.
Proof.
  unfold finish_authenticated_response, concluded. split.
  - intros (svpn & s1 & Hs & H)%sbind_ok_inv.
    apply sbind_ok_inv in H as (a & s2 & [= Ha ->] & H). apply sbind_ok_inv in H as ([] & s3 & Hact & H).
    apply sbind_ok_inv in H as (r & s4 & [= Hr ->] & [= <- ->]).
    cbn [session_cookie portal_redirect_path].
    destruct (svpn_cookie answer) as [c|]; [|done]. injection Hs as -> ->.
    split; [by eexists|]. split; [done|]. rewrite Ha. destruct a as [action|]; [|injection Hact as <-; by left].
    right. apply sbind_ok_inv in Hact as (checked & s5 & Hq & [= Hst ->]).
    exists action, checked. split; [done|]. split; [by apply ensure_status_ok_inv in Hst|]. by apply asked_ok.
  - intros ((svpn & Hs & Hc) & Hr & Hact). rewrite Hs, Hr. destruct session as [c p].
    cbn [session_cookie portal_redirect_path ok_or lift sbind] in *. subst c. unfold lift.
    destruct Hact as [[-> ->]|(action & checked & -> & Hst & Hq%asked_ok)]; [done|].
    cbn [sbind method path fields form] in *. unfold post_form_with_cookie. rewrite Hq. cbn [sbind].
    unfold ensure_status_ok_for_path. by rewrite Hst.
Qed.

Lemma credentials_spec s :
  (let response_path :=
     if str_is_empty (username config) && match password config with None => true | Some _ => false end
     then "/remote/login" else "/remote/logincheck" in
   if (response_path =? "/remote/login")%string
   then do_http_request host "GET" "/remote/login" [("User-Agent", user_agent config)] [] s
   else post_logincheck config host (initial_login_body config) s) =
  do_http_request host (method credentials) (path credentials) (fields credentials) (as_bytes (form credentials)) s.
Proof. unfold credentials. by destruct (_ && _). Qed.

(** What comes behind the first factor. *)
Definition then_on (answer : HttpResponse) (s : connection) : result AuthSession * connection :=
  if has_cookie answer then finish_authenticated_response config host answer s
  else second_factor read_secret config host answer s.

Lemma ensure_status_ok p answer : status_code answer = 200 → ensure_status_ok_for_path p answer = Ok tt.
Proof. unfold ensure_status_ok_for_path. by intros ->. Qed.

Lemma accepted_spec s : cookie config = None →
  (∀ answer s1, accepted s answer s1 → authenticate read_secret config s = then_on answer s1) ∧
  (∀ session s', authenticate read_secret config s = (Ok session, s') →
    ∃ answer s1, accepted s answer s1 ∧ then_on answer s1 = (Ok session, s')).
Proof.
  intros Hc. unfold authenticate. rewrite Hc. cbv zeta. rewrite credentials_spec. split.
  - intros answer s1 [answer' s1' Hq%asked_ok Ha%agrees_ok Hst|page html action filled prompt s1' answer' s2
      Hq%asked_ok Ha%agrees_ok Hst Hh Hf Hq2%asked_ok Ha2%agrees_ok Hst2].
    + rewrite Hq. cbn [sbind]. rewrite Ha. unfold lift. cbn [sbind].
      rewrite (proj2 (Z.eqb_neq (status_code answer') 401)) by lia. cbn [sbind]. by rewrite ensure_status_ok.
    + rewrite Hq. cbn [sbind]. rewrite Ha. unfold lift. cbn [sbind].
      rewrite (proj2 (Z.eqb_eq (status_code page) 401)) by done. unfold try_otp_challenge, lift. rewrite Hh. cbn [sbind ok_or]. rewrite Hf. cbn [sbind].
      cbn [method path fields form] in Hq2. unfold post_form, form_fields in *. rewrite Hq2. cbn [sbind]. rewrite Ha2. cbn [sbind].
      by rewrite ensure_status_ok.
  - intros session s' H. apply sbind_ok_inv in H as (page & s1 & Hq%asked_ok & H).
    apply sbind_ok_inv in H as ([] & s2 & [= Ha%agrees_ok ->] & H).
    apply sbind_ok_inv in H as ([p answer] & s3 & Hr & H). apply sbind_ok_inv in H as ([] & s4 & [= Hst ->] & H).
    apply ensure_status_ok_inv in Hst. exists answer, s4. split; [|done].
    destruct (Z.eqb_spec (status_code page) 401) as [H401|_].
    + apply sbind_ok_inv in Hr as ([path' r] & s5 & Ho & Hr). apply sbind_ok_inv in Hr as ([] & s6 & [= Hv%agrees_ok ->] & [= -> -> ->]).
      unfold try_otp_challenge in Ho. apply sbind_ok_inv in Ho as (html & s7 & [= Hh ->] & Ho).
      apply sbind_ok_inv in Ho as ([[action filled] prompt] & s8 & [= Hf ->] & Ho).
      apply sbind_ok_inv in Ho as (r & s9 & Hq2 & [= -> -> ->]).
      eapply (accepted_challenge s page html p filled prompt s8); try done; [|by apply asked_ok].
      by destruct (body_as_str page); [injection Hh as ->|].
    + injection Hr as _ -> ->. by apply accepted_at_once.
Qed.

Lemma has_cookie_spec answer : has_cookie answer = true ↔ svpn_cookie answer ≠ None.
Proof. unfold has_cookie. by destruct (svpn_cookie answer). Qed.

Lemma then_on_spec answer s session s' : then_on answer s = (Ok session, s') ↔
  (svpn_cookie answer ≠ None ∧ concluded answer s session s') ∨
  ∃ tokeninfo filled answer' s1, svpn_cookie answer = None ∧
    get_value (body_text answer) "tokeninfo=" = Some tokeninfo ∧
    otp_login_body read_secret config (body_text answer) tokeninfo = Ok filled ∧
    asked host {| method := "POST"; path := "/remote/logincheck"; fields := form_fields; form := filled |} s answer' s1 ∧
    agrees answer' ∧ status_code answer' = 200 ∧ svpn_cookie answer' ≠ None ∧ concluded answer' s1 session s'.
Proof.
  unfold then_on. rewrite <- has_cookie_spec, <- finish_spec.
  destruct (has_cookie answer) eqn:Ec.
  { apply has_cookie_spec in Ec. split; [by left|]. by intros [[_ H]|(? & ? & ? & ? & H & _)]. }
  assert (svpn_cookie answer = None) as Hn by (unfold has_cookie in Ec; by destruct (svpn_cookie answer)).
  unfold second_factor, lift. split.
  - destruct (get_value (body_text answer) "tokeninfo=") as [token|]; [|done].
    intros (filled & s1 & [= Hf ->] & H)%sbind_ok_inv. apply sbind_ok_inv in H as (answer' & s2 & Hq & H).
    apply sbind_ok_inv in H as ([] & s3 & [= Ha%agrees_ok ->] & H).
    apply sbind_ok_inv in H as ([] & s4 & [= Hst%ensure_status_ok_inv ->] & H).
    destruct (has_cookie answer') eqn:Ec'; [|done]. apply has_cookie_spec in Ec'. apply finish_spec in H.
    right. exists token, filled, answer', s4. split_and!; try done. by apply asked_ok.
  - intros [[H _]|(token & filled & answer' & s1 & _ & -> & -> & Hq%asked_ok & Ha%agrees_ok & Hst & Hc%has_cookie_spec & H%finish_spec)];
      [done|].
    cbn [sbind method path fields form] in *. unfold post_logincheck, post_form, form_fields in *. rewrite Hq. cbn [sbind].
    rewrite Ha. cbn [sbind]. rewrite ensure_status_ok by done. cbn [sbind]. by rewrite Hc.
Qed.

Lemma authenticate_spec s session s' :
  authenticate read_secret config s = (Ok session, s') ↔ logged_in s session s'.
Proof.
  unfold logged_in. destruct (cookie config) as [c|] eqn:Hc.
  { unfold authenticate. rewrite Hc. split; [by intros [= <- <-]|by intros [-> ->]]. }
  destruct (accepted_spec s Hc) as [H1 H2]. split.
  - intros (answer & s1 & Ha & [[Hs H]|(token & filled & answer' & s2 & Hn & Ht & Hf & Hq & Hag & Hst & Hs & H)]%then_on_spec)%H2.
    + exists answer, s1. split; [by apply granted_cookie|done].
    + exists answer', s2. split; [by eapply granted_token|done].
  - intros (answer & s1 & [answer' s1' Ha Hs|page token filled s2 answer' s1' Ha Hn Ht Hf Hq Hag Hst Hs] & H);
      rewrite (H1 _ _ Ha); apply then_on_spec; [by left|right]. by exists token, filled, answer', s1'.
Qed.

End Login.

Lemma concluded_session config answer s session s' : concluded config answer s session s' → session_of answer session.
Proof.
  intros ((svpn & Hs & Hc) & Hr & _). exists svpn. split; [done|]. split; [done|].
  destruct (portal_redirect_path session) as [p|]; [|done]. by apply portal_redirect_local in Hr.
Qed.

Lemma accepted_agrees read_secret config s answer s' :
  accepted read_secret config s answer s' → status_code answer = 200 ∧ validate_auth_response answer = Ok tt.
Proof. by intros [? ? _ H%agrees_ok ?|? ? ? ? ? ? ? ? _ _ _ _ _ _ H%agrees_ok ?]. Qed.

Lemma granted_agrees read_secret config s answer s' :
  granted read_secret config s answer s' → status_code answer = 200 ∧ validate_auth_response answer = Ok tt.
Proof. by intros [? ? H%accepted_agrees _|? ? ? ? ? ? _ _ _ _ _ H%agrees_ok ? _]. Qed.

Lemma authenticate_consent read_secret config s session s' :
  authenticate read_secret config s = (Ok session, s') →
  match cookie config with
  | Some c => session = {| session_cookie := c; portal_redirect_path := None |} ∧ s' = s
  | None => ∃ response, status_code response = 200 ∧ validate_auth_response response = Ok tt ∧
      session_of response session
  end.
Proof.
  intros H%authenticate_spec. unfold logged_in in H. destruct (cookie config); [done|].
  destruct H as (answer & s1 & [Hst Hv]%granted_agrees & H%concluded_session). by exists answer.
Qed.

Lemma saml_consent config id s session s' :
  authenticate_with_saml_session config id s = (Ok session, s') →
  is_valid_saml_session_id id = true ∧ ∃ response, status_code response = 200 ∧ session_of response session.
Proof.
  unfold authenticate_with_saml_session. destruct (is_valid_saml_session_id id); [|done]. cbn [negb].
  intros (r & s1 & _ & H)%sbind_ok_inv. apply sbind_ok_inv in H as ([] & s2 & Hst & H).
  injection Hst as Hst%ensure_status_ok_inv _. destruct (has_cookie r); [|done]. apply finish_authenticated_ok in H. eauto.
Qed.

(** C19: A login succeeds exactly with the gateway's consent.  With a configured
    cookie nothing is asked and the session is that cookie.  Otherwise the
    session comes from an answer that was received on this connection behind
    a request of this login, whole; it has status 200, an SVPNCOOKIE and no
    result code other than success; and the way to it was the gateway's: the
    credentials first, then, if they are answered with status 401 (and
    agreement), the form of that very page, then, if the answer accepted so far
    has no cookie, the token it asks for.  The session is the cookies of that
    answer and the redirection on its page, after the host check the page asks
    for has been answered with status 200. *)
Theorem authenticate_needs_consent read_secret config s session s' :
  authenticate read_secret config s = (Ok session, s') ↔ logged_in read_secret config s session s'.
Proof. apply authenticate_spec. Qed.

Definition login_answer : bytes :=
  as_bytes (response_head 200 "OK" [("Set-Cookie", "SVPNCOOKIE=x; path=/"); ("Content-Length", "5")]) ++ as_bytes "ret=1".
Definition challenge_answer : bytes :=
  let q s := String double_quote (s +:+ String double_quote "") in
  let page := "<form action=" +:+ q "/check" +:+ "><input type=" +:+ q "password" +:+ " name=" +:+ q "code" +:+ "></form>" in
  as_bytes (response_head 401 "Unauthorized" [("Content-Length", print_uint (str_len page))]) ++ as_bytes page.
Definition login_config : Config :=
  default_config <| username := "u" |> <| password := Some "p" |> <| otp := Some "12" |>.
Definition login_connection : connection :=
  {| conn_r := [RBytes challenge_answer; RBytes login_answer]; conn_w := {| written := []; w_script := [] |} |}.

(** A login through a challenge. *)
Example login_demo : ∃ s', logged_in (λ _ _ _, Ok "") login_config login_connection
  {| session_cookie := "SVPNCOOKIE=x"; portal_redirect_path := None |} s' ∧ conn_r s' = [].
Proof.
  exists (snd (authenticate (λ _ _ _, Ok "") login_config login_connection)).
  split; [apply authenticate_spec|]; vm_compute; reflexivity.
Qed.

(** ** The form of a one-time password *)

(** The inputs of a form, and the markup between them. *)
Inductive form_part :=
  | Hidden (name value : str)
  | PasswordInput (name : str)
  | Markup (tag : str).

Definition quoted (s : str) : str := String double_quote (s +:+ String double_quote "").
Definition part_tag (p : form_part) : str :=
  match p with
  | Hidden name value =>
      "input type=" +:+ quoted "hidden" +:+ " name=" +:+ quoted name +:+ " value=" +:+ quoted value
  | PasswordInput name => "input type=" +:+ quoted "password" +:+ " name=" +:+ quoted name
  | Markup tag => tag
  end.
Definition part_text (p : form_part) : str := "<" +:+ part_tag p +:+ ">".
Definition parts_text (l : list form_part) : str := foldr (λ p acc, part_text p +:+ acc) "" l.

Definition plain_char (c : ascii) : bool :=
  negb (Ascii.eqb c "<"%char) && negb (Ascii.eqb c ">"%char) && negb (Ascii.eqb c double_quote).
Definition key_text (s : str) : Prop := all_chars plain_char s = true ∧ no_char "="%char s = true.
Definition part_ok (p : form_part) : Prop :=
  match p with
  | Hidden name value => key_text name ∧ all_chars plain_char value = true
  | PasswordInput name => key_text name
  | Markup tag => all_chars plain_char tag = true ∧ strip_prefix_ci "input" (tag +:+ ">") = None
  end.

Definition part_answers (config : Config) (otp : str) (p : form_part) : list (str * str) :=
  match p with
  | Hidden name value => [(name, value)]
  | PasswordInput name =>
      (name, otp) :: match non_empty (realm config) with Some realm => [("realm", realm)] | None => [] end
  | Markup _ => []
  end.

Definition challenge_page (path : str) (parts : list form_part) : str :=
  "<form action=" +:+ quoted path +:+ ">" +:+ parts_text parts.

Lemma find_ci_skip needle a s :
  no_char "<"%char a = true → find_ascii_case_insensitive (String "<" needle) (a +:+ s) =
    find_ascii_case_insensitive (String "<" needle) s.
Proof.
  induction a as [|c a IH]; [done|]. cbn [all_chars]. intros [Hc%negb_true_iff Ha]%andb_true_iff.
  rewrite cons_app. cbn [find_ascii_case_insensitive strip_prefix_ci].
  change (to_ascii_lowercase_char "<") with "<"%char.
  assert (Ascii.eqb "<" (to_ascii_lowercase_char c) = false)%char as ->; [|by apply IH].
  rewrite Ascii.eqb_sym.
  assert (negb (Ascii.eqb c "<"%char) = true) as Hn by by rewrite Hc.
  apply negb_true_iff. revert Hn. apply (char_impl (λ c, negb (Ascii.eqb c "<"%char))
    (λ c, negb (Ascii.eqb (to_ascii_lowercase_char c) "<"%char))). vm_compute. reflexivity.
Qed.

Lemma plain_no_char c s :
  c = "<"%char ∨ c = ">"%char ∨ c = double_quote → all_chars plain_char s = true → no_char c s = true.
Proof.
  intros Hc. apply (chars_impl plain_char (λ d, negb (Ascii.eqb d c))).
  destruct Hc as [->|[->| ->]]; vm_compute; reflexivity.
Qed.

Lemma part_tag_no_angle c p :
  c = "<"%char ∨ c = ">"%char → part_ok p → no_char c (part_tag p) = true.
Proof.
  intros Hc Hp. assert (∀ s, all_chars plain_char s = true → no_char c s = true) as Hs.
  { intros s. apply plain_no_char. tauto. }
  destruct p as [n v|n|t]; cbn [part_ok part_tag] in *.
  - destruct Hp as [[Hn _] Hv]. unfold quoted. rewrite !all_chars_app. cbn [all_chars]. rewrite !all_chars_app.
    rewrite (Hs n Hn), (Hs v Hv). destruct Hc as [->| ->]; reflexivity.
  - destruct Hp as [Hn _]. unfold quoted. rewrite !all_chars_app. cbn [all_chars]. rewrite !all_chars_app.
    rewrite (Hs n Hn). destruct Hc as [->| ->]; reflexivity.
  - apply Hs, Hp.
Qed.

(** An attribute is not found inside a quoted name. *)
Lemma strip_prefix_ci_name key n s :
  no_char double_quote (to_ascii_lowercase key) = true → no_char "="%char n = true →
  strip_prefix_ci (key +:+ "=" +:+ String double_quote "") (n +:+ String double_quote s) = None.
Proof.
  revert n. induction key as [|k key IH]; intros n Hk Hn.
  - destruct n as [|c n]; [reflexivity|]. cbn [all_chars] in Hn. apply andb_true_iff in Hn as [Hc _].
    change ("" +:+ "=" +:+ String double_quote "") with (String "=" (String double_quote "")).
    rewrite cons_app. cbn [strip_prefix_ci]. change (to_ascii_lowercase_char "=") with "="%char.
    assert (Ascii.eqb "=" (to_ascii_lowercase_char c) = false)%char as ->; [|done].
    rewrite Ascii.eqb_sym. apply negb_true_iff. revert Hc.
    apply (char_impl (λ c, negb (Ascii.eqb c "="%char)) (λ c, negb (Ascii.eqb (to_ascii_lowercase_char c) "="%char))).
    vm_compute. reflexivity.
  - cbn [to_ascii_lowercase all_chars] in Hk. apply andb_true_iff in Hk as [Hk1%negb_true_iff Hk2].
    rewrite cons_app. destruct n as [|c n].
    + change ("" +:+ String double_quote s) with (String double_quote s). cbn [strip_prefix_ci].
      change (to_ascii_lowercase_char double_quote) with double_quote. by rewrite Hk1.
    + cbn [all_chars] in Hn. apply andb_true_iff in Hn as [_ Hn]. rewrite (cons_app c n). cbn [strip_prefix_ci].
      destruct (Ascii.eqb (to_ascii_lowercase_char k) (to_ascii_lowercase_char c)); [by apply IH|done].
Qed.

Lemma find_ci_name key n s :
  no_char double_quote (to_ascii_lowercase key) = true → no_char "="%char n = true →
  find_ascii_case_insensitive (key +:+ "=" +:+ String double_quote "") (n +:+ String double_quote s) =
    find_ascii_case_insensitive (key +:+ "=" +:+ String double_quote "") s.
Proof.
  intros Hk. revert s. induction n as [|c n IH]; intros s Hn.
  - pose proof (strip_prefix_ci_name key "" s Hk eq_refl) as H.
    change ("" +:+ String double_quote s) with (String double_quote s) in *.
    cbn [find_ascii_case_insensitive]. by rewrite H.
  - pose proof (strip_prefix_ci_name key (String c n) s Hk Hn) as H. rewrite (cons_app c n) in *.
    cbn [find_ascii_case_insensitive]. rewrite H. cbn [all_chars] in Hn. apply andb_true_iff in Hn as [_ Hn]. by apply IH.
Qed.

Lemma split_once_quoted s rest : all_chars plain_char s = true → split_once double_quote (s +:+ String double_quote rest) = Some (s, rest).
Proof. intros H. apply split_once_app. apply plain_no_char; [tauto|done]. Qed.

(** *** The fields of one input *)

Lemma quoted_app s t : quoted s +:+ t = String double_quote (s +:+ String double_quote t).
Proof. unfold quoted. rewrite cons_app. f_equal. by rewrite str_app_assoc. Qed.

Lemma html_attr_type n rest :
  html_attr ("<input type=" +:+ quoted n +:+ rest) "type" = fst <$> split_once double_quote (n +:+ String double_quote rest).
Proof.
  unfold html_attr, after_match. rewrite quoted_app. reflexivity.
Qed.

(** The name stands behind the type, the value behind the name. *)
Lemma html_attr_name (hidden : bool) n rest :
  html_attr ("<input type=" +:+ quoted (if hidden then "hidden" else "password") +:+ " name=" +:+ quoted n +:+ rest) "name" =
    fst <$> split_once double_quote (n +:+ String double_quote rest).
Proof.
  unfold html_attr, after_match. rewrite (quoted_app n). destruct hidden; reflexivity.
Qed.

Lemma html_attr_value n v rest :
  key_text n →
  html_attr ("<input type=" +:+ quoted "hidden" +:+ " name=" +:+ quoted n +:+ " value=" +:+ quoted v +:+ rest) "value" =
    fst <$> split_once double_quote (v +:+ String double_quote rest).
Proof.
  intros [_ Hn]. unfold html_attr, after_match. rewrite (quoted_app n), (quoted_app v).
  set (tail := String double_quote (v +:+ String double_quote rest)).
  change (find_ascii_case_insensitive ("value" +:+ "=" +:+ String double_quote "")
      ("<input type=" +:+ quoted "hidden" +:+ " name="
        +:+ String double_quote (n +:+ String double_quote (" value=" +:+ tail))))
    with (find_ascii_case_insensitive ("value" +:+ "=" +:+ String double_quote "")
      (n +:+ String double_quote (" value=" +:+ tail))).
  rewrite find_ci_name by done. reflexivity.
Qed.

Lemma input_fields_hidden config otp n v :
  part_ok (Hidden n v) → input_fields config otp ("<" +:+ part_tag (Hidden n v)) = Ok [field_text (n, v)].
Proof.
  intros [Hn Hv]. unfold input_fields, part_tag.
  assert (html_attr ("<" +:+ "input type=" +:+ quoted "hidden" +:+ " name=" +:+ quoted n +:+ " value=" +:+ quoted v) "type"
    = Some "hidden") as -> by apply html_attr_type.
  assert (html_attr ("<" +:+ "input type=" +:+ quoted "hidden" +:+ " name=" +:+ quoted n +:+ " value=" +:+ quoted v) "name"
    = Some n) as ->.
  { etransitivity; [apply (html_attr_name true n (" value=" +:+ quoted v))|]. by rewrite split_once_quoted by apply Hn. }
  assert (html_attr ("<" +:+ "input type=" +:+ quoted "hidden" +:+ " name=" +:+ quoted n +:+ " value=" +:+ quoted v) "value"
    = Some v) as ->.
  { rewrite <- (app_empty_r (quoted v)). etransitivity; [apply (html_attr_value n v "" Hn)|].
    by rewrite split_once_quoted. }
  reflexivity.
Qed.

Lemma input_fields_password config otp n :
  part_ok (PasswordInput n) →
  input_fields config otp ("<" +:+ part_tag (PasswordInput n)) =
    Ok (map field_text (part_answers config otp (PasswordInput n))).
Proof.
  intros Hn. unfold input_fields, part_tag.
  assert (html_attr ("<" +:+ "input type=" +:+ quoted "password" +:+ " name=" +:+ quoted n) "type" = Some "password") as ->
    by apply html_attr_type.
  assert (html_attr ("<" +:+ "input type=" +:+ quoted "password" +:+ " name=" +:+ quoted n) "name" = Some n) as ->.
  { rewrite <- (app_empty_r (quoted n)). etransitivity; [apply (html_attr_name false n "")|].
    by rewrite split_once_quoted by apply Hn. }
  cbn [default part_answers]. change (eq_ignore_ascii_case "password" "hidden") with false.
  change (eq_ignore_ascii_case "password" "password") with true. cbn [orb ok_or bind].
  by destruct (non_empty (realm config)).
Qed.

(** *** The form *)

Lemma parts_text_length p l : String.length (parts_text (p :: l)) = (2 + String.length (part_tag p) + String.length (parts_text l))%nat.
Proof.
  cbn [parts_text foldr]. fold (parts_text l). unfold part_text. rewrite !str_length_app. cbn [String.length]. lia.
Qed.

(** The first [>] that does not fit settles the comparison. *)
Lemma strip_prefix_ci_end p t u :
  no_char ">"%char (to_ascii_lowercase p) = true →
  strip_prefix_ci p (t +:+ ">") = None → strip_prefix_ci p (t +:+ ">" +:+ u) = None.
Proof.
  revert t. induction p as [|a p IH]; intros t Hp H; [by destruct t|].
  cbn [to_ascii_lowercase all_chars] in Hp. apply andb_true_iff in Hp as [Ha%negb_true_iff Hp].
  destruct t as [|b t].
  - change ("" +:+ ">" +:+ u) with (String ">" u). cbn [strip_prefix_ci].
    change (to_ascii_lowercase_char ">") with ">"%char. by rewrite Ha.
  - rewrite cons_app in *. cbn [strip_prefix_ci] in *.
    destruct (Ascii.eqb (to_ascii_lowercase_char a) (to_ascii_lowercase_char b)); [by apply IH|done].
Qed.

Lemma find_input_part p u :
  part_ok p →
  find_ascii_case_insensitive "<input" (part_text p +:+ u) =
    match p with
    | Markup _ => find_ascii_case_insensitive "<input" u
    | _ => Some (String "<" (part_tag p +:+ String ">" u))
    end.
Proof.
  intros Hp. assert (part_text p +:+ u = String "<" (part_tag p +:+ ">" +:+ u)) as ->
    by (unfold part_text; by rewrite !str_app_assoc).
  destruct p as [n v|n|t]; [reflexivity..|]. destruct Hp as [Ht Hi].
  change (find_ascii_case_insensitive "<input" (String "<" (part_tag (Markup t) +:+ ">" +:+ u)))
    with (match strip_prefix_ci "input" (t +:+ ">" +:+ u) with
          | Some _ => Some (String "<" (t +:+ ">" +:+ u))
          | None => find_ascii_case_insensitive "<input" (t +:+ ">" +:+ u)
          end).
  rewrite strip_prefix_ci_end by done. rewrite <- str_app_assoc. apply find_ci_skip.
  rewrite all_chars_app, plain_no_char by (tauto || done). reflexivity.
Qed.

Lemma input_fields_part config otp p :
  part_ok p → match p with Markup _ => True | _ =>
    input_fields config otp (String "<" (part_tag p)) = Ok (map field_text (part_answers config otp p)) end.
Proof.
  intros Hp. destruct p as [n v|n|t]; [by apply input_fields_hidden|by apply input_fields_password|done].
Qed.

Lemma inputs_loop_parts config otp lead l fuel :
  Forall part_ok l → no_char "<"%char lead = true → (String.length (parts_text l) < fuel)%nat →
  inputs_loop fuel config otp (lead +:+ parts_text l) = Ok (map field_text (concat (map (part_answers config otp) l))).
Proof.
  intros Hl. revert lead fuel. induction Hl as [|p l Hp Hl IH]; intros lead fuel Hlead Hf.
  { destruct fuel; [cbn in Hf; lia|]. cbn [inputs_loop]. by rewrite find_ci_skip. }
  rewrite parts_text_length in Hf. cbn [map concat]. rewrite map_app.
  destruct fuel as [|fuel]; [lia|]. change (parts_text (p :: l)) with (part_text p +:+ parts_text l).
  pose proof (find_input_part p (parts_text l) Hp) as Hfind.
  pose proof (input_fields_part config otp p Hp) as Hin.
  assert (no_char ">"%char (String "<" (part_tag p)) = true) as Hgt.
  { cbn [all_chars]. rewrite part_tag_no_angle by auto. done. }
  destruct p as [n v|n|t].
  1, 2: cbn [inputs_loop]; rewrite find_ci_skip, Hfind by done;
    rewrite <- (cons_app "<"), split_once_app, Hin by done; cbn [bind];
    specialize (IH "" fuel eq_refl ltac:(lia)); change ("" +:+ parts_text l) with (parts_text l) in IH; by rewrite IH.
  assert (inputs_loop (S fuel) config otp (lead +:+ part_text (Markup t) +:+ parts_text l) =
    inputs_loop (S fuel) config otp (lead +:+ parts_text l)) as ->.
  { cbn [inputs_loop]. rewrite !find_ci_skip by done. by rewrite Hfind, find_ci_skip by done. }
  apply IH; [done|lia].
Qed.

(** C39: A one-time password challenge is answered field by field: of a form
    with hidden and password inputs and other markup, the answer goes to the
    form's action and decodes to the hidden fields with their values and each
    password field with the one-time password, followed by the realm, in the
    order of the form. *)
Theorem otp_challenge_form_answers read_secret config otp_ path parts :
  otp config = Some otp_ → otp_ ≠ "" → all_chars plain_char path = true → Forall part_ok parts →
  concat (map (part_answers config otp_) parts) ≠ [] →
  ∃ body prompt, otp_challenge_form read_secret config (challenge_page path parts) = Ok (path, body, prompt) ∧
    parse_form body = Some (concat (map (part_answers config otp_) parts)).
Proof.
  intros Hotp Hne Hpath Hparts Hans. unfold otp_challenge_form.
  set (page := challenge_page path parts).
  assert (find_ascii_case_insensitive "<form" page = Some page) as -> by reflexivity. cbn [ok_or bind].
  assert (page = "<form action=" +:+ String double_quote (path +:+ String double_quote (">" +:+ parts_text parts))) as Hpage.
  { unfold page, challenge_page. by rewrite quoted_app. }
  assert (after_match ("action=" +:+ String double_quote "") page = Some (path +:+ String double_quote (">" +:+ parts_text parts))) as ->
    by (rewrite Hpage; reflexivity).
  cbn [ok_or bind]. rewrite split_once_quoted by done. cbn [ok_or bind].
  unfold otp_value_with_purpose. rewrite Hotp. cbn [non_empty]. assert (str_is_empty otp_ = false) as -> by by destruct otp_.
  cbn [bind].
  assert (page = String "<" (("form action=" +:+ quoted path +:+ ">") +:+ parts_text parts)) as Hpage2.
  { unfold page, challenge_page. rewrite !str_app_assoc. reflexivity. }
  assert (inputs_loop (S (String.length page)) config otp_ page =
    inputs_loop (S (String.length page)) config otp_ (("form action=" +:+ quoted path +:+ ">") +:+ parts_text parts)) as ->.
  { cbn [inputs_loop]. rewrite Hpage2 at 1. reflexivity. }
  rewrite inputs_loop_parts; [|done| |].
  - cbn [bind]. set (ans := concat _) in *. destruct ans as [|f fs] eqn:E; [done|].
    eexists _, _. split; [reflexivity|]. rewrite <- parse_form_fields by done. reflexivity.
  - unfold quoted. rewrite !all_chars_app. cbn [all_chars]. rewrite all_chars_app.
    rewrite plain_no_char by (tauto || done). reflexivity.
  - rewrite Hpage2. cbn [String.length]. rewrite str_length_app. lia.
Qed.

Definition otp_config : Config := default_config <| otp := Some "12 34" |> <| realm := Some "r" |>.

Lemma otp_challenge_form_answers_witness :
  ∃ body prompt, otp_challenge_form (λ _ _ _, Panic) otp_config
      (challenge_page "/remote/otp" [Hidden "magic" "a b"; Markup "br"; PasswordInput "credential"]) =
      Ok ("/remote/otp", body, prompt) ∧
    parse_form body = Some [("magic", "a b"); ("credential", "12 34"); ("realm", "r")].
Proof.
  assert (Forall part_ok [Hidden "magic" "a b"; Markup "br"; PasswordInput "credential"]) as Hparts
    by repeat constructor.
  exact (otp_challenge_form_answers (λ _ _ _, Panic) otp_config
    "12 34" "/remote/otp" [Hidden "magic" "a b"; Markup "br"; PasswordInput "credential"]
    ltac:(reflexivity) ltac:(discriminate) ltac:(reflexivity) Hparts ltac:(discriminate)).
Defined.

(** An input that is never closed sends the search behind the end of the page. *)
Theorem unclosed_input_panics read_secret :
  otp_challenge_form read_secret (default_config <| otp := Some "1" |>)
    ("<form action=" +:+ quoted "/p" +:+ "><input type=" +:+ quoted "text") = Panic.
Proof. vm_compute. reflexivity. Qed.
