(* ===== verification/Pinentry.v ===== *)
(** * [pinentry.rs] and [user_input.rs]: asking the user

    The Assuan dialogue with a pinentry program, and the choice between it and
    the terminal. *)

From S2P Require Import Prelude Stream RustStd Net Http Login.

#[local] Open Scope string_scope.
#[local] Open Scope list_scope.
#[local] Open Scope Z_scope.

(** ** Escaping *)

Definition is_ascii_alphanumeric (b : u8) : bool := in_range 48 57 b || in_range 65 90 b || in_range 97 122 b.

(** [-], [_], [.] and [~] *)
Definition uri_plain (b : u8) : bool :=
  is_ascii_alphanumeric b || ((b =? 45) || (b =? 95) || (b =? 46) || (b =? 126)).

(** [{:02X}] *)
Definition upper_hex (b : u8) : str := String (hex_digit (b / 16)) (String (hex_digit (b mod 16)) EmptyString).

Definition uri_escape_byte (b : u8) : str :=
  if uri_plain b then String (ascii_of_u8 b) EmptyString else String "%"%char (upper_hex b).

Fixpoint uri_escape (value : str) : str :=
  match value with
  | EmptyString => EmptyString
  | String c value => uri_escape_byte (u8_of_ascii c) +:+ uri_escape value
  end.

Definition hex_value (byte : u8) : option u8 :=
  if in_range 48 57 byte then Some (byte - 48)
  else if in_range 97 102 byte then Some (byte - 97 + 10)
  else if in_range 65 70 byte then Some (byte - 65 + 10)
  else None.

Definition decode_hex_pair (high low : u8) : option u8 :=
  high ← hex_value high; low ← hex_value low; Some (Z.lor (Z.land (Z.shiftl high 4) 0xff) low).

(** The loop: an escape needs two bytes behind its percent sign. *)
Fixpoint unescape_bytes (bytes_ : bytes) : bytes :=
  match bytes_ with
  | [] => []
  | b :: tail =>
      match tail with
      | b1 :: ((b2 :: rest) as tail1) =>
          if b =? 37 then
            if b1 =? 37 then 37 :: unescape_bytes tail1
            else match decode_hex_pair b1 b2 with
                 | Some decoded => decoded :: unescape_bytes rest
                 | None => b :: unescape_bytes tail
                 end
          else b :: unescape_bytes tail
      | _ => b :: unescape_bytes tail
      end
  end.

(** [trim_end_matches] of a class of characters. *)
Fixpoint trim_end_if (p : ascii → bool) (s : str) : str :=
  match s with
  | EmptyString => EmptyString
  | String c s =>
      match trim_end_if p s with
      | EmptyString => if p c then EmptyString else String c EmptyString
      | s => String c s
      end
  end.

Definition is_line_end (c : ascii) : bool := Ascii.eqb c carriage_return || Ascii.eqb c newline.

(** [BufRead::read_line]: to a line feed or the end, then as UTF-8. *)
Fixpoint line_bytes (fuel : nat) (line : bytes) (r : reader) : result bytes * reader :=
  match fuel with
  | O => (Diverge, r)
  | S fuel =>
      match read 1 r with
      | (Ok [], r) => (Ok line, r)
      | (Ok (b :: _), r) => if b =? 10 then (Ok (line ++ [b]), r) else line_bytes fuel (line ++ [b]) r
      | (Err (Io Interrupted _), r) => line_bytes fuel line r
      | (Err e, r) => (Err e, r)
      | (Panic, r) => (Panic, r)
      | (Diverge, r) => (Diverge, r)
      end
  end.

Definition read_line (r : reader) : result str * reader :=
  let! line & r := line_bytes (reader_fuel r) [] r in
  (ok_or (from_utf8 line) (Io InvalidData "stream did not contain valid UTF-8"), r).

(** ** The child process *)

(** [status] is the outcome of waiting: nothing on success, else the text of
    the status. *)
Record Child := {
  child_stdin : writer;
  child_stdout : reader;
  stdin_open : bool;
  status : result (option str);
  killed : bool;
  waits : nat;
}.

#[export] Instance Child_eta : Eta Child := λ c,
  {| child_stdin := child_stdin c; child_stdout := child_stdout c; stdin_open := stdin_open c; status := status c;
     killed := killed c; waits := waits c |}.

Definition finish_child_with_error (child : Child) : Child :=
  child <| killed := true |> <| waits := S (waits child) |>.

Definition wait_for_child (child : Child) : result unit * Child :=
  let child := child <| waits := S (waits child) |> in
  let! status & child := lift (status child) child in
  match status with
  | None => (Ok tt, child)
  | Some text => (Err (Auth ("pinentry exited with status " +:+ text)), child)
  end.

Section Dialogue.
(** [utf8_error] and [debug] are how the standard library prints a decoding
    error and a text; [spawn] is the outcome of starting a program, with its
    two pipes open. *)
Context (utf8_error : bytes → str) (debug : str → str) (spawn : str → Child + ErrorKind).

Definition uri_unescape (value : str) : result str :=
  let out := unescape_bytes (as_bytes value) in
  ok_or (from_utf8 out) (Auth ("pinentry returned invalid UTF-8 data: " +:+ utf8_error out)).

(** The answer on one line, without its end. *)
Definition answer_of (line : str) : result (option str) :=
  if (line =? "OK")%string then Ok None else
  match strip_prefix "OK " line with
  | Some value => let* value := uri_unescape value in Ok (Some value)
  | None =>
  match strip_prefix "D " line with
  | Some value => let* value := uri_unescape value in Ok (Some value)
  | None =>
  match strip_prefix "ERR " line with
  | Some value =>
      let* detail :=
        match split_once " "%char value with
        | Some (_, text) => uri_unescape text
        | None => Ok value
        end in
      Err (Auth ("pinentry returned error: " +:+ detail))
  | None =>
  match strip_prefix "S ERROR" line with
  | Some value => Err (Auth ("pinentry returned error: " +:+ trim value))
  | None => Err (Auth ("pinentry protocol error: " +:+ line))
  end end end end.

Definition read_pinentry_response (child : Child) : result (option str) * Child :=
  let '(line, r) := read_line (child_stdout child) in
  let child := child <| child_stdout := r |> in
  let! line & child := lift line child in
  if str_is_empty line then (Err (Auth "short read from pinentry"), child) else
  (answer_of (trim_end_if is_line_end line), child).

Definition exchange (command : str) (child : Child) : result (option str) * Child :=
  let '(sent, w) := write_all (as_bytes command) (child_stdin child) in
  let child := child <| child_stdin := w |> in
  let! _ & child := lift sent child in
  let '(flushed, w) := flush (child_stdin child) in
  let child := child <| child_stdin := w |> in
  let! _ & child := lift flushed child in
  read_pinentry_response child.

(** [Err(err) => return Err(finish_child_with_error(&mut child, err))] *)
Definition or_kill {A} (x : result A * Child) : result A * Child :=
  match x with
  | (Err err, child) => (Err err, finish_child_with_error child)
  | x => x
  end.

Definition dialogue (hint prompt : str) (child : Child) : result str * Child :=
  let! _ & child := or_kill (read_pinentry_response child) in
  let! _ & child := or_kill (exchange ("SETTITLE VPN Password" +:+ String newline "") child) in
  let! _ & child := or_kill (exchange ("SETDESC VPN Requires a Password" +:+ String newline "") child) in
  let! _ & child := or_kill (exchange ("SETKEYINFO " +:+ uri_escape hint +:+ String newline "") child) in
  let! _ & child := or_kill (exchange ("SETPROMPT " +:+ uri_escape prompt +:+ String newline "") child) in
  let! value & child := or_kill (exchange ("GETPIN" +:+ String newline "") child) in
  let password := default "" value in
  let child := child <| stdin_open := false |> in
  let! _ & child := wait_for_child child in
  (Ok password, child).

Definition read_password (program hint prompt : str) : result str * option Child :=
  match spawn program with
  | inr k => (Err (Auth ("failed to start pinentry program " +:+ debug program +:+ ": " +:+ io_text (io_error k))), None)
  | inl child => let '(r, child) := dialogue hint prompt child in (r, Some child)
  end.

(** ** [user_input::read_secret] *)

(** [prompt_secret] is what the terminal answers. *)
Definition read_secret (prompt_secret : str → result str) (pinentry_program : option str) (hint prompt : str)
    : result str :=
  match non_empty pinentry_program with
  | Some program => fst (read_password program hint prompt)
  | None => prompt_secret prompt
  end.
End Dialogue.

(** ** Specifications *)

Lemma unescape_plain b t : b ≠ 37 → unescape_bytes (b :: t) = b :: unescape_bytes t.
Proof. intros H%Z.eqb_neq. cbn [unescape_bytes]. destruct t as [|b1 [|b2 t]]; [done|done|]. by rewrite H. Qed.

(** The three octets of an escape. *)
Definition escape_digits (b : u8) : u8 * u8 := (u8_of_ascii (hex_digit (b / 16)), u8_of_ascii (hex_digit (b mod 16))).

Lemma escape_digits_ok b : is_u8 b →
  (fst (escape_digits b) =? 37) = false ∧ decode_hex_pair (fst (escape_digits b)) (snd (escape_digits b)) = Some b.
Proof.
  intros Hb.
  assert (negb (fst (escape_digits b) =? 37) &&
    match decode_hex_pair (fst (escape_digits b)) (snd (escape_digits b)) with Some x => x =? b | None => false end = true) as H
    by by_all_u8 (λ b, negb (fst (escape_digits b) =? 37) &&
      match decode_hex_pair (fst (escape_digits b)) (snd (escape_digits b)) with Some x => x =? b | None => false end) b.
  apply andb_true_iff in H as [H1%negb_true_iff H2]. split; [done|].
  destruct (decode_hex_pair _ _); [|done]. by apply Z.eqb_eq in H2 as ->.
Qed.

Lemma unescape_escape_byte b rest : is_u8 b →
  unescape_bytes (as_bytes (uri_escape_byte b) ++ rest) = b :: unescape_bytes rest.
Proof.
  intros Hb. unfold uri_escape_byte. destruct (uri_plain b) eqn:Hp.
  - cbn [as_bytes app]. rewrite u8_of_ascii_of_u8 by done. apply unescape_plain. intros ->. by vm_compute in Hp.
  - destruct (escape_digits_ok b Hb) as [H1 H2]. unfold escape_digits in *. cbn [fst snd] in *.
    unfold upper_hex. cbn [as_bytes app]. change (u8_of_ascii "%") with 37. cbn [unescape_bytes].
    by rewrite Z.eqb_refl, H1, H2.
Qed.

Lemma unescape_escape value : unescape_bytes (as_bytes (uri_escape value)) = as_bytes value.
Proof.
  induction value as [|c value IH]; [done|]. cbn [uri_escape]. rewrite as_bytes_app, unescape_escape_byte, IH; [done|].
  apply u8_of_ascii_range.
Qed.

(** An escaped text is one word. *)
Definition is_word_char (c : ascii) : bool := uri_plain (u8_of_ascii c) || Ascii.eqb c "%"%char.

Lemma uri_escape_word value : all_chars is_word_char (uri_escape value) = true.
Proof.
  induction value as [|c value IH]; [done|]. cbn [uri_escape]. rewrite all_chars_app, IH, andb_true_r.
  pose proof (u8_of_ascii_range c). by by_all_u8 (λ b, all_chars is_word_char (uri_escape_byte b)) (u8_of_ascii c).
Qed.

(** ** Lines *)

Lemma line_bytes_chunked fuel l line rest cs : nonempty_chunks cs → concat cs = l ++ 10 :: rest → 10 ∉ l →
  (length l < fuel)%nat →
  ∃ cs', line_bytes fuel line (chunked cs) = (Ok (line ++ l ++ [10]), chunked cs') ∧ concat cs' = rest ∧ nonempty_chunks cs'.
Proof.
  revert l line cs. induction fuel as [|fuel IH]; intros l line cs Hcs Hcat Hno Hf; [lia|]. cbn [line_bytes].
  destruct l as [|b l].
  - destruct (read_1_chunked 10 rest cs Hcs Hcat) as (cs' & -> & Hc & Hcs'). rewrite Z.eqb_refl. by exists cs'.
  - destruct (read_1_chunked b (l ++ 10 :: rest) cs Hcs Hcat) as (cs' & -> & Hc & Hcs').
    apply not_elem_of_cons in Hno as [Hb Hno]. rewrite (proj2 (Z.eqb_neq b 10)) by congruence.
    destruct (IH l (line ++ [b]) cs' Hcs' Hc Hno) as (cs2 & -> & H); [cbn in Hf; lia|].
    exists cs2. by rewrite <- !app_assoc.
Qed.

Lemma chunked_fuel cs : (length (concat cs) < reader_fuel (chunked cs))%nat.
Proof. induction cs as [|c cs IH]; cbn; [lia|]. rewrite length_app. unfold chunked in IH. lia. Qed.

Lemma line_bytes_returns fuel line r : (reader_fuel r <= fuel)%nat → returns (fst (line_bytes fuel line r)).
Proof.
  revert line r. induction fuel as [|fuel IH]; intros line r Hf.
  { destruct r as [|[]]; cbn in Hf; lia. }
  cbn [line_bytes]. pose proof (returns_read 1 r) as Hr.
  destruct (read 1 r) as [[[|b l]|e| |] r'] eqn:E; try done.
  - destruct (b =? 10); [done|]. apply read_fuel in E; [|lia]. apply IH. lia.
  - destruct e as [[] m| | | | | | | | | | | | | | | | | |]; try done. apply IH.
    destruct r as [|[l|k] r]; cbn [read] in E; [done|by destruct (len l <=? 1)|]. injection E as _ _ <-. cbn in Hf. lia.
Qed.

Lemma read_line_returns r : returns (fst (read_line r)).
Proof.
  unfold read_line. apply sbind_returns; [by apply line_bytes_returns|]. intros line r' _. cbn.
  by destruct (from_utf8 line).
Qed.

Definition ended (line : str) : str := line +:+ String newline "".

(** A line as it arrives: text without a line end of its own. *)
Definition is_line (line : str) : Prop :=
  from_utf8 (as_bytes (ended line)) = Some (ended line) ∧ all_chars (λ c, negb (is_line_end c)) line = true.

Lemma trim_ended line : all_chars (λ c, negb (is_line_end c)) line = true → trim_end_if is_line_end (ended line) = line.
Proof.
  induction line as [|c line IH]; [done|]. cbn [all_chars]. intros [Hc%negb_true_iff Hl]%andb_true_iff.
  change (ended (String c line)) with (String c (ended line)). cbn [trim_end_if]. rewrite IH by done.
  by destruct line; [rewrite Hc|].
Qed.

Lemma line_no_newline line : all_chars (λ c, negb (is_line_end c)) line = true → 10 ∉ as_bytes line.
Proof.
  induction line as [|c line IH]; cbn [all_chars as_bytes]; [intros _; apply not_elem_of_nil|].
  intros [Hc%negb_true_iff Hl]%andb_true_iff. apply not_elem_of_cons. split; [|by apply IH].
  intros H. assert (c = newline) as ->; [|done].
  rewrite <- (ascii_of_u8_of_ascii c), <- H. done.
Qed.

Lemma word_line word : all_chars is_word_char word = true →
  all_chars (λ c, negb (is_line_end c)) word = true ∧ Forall (λ b, 0 <= b < 128) (as_bytes word).
Proof.
  induction word as [|c word IH]; [by split; [|constructor]|]. cbn [all_chars as_bytes].
  intros [Hc Hw]%andb_true_iff. destruct (IH Hw) as [H1 H2].
  assert (implb (is_word_char c) (negb (is_line_end c) && (u8_of_ascii c <? 128)) = true) as H.
  { rewrite <- (ascii_of_u8_of_ascii c) at 1 2. pose proof (u8_of_ascii_range c).
    by by_all_u8 (λ b, implb (is_word_char (ascii_of_u8 b)) (negb (is_line_end (ascii_of_u8 b)) && (b <? 128))) (u8_of_ascii c). }
  rewrite Hc in H. apply andb_true_iff in H as [-> H%Z.ltb_lt]. pose proof (u8_of_ascii_range c) as Hr.
  split; [done|]. constructor; [unfold is_u8 in Hr; lia|done].
Qed.

Lemma word_is_line p word : all_chars (λ c, negb (is_line_end c)) p = true → Forall (λ b, 0 <= b < 128) (as_bytes p) →
  all_chars is_word_char word = true → is_line (p +:+ word).
Proof.
  intros Hp Hb [H1 H2]%word_line. split; [|by rewrite all_chars_app, Hp, H1].
  apply from_utf8_ascii. unfold ended. rewrite !as_bytes_app. repeat apply Forall_app_2; [done|done|].
  repeat constructor; vm_compute; congruence.
Qed.

(** The greeting, the answers of a dialogue and the answer of the user. *)
Section DialogueLaws.
Context (utf8_error : bytes → str) (debug : str → str) (spawn : str → Child + ErrorKind).

Abbreviation answer := (answer_of utf8_error).

Lemma uri_unescape_escape value : from_utf8 (as_bytes value) = Some value →
  uri_unescape utf8_error (uri_escape value) = Ok value.
Proof. intros H. unfold uri_unescape. by rewrite unescape_escape, H. Qed.

(** A dialogue that has sent [out] and is to receive [input]. *)
Definition ready (c : Child) (out input : bytes) : Prop :=
  child_stdin c = vec_writer out ∧ ∃ cs, child_stdout c = chunked cs ∧ concat cs = input ∧ nonempty_chunks cs.

Definition same_process (c c' : Child) : Prop :=
  status c' = status c ∧ killed c' = killed c ∧ waits c' = waits c.

Lemma same_process_trans c1 c2 c3 : same_process c1 c2 → same_process c2 c3 → same_process c1 c3.
Proof. unfold same_process. intros (?&?&?) (?&?&?). split_and!; congruence. Qed.

Lemma read_response_line c out line rest : ready c out (as_bytes (ended line) ++ rest) → is_line line →
  ∃ c', read_pinentry_response utf8_error c = (answer line, c') ∧ ready c' out rest ∧ same_process c c'.
Proof.
  intros (Hin & cs & Hc & Hcat & Hcs) [Htext Hline]. unfold read_pinentry_response, read_line. rewrite Hc.
  unfold ended in Hcat. rewrite as_bytes_app, <- app_assoc in Hcat. cbn [as_bytes app] in Hcat.
  change (u8_of_ascii newline) with 10 in Hcat.
  destruct (line_bytes_chunked (reader_fuel (chunked cs)) (as_bytes line) [] rest cs Hcs Hcat) as (cs' & -> & Hc' & Hcs').
  { by apply line_no_newline. }
  { pose proof (chunked_fuel cs) as Hf. rewrite Hcat, length_app in Hf. lia. }
  assert ([] ++ as_bytes line ++ [10] = as_bytes (ended line)) as -> by (unfold ended; by rewrite as_bytes_app).
  cbn [sbind]. rewrite Htext. cbn [ok_or lift sbind].
  assert (str_is_empty (ended line) = false) as -> by (by destruct line).
  rewrite trim_ended by done. eexists. split; [reflexivity|]. split; [|done]. split; [done|]. by exists cs'.
Qed.

Lemma exchange_line command c out line rest : ready c out (as_bytes (ended line) ++ rest) → is_line line →
  ∃ c', exchange utf8_error command c = (answer line, c') ∧ ready c' (out ++ as_bytes command) rest ∧ same_process c c'.
Proof.
  intros (Hin & Hout) Hline. unfold exchange. rewrite Hin, write_all_vec. cbn [lift sbind].
  destruct (read_response_line (c <| child_stdin := vec_writer (out ++ as_bytes command) |>) (out ++ as_bytes command)
    line rest) as (c' & H & H'); [by split|done|].
  exists c'. split; [exact H|exact H'].
Qed.

(** A line of an answer that is no refusal. *)
Definition agrees (line : str) : Prop := is_line line ∧ ∃ v, answer line = Ok v.

Definition commands (hint prompt : str) : str :=
  ended "SETTITLE VPN Password" +:+ ended "SETDESC VPN Requires a Password" +:+
  ended ("SETKEYINFO " +:+ uri_escape hint) +:+ ended ("SETPROMPT " +:+ uri_escape prompt) +:+ ended "GETPIN".

Lemma exchange_agrees command c out line rest : ready c out (as_bytes (ended line) ++ rest) → agrees line →
  ∃ v c', or_kill (exchange utf8_error command c) = (Ok v, c') ∧ ready c' (out ++ as_bytes command) rest ∧ same_process c c'.
Proof.
  intros Hr [Hl [v Hv]]. destruct (exchange_line command c out line rest Hr Hl) as (c' & -> & H). rewrite Hv. by exists v, c'.
Qed.

Lemma dialogue_answers hint prompt password greeting a1 a2 a3 a4 rest c :
  agrees greeting → agrees a1 → agrees a2 → agrees a3 → agrees a4 →
  from_utf8 (as_bytes password) = Some password → status c = Ok None →
  ready c [] (as_bytes (ended greeting +:+ ended a1 +:+ ended a2 +:+ ended a3 +:+ ended a4
    +:+ ended ("D " +:+ uri_escape password)) ++ rest) →
  ∃ c', dialogue utf8_error hint prompt c = (Ok password, c') ∧
    child_stdin c' = vec_writer (as_bytes (commands hint prompt)) ∧ stdin_open c' = false ∧
    killed c' = killed c ∧ waits c' = S (waits c).
Proof.
  intros [L0 [v0 E0]] A1 A2 A3 A4 Hpw Hst Hr. rewrite !as_bytes_app, <- !app_assoc in Hr. unfold dialogue.
  destruct (read_response_line c _ _ _ Hr L0) as (c0 & -> & R0 & S0). rewrite E0. cbn [or_kill sbind].
  destruct (exchange_agrees (ended "SETTITLE VPN Password") c0 _ _ _ R0 A1) as (v1 & c1 & H1 & R1 & S1).
  destruct (exchange_agrees (ended "SETDESC VPN Requires a Password") c1 _ _ _ R1 A2) as (v2 & c2 & H2 & R2 & S2).
  destruct (exchange_agrees (ended ("SETKEYINFO " +:+ uri_escape hint)) c2 _ _ _ R2 A3) as (v3 & c3 & H3 & R3 & S3).
  destruct (exchange_agrees (ended ("SETPROMPT " +:+ uri_escape prompt)) c3 _ _ _ R3 A4) as (v4 & c4 & H4 & R4 & S4).
  destruct (exchange_line (ended "GETPIN") c4 _ ("D " +:+ uri_escape password) rest R4) as (c5 & H5 & R5 & S5).
  { apply word_is_line; [done|repeat constructor; vm_compute; congruence|apply uri_escape_word]. }
  change (ended ("SETKEYINFO " +:+ uri_escape hint)) with ("SETKEYINFO " +:+ uri_escape hint +:+ String newline "") in H3.
  change (ended ("SETPROMPT " +:+ uri_escape prompt)) with ("SETPROMPT " +:+ uri_escape prompt +:+ String newline "") in H4.
  unfold ended in H1, H2, H5. rewrite H1. cbn [sbind]. rewrite H2. cbn [sbind]. rewrite H3. cbn [sbind]. rewrite H4. cbn [sbind]. rewrite H5.
  assert (answer ("D " +:+ uri_escape password) = Ok (Some password)) as ->.
  { transitivity (let* value := uri_unescape utf8_error (uri_escape password) in Ok (Some value)); [reflexivity|].
    by rewrite uri_unescape_escape. }
  pose proof (same_process_trans _ _ _ S0 (same_process_trans _ _ _ S1 (same_process_trans _ _ _ S2
    (same_process_trans _ _ _ S3 (same_process_trans _ _ _ S4 S5))))) as (T1 & T2 & T3).
  destruct R5 as [Hw _]. cbn [or_kill sbind default]. unfold wait_for_child. cbn. rewrite T1, Hst. cbn [lift sbind].
  eexists. split; [reflexivity|]. cbn. rewrite Hw, T2, T3. split_and!; try done.
  unfold commands. rewrite !as_bytes_app, <- !app_assoc. done.
Qed.
Lemma answer_of_returns line : returns (answer line).
Proof.
  assert (∀ value, returns (uri_unescape utf8_error value)) as Hu.
  { intros value. unfold uri_unescape. by destruct (from_utf8 _). }
  unfold answer_of. destruct (_ =? _)%string; [done|]. repeat (case_match; [first
    [by (apply returns_bind; [apply Hu|])
    |apply returns_bind; [case_match; [case_match; apply Hu|done]|done]|done]|]). done.
Qed.

Definition same_child (c c' : Child) : Prop := same_process c c' ∧ stdin_open c' = stdin_open c.

(** One step of the dialogue: an error kills the child and waits for it. *)
Definition reaps {A} (c : Child) (x : result A * Child) : Prop :=
  match x with
  | (Ok _, c') => same_child c c'
  | (Err _, c') => killed c' = true ∧ waits c' = S (waits c)
  | _ => False
  end.

Lemma response_reaps c : reaps c (or_kill (read_pinentry_response utf8_error c)).
Proof.
  unfold read_pinentry_response. pose proof (read_line_returns (child_stdout c)) as Hr.
  destruct (read_line (child_stdout c)) as [[line|e| |] r]; cbn [lift sbind or_kill]; try done.
  destruct (str_is_empty line); [done|]. pose proof (answer_of_returns (trim_end_if is_line_end line)) as Ha.
  by destruct (answer_of _ _).
Qed.

Lemma exchange_reaps command c : reaps c (or_kill (exchange utf8_error command c)).
Proof.
  unfold exchange. pose proof (returns_write_all (as_bytes command) (child_stdin c)) as H1.
  destruct (write_all _ _) as [[[]|e| |] w]; cbn [lift sbind or_kill]; try done.
  pose proof (returns_flush (child_stdin (c <| child_stdin := w |>))) as H2.
  destruct (flush _) as [[[]|e| |] w']; cbn [lift sbind or_kill]; try done.
  pose proof (response_reaps (c <| child_stdin := w |> <| child_stdin := w' |>)) as H.
  destruct (or_kill _) as [[v|e| |] c']; exact H.
Qed.

Lemma reaps_bind {A B} c (x : result A * Child) (k : A → Child → result B * Child) (P : result B * Child → Prop) :
  reaps c x → (∀ e c', killed c' = true → waits c' = S (waits c) → P (Err e, c')) →
  (∀ a c', same_child c c' → P (k a c')) → P (sbind x k).
Proof. destruct x as [[a|e| |] c']; cbn; intros Hx He Hk; try done; [by apply Hk|by apply He; destruct Hx]. Qed.

(** What a dialogue leaves behind: a child that was waited for once, and that
    was killed or saw the end of its input. *)
Definition finished {A} (c : Child) (x : result A * Child) : Prop :=
  returns (fst x) ∧ waits (snd x) = S (waits c) ∧
  (killed (snd x) = true ∨ stdin_open (snd x) = false ∧ killed (snd x) = killed c) ∧
  (is_ok (fst x) = true → killed (snd x) = killed c).

Lemma finished_step {A B} c c0 (x : result A * Child) (k : A → Child → result B * Child) :
  same_child c c0 → reaps c0 x → (∀ a c', same_child c c' → finished c (k a c')) → finished c (sbind x k).
Proof.
  intros [[S1 [S2 S3]] S4] Hx Hk. apply (reaps_bind c0); [done| |].
  - intros e c' H1 H2. split; [done|]. cbn. split; [by rewrite H2, S3|]. split; [by left|done].
  - intros a c' [[T1 [T2 T3]] T4]. apply Hk. split; [|congruence]. split_and!; congruence.
Qed.

Lemma dialogue_finished hint prompt c : returns (status c) → finished c (dialogue utf8_error hint prompt c).
Proof.
  intros Hst. unfold dialogue. eapply (finished_step c c); [done|apply response_reaps|]. intros _ c0 H0.
  do 5 (eapply finished_step; [eassumption|apply exchange_reaps|]; intros ? ? ?).
  match goal with |- finished _ (sbind (wait_for_child (?c' <| _ := _ |>)) _) =>
    match goal with H : same_child c c' |- _ => destruct H as [[S1 [S2 S3]] _] end end.
  unfold wait_for_child. cbn. rewrite S1. unfold finished.
  destruct (status c) as [[text|]|e| |]; cbn; try done; rewrite S2, S3; split_and!; auto.
Qed.
End DialogueLaws.

(** ** Properties *)

(** No text is lost and none can break the dialogue: unescaping gives an
    escaped text back, and an escaped text is one word, without a line end or
    a blank, whatever the prompt of a gateway's page is. *)
Theorem uri_escape_roundtrip utf8_error value : from_utf8 (as_bytes value) = Some value →
  uri_unescape utf8_error (uri_escape value) = Ok value ∧ all_chars is_word_char (uri_escape value) = true.
Proof. intros H. split; [by apply uri_unescape_escape|apply uri_escape_word]. Qed.

Lemma uri_escape_roundtrip_witness :
  uri_unescape (λ _, "") (uri_escape "a%% b") = Ok "a%% b" ∧ all_chars is_word_char (uri_escape "a%% b") = true.
Proof. apply (uri_escape_roundtrip (λ _, "") "a%% b"). vm_compute. reflexivity. Defined.

(** C30: A dialogue that is agreed to gives the password.  However its answers
    are cut, it sends the five commands, in order and nothing else, and
    returns what the user typed, whatever characters that has; the child saw
    the end of its input, was not killed and was waited for. *)
Theorem dialogue_gives_password utf8_error hint prompt password greeting a1 a2 a3 a4 rest c :
  agrees utf8_error greeting → agrees utf8_error a1 → agrees utf8_error a2 → agrees utf8_error a3 →
  agrees utf8_error a4 → from_utf8 (as_bytes password) = Some password → status c = Ok None →
  ready c [] (as_bytes (ended greeting +:+ ended a1 +:+ ended a2 +:+ ended a3 +:+ ended a4
    +:+ ended ("D " +:+ uri_escape password)) ++ rest) →
  ∃ c', dialogue utf8_error hint prompt c = (Ok password, c') ∧
    child_stdin c' = vec_writer (as_bytes (commands hint prompt)) ∧ stdin_open c' = false ∧
    killed c' = killed c ∧ waits c' = S (waits c).
Proof. apply dialogue_answers. Qed.

(** No child is left behind: whatever a pinentry program answers, the
    dialogue ends without a panic, the program was waited for exactly once,
    and before that it was killed or its input was closed. *)
Theorem dialogue_leaves_no_child utf8_error hint prompt c :
  returns (status c) → finished c (dialogue utf8_error hint prompt c).
Proof. apply dialogue_finished. Qed.

Definition demo_child (answers : list str) : Child :=
  {| child_stdin := vec_writer []; child_stdout := chunked (map (λ a, as_bytes (ended a)) answers); stdin_open := true;
     status := Ok None; killed := false; waits := 0 |}.

Definition demo_agrees : Child := demo_child ["OK Pleased to meet you"; "OK"; "OK"; "OK"; "OK"; "D " +:+ uri_escape "p%q"].

Lemma dialogue_gives_password_witness :
  ∃ c', dialogue (λ _, "") "u_r" "One-time password: " demo_agrees = (Ok "p%q", c') ∧
    child_stdin c' = vec_writer (as_bytes (commands "u_r" "One-time password: ")) ∧ stdin_open c' = false ∧
    killed c' = false ∧ waits c' = 1%nat.
Proof.
  apply (dialogue_gives_password (λ _, "") "u_r" "One-time password: " "p%q" "OK Pleased to meet you" "OK" "OK" "OK" "OK" []).
  1-5: split; [split; vm_compute; reflexivity|]; eexists; vm_compute; reflexivity.
  - vm_compute. reflexivity.
  - reflexivity.
  - split; [reflexivity|]. eexists. split; [reflexivity|]. split; [vm_compute; reflexivity|].
    repeat constructor; vm_compute; discriminate.
Defined.

(** The same dialogue with a user who gives up, and an answer that ends in an
    escaped percent sign of the short form. *)
Example dialogue_refused :
  (let '(r, c) := dialogue (λ _, "") "u" "p" (demo_child ["OK"; "OK"; "OK"; "OK"; "OK"; "ERR 83886179 Operation%20cancelled"]) in
   r = Err (Auth "pinentry returned error: Operation cancelled") ∧ killed c = true ∧ waits c = 1%nat) ∧
  uri_unescape (λ _, "") "100%%" = Ok "100%%".
Proof. vm_compute. split_and!; reflexivity. Qed.

Lemma dialogue_leaves_no_child_witness :
  finished demo_agrees (dialogue (λ _, "") "u" "p" demo_agrees).
Proof. apply dialogue_leaves_no_child. exact I. Defined.
