(* ===== verification/Console.v ===== *)
(** * [user_input.rs] on a terminal and [logger.rs]

    Reading a secret without its echo, and which messages are shown where. *)

From S2P Require Import Prelude Stream RustStd Pinentry.

#[local] Open Scope string_scope.
#[local] Open Scope list_scope.
#[local] Open Scope Z_scope.

(** ** The terminal *)

(** [echo] is the flag of the terminal; [flushes], [getattr_error] and
    [setattr_errors] are the outcomes of [flush], of [tcgetattr] and of the
    calls of [tcsetattr], in order (a script that is over succeeds); [printed]
    is what was printed. *)
Record terminal := {
  echo : bool;
  printed : str;
  stdin : reader;
  flushes : result unit;
  getattr_error : option str;
  setattr_errors : list (option str);
}.

#[export] Instance terminal_eta : Eta terminal := λ t,
  {| echo := echo t; printed := printed t; stdin := stdin t; flushes := flushes t; getattr_error := getattr_error t;
     setattr_errors := setattr_errors t |}.

Definition print (s : str) (t : terminal) : terminal := t <| printed := printed t +:+ s |>.

Definition tcsetattr (flag : bool) (t : terminal) : option str * terminal :=
  match setattr_errors t with
  | [] => (None, t <| echo := flag |>)
  | None :: rest => (None, t <| echo := flag |> <| setattr_errors := rest |>)
  | Some err :: rest => (Some err, t <| setattr_errors := rest |>)
  end.

Definition prompt_secret (prompt : str) (t : terminal) : result str * terminal :=
  let t := print prompt t in
  let! _ & t := lift (flushes t) t in
  match getattr_error t with
  | Some err => (Err (Io OtherKind ("failed to read terminal settings: " +:+ err)), t)
  | None =>
      let original := echo t in
      match tcsetattr false t with
      | (Some err, t) => (Err (Io OtherKind ("failed to disable terminal echo: " +:+ err)), t)
      | (None, t) =>
          let '(read_result, r) := read_line (stdin t) in
          let t := t <| stdin := r |> in
          let '(restore_result, t) := tcsetattr original t in
          let t := print (String newline "") t in
          let! secret & t := lift read_result t in
          match restore_result with
          | Some err => (Err (Io OtherKind ("failed to restore terminal echo: " +:+ err)), t)
          | None => (Ok (trim_end_if is_line_end secret), t)
          end
      end
  end.

(** The prompt of a system that is not Unix: the terminal is left as it is. *)
Definition prompt_secret_elsewhere (prompt : str) (t : terminal) : result str * terminal :=
  let t := print prompt t in
  let! _ & t := lift (flushes t) t in
  let '(read_result, r) := read_line (stdin t) in
  let t := t <| stdin := r |> in
  let! secret & t := lift read_result t in
  (Ok (trim_end_if is_line_end secret), t).

(** A line is the same secret on every system, taken from the same octets;
    elsewhere the terminal keeps its settings. *)
Theorem prompts_agree prompt t s t1 : prompt_secret prompt t = (Ok s, t1) →
  ∃ t2, prompt_secret_elsewhere prompt t = (Ok s, t2) ∧ stdin t2 = stdin t1 ∧ echo t2 = echo t ∧
    setattr_errors t2 = setattr_errors t.
Proof.
  unfold prompt_secret, prompt_secret_elsewhere, print. cbn. destruct (flushes t); cbn [lift sbind]; try done.
  destruct (getattr_error t); [done|]. unfold tcsetattr at 1. cbn.
  destruct (setattr_errors t) as [|[err|] rest] eqn:Es; [|done|]; cbn;
    destruct (read_line (stdin t)) as [line r]; unfold tcsetattr; cbn; rewrite ?Es;
    [|destruct rest as [|[err|] rest]]; cbn; destruct line; cbn; try done; intros [= <- <-]; by eexists.
Qed.

(** The echo comes back: however reading a secret ends, the terminal echoes
    as before, unless restoring it failed, which is then an error; the secret
    is not printed; and a line of text is returned without its end. *)
Theorem prompt_secret_restores_echo prompt t : returns (flushes t) →
  ∃ r t', prompt_secret prompt t = (r, t') ∧ returns r ∧
    (echo t' = echo t ∨ ∃ e, r = Err e ∧ setattr_errors t ≠ setattr_errors t') ∧
    (printed t' = printed t +:+ prompt ∨ printed t' = (printed t +:+ prompt) +:+ String newline "").
Proof.
  intros Hf. unfold prompt_secret, print. cbn. destruct (flushes t) as [u|e| |]; try done; cbn [lift sbind].
  2: { eexists _, _. split; [reflexivity|]. cbn. auto. }
  destruct (getattr_error t); [eexists _, _; split; [reflexivity|]; cbn; auto|].
  unfold tcsetattr at 1. cbn. destruct (setattr_errors t) as [|[err|] rest] eqn:Es; [|eexists _, _; split; [reflexivity|]; cbn; auto|].
  all: cbn; pose proof (read_line_returns (stdin t)) as Hr; destruct (read_line (stdin t)) as [line r]; cbn [fst] in Hr.
  - unfold tcsetattr. cbn. rewrite Es. cbn. destruct line; try done; eexists _, _; (split; [reflexivity|]); cbn; auto.
  - unfold tcsetattr. cbn. destruct rest as [|[err|] rest]; cbn; destruct line; try done;
      eexists _, _; (split; [reflexivity|]); cbn; (split; [done|]); (split; [|by right]); try (by left);
      right; eexists; (split; [reflexivity|]); intros H; apply (f_equal length) in H; cbn in H; lia.
Qed.

Definition demo_terminal : terminal :=
  {| echo := true; printed := ""; stdin := [RBytes (as_bytes ("se"  +:+ "cret" +:+ String newline "")); RBytes [65]];
     flushes := Ok tt; getattr_error := None; setattr_errors := [] |}.

Example prompt_demo :
  let '(r, t) := prompt_secret "Password: " demo_terminal in
  r = Ok "secret" ∧ echo t = true ∧ stdin t = [RBytes [65]].
Proof. vm_compute. split_and!; reflexivity. Qed.

Lemma prompt_secret_restores_echo_witness :
  ∃ r t', prompt_secret "Password: " demo_terminal = (r, t') ∧ returns r ∧
    (echo t' = true ∨ ∃ e, r = Err e ∧ [] ≠ setattr_errors t') ∧
    (printed t' = "" +:+ "Password: " ∨ printed t' = ("" +:+ "Password: ") +:+ String newline "").
Proof. apply (prompt_secret_restores_echo "Password: " demo_terminal). exact I. Defined.

(** ** The log *)

Definition LOG_MUTE : u8 := 0.
Definition LOG_ERROR : u8 := 1.
Definition LOG_WARN : u8 := 2.
Definition LOG_INFO : u8 := 3.
Definition LOG_DEBUG : u8 := 4.
Definition LOG_DEBUG_ALL : u8 := 6.

Inductive SyslogPriority := PriorityError | PriorityWarning | PriorityInfo | PriorityDebug.

(** The two atomics, what was printed and what went to the system's log. *)
Record Logger := { LOG_LEVEL : u8; USE_SYSLOG : bool; opened : bool; lines : list str; syslogged : list (Z * str) }.

Definition initial_logger : Logger :=
  {| LOG_LEVEL := LOG_INFO; USE_SYSLOG := false; opened := false; lines := []; syslogged := [] |}.

(** [unix] is [cfg!(unix)], the system the program is built for. *)
Definition init_syslog (unix : bool) (l : Logger) : Logger :=
  if unix && USE_SYSLOG l
  then {| LOG_LEVEL := LOG_LEVEL l; USE_SYSLOG := USE_SYSLOG l; opened := true; lines := lines l; syslogged := syslogged l |}
  else l.

Definition init (unix use_syslog : bool) (verbosity : u8) (l : Logger) : Logger :=
  init_syslog unix
    {| LOG_LEVEL := Z.min verbosity LOG_DEBUG_ALL; USE_SYSLOG := use_syslog && unix; opened := opened l;
       lines := lines l; syslogged := syslogged l |}.

Definition enabled (level : u8) (l : Logger) : bool := (level <=? LOG_LEVEL l) && negb (level =? LOG_MUTE).

(** [LOG_ERR], [LOG_WARNING], [LOG_INFO] and [LOG_DEBUG] of the C library. *)
Definition to_libc_priority (priority : SyslogPriority) : Z :=
  match priority with PriorityError => 3 | PriorityWarning => 4 | PriorityInfo => 6 | PriorityDebug => 7 end.

(** A NUL would end the message. *)
Fixpoint sanitize (message : str) : str :=
  match message with
  | EmptyString => EmptyString
  | String c message =>
      if Ascii.eqb c (ascii_of_u8 0) then String (ascii_of_u8 92) (String "0"%char (sanitize message))
      else String c (sanitize message)
  end.

Definition print_line (line : str) (l : Logger) : Logger :=
  {| LOG_LEVEL := LOG_LEVEL l; USE_SYSLOG := USE_SYSLOG l; opened := opened l; lines := lines l ++ [line];
     syslogged := syslogged l |}.

Definition syslog (unix : bool) (priority : SyslogPriority) (message : str) (l : Logger) : Logger :=
  if unix
  then {| LOG_LEVEL := LOG_LEVEL l; USE_SYSLOG := USE_SYSLOG l; opened := opened l; lines := lines l;
          syslogged := syslogged l ++ [(to_libc_priority priority, sanitize message)] |}
  else print_line message l.

Definition log (unix : bool) (level : u8) (prefix : str) (priority : SyslogPriority) (message : str) (l : Logger) : Logger :=
  if negb (enabled level l) then l
  else if USE_SYSLOG l then syslog unix priority message l
  else print_line (prefix +:+ message) l.

Definition error (unix : bool) : str → Logger → Logger := log unix LOG_ERROR "ERROR:  " PriorityError.
Definition warn (unix : bool) : str → Logger → Logger := log unix LOG_WARN "WARN:   " PriorityWarning.
Definition info (unix : bool) : str → Logger → Logger := log unix LOG_INFO "INFO:   " PriorityInfo.
Definition debug (unix : bool) : str → Logger → Logger := log unix LOG_DEBUG "DEBUG:  " PriorityDebug.

Lemma sanitize_no_nul message : any_char (λ c, Ascii.eqb c (ascii_of_u8 0)) (sanitize message) = false.
Proof.
  induction message as [|c message IH]; [done|]. cbn [sanitize].
  destruct (Ascii.eqb c (ascii_of_u8 0)) eqn:E; cbn [any_char]; [exact IH|]. by rewrite E, IH.
Qed.

(** The verbosity decides what is said, and where: after [init], a message
    is shown exactly when its level is not above the verbosity (so a verbosity
    of zero shows nothing), once, in order, and in one place: the system's log,
    where no NUL can cut it short, or the standard output, which is the only
    one on a system that is not Unix. *)
Theorem log_gated unix use_syslog verbosity level prefix priority message l : 0 < level <= LOG_DEBUG_ALL →
  let l0 := init unix use_syslog verbosity l in
  let l1 := log unix level prefix priority message l0 in
  LOG_LEVEL l1 = LOG_LEVEL l0 ∧
  (verbosity < level → l1 = l0) ∧
  (level <= verbosity →
    lines l1 = lines l ++ (if use_syslog && unix then [] else [prefix +:+ message]) ∧
    syslogged l1 = syslogged l ++ (if use_syslog && unix then [(to_libc_priority priority, sanitize message)] else [])) ∧
  any_char (λ c, Ascii.eqb c (ascii_of_u8 0)) (sanitize message) = false.
Proof.
  intros Hl l0 l1.
  assert (LOG_LEVEL l0 = Z.min verbosity LOG_DEBUG_ALL ∧ USE_SYSLOG l0 = use_syslog && unix ∧
    lines l0 = lines l ∧ syslogged l0 = syslogged l) as (E1 & E2 & E3 & E4) by (by destruct unix, use_syslog).
  clearbody l0. split; [unfold l1, log, syslog, print_line; by repeat case_match|]. split; [|split; [|apply sanitize_no_nul]].
  - intros Hv. unfold l1, log, enabled, LOG_DEBUG_ALL in *. rewrite E1. by rewrite (proj2 (Z.leb_gt _ _)) by lia.
  - intros Hv. unfold l1, log, enabled, syslog, print_line, LOG_DEBUG_ALL, LOG_MUTE in *. rewrite E1, E2.
    rewrite (proj2 (Z.leb_le _ _)) by lia. rewrite (proj2 (Z.eqb_neq _ _)) by lia. cbn.
    destruct use_syslog, unix; cbn; by rewrite E3, E4, app_nil_r.
Qed.

Lemma log_gated_witness :
  let l0 := init true false 2 initial_logger in
  let l1 := log true LOG_WARN "WARN:   " PriorityWarning "low" l0 in
  LOG_LEVEL l1 = LOG_LEVEL l0 ∧ (2 < 2 → l1 = l0) ∧
  (2 <= 2 → lines l1 = [] ++ ["WARN:   " +:+ "low"] ∧ syslogged l1 = [] ++ []) ∧
  any_char (λ c, Ascii.eqb c (ascii_of_u8 0)) (sanitize "low") = false.
Proof.
  exact (log_gated true false 2 LOG_WARN "WARN:   " PriorityWarning "low" initial_logger ltac:(vm_compute; split; [reflexivity|discriminate])).
Defined.
