(* ===== verification/Tls.v ===== *)
(** * [tls.rs]: connections to the gateway

    Which certificate is trusted, which options the TLS library cannot honour,
    and how the TCP connection below TLS is made, directly or through an HTTP
    proxy.  The TLS library and the digest function are parameters. *)

From S2P Require Import Prelude Stream RustStd Net Config Http Socks5.

#[local] Open Scope string_scope.
#[local] Open Scope list_scope.
#[local] Open Scope Z_scope.

(** ** Text *)

Definition HEX (n : Z) : ascii := ascii_of_u8 (if n <? 10 then 48 + n else 87 + n).

Fixpoint bytes_to_lower_hex (bytes_ : bytes) : str :=
  match bytes_ with
  | [] => EmptyString
  | byte :: rest => String (HEX (Z.shiftr byte 4)) (String (HEX (Z.land byte 0x0f)) (bytes_to_lower_hex rest))
  end.

(** ** Trust *)

Inductive CertificateVerification := VerifiedByPki | VerifiedByPinnedDigest | Disabled.

Record RecordingVerifier := {
  insecure : bool;
  verifier_trusted_certs : list str;
  last_pki_result : option (option str);   (* [Some None] is [Some(Ok(()))] *)
}.

Definition new (config : Config) : RecordingVerifier :=
  {| insecure := insecure_ssl config; verifier_trusted_certs := trusted_certs config; last_pki_result := None |}.

Section Trust.
(** [sha256] is the digest, [pki] the library's verdict on a certificate: the
    text of its error, if any. *)
Context (sha256 : bytes → bytes) (pki : bytes → option str).

Definition cert_sha256_hex (cert : bytes) : str := bytes_to_lower_hex (sha256 cert).

Definition is_pinned (self : RecordingVerifier) (digest : str) : bool :=
  existsb (λ trusted, eq_ignore_ascii_case trusted digest) (verifier_trusted_certs self).

(** The verdict; [None] accepts. *)
Definition verify_server_cert (end_entity : bytes) (self : RecordingVerifier) : option str * RecordingVerifier :=
  let verdict := pki end_entity in
  let self := {| insecure := insecure self; verifier_trusted_certs := verifier_trusted_certs self;
                 last_pki_result := Some verdict |} in
  (if match verdict with None => true | Some _ => false end || insecure self
      || is_pinned self (cert_sha256_hex end_entity)
   then None else verdict, self).

Definition verification_for (config : Config) (peer_cert_sha256 : str) (self : RecordingVerifier)
    : result CertificateVerification :=
  if insecure_ssl config then Ok Disabled else
  if is_pinned self peer_cert_sha256 then Ok VerifiedByPinnedDigest else
  match last_pki_result self with
  | Some None => Ok VerifiedByPki
  | Some (Some err) =>
      Err (Prelude.CertificateVerification (err +:+ "; add '--trusted-cert " +:+ peer_cert_sha256
             +:+ "' if this gateway certificate is expected"))
  | None =>
      Err (Prelude.CertificateVerification ("certificate was not verified; add '--trusted-cert " +:+ peer_cert_sha256
             +:+ "' if this gateway certificate is expected"))
  end.

(** ** The TLS connection *)

(** What a handshake does with the verifier: asks about certificates, and ends
    with the certificate of the peer, if it has one. *)
Inductive handshake :=
  | HandshakeDone (peer : option bytes + str)
  | VerifyCert (cert : bytes) (k : option str → handshake).

Fixpoint perform (h : handshake) (v : RecordingVerifier) : (option bytes + str) * RecordingVerifier :=
  match h with
  | HandshakeDone peer => (peer, v)
  | VerifyCert cert k => let '(verdict, v) := verify_server_cert cert v in perform (k verdict) v
  end.

(** The answers of the TLS library, of the files of a client certificate and of
    the system's certificate store; a text is an error.  [general] is how the
    library prints an error of the program's own. *)
Record library := {
  valid_server_name : str → bool;
  native_certs : list (option str);
  build_verifier : option str;
  protocol_versions : option str;
  open_file : str → option str;
  pem_certs : str → list bytes + str;
  pem_key : str → option bytes + str;
  general : str → str;
  client_auth : list bytes → bytes → option str;
  client_connection : option str;
  shake : handshake;
}.

Definition check (error : option str) (e : str → OpenfortivpnError) : result unit :=
  match error with None => Ok tt | Some text => Err (e text) end.

Fixpoint add_roots (native : list (option str)) : result unit :=
  match native with
  | [] => Ok tt
  | cert :: native =>
      let* _ := check cert (λ err, TlsHandshake ("failed to add native root certificate: " +:+ err)) in add_roots native
  end.

Definition root_verifier (l : library) : result unit :=
  let* _ := add_roots (native_certs l) in
  if bool_decide (native_certs l = []) then Err (TlsHandshake "no native root certificates found")
  else check (build_verifier l) TlsHandshake.

Definition server_name (config : Config) (l : library) : result unit :=
  let sni_host := default (gateway_host config) (sni config) in
  if valid_server_name l sni_host then Ok tt else Err (TlsHandshake ("bad SNI host: " +:+ sni_host)).

Definition is_pkcs11 (name : option str) : bool :=
  match name with Some name => starts_with "pkcs11:" name | None => false end.

Definition reject_unsupported_rustls_options (config : Config) : result unit :=
  if bool_decide (cipher_list config ≠ None)
  then Err (TlsHandshake "--cipher-list is not supported with rustls") else
  if seclevel_1 config then Err (TlsHandshake "--seclevel-1 is not supported with rustls") else
  if bool_decide (min_tls config = Some Tls10 ∨ min_tls config = Some Tls11)
  then Err (TlsHandshake "rustls supports TLS 1.2 and newer only") else
  if is_pkcs11 (user_cert config) || is_pkcs11 (user_key config)
  then Err (TlsHandshake "PKCS#11 client certificates are not supported with rustls") else
  Ok tt.

(** The errors of these two are texts of the library. *)
Definition load_client_cert_chain (config : Config) (l : library) : list bytes + str :=
  match user_cert config with
  | None => inr (general l "no client certificate configured")
  | Some cert_path =>
      match open_file l cert_path with
      | Some err => inr (general l ("failed to open client certificate " +:+ cert_path +:+ ": " +:+ err))
      | None =>
          match pem_certs l cert_path with
          | inr err => inr (general l ("failed to read client certificate " +:+ cert_path +:+ ": " +:+ err))
          | inl chain => inl chain
          end
      end
  end.

Definition load_client_private_key (config : Config) (l : library) : bytes + str :=
  match option_or (user_key config) (user_cert config) with
  | None => inr (general l "no client key configured")
  | Some key_path =>
      match open_file l key_path with
      | Some err => inr (general l ("failed to open client key " +:+ key_path +:+ ": " +:+ err))
      | None =>
          match pem_key l key_path with
          | inr err => inr (general l ("failed to read client key " +:+ key_path +:+ ": " +:+ err))
          | inl None => inr (general l ("no private key found in " +:+ key_path))
          | inl (Some key) => inl key
          end
      end
  end.

Definition handshake_text {A} (r : A + str) : result A :=
  match r with inl a => Ok a | inr text => Err (TlsHandshake text) end.

(** What [TlsConnection] keeps besides its stream. *)
Record TlsConnection := {
  stream : TcpStream;
  peer_cert_sha256 : str;
  verification : CertificateVerification;
  tcp_peer_addr : SocketAddr;
}.

Definition connect_stream (config : Config) (l : library) (peer_addr : result SocketAddr) (tcp : TcpStream)
    : result TlsConnection :=
  let* _ := reject_unsupported_rustls_options config in
  let* tcp_peer_addr := peer_addr in
  let* _ := server_name config l in
  let* _ := root_verifier l in
  let verifier := new config in
  let* _ := check (protocol_versions l) TlsHandshake in
  let* _ :=
    if bool_decide (user_cert config ≠ None) || bool_decide (user_key config ≠ None) then
      let* chain := handshake_text (load_client_cert_chain config l) in
      let* key := handshake_text (load_client_private_key config l) in
      check (client_auth l chain key) TlsHandshake
    else Ok tt in
  let* _ := check (client_connection l) TlsHandshake in
  let '(peer, verifier) := perform (shake l) verifier in
  let* peer := handshake_text peer in
  let* peer_cert := ok_or peer MissingPeerCertificate in
  let peer_cert_sha256 := cert_sha256_hex peer_cert in
  let* verification := verification_for config peer_cert_sha256 verifier in
  Ok {| stream := tcp; peer_cert_sha256 := peer_cert_sha256; verification := verification;
        tcp_peer_addr := tcp_peer_addr |}.
End Trust.

(** ** The TCP connection *)

Record ProxyConfig := { proxy_host : str; proxy_port : u16 }.

#[export] Instance ProxyConfig_eq_dec : EqDecision ProxyConfig.
Proof. solve_decision. Defined.

Section Connect.
(** [debug] is the [Debug] form of a text, [env_var] the environment,
    [to_socket_addrs] the resolver and [tcp_connect] the outcome of a
    connection attempt. *)
Context (debug : str → str) (env_var : str → option str)
  (to_socket_addrs : str → u16 → list SocketAddr + ErrorKind)
  (tcp_connect : SocketAddr → TcpStream + ErrorKind).

Definition bad_proxy (value : str) : OpenfortivpnError := Network ("bad proxy address: " +:+ value).

Definition parse_proxy_url (value : str) : result ProxyConfig :=
  let proxy := trim_end_matches "/"%char (trim value) in
  let* proxy :=
    match split_at_str "://" proxy with
    | Some (scheme, rest) =>
        if negb (eq_ignore_ascii_case scheme "http") && negb (eq_ignore_ascii_case scheme "https")
        then Err (Network ("unsupported proxy scheme in " +:+ debug value
                    +:+ "; only HTTP CONNECT proxies are supported"))
        else Ok (trim_end_matches "/"%char rest)
    | None => Ok proxy
    end in
  let proxy := match rsplit_once "@"%char proxy with Some (_, rest) => rest | None => proxy end in
  let* '(host, port) :=
    match rsplit_once ":"%char proxy with
    | Some (host, port) =>
        if str_is_empty host || str_is_empty port then Err (bad_proxy value) else
        let* port := ok_or (parse_u16 port) (Network ("bad proxy port in proxy address: " +:+ value)) in
        Ok (host, port)
    | None => Ok (proxy, 8080)
    end in
  if str_is_empty host || (port =? 0) then Err (bad_proxy value)
  else Ok {| proxy_host := host; proxy_port := port |}.

Fixpoint first_proxy (keys : list str) : result (option ProxyConfig) :=
  match keys with
  | [] => Ok None
  | key :: keys =>
      match env_var key with
      | Some value =>
          if str_is_empty (trim value) then first_proxy keys
          else let* proxy := parse_proxy_url value in Ok (Some proxy)
      | None => first_proxy keys
      end
  end.

Definition proxy_from_environment : result (option ProxyConfig) :=
  first_proxy ["https_proxy"; "HTTPS_PROXY"; "all_proxy"; "ALL_PROXY"].

Fixpoint connect_first (last_error : OpenfortivpnError) (addrs : list SocketAddr) : result TcpStream :=
  match addrs with
  | [] => Err last_error
  | addr :: addrs =>
      match tcp_connect addr with
      | inl stream =>
          match set_option stream with
          | (Ok _, stream) => Ok stream
          | (Err e, _) => Err e
          | (Panic, _) => Panic
          | (Diverge, _) => Diverge
          end
      | inr k => connect_first (io_error k) addrs
      end
  end.

Definition connect_tcp_direct (host : str) (port : u16) : result TcpStream :=
  match to_socket_addrs host port with
  | inr k => Err (io_error k)
  | inl addrs =>
      connect_first (Io NotFound ("could not resolve " +:+ host +:+ ":" +:+ print_uint port)) addrs
  end.

(** [ends_with] of either form of an empty line. *)
Definition ends_head (response : bytes) : bool :=
  bool_decide ([13; 10; 13; 10] `suffix_of` response) || bool_decide ([10; 10] `suffix_of` response).

(** One byte at a time, until an empty line, the end of the stream or the limit. *)
Fixpoint read_head (fuel : nat) (response : bytes) (c : connection) : result bytes * connection :=
  match fuel with
  | O => (Ok response, c)
  | S fuel =>
      let! byte & c := on_reader (read 1) c in
      match byte with
      | [] => (Ok response, c)
      | b :: _ =>
          let response := response ++ [b] in
          if ends_head response then (Ok response, c) else read_head fuel response c
      end
  end.

Definition MAX_CONNECT_RESPONSE : nat := 4096.

Definition connect_accepted (status_line : str) : bool :=
  str_contains " 200 " status_line || ends_with " 200" status_line || str_contains " 200 OK" status_line.

Definition connect_request (host : str) (port : u16) : str :=
  let target := host +:+ ":" +:+ print_uint port in
  "CONNECT " +:+ target +:+ " HTTP/1.1" +:+ crlf +:+ "Host: " +:+ target +:+ crlf +:+ crlf.

Definition establish_http_connect_proxy (host : str) (port : u16) (c : connection) : result unit * connection :=
  let! _ & c := on_writer (write_all (as_bytes (connect_request host port))) c in
  let! _ & c := on_writer flush c in
  let! response & c := read_head MAX_CONNECT_RESPONSE [] c in
  let status_line := default "" (head (str_lines (from_utf8_lossy response))) in
  if connect_accepted status_line then (Ok tt, c)
  else (Err (Network ("proxy CONNECT failed: " +:+ status_line)), c).

Definition connect_tcp (config : Config) : result TcpStream :=
  let* proxy := proxy_from_environment in
  match proxy with
  | Some proxy =>
      let* stream := connect_tcp_direct (proxy_host proxy) (proxy_port proxy) in
      match on_conn (establish_http_connect_proxy (gateway_host config) (gateway_port config)) stream with
      | (Ok _, stream) => Ok stream
      | (Err e, _) => Err e
      | (Panic, _) => Panic
      | (Diverge, _) => Diverge
      end
  | None => connect_tcp_direct (gateway_host config) (gateway_port config)
  end.
End Connect.

(** What a connection finds outside the program. *)
Record network := {
  debug_form : str → str;
  environment : str → option str;
  resolver : str → u16 → list SocketAddr + ErrorKind;
  dial_tcp : SocketAddr → TcpStream + ErrorKind;
  peer_of : TcpStream → result SocketAddr;
  tls : library;
}.

Definition connect (sha256 : bytes → bytes) (pki : bytes → option str) (net : network) (config : Config)
    : result TlsConnection :=
  let* tcp := connect_tcp (debug_form net) (environment net) (resolver net) (dial_tcp net) config in
  connect_stream sha256 pki config (tls net) (peer_of net tcp) tcp.

(** ** Specifications *)

Section TrustLaws.
Context (sha256 : bytes → bytes) (pki : bytes → option str).

Abbreviation hex_of := (cert_sha256_hex sha256).

(** Who vouches for a certificate, by the configuration. *)
Definition trusted (config : Config) (cert : bytes) (how : CertificateVerification) : Prop :=
  match how with
  | Disabled => insecure_ssl config = true
  | VerifiedByPinnedDigest => ∃ digest, digest ∈ trusted_certs config ∧ eq_ignore_ascii_case digest (hex_of cert) = true
  | VerifiedByPki => pki cert = None
  end.

(** The library's part of the contract: a verifier that refuses fails the
    handshake, and the peer's certificate is the one it was asked about last. *)
Fixpoint honest (last : option bytes) (h : handshake) : Prop :=
  match h with
  | HandshakeDone (inl (Some cert)) => last = Some cert
  | HandshakeDone _ => True
  | VerifyCert cert k => honest (Some cert) (k None) ∧ ∀ err, ∃ text, k (Some err) = HandshakeDone (inr text)
  end.

Lemma is_pinned_spec v digest :
  is_pinned v digest = true ↔ ∃ d, d ∈ verifier_trusted_certs v ∧ eq_ignore_ascii_case d digest = true.
Proof.
  unfold is_pinned. rewrite existsb_exists. split; intros (d & H1 & H2); exists d; (split; [|done]); by apply list_elem_of_In.
Qed.

(** What the verifier remembers of the certificate it was asked about last. *)
Definition remembers (config : Config) (last : option bytes) (v : RecordingVerifier) : Prop :=
  insecure v = insecure_ssl config ∧ verifier_trusted_certs v = trusted_certs config ∧
  ∀ cert, last = Some cert → last_pki_result v = Some (pki cert) ∧ ∃ how, trusted config cert how.

Lemma verify_server_cert_ok config last cert v : remembers config last v →
  let '(verdict, v') := verify_server_cert sha256 pki cert v in
  insecure v' = insecure_ssl config ∧ verifier_trusted_certs v' = trusted_certs config ∧
  last_pki_result v' = Some (pki cert) ∧ (verdict = None ↔ ∃ how, trusted config cert how).
Proof.
  intros (Hi & Ht & _). unfold verify_server_cert. cbn. split; [done|]. split; [done|]. split; [done|].
  rewrite Hi. fold (is_pinned v (hex_of cert)).
  pose proof (is_pinned_spec v (hex_of cert)) as Hp. rewrite Ht in Hp.
  destruct (is_pinned _ _) eqn:Ep.
  { rewrite orb_true_r. split; [|done]. intros _. exists VerifiedByPinnedDigest. by apply Hp. }
  rewrite orb_false_r. destruct (insecure_ssl config) eqn:Ei.
  { rewrite orb_true_r. split; [|done]. intros _. by exists Disabled. }
  rewrite orb_false_r. destruct (pki cert) eqn:Ek.
  - split; [done|]. intros ([] & H); cbn in H; try congruence. by apply Hp in H.
  - split; [|done]. intros _. by exists VerifiedByPki.
Qed.

Lemma remembers_new config : remembers config None (new config).
Proof. by split_and!. Qed.

Lemma perform_ok config h last v cert v' :
  honest last h → remembers config last v → perform sha256 pki h v = (inl (Some cert), v') → remembers config (Some cert) v'.
Proof.
  revert last v. induction h as [peer|c k IH]; intros last v; cbn [honest perform].
  - intros Hh Hr [= -> <-]. by subst last.
  - intros [Hnone Hsome] Hr. pose proof (verify_server_cert_ok config last c v Hr) as Hv.
    destruct (verify_server_cert sha256 pki c v) as [[err|] v1]; cbn in *.
    + destruct (Hsome err) as (text & ->). done.
    + destruct Hv as (H1 & H2 & H3 & H4). apply (IH None (Some c)); [done|]. split; [done|]. split; [done|].
      intros c' [= <-]. split; [done|]. by apply H4.
Qed.

Lemma verification_for_ok config cert v : remembers config (Some cert) v →
  ∃ how, verification_for config (hex_of cert) v = Ok how ∧ trusted config cert how.
Proof.
  intros (Hi & Ht & Hl). destruct (Hl cert eq_refl) as (Hlast & how & Hhow). unfold verification_for.
  destruct (insecure_ssl config) eqn:Ei; [by exists Disabled|].
  pose proof (is_pinned_spec v (hex_of cert)) as Hp. rewrite Ht in Hp.
  destruct (is_pinned v (hex_of cert)); [exists VerifiedByPinnedDigest; split; [done|by apply Hp]|].
  rewrite Hlast. destruct how; cbn in Hhow; [|by apply Hp in Hhow|congruence].
  rewrite Hhow. by exists VerifiedByPki.
Qed.

Lemma connect_stream_ok config l peer_addr tcp c :
  honest None (shake l) → connect_stream sha256 pki config l peer_addr tcp = Ok c →
  ∃ cert, peer_cert_sha256 c = hex_of cert ∧ trusted config cert (verification c) ∧ stream c = tcp ∧
    peer_addr = Ok (tcp_peer_addr c) ∧ reject_unsupported_rustls_options config = Ok tt.
Proof.
  intros Hh. unfold connect_stream.
  destruct (reject_unsupported_rustls_options config) as [[]|e| |]; cbn [bind]; try done.
  destruct peer_addr as [addr|e| |]; cbn [bind]; try done.
  intros (u1 & _ & H)%bind_ok_inv. apply bind_ok_inv in H as (u2 & _ & H). apply bind_ok_inv in H as (u3 & _ & H).
  apply bind_ok_inv in H as (u4 & _ & H). apply bind_ok_inv in H as (u5 & _ & H).
  destruct (perform sha256 pki (shake l) (new config)) as [peer v] eqn:E.
  apply bind_ok_inv in H as (peer' & Hp & H). destruct peer as [peer|text]; [|done]. injection Hp as <-.
  apply bind_ok_inv in H as (cert & Hc & H). destruct peer as [cert'|]; [|done]. injection Hc as <-.
  apply (perform_ok config _ None) in E; [|done|apply remembers_new].
  destruct (verification_for_ok config cert' v E) as (how & Hv & Ht). rewrite Hv in H. cbn [bind] in H.
  injection H as <-. by exists cert'.
Qed.

(** C11: No connection without trust.  If [connect_stream] succeeds, the digest
    it reports is that of the peer's certificate, and the way of verification it
    reports really holds of that certificate: the public key infrastructure
    accepts it, or the configuration pins its digest (in either case of its
    letters), or the configuration switches the check off.  And no option is set
    that the code refuses because the TLS library cannot honour it. *)
Theorem connect_stream_trusts config l peer_addr tcp c :
  honest None (shake l) → connect_stream sha256 pki config l peer_addr tcp = Ok c →
  ∃ cert, peer_cert_sha256 c = hex_of cert ∧ trusted config cert (verification c) ∧ stream c = tcp ∧
    peer_addr = Ok (tcp_peer_addr c) ∧ reject_unsupported_rustls_options config = Ok tt.
Proof. apply connect_stream_ok. Qed.

(** The two decisions on a certificate agree: the handshake goes on exactly
    when some form of trust holds, and then the program, which looks again at
    what the verifier has recorded, finds one that does; otherwise it would
    refuse and tell the digest to pin. *)
Theorem trust_decisions_agree config cert :
  let '(verdict, v) := verify_server_cert sha256 pki cert (new config) in
  (verdict = None ↔ ∃ how, trusted config cert how) ∧
  (verdict = None ↔ is_ok (verification_for config (hex_of cert) v) = true).
Proof.
  pose proof (verify_server_cert_ok config None cert (new config) (remembers_new config)) as H.
  destruct (verify_server_cert sha256 pki cert (new config)) as [verdict v]. destruct H as (H1 & H2 & H3 & H4).
  split; [done|]. split.
  - intros Hn%H4. destruct (verification_for_ok config cert v) as (how & -> & _); [|done].
    split; [done|]. split; [done|]. intros c [= <-]. auto.
  - intros Hok. apply H4. unfold verification_for in Hok.
    destruct (insecure_ssl config) eqn:Ei; [by exists Disabled|].
    pose proof (is_pinned_spec v (hex_of cert)) as Hp. rewrite H2 in Hp.
    destruct (is_pinned v (hex_of cert)); [exists VerifiedByPinnedDigest; by apply Hp|].
    rewrite H3 in Hok. destruct (pki cert) eqn:Ek; [done|]. by exists VerifiedByPki.
Qed.
End TrustLaws.

(** ** Proxies *)

(** The head of a response: it ends with its first empty line. *)
Definition is_head (l : bytes) : Prop :=
  ends_head l = true ∧ ∀ k, (k < length l)%nat → ends_head (take k l) = false.

Lemma read_byte b l cs out : nonempty_chunks cs → concat cs = b :: l →
  ∃ cs', on_reader (read 1) {| conn_r := chunked cs; conn_w := vec_writer out |} =
    (Ok [b], {| conn_r := chunked cs'; conn_w := vec_writer out |}) ∧ concat cs' = l ∧ nonempty_chunks cs'.
Proof.
  intros Hcs Hcat. destruct (read_1_chunked b l cs Hcs Hcat) as (cs' & Hr & H). exists cs'.
  unfold on_reader. cbn [conn_r conn_w]. by rewrite Hr.
Qed.

Lemma read_head_stops fuel pre l rest cs out :
  nonempty_chunks cs → concat cs = l ++ rest → (length l <= fuel)%nat → l ≠ [] →
  ends_head (pre ++ l) = true → (∀ k, (0 < k < length l)%nat → ends_head (pre ++ take k l) = false) →
  ∃ cs', read_head fuel pre {| conn_r := chunked cs; conn_w := vec_writer out |} =
    (Ok (pre ++ l), {| conn_r := chunked cs'; conn_w := vec_writer out |}) ∧ concat cs' = rest ∧ nonempty_chunks cs'.
Proof.
  revert pre l cs. induction fuel as [|fuel IH]; intros pre l cs Hcs Hcat Hf Hne Hend Hnot; [destruct l; [done|cbn in Hf; lia]|].
  destruct l as [|b l]; [done|]. cbn [read_head].
  destruct (read_byte b (l ++ rest) cs out Hcs Hcat) as (cs1 & -> & Hc1 & Hcs1). cbn [sbind].
  destruct l as [|b' l].
  - rewrite Hend. exists cs1. by split_and!.
  - assert (ends_head (pre ++ [b]) = false) as -> by (apply (Hnot 1%nat); cbn; lia).
    destruct (IH (pre ++ [b]) (b' :: l) cs1) as (cs2 & -> & H); try done.
    + cbn in Hf |- *. lia.
    + by rewrite <- app_assoc.
    + intros k Hk. rewrite <- app_assoc. apply (Hnot (S k)). cbn in Hk |- *. lia.
    + exists cs2. by rewrite <- app_assoc.
Qed.

(** C37: A proxy is asked for the gateway and nothing of the TLS stream is lost.
    The request names the host and port twice, as HTTP asks for; the response
    is read up to its empty line and no further, however the stream is cut, so
    what follows is there for TLS; and the answer is decided by its first line
    alone. *)
Theorem connect_proxy_exact host port response rest cs out :
  nonempty_chunks cs → concat cs = response ++ rest → is_head response → len response <= 4096 →
  let status_line := default "" (hd_error (str_lines (from_utf8_lossy response))) in
  ∃ cs', establish_http_connect_proxy host port {| conn_r := chunked cs; conn_w := vec_writer out |} =
    (if connect_accepted status_line then Ok tt else Err (Network ("proxy CONNECT failed: " +:+ status_line)),
     {| conn_r := chunked cs';
        conn_w := vec_writer (out ++ as_bytes (connect_request host port)) |}) ∧
    concat cs' = rest ∧ nonempty_chunks cs'.
Proof.
  intros Hcs Hcat [Hend Hnot] Hlen status. unfold establish_http_connect_proxy, on_writer. cbn [conn_w conn_r].
  rewrite write_all_vec. cbn [sbind conn_w conn_r]. change (flush (vec_writer ?o)) with (@Ok unit tt, vec_writer o).
  cbn [sbind].
  destruct (read_head_stops MAX_CONNECT_RESPONSE [] response rest cs (out ++ as_bytes (connect_request host port)))
    as (cs' & -> & Hc & Hcs'); try done.
  - unfold MAX_CONNECT_RESPONSE. unfold len in Hlen. lia.
  - by intros ->.
  - intros k Hk. apply Hnot. lia.
  - exists cs'. cbn [sbind app]. split; [|done].
    fold status. by destruct (connect_accepted status).
Qed.

Example connect_accepts_any_200 : connect_accepted "HTTP/1.1 503 retry in 200 ms" = true.
Proof. reflexivity. Qed.

Example parse_proxy_urls :
  parse_proxy_url (λ s, s) " HTTP://user:pw@proxy.example:3128/ " = Ok {| proxy_host := "proxy.example"; proxy_port := 3128 |} ∧
  parse_proxy_url (λ s, s) "proxy.example" = Ok {| proxy_host := "proxy.example"; proxy_port := 8080 |} ∧
  is_ok (parse_proxy_url (λ s, s) "socks5://proxy.example:1080") = false ∧
  is_ok (parse_proxy_url (λ s, s) "proxy.example:0") = false.
Proof. vm_compute. split_and!; reflexivity. Qed.

(** A gateway whose certificate only its pinned digest vouches for. *)
Definition demo_library (cert : bytes) : library :=
  {| valid_server_name := λ _, true; native_certs := [None]; build_verifier := None; protocol_versions := None;
     open_file := λ _, None; pem_certs := λ _, inl []; pem_key := λ _, inl None; general := λ s, s;
     client_auth := λ _ _, None; client_connection := None;
     shake := VerifyCert cert (λ verdict, HandshakeDone match verdict with None => inl (Some cert) | Some e => inr e end) |}.
Definition demo_config : Config := default_config <| gateway_host := "vpn.example" |> <| trusted_certs := ["00AbfF"] |>.
Definition demo_tcp : TcpStream := stream_of [] (vec_writer []).
Definition demo_pki (cert : bytes) : option str := Some "invalid peer certificate: UnknownIssuer".

Lemma connect_stream_trusts_witness :
  ∃ c, connect_stream (λ l, l) demo_pki demo_config (demo_library [0; 0xab; 0xff]) (Ok (SocketAddrV4 (Ipv4 192 0 2 9) 443)) demo_tcp
    = Ok c ∧
  ∃ cert, peer_cert_sha256 c = cert_sha256_hex (λ l, l) cert ∧ trusted (λ l, l) demo_pki demo_config cert (verification c) ∧
    stream c = demo_tcp ∧ Ok (SocketAddrV4 (Ipv4 192 0 2 9) 443) = Ok (tcp_peer_addr c) ∧
    reject_unsupported_rustls_options demo_config = Ok tt.
Proof.
  eexists. split; [vm_compute; reflexivity|].
  apply (connect_stream_trusts (λ l, l) demo_pki demo_config (demo_library [0; 0xab; 0xff])).
  - split; [reflexivity|]. intros err. exists err. reflexivity.
  - vm_compute. reflexivity.
Defined.

Lemma connect_proxy_exact_witness :
  let response := as_bytes ("HTTP/1.1 200 OK" +:+ crlf +:+ crlf) in
  ∃ cs', establish_http_connect_proxy "vpn.example" 443
      {| conn_r := chunked [take 5 response; drop 5 response ++ [22; 3]; [3]]; conn_w := vec_writer [] |} =
    (Ok tt, {| conn_r := chunked cs'; conn_w := vec_writer (as_bytes (connect_request "vpn.example" 443)) |}) ∧
    concat cs' = [22; 3; 3] ∧ nonempty_chunks cs'.
Proof.
  intros response.
  apply (connect_proxy_exact "vpn.example" 443 response [22; 3; 3] [take 5 response; drop 5 response ++ [22; 3]; [3]] []).
  - repeat constructor; discriminate.
  - vm_compute. reflexivity.
  - split; [vm_compute; reflexivity|].
    intros k Hk. do 19 (destruct k as [|k]; [vm_compute; reflexivity|]). vm_compute in Hk. lia.
  - vm_compute. discriminate.
Defined.
