(* ===== verification/Session.v ===== *)
(** * [tunnel/session.rs]: from the gateway's address to an open tunnel

    [TunnelSession::prepare] composes the TLS connection, the login, the
    portal's requests and the tunnel request over two connections; [logout]
    opens a third one. *)

From S2P Require Import Prelude Stream RustStd Io Config Http Portal Login Net Tls.

#[local] Open Scope string_scope.
#[local] Open Scope list_scope.
#[local] Open Scope Z_scope.

Record PreparedTunnel := {
  tunnel_cookie : str;
  vpn_config : VpnConfigXml;
  gateway_cert_sha256 : str;
  certificate_verification : CertificateVerification;
  gateway_addr : SocketAddr;
}.

Record TunnelSession := { prepared : PreparedTunnel; tunnel_stream : TlsConnection }.

(** How many connections were asked for, how many were made, and the streams
    that were dropped. *)
Record dialer := { dialled : nat; made : nat; closed : list TcpStream }.

#[export] Instance dialer_eta : Eta dialer := λ d,
  {| dialled := dialled d; made := made d; closed := closed d |}.
#[export] Instance TlsConnection_eta : Eta TlsConnection := λ t,
  {| stream := stream t; peer_cert_sha256 := peer_cert_sha256 t; verification := verification t;
     tcp_peer_addr := tcp_peer_addr t |}.

(** The end of a stream's scope. *)
Definition close (t : TlsConnection) (d : dialer) : dialer := d <| closed := closed d ++ [stream t] |>.

(** Leaving a function that owns an open stream, if [r] makes it. *)
Definition or_close {A} (r : result A) (t : TlsConnection) (d : dialer) : result A * dialer :=
  match r with Ok a => (Ok a, d) | _ => (r, close t d) end.

(** An operation on an open stream, which an error drops. *)
Definition with_stream {A} (f : connection → result A * connection) (t : TlsConnection) (d : dialer)
    : result (A * TlsConnection) * dialer :=
  let '(r, s) := on_conn f (stream t) in
  let t := t <| stream := s |> in
  match r with
  | Ok a => (Ok (a, t), d)
  | Err e => (Err e, close t d)
  | Panic => (Panic, close t d)
  | Diverge => (Diverge, close t d)
  end.

Section Prepare.
(** [read_secret] is what the user answers, [networks] what each connection
    attempt finds, [sha256] and [pki] as in [Tls]. *)
Context (read_secret : option str → str → str → result str)
  (sha256 : bytes → bytes) (pki : bytes → option str) (networks : nat → network).

(** [TlsConnection::connect] *)
Definition dial (config : Config) (d : dialer) : result TlsConnection * dialer :=
  match connect sha256 pki (networks (dialled d)) config with
  | Ok t => (Ok t, d <| dialled := S (dialled d) |> <| made := S (made d) |>)
  | Err e => (Err e, d <| dialled := S (dialled d) |>)
  | Panic => (Panic, d <| dialled := S (dialled d) |>)
  | Diverge => (Diverge, d <| dialled := S (dialled d) |>)
  end.

Definition log_in (config : Config) (s : connection) : result AuthSession * connection :=
  match saml_session_id config with
  | Some saml_session_id => authenticate_with_saml_session config saml_session_id s
  | None => authenticate read_secret config s
  end.

Definition prepare (config : Config) (d : dialer) : result TunnelSession * dialer :=
  let! auth_stream & d := dial config d in
  let gateway_cert_sha256 := peer_cert_sha256 auth_stream in
  let certificate_verification := verification auth_stream in
  let! '(auth_session, auth_stream) & d := with_stream (log_in config) auth_stream d in
  let cookie := session_cookie auth_session in
  let! '(_, auth_stream) & d :=
    with_stream (request_vpn_allocation config cookie (portal_redirect_path auth_session)) auth_stream d in
  let d := close auth_stream d in
  let! tunnel_stream & d := dial config d in
  let gateway_addr := tcp_peer_addr tunnel_stream in
  let! '(vpn_config, tunnel_stream) & d := with_stream (get_vpn_config config cookie) tunnel_stream d in
  let! '(_, tunnel_stream) & d := with_stream (on_writer (send_start_tunnel_request cookie)) tunnel_stream d in
  (Ok {| prepared := {| tunnel_cookie := cookie; vpn_config := vpn_config;
                        gateway_cert_sha256 := gateway_cert_sha256;
                        certificate_verification := certificate_verification; gateway_addr := gateway_addr |};
         tunnel_stream := tunnel_stream |}, d).

Definition logout (config : Config) (cookie : str) (d : dialer) : result unit * dialer :=
  let! stream & d := dial config d in
  let! '(_, stream) & d := with_stream (log_out config cookie) stream d in
  (Ok tt, close stream d).

(** ** Specifications *)

(** No connection is leaked: those that were made and are not in use were dropped. *)
Definition balanced (in_use : nat) (d : dialer) : Prop := made d = (in_use + length (closed d))%nat.

Lemma dial_cases config d n : balanced n d →
  match dial config d with
  | (Ok t, d') => connect sha256 pki (networks (dialled d)) config = Ok t ∧ balanced (S n) d' ∧
      dialled d' = S (dialled d) ∧ closed d' = closed d
  | (_, d') => balanced n d' ∧ closed d' = closed d
  end.
Proof.
  unfold balanced, dial. intros H. destruct (connect _ _ _ _) as [t|e| |]; cbn; (split; [done || lia|]); [|done..].
  split; [lia|done].
Qed.

Lemma with_stream_cases {A} (f : connection → result A * connection) t d n : balanced (S n) d →
  match with_stream f t d with
  | (Ok (a, t'), d') => d' = d ∧ f (conn (stream t)) = (Ok a, conn (stream t')) ∧
      t' = t <| stream := stream t <| conn := conn (stream t') |> |>
  | (_, d') => balanced n d'
  end.
Proof.
  unfold balanced, with_stream, on_conn, close. intros H. destruct (f (conn (stream t))) as [[a|e| |] c]; cbn.
  1: by split_and!. all: rewrite length_app; cbn; lia.
Qed.

Lemma with_stream_verification {A} (f : connection → result A * connection) t d a t' d' :
  with_stream f t d = (Ok (a, t'), d') → verification t' = verification t.
Proof. unfold with_stream. destruct (on_conn f (stream t)) as [[b|e| |] s]; try done. by intros [= _ <- _]. Qed.

(** Who agreed to the session. *)
Definition consented (config : Config) (session : AuthSession) : Prop :=
  match saml_session_id config, cookie config with
  | Some id, _ => is_valid_saml_session_id id = true ∧
      ∃ response, status_code response = 200 ∧ session_of response session
  | None, Some c => session = {| session_cookie := c; portal_redirect_path := None |}
  | None, None => ∃ response, status_code response = 200 ∧ validate_auth_response response = Ok tt ∧
      session_of response session
  end.

Lemma log_in_consent config s session s' : log_in config s = (Ok session, s') → consented config session.
Proof.
  unfold log_in, consented. destruct (saml_session_id config) as [id|]; [apply saml_consent|].
  intros H%authenticate_consent. destruct (cookie config); [by destruct H|done].
Qed.

Lemma get_vpn_config_written config cookie s x s' : get_vpn_config config cookie s = (Ok x, s') →
  written (conn_w s') = written (conn_w s) ++ session_request config cookie "/remote/fortisslvpn_xml".
Proof.
  unfold get_vpn_config. intros (response & s1 & E & H)%sbind_ok_inv. apply do_http_request_written in E.
  apply sbind_ok_inv in H as ([] & s2 & [= _ <-] & H). apply sbind_ok_inv in H as (raw & s3 & [= _ <-] & [= _ <-]).
  rewrite E. unfold session_request. by rewrite len_nil, app_nil_r.
Qed.

Definition tunnel_request (cookie : str) : bytes :=
  as_bytes ("GET /remote/sslvpn-tunnel HTTP/1.1" +:+ crlf +:+ "Host: sslvpn" +:+ crlf
     +:+ "Cookie: " +:+ cookie +:+ crlf +:+ crlf).

Lemma tunnel_request_written cookie s s' : on_writer (send_start_tunnel_request cookie) s = (Ok tt, s') →
  written (conn_w s') = written (conn_w s) ++ tunnel_request cookie.
Proof.
  unfold on_writer, send_start_tunnel_request. fold (tunnel_request cookie).
  pose proof (write_all_ok (tunnel_request cookie) (conn_w s)) as W.
  destruct (write_all _ (conn_w s)) as [[[]|e| |] w1]; cbn [sbind]; try done.
  pose proof (flush_written w1) as F. destruct (flush w1) as [[[]|e| |] w2]; cbn [sbind]; try done.
  intros [= <-]. cbn [conn_w snd] in *. by rewrite F, (W w1 eq_refl).
Qed.

(** The cookie that a session uses and the requests of its two connections. *)
Definition prepared_by (config : Config) (d : dialer) (session : TunnelSession) (d' : dialer) : Prop :=
  ∃ t1 t2 auth s1 before path,
    connect sha256 pki (networks (dialled d)) config = Ok t1 ∧
    connect sha256 pki (networks (S (dialled d))) config = Ok t2 ∧
    dialled d' = S (S (dialled d)) ∧ closed d' = closed d ++ [s1] ∧
    consented config auth ∧ tunnel_cookie (prepared session) = session_cookie auth ∧
    gateway_cert_sha256 (prepared session) = peer_cert_sha256 t1 ∧
    certificate_verification (prepared session) = verification t1 ∧
    gateway_addr (prepared session) = tcp_peer_addr t2 ∧
    written (conn_w (conn s1)) = before ++ session_request config (session_cookie auth) path
      ++ session_request config (session_cookie auth) "/remote/fortisslvpn" ∧
    (path = "/remote/index" ∨ portal_redirect_path auth = Some path ∧ begins_with "/"%char path = true) ∧
    written (conn_w (conn (stream (tunnel_stream session)))) = written (conn_w (conn (stream t2)))
      ++ session_request config (session_cookie auth) "/remote/fortisslvpn_xml" ++ tunnel_request (session_cookie auth).

Lemma prepare_cases config d n : balanced n d →
  match prepare config d with
  | (Ok session, d') => balanced (S n) d' ∧ prepared_by config d session d'
  | (_, d') => balanced n d'
  end.
Proof.
  intros Hb. unfold prepare. pose proof (dial_cases config d n Hb) as H1.
  destruct (dial config d) as [[t1|e| |] d1]; cbn [sbind]; try (by destruct H1).
  destruct H1 as (Hc1 & Hb1 & Hd1 & Hcl1). pose proof (with_stream_cases (log_in config) t1 d1 n Hb1) as H2.
  destruct (with_stream (log_in config) t1 d1) as [[[auth t1a]|e| |] d2]; cbn [sbind]; try done.
  destruct H2 as (-> & Hlog & _). apply log_in_consent in Hlog.
  pose proof (with_stream_cases (request_vpn_allocation config (session_cookie auth) (portal_redirect_path auth)) t1a d1 n Hb1) as H3.
  destruct (with_stream (request_vpn_allocation _ _ _) t1a d1) as [[[[] t1b]|e| |] d3]; cbn [sbind]; try done.
  destruct H3 as (-> & Halloc & _). apply request_vpn_allocation_sends in Halloc as (path & Hw1 & Hpath).
  assert (balanced n (close t1b d1)) as Hb2.
  { unfold balanced, close in *. cbn. rewrite length_app. cbn. lia. }
  pose proof (dial_cases config (close t1b d1) n Hb2) as H4.
  destruct (dial config (close t1b d1)) as [[t2|e| |] d4]; cbn [sbind]; try (by destruct H4).
  destruct H4 as (Hc2 & Hb4 & Hd4 & Hcl4). pose proof (with_stream_cases (get_vpn_config config (session_cookie auth)) t2 d4 n Hb4) as H5.
  destruct (with_stream (get_vpn_config _ _) t2 d4) as [[[vpn t2a]|e| |] d5]; cbn [sbind]; try done.
  destruct H5 as (-> & Hvpn & Ht2a). apply get_vpn_config_written in Hvpn.
  pose proof (with_stream_cases (on_writer (send_start_tunnel_request (session_cookie auth))) t2a d4 n Hb4) as H6.
  destruct (with_stream (on_writer _) t2a d4) as [[[[] t2b]|e| |] d6]; cbn [sbind]; try done.
  destruct H6 as (-> & Htun & _). apply tunnel_request_written in Htun. split; [done|].
  exists t1, t2, auth, (stream t1b), (written (conn_w (conn (stream t1a)))), path. cbn in Hd4, Hcl4.
  cbn [prepared tunnel_stream tunnel_cookie gateway_cert_sha256 certificate_verification gateway_addr].
  rewrite Hd4, Hcl4, Hd1, Hcl1, Htun, Hvpn, <- app_assoc. cbn in Hc2. rewrite Hd1 in Hc2. split_and!; try done.
  destruct (portal_redirect_path auth) as [p|]; [|by left].
  destruct (begins_with "/" p) eqn:E1; cbn [andb] in Hpath; [|by left].
  destruct (negb (starts_with "//" p)); [right; by subst|by left].
Qed.

(** The stream of the tunnel is the second connection. *)
Lemma prepare_stream config d session d' : prepare config d = (Ok session, d') →
  ∃ t k, connect sha256 pki (networks k) config = Ok t ∧ verification (tunnel_stream session) = verification t.
Proof.
  unfold prepare.
  intros (t1 & d1 & _ & H)%sbind_ok_inv. apply sbind_ok_inv in H as ([auth t1a] & d2 & _ & H).
  apply sbind_ok_inv in H as ([u t1b] & d3 & _ & H). apply sbind_ok_inv in H as (t2 & d4 & H2 & H).
  apply sbind_ok_inv in H as ([vpn t3] & d5 & H3 & H). apply sbind_ok_inv in H as ([v t4] & d6 & H4 & [= <- _]).
  unfold dial in H2. destruct (connect _ _ _ _) as [t|e| |] eqn:E in H2; try done. injection H2 as -> _.
  exists t2, (dialled (close t1b d3)). split; [exact E|]. cbn.
  apply with_stream_verification in H3, H4. congruence.
Qed.

Lemma logout_cases config cookie d n : balanced n d →
  match logout config cookie d with
  | (Ok _, d') => balanced n d' ∧ ∃ t s, connect sha256 pki (networks (dialled d)) config = Ok t ∧
      closed d' = closed d ++ [s] ∧
      written (conn_w (conn s)) = written (conn_w (conn (stream t))) ++ session_request config cookie "/remote/logout"
  | (_, d') => balanced n d'
  end.
Proof.
  intros Hb. unfold logout. pose proof (dial_cases config d n Hb) as H1.
  destruct (dial config d) as [[t1|e| |] d1]; cbn [sbind]; try (by destruct H1).
  destruct H1 as (Hc1 & Hb1 & _ & Hcl). pose proof (with_stream_cases (log_out config cookie) t1 d1 n Hb1) as H2.
  destruct (with_stream (log_out config cookie) t1 d1) as [[[[] t2]|e| |] d2]; cbn [sbind]; try done.
  destruct H2 as (-> & Hout & _). unfold log_out in Hout. apply get_success_ok in Hout.
  split; [unfold balanced, close in *; cbn; rewrite length_app; cbn; lia|].
  exists t1, (stream t2). split; [done|]. unfold close. cbn. by rewrite Hcl.
Qed.

Lemma log_out_returns config cookie s : returns (fst (log_out config cookie s)).
Proof.
  unfold log_out, get_success. apply sbind_returns; [apply do_http_request_returns|]. intros response s' _.
  unfold ensure_success, lift. cbn [fst]. by destruct (_ && _).
Qed.

Lemma logout_returns config cookie d : (∀ k, returns (connect sha256 pki (networks k) config)) →
  returns (fst (logout config cookie d)).
Proof.
  intros Hc. unfold logout. apply sbind_returns.
  - unfold dial. specialize (Hc (dialled d)). by destruct (connect _ _ _ _).
  - intros t d' _. apply sbind_returns; [|by intros [] ? _].
    unfold with_stream, on_conn. pose proof (log_out_returns config cookie (conn (stream t))) as Hr.
    by destruct (log_out config cookie (conn (stream t))) as [[] ?].
Qed.

(** ** Properties *)


Lemma close_balanced t d n : balanced (S n) d → balanced n (close t d).
Proof. unfold balanced, close. cbn. rewrite length_app. cbn. lia. Qed.

Lemma or_close_cases {A} (r : result A) t d n : balanced (S n) d →
  match or_close r t d with (Ok _, d') => d' = d | (_, d') => balanced n d' end.
Proof. intros H. apply (close_balanced t) in H. by destruct r. Qed.

Lemma logout_balanced config cookie d n : balanced n d → balanced n (snd (logout config cookie d)).
Proof.
  intros Hb. pose proof (logout_cases config cookie d n Hb) as H.
  destruct (logout config cookie d) as [[u|e| |] d']; cbn [snd]; try done. by destruct H.
Qed.

(** However [prepare] and [logout] end, no connection is leaked: every one
    they made was dropped, but for the tunnel's when [prepare] succeeds. *)
Theorem connections_dropped config cookie d n : balanced n d →
  balanced (match fst (prepare config d) with Ok _ => S n | _ => n end) (snd (prepare config d)) ∧
  balanced n (snd (logout config cookie d)).
Proof.
  intros Hb. pose proof (prepare_cases config d n Hb) as H1. split; [|by apply logout_balanced].
  destruct (prepare config d) as [[session|e| |] d']; cbn [fst snd]; try done. by destruct H1.
Qed.

End Prepare.

(** ** A gateway *)

Definition demo_xml : str :=
  "<sslvpn-tunnel><assigned-addr ipv4='10.0.0.42'/><dns ip='10.0.0.1'/></sslvpn-tunnel>".

Definition demo_answers (k : nat) : list bytes :=
  match k with
  | O => [login_answer; ok_response; ok_response]
  | S O => [as_bytes (response_head 200 "OK" [("Content-Length", print_uint (str_len demo_xml))]) ++ as_bytes demo_xml]
  | _ => [ok_response]
  end.

Definition demo_network (k : nat) : network :=
  {| debug_form := λ s, s; environment := λ _, None;
     resolver := λ _ _, inl [SocketAddrV4 (Ipv4 192 0 2 9) 443];
     dial_tcp := λ _, inl (stream_of (chunked (demo_answers k)) (vec_writer []));
     peer_of := λ _, Ok (SocketAddrV4 (Ipv4 192 0 2 9) 443); tls := demo_library [0; 0xab; 0xff] |}.

Definition demo_gateway_config : Config :=
  demo_config <| username := "u" |> <| password := Some "p" |>.

Definition no_secret (pinentry : option str) (hint prompt : str) : result str := Err (Auth "no terminal").
Definition no_dials : dialer := {| dialled := 0; made := 0; closed := [] |}.
Definition demo_prepare : result TunnelSession * dialer :=
  prepare no_secret (λ l, l) demo_pki demo_network demo_gateway_config no_dials.

Example prepare_demo :
  let '(r, d) := demo_prepare in
  is_ok r = true ∧ dialled d = 2%nat ∧
  match r with
  | Ok session => tunnel_cookie (prepared session) = "SVPNCOOKIE=x" ∧
      assigned_ip (vpn_config (prepared session)) = Some "10.0.0.42" ∧
      certificate_verification (prepared session) = VerifiedByPinnedDigest
  | _ => False
  end.
Proof. vm_compute. split_and!; reflexivity. Qed.

Lemma demo_honest k : honest None (shake (tls (demo_network k))).
Proof. split; [reflexivity|]. intros err. exists err. reflexivity. Qed.


Lemma connections_dropped_witness :
  balanced (match fst demo_prepare with Ok _ => 1 | _ => 0 end) (snd demo_prepare) ∧
  balanced 0 (snd (logout (λ l, l) demo_pki demo_network demo_gateway_config "SVPNCOOKIE=x" no_dials)).
Proof.
  apply (connections_dropped no_secret (λ l, l) demo_pki demo_network demo_gateway_config "SVPNCOOKIE=x" no_dials 0).
  reflexivity.
Defined.
