(* ===== verification/ProxyMode.v ===== *)
(** * [proxy/mod.rs]: the proxy mode from start to end

    Negotiates the PPP link over the tunnel's stream, runs the proxy on it and
    logs out. *)

From S2P Require Import Prelude Stream RustStd Packet Io Fortinet PppEngine Config Http Portal Net NetStack ToyStack Tls.
From S2P Require Import RouteTable Runtime ProxyLink ProxyLoop ProxyTurn Session.

#[local] Open Scope string_scope.
#[local] Open Scope list_scope.
#[local] Open Scope Z_scope.

Definition PPP_NEGOTIATION_TIMEOUT : Z := 30000.

(** The state of the negotiation: the transport, the engine, the clock and what
    [stop_requested] will be at each look; a script that is over means that
    nobody asks to stop. *)
Record negotiation := {
  n_transport : FortinetTransport;
  n_ppp : PppEngine;
  n_clock : clock;
  n_stops : list bool;
}.

#[export] Instance negotiation_eta : Eta negotiation := λ s,
  {| n_transport := n_transport s; n_ppp := n_ppp s; n_clock := n_clock s; n_stops := n_stops s |}.

(** The [while let] loop; a turn takes one queued packet. *)
Fixpoint flush_outgoing (fuel : nat) (s : negotiation) : result unit * negotiation :=
  match next_outgoing (n_ppp s) with
  | (None, _) => (Ok tt, s)
  | (Some packet, e) =>
      match fuel with
      | O => (Diverge, s)
      | S fuel =>
          let '(r, t) := Fortinet.write_packet (n_transport s) packet in
          let! _ & s := (r, s <| n_ppp := e |> <| n_transport := t |>) in
          flush_outgoing fuel s
      end
  end.

Definition flush_ppp_outgoing (s : negotiation) : result unit * negotiation :=
  flush_outgoing (length (outgoing (n_ppp s))) s.

Definition look_at_clock (s : negotiation) : Z * negotiation :=
  let '(t, c) := instant_now (n_clock s) in (t, s <| n_clock := c |>).

Definition stop_requested (s : negotiation) : bool * negotiation :=
  match n_stops s with
  | [] => (false, s)
  | stop :: stops => (stop, s <| n_stops := stops |>)
  end.

(** The loop over the events of a packet: is the link up? *)
Fixpoint negotiated (events : list PppEvent) (s : negotiation) : result bool * negotiation :=
  match events with
  | [] => (Ok false, s)
  | Up _ _ _ :: _ => let! _ & s := flush_ppp_outgoing s in (Ok true, s)
  | Down :: _ => (Err (Pppd "proxy PPP negotiation terminated by peer"), s)
  | Ipv4Packet _ :: events => negotiated events s
  end.

(** A turn takes a packet, or a time-out, off the stream. *)
Fixpoint negotiate (fuel : nat) (deadline : Z) (s : negotiation) : result unit * negotiation :=
  match fuel with
  | O => (Diverge, s)
  | S fuel =>
      let '(now, s) := look_at_clock s in
      if deadline <=? now then (Err (Pppd "timed out waiting for proxy PPP negotiation"), s) else
      let '(stop, s) := stop_requested s in
      if stop then (Err (Pppd "proxy PPP negotiation interrupted"), s) else
      match read_packet (n_transport s) with
      | (Ok packet, t) =>
          let '(events, e) := handle_incoming packet (n_ppp s) in
          let s := s <| n_transport := t |> <| n_ppp := e |> in
          let! events & s := lift events s in
          let! up & s := negotiated events s in
          if up then (Ok tt, s) else
          let! _ & s := flush_ppp_outgoing s in
          negotiate fuel deadline s
      | (Err (Io k m), t) =>
          let s := s <| n_transport := t |> in
          match k with
          | WouldBlock | TimedOut => negotiate fuel deadline s
          | _ => (Err (Io k m), s)
          end
      | (Err err, t) => (Err err, s <| n_transport := t |>)
      | (Panic, t) => (Panic, s <| n_transport := t |>)
      | (Diverge, t) => (Diverge, s <| n_transport := t |>)
      end
  end.

(** [timeouts] is the outcome of setting the time-outs of the transport. *)
Definition establish_ppp (timeouts : result unit) (t : FortinetTransport) (c : clock) (stops : list bool)
    : result PppEngine * negotiation :=
  let s := {| n_transport := t; n_ppp := start PppEngine.new; n_clock := c; n_stops := stops |} in
  let! _ & s := lift timeouts s in
  let '(now, s) := look_at_clock s in
  let deadline := now + PPP_NEGOTIATION_TIMEOUT in
  let! _ & s := flush_ppp_outgoing s in
  let! _ & s := negotiate (S (transport_fuel (n_transport s))) deadline s in
  (Ok (n_ppp s), s).

(** ** Specifications *)

Definition link_bytes (s : negotiation) : bytes := unconsumed (n_transport s).
Definition link_sent (s : negotiation) : bytes := written (stream_w (n_transport s)).

Lemma flush_outgoing_ok fuel s : (length (outgoing (n_ppp s)) <= fuel)%nat →
  ∃ r s', flush_outgoing fuel s = (r, s') ∧ ok_or_err r tt ∧
    stream_r (n_transport s') = stream_r (n_transport s) ∧ read_buffer (n_transport s') = read_buffer (n_transport s) ∧ n_stops s' = n_stops s ∧
    (r = Ok tt → n_ppp s' = set_outgoing [] (n_ppp s) ∧
      link_sent s' = link_sent s ++ frames (outgoing (n_ppp s))).
Proof.
  revert s. induction fuel as [|fuel IH]; intros s Hf; cbn [flush_outgoing];
    (unfold next_outgoing; destruct (outgoing (n_ppp s)) as [|packet ps] eqn:Eo; [|try (cbn in Hf; lia)]).
  1, 2: exists (Ok tt), s; split_and!; try done; [by left|];
    intros _; rewrite app_nil_r; split; [|done]; destruct (n_ppp s); cbn in *; by subst.
  destruct (transport_write_ok packet (n_transport s)) as (r & t & -> & Hr & H1 & H2 & H3).
  destruct Hr as [->|[e ->]]; cbn [sbind].
  2: { eexists (Err e), _. split; [reflexivity|]. split_and!; try done. right; by eexists. }
  destruct (IH (s <| n_ppp := set_outgoing ps (n_ppp s) |> <| n_transport := t |>)) as (r & s2 & -> & Hr & E1 & E2 & Es & E3).
  { cbn in *. lia. }
  cbn in E1, E2, Es. exists r, s2. split_and!; try done; [by rewrite E1|by rewrite E2|].
  intros ->. destruct (E3 eq_refl) as [E4 E5]. rewrite E4, E5, frames_cons, app_assoc. split; [done|].
  unfold link_sent. cbn. by rewrite (H3 eq_refl).
Qed.

Lemma flush_ppp_outgoing_ok s :
  ∃ r s', flush_ppp_outgoing s = (r, s') ∧ ok_or_err r tt ∧
    stream_r (n_transport s') = stream_r (n_transport s) ∧ read_buffer (n_transport s') = read_buffer (n_transport s) ∧ n_stops s' = n_stops s ∧
    (r = Ok tt → n_ppp s' = set_outgoing [] (n_ppp s) ∧
      link_sent s' = link_sent s ++ frames (outgoing (n_ppp s))).
Proof. by apply flush_outgoing_ok. Qed.

Lemma negotiated_ok events e0 s : announced e0 events (n_ppp s) →
  ∃ r s', negotiated events s = (r, s') ∧ ((∃ up, r = Ok up) ∨ ∃ err, r = Err err) ∧
    stream_r (n_transport s') = stream_r (n_transport s) ∧ read_buffer (n_transport s') = read_buffer (n_transport s) ∧ n_stops s' = n_stops s ∧
    (r = Ok false → s' = s) ∧
    (r = Ok true → state (n_ppp s) = Opened ∧ n_ppp s' = set_outgoing [] (n_ppp s) ∧
      link_sent s' = link_sent s ++ frames (outgoing (n_ppp s))).
Proof.
  intros Ha. destruct events as [|[ip peer dns|packet|] [|ev events]]; cbn [announced] in Ha; try done; cbn [negotiated].
  - eexists _, _. split; [reflexivity|]. split_and!; try done. left. by exists false.
  - destruct dns; [|done]. destruct Ha as [Hopen _].
    destruct (flush_ppp_outgoing_ok s) as (r & s' & -> & Hr & H1 & H2 & Hs & H3).
    destruct Hr as [->|[err ->]]; cbn [sbind]; eexists _, _; (split; [reflexivity|]).
    + destruct (H3 eq_refl). split_and!; try done. left. by exists true.
    + split_and!; try done. right. by exists err.
  - by destruct dns.
  - eexists _, _. split; [reflexivity|]. split_and!; try done. left. by exists false.
  - eexists _, _. split; [reflexivity|]. split_and!; try done. right. by eexists.
Qed.

(** Nobody asked to stop in between. *)
Definition calm_until (s s' : negotiation) : Prop := ∃ k, n_stops s = replicate k false ++ n_stops s'.

Lemma calm_until_trans s1 s2 s3 : calm_until s1 s2 → calm_until s2 s3 → calm_until s1 s3.
Proof. intros [j H1] [k H2]. exists (j + k)%nat. by rewrite replicate_add, <- app_assoc, <- H2. Qed.

(** What the negotiation has taken and answered. *)
Definition negotiates (s s' : negotiation) : Prop :=
  ∃ packets ips replies, link_bytes s = frames packets ++ link_bytes s' ∧ Forall received packets ∧
    handle_all packets (n_ppp s) = (ips, replies, n_ppp s') ∧ link_sent s' = link_sent s ++ frames replies.

Lemma negotiates_step packet s s1 s' r :
  link_bytes s = tls_frame (data packet) ++ link_bytes s1 → received packet →
  (r, n_ppp s1) = (fst (handle_incoming packet (n_ppp s)), set_outgoing [] (snd (handle_incoming packet (n_ppp s)))) →
  link_sent s1 = link_sent s ++ frames (outgoing (snd (handle_incoming packet (n_ppp s)))) →
  negotiates s1 s' → negotiates s s'.
Proof.
  intros Hb Hp [= _ He] Hs (ps & ips & replies & H1 & H2 & H3 & H4).
  destruct (handle_incoming packet (n_ppp s)) as [r' e] eqn:E. cbn [fst snd] in *.
  exists (packet :: ps). eexists _, (outgoing e ++ replies). split_and!.
  - by rewrite Hb, frames_cons, <- app_assoc, H1.
  - by constructor.
  - cbn [handle_all]. rewrite E. unfold drain_outgoing. rewrite <- He, H3. reflexivity.
  - by rewrite H4, Hs, frames_app, app_assoc.
Qed.

Lemma negotiates_refl s s' : n_ppp s' = n_ppp s → link_bytes s' = link_bytes s → link_sent s' = link_sent s → negotiates s s'.
Proof. intros H1 H2 H3. exists [], [], []. cbn. rewrite H1, H2, H3, app_nil_r. by split_and!. Qed.

Lemma look_at_clock_keeps s : let s' := snd (look_at_clock s) in
  n_transport s' = n_transport s ∧ n_ppp s' = n_ppp s ∧ n_stops s' = n_stops s.
Proof. unfold look_at_clock. by destruct (instant_now (n_clock s)). Qed.

Lemma stop_requested_keeps s stop s' : stop_requested s = (stop, s') → n_transport s' = n_transport s ∧ n_ppp s' = n_ppp s ∧
  (stop = false → calm_until s s').
Proof.
  unfold stop_requested, calm_until. destruct (n_stops s) as [|b stops] eqn:E; intros [= <- <-].
  - split_and!; try done. intros _. by exists 0%nat.
  - split_and!; try done. intros ->. by exists 1%nat.
Qed.

Lemma negotiate_ok fuel deadline s :
  engine_inv (n_ppp s) → outgoing (n_ppp s) = [] → is_bytes (link_bytes s) → (transport_fuel (n_transport s) < fuel)%nat →
  ∃ r s', negotiate fuel deadline s = (r, s') ∧ ok_or_err r tt ∧
    (r = Ok tt → negotiates s s' ∧ state (n_ppp s') = Opened ∧ calm_until s s').
Proof.
  revert s. induction fuel as [|fuel IH]; intros s Hi Ho Hb Hf; [lia|]. cbn [negotiate].
  pose proof (look_at_clock_keeps s) as (T1 & P1 & S1). destruct (look_at_clock s) as [now s1]. cbn [snd] in T1, P1, S1.
  assert (∀ e (s' : negotiation), ok_or_err (Err e) tt ∧ (Err (A:=unit) e = Ok tt → negotiates s s' ∧ state (n_ppp s') = Opened ∧ calm_until s s')) as Herr.
  { intros e s'. split; [right; by exists e|done]. }
  destruct (deadline <=? now); [by eexists _, _|].
  destruct (stop_requested s1) as [stop s2] eqn:Est. apply stop_requested_keeps in Est as (T2 & P2 & C2).
  rewrite T1 in T2. rewrite P1 in P2. destruct stop; [by eexists _, _|]. specialize (C2 eq_refl).
  assert (calm_until s s2) as Hcalm by (unfold calm_until in *; by rewrite <- S1). clear T1 P1 S1 C2 s1.
  rewrite T2, P2. pose proof (read_packet_taken (n_transport s) Hb) as (Hout & Hw & Hbt). pose proof (read_packet_decreases (n_transport s)) as Hdec.
  destruct (read_packet (n_transport s)) as [[packet|err| |] t]; cbn [fst snd] in *; try done.
  2: { destruct err as [[] m| | | | | | | | | | | | | | | | | |]; try (by eexists _, _).
       all: destruct (IH (s2 <| n_transport := t |>)) as (r & s' & Hrun & Hr & Hok); cbn;
         [by rewrite P2|by rewrite P2|unfold link_bytes; cbn; by rewrite (proj1 Hout)|specialize (Hdec ltac:(done)); lia|].
       all: exists r, s'; split; [exact Hrun|]; split; [exact Hr|]; intros E; destruct (Hok E) as (Hn & Hop & Hc); (split; [|split; [done|by eapply calm_until_trans]]).
       all: unfold negotiates, link_bytes, link_sent in *; cbn in Hn; by rewrite (proj1 Hout), Hw, P2 in Hn. }
  destruct Hout as (Hcons & Hrec & _).
  destruct (handle_incoming_handled packet (n_ppp s) Hi Hrec) as (Hi1 & _ & Hev).
  destruct (handle_incoming packet (n_ppp s)) as [events e1] eqn:Ehi. cbn [fst snd] in Hi1, Hev.
  destruct events as [events|err| |]; cbn [lift sbind]; try done; [|by eexists _, _].
  destruct Hev as [_ Hann]. set (s3 := s2 <| n_transport := t |> <| n_ppp := e1 |>).
  destruct (negotiated_ok events (n_ppp s) s3 Hann) as (r & s4 & -> & Hr & F1 & F2 & Fs & F3 & F4).
  destruct Hr as [[[] ->]|[err ->]]; cbn [sbind]; [| |by eexists _, _].
  - destruct (F4 eq_refl) as (Hop & G1 & G2). eexists _, _. split; [reflexivity|]. split; [by left|]. intros _.
    split; [|split; [rewrite G1; by destruct e1|unfold calm_until in *; by rewrite Fs]].
    apply (negotiates_step packet s s4 s4 (Ok events)); [|done|by rewrite Ehi, G1|by rewrite Ehi, G2; unfold link_sent; cbn; rewrite Hw|by apply negotiates_refl].
    unfold link_bytes, unconsumed at 2. rewrite F1, F2. exact Hcons.
  - rewrite (F3 eq_refl) in *. clear F1 F2 Fs F3 F4 s4.
    destruct (flush_ppp_outgoing_ok s3) as (r & s5 & -> & Hr & G1 & G2 & Gs & G3).
    destruct Hr as [->|[err ->]]; cbn [sbind]; [|by eexists _, _]. destruct (G3 eq_refl) as [G4 G5].
    assert (link_bytes s5 = unconsumed t) as Hlb by (unfold link_bytes, unconsumed; by rewrite G1, G2).
    destruct (IH s5) as (r & s' & Hrun & Hr & Hok).
    + rewrite G4. by apply set_outgoing_inv.
    + by rewrite G4.
    + by rewrite Hlb.
    + unfold transport_fuel in *. rewrite G1, G2. cbn. lia.
    + exists r, s'. split; [exact Hrun|]. split; [exact Hr|]. intros E. destruct (Hok E) as (Hn & Hop & Hc).
      split; [|split; [done|eapply calm_until_trans; [|exact Hc]; unfold calm_until in *; by rewrite Gs]].
      apply (negotiates_step packet s s5 s' (Ok events)); [by rewrite Hlb|done|by rewrite Ehi, G4|by rewrite Ehi, G5; unfold link_sent; cbn; rewrite Hw|done].
Qed.

(** The engine as the negotiation starts it, and the first packet it sends. *)
Definition started : PppEngine := start PppEngine.new.

Lemma started_reachable : reachable (set_outgoing [] started).
Proof. eapply rtc_r; [apply rtc_once, step_start|]. apply (step_drain started). Qed.

Lemma establish_ppp_ok timeouts t c stops : is_bytes (unconsumed t) → returns timeouts →
  ∃ r s', establish_ppp timeouts t c stops = (r, s') ∧ returns r ∧
    ∀ e, r = Ok e → n_ppp s' = e ∧ reachable e ∧ state e = Opened ∧ is_Some (local_ip e) ∧
      is_bytes (link_bytes s') ∧ (∃ k, stops = replicate k false ++ n_stops s') ∧
      ∃ packets ips replies, unconsumed t = frames packets ++ link_bytes s' ∧
        handle_all packets (set_outgoing [] started) = (ips, replies, e) ∧
        link_sent s' = written (stream_w t) ++ frames (outgoing started ++ replies).
Proof.
  intros Hb Ht. unfold establish_ppp. fold started.
  set (s0 := {| n_transport := t; n_ppp := started; n_clock := c; n_stops := stops |}).
  destruct timeouts as [[]|e| |]; cbn [lift sbind]; try done; [|by eexists _, _].
  pose proof (look_at_clock_keeps s0) as (T1 & P1 & S1). destruct (look_at_clock s0) as [now s1]. cbn [snd] in *.
  destruct (flush_ppp_outgoing_ok s1) as (r & s2 & -> & Hr & H1 & H2 & Hs & H3).
  destruct Hr as [->|[e ->]]; cbn [sbind]; [|by eexists _, _]. destruct (H3 eq_refl) as [H4 H5].
  rewrite T1 in H1, H2. rewrite P1 in H4, H5. rewrite S1 in Hs. cbn in H1, H2, H4, H5, Hs.
  assert (link_bytes s2 = unconsumed t) as Hlb by (unfold link_bytes, unconsumed; by rewrite H1, H2).
  assert (engine_inv (set_outgoing [] started)) as Hi by (apply reachable_inv, started_reachable).
  destruct (negotiate_ok (S (transport_fuel (n_transport s2))) (now + PPP_NEGOTIATION_TIMEOUT) s2)
    as (r & s3 & -> & Hr & Hok); [by rewrite H4|by rewrite H4|by rewrite Hlb|lia|].
  destruct Hr as [->|[e ->]]; cbn [sbind]; [|by eexists _, _].
  destruct (Hok eq_refl) as ((packets & ips & replies & N1 & N2 & N3 & N4) & Hop & [k Hk]).
  eexists _, _. split; [reflexivity|]. split; [done|]. intros e [= <-]. rewrite H4 in N3. rewrite Hlb in N1.
  assert (reachable (n_ppp s3)) as Hreach.
  { pose proof (handle_all_reachable packets _ N2 started_reachable) as R. by rewrite N3 in R. }
  split_and!; try done.
  - by apply inv_opened, Hop; apply reachable_inv.
  - rewrite N1 in Hb. apply Forall_app in Hb as [_ Hb]. exact Hb.
  - exists k. by rewrite <- Hk, Hs.
  - exists packets, ips, replies. split_and!; try done.
    rewrite N4, H5, frames_app, app_assoc. unfold link_sent. by rewrite T1.
Qed.

(** ** The whole mode *)

Section Mode.
Context {Interface Sockets Handle : Type} `{!Smoltcp Interface Sockets Handle}
  `{!SmoltcpView Sockets Handle} `{!SmoltcpLaws Interface Sockets Handle} `{!EqDecision Handle}.
Context (read_secret : option str → str → str → result str)
  (sha256 : bytes → bytes) (pki : bytes → option str) (networks : nat → Tls.network).

(** What the mode finds on its host besides the gateway: the outcomes of
    setting the time-outs, of binding the listener, of connecting directly and
    of looking names up, and what an earlier run left in [START]. *)
Record host := {
  negotiation_timeouts : result unit;
  runtime_timeouts : result unit;
  bind_listener : SocketAddr → result (list accept_event);
  connecting : list (TcpStream + ErrorKind);
  looking_up : list (list SocketAddr + ErrorKind);
  clock_started : option Z;
}.

Definition stream_of_transport (t : TlsConnection) (transport : FortinetTransport) : TlsConnection :=
  t <| stream := stream t <| conn := {| conn_r := stream_r transport; conn_w := stream_w transport |} |> |>.

(** A scope that owns the stream is left, unless [r] is still running. *)
Definition leave {A} (r : result A) (t : TlsConnection) (transport : FortinetTransport) (d : dialer) : dialer :=
  match r with Diverge => d | _ => close (stream_of_transport t transport) d end.

(** [runtime_result] is returned behind the logout, which cannot replace it. *)
Definition log_out_with (config : Config) (cookie : str) (runtime_result : result unit) (d : dialer)
    : result unit * dialer :=
  match runtime_result with
  | Panic => (Panic, d)
  | Diverge => (Diverge, d)
  | _ =>
      match logout sha256 pki networks config cookie d with
      | (Panic, d) => (Panic, d)
      | (Diverge, d) => (Diverge, d)
      | (_, d) => (runtime_result, d)
      end
  end.

(** The mode behind its first look at the stop flag.  The proxy takes the
    transport, and drops it when it ends; a negotiation that fails leaves it to
    this function, which drops it behind the logout. *)
Definition run_session (config : Config) (h : host) (c : clock) (stops : list bool) (d : dialer)
    : result unit * dialer :=
  let! session & d := prepare read_secret sha256 pki networks config d in
  let stream := tunnel_stream session in
  let prepared := prepared session in
  let! route_table & d := or_close (from_config config (vpn_config prepared)) stream d in
  let dns_servers := omap parse_ipv4 (Portal.dns_servers (vpn_config prepared)) in
  let transport := Fortinet.new (conn_r (conn (Tls.stream stream))) (conn_w (conn (Tls.stream stream))) in
  match proxy config with
  | None => (Err (Network "proxy mode requires --proxy listen address"), close stream d)
  | Some listen =>
      match establish_ppp (negotiation_timeouts h) transport c stops with
      | (Ok ppp, s) =>
          let '(r, rt) := run (Handle:=Handle) (n_transport s) ppp (runtime_timeouts h) (bind_listener h listen)
            (connecting h) (looking_up h) (clock_started h) (n_clock s) (n_stops s) route_table dns_servers in
          let transport := match rt with Some rt => Runtime.transport (link rt) | None => n_transport s end in
          log_out_with config (tunnel_cookie prepared) r (leave r stream transport d)
      | (Err err, s) =>
          let '(r, d) := log_out_with config (tunnel_cookie prepared) (Err err) d in
          (r, leave r stream (n_transport s) d)
      | (Panic, s) => (Panic, leave (A:=unit) Panic stream (n_transport s) d)
      | (Diverge, s) => (Diverge, d)
      end
  end.

Definition run_mode (config : Config) (h : host) (c : clock) (stops : list bool) (d : dialer)
    : result unit * dialer :=
  match stops with
  | true :: _ => (Ok tt, d)
  | _ => run_session config h c (tail stops) d
  end.

(** ** Properties *)

(** C17: A negotiated link is an open link.  The negotiation never panics and
    always ends; if it hands an engine over, that engine has an open link with
    an address, it is the one that the reference reaches from the packets that
    were taken off the stream, whole and in order, and exactly the first
    request and the answers to these packets were sent.  Nothing of what
    follows on the stream is lost, and nobody had asked to stop. *)
Theorem establish_ppp_opens timeouts t c stops : is_bytes (unconsumed t) → returns timeouts →
  ∃ r s', establish_ppp timeouts t c stops = (r, s') ∧ returns r ∧
    ∀ e, r = Ok e → n_ppp s' = e ∧ reachable e ∧ state e = Opened ∧ is_Some (local_ip e) ∧
      is_bytes (link_bytes s') ∧ (∃ k, stops = replicate k false ++ n_stops s') ∧
      ∃ packets ips replies, unconsumed t = frames packets ++ link_bytes s' ∧
        handle_all packets (set_outgoing [] started) = (ips, replies, e) ∧
        link_sent s' = written (stream_w t) ++ frames (outgoing started ++ replies).
Proof. apply establish_ppp_ok. Qed.

(** A host whose calls return, and whose streams count their octets. *)
Definition sane (h : host) : Prop :=
  returns (negotiation_timeouts h) ∧ returns (runtime_timeouts h) ∧ Forall countable_connect (connecting h) ∧
  ∀ listen, returns (bind_listener h listen) ∧ ∀ events, bind_listener h listen = Ok events → Forall countable_event events.

(** What the proxy on a stream comes to. *)
Definition served_until (stops : list bool) (r : result unit) : Prop :=
  match r with Ok _ => true ∈ stops | Diverge => true ∉ stops | _ => True end.

Lemma served_until_later k stops stops' r : stops = replicate k false ++ stops' →
  served_until stops' r → served_until stops r.
Proof.
  intros -> H. assert (true ∈ replicate k false ++ stops' ↔ true ∈ stops') as Hin.
  { rewrite elem_of_app. split; [|by right]. intros [Hr|]; [|done]. apply elem_of_replicate in Hr as [? _]. done. }
  destruct r; cbn in *; by rewrite ?Hin.
Qed.

Lemma log_out_with_ok config cookie r d : (∀ k, returns (connect sha256 pki (networks k) config)) → returns r →
  log_out_with config cookie r d = (r, snd (logout sha256 pki networks config cookie d)).
Proof.
  intros Hc Hr. unfold log_out_with. pose proof (logout_returns sha256 pki networks config cookie d Hc) as Hl.
  destruct r; try done; by destruct (logout _ _ _ _ _ d) as [[] ?].
Qed.


(** No way through the mode leaks a connection. *)
Lemma run_mode_balanced config h c stops d n : balanced n d → keeps (balanced n) (run_mode config h c stops d).
Proof.
  intros Hb. assert (∀ stops, keeps (balanced n) (run_session config h c stops d)) as H;
    [|destruct stops as [|[] stops]; [apply H|by apply keeps_now|apply H]].
  clear stops. intros stops. unfold run_session. pose proof (prepare_cases read_secret sha256 pki networks config d n Hb) as H1.
  destruct (prepare _ _ _ _ config d) as [[session|e| |] d1]; cbn [sbind]; try (by apply keeps_now). destruct H1 as [Hb1 _].
  pose proof (or_close_cases (from_config config (vpn_config (prepared session))) (tunnel_stream session) d1 n Hb1) as H2.
  destruct (or_close _ _ d1) as [[table|e| |] d2]; cbn [sbind]; try (by apply keeps_now). subst d2.
  destruct (proxy config) as [listen|]; [|by apply keeps_now, close_balanced].
  assert (∀ m r d, balanced m d → keeps (balanced m) (log_out_with config (tunnel_cookie (prepared session)) r d)) as Hl.
  { intros m r d2 H. unfold log_out_with. pose proof (logout_balanced sha256 pki networks config (tunnel_cookie (prepared session)) d2 m H).
    destruct r; try (by apply keeps_now); by destruct (logout _ _ _ _ _ d2) as [[] ?]; apply keeps_now. }
  destruct (establish_ppp _ _ _ _) as [[ppp|err| |] s]; [| |by intros []|by intros []].
  - destruct (run _ _ _ _ _ _ _ _ _ _ _) as [r rt]. unfold leave.
    destruct r; [apply Hl; by apply close_balanced..|by intros []|by intros []].
  - specialize (Hl (S n) (Err err) d1 Hb1). destruct (log_out_with _ _ _ d1) as [r d2]. intros Hr. specialize (Hl Hr).
    unfold leave. destruct r; try done; by apply close_balanced.
Qed.

End Mode.

(** ** A gateway that negotiates *)

Definition demo_tunnel (k : nat) : reader :=
  match k with
  | S O => chunked (demo_answers 1) ++ [RError WouldBlock; RBytes (frames demo_packets); RError TimedOut]
  | _ => chunked (demo_answers k)
  end.

Definition demo_gateway (k : nat) : Tls.network :=
  {| debug_form := λ s, s; environment := λ _, None;
     resolver := λ _ _, inl [SocketAddrV4 (Ipv4 192 0 2 9) 443];
     dial_tcp := λ _, inl (stream_of (demo_tunnel k) (vec_writer []));
     peer_of := λ _, Ok (SocketAddrV4 (Ipv4 192 0 2 9) 443); tls := demo_library [0; 0xab; 0xff] |}.

Definition demo_listen : SocketAddr := SocketAddrV4 (Ipv4 127 0 0 1) 1080.
Definition demo_proxy_config : Config := demo_gateway_config <| Config.proxy := Some demo_listen |>.

Definition demo_host : host :=
  {| negotiation_timeouts := Ok tt; runtime_timeouts := Ok tt;
     bind_listener := λ _, Ok [Accepted (demo_client (Ipv4 10 1 2 3)) demo_addr];
     connecting := []; looking_up := []; clock_started := None |}.

Definition midnight : clock := {| time := 0; delays := [] |}.

Definition demo_transport : FortinetTransport :=
  Fortinet.new [RError WouldBlock; RBytes (frames demo_packets ++ [0; 12]); RError TimedOut] (vec_writer []).

Lemma establish_ppp_opens_witness :
  ∃ r s', establish_ppp (Ok tt) demo_transport midnight [] = (r, s') ∧ returns r ∧
    ∀ e, r = Ok e → n_ppp s' = e ∧ reachable e ∧ state e = Opened ∧ is_Some (local_ip e) ∧
      is_bytes (link_bytes s') ∧ (∃ k, [] = replicate k false ++ n_stops s') ∧
      ∃ packets ips replies, unconsumed demo_transport = frames packets ++ link_bytes s' ∧
        handle_all packets (set_outgoing [] started) = (ips, replies, e) ∧
        link_sent s' = [] ++ frames (outgoing started ++ replies).
Proof.
  apply (establish_ppp_opens (Ok tt) demo_transport midnight []); [|done].
  apply is_bytes_check. vm_compute. reflexivity.
Defined.

(** The link comes up, and the unfinished frame behind it is still there; and
    nobody answers within thirty seconds. *)
Example establish_demo :
  (let '(r, s) := establish_ppp (Ok tt) demo_transport midnight [false; false; false] in
   is_ok r = true ∧ local_ip (n_ppp s) = Some (Ipv4 10 0 0 42) ∧ link_bytes s = [0; 12]) ∧
  fst (establish_ppp (Ok tt) demo_transport {| time := 0; delays := [0; 0; 30000] |} []) =
    Err (Pppd "timed out waiting for proxy PPP negotiation").
Proof. vm_compute. split_and!; reflexivity. Qed.

Definition demo_run : result unit * dialer :=
  run_mode (Handle:=nat) no_secret (λ l, l) demo_pki demo_gateway demo_proxy_config demo_host midnight
    [false; false; false; false; false; true] no_dials.

(** From the login to the logout. *)
Example run_mode_demo :
  let '(r, d) := demo_run in
  r = Ok tt ∧ dialled d = 3%nat ∧
  map (λ s, str_contains "GET /remote/logout" (from_utf8_lossy (written (conn_w (conn s))))) (closed d) = [false; false; true].
Proof. vm_compute. split_and!; reflexivity. Qed.

Lemma demo_gateway_returns k : returns (connect (λ l, l) demo_pki (demo_gateway k) demo_proxy_config).
Proof. destruct k as [|[|k]]; vm_compute; exact I. Qed.

