(* ===== verification/Negotiation.v ===== *)
(** * A gateway that negotiates

    What a gateway may say while the link comes up, and that with any such
    gateway [ProxyMode.establish_ppp] does bring it up: the liveness half of
    the negotiation, whose safety half is in ProxyMode. *)

From S2P Require Import Prelude Stream RustStd Packet Io Fortinet PppEngine Config Net ProxyLink ProxyMode.

#[local] Open Scope string_scope.
#[local] Open Scope list_scope.
#[local] Open Scope Z_scope.

(** ** The gateway *)

(** What a gateway answers to a packet of the client, if it assigns [a]: it
    acknowledges an LCP request, asks for [a] when the client requests another
    address, acknowledges [a], and has nothing to say to anything that is not a
    Configure-Request. *)
Inductive answers (a : Ipv4Addr) : PppPacket → option PppPacket → Prop :=
  | acknowledges_link i opts :
      answers a (control_packet PROTOCOL_LCP CODE_CONFIGURE_REQUEST i opts)
        (Some (control_packet PROTOCOL_LCP CODE_CONFIGURE_ACK i opts))
  | assigns_address i ip : ip ≠ a →
      answers a (control_packet PROTOCOL_IPCP CODE_CONFIGURE_REQUEST i (ipcp_request_options ip))
        (Some (control_packet PROTOCOL_IPCP CODE_CONFIGURE_NAK i (ipcp_request_options a)))
  | acknowledges_address i :
      answers a (control_packet PROTOCOL_IPCP CODE_CONFIGURE_REQUEST i (ipcp_request_options a))
        (Some (control_packet PROTOCOL_IPCP CODE_CONFIGURE_ACK i (ipcp_request_options a)))
  | says_nothing protocol c i payload : c ≠ CODE_CONFIGURE_REQUEST →
      answers a (control_packet protocol c i payload) None.

(** What a gateway may say on its own: its own requests, of any options, echo
    requests, and packets of protocols that the client does not speak. *)
Inductive aside : PppPacket → Prop :=
  | own_request protocol i opts : protocol = PROTOCOL_LCP ∨ protocol = PROTOCOL_IPCP → len opts <= 65523 →
      aside (control_packet protocol CODE_CONFIGURE_REQUEST i opts)
  | echo_request i opts : len opts <= 65519 → aside (control_packet PROTOCOL_LCP CODE_ECHO_REQUEST i opts)
  | foreign protocol payload : is_u16 protocol → protocol ∉ [PROTOCOL_IPV4; PROTOCOL_LCP; PROTOCOL_IPCP] →
      len payload <= 65521 → aside {| data := u16_to_be protocol ++ payload |}.

(** The engine behind a packet, and behind sending its replies. *)
Definition hears (p : PppPacket) (e : PppEngine) : PppEngine := snd (handle_incoming p e).
Definition silent (e : PppEngine) : PppEngine := set_outgoing [] e.

(** [conversation a asked e ps]: the gateway has still to look at the client's
    packets [asked], the client's engine is [e], and the gateway says [ps]
    until it has answered everything that the client asked. *)
Inductive conversation (a : Ipv4Addr) : list PppPacket → PppEngine → list PppPacket → Prop :=
  | conv_end e : conversation a [] e []
  | conv_aside asked e p ps : aside p →
      conversation a (asked ++ outgoing (hears p e)) (silent (hears p e)) ps → conversation a asked e (p :: ps)
  | conv_answer q p asked e ps : answers a q (Some p) →
      conversation a (asked ++ outgoing (hears p e)) (silent (hears p e)) ps → conversation a (q :: asked) e (p :: ps)
  | conv_ignore q asked e ps : answers a q None → conversation a asked e ps → conversation a (q :: asked) e ps.

(** ** The engine on a list of packets *)

Definition sendable (ps : list PppPacket) : bool := forallb (λ p, len (data p) <=? 65529) ps.

(** Where the link comes up: the engine then, and the packets behind it. *)
Fixpoint opens (packets : list PppPacket) (e : PppEngine) : option (PppEngine * list PppPacket) :=
  match packets with
  | [] => None
  | p :: packets =>
      match handle_incoming p e with
      | (Ok [], e) => if sendable (outgoing e) then opens packets (silent e) else None
      | (Ok (Up _ _ _ :: _), e) => if sendable (outgoing e) then Some (silent e, packets) else None
      | _ => None
      end
  end.

(** ** Lemmas on control packets *)

Lemma control_packet_inj protocol c i payload protocol' c' i' payload' :
  control_packet protocol c i payload = control_packet protocol' c' i' payload' →
  u16_to_be protocol = u16_to_be protocol' ∧ c = c' ∧ i = i' ∧ payload = payload'.
Proof. unfold control_packet, u16_to_be. cbn. intros [= H1 H2 H3 H4 _ _ H5]. by rewrite H1, H2. Qed.

Lemma ipcp_request_options_inj a b : ipcp_request_options a = ipcp_request_options b → a = b.
Proof. destruct a, b. cbn. by intros [= -> -> -> ->]. Qed.

Lemma control_packet_len protocol c i payload : len (data (control_packet protocol c i payload)) = 6 + len payload.
Proof. unfold control_packet, u16_to_be. cbn [data]. len_lia. Qed.

Lemma sendable_control protocol c i payload : len payload <= 65523 → sendable [control_packet protocol c i payload] = true.
Proof. intros H. unfold sendable. cbn [forallb]. rewrite control_packet_len. rewrite (proj2 (Z.leb_le _ _)) by lia. done. Qed.

(** Anything the client says that is not a request. *)
Definition chatter (q : PppPacket) : Prop :=
  ∃ protocol c i payload, c ≠ CODE_CONFIGURE_REQUEST ∧ q = control_packet protocol c i payload.

Lemma chatter_control protocol c i payload : c ≠ CODE_CONFIGURE_REQUEST → chatter (control_packet protocol c i payload).
Proof. intros H. by exists protocol, c, i, payload. Qed.

(** The cases of an answer, with what the packets are in each. *)
Ltac answer_cases H :=
  intros H;
  match type of H with answers _ ?q ?r =>
    let q' := fresh "q" in let r' := fresh "r" in
    remember q as q' eqn:E; remember r as r' eqn:Er; destruct H
  end.

Lemma chatter_unanswered a q p : chatter q → ¬ answers a q (Some p).
Proof.
  intros (pr & c & i & pl & Hc & ->). answer_cases H; try done; apply control_packet_inj in E as (_ & ? & _); congruence.
Qed.

Lemma request_answered a protocol i payload r :
  answers a (control_packet protocol CODE_CONFIGURE_REQUEST i payload) r → is_Some r.
Proof. answer_cases H; try done. apply control_packet_inj in E as (_ & ? & _); congruence. Qed.

Lemma link_request_answer a i opts p :
  answers a (control_packet PROTOCOL_LCP CODE_CONFIGURE_REQUEST i opts) (Some p) →
  p = control_packet PROTOCOL_LCP CODE_CONFIGURE_ACK i opts.
Proof. answer_cases H; try done; apply control_packet_inj in E as (E & _ & -> & ->); [by injection Er|done..]. Qed.

Lemma address_request_answer a i ip p :
  answers a (control_packet PROTOCOL_IPCP CODE_CONFIGURE_REQUEST i (ipcp_request_options ip)) (Some p) →
  ip ≠ a ∧ p = control_packet PROTOCOL_IPCP CODE_CONFIGURE_NAK i (ipcp_request_options a) ∨
  ip = a ∧ p = control_packet PROTOCOL_IPCP CODE_CONFIGURE_ACK i (ipcp_request_options a).
Proof.
  answer_cases H; try done; apply control_packet_inj in E as (E & _ & -> & Eo);
    apply ipcp_request_options_inj in Eo as ->; injection Er as ->; auto.
Qed.

(** ** The engine and what the gateway says *)

(** The request that the engine is waiting for an answer to. *)
Definition requesting (e : PppEngine) : option PppPacket :=
  match state e with
  | LcpRequestSent => (λ i, control_packet PROTOCOL_LCP CODE_CONFIGURE_REQUEST i lcp_request_options) <$> lcp_identifier e
  | IpcpRequestSent =>
      (λ i, control_packet PROTOCOL_IPCP CODE_CONFIGURE_REQUEST i (ipcp_request_options (requested_ip e))) <$> ipcp_identifier e
  | _ => None
  end.

(** A packet that is answered, and changes nothing else the link is waiting for. *)
Definition politely (p : PppPacket) (e : PppEngine) : Prop :=
  ∃ q, fst (handle_incoming p e) = Ok [] ∧ outgoing (hears p e) = outgoing e ++ [q] ∧ chatter q ∧ sendable [q] = true ∧
    state (hears p e) = state e ∧ requesting (hears p e) = requesting e.

Lemma own_request_politely protocol i opts e : state e ≠ Initial → protocol = PROTOCOL_LCP ∨ protocol = PROTOCOL_IPCP →
  len opts <= 65523 → politely (control_packet protocol CODE_CONFIGURE_REQUEST i opts) e.
Proof.
  intros Hs Hp Hl. destruct (handle_incoming_control protocol CODE_CONFIGURE_REQUEST i opts e Hp ltac:(lia)) as (pl & Hpl & H).
  exists (control_packet protocol CODE_CONFIGURE_ACK i opts).
  unfold hears. rewrite H. clear H. destruct Hp as [->| ->]; cbn [Z.eqb PROTOCOL_LCP PROTOCOL_IPCP].
  - change (PROTOCOL_LCP =? PROTOCOL_LCP) with true. unfold handle_lcp, lift. rewrite Hpl. cbn [sbind code].
    change (CODE_CONFIGURE_REQUEST =? CODE_CONFIGURE_REQUEST) with true. cbv iota. rewrite decide_False by done.
    split_and!; try done; [by apply chatter_control|by apply sendable_control].
  - change (PROTOCOL_IPCP =? PROTOCOL_LCP) with false. cbv iota. unfold handle_ipcp, lift. rewrite Hpl. cbn [sbind code options].
    change (CODE_CONFIGURE_REQUEST =? CODE_CONFIGURE_REQUEST) with true. cbv iota.
    destruct (parse_ipcp_ip_address_ok opts) as [ip ->]. cbn [sbind].
    split_and!; try done; [by apply chatter_control|by apply sendable_control].
Qed.

Lemma echo_politely i opts e : len opts <= 65519 → politely (control_packet PROTOCOL_LCP CODE_ECHO_REQUEST i opts) e.
Proof.
  intros Hl. destruct (handle_incoming_control PROTOCOL_LCP CODE_ECHO_REQUEST i opts e) as (pl & Hpl & H); [by left|lia|].
  unfold politely, hears. rewrite H. clear H. change (PROTOCOL_LCP =? PROTOCOL_LCP) with true. unfold handle_lcp, lift.
  rewrite Hpl. cbn [sbind code options].
  change (CODE_ECHO_REQUEST =? CODE_CONFIGURE_REQUEST) with false.
  change (CODE_ECHO_REQUEST =? CODE_CONFIGURE_ACK) with false.
  change (CODE_ECHO_REQUEST =? CODE_CONFIGURE_NAK) with false.
  change (CODE_ECHO_REQUEST =? CODE_CONFIGURE_REJECT) with false.
  change (CODE_ECHO_REQUEST =? CODE_ECHO_REQUEST) with true. cbn [andb orb].
  assert (∃ tail, (if len opts >? 4 then slice_from opts 4 else Ok []) = Ok tail ∧ len tail <= len opts) as (tail & -> & Ht).
  { rewrite Z.gtb_ltb. destruct (Z.ltb_spec 4 (len opts)) as [|Hs]; [|exists []; split; [done|apply len_nonneg]].
    rewrite slice_from_ok by lia. eexists. split; [reflexivity|]. len_lia. }
  exists (control_packet PROTOCOL_LCP CODE_ECHO_REPLY i (u32_to_be 0 ++ tail)). cbn [sbind fst snd].
  split_and!; try done; [by apply chatter_control|]. apply sendable_control. unfold u32_to_be. len_lia.
Qed.

Lemma foreign_politely protocol payload e : is_u16 protocol → protocol ∉ [PROTOCOL_IPV4; PROTOCOL_LCP; PROTOCOL_IPCP] →
  len payload <= 65521 → politely {| data := u16_to_be protocol ++ payload |} e.
Proof.
  intros H16 Hp Hl. pose proof (len_nonneg payload). unfold politely, hears, handle_incoming, lift. cbn [data].
  assert (ppp_protocol (u16_to_be protocol ++ payload) = Ok protocol) as ->.
  { unfold ppp_protocol, u16_to_be. rewrite (proj2 (Z.ltb_ge _ _)) by len_lia.
    unfold be16_at, index. simpl. by rewrite u16_from_be_to_be. }
  cbn [sbind]. rewrite (slice_from_app_n 2 _ (u16_to_be protocol) payload) by done. cbn [sbind].
  rewrite !not_elem_of_cons in Hp. destruct Hp as (H1 & H2 & H3 & _). zbool. cbv iota.
  exists (control_packet PROTOCOL_LCP CODE_PROTOCOL_REJECT (next_id e) (u16_to_be protocol ++ payload)).
  unfold queue_protocol_reject, next_identifier. cbn [fst snd]. split_and!; try done; [by apply chatter_control|]. apply sendable_control. unfold u16_to_be. len_lia.
Qed.

Lemma aside_politely p e : state e ≠ Initial → aside p → politely p e.
Proof.
  intros Hs [protocol i opts|i opts|protocol payload]; [by apply own_request_politely|by apply echo_politely|by apply foreign_politely].
Qed.

(** What the acknowledgement of its LCP request does to the engine. *)
Lemma link_acknowledged i opts e : state e = LcpRequestSent → lcp_identifier e = Some i → len opts <= 65523 → outgoing e = [] →
  let p := control_packet PROTOCOL_LCP CODE_CONFIGURE_ACK i opts in
  fst (handle_incoming p e) = Ok [] ∧ state (hears p e) = IpcpRequestSent ∧
  ∃ q, outgoing (hears p e) = [q] ∧ sendable [q] = true ∧ requesting (hears p e) = Some q.
Proof.
  intros Hs Hi Hl Ho p. destruct (handle_incoming_control PROTOCOL_LCP CODE_CONFIGURE_ACK i opts e) as (pl & Hpl & H); [by left|lia|].
  unfold hears, p. rewrite H. clear H p. change (PROTOCOL_LCP =? PROTOCOL_LCP) with true. unfold handle_lcp, lift.
  rewrite Hpl. cbn [sbind code identifier options]. change (CODE_CONFIGURE_ACK =? CODE_CONFIGURE_REQUEST) with false.
  change (CODE_CONFIGURE_ACK =? CODE_CONFIGURE_ACK) with true. rewrite Hi, bool_decide_eq_true_2 by done. cbn [andb].
  rewrite decide_True by auto. split; [done|]. split; [done|].
  eexists. cbn. rewrite Ho. split; [reflexivity|]. split; [|reflexivity].
  apply (sendable_control PROTOCOL_IPCP CODE_CONFIGURE_REQUEST _ (ipcp_request_options _)). by rewrite ipcp_request_options_len.
Qed.

Lemma address_assigned i a e : state e = IpcpRequestSent → ipcp_identifier e = Some i → outgoing e = [] →
  let p := control_packet PROTOCOL_IPCP CODE_CONFIGURE_NAK i (ipcp_request_options a) in
  fst (handle_incoming p e) = Ok [] ∧ state (hears p e) = IpcpRequestSent ∧
  ∃ q, outgoing (hears p e) = [q] ∧ sendable [q] = true ∧ requesting (hears p e) = Some q.
Proof.
  intros Hs Hi Ho p. pose proof (ipcp_request_options_len a) as Hl.
  destruct (handle_incoming_control PROTOCOL_IPCP CODE_CONFIGURE_NAK i (ipcp_request_options a) e) as (pl & Hpl & H); [by right|lia|].
  unfold hears, p. rewrite H. clear H p. change (PROTOCOL_IPCP =? PROTOCOL_LCP) with false. cbv iota. unfold handle_ipcp, lift.
  rewrite Hpl. cbn [sbind code identifier options]. change (CODE_CONFIGURE_NAK =? CODE_CONFIGURE_REQUEST) with false.
  change (CODE_CONFIGURE_NAK =? CODE_CONFIGURE_ACK) with false. change (CODE_CONFIGURE_NAK =? CODE_CONFIGURE_NAK) with true.
  rewrite Hi, bool_decide_eq_true_2 by done. rewrite parse_ipcp_request_options. cbn [andb sbind].
  split; [done|]. split; [done|].
  eexists. cbn. rewrite Ho. split; [reflexivity|]. split; [|unfold requesting; cbn; by rewrite Hs].
  apply (sendable_control PROTOCOL_IPCP CODE_CONFIGURE_REQUEST _ (ipcp_request_options _)). by rewrite ipcp_request_options_len.
Qed.

Lemma address_acknowledged i a e : state e = IpcpRequestSent → ipcp_identifier e = Some i → a ≠ UNSPECIFIED →
  let p := control_packet PROTOCOL_IPCP CODE_CONFIGURE_ACK i (ipcp_request_options a) in
  fst (handle_incoming p e) = Ok [Up a (peer_ip e) []] ∧ hears p e = set_state Opened (set_local_ip a e).
Proof.
  intros Hs Hi Ha p. pose proof (ipcp_request_options_len a) as Hl.
  destruct (handle_incoming_control PROTOCOL_IPCP CODE_CONFIGURE_ACK i (ipcp_request_options a) e) as (pl & Hpl & H); [by right|lia|].
  unfold hears, p. rewrite H. clear H p. change (PROTOCOL_IPCP =? PROTOCOL_LCP) with false. cbv iota. unfold handle_ipcp, lift.
  rewrite Hpl. cbn [sbind code identifier options]. change (CODE_CONFIGURE_ACK =? CODE_CONFIGURE_REQUEST) with false.
  change (CODE_CONFIGURE_ACK =? CODE_CONFIGURE_ACK) with true.
  rewrite Hi, bool_decide_eq_true_2 by done. rewrite parse_ipcp_request_options. cbn [andb sbind default].
  by rewrite decide_True by done.
Qed.

(** As long as the link is not up, the gateway has a request to answer. *)
Definition pending (asked : list PppPacket) (e : PppEngine) : Prop :=
  outgoing e = [] ∧ ∃ before q after, asked = before ++ q :: after ∧ requesting e = Some q ∧
    Forall chatter before ∧ Forall chatter after.

Lemma opens_quietly p ps e : fst (handle_incoming p e) = Ok [] → sendable (outgoing (hears p e)) = true →
  opens (p :: ps) e = opens ps (silent (hears p e)).
Proof.
  unfold hears. cbn [opens]. destruct (handle_incoming p e) as [r e1]. cbn [fst snd]. by intros -> ->.
Qed.

Lemma requesting_silent e : requesting (silent e) = requesting e.
Proof. done. Qed.

Lemma requesting_not_initial e q : requesting e = Some q → state e ≠ Initial.
Proof. unfold requesting. by destruct (state e). Qed.

(** A conversation that is over has brought up the link. *)
Lemma conversation_opens a asked e ps : a ≠ UNSPECIFIED → conversation a asked e ps → pending asked e →
  ∃ e' rest, opens ps e = Some (e', rest) ∧ state e' = Opened ∧ local_ip e' = Some a.
Proof.
  intros Ha. induction 1 as [e|asked e p ps Hp _ IH|q p asked e ps Hans _ IH|q asked e ps Hans _ IH];
    intros (Ho & before & r & after & Hasked & Hr & Hb & Haf).
  - by destruct before.
  - destruct (aside_politely p e) as (q & H1 & H2 & H3 & H4 & H5 & H6); [by eapply requesting_not_initial|done|].
    rewrite Ho in H2. cbn in H2. rewrite opens_quietly by (done || by rewrite H2). apply IH.
    split; [done|]. exists before, r, (after ++ [q]). rewrite H2, Hasked, <- app_assoc. split; [done|].
    rewrite requesting_silent, H6. split; [done|]. split; [done|]. by apply Forall_app_2; [|apply Forall_singleton].
  - destruct before as [|q' before].
    2: { injection Hasked as -> ->. apply Forall_cons in Hb as [Hq' _]. by apply chatter_unanswered in Hans. }
    injection Hasked as -> ->. clear Hb. unfold requesting in Hr. destruct (state e) eqn:Es; try done.
    + destruct (lcp_identifier e) as [i|] eqn:Ei; [|done]. injection Hr as <-. apply link_request_answer in Hans as ->.
      destruct (link_acknowledged i lcp_request_options e) as (H1 & H2 & q & H3 & H4 & H5); [done|done|vm_compute; discriminate|done|].
      rewrite opens_quietly by (done || by rewrite H3). apply IH. split; [done|].
      exists after, q, []. rewrite H3. by rewrite requesting_silent.
    + destruct (ipcp_identifier e) as [i|] eqn:Ei; [|done]. injection Hr as <-.
      apply address_request_answer in Hans as [[_ ->]|[Ea ->]].
      * destruct (address_assigned i a e) as (H1 & H2 & q & H3 & H4 & H5); [done..|].
        rewrite opens_quietly by (done || by rewrite H3). apply IH. split; [done|].
        exists after, q, []. rewrite H3. by rewrite requesting_silent.
      * destruct (address_acknowledged i a e) as (H1 & H2); [done..|]. unfold hears in H2. cbn [opens].
        destruct (handle_incoming _ e) as [res e1]. cbn [fst snd] in H1, H2. subst res e1.
        assert (outgoing (set_state Opened (set_local_ip a e)) = []) as -> by done.
        by eexists _, _.
  - destruct before as [|q' before].
    + injection Hasked as -> ->. unfold requesting in Hr.
      destruct (state e); try done; [destruct (lcp_identifier e)|destruct (ipcp_identifier e)]; try done;
        injection Hr as <-; by apply request_answered in Hans as [? ?].
    + injection Hasked as -> ->. apply Forall_cons in Hb as [_ Hb]. apply IH. split; [done|]. by exists before, r, after.
Qed.

(** ** The stream *)

(** A stream that takes all that is written, and delivers without an end. *)
Definition easy (t : FortinetTransport) : Prop := w_script (stream_w t) = [] ∧ patient (stream_r t).

Lemma write_packet_easy p t : easy t → len (data p) <= 65529 → ∃ t', Fortinet.write_packet t p = (Ok tt, t') ∧
  easy t' ∧ stream_r t' = stream_r t ∧ read_buffer t' = read_buffer t.
Proof.
  intros [Hw Hr] Hl. unfold Fortinet.write_packet, write_tls_packet, lift. rewrite encode_for_tls_eq.
  rewrite (proj2 (Z.ltb_ge _ _)) by lia. cbn [sbind]. unfold write_all, flush. rewrite Hw. cbn [write_all_script].
  destruct (len (tls_frame (data p)) =? 0); cbn [sbind w_script]; by eexists.
Qed.

Lemma flush_easy s : easy (n_transport s) → sendable (outgoing (n_ppp s)) = true →
  ∃ t', flush_ppp_outgoing s = (Ok tt, s <| n_ppp := silent (n_ppp s) |> <| n_transport := t' |>) ∧
    easy t' ∧ stream_r t' = stream_r (n_transport s) ∧ read_buffer t' = read_buffer (n_transport s).
Proof.
  unfold flush_ppp_outgoing. generalize (le_n (length (outgoing (n_ppp s)))). generalize (length (outgoing (n_ppp s))) at 2 3.
  intros fuel. revert s. induction fuel as [|fuel IH]; intros s Hf He Hs; cbn [flush_outgoing]; unfold next_outgoing;
    (destruct (outgoing (n_ppp s)) as [|p ps] eqn:Eo; [|try (cbn in Hf; lia)]).
  1, 2: exists (n_transport s); split; [|done]; unfold silent; destruct s as [t e c st]; destruct e; cbn in *; by subst.
  cbn [sendable forallb] in Hs. apply andb_true_iff in Hs as [Hp Hps]. apply Z.leb_le in Hp.
  destruct (write_packet_easy p _ He Hp) as (t1 & -> & He1 & Hr1 & Hb1). cbn [sbind].
  destruct (IH (s <| n_ppp := set_outgoing ps (n_ppp s) |> <| n_transport := t1 |>)) as (t2 & E & He2 & Hr2 & Hb2);
    [cbn in *; lia|done|done|].
  exists t2. cbn in Hr2, Hb2. split; [exact E|]. split; [done|]. by rewrite Hr2, Hb2.
Qed.

(** The time that looking at the clock will take. *)
Definition all_delays (c : clock) : Z := foldr (λ d total, Z.max 0 d + total) 0 (delays c).

Lemma all_delays_nonneg c : 0 <= all_delays c.
Proof. unfold all_delays. induction (delays c); cbn; lia. Qed.

Lemma instant_now_delays c : let '(now, c') := instant_now c in
  now = time c' ∧ now <= time c + all_delays c ∧ time c' + all_delays c' = time c + all_delays c.
Proof.
  pose proof (all_delays_nonneg c) as Hn. unfold instant_now, elapse. unfold all_delays in *. destruct c as [t [|d ds]]; cbn in *; [lia|].
  pose proof (all_delays_nonneg {| time := 0; delays := ds |}) as Hn'. unfold all_delays in Hn'. cbn in Hn'. lia.
Qed.

Definition framed (p : PppPacket) : Prop := data p ≠ [] ∧ len (data p) <= 65529.

Lemma negotiate_opens fuel deadline s ps e' after rest :
  outgoing (n_ppp s) = [] → easy (n_transport s) → Forall framed ps → link_bytes s = frames ps ++ rest →
  opens ps (n_ppp s) = Some (e', after) → true ∉ n_stops s →
  time (n_clock s) + all_delays (n_clock s) < deadline → (transport_fuel (n_transport s) < fuel)%nat →
  ∃ s', negotiate fuel deadline s = (Ok tt, s') ∧ n_ppp s' = e' ∧ link_bytes s' = frames after ++ rest.
Proof.
  revert s ps. induction fuel as [|fuel IH]; intros s ps Ho He Hps Hb Hop Hst Hc Hf; [lia|]. cbn [negotiate].
  unfold look_at_clock. pose proof (instant_now_delays (n_clock s)) as Hnow. destruct (instant_now (n_clock s)) as [now c].
  destruct Hnow as (-> & Hle & Hsum). rewrite (proj2 (Z.leb_gt _ _)) by lia.
  set (s1 := s <| n_clock := c |>).
  assert (∃ s2, stop_requested s1 = (false, s2) ∧ n_transport s2 = n_transport s ∧ n_ppp s2 = n_ppp s ∧
    n_clock s2 = c ∧ true ∉ n_stops s2) as (s2 & -> & Et & Ee & Ec & Hst2).
  { unfold stop_requested. cbn. destruct (n_stops s) as [|[] stops] eqn:E; [exists s1; cbn; by rewrite E| |].
    - by destruct Hst; left.
    - eexists. split; [reflexivity|]. rewrite not_elem_of_cons in Hst. by destruct Hst. }
  rewrite Et, Ee. destruct ps as [|p ps]; [done|]. apply Forall_cons in Hps as [[Hp1 Hp2] Hps].
  destruct He as [Hw Hr]. pose proof (read_packet_suffix (n_transport s)) as [_ Hsw].
  pose proof (read_packet_decreases (n_transport s)) as Hdec.
  destruct (read_packet_patient (n_transport s) p (frames ps ++ rest)) as (res & t & Hrun & Hr' & Hres);
    [done|done|done|unfold link_bytes in Hb; by rewrite Hb, frames_cons, <- app_assoc|].
  rewrite Hrun in *. cbn [snd] in Hsw.
  assert (easy t) as Het by (split; [by rewrite Hsw|done]).
  destruct Hres as [[-> Hun]|(k & -> & Hk & Hun)].
  2: { assert (k ≠ UnexpectedEof) as Hne by by destruct Hk as [->| ->].
       destruct (IH (s2 <| n_transport := t |>) (p :: ps)) as (s' & Hs' & Hfin); cbn; rewrite ?Ee, ?Ec; try done.
       - by constructor.
       - unfold link_bytes in *. cbn. by rewrite Hun.
       - lia.
       - specialize (Hdec Hne). lia.
       - exists s'. split; [|done]. cbn [io_error]. by destruct Hk as [->| ->]. }
  cbn [opens] in Hop. destruct (handle_incoming p (n_ppp s)) as [[events|err| |] e1]; cbn [lift sbind]; try done.
  set (s3 := s2 <| n_transport := t |> <| n_ppp := e1 |>).
  destruct events as [|[ip peer dns|packet|] more]; try done; destruct (sendable (outgoing e1)) eqn:Hsend; try done.
  - cbn [negotiated sbind]. destruct (flush_easy s3 Het Hsend) as (t2 & -> & He2 & Hr2 & Hb2). cbn [sbind].
    apply (IH _ ps); cbn; rewrite ?Ec; try done; [|lia|].
    + unfold link_bytes, unconsumed in *. cbn. by rewrite Hr2, Hb2.
    + unfold transport_fuel in *. rewrite Hr2, Hb2. cbn. lia.
  - injection Hop as <- <-. cbn [negotiated]. destruct (flush_easy s3 Het Hsend) as (t2 & -> & He2 & Hr2 & Hb2).
    cbn [sbind]. eexists. split; [reflexivity|]. split; [done|]. unfold link_bytes, unconsumed in *. cbn. by rewrite Hr2, Hb2.
Qed.

(** ** Properties *)

(** C6: The link comes up.  Whatever address the gateway assigns, if it holds
    up its side of a negotiation (it answers every request of the client, in
    order, and may in between send requests of its own, echo requests and
    packets of protocols that the client does not speak), if the tunnel
    delivers its packets, cut into pieces and interrupted by time-outs in any
    way, and takes what is written, if nobody asks to stop and less than thirty
    seconds pass, then the negotiation succeeds: the link is open with the
    assigned address, and the stream is left behind the packet that opened it. *)
Theorem establish_ppp_completes a ps t c stops rest :
  a ≠ UNSPECIFIED → conversation a (outgoing started) (silent started) ps →
  Forall framed ps → easy t → unconsumed t = frames ps ++ rest →
  true ∉ stops → all_delays c < PPP_NEGOTIATION_TIMEOUT →
  ∃ e s after, establish_ppp (Ok tt) t c stops = (Ok e, s) ∧ state e = Opened ∧ local_ip e = Some a ∧
    opens ps (silent started) = Some (e, after) ∧ link_bytes s = frames after ++ rest.
Proof.
  intros Ha Hconv Hps He Hb Hst Hc.
  destruct (conversation_opens a _ _ ps Ha Hconv) as (e & after & Hop & Hopen & Hip).
  { split; [done|]. by eexists [], _, []. }
  unfold establish_ppp. fold started. cbn [lift sbind]. unfold look_at_clock. cbn [n_clock].
  pose proof (instant_now_delays c) as Hnow. pose proof (instant_now_time c) as Htime.
  destruct (instant_now c) as [now c1]. destruct Hnow as (-> & Hle & Hsum). destruct (Htime _ _ eq_refl) as [Hge _].
  match goal with |- context [flush_ppp_outgoing ?s] => destruct (flush_easy s) as (t1 & -> & He1 & Hr1 & Hb1) end; [done|done|].
  cbn [sbind]. unfold sbind at 1.
  match goal with |- context [negotiate ?fuel ?deadline ?s] =>
    destruct (negotiate_opens fuel deadline s ps e after rest) as (s' & -> & E1 & E2) end; try done; cbn.
  - unfold link_bytes, unconsumed in *. cbn in *. by rewrite Hr1, Hb1.
  - lia.
  - lia.
  - by exists (n_ppp s'), s', after; rewrite E1.
Qed.

(** ** A concrete gateway *)

(** It asks for options of its own first, and sends an echo request while the
    address is being settled. *)
Definition demo_address : Ipv4Addr := Ipv4 10 0 0 42.
Definition demo_says : list PppPacket :=
  [control_packet PROTOCOL_LCP CODE_CONFIGURE_REQUEST 9 [1; 4; 5; 0];
   control_packet PROTOCOL_LCP CODE_CONFIGURE_ACK 1 lcp_request_options;
   control_packet PROTOCOL_IPCP CODE_CONFIGURE_NAK 2 (ipcp_request_options demo_address);
   control_packet PROTOCOL_LCP CODE_ECHO_REQUEST 10 [0; 0; 0; 0];
   control_packet PROTOCOL_IPCP CODE_CONFIGURE_ACK 3 (ipcp_request_options demo_address)].

Lemma demo_conversation : conversation demo_address (outgoing started) (silent started) demo_says.
Proof.
  refine (conv_aside _ _ _ _ _ (own_request PROTOCOL_LCP 9 [1; 4; 5; 0] _ _) _); [by left|vm_compute; discriminate|].
  refine (conv_answer _ (control_packet PROTOCOL_LCP CODE_CONFIGURE_REQUEST 1 lcp_request_options) _
    [control_packet PROTOCOL_LCP CODE_CONFIGURE_ACK 9 [1; 4; 5; 0]] _ _ (acknowledges_link _ _ _) _).
  refine (conv_ignore _ (control_packet PROTOCOL_LCP CODE_CONFIGURE_ACK 9 [1; 4; 5; 0])
    [control_packet PROTOCOL_IPCP CODE_CONFIGURE_REQUEST 2 (ipcp_request_options UNSPECIFIED)] _ _
    (says_nothing _ _ CODE_CONFIGURE_ACK _ _ _) _); [done|].
  refine (conv_answer _ (control_packet PROTOCOL_IPCP CODE_CONFIGURE_REQUEST 2 (ipcp_request_options UNSPECIFIED)) _
    [] _ _ (assigns_address _ _ _ _) _); [done|].
  refine (conv_aside _ _ _ _ _ (echo_request 10 [0; 0; 0; 0] _) _); [vm_compute; discriminate|].
  refine (conv_answer _ (control_packet PROTOCOL_IPCP CODE_CONFIGURE_REQUEST 3 (ipcp_request_options demo_address)) _
    [control_packet PROTOCOL_LCP CODE_ECHO_REPLY 10 [0; 0; 0; 0]] _ _ (acknowledges_address _ _) _).
  refine (conv_ignore _ (control_packet PROTOCOL_LCP CODE_ECHO_REPLY 10 [0; 0; 0; 0]) [] _ _
    (says_nothing _ _ CODE_ECHO_REPLY _ _ _) _); [done|].
  apply conv_end.
Qed.

(** Its packets arrive in pieces, with time-outs, and with the beginning of a
    frame behind them. *)
Definition demo_slow : FortinetTransport :=
  Fortinet.new [RError WouldBlock; RBytes (take 5 (frames demo_says)); RError TimedOut;
                RBytes (drop 5 (frames demo_says) ++ [0; 12]); RError TimedOut] (vec_writer []).

Lemma establish_ppp_completes_witness :
  ∃ e s after, establish_ppp (Ok tt) demo_slow {| time := 7; delays := [20; 500; 29000] |} [false; false] = (Ok e, s) ∧
    state e = Opened ∧ local_ip e = Some demo_address ∧ opens demo_says (silent started) = Some (e, after) ∧
    link_bytes s = frames after ++ [0; 12].
Proof.
  apply (establish_ppp_completes demo_address demo_says demo_slow {| time := 7; delays := [20; 500; 29000] |} [false; false]).
  - discriminate.
  - exact demo_conversation.
  - repeat constructor; vm_compute; discriminate.
  - split; [reflexivity|]. constructor; [by left|]. constructor; [vm_compute; discriminate|]. constructor; [by right|].
    constructor; [vm_compute; discriminate|]. constructor; [by right|]. constructor.
  - vm_compute. reflexivity.
  - rewrite !not_elem_of_cons. split; [discriminate|]. split; [discriminate|]. apply not_elem_of_nil.
  - vm_compute. reflexivity.
Defined.

(** A packet of an unknown protocol that fills a frame is rejected with all its
    octets, and the reject does not fit into one. *)
Example reject_does_not_fit :
  let p := {| data := u16_to_be 0x8057 ++ replicate 65527 0 |} in
  is_ok (encode_for_tls p) = true ∧
  let '(r, e) := handle_incoming p (silent started) in
  r = Ok [] ∧ map (λ q, is_ok (encode_for_tls q)) (outgoing e) = [false].
Proof. vm_compute. split_and!; reflexivity. Qed.
