(* ===== verification/Pppd.v ===== *)
(** * [tunnel/pppd.rs] and [tunnel/interface.rs]: the PPP process and its interface

    The command lines of the two PPP programs, how a process is started and
    ended, and the wait for the network interface that it brings up.  What [waitpid] and
    [getifaddrs] answer, call by call, are scripts. *)

From S2P Require Import Prelude Stream RustStd Config Net.

#[local] Open Scope string_scope.
#[local] Open Scope list_scope.
#[local] Open Scope Z_scope.

(** ** Command lines *)

Definition DEFAULT_PPPD_PATH : str := "/usr/sbin/pppd".
Definition DEFAULT_PPP_PATH : str := "/usr/sbin/ppp".

Record PppdCommand := { program : str; args : list str }.

Definition argv (self : PppdCommand) : list str := program self :: args self.

Definition build_ppp_command (config : Config) (ppp_path : str) : PppdCommand :=
  {| program := ppp_path;
     args := "-direct" :: match ppp_system config with
                          | Some system => if str_is_empty system then [] else [system]
                          | None => []
                          end |}.

Definition DEFAULT_ARGS : list str :=
  ["230400"; ":169.254.2.1"; "noipdefault"; "ipcp-accept-local"; "noaccomp"; "noauth"; "default-asyncmap"; "nopcomp";
   "receive-all"; "nodefaultroute"; "nodetach"; "lcp-max-configure"; "40"; "mru"; "1354"].

(** [args.push(name); args.push(value)] *)
Definition option_args (name : str) (value : option str) : list str :=
  match value with Some value => [name; value] | None => [] end.

Definition build_pppd_command (config : Config) (pppd_path : str) : PppdCommand :=
  {| program := pppd_path;
     args := match pppd_call config with Some call => ["call"; call] | None => DEFAULT_ARGS end
       ++ (if pppd_accept_remote config then ["ipcp-accept-remote"] else [])
       ++ (if pppd_use_peerdns config then ["usepeerdns"] else [])
       ++ match pppd_log config with Some log => ["debug"; "logfile"; log] | None => ["logfd"; "2"] end
       ++ option_args "plugin" (pppd_plugin config)
       ++ option_args "ipparam" (pppd_ipparam config)
       ++ option_args "ifname" (pppd_ifname config) |}.

(** ** The end of a process *)

Inductive wait_answer := StillAlive | Exited | Signaled | OtherStatus | NoChild | WaitError (text : str).

Inductive Signal := SIGTERM | SIGKILL.

(** What the next calls of [waitpid] answer, the signals that were sent, and
    when.  A process whose script is over is gone. *)
Record process := { answers : list wait_answer; signals : list (Signal * Z); process_clock : clock }.

#[export] Instance process_eta : Eta process := λ p,
  {| answers := answers p; signals := signals p; process_clock := process_clock p |}.

Definition waitpid (p : process) : wait_answer * process :=
  match answers p with
  | [] => (NoChild, p)
  | a :: rest => (a, p <| answers := rest |>)
  end.

(** [kill], whose outcome is ignored. *)
Definition kill (s : Signal) (p : process) : process :=
  p <| signals := signals p ++ [(s, time (process_clock p))] |>.

Definition is_reaped (p : process) : result bool * process :=
  match waitpid p with
  | (StillAlive, p) => (Ok false, p)
  | (WaitError err, p) => (Err (Pppd ("waitpid failed: " +:+ err)), p)
  | (_, p) => (Ok true, p)
  end.

Definition look (p : process) : Z * process :=
  let '(t, c) := instant_now (process_clock p) in (t, p <| process_clock := c |>).

(** The [while] loop: [Ok true] is its [return Ok(())]. *)
Fixpoint grace (fuel : nat) (deadline : Z) (p : process) : result bool * process :=
  match fuel with
  | O => (Diverge, p)
  | S fuel =>
      let '(now, p) := look p in
      if deadline <=? now then (Ok false, p) else
      let! reaped & p := is_reaped p in
      if reaped then (Ok true, p)
      else grace fuel deadline (p <| process_clock := sleep 100 (process_clock p) |>)
  end.

(** The last [loop]; every turn takes an answer. *)
Fixpoint reap (fuel : nat) (p : process) : result unit * process :=
  match fuel with
  | O => (Diverge, p)
  | S fuel =>
      match waitpid p with
      | (Exited, p) | (Signaled, p) | (NoChild, p) => (Ok tt, p)
      | (WaitError err, p) => (Err (Pppd ("waitpid after SIGKILL failed: " +:+ err)), p)
      | (_, p) => reap fuel p
      end
  end.

Definition GRACE : Z := 5000.

Definition terminate_pppd (p : process) : result unit * process :=
  let! reaped & p := is_reaped p in
  if reaped then (Ok tt, p) else
  let p := kill SIGTERM p in
  let '(now, p) := look p in
  let deadline := now + GRACE in
  let! reaped & p := grace (S (Z.to_nat GRACE)) deadline p in
  if reaped then (Ok tt, p) else
  let p := kill SIGKILL p in
  reap (S (length (answers p))) p.

(** ** The start of a process *)

(** A PPP process with the two directions of its terminal. *)
Record PppdChild := { master_r : reader; master_w : writer; child : process }.

(** What a forked child becomes: a program with its arguments, or an exit. *)
Inductive child_image := Executed (program : str) (args : list str) | ExitedAtOnce (code : Z).

Section Spawn.
(** [forkpty] is its error, if it fails; [execvp], whether the child could
    become a program; [launch], what the terminal and [waitpid] answer of a
    child that became something. *)
Context (forkpty : option str) (execvp : str → list str → bool) (launch : child_image → PppdChild).

(** [CString::new] *)
Definition c_string (s : str) : option str := if any_char (λ c, Ascii.eqb c (ascii_of_u8 0)) s then None else Some s.

(** The branch of the child. *)
Definition in_child (command : PppdCommand) : child_image :=
  match mapM c_string (argv command) with
  | None => ExitedAtOnce 127
  | Some c_argv =>
      let program := default DEFAULT_PPPD_PATH (head c_argv) in
      if execvp program c_argv then Executed program c_argv else ExitedAtOnce 127
  end.

Definition spawn_pppd (command : PppdCommand) : result PppdChild :=
  match forkpty with
  | Some err => Err (Pppd ("forkpty failed: " +:+ err))
  | None => Ok (launch (in_child command))
  end.

(** On a system that is not Unix. *)
Definition spawn_pppd_elsewhere (command : PppdCommand) : result PppdChild :=
  Err (Pppd "pppd pty spawning is only implemented on Unix platforms").

(** The child runs the program of the command with its arguments, or nothing. *)
Lemma in_child_runs command :
  in_child command = Executed (program command) (argv command) ∨ in_child command = ExitedAtOnce 127.
Proof.
  unfold in_child. destruct (mapM c_string (argv command)) as [l|] eqn:E; [|by right].
  assert (l = argv command) as ->.
  { apply mapM_Some in E. symmetry. apply list_eq_Forall2.
    eapply Forall2_impl; [exact E|]. unfold c_string. intros x y. destruct (any_char _ x); [done|]. by intros [= ->]. }
  cbn. destruct (execvp _ _); [by left|by right].
Qed.
End Spawn.

(** ** The interface *)

Record PppInterface := { name : str; address : Ipv4Addr }.

(** One entry of [getifaddrs]; the address may be of another family. *)
Record InterfaceAddress := { interface_name : str; is_up : bool; socket_addr : option (option Ipv4Addr) }.

Definition matches_interface_name (name : str) (preferred_name : option str) : bool :=
  match preferred_name with
  | Some preferred => negb (str_is_empty preferred) && str_contains preferred name || str_contains "ppp" name
  | None => str_contains "ppp" name
  end.

Fixpoint find_up (addrs : list InterfaceAddress) (expected_addr : Ipv4Addr) (preferred_name : option str)
    : option PppInterface :=
  match addrs with
  | [] => None
  | iface :: addrs =>
      if negb (is_up iface) then find_up addrs expected_addr preferred_name
      else if negb (matches_interface_name (interface_name iface) preferred_name)
      then find_up addrs expected_addr preferred_name
      else match socket_addr iface with
           | Some (Some addr) =>
               if decide (addr = expected_addr) then Some {| name := interface_name iface; address := addr |}
               else find_up addrs expected_addr preferred_name
           | _ => find_up addrs expected_addr preferred_name
           end
  end.

(** [getifaddrs] is the outcome of the call; [std::io::Error::other] wraps its error. *)
Definition find_up_ppp_interface (getifaddrs : option (list InterfaceAddress)) (expected_addr : Ipv4Addr)
    (preferred_name : option str) : result (option PppInterface) :=
  match getifaddrs with
  | Some addrs => Ok (find_up addrs expected_addr preferred_name)
  | None => Err (io_error OtherKind)
  end.

(** On a system that is not Unix no interface is ever found. *)
Definition find_up_ppp_interface_elsewhere (expected_addr : Ipv4Addr) (preferred_name : option str)
    : result (option PppInterface) := Ok None.

(** What each look at the interfaces answers, and the clock.  When the script
    is over there are none. *)
Record watch := { looks : list (option (list InterfaceAddress)); watch_clock : clock }.

#[export] Instance watch_eta : Eta watch := λ w, {| looks := looks w; watch_clock := watch_clock w |}.

Definition getifaddrs (w : watch) : option (list InterfaceAddress) * watch :=
  match looks w with
  | [] => (Some [], w)
  | l :: rest => (l, w <| looks := rest |>)
  end.

Definition now (w : watch) : Z * watch :=
  let '(t, c) := instant_now (watch_clock w) in (t, w <| watch_clock := c |>).

(** A turn that goes on sleeps for [interval]. *)
Fixpoint wait_loop (fuel : nat) (start : Z) (expected_addr : Ipv4Addr) (preferred_name : option str)
    (timeout interval : Z) (w : watch) : result (option PppInterface) * watch :=
  match fuel with
  | O => (Diverge, w)
  | S fuel =>
      let '(l, w) := getifaddrs w in
      let! interface & w := lift (find_up_ppp_interface l expected_addr preferred_name) w in
      match interface with
      | Some interface => (Ok (Some interface), w)
      | None =>
          let '(t, w) := now w in
          if timeout <=? t - start then (Ok None, w)
          else wait_loop fuel start expected_addr preferred_name timeout interval
                 (w <| watch_clock := sleep interval (watch_clock w) |>)
      end
  end.

Definition wait_for_up_ppp_interface (expected_addr : Ipv4Addr) (preferred_name : option str)
    (timeout interval : Z) (w : watch) : result (option PppInterface) * watch :=
  let '(start, w) := now w in
  wait_loop (S (Z.to_nat timeout)) start expected_addr preferred_name timeout interval w.

(** ** Specifications *)

(** The answers that were taken; behind the end of the script there is no child. *)
Definition takes (l : list wait_answer) (p p' : process) : Prop :=
  answers p = l ++ answers p' ∨ answers p' = [] ∧ l = answers p ++ [NoChild].

(** An answer to a look that does not wait: what it makes of the ending.  Only
    a process that is alive keeps it going. *)
Definition decides (a : wait_answer) (r : result unit) : Prop :=
  match a with
  | StillAlive => False
  | WaitError err => r = Err (Pppd ("waitpid failed: " +:+ err))
  | _ => r = Ok tt
  end.

(** The same of the wait behind the last signal. *)
Definition reaps (a : wait_answer) (r : result unit) : Prop :=
  match a with
  | Exited | Signaled | NoChild => r = Ok tt
  | WaitError err => r = Err (Pppd ("waitpid after SIGKILL failed: " +:+ err))
  | _ => False
  end.

Definition lingers (a : wait_answer) : Prop :=
  match a with Exited | Signaled | NoChild | WaitError _ => False | _ => True end.

(** How a process is ended, decided by what [waitpid] answers: nothing is sent
    to one that is over (or cannot be asked) at the first look; one that was
    alive gets SIGTERM, and nothing else if it is over, or cannot be asked, at
    a look of the grace period; one that was alive at all looks until the
    grace period was over gets SIGKILL, and is waited for. *)
Inductive ending (p : process) (r : result unit) (p' : process) : list (Signal * Z) → Prop :=
  | ended_already a : takes [a] p p' → decides a r → ending p r p' []
  | ended_in_time t n a : time (process_clock p) <= t →
      takes (replicate (S n) StillAlive ++ [a]) p p' → decides a r → ending p r p' [(SIGTERM, t)]
  | ended_by_force t t' n l a : time (process_clock p) <= t → t + GRACE <= t' → Forall lingers l →
      takes (replicate (S n) StillAlive ++ l ++ [a]) p p' → reaps a r → ending p r p' [(SIGTERM, t); (SIGKILL, t')].

Lemma takes_later l k p p1 p2 : answers p = l ++ answers p1 → takes k p1 p2 → takes (l ++ k) p p2.
Proof.
  intros H [H1|[H1 ->]]; [left|right]; rewrite H, ?H1, <- app_assoc; done.
Qed.

Lemma waitpid_takes p a p' : waitpid p = (a, p') → takes [a] p p' ∧ signals p' = signals p ∧
  process_clock p' = process_clock p ∧ (a ≠ NoChild → answers p = a :: answers p').
Proof.
  unfold waitpid. destruct (answers p) as [|b rest] eqn:E; intros [= <- <-]; cbn.
  - split_and!; [|done..]. right. by rewrite E.
  - split_and!; try done. by left.
Qed.

Lemma is_reaped_ok p : ∃ r p' a, is_reaped p = (r, p') ∧ takes [a] p p' ∧ signals p' = signals p ∧
  process_clock p' = process_clock p ∧
  (r = Ok false ∧ answers p = StillAlive :: answers p' ∨ r = Ok true ∧ decides a (Ok tt) ∨ ∃ e, r = Err e ∧ decides a (Err e)).
Proof.
  unfold is_reaped. destruct (waitpid p) as [a p'] eqn:E. apply waitpid_takes in E as (H1 & H2 & H3 & H4).
  destruct a; (eexists _, p', _; split; [reflexivity|]; split_and!; [exact H1|exact H2|exact H3|]);
    first [by left; split; [|apply H4]|by right; left|by right; right; eexists].
Qed.

Lemma look_ok p t p' : look p = (t, p') → time (process_clock p) <= t ∧ t = time (process_clock p') ∧
  signals p' = signals p ∧ answers p' = answers p.
Proof.
  unfold look. destruct (instant_now (process_clock p)) as [u c] eqn:E. intros [= <- <-].
  apply instant_now_time in E as [H1 H2]. by split_and!.
Qed.

Lemma grace_ok fuel deadline p : deadline < time (process_clock p) + Z.of_nat fuel → (0 < fuel)%nat →
  ∃ r p' n, grace fuel deadline p = (r, p') ∧ signals p' = signals p ∧
    (r = Ok false ∧ answers p = replicate n StillAlive ++ answers p' ∧ deadline <= time (process_clock p') ∨
     ∃ a, takes (replicate n StillAlive ++ [a]) p p' ∧
       (r = Ok true ∧ decides a (Ok tt) ∨ ∃ e, r = Err e ∧ decides a (Err e))).
Proof.
  revert p. induction fuel as [|fuel IH]; intros p Hf Hpos; [lia|]. clear Hpos. cbn [grace].
  destruct (look p) as [t p1] eqn:El. apply look_ok in El as (L1 & L2 & L3 & L4).
  destruct (Z.leb_spec deadline t).
  { eexists _, _, 0%nat. split; [reflexivity|]. split; [done|]. left. split_and!; [done|by rewrite L4|lia]. }
  destruct (is_reaped_ok p1) as (r & p2 & a & -> & T2 & S2 & C2 & Hr).
  assert (takes [a] p p2) as T by (unfold takes in *; by rewrite <- L4).
  destruct Hr as [[-> A2]|[[-> Hd]|(e & -> & Hd)]]; cbn [sbind].
  2, 3: eexists _, _, 0%nat; (split; [reflexivity|]); (split; [congruence|]); right; exists a; split; [exact T|eauto].
  pose proof (elapse_time 100 (process_clock p2)) as He. rewrite C2 in He.
  destruct (IH (p2 <| process_clock := sleep 100 (process_clock p2) |>)) as (r & p3 & n & Hrun & S3 & Hr);
    [unfold sleep; cbn; rewrite C2; lia|lia|].
  cbn in S3. exists r, p3, (S n). split; [exact Hrun|]. split; [congruence|]. rewrite L4 in A2.
  destruct Hr as [(-> & A3 & Ht)|(b & Tb & Hr)]; [left|right].
  - cbn in A3. split_and!; [done| |done]. by rewrite A2, A3.
  - exists b. split; [|done]. cbn [replicate app].
    by apply (takes_later [StillAlive] _ p (p2 <| process_clock := sleep 100 (process_clock p2) |>)).
Qed.

Lemma reap_ok fuel p : (length (answers p) < fuel)%nat → ∃ r p' l a, reap fuel p = (r, p') ∧ signals p' = signals p ∧
  Forall lingers l ∧ takes (l ++ [a]) p p' ∧ reaps a r.
Proof.
  revert p. induction fuel as [|fuel IH]; intros p Hf; [lia|]. cbn [reap].
  destruct (waitpid p) as [a p1] eqn:E. apply waitpid_takes in E as (H1 & H2 & _ & H4).
  assert (lingers a → ∃ r p' l b, reap fuel p1 = (r, p') ∧ signals p' = signals p ∧ Forall lingers l ∧
    takes (l ++ [b]) p p' ∧ reaps b r) as Hgo.
  { intros Ha. assert (answers p = a :: answers p1) as Hp by (apply H4; by intros ->).
    destruct (IH p1) as (r & p' & l & b & Hrun & Hs & Hl & Ht & Hr); [rewrite Hp in Hf; cbn in Hf; lia|].
    exists r, p', (a :: l), b. rewrite Hs, H2. split_and!; try done; [by constructor|].
    by apply (takes_later [a] _ p p1). }
  destruct a; try (apply Hgo; exact I);
    (eexists _, p1, [], _; split; [reflexivity|]; split; [exact H2|]; split; [constructor|]; split; [exact H1|reflexivity]).
Qed.

Lemma terminate_pppd_ok p : ∃ r p' sent, terminate_pppd p = (r, p') ∧ signals p' = signals p ++ sent ∧ ending p r p' sent.
Proof.
  unfold terminate_pppd. destruct (is_reaped_ok p) as (r & p1 & a & -> & T1 & S1 & C1 & Hr).
  destruct Hr as [[-> A1]|[[-> Hd]|(e & -> & Hd)]]; cbn [sbind].
  2, 3: eexists _, _, []; (split; [reflexivity|]); (split; [by rewrite app_nil_r|]); by eapply ended_already.
  destruct (look (kill SIGTERM p1)) as [t p2] eqn:El. apply look_ok in El as (L1 & L2 & L3 & L4). cbn in L1, L3, L4.
  destruct (grace_ok (S (Z.to_nat GRACE)) (t + GRACE) p2) as (r & p3 & n & -> & S3 & Hr); [unfold GRACE; lia|lia|].
  rewrite <- L4 in A1. pose proof (takes_later [StillAlive] (replicate n StillAlive ++ [a]) p p2) as Hlater.
  destruct Hr as [(-> & A3 & Ht)|(b & Tb & [[-> Hd]|(e & -> & Hd)])]; cbn [sbind].
  - destruct (reap_ok (S (length (answers (kill SIGKILL p3)))) (kill SIGKILL p3)) as (r & p4 & l & b & -> & S4 & Hl & T4 & Hr); [lia|].
    eexists _, _, [(SIGTERM, _); (SIGKILL, _)]. split; [reflexivity|]. rewrite S4. cbn. rewrite S3, L3, S1, <- app_assoc.
    split; [reflexivity|]. apply (ended_by_force _ _ _ _ _ n l b); [rewrite C1; lia|lia|done| |done].
    apply (takes_later (replicate (S n) StillAlive) _ p (kill SIGKILL p3)); [|done]. cbn. by rewrite A1, A3.
  - eexists _, _, [(SIGTERM, _)]. split; [reflexivity|]. rewrite S3, L3, S1. split; [done|].
    apply (ended_in_time _ _ _ _ n b); [rewrite C1; lia| |done]. by apply (takes_later [StillAlive] _ p p2).
  - eexists _, _, [(SIGTERM, _)]. split; [reflexivity|]. rewrite S3, L3, S1. split; [done|].
    apply (ended_in_time _ _ _ _ n b); [rewrite C1; lia| |done]. by apply (takes_later [StillAlive] _ p p2).
Qed.

(** A process that is over as far as the program can know: its ending
    succeeded, or [waitpid] refused to tell. *)
Lemma ending_cases p r p' sent : ending p r p' sent → r = Ok tt ∨ ∃ err, r = Err (Pppd err) ∧ ∃ e, WaitError e ∈ answers p.
Proof.
  assert (∀ l a, takes (l ++ [a]) p p' → a ≠ NoChild → a ∈ answers p) as Hin.
  { intros l a [H|[_ H]] Hne; [rewrite H; set_solver|]. by apply app_inj_tail in H as [_ ->]. }
  intros [a H1 H2|t n a _ H1 H2|t t' n l a _ _ _ H1 H2].
  - destruct a; try done; [by left..| |by left|]; try (by left). right. eexists. split; [done|]. eexists. by apply (Hin []).
  - destruct a; try done; try (by left). right. eexists. split; [done|]. eexists. by eapply Hin.
  - destruct a; try done; try (by left). right. eexists. split; [done|]. eexists. rewrite app_assoc in H1. by eapply Hin.
Qed.

(** An entry that the wait is for. *)
Definition candidate (expected_addr : Ipv4Addr) (preferred_name : option str) (e : InterfaceAddress) : bool :=
  is_up e && matches_interface_name (interface_name e) preferred_name && bool_decide (socket_addr e = Some (Some expected_addr)).

Lemma find_up_spec addrs expected preferred :
  find_up addrs expected preferred =
    (λ e, {| name := interface_name e; address := expected |}) <$> head (filter (λ e, candidate expected preferred e = true) addrs).
Proof.
  induction addrs as [|e addrs IH]; [done|]. cbn [find_up].
  assert (candidate expected preferred e = is_up e && matches_interface_name (interface_name e) preferred &&
    bool_decide (socket_addr e = Some (Some expected))) as Hc by done.
  destruct (candidate expected preferred e) eqn:E; symmetry in Hc.
  - rewrite filter_cons_True by done. apply andb_true_iff in Hc as [[Hu Hm]%andb_true_iff Ha%bool_decide_eq_true].
    rewrite Hu, Hm, Ha. cbn [negb]. by rewrite decide_True.
  - rewrite filter_cons_False by (by rewrite E). rewrite <- IH.
    destruct (is_up e); cbn [negb andb] in *; [|done]. destruct (matches_interface_name _ _); cbn [negb andb] in *; [|done].
    apply bool_decide_eq_false in Hc. destruct (socket_addr e) as [[addr|]|]; [|done..]. rewrite decide_False; [done|congruence].
Qed.

Lemma wait_loop_ok fuel start expected preferred timeout interval w : 0 < interval →
  timeout < time (watch_clock w) - start + Z.of_nat fuel → (0 < fuel)%nat →
  ∃ r w', wait_loop fuel start expected preferred timeout interval w = (r, w') ∧
    match r with
    | Ok (Some i) => ∃ l addrs e, l ∈ looks w ∧ l = Some addrs ∧ e ∈ addrs ∧ candidate expected preferred e = true ∧
        i = {| name := interface_name e; address := expected |}
    | Ok None => timeout <= time (watch_clock w') - start
    | Err _ => None ∈ looks w
    | _ => False
    end.
Proof.
  intros Hint. revert w. induction fuel as [|fuel IH]; intros w Hf Hpos; [lia|]. clear Hpos. cbn [wait_loop].
  assert (∃ l w1, getifaddrs w = (l, w1) ∧ watch_clock w1 = watch_clock w ∧ (∀ x, x ∈ looks w1 → x ∈ looks w) ∧
    (l ∈ looks w ∨ l = Some [])) as (l & w1 & -> & C1 & I1 & Hl).
  { unfold getifaddrs. destruct (looks w) as [|l rest] eqn:E; eexists _, _; (split; [reflexivity|]); cbn;
      split_and!; auto; try (intros x; rewrite ?E; intros Hx; first [exact Hx|by right]). left. by left. }
  unfold find_up_ppp_interface. destruct l as [addrs|]; cbn [lift sbind].
  2: { eexists _, _. split; [reflexivity|]. by destruct Hl. }
  rewrite find_up_spec. destruct (head _) as [e|] eqn:Eh; cbn [fmap option_fmap option_map].
  - eexists _, _. split; [reflexivity|]. apply head_Some_elem_of, list_elem_of_filter in Eh as [Hc He].
    destruct Hl as [Hl|[= ->]]; [|by apply not_elem_of_nil in He]. by exists (Some addrs), addrs, e.
  - destruct (now w1) as [t w2] eqn:En. unfold now in En. destruct (instant_now (watch_clock w1)) as [u c] eqn:Ec.
    injection En as <- <-. apply instant_now_time in Ec as [H1 H2]. rewrite C1 in H1.
    destruct (Z.leb_spec timeout (u - start)).
    { eexists _, _. split; [reflexivity|]. cbn. lia. }
    pose proof (elapse_time interval c) as He.
    destruct (IH (w1 <| watch_clock := c |> <| watch_clock := sleep interval c |>)) as (r & w3 & Hrun & Hr);
      [unfold sleep; cbn; lia|lia|].
    exists r, w3. split; [exact Hrun|]. destruct r as [[i|]|e| |]; try done; [|by apply I1].
    destruct Hr as (l & addrs' & e & Hin & Hrest). exists l, addrs', e. split; [by apply I1|done].
Qed.

(** ** Properties *)


(** A process that ignores the first signal. *)
Definition stubborn : process :=
  {| answers := repeat StillAlive 52 ++ [Signaled]; signals := []; process_clock := {| time := 0; delays := [] |} |}.

Example terminate_demo :
  let '(r, p) := terminate_pppd stubborn in r = Ok tt ∧ signals p = [(SIGTERM, 0); (SIGKILL, 5000)].
Proof. vm_compute. split; reflexivity. Qed.


(** The wait for the interface ends, at the latest when its time is over,
    and finds the right one: an interface that is up, is called like a PPP
    interface or as preferred, and has the address that was negotiated. *)
Theorem wait_for_interface_finds expected preferred timeout interval w : 0 < interval → 0 <= timeout →
  ∃ r w', wait_for_up_ppp_interface expected preferred timeout interval w = (r, w') ∧
    match r with
    | Ok (Some i) => ∃ addrs e, Some addrs ∈ looks w ∧ e ∈ addrs ∧ candidate expected preferred e = true ∧
        i = {| name := interface_name e; address := expected |}
    | Ok None => time (watch_clock w) + timeout <= time (watch_clock w')
    | Err _ => None ∈ looks w
    | _ => False
    end.
Proof.
  intros Hi Ht. unfold wait_for_up_ppp_interface, now. destruct (instant_now (watch_clock w)) as [start c] eqn:E.
  apply instant_now_time in E as [H1 H2].
  destruct (wait_loop_ok (S (Z.to_nat timeout)) start expected preferred timeout interval (w <| watch_clock := c |>) Hi)
    as (r & w' & -> & Hr); [cbn; lia|lia|].
  exists r, w'. split; [done|]. destruct r as [[i|]|e| |]; try done; [|lia].
  destruct Hr as (l & addrs & e & Hin & -> & He & Hc & ->). by exists addrs, e.
Qed.

Definition demo_watch : watch :=
  {| looks := [Some [{| interface_name := "eth0"; is_up := true; socket_addr := Some (Some (Ipv4 10 0 0 42)) |}];
               Some [{| interface_name := "ppp0"; is_up := true; socket_addr := Some None |};
                     {| interface_name := "ppp0"; is_up := true; socket_addr := Some (Some (Ipv4 10 0 0 42)) |}]];
     watch_clock := {| time := 0; delays := [] |} |}.

Example wait_demo :
  fst (wait_for_up_ppp_interface (Ipv4 10 0 0 42) None 60000 200 demo_watch) =
    Ok (Some {| name := "ppp0"; address := Ipv4 10 0 0 42 |}).
Proof. vm_compute. reflexivity. Qed.

Lemma wait_for_interface_finds_witness :
  ∃ r w', wait_for_up_ppp_interface (Ipv4 10 0 0 42) None 60000 200 demo_watch = (r, w') ∧
    match r with
    | Ok (Some i) => ∃ addrs e, Some addrs ∈ looks demo_watch ∧ e ∈ addrs ∧ candidate (Ipv4 10 0 0 42) None e = true ∧
        i = {| name := interface_name e; address := Ipv4 10 0 0 42 |}
    | Ok None => 0 + 60000 <= time (watch_clock w')
    | Err _ => None ∈ looks demo_watch
    | _ => False
    end.
Proof. apply (wait_for_interface_finds (Ipv4 10 0 0 42) None 60000 200 demo_watch); lia. Defined.
