(* ===== verification/Saml.v ===== *)
(** * [auth/saml.rs]: the callback of a browser login

    The address the user is sent to, the request the browser makes when it
    comes back, and the little server that waits for it. *)

From S2P Require Import Prelude Stream RustStd Net Config Http Login.

#[local] Open Scope string_scope.
#[local] Open Scope list_scope.
#[local] Open Scope Z_scope.

Definition MAX_SAML_SESSION_ID_LENGTH : usize := 1024.

Inductive SamlRequestError :=
  BadMethodOrPath | MissingIdTerminator | EmptyId | TooLong | InvalidCharacter.

(** Its [Debug] form. *)
Definition debug_request_error (e : SamlRequestError) : str :=
  match e with
  | BadMethodOrPath => "BadMethodOrPath" | MissingIdTerminator => "MissingIdTerminator" | EmptyId => "EmptyId"
  | TooLong => "TooLong" | InvalidCharacter => "InvalidCharacter"
  end.

Definition authentication_url (config : Config) : str :=
  let realm := default "" (realm config) in
  let start := "https://" +:+ gateway_host config +:+ ":" +:+ print_uint (gateway_port config)
                 +:+ "/remote/saml/start?redirect=1" in
  if str_is_empty realm then start else start +:+ "&realm=" +:+ url_encode realm.

Definition REQUEST_HEAD : str := "GET /?id=".

Definition is_terminator (c : ascii) : bool :=
  Ascii.eqb c " "%char || Ascii.eqb c "&"%char || Ascii.eqb c carriage_return || Ascii.eqb c newline.

Definition is_id_char (c : ascii) : bool :=
  is_ascii_digit c || is_ascii_upper c || is_ascii_lower c || Ascii.eqb c "-"%char.

Definition parse_callback_request (request : str) : str + SamlRequestError :=
  match strip_prefix REQUEST_HEAD request with
  | None => inr BadMethodOrPath
  | Some rest =>
      match span_until is_terminator rest with
      | (_, EmptyString) => inr MissingIdTerminator
      | (id, _) =>
          if str_is_empty id then inr EmptyId else
          if str_len id >=? MAX_SAML_SESSION_ID_LENGTH then inr TooLong else
          if negb (all_chars is_id_char id) then inr InvalidCharacter else inl id
      end
  end.

Definition quote : str := String (ascii_of_u8 34) EmptyString.

Definition success_response_body : str :=
  "SAML session id received from Fortinet server. VPN will be established...<br>" +:+ crlf
  +:+ "You may close this browser tab now.<br>" +:+ crlf
  +:+ "<script>" +:+ crlf
  +:+ "window.setTimeout(() => { window.close(); }, 5000);" +:+ crlf
  +:+ "document.write(" +:+ quote +:+ "<br>This window will close automatically in 5 seconds." +:+ quote +:+ ");" +:+ crlf
  +:+ "</script>" +:+ crlf.

Definition failure_response_body : str :=
  "Invalid redirect response from Fortinet server. VPN could not be established.".

Definition status_response (user_message : str) : str * str :=
  let body := "<!DOCTYPE html>" +:+ crlf +:+ "<html><body>" +:+ crlf +:+ user_message +:+ "</body></html>" +:+ crlf in
  ("HTTP/1.1 200 OK" +:+ crlf +:+ "Content-Type: text/html" +:+ crlf +:+ "Content-Length: "
     +:+ print_uint (str_len body) +:+ crlf +:+ "Connection: close" +:+ crlf +:+ crlf, body).

Definition send_status_response (user_message : str) (s : connection) : result unit * connection :=
  let '(header, body) := status_response user_message in
  let! _ & s := on_writer (write_all (as_bytes header)) s in
  let! _ & s := on_writer (write_all (as_bytes body)) s in
  on_writer flush s.

Definition process_callback_stream (stream : TcpStream) : result str * TcpStream :=
  let! _ & stream := set_option stream in
  let! request & stream := tcp_read_waiting 1023 stream in
  match parse_callback_request (from_utf8_lossy request) with
  | inl id =>
      let! _ & stream := on_conn (send_status_response success_response_body) stream in (Ok id, stream)
  | inr err =>
      let! _ & stream := on_conn (send_status_response failure_response_body) stream in
      (Err (Auth ("invalid SAML callback request: " +:+ debug_request_error err)), stream)
  end.

(** The listener, the clock and the streams that were served. *)
Record waiting := { accepts : list accept_event; wait_clock : clock; served : list TcpStream }.
#[export] Instance waiting_eta : Eta waiting := λ w,
  {| accepts := accepts w; wait_clock := wait_clock w; served := served w |}.

Definition tick_now (w : waiting) : Z * waiting :=
  let '(t, c) := instant_now (wait_clock w) in (t, w <| wait_clock := c |>).

(** The inner loop: [Ok None] is a [break].  A listener whose script is over
    has no more connections. *)
Fixpoint wait_try (fuel : nat) (deadline : Z) (w : waiting) : result (option str) * waiting :=
  match fuel with
  | O => (Diverge, w)
  | S fuel =>
      let '(event, rest) :=
        match accepts w with [] => (AcceptError WouldBlock, []) | ev :: rest => (ev, rest) end in
      let w := w <| accepts := rest |> in
      match event with
      | Accepted stream _ =>
          let '(r, stream) := process_callback_stream stream in
          let w := w <| served := served w ++ [stream] |> in
          match r with
          | Ok id => (Ok (Some id), w)
          | Err _ => (Ok None, w)
          | Panic => (Panic, w)
          | Diverge => (Diverge, w)
          end
      | AcceptError WouldBlock =>
          let '(t, w) := tick_now w in
          if deadline <=? t then (Ok None, w)
          else wait_try fuel deadline (w <| wait_clock := sleep 100 (wait_clock w) |>)
      | AcceptError k =>
          (Err (Network ("failed to accept SAML callback connection: " +:+ io_text (io_error k))), w)
      end
  end.

(** A turn of the inner loop that goes on sleeps for 100 milliseconds. *)
Definition wait_fuel (timeout_per_try : Z) : nat := S (Z.to_nat timeout_per_try).

Fixpoint wait_for_session_id_on_listener (max_tries : nat) (timeout_per_try : Z) (w : waiting)
    : result str * waiting :=
  match max_tries with
  | O => (Err (Auth "failed to retrieve SAML authentication token"), w)
  | S max_tries =>
      let '(t, w) := tick_now w in
      let! found & w := wait_try (wait_fuel timeout_per_try) (t + timeout_per_try) w in
      match found with
      | Some id => (Ok id, w)
      | None => wait_for_session_id_on_listener max_tries timeout_per_try w
      end
  end.

(** [bind] is the outcome of binding and configuring the listener. *)
Definition wait_for_session_id (config : Config) (bind : u16 → result (list accept_event)) (c : clock)
    : result (str * waiting) :=
  let* port := ok_or (saml_port config) (Auth "SAML callback port is not configured") in
  let* accepts := bind port in
  match wait_for_session_id_on_listener 5 10000 {| accepts := accepts; wait_clock := c; served := [] |} with
  | (Ok id, w) => Ok (id, w)
  | (Err e, _) => Err e
  | (Panic, _) => Panic
  | (Diverge, _) => Diverge
  end.

(** ** Specifications *)

Lemma is_terminator_not_id c : is_id_char c = true → is_terminator c = false.
Proof.
  intros H. destruct (is_terminator c) eqn:Ht; [|done]. exfalso. unfold is_terminator in Ht.
  rewrite !orb_true_iff, !Ascii.eqb_eq in Ht.
  destruct Ht as [[[->| ->]| ->]| ->]; vm_compute in H; discriminate.
Qed.

Lemma valid_id_chars id : is_valid_saml_session_id id = negb (str_is_empty id) && all_chars is_id_char id.
Proof. done. Qed.

(** What a request has to be for its identifier to be taken. *)
Lemma parse_callback_request_spec request id :
  parse_callback_request request = inl id ↔
    ∃ c rest, request = REQUEST_HEAD +:+ id +:+ String c rest ∧ is_terminator c = true ∧
      is_valid_saml_session_id id = true ∧ str_len id < MAX_SAML_SESSION_ID_LENGTH.
Proof.
  rewrite valid_id_chars. unfold parse_callback_request. split.
  - destruct (strip_prefix REQUEST_HEAD request) as [rest|] eqn:Ep; [|done].
    assert (request = REQUEST_HEAD +:+ rest) as ->.
    { clear -Ep. revert request Ep. generalize REQUEST_HEAD. intros p. induction p as [|a p IH]; intros s; cbn.
      - by intros [= ->].
      - destruct s as [|b s]; [done|]. destruct (Ascii.eqb_spec a b) as [->|]; [|done]. intros ->%IH. done. }
    pose proof (span_until_spec is_terminator rest) as [Hs _].
    destruct (span_until is_terminator rest) as [a [|c b]] eqn:E; [done|]. cbn [fst snd] in Hs.
    destruct (str_is_empty a) eqn:Ee; [done|]. destruct (Z.geb_spec (str_len a) MAX_SAML_SESSION_ID_LENGTH); [done|].
    destruct (all_chars is_id_char a) eqn:Ea; cbn [negb]; [|done]. intros [= <-].
    exists c, b. rewrite Hs, Ee. split; [done|]. split; [|by split]. clear -E. revert a E.
    induction rest as [|d rest IH]; intros a; cbn; [done|]. destruct (is_terminator d) eqn:Ed; [by intros [= <- <- <-]|].
    destruct (span_until is_terminator rest) as [x y]. intros [= <- ->]. by eapply IH.
  - intros (c & rest & -> & Hc & [He Ha]%andb_true_iff & Hl). rewrite strip_prefix_app.
    rewrite Portal.span_until_stop; [|by eapply all_chars_impl, Ha; intros d Hd; by rewrite is_terminator_not_id|done].
    apply negb_true_iff in He. rewrite He. rewrite Z.geb_leb, (proj2 (Z.leb_gt _ _) Hl). by rewrite Ha.
Qed.

Definition answer_bytes (message : str) : bytes :=
  as_bytes (status_response message).1 ++ as_bytes (status_response message).2.

Lemma send_status_response_cases message s :
  returns (fst (send_status_response message s)) ∧ conn_r (snd (send_status_response message s)) = conn_r s ∧
  (fst (send_status_response message s) = Ok tt →
    written (conn_w (snd (send_status_response message s))) = written (conn_w s) ++ answer_bytes message).
Proof.
  unfold send_status_response, answer_bytes. destruct (status_response message) as [header body]. cbn [fst snd].
  unfold on_writer. pose proof (returns_write_all (as_bytes header) (conn_w s)) as H1.
  pose proof (write_all_ok (as_bytes header) (conn_w s)) as W1.
  destruct (write_all (as_bytes header) (conn_w s)) as [[[]|e| |] w1]; cbn [sbind fst snd conn_r conn_w] in *; try done.
  pose proof (returns_write_all (as_bytes body) w1) as H2. pose proof (write_all_ok (as_bytes body) w1) as W2.
  destruct (write_all (as_bytes body) w1) as [[[]|e| |] w2]; cbn [sbind fst snd conn_r conn_w] in *; try done.
  pose proof (returns_flush w2) as H3. pose proof (flush_written w2) as W3.
  destruct (flush w2) as [r w3]. cbn [fst snd conn_r conn_w] in *. split; [done|]. split; [done|]. intros _.
  by rewrite W3, (W2 w2 eq_refl), (W1 w1 eq_refl), app_assoc.
Qed.

(** An outcome that is only missing if [stuck]. *)
Definition returns_unless {A} (stuck : Prop) (r : result A) : Prop :=
  match r with Panic => False | Diverge => stuck | _ => True end.

(** A callback is served in one exchange, if there is one. *)
Lemma process_callback_stream_ok t : ∃ r t', process_callback_stream t = (r, t') ∧ returns_unless (silent t = true) r ∧
  (silent t = true → option_errors t = [] → r = Diverge) ∧
  ∀ id, r = Ok id → is_valid_saml_session_id id = true ∧ str_len id < MAX_SAML_SESSION_ID_LENGTH ∧
    written (conn_w (conn t')) = written (conn_w (conn t)) ++ answer_bytes success_response_body.
Proof.
  unfold process_callback_stream.
  assert (returns (fst (set_option t)) ∧ conn (snd (set_option t)) = conn t ∧ silent (snd (set_option t)) = silent t ∧
    (option_errors t = [] → fst (set_option t) = Ok tt)) as (Hr & Hc & Hs & Ho).
  { unfold set_option. by destruct (option_errors t) as [|[] ?]. }
  destruct (set_option t) as [[[]|e| |] t1]; cbn [sbind fst snd] in *; try done.
  2: { eexists _, _. split; [reflexivity|]. split; [done|]. split; [by intros _ H%Ho|done]. }
  unfold tcp_read_waiting. rewrite Hs. destruct (silent t) eqn:Et; [by eexists _, _; split_and!|].
  pose proof (tcp_read_cases 1023 t1) as Hcase. pose proof (tcp_read_conn 1023 t1) as (Hw & _).
  destruct (tcp_read 1023 t1) as [[request|e| |] t2]; cbn [sbind fst snd] in *; try done.
  2: { eexists _, _. by split_and!. }
  destruct (parse_callback_request (from_utf8_lossy request)) as [id|err] eqn:Ep; unfold on_conn.
  - destruct (send_status_response_cases success_response_body (conn t2)) as (H1 & _ & H3).
    destruct (send_status_response success_response_body (conn t2)) as [[[]|e| |] k]; cbn [sbind fst snd] in *; try done.
    + eexists _, _. split; [reflexivity|]. split; [done|]. split; [done|]. intros ? [= <-].
      apply parse_callback_request_spec in Ep as (_ & _ & _ & _ & Hv & Hl). split; [done|]. split; [done|]. cbn.
      by rewrite (H3 eq_refl), Hw, Hc.
    + eexists _, _. by split_and!.
  - destruct (send_status_response_cases failure_response_body (conn t2)) as (H1 & _ & _).
    destruct (send_status_response failure_response_body (conn t2)) as [[[]|e| |] k]; cbn [sbind fst snd] in *; try done;
      (eexists _, _; by split_and!).
Qed.

(** What a successful wait leaves: the last stream it served got the answer. *)
Definition answered (id : str) (new : list TcpStream) : Prop :=
  is_valid_saml_session_id id = true ∧ str_len id < MAX_SAML_SESSION_ID_LENGTH ∧
  ∃ streams t before, new = streams ++ [t] ∧
    written (conn_w (conn t)) = before ++ answer_bytes success_response_body.

Lemma tick_now_ok w t w' : tick_now w = (t, w') →
  time (wait_clock w) <= t ∧ t = time (wait_clock w') ∧ served w' = served w ∧ accepts w' = accepts w.
Proof.
  unfold tick_now. destruct (instant_now (wait_clock w)) as [u c] eqn:E. intros [= <- <-].
  apply instant_now_time in E as [H1 H2]. by split_and!.
Qed.

(** A client that connects, sends nothing and does not hang up. *)
Definition holds_up (ev : accept_event) : Prop :=
  match ev with Accepted stream _ => silent stream = true | AcceptError _ => False end.

(** What is left to accept behind the next event. *)
Definition others (l : list accept_event) : list accept_event := match l with [] => [] | _ :: l => l end.

(** One try ends before its fuel does, unless a client holds it up. *)
Lemma wait_try_ok fuel deadline w : deadline < time (wait_clock w) + Z.of_nat fuel → (0 < fuel)%nat →
  ∃ r w' new, wait_try fuel deadline w = (r, w') ∧ returns_unless (Exists holds_up (accepts w)) r ∧
    (∃ taken, accepts w = taken ++ accepts w') ∧ served w' = served w ++ new ∧ (length new <= 1)%nat ∧
    ∀ id, r = Ok (Some id) → answered id new.
Proof.
  revert w. induction fuel as [|fuel IH]; intros w Hf Hpos; [lia|]. cbn [wait_try]. clear Hpos.
  assert (∀ w', served w' = served w → served w' = served w ++ []) as Hs0 by (intros w' ->; by rewrite app_nil_r).
  destruct (accepts w) as [|[stream addr|k] rest] eqn:Ea.
  2: { destruct (process_callback_stream_ok stream) as (r & t' & -> & Hr & _ & Hok). cbn.
    destruct r as [id|e| |]; try done; eexists _, _, [t']; (split; [reflexivity|]); (split; [cbn; auto|]);
      (split; [by exists [Accepted stream addr]|]); (split; [done|]); (split; [done|]); [|done..].
    intros ? [= <-]. destruct (Hok id eq_refl) as (Hv & Hl & Hw). split; [done|]. split; [done|]. by eexists [], t', _. }
  (* without a connection: a pause, or the end of the try *)
  all: assert (∀ w', accepts w' = others (accepts w) → ∃ taken, accepts w = taken ++ accepts w') as Hsuf
    by (intros w' ->; destruct (accepts w) as [|ev l]; [by exists []|by exists [ev]]).
  all: rewrite Ea in Hsuf; cbn [others] in Hsuf.
  2: destruct k; try (eexists _, _, []; split; [reflexivity|]; split; [done|]; split; [by apply Hsuf|];
       split; [by apply Hs0|]; split; [cbn; lia|]; done).
  all: destruct (tick_now _) as [t w1] eqn:Et; apply tick_now_ok in Et as (Ht & Htw & Hs & Hacc); cbn in Ht, Hs, Hacc;
    destruct (Z.leb_spec deadline t);
    [eexists _, _, []; split; [reflexivity|]; split; [done|]; split; [by apply Hsuf|]; split; [by apply Hs0|];
     split; [cbn; lia|]; done|].
  all: pose proof (elapse_time 100 (wait_clock w1)) as He;
    destruct (IH (w1 <| wait_clock := sleep 100 (wait_clock w1) |>))
      as (r & w' & new & Hrun & Hr & (taken & Htk) & Hs' & Hn & Hok); [unfold sleep; cbn; lia|lia|];
    exists r, w', new; split; [exact Hrun|]; cbn in Hs', Hr, Htk; rewrite Hacc in Hr, Htk; rewrite Hs', Hs.
  - split_and!; try done. by exists taken.
  - split_and!; try done; [|exists (AcceptError WouldBlock :: taken); cbn; by rewrite Htk].
    destruct r; try done. by apply Exists_cons_tl.
Qed.

(** What a wait of several tries comes to. *)
Definition waited (max_tries : nat) (w : waiting) (out : result str * waiting) : Prop :=
  returns_unless (Exists holds_up (accepts w)) (fst out) ∧
  ∃ new, served (snd out) = served w ++ new ∧ (length new <= max_tries)%nat ∧ ∀ id, fst out = Ok id → answered id new.

Lemma wait_for_session_id_on_listener_ok max_tries timeout w : 0 <= timeout →
  waited max_tries w (wait_for_session_id_on_listener max_tries timeout w).
Proof.
  intros Ht0. revert w. induction max_tries as [|n IH]; intros w; cbn [wait_for_session_id_on_listener].
  { split; [done|]. exists []. by rewrite app_nil_r. }
  destruct (tick_now w) as [t w1] eqn:Et. apply tick_now_ok in Et as (_ & Htw & Hs & Hacc).
  destruct (wait_try_ok (wait_fuel timeout) (t + timeout) w1) as (r & w2 & new & -> & Hr & (taken & Htk) & Hs2 & Hn & Hok);
    [unfold wait_fuel; lia|unfold wait_fuel; lia|]. rewrite Hacc in Hr, Htk.
  destruct r as [[id|]|e| |]; cbn [sbind]; try done.
  - split; [done|]. exists new. cbn. rewrite Hs2, Hs. split; [done|]. split; [lia|]. intros ? [= <-]. by apply Hok.
  - destruct (IH w2) as (Hr3 & more & Hs3 & Hn3 & Hok3). split.
    { destruct (fst _); try done. cbn in *. rewrite Htk. apply Exists_app. by right. }
    exists (new ++ more). rewrite Hs3, Hs2, Hs, app_assoc. split; [done|].
    split; [rewrite length_app; lia|]. intros id E. destruct (Hok3 id E) as (Hv & Hl & streams & t' & was & -> & Hw).
    split; [done|]. split; [done|]. exists (new ++ streams), t', was. by rewrite app_assoc.
  - split; [done|]. exists new. cbn. rewrite Hs2, Hs. split; [done|]. split; [lia|]. done.
  - split; [done|]. exists new. cbn. rewrite Hs2, Hs. split; [done|]. split; [lia|]. done.
Qed.

(** The stream an accepted connection is served on has no time-out. *)
Lemma held_up max_tries timeout w stream addr rest :
  accepts w = Accepted stream addr :: rest → silent stream = true → option_errors stream = [] →
  fst (wait_for_session_id_on_listener (S max_tries) timeout w) = Diverge.
Proof.
  intros Ea Hs Ho. cbn [wait_for_session_id_on_listener].
  destruct (tick_now w) as [t w1] eqn:Et. apply tick_now_ok in Et as (_ & _ & _ & Hacc).
  unfold wait_fuel. cbn [wait_try]. rewrite Hacc, Ea.
  destruct (process_callback_stream_ok stream) as (r & t' & -> & _ & Hd & _). by rewrite (Hd Hs Ho).
Qed.

(** ** Claims *)

(** C35: The callback server takes an identifier exactly from a request whose first
    line is [GET /?id=<id>] ended by a blank, an ampersand or a line end, with
    [id] of the form the login accepts and below 1024 bytes. *)
Theorem callback_request_accepted request id :
  parse_callback_request request = inl id ↔
    ∃ c rest, request = REQUEST_HEAD +:+ id +:+ String c rest ∧ is_terminator c = true ∧
      is_valid_saml_session_id id = true ∧ str_len id < MAX_SAML_SESSION_ID_LENGTH.
Proof. apply parse_callback_request_spec. Qed.

(** C36: The callback server serves at most [max_tries] streams, never panics, and
    an identifier it returns is one the login takes, whose browser was told so
    in full.  It ends, whatever the clock does, unless a client among those
    that connect sends nothing and does not hang up; and when the first to
    connect is such a client (and the option is set on its stream), it waits
    for ever: the stream has no time-out. *)
Theorem callback_wait_ends max_tries timeout w : 0 <= timeout →
  waited max_tries w (wait_for_session_id_on_listener max_tries timeout w) ∧
  (∀ stream addr rest, accepts w = Accepted stream addr :: rest → silent stream = true →
    option_errors stream = [] → (0 < max_tries)%nat →
    fst (wait_for_session_id_on_listener max_tries timeout w) = Diverge).
Proof.
  intros Ht. split; [by apply wait_for_session_id_on_listener_ok|].
  intros stream addr rest Ea Hs Ho Hm. destruct max_tries as [|n]; [lia|]. by eapply held_up.
Qed.

Definition browser (request : str) : TcpStream :=
  stream_of (cursor (as_bytes request)) (vec_writer []).

Definition demo_listener : list accept_event :=
  [AcceptError WouldBlock; Accepted (browser "GET /favicon.ico HTTP/1.1") (SocketAddrV4 (Ipv4 127 0 0 1) 4000);
   AcceptError WouldBlock; Accepted (browser "GET /?id=abc-123 HTTP/1.1") (SocketAddrV4 (Ipv4 127 0 0 1) 4001)].

Definition demo_waiting : waiting :=
  {| accepts := demo_listener; wait_clock := {| time := 0; delays := [] |}; served := [] |}.

Example callback_wait_demo : (wait_for_session_id_on_listener 5 10000 demo_waiting).1 = Ok "abc-123".
Proof. vm_compute. reflexivity. Qed.

Example demo_ends : ¬ Exists holds_up demo_listener.
Proof. intros H. repeat (apply Exists_cons in H as [H|H]; [done|]). by apply Exists_nil in H. Qed.

(** A client that connects and stays. *)
Definition idle : TcpStream := stream_of [] (vec_writer []) <| stays_open := true |>.
Definition idle_waiting : waiting :=
  {| accepts := [Accepted idle (SocketAddrV4 (Ipv4 127 0 0 1) 4000)]; wait_clock := {| time := 0; delays := [] |};
     served := [] |}.

Lemma callback_wait_ends_witness :
  waited 5 demo_waiting (wait_for_session_id_on_listener 5 10000 demo_waiting) ∧
  fst (wait_for_session_id_on_listener 5 10000 idle_waiting) = Diverge.
Proof.
  split; [apply (callback_wait_ends 5 10000 demo_waiting); lia|].
  by eapply (callback_wait_ends 5 10000 idle_waiting); [lia|reflexivity|reflexivity|reflexivity|lia].
Defined.
