(* ===== verification/Main.v ===== *)
(** * [main.rs]: the program

    How a configuration is completed before anything is connected, how the
    tunnel mode puts the components together and takes them apart again, and
    how often either mode is tried.  The two modes are run on a host whose
    answers (connections, commands, processes, interfaces, poll events) are the
    scripts of the components. *)

From S2P Require Import Prelude Stream RustStd Packet Io Config Http Portal Login Forward NetPlan NetApply Net Tls Pinentry Saml.
From S2P Require Import Session Pppd.

#[local] Open Scope string_scope.
#[local] Open Scope list_scope.
#[local] Open Scope Z_scope.

(** ** Configuration *)

Section Configure.
Context (read_secret : option str → str → str → result str).

(** [read_secret] of [main.rs]; the parameter is the one of [user_input.rs]. *)
Definition read_config_secret (config : Config) (purpose prompt : str) : result str :=
  let hint := secret_hint (username config) (realm config) (gateway_host config) purpose in
  read_secret (pinentry config) hint prompt.

Definition validate_and_complete_auth_config (config : Config) : result Config :=
  if str_is_empty (username config) && bool_decide (cookie config = None) && bool_decide (saml_port config = None)
     && bool_decide (user_cert config = None)
  then Err (Auth "Specify a username.")
  else if bool_decide (password config = None) && negb (str_is_empty (username config))
          && bool_decide (cookie config = None) && bool_decide (saml_port config = None)
  then
    let* secret := read_config_secret config "password" "VPN account password: " in
    Ok (config <| password := Some secret |>)
  else Ok config.

(** [trim_matches] of the line ends. *)
Fixpoint trim_start_if (p : ascii → bool) (s : str) : str :=
  match s with
  | String c rest => if p c then trim_start_if p rest else s
  | EmptyString => EmptyString
  end.

Definition apply_stdin_cookie (stdin : result str) (config : Config) : result Config :=
  if negb (cookie_on_stdin config) || negb (bool_decide (cookie config = None)) then Ok config else
  let* text := stdin in
  let text := trim_end_if is_line_end (trim_start_if is_line_end text) in
  if str_is_empty text
  then Err (Auth "--cookie-on-stdin was set but stdin did not contain a cookie")
  else Ok (config <| cookie := Some (svpn_cookie_with_prefix text) |>).

Definition require_root (euid : u32) : result unit :=
  if euid =? 0 then Ok tt
  else Err (Network "openfortivpn must be run as root to start pppd and configure routes/DNS").

(** On a system that is not Unix. *)
Definition require_root_elsewhere : result unit := Ok tt.
Definition run_tunnel_elsewhere {World} (config : Config) (w : World) : result unit * World :=
  (Err (Network "system VPN tunnel mode is only supported on Unix; use --proxy on this platform"), w).

(** [run], up to the handler of Ctrl-C; [None] when only the version was asked
    for.  [bind] and [c] are the listener and the clock of the callback server. *)
Definition complete (read_to_string : str → result str) (stdin : result str) (euid : u32)
    (bind : u16 → result (list accept_event)) (c : clock) (cli : Cli) : result (option Config) :=
  if cli_version cli then Ok None else
  let* config := from_sources read_to_string cli in
  let* config := apply_stdin_cookie stdin config in
  if str_is_empty (gateway_host config) then Err (Auth "Specify a valid host:port couple.") else
  let* config := validate_and_complete_auth_config config in
  let* _ := if bool_decide (proxy config = None) then require_root euid else Ok tt in
  if bool_decide (saml_port config = None) then Ok (Some config)
  else
    let* '(id, _) := wait_for_session_id config bind c in
    if str_is_empty id then Err (Auth "failed to receive SAML session id")
    else Ok (Some (config <| saml_session_id := Some id |>)).

(** [install_ctrlc_handler]: [set_handler] is what the library answers. *)
Definition install_ctrlc_handler (set_handler : option str) : result unit :=
  match set_handler with
  | None => Ok tt
  | Some err => Err (Network ("failed to install Ctrl-C handler: " +:+ err))
  end.

(** [run], up to [run_with_persistence]. *)
Definition configure (read_to_string : str → result str) (stdin : result str) (euid : u32)
    (bind : u16 → result (list accept_event)) (c : clock) (set_handler : option str) (cli : Cli)
    : result (option Config) :=
  let* config := complete read_to_string stdin euid bind c cli in
  match config with
  | None => Ok None
  | Some config => let* _ := install_ctrlc_handler set_handler in Ok (Some config)
  end.
End Configure.

(** ** Persistence *)

Section Persistence.
(** The two modes, a look at the stop request and a second of sleep, on
    whatever the world is. *)
Context {World : Type} (run_proxy run_tunnel : Config → World → result unit * World)
  (stop_requested : World → bool * World) (sleep_second : World → World).

(** The world, how often a mode was run and how many seconds were slept. *)
Record persistence := { world : World; attempts : nat; seconds : nat }.

Definition stopped (s : persistence) : bool * persistence :=
  let '(stop, w) := stop_requested (world s) in
  (stop, {| world := w; attempts := attempts s; seconds := seconds s |}).

Definition run_mode (config : Config) (s : persistence) : result unit * persistence :=
  let '(r, w) := (if bool_decide (proxy config = None) then run_tunnel else run_proxy) config (world s) in
  (r, {| world := w; attempts := S (attempts s); seconds := seconds s |}).

(** The [for] loop over the seconds: was there a request to stop? *)
Fixpoint wait_interval (interval : nat) (s : persistence) : bool * persistence :=
  match interval with
  | O => (false, s)
  | S interval =>
      let '(stop, s) := stopped s in
      if stop then (true, s)
      else wait_interval interval
             {| world := sleep_second (world s); attempts := attempts s; seconds := S (seconds s) |}
  end.

Definition reconnect_interval (config : Config) : u32 := default 0 (reconnect_delay config).

Definition u32_succ (n : u32) : result u32 := if n <? 4294967295 then Ok (n + 1) else Panic.

Fixpoint persist (fuel : nat) (config : Config) (reconnect_attempts : u32) (s : persistence)
    : result unit * persistence :=
  match fuel with
  | O => (Diverge, s)
  | S fuel =>
      let '(result, s) := run_mode config s in
      match result with
      | Panic => (Panic, s)
      | Diverge => (Diverge, s)
      | _ =>
          let '(stop, s) := stopped s in
          if stop || (max_reconnects config =? 0) then (result, s)
          else if max_reconnects config <=? reconnect_attempts then (result, s)
          else
            let! reconnect_attempts & s := lift (u32_succ reconnect_attempts) s in
            let '(stop, s) := wait_interval (Z.to_nat (reconnect_interval config)) s in
            if stop then (result, s) else persist fuel config reconnect_attempts s
      end
  end.

Definition run_with_persistence (config : Config) (s : persistence) : result unit * persistence :=
  persist (S (Z.to_nat (max_reconnects config))) config 0 s.

(** A run of either mode. *)
Definition mode (config : Config) : World → result unit * World :=
  (if bool_decide (proxy config = None) then run_tunnel else run_proxy) config.

Lemma wait_interval_ok n s : ∃ stop s', wait_interval n s = (stop, s') ∧ attempts s' = attempts s ∧
  (seconds s <= seconds s' <= seconds s + n)%nat ∧ (stop = true → ∃ w, fst (stop_requested w) = true).
Proof.
  revert s. induction n as [|n IH]; intros s; cbn [wait_interval].
  { exists false, s. split_and!; try done; lia. }
  unfold stopped. destruct (stop_requested (world s)) as [[] w] eqn:E.
  - eexists _, _. split; [reflexivity|]. cbn. split_and!; try done; try lia. intros _. exists (world s). by rewrite E.
  - cbn [world attempts seconds].
    destruct (IH {| world := sleep_second w; attempts := attempts s; seconds := S (seconds s) |}) as (stop & s' & -> & H1 & H2 & H3).
    cbn in H1, H2. exists stop, s'. split_and!; try done; lia.
Qed.

Lemma persist_ok fuel config n s :
  (∀ w, returns (fst (mode config w))) → 0 <= n <= max_reconnects config → max_reconnects config < 2 ^ 32 →
  max_reconnects config - n < Z.of_nat fuel →
  let left := Z.to_nat (max_reconnects config - n) in
  ∃ r s', persist fuel config n s = (r, s') ∧ (∃ w, r = fst (mode config w)) ∧
    (attempts s < attempts s' <= attempts s + left + 1)%nat ∧
    (seconds s' <= seconds s + left * Z.to_nat (reconnect_interval config))%nat ∧
    ((attempts s' = attempts s + left + 1)%nat ∨ ∃ w, fst (stop_requested w) = true).
Proof.
  intros Hret. revert n s. induction fuel as [|fuel IH]; intros n s Hn Hm Hf left; [lia|]. cbn [persist].
  unfold run_mode. fold (mode config). destruct (mode config (world s)) as [r w] eqn:Er.
  assert (returns r ∧ ∃ w, r = fst (mode config w)) as [Hr Hw].
  { split; [specialize (Hret (world s)); by rewrite Er in Hret|]. exists (world s). by rewrite Er. }
  unfold stopped. cbn [world attempts seconds]. destruct (stop_requested w) as [stop w'] eqn:Es.
  assert (∀ s' : persistence, attempts s' = S (attempts s) → seconds s' = seconds s →
    (left = 0%nat ∨ stop = true) →
    (attempts s < attempts s' <= attempts s + left + 1)%nat ∧
    (seconds s' <= seconds s + left * Z.to_nat (reconnect_interval config))%nat ∧
    ((attempts s' = attempts s + left + 1)%nat ∨ ∃ w, fst (stop_requested w) = true)) as Hdone.
  { intros s' H1 H2 H3. split_and!; try lia. destruct H3 as [H3|H3]; [left; lia|right]. exists w. by rewrite Es. }
  set (s1 := {| world := w'; attempts := S (attempts s); seconds := seconds s |}).
  assert (∃ r' s', (if stop || (max_reconnects config =? 0) then (r, s1)
    else if max_reconnects config <=? n then (r, s1)
    else let! reconnect_attempts & s := lift (u32_succ n) s1 in
      let '(stop, s) := wait_interval (Z.to_nat (reconnect_interval config)) s in
      if stop then (r, s) else persist fuel config reconnect_attempts s) = (r', s') ∧
    (∃ w, r' = fst (mode config w)) ∧
    (attempts s < attempts s' <= attempts s + left + 1)%nat ∧
    (seconds s' <= seconds s + left * Z.to_nat (reconnect_interval config))%nat ∧
    ((attempts s' = attempts s + left + 1)%nat ∨ ∃ w, fst (stop_requested w) = true)) as (r' & s' & Hrun & Hrest).
  - destruct stop; cbn [orb].
    { exists r, s1. split; [done|]. split; [done|]. apply Hdone; auto. }
    destruct (Z.eqb_spec (max_reconnects config) 0) as [H0|].
    { exists r, s1. split; [done|]. split; [done|]. apply Hdone; auto. left. lia. }
    destruct (Z.leb_spec (max_reconnects config) n).
    { exists r, s1. split; [done|]. split; [done|]. apply Hdone; auto. left. lia. }
    unfold u32_succ. destruct (Z.ltb_spec n 4294967295); [|lia]. cbn [lift sbind].
    destruct (wait_interval_ok (Z.to_nat (reconnect_interval config)) s1) as (stop & s2 & -> & W1 & W2 & W3).
    cbn in W1, W2. destruct stop.
    + exists r, s2. split; [done|]. split; [done|]. split_and!; try lia; [|by right; apply W3].
      assert (1 <= left)%nat by lia. nia.
    + destruct (IH (n + 1) s2) as (r' & s' & Hrun & H1 & H2 & H3 & H4); [lia|lia|lia|].
      assert (Z.to_nat (max_reconnects config - (n + 1)) = (left - 1)%nat) as E by lia. rewrite E in H2, H3, H4.
      exists r', s'. split; [exact Hrun|]. split; [done|]. split_and!; try lia; [nia|]. destruct H4; [left; lia|by right].
  - exists r', s'. split; [|exact Hrest]. rewrite <- Hrun. by destruct r.
Qed.

(** What every attempt keeps, holds when the attempts are over. *)
Section Keeps.
Context (I : World → Prop).
Hypothesis mode_keeps : ∀ config w, I w → keeps I (mode config w).
Hypothesis look_keeps : ∀ w, I w → I (snd (stop_requested w)).
Hypothesis sleep_keeps : ∀ w, I w → I (sleep_second w).

Lemma stopped_keeps s : I (world s) → I (world (snd (stopped s))).
Proof. unfold stopped. intros H%look_keeps. by destruct (stop_requested (world s)). Qed.

Lemma wait_interval_keeps n s : I (world s) → I (world (snd (wait_interval n s))).
Proof.
  revert s. induction n as [|n IH]; intros s H; cbn [wait_interval]; [done|]. apply stopped_keeps in H.
  destruct (stopped s) as [[] s1]; cbn [snd] in *; [done|]. by apply IH, sleep_keeps.
Qed.

Lemma persist_keeps fuel config n s : I (world s) → keeps (λ s, I (world s)) (persist fuel config n s).
Proof.
  revert n s. induction fuel as [|fuel IH]; intros n s H; cbn [persist]; [by apply keeps_now|].
  apply (mode_keeps config) in H. unfold run_mode. fold (mode config).
  destruct (mode config (world s)) as [r w]. unfold keeps in H. cbn [fst snd] in H.
  set (s1 := {| world := w; attempts := S (attempts s); seconds := seconds s |}).
  assert (returns r → keeps (λ s, I (world s))
    (let '(stop, s) := stopped s1 in
     if stop || (max_reconnects config =? 0) then (r, s)
     else if max_reconnects config <=? n then (r, s)
     else
       let! n & s := lift (u32_succ n) s in
       let '(stop, s) := wait_interval (Z.to_nat (reconnect_interval config)) s in
       if stop then (r, s) else persist fuel config n s)) as Hgo; [|by destruct r; [apply Hgo..|intros []|intros []]].
  intros Hr. specialize (H Hr). pose proof (stopped_keeps s1 H) as H2. destruct (stopped s1) as [stop s2]. cbn [snd] in H2.
  destruct (_ || _); [by apply keeps_now|]. destruct (_ <=? _); [by apply keeps_now|].
  unfold u32_succ. destruct (n <? _); [|by apply keeps_now]. cbn [lift sbind].
  pose proof (wait_interval_keeps (Z.to_nat (reconnect_interval config)) s2 H2) as H3.
  destruct (wait_interval _ s2) as [stop' s3]. destruct stop'; [by apply keeps_now|]. by apply IH.
Qed.

Lemma run_with_persistence_keeps config s : I (world s) → keeps (λ s, I (world s)) (run_with_persistence config s).
Proof. apply persist_keeps. Qed.
End Keeps.
End Persistence.

(** ** The tunnel mode *)

Definition vpn_config_interface_addr (vpn_config : VpnConfigXml) : option Ipv4Addr :=
  addr ← match assigned_ip vpn_config with Some addr => Some addr | None => gateway vpn_config end;
  parse_ipv4 addr.

Definition tunnel_endpoint_ipv4 (addr : SocketAddr) : option Ipv4Addr :=
  match addr with SocketAddrV4 addr _ => Some addr | SocketAddrV6 _ _ _ => None end.

Definition describe_network_action (action : NetworkAction) : str :=
  match action with
  | DropWrongTunnelRoute _ endpoint interface =>
      "drop wrong route to VPN endpoint " +:+ print_ipv4 endpoint +:+ " via " +:+ interface
  | ProtectTunnelRoute _ endpoint => "protect route to VPN endpoint " +:+ print_ipv4 endpoint
  | RunCommand program args => program +:+ " " +:+ str_join " " args
  | ReplaceDefaultRoute _ interface => "replace default route via " +:+ interface
  | ConfigureDns _ interface servers search_domain =>
      str_join " "
        (("configure DNS on " +:+ interface)
          :: match servers with [] => [] | _ => ["servers=" +:+ str_join "," servers] end
          ++ match search_domain with Some domain => ["search=" +:+ domain] | None => [] end)
  end.

Definition build_ppp_backend_command (config : Config) : PppdCommand :=
  match ppp_system config with
  | Some _ => build_ppp_command config DEFAULT_PPP_PATH
  | None => build_pppd_command config DEFAULT_PPPD_PATH
  end.

(** What the mode acts on: [spawned] are the PPP processes that were started,
    [processes] those that were ended, as they were left. *)
Record TunnelHost := {
  dialing : dialer;
  network_host : NetApply.host;
  interfaces : watch;
  spawned : list process;
  processes : list process;
}.

#[export] Instance TunnelHost_eta : Eta TunnelHost := λ w,
  {| dialing := dialing w; network_host := network_host w; interfaces := interfaces w; spawned := spawned w;
     processes := processes w |}.

Definition apply_network_after_interface_up (config : Config) (vpn_config : VpnConfigXml) (platform : Platform)
    (ipcp_addr : Ipv4Addr) (preferred_interface : option str) (tunnel_endpoint : option Ipv4Addr) (w : TunnelHost)
    : result (option AppliedNetworkPlan) * TunnelHost :=
  let '(r, i) := wait_for_up_ppp_interface ipcp_addr preferred_interface 60000 200 (interfaces w) in
  let w := w <| interfaces := i |> in
  let! interface & w := lift r w in
  let! interface & w := lift (ok_or interface (Network ("timed out waiting for PPP interface with IPv4 address "
    +:+ print_ipv4 ipcp_addr))) w in
  let options := {| NetApply.use_resolvconf := Config.use_resolvconf config |} in
  let! plan & w := lift (plan_network_actions config vpn_config platform (Pppd.name interface) tunnel_endpoint) w in
  match actions plan with
  | [] => (Ok None, w)
  | _ =>
      let '(applied, h) := apply_network_plan plan options (network_host w) in
      let w := w <| network_host := h |> in
      let! applied & w := lift applied w in
      (Ok (Some applied), w)
  end.

(** The network thread: the platform and the address it is started with. *)
Definition network_thread : Type := option (Platform * Ipv4Addr).

(** The callback of [run_tunnel] on an address of the IPCP. *)
Definition on_ipcp_ipv4 (apply_network : bool) (expected : option Ipv4Addr) (platform : option Platform)
    (thread : network_thread) (addr : Ipv4Addr) : network_thread :=
  if negb apply_network || bool_decide (thread ≠ None) then thread
  else if match expected with Some expected => negb (bool_decide (addr = expected)) | None => false end then thread
  else match platform with
       | Some platform => Some (platform, addr)
       | None => thread
       end.

Section Tunnel.
(** [read_secret], [sha256], [pki] and [networks] as in [Session]; [platform]
    is the operating system the program was built for; [forkpty], [execvp] and
    [launch] as in [Pppd]; [getfl], [setfl] and [set_nonblocking] are the
    outcomes of the calls on the two descriptors, and [ticks] the answers of
    [poll]. *)
Context (read_secret : option str → str → str → result str)
  (sha256 : bytes → bytes) (pki : bytes → option str) (networks : nat → Tls.network)
  (platform : option Platform)
  (forkpty : option str) (execvp : str → list str → bool) (launch : child_image → PppdChild)
  (getfl setfl : option str) (set_nonblocking : result unit) (ticks : list tick).

Definition preferred_interface (config : Config) : option str :=
  match pppd_ifname config with Some name => Some name | None => iface_name config end.

(** The plan that is only shown: a mask that overflows ends the program here. *)
Definition show_plan (config : Config) (vpn_config : VpnConfigXml) (endpoint : option Ipv4Addr) : result unit :=
  match platform with
  | Some platform =>
      let* _ := plan_network_actions config vpn_config platform
                  (default "ppp0" (preferred_interface config)) endpoint in
      Ok tt
  | None => Ok tt
  end.

(** [handle.join()] and what follows it.  The thread works on the host only,
    and the forwarding loop on the streams only, so what the thread did while
    the loop ran is computed here.  A thread that panicked is only reported. *)
Definition join_network_thread (config : Config) (vpn_config : VpnConfigXml) (endpoint : option Ipv4Addr)
    (thread : network_thread) (w : TunnelHost) : result unit * TunnelHost :=
  match thread with
  | None => (Ok tt, w)
  | Some (platform, addr) =>
      match apply_network_after_interface_up config vpn_config platform addr (preferred_interface config) endpoint w with
      | (Ok (Some applied), w) =>
          if NetApply.is_empty applied then (Ok tt, w) else
          match rollback applied (network_host w) with
          | (Panic, h) => (Panic, w <| network_host := h |>)
          | (Diverge, h) => (Diverge, w <| network_host := h |>)
          | (_, h) => (Ok tt, w <| network_host := h |>)
          end
      | (Diverge, w) => (Diverge, w)
      | (_, w) => (Ok tt, w)
      end
  end.

(** A call whose error is only reported. *)
Definition report {A} (x : result A * TunnelHost) : result unit * TunnelHost :=
  match x with
  | (Ok _, w) | (Err _, w) => (Ok tt, w)
  | (Panic, w) => (Panic, w)
  | (Diverge, w) => (Diverge, w)
  end.

Definition on_dialer {A} (f : dialer → result A * dialer) (w : TunnelHost) : result A * TunnelHost :=
  let '(r, d) := f (dialing w) in (r, w <| dialing := d |>).

Definition terminate (p : process) (w : TunnelHost) : result unit * TunnelHost :=
  let '(r, p) := terminate_pppd p in (r, w <| processes := processes w ++ [p] |>).

(** The stream of the tunnel as the forwarding loop leaves it. *)
Definition stream_after (t : TlsConnection) (st : forwarding) : TlsConnection :=
  t <| stream := stream t <| conn := {| conn_r := f_tls st; conn_w := tls_w st |} |> |>.

(** Behind the start of the process. *)
Definition forward_and_clean (config : Config) (session : TunnelSession) (pppd : PppdChild) (w : TunnelHost)
    : result unit * TunnelHost :=
  let vpn_config := vpn_config (prepared session) in
  let endpoint := tunnel_endpoint_ipv4 (gateway_addr (prepared session)) in
  let c := conn (stream (tunnel_stream session)) in
  let '(forward_result, st) :=
    forward_with_callbacks getfl setfl set_nonblocking ticks (master_r pppd) (conn_r c) (master_w pppd) (conn_w c) in
  let w := w <| dialing := close (stream_after (tunnel_stream session) st) (dialing w) |> in
  let thread :=
    foldl (on_ipcp_ipv4 (set_routes config || set_dns config) (vpn_config_interface_addr vpn_config) platform)
      None (f_calls st) in
  match forward_result with
  | Panic => (Panic, w)
  | Diverge => (Diverge, w)
  | _ =>
      let! _ & w := join_network_thread config vpn_config endpoint thread w in
      let! _ & w := report (terminate (child pppd) w) in
      let! _ & w := report (on_dialer (logout sha256 pki networks config (tunnel_cookie (prepared session))) w) in
      (let* _ := forward_result in Ok tt, w)
  end.

Definition run_tunnel (config : Config) (w : TunnelHost) : result unit * TunnelHost :=
  if str_is_empty (gateway_host config) then (Err (Auth "gateway host is required"), w) else
  let! session & w := on_dialer (prepare read_secret sha256 pki networks config) w in
  let vpn_config := vpn_config (prepared session) in
  let plan := show_plan config vpn_config (tunnel_endpoint_ipv4 (gateway_addr (prepared session))) in
  let! _ & w := on_dialer (or_close plan (tunnel_stream session)) w in
  let command := build_ppp_backend_command config in
  match spawn_pppd forkpty execvp launch command with
  | Ok pppd => forward_and_clean config session pppd (w <| spawned := spawned w ++ [child pppd] |>)
  | Err e => (Err e, w <| dialing := close (tunnel_stream session) (dialing w) |>)
  | Panic => (Panic, w)
  | Diverge => (Diverge, w)
  end.

(** ** Specifications *)

(** An address that starts the network thread. *)
Definition awaited (expected : option Ipv4Addr) (addr : Ipv4Addr) : Prop :=
  match expected with Some expected => addr = expected | None => True end.

#[export] Instance awaited_dec expected addr : Decision (awaited expected addr).
Proof. destruct expected; cbn; apply _. Defined.

Lemma on_ipcp_none apply expected calls : apply = false ∨ platform = None →
  foldl (on_ipcp_ipv4 apply expected platform) None calls = None.
Proof.
  intros H. induction calls as [|a calls IH]; [done|]. cbn [foldl].
  assert (on_ipcp_ipv4 apply expected platform None a = None) as ->; [|done].
  unfold on_ipcp_ipv4. destruct H as [-> | ->]; [done|]. by repeat case_match.
Qed.

Lemma on_ipcp_started apply expected calls t :
  foldl (on_ipcp_ipv4 apply expected platform) (Some t) calls = Some t.
Proof.
  induction calls as [|a calls IH]; [done|]. cbn [foldl].
  assert (on_ipcp_ipv4 apply expected platform (Some t) a = Some t) as ->; [|done].
  unfold on_ipcp_ipv4. rewrite bool_decide_eq_true_2 by done. by rewrite orb_true_r.
Qed.

(** The thread is started once, for the first address it waits for. *)
Lemma on_ipcp_first apply expected calls :
  foldl (on_ipcp_ipv4 apply expected platform) None calls =
    (if apply : bool then
       pl ← platform; (λ a, (pl, a)) <$> head (filter (awaited expected) calls)
     else None).
Proof.
  destruct apply; [|apply on_ipcp_none; by left]. destruct platform as [pl|] eqn:Epl; cbn [mbind option_bind].
  2: { rewrite <- Epl. apply on_ipcp_none. by right. }
  rewrite <- Epl. induction calls as [|a calls IH]; [done|]. cbn [foldl]. rewrite filter_cons.
  assert (on_ipcp_ipv4 true expected platform None a = if decide (awaited expected a) then Some (pl, a) else None) as ->.
  { unfold on_ipcp_ipv4. rewrite bool_decide_eq_false_2 by (intros H; by apply H). cbn [negb orb]. rewrite Epl.
    unfold awaited. destruct expected as [e|]; [|by rewrite decide_True].
    destruct (decide (a = e)) as [->|Hne].
    - rewrite bool_decide_eq_true_2 by done. done.
    - rewrite bool_decide_eq_false_2 by done. done. }
  destruct (decide (awaited expected a)); [|exact IH]. rewrite on_ipcp_started. done.
Qed.

Lemma apply_network_ok config vpn_config pl addr preferred endpoint w :
  let '(r, w') := apply_network_after_interface_up config vpn_config pl addr preferred endpoint w in
  r ≠ Diverge ∧ dialing w' = dialing w ∧ processes w' = processes w.
Proof.
  unfold apply_network_after_interface_up.
  assert (∃ r i, wait_for_up_ppp_interface addr preferred 60000 200 (interfaces w) = (r, i) ∧ returns r) as (r & i & -> & Hr).
  { unfold wait_for_up_ppp_interface. destruct (now (interfaces w)) as [start w1] eqn:En.
    unfold now in En. destruct (instant_now (watch_clock (interfaces w))) as [u c] eqn:Ec. injection En as <- <-.
    apply instant_now_time in Ec as [_ H2].
    destruct (wait_loop_ok (S (Z.to_nat 60000)) u addr preferred 60000 200 (interfaces w <| watch_clock := c |>))
      as (r & i & -> & Hr); [lia|cbn [watch_clock]; cbn; lia|lia|].
    exists r, i. split; [done|]. by destruct r as [[]| | |]. }
  destruct r as [[interface|]|e| |]; cbn [lift sbind ok_or]; try done.
  pose proof (plan_ends config vpn_config pl (Pppd.name interface) endpoint) as Hplan.
  destruct (plan_network_actions _ _ _ _ _) as [plan|e| |]; cbn [lift sbind]; try done.
  destruct (actions plan) as [|a acts]; [done|].
  pose proof (apply_network_plan_returns plan {| NetApply.use_resolvconf := Config.use_resolvconf config |} (network_host w)) as Ha.
  cbn [network_host]. change (network_host (w <| interfaces := i |>)) with (network_host w).
  destruct (apply_network_plan _ _ _) as [[done|e| |] h]; cbn [lift sbind]; try exact (match Ha with end);
    (split; [discriminate|split; reflexivity]).
Qed.

(** What is left of the network changes of the thread.  A plan that was applied
    recorded the undoing of all it installed, and its record is taken back; a
    plan that failed leaves what [left_by_failure] says; and a thread that had
    nothing to apply, or found no interface, has changed nothing. *)
Definition network_restored (config : Config) (vpn_config : VpnConfigXml) (endpoint : option Ipv4Addr)
    (thread : network_thread) (w w' : TunnelHost) : Prop :=
  match thread with
  | None => network_host w' = network_host w
  | Some (pl, addr) =>
      let '(r, w1) := apply_network_after_interface_up config vpn_config pl addr (preferred_interface config) endpoint w in
      match r with
      | Ok (Some record) =>
          (∃ installed, stays (network_host w) (network_host w1) installed ∧ Forall2 undoes (applied record) installed) ∧
          taken_back record (network_host w1) (network_host w')
      | Err e => network_host w' = network_host w ∨
          ∃ plan, left_by_failure plan {| NetApply.use_resolvconf := Config.use_resolvconf config |}
                    (network_host w) e (network_host w')
      | _ => network_host w' = network_host w
      end
  end.

Lemma apply_network_changes config vpn_config pl addr preferred endpoint w :
  let '(r, w1) := apply_network_after_interface_up config vpn_config pl addr preferred endpoint w in
  match r with
  | Ok (Some record) =>
      ∃ installed, stays (network_host w) (network_host w1) installed ∧ Forall2 undoes (applied record) installed
  | Err e => network_host w1 = network_host w ∨
      ∃ plan, left_by_failure plan {| NetApply.use_resolvconf := Config.use_resolvconf config |}
                (network_host w) e (network_host w1)
  | _ => network_host w1 = network_host w
  end.
Proof.
  unfold apply_network_after_interface_up.
  destruct (wait_for_up_ppp_interface _ _ _ _ _) as [[[i|]|e| |] s]; cbn [lift sbind ok_or]; try done; try (by left).
  destruct (plan_network_actions _ _ _ _ _) as [plan|e| |]; cbn [lift sbind]; try done; try (by left).
  destruct (actions plan) as [|a acts]; [done|]. change (network_host (w <| interfaces := s |>)) with (network_host w).
  pose proof (apply_network_plan_returns plan {| NetApply.use_resolvconf := Config.use_resolvconf config |} (network_host w)) as Hr.
  destruct (apply_network_plan _ _ _) as [[record|e| |] h] eqn:E; cbn [lift sbind]; try done.
  - by apply apply_network_plan_accounted in E.
  - right. exists plan. by apply apply_failure.
Qed.

Lemma join_ok config vpn_config endpoint thread w :
  ∃ w', join_network_thread config vpn_config endpoint thread w = (Ok tt, w') ∧
    dialing w' = dialing w ∧ processes w' = processes w ∧ network_restored config vpn_config endpoint thread w w'.
Proof.
  unfold join_network_thread, network_restored. destruct thread as [[pl addr]|]; [|by exists w].
  pose proof (apply_network_ok config vpn_config pl addr (preferred_interface config) endpoint w) as H.
  pose proof (apply_network_changes config vpn_config pl addr (preferred_interface config) endpoint w) as Hn.
  destruct (apply_network_after_interface_up _ _ _ _ _ _ _) as [[[record|]|e| |] w1]; destruct H as (H1 & H2 & H3);
    try (by exists w1).
  destruct (NetApply.is_empty record) eqn:Ee.
  { exists w1. split_and!; try done. intros _. exists []. unfold NetApply.is_empty in Ee.
    destruct (applied record); [|done]. rewrite app_nil_r. split; [done|constructor]. }
  pose proof (rollback_loop_returns (reverse (applied record)) None (network_host w1)) as Hr.
  pose proof (rollback_takes_back record (network_host w1)) as Hu.
  unfold rollback in *. destruct (rollback_loop _ _ _) as [r h]. exists (w1 <| network_host := h |>).
  destruct r; try (exact (match Hr with end)); by split_and!.
Qed.

(** A PPP process that was put to its end: it got the signals of [ending], and
    is over, or [waitpid] would not say. *)
Definition put_to_end (p p' : process) : Prop :=
  ∃ r sent, terminate_pppd p = (r, p') ∧ signals p' = signals p ++ sent ∧ ending p r p' sent ∧
    (r = Ok tt ∨ ∃ err, r = Err (Pppd err) ∧ ∃ e, WaitError e ∈ answers p).

Lemma terminate_puts_to_end p : ∃ r p', terminate_pppd p = (r, p') ∧ put_to_end p p' ∧ (r = Ok tt ∨ ∃ e, r = Err e).
Proof.
  destruct (terminate_pppd_ok p) as (r & p' & sent & H1 & H2 & H3). pose proof (ending_cases _ _ _ _ H3) as H4.
  exists r, p'. split; [done|]. split; [by exists r, sent|]. destruct H4 as [->|(err & -> & _)]; eauto.
Qed.

Lemma forward_and_clean_ok config session pppd w r st :
  let c := conn (stream (tunnel_stream session)) in
  let endpoint := tunnel_endpoint_ipv4 (gateway_addr (prepared session)) in
  let w0 := w <| dialing := close (stream_after (tunnel_stream session) st) (dialing w) |> in
  forward_with_callbacks getfl setfl set_nonblocking ticks (master_r pppd) (conn_r c) (master_w pppd) (conn_w c) = (r, st) →
  returns r → (∀ k, returns (connect sha256 pki (networks k) config)) →
  ∃ w', forward_and_clean config session pppd w = ((let* _ := r in Ok tt), w') ∧
    (∃ p, processes w' = processes w ++ [p] ∧ put_to_end (child pppd) p) ∧
    dialing w' = snd (logout sha256 pki networks config (tunnel_cookie (prepared session)) (dialing w0)) ∧
    network_restored config (vpn_config (prepared session)) endpoint
      (if set_routes config || set_dns config then
         pl ← platform;
         (λ a, (pl, a)) <$> head (filter (awaited (vpn_config_interface_addr (vpn_config (prepared session)))) (f_calls st))
       else None) w0 w'.
Proof.
  intros c endpoint w0 Hf Hr Hc. unfold forward_and_clean. fold c. rewrite Hf. cbv beta iota zeta. rewrite on_ipcp_first.
  fold endpoint w0. match goal with |- context [join_network_thread _ _ _ ?t _] => set (thread := t) end.
  destruct (join_ok config (vpn_config (prepared session)) endpoint thread w0) as (w1 & Hj & J1 & J2 & J3).
  destruct (terminate_puts_to_end (child pppd)) as (rt & p' & Ht & Hend & Hrt).
  set (d2 := dialing w0) in *. pose proof (logout_returns sha256 pki networks config (tunnel_cookie (prepared session)) d2 Hc) as Hlo.
  assert (∃ w', (let! _ & w := join_network_thread config (vpn_config (prepared session)) endpoint thread w0 in
     let! _ & w := report (terminate (child pppd) w) in
     let! _ & w := report (on_dialer (logout sha256 pki networks config (tunnel_cookie (prepared session))) w) in
     (let* _ := r in Ok tt, w)) = ((let* _ := r in Ok tt), w') ∧
     processes w' = processes w1 ++ [p'] ∧ network_host w' = network_host w1 ∧
     dialing w' = snd (logout sha256 pki networks config (tunnel_cookie (prepared session)) d2)) as (w' & Hrun & H1 & H2 & H3).
  { rewrite Hj. cbn [sbind]. unfold terminate. rewrite Ht.
    assert (∀ w, report (rt, w) = (Ok tt, w)) as Hrep by (intros w2; by destruct Hrt as [->|[e ->]]).
    rewrite Hrep. cbn [sbind]. unfold on_dialer. cbn [dialing]. change (dialing (w1 <| processes := _ |>)) with (dialing w1).
    rewrite J1. destruct (logout _ _ _ _ _ d2) as [rl d3]. cbn [fst snd] in *.
    destruct rl; try done; eexists; (split; [reflexivity|]); split_and!; done. }
  exists w'. rewrite Hrun. split; [by destruct r|]. rewrite H1, J2. split; [by exists p'|]. split; [exact H3|].
  clear -J3 H2. unfold network_restored in *. destruct thread as [[pl a]|]; [|congruence].
  destruct (apply_network_after_interface_up _ _ _ _ _ _ w0) as [[[record|]|e| |] w2]; rewrite H2; done.
Qed.

(** Nothing is in use: every connection that was made was dropped, and every
    PPP process that was started was put to its end. *)
Definition settled (w : TunnelHost) : Prop := balanced 0 (dialing w) ∧ Forall2 put_to_end (spawned w) (processes w).

Lemma join_keeps config vpn_config endpoint thread w :
  ∃ w', join_network_thread config vpn_config endpoint thread w = (Ok tt, w') ∧
    dialing w' = dialing w ∧ processes w' = processes w ∧ spawned w' = spawned w.
Proof.
  destruct (join_ok config vpn_config endpoint thread w) as (w' & E & H1 & H2 & _). exists w'. split_and!; [done..|].
  unfold join_network_thread, apply_network_after_interface_up in E. revert E.
  destruct thread as [[pl addr]|]; [|by intros [= <-]].
  destruct (wait_for_up_ppp_interface _ _ _ _ _) as [[[i|]|e| |] s]; cbn [lift sbind ok_or];
    [|by intros [= <-]..|done].
  destruct (plan_network_actions _ _ _ _ _) as [plan|e| |]; cbn [lift sbind]; [|by intros [= <-]..|done].
  destruct (actions plan); [by intros [= <-]|]. destruct (apply_network_plan _ _ _) as [[applied|e| |] h]; cbn [lift sbind];
    [|by intros [= <-]..|done].
  destruct (NetApply.is_empty applied); [by intros [= <-]|]. by destruct (rollback _ _) as [[] h']; intros [= <-].
Qed.

Lemma report_dialing {A} (f : dialer → result A * dialer) w :
  snd (report (on_dialer f w)) = w <| dialing := snd (f (dialing w)) |>.
Proof. unfold report, on_dialer. by destruct (f (dialing w)) as [[] d]. Qed.

Lemma forward_and_clean_settles config session pppd before w :
  balanced 1 (dialing w) → spawned w = before ++ [child pppd] → Forall2 put_to_end before (processes w) →
  keeps settled (forward_and_clean config session pppd w).
Proof.
  intros Hb Hs Hp. unfold forward_and_clean.
  destruct (forward_with_callbacks _ _ _ _ _ _ _ _) as [r st]. set (thread := foldl _ _ _).
  set (w0 := w <| dialing := _ |>).
  assert (balanced 0 (dialing w0)) as Hb0 by by apply close_balanced.
  destruct (join_keeps config (vpn_config (prepared session)) (tunnel_endpoint_ipv4 (gateway_addr (prepared session))) thread w0)
    as (w1 & E & J1 & J2 & J3).
  destruct (terminate_puts_to_end (child pppd)) as (rt & p & Ht & Hend & Hrt).
  assert (keeps settled (let! _ & w := report (terminate (child pppd) w1) in
     let! _ & w := report (on_dialer (logout sha256 pki networks config (tunnel_cookie (prepared session))) w) in
     (let* _ := r in Ok tt, w))) as H; [|rewrite E; cbn [sbind]; by destruct r; [exact H..|intros []|intros []]].
  unfold terminate. rewrite Ht. set (w2 := w1 <| processes := _ |>).
  assert (report (rt, w2) = (Ok tt, w2)) as -> by (by destruct Hrt as [->|[e ->]]). cbn [sbind].
  pose proof (report_dialing (logout sha256 pki networks config (tunnel_cookie (prepared session))) w2) as Hl.
  destruct (report (on_dialer _ w2)) as [rl w3]. cbn [snd] in Hl.
  assert (settled w3) as H3; [|destruct rl; cbn [sbind]; by apply keeps_now].
  rewrite Hl. change (spawned w0) with (spawned w) in J3. change (processes w0) with (processes w) in J2. split; cbn.
  - apply logout_balanced. by rewrite J1.
  - rewrite J2, J3, Hs. apply Forall2_app; [done|by repeat constructor].
Qed.

Lemma run_tunnel_settles config w : settled w → keeps settled (run_tunnel config w).
Proof.
  intros [Hb Hp]. unfold run_tunnel. destruct (str_is_empty _); [by apply keeps_now|]. unfold on_dialer at 1.
  pose proof (prepare_cases read_secret sha256 pki networks config (dialing w) 0 Hb) as H1.
  destruct (prepare _ _ _ _ config (dialing w)) as [[session|e| |] d1]; cbn [sbind]; try (by apply keeps_now). destruct H1 as [Hb1 _].
  set (plan := show_plan _ _ _). unfold on_dialer. cbn [dialing]. change (dialing (w <| dialing := d1 |>)) with d1.
  pose proof (or_close_cases plan (tunnel_stream session) d1 0 Hb1) as H2.
  destruct (or_close plan (tunnel_stream session) d1) as [[u|e| |] d2]; cbn [sbind]; try (by apply keeps_now). subst d2.
  destruct (spawn_pppd _ _ _ _) as [pppd|e| |]; [|..|by intros []|by intros []].
  - by apply (forward_and_clean_settles config session pppd (spawned w)).
  - intros _. split; [by apply (close_balanced _ d1 0)|done].
Qed.
End Tunnel.

(** ** Properties of the configuration *)

Lemma validate_ok read_secret config config' : validate_and_complete_auth_config read_secret config = Ok config' →
  (config' = config ∨ ∃ secret, config' = config <| password := Some secret |>) ∧
  (username config ≠ "" ∨ cookie config ≠ None ∨ saml_port config ≠ None ∨ user_cert config ≠ None) ∧
  (username config ≠ "" → cookie config = None → saml_port config = None → password config' ≠ None).
Proof.
  unfold validate_and_complete_auth_config.
  assert (∀ s, str_is_empty s = true ↔ s = "") as Hs by (by intros [|? ?]).
  destruct (_ && _) eqn:E1; [done|]. rewrite !andb_false_iff, !bool_decide_eq_false, <- not_true_iff_false, Hs in E1.
  assert (username config ≠ "" ∨ cookie config ≠ None ∨ saml_port config ≠ None ∨ user_cert config ≠ None) as Huser by tauto.
  destruct (bool_decide (password config = None) && _ && _ && _) eqn:E2.
  - intros (secret & _ & [= <-])%bind_ok_inv. split; [right; by exists secret|]. split; [done|]. done.
  - intros [= <-]. split; [by left|]. split; [done|]. intros Hu Hc Hsp Hp.
    rewrite Hp, Hc, Hsp in E2. rewrite !bool_decide_eq_true_2 in E2 by done.
    destruct (username config); [done|]. by vm_compute in E2.
Qed.

Lemma wait_for_session_id_valid config bind c id w : wait_for_session_id config bind c = Ok (id, w) →
  is_valid_saml_session_id id = true.
Proof.
  unfold wait_for_session_id. intros (port & _ & H)%bind_ok_inv. apply bind_ok_inv in H as (events & _ & H).
  destruct (wait_for_session_id_on_listener_ok 5 10000 {| accepts := events; wait_clock := c; served := [] |})
    as (_ & new & _ & _ & Hok); [lia|].
  destruct (wait_for_session_id_on_listener _ _ _) as [[id'|e| |] w']; try done.
  injection H as -> _. by destruct (Hok id eq_refl).
Qed.

(** What a configuration has that is handed to a mode. *)
Definition complete_config (euid : u32) (config : Config) : Prop :=
  gateway_host config ≠ "" ∧
  (username config ≠ "" ∨ cookie config ≠ None ∨ saml_port config ≠ None ∨ user_cert config ≠ None) ∧
  (username config ≠ "" → cookie config = None → saml_port config = None → password config ≠ None) ∧
  (proxy config = None → euid = 0) ∧
  (saml_port config ≠ None → ∃ id, saml_session_id config = Some id ∧ is_valid_saml_session_id id = true).

Lemma complete_ok read_secret read_to_string stdin euid bind c cli config :
  complete read_secret read_to_string stdin euid bind c cli = Ok (Some config) → complete_config euid config.
Proof.
  unfold complete, complete_config. destruct (cli_version cli); [done|].
  intros (c1 & _ & H)%bind_ok_inv. apply bind_ok_inv in H as (c2 & _ & H).
  destruct (str_is_empty (gateway_host c2)) eqn:Eg; [done|].
  assert (gateway_host c2 ≠ "") as Hg by (intros E; by rewrite E in Eg).
  apply bind_ok_inv in H as (c3 & Hv & H). apply validate_ok in Hv as (Hc3 & Hv1 & Hv2).
  assert (gateway_host c3 = gateway_host c2 ∧ username c3 = username c2 ∧ cookie c3 = cookie c2 ∧
    saml_port c3 = saml_port c2 ∧ user_cert c3 = user_cert c2) as (E1 & E2 & E3 & E4 & E5).
  { by destruct Hc3 as [->|[secret ->]]. }
  rewrite <- E1 in Hg. rewrite <- E2, <- E3, <- E4, <- E5 in Hv1. rewrite <- E2, <- E3, <- E4 in Hv2. clear E1 E2 E3 E4 E5 Hc3.
  apply bind_ok_inv in H as ([] & Hroot & Hsaml).
  assert (proxy c3 = None → euid = 0) as Heuid.
  { intros Hp. rewrite bool_decide_eq_true_2 in Hroot by done. unfold require_root in Hroot.
    by destruct (Z.eqb_spec euid 0). }
  destruct (bool_decide (saml_port c3 = None)) eqn:Es.
  - injection Hsaml as <-. apply bool_decide_eq_true in Es. by split_and!.
  - apply bind_ok_inv in Hsaml as ([id w] & Hid%wait_for_session_id_valid & Hsaml).
    destruct (str_is_empty id); [done|]. injection Hsaml as <-. split_and!; try done. intros _. by exists id.
Qed.

(** C29: Nothing is connected before the configuration is complete.  When
    [configure] hands one over, it names a gateway and some way to log in;
    whoever logs in with a name has a password; the tunnel mode is only for
    root; and a browser's login has its identifier, of the form that the
    gateway's path may hold. *)
Theorem configure_complete read_secret read_to_string stdin euid bind c set_handler cli config :
  configure read_secret read_to_string stdin euid bind c set_handler cli = Ok (Some config) →
  complete_config euid config ∧ set_handler = None.
Proof.
  unfold configure. intros ([c1|] & Hc & H)%bind_ok_inv; [|done].
  apply bind_ok_inv in H as ([] & Hset & [= <-]). split; [by eapply complete_ok|]. by destruct set_handler.
Qed.

(** C23: The number of attempts is bounded.  However its runs end,
    [run_with_persistence] runs its mode once and then at most [max_reconnects]
    times more, sleeps at most the configured delay between two runs, and
    answers what one of them did; only a request to stop makes it give up
    earlier. *)
Theorem persistence_bounded {World} (run_proxy run_tunnel : Config → World → result unit * World) stop_requested
    sleep_second config s :
  (∀ w, returns (fst (mode run_proxy run_tunnel config w))) → 0 <= max_reconnects config < 2 ^ 32 →
  let max := Z.to_nat (max_reconnects config) in
  ∃ r s', run_with_persistence run_proxy run_tunnel stop_requested sleep_second config s = (r, s') ∧
    (∃ w, r = fst (mode run_proxy run_tunnel config w)) ∧
    (attempts s < attempts s' <= attempts s + max + 1)%nat ∧
    (seconds s' <= seconds s + max * Z.to_nat (reconnect_interval config))%nat ∧
    ((attempts s' = attempts s + max + 1)%nat ∨ ∃ w, fst (stop_requested w) = true).
Proof.
  intros Hret Hm max.
  destruct (persist_ok run_proxy run_tunnel stop_requested sleep_second (S (Z.to_nat (max_reconnects config))) config 0 s)
    as (r & s' & Hrun & H); [done|lia|lia|lia|].
  rewrite Z.sub_0_r in H. by exists r, s'.
Qed.


(** ** Witnesses *)

Definition demo_file : str :=
  "host = vpn.example" +:+ String newline ("username = u" +:+ String newline ("password = p" +:+ String newline "")).

Definition demo_cli : Cli := no_options <| cli_config := Some "/etc/openfortivpn/config" |>.

Definition no_listener (port : u16) : result (list accept_event) := Err (Network "no listener").

Lemma configure_complete_witness :
  ∃ config, configure no_secret (λ _, Ok demo_file) (Ok "") 0 no_listener {| time := 0; delays := [] |} None demo_cli =
    Ok (Some config) ∧ complete_config 0 config ∧ None = None :> option str.
Proof.
  eexists. split; [vm_compute; reflexivity|].
  apply (configure_complete no_secret (λ _, Ok demo_file) (Ok "") 0 no_listener {| time := 0; delays := [] |} None demo_cli).
  vm_compute. reflexivity.
Defined.

(** A gateway that never answers. *)
Definition unreachable (config : Config) (w : nat) : result unit * nat := (Err PermissionDenied, S w).
Definition patient : Config := default_config <| max_reconnects := 3 |> <| reconnect_delay := Some 2 |>.
Definition at_start : persistence := {| world := 0%nat; attempts := 0; seconds := 0 |}.

Example persistence_demo :
  run_with_persistence unreachable unreachable (λ w, (false, w)) id patient at_start =
    (Err PermissionDenied, {| world := 4%nat; attempts := 4; seconds := 6 |}).
Proof. vm_compute. reflexivity. Qed.

Lemma persistence_bounded_witness :
  ∃ r s', run_with_persistence unreachable unreachable (λ w, (false, w)) id patient at_start = (r, s') ∧
    (∃ w, r = fst (mode unreachable unreachable patient w)) ∧
    (0 < attempts s' <= 0 + 3 + 1)%nat ∧ (seconds s' <= 0 + 3 * 2)%nat ∧
    ((attempts s' = 0 + 3 + 1)%nat ∨ ∃ w : nat, fst (false, w) = true).
Proof.
  apply (persistence_bounded unreachable unreachable (λ w, (false, w)) id patient at_start).
  - intros w. exact I.
  - vm_compute. split; [discriminate|reflexivity].
Defined.

(** A tunnel whose link gets the address of the configuration: an IPCP answer
    that acknowledges 10.0.0.42. *)
Definition demo_ack : bytes := [0x80; 0x21; 2; 2; 0; 10; 3; 6; 10; 0; 0; 42].

Definition demo_vpn (k : nat) : Tls.network :=
  {| debug_form := λ s, s; environment := λ _, None;
     resolver := λ _ _, inl [SocketAddrV4 (Ipv4 192 0 2 9) 443];
     dial_tcp := λ _, inl (stream_of (match k with
       | S O => chunked (demo_answers 1) ++ [RBytes (tls_frame demo_ack); RError WouldBlock]
       | _ => chunked (demo_answers k)
       end) (vec_writer []));
     peer_of := λ _, Ok (SocketAddrV4 (Ipv4 192 0 2 9) 443); tls := demo_library [0; 0xab; 0xff] |}.

Definition demo_pppd : PppdChild := {| master_r := [RError WouldBlock]; master_w := vec_writer []; child := stubborn |}.

Definition demo_ticks : list tick :=
  [{| should_stop := false; poll := λ pty tls, inl (pty, tls) |}; {| should_stop := true; poll := λ _ _, inr "interrupted" |}].

Definition demo_tunnel_host : TunnelHost :=
  {| dialing := no_dials; network_host := demo_host; interfaces := demo_watch; spawned := []; processes := [] |}.

Definition demo_tunnel_config : Config := demo_gateway_config <| set_dns := false |>.

Definition demo_run_tunnel : result unit * TunnelHost :=
  run_tunnel no_secret (λ l, l) demo_pki demo_vpn (Some Linux) None (λ _ _, true) (λ _, demo_pppd) None None (Ok tt) demo_ticks
    demo_tunnel_config demo_tunnel_host.

(** The default route is replaced when the link is up, and given back. *)
Example run_tunnel_demo :
  let '(r, w) := demo_run_tunnel in
  r = Ok tt ∧ dialled (dialing w) = 3%nat ∧ map signals (processes w) = [[(SIGTERM, 0); (SIGKILL, 5000)]] ∧
  omap (λ e, match e with RanCommand p args _ => Some (str_join " " (p :: args)) | _ => None end) (log (network_host w)) =
    ["ip route show 192.0.2.9/32 dev ppp0"; "ip route get 192.0.2.9"; "ip route show default";
     "ip route del default dev ppp0"; "ip route add default dev ppp0"; "ip route del default dev ppp0"].
Proof. vm_compute. split_and!; reflexivity. Qed.

Lemma demo_vpn_returns k : returns (connect (λ l, l) demo_pki (demo_vpn k) demo_tunnel_config).
Proof. destruct k as [|[|k]]; vm_compute; exact I. Qed.

Definition demo_prepared : result TunnelSession * dialer :=
  prepare no_secret (λ l, l) demo_pki demo_vpn demo_tunnel_config no_dials.

Definition no_session : TunnelSession :=
  {| prepared := {| tunnel_cookie := ""; vpn_config := parse_vpn_config_xml ""; gateway_cert_sha256 := "";
       certificate_verification := Tls.Disabled; gateway_addr := SocketAddrV4 (Ipv4 0 0 0 0) 0 |};
     tunnel_stream := {| stream := demo_tcp; peer_cert_sha256 := ""; verification := Tls.Disabled;
       tcp_peer_addr := SocketAddrV4 (Ipv4 0 0 0 0) 0 |} |}.

Definition demo_session : TunnelSession :=
  Eval vm_compute in match fst demo_prepared with Ok session => session | _ => no_session end.
Definition demo_dialer : dialer := Eval vm_compute in snd demo_prepared.
Definition demo_forwarding : result ForwardStats * forwarding :=
  Eval vm_compute in
    forward_with_callbacks None None (Ok tt) demo_ticks (master_r demo_pppd) (conn_r (conn (stream (tunnel_stream demo_session))))
      (master_w demo_pppd) (conn_w (conn (stream (tunnel_stream demo_session)))).

