(* ===== verification/Program.v ===== *)
(** * [main.rs]: a run of the program and the question to reconnect

    [run] completes a configuration, installs the handler of Ctrl-C and tries a
    mode; [main] reports its outcome and runs it again as long as the user
    wants to.  What one run finds (files, input, listener, clock) is an
    environment; the modes are those of [Main], on any world. *)

From S2P Require Import Prelude Stream RustStd Net Config Session Main.

#[local] Open Scope string_scope.
#[local] Open Scope list_scope.
#[local] Open Scope Z_scope.

(** The [Display] of an error. *)
Definition display (e : OpenfortivpnError) : str :=
  match e with
  | Io _ message => "I/O error: " +:+ message
  | TlsHandshake message => "TLS handshake failed: " +:+ message
  | MissingPeerCertificate => "server did not present a TLS certificate"
  | CertificateVerification message => "TLS certificate verification failed: " +:+ message
  | HttpProtocol message => "HTTP protocol error: " +:+ message
  | PermissionDenied => "VPN gateway denied permission"
  | Auth message => "authentication error: " +:+ message
  | Pppd message => "pppd error: " +:+ message
  | Network message => "network configuration error: " +:+ message
  | BadBoolean value => "bad boolean value: " +:+ value
  | BadInteger key value => "bad integer value for " +:+ key +:+ ": " +:+ value
  | BadPort key value => "bad port for " +:+ key +:+ ": " +:+ value
  | BadTlsVersion value => "bad TLS version: " +:+ value
  | BadCertificateDigest value => "bad certificate sha256 digest: " +:+ value
  | UnknownConfigKey key => "unknown configuration key: " +:+ key
  | HdlcBufferTooSmall => "HDLC output buffer too small"
  | HdlcNoFrameFound => "no HDLC frame found"
  | HdlcInvalidFrame => "invalid HDLC frame"
  | HdlcBadChecksum => "bad HDLC checksum"
  end.

(** What one call of [run] finds. *)
Record environment := {
  read_to_string : str → result str;
  stdin : result str;
  euid : u32;
  bind_callback : u16 → result (list accept_event);
  callback_clock : clock;
}.

Section Program.
(** [set_handler k] is the answer of the library to the [k]-th handler of
    Ctrl-C, [version] the text of [CARGO_PKG_VERSION], [fresh_flag] a stop flag
    that is not raised. *)
Context {World : Type} (run_proxy run_tunnel : Config → World → result unit * World)
  (stop_requested : World → bool * World) (sleep_second fresh_flag : World → World)
  (read_secret : option str → str → str → result str)
  (environments : nat → environment) (set_handler : nat → option str) (version : str) (cli : Cli).

(** The world, how often [run] was called and a handler asked for, and the
    lines that were printed. *)
Record program := { p_world : World; runs : nat; handlers : nat; printed : list str }.

#[export] Instance program_eta : Eta program := λ p,
  {| p_world := p_world p; runs := runs p; handlers := handlers p; printed := printed p |}.

Definition println (line : str) (p : program) : program := p <| printed := printed p ++ [line] |>.

Definition run (p : program) : result unit * program :=
  let env := environments (runs p) in
  let p := p <| runs := S (runs p) |> in
  let! config & p := lift (complete read_secret (read_to_string env) (stdin env) (euid env) (bind_callback env)
                             (callback_clock env) cli) p in
  match config with
  | None => (Ok tt, println version p)
  | Some config =>
      let handler := set_handler (handlers p) in
      let p := p <| handlers := S (handlers p) |> in
      let! _ & p := lift (install_ctrlc_handler handler) p in
      let '(r, s) := run_with_persistence run_proxy run_tunnel stop_requested sleep_second config
                       {| world := fresh_flag (p_world p); attempts := 0; seconds := 0 |} in
      (r, p <| p_world := world s |>)
  end.

Definition outcome_line (r : result unit) : str :=
  match r with Err err => "Disconnected: " +:+ display err | _ => "Disconnected" end.

(** [main], over the answers to the question; [None] is a question that could
    not be asked, as it is when there are no more answers. *)
Fixpoint main (confirms : list (option bool)) (p : program) : result unit * program :=
  match run p with
  | (Panic, p) => (Panic, p)
  | (Diverge, p) => (Diverge, p)
  | (r, p) =>
      let p := println (outcome_line r) p in
      match confirms with
      | Some true :: confirms => main confirms p
      | _ => (Ok tt, p)
      end
  end.

(** The answers up to the first that is not a yes. *)
Fixpoint agreed (confirms : list (option bool)) : nat :=
  match confirms with Some true :: confirms => S (agreed confirms) | _ => O end.

Lemma run_counts p : let '(_, p') := run p in
  runs p' = S (runs p) ∧ (handlers p <= handlers p')%nat ∧ ∃ lines, printed p' = printed p ++ lines.
Proof.
  unfold run. destruct (complete _ _ _ _ _ _ _) as [[config|]|e| |]; cbn [lift sbind];
    try (split_and!; [done|reflexivity|by exists []; rewrite app_nil_r]).
  - destruct (install_ctrlc_handler _); cbn [lift sbind];
      try (split_and!; [done|cbn; lia|by exists []; rewrite app_nil_r]).
    destruct (run_with_persistence _ _ _ _ _ _). split_and!; [done|cbn; lia|by exists []; rewrite app_nil_r].
  - split_and!; [done|reflexivity|by eexists].
Qed.

(** [main] always ends well, whatever the runs come to: it runs once and then
    once for every yes, until the first other answer. *)
Theorem main_runs confirms p : (∀ p, returns (fst (run p))) →
  ∃ p', main confirms p = (Ok tt, p') ∧ runs p' = (runs p + S (agreed confirms))%nat.
Proof.
  intros Hr. revert p. induction confirms as [|answer confirms IH]; intros p; cbn [main agreed];
    pose proof (Hr p) as H; pose proof (run_counts p) as Hc; destruct (run p) as [r p1]; destruct Hc as [Hc _].
  { destruct r; try (exact (match H with end)); (eexists; split; [reflexivity|]; cbn; lia). }
  destruct answer as [[]|]; cbn [main].
  2-3: destruct r; try (exact (match H with end)); (eexists; split; [reflexivity|]; cbn; lia).
  assert (∃ p', main confirms (println (outcome_line r) p1) = (Ok tt, p') ∧
    runs p' = (runs p + S (S (agreed confirms)))%nat) as (p' & H1 & H2).
  { destruct (IH (println (outcome_line r) p1)) as (p' & H1 & H2). exists p'. split; [exact H1|]. cbn in H2. lia. }
  exists p'. split; [|exact H2]. destruct r; try (exact (match H with end)); exact H1.
Qed.

(** What every attempt keeps, holds when the program is over. *)
Section Keeps.
Context (I : World → Prop).
Hypothesis mode_keeps : ∀ config w, I w → keeps I (mode run_proxy run_tunnel config w).
Hypothesis look_keeps : ∀ w, I w → I (snd (stop_requested w)).
Hypothesis sleep_keeps : ∀ w, I w → I (sleep_second w).
Hypothesis fresh_keeps : ∀ w, I w → I (fresh_flag w).

Lemma run_keeps p : I (p_world p) → keeps (λ p, I (p_world p)) (run p).
Proof.
  intros H. unfold run. destruct (complete _ _ _ _ _ _ _) as [[config|]|e| |]; cbn [lift sbind]; try (by apply keeps_now).
  destruct (install_ctrlc_handler _); cbn [lift sbind]; try (by apply keeps_now).
  pose proof (run_with_persistence_keeps run_proxy run_tunnel stop_requested sleep_second I mode_keeps look_keeps sleep_keeps
    config {| world := fresh_flag (p_world p); attempts := 0; seconds := 0 |} (fresh_keeps _ H)) as Hk.
  cbn [p_world]. by destruct (run_with_persistence _ _ _ _ _ _) as [r s].
Qed.

Lemma main_keeps confirms p : I (p_world p) → keeps (λ p, I (p_world p)) (main confirms p).
Proof.
  revert p. induction confirms as [|answer confirms IH]; intros p H; apply run_keeps in H; cbn [main];
    destruct (run p) as [r p1]; unfold keeps in H; cbn [fst snd] in H.
  - destruct r; [intros _; by apply H..|intros []|intros []].
  - assert (returns r → keeps (λ p, I (p_world p))
      match answer with Some true => main confirms (println (outcome_line r) p1) | _ => (Ok tt, println (outcome_line r) p1) end)
      as Hgo; [|by destruct r; [apply Hgo..|intros []|intros []]].
    intros Hr. specialize (H Hr). destruct answer as [[]|]; [by apply IH|by apply keeps_now..].
Qed.
End Keeps.

Lemma run_in_vain p : (∀ k, (0 < k)%nat → set_handler k ≠ None) → (0 < handlers p)%nat →
  p_world (snd (run p)) = p_world p ∧ (0 < handlers (snd (run p)))%nat ∧
  ∀ config env, env = environments (runs p) →
    complete read_secret (read_to_string env) (stdin env) (euid env) (bind_callback env) (callback_clock env) cli =
      Ok (Some config) → is_ok (fst (run p)) = false.
Proof.
  intros Hk Hp. unfold run.
  destruct (complete _ _ _ _ _ _ _) as [[config|]|e| |] eqn:E; cbn [lift sbind];
    try (split; [done|]; split; [exact Hp|]; intros config' env ->; by rewrite E).
  pose proof (Hk (handlers p) Hp) as H. change (handlers (p <| runs := S (runs p) |>)) with (handlers p).
  unfold install_ctrlc_handler. destruct (set_handler (handlers p)); [|done]. cbn [lift sbind fst snd].
  split; [done|]. split; [cbn; lia|]. done.
Qed.

(** The library installs one handler in the life of
    a process, so once a handler is installed no later run reaches a mode,
    however often the user wants to reconnect. *)
Theorem reconnecting_in_vain confirms p : (∀ k, (0 < k)%nat → set_handler k ≠ None) → (0 < handlers p)%nat →
  p_world (snd (main confirms p)) = p_world p.
Proof.
  intros Hk. revert p. induction confirms as [|answer confirms IH]; intros p Hp; cbn [main];
    destruct (run_in_vain p Hk Hp) as (Hw & Hh & _); destruct (run p) as [r p1]; cbn [snd] in Hw, Hh.
  { destruct r; exact Hw. }
  destruct answer as [[]|]; destruct r; try exact Hw; (rewrite IH by exact Hh; exact Hw).
Qed.
End Program.
Arguments program : clear implicits.

(** ** Witnesses *)

Definition demo_environment : environment :=
  {| read_to_string := λ _, Ok demo_file; stdin := Ok ""; euid := 0; bind_callback := no_listener;
     callback_clock := {| time := 0; delays := [] |} |}.

(** The library as it documents itself. *)
Definition one_handler (k : nat) : option str :=
  match k with O => None | _ => Some "Ctrl-C error: Ctrl-C signal handler already registered" end.

Definition demo_main (confirms : list (option bool)) : program nat → result unit * program nat :=
  main unreachable unreachable (λ w, (false, w)) id id no_secret (λ _, demo_environment) one_handler "0.1.0" demo_cli
    confirms.

Definition not_started : program nat := {| p_world := 0%nat; runs := 0; handlers := 0; printed := [] |}.

Example main_demo : demo_main [Some true; Some true; Some false] not_started =
  (Ok tt, {| p_world := 1%nat; runs := 3; handlers := 3; printed :=
    ["Disconnected: VPN gateway denied permission";
     "Disconnected: network configuration error: failed to install Ctrl-C handler: Ctrl-C error: Ctrl-C signal handler already registered";
     "Disconnected: network configuration error: failed to install Ctrl-C handler: Ctrl-C error: Ctrl-C signal handler already registered"] |}).
Proof. vm_compute. reflexivity. Qed.
