(* ===== verification/Client.v ===== *)
(** * The whole client

    [Program] runs the modes on any world.  Here the world is what they act on:
    the connections to the gateway, the network of the host, the PPP processes;
    and the modes are [Main.run_tunnel] and [ProxyMode.run_mode], each attempt
    with the surroundings that it finds. *)

From S2P Require Import Prelude Stream RustStd Packet Io Forward Fortinet PppEngine Net NetStack ToyStack Config Http Portal Tls.
From S2P Require Import NetPlan NetApply Session RouteTable Runtime ProxyLoop ProxyTurn ProxyMode Pppd Main Program.

#[local] Open Scope string_scope.
#[local] Open Scope list_scope.
#[local] Open Scope Z_scope.

(** What one attempt finds around it: the outcomes of starting the process and
    of the calls on the descriptors, the ticks of the forwarding loop; the
    sockets, the clock and the stop flag of the proxy. *)
Record surroundings := {
  forkpty : option str;
  execvp : str → list str → bool;
  launch : child_image → PppdChild;
  getfl : option str;
  setfl : option str;
  set_nonblocking : result unit;
  ticks : list tick;
  proxy_host : ProxyMode.host;
  proxy_clock : clock;
  proxy_stops : list bool;
}.

(** The world: what the modes act on, how many attempts were made, and what the
    stop flag will be between them. *)
Record client := { host : TunnelHost; tries : nat; flags : list bool }.

#[export] Instance client_eta : Eta client := λ w, {| host := host w; tries := tries w; flags := flags w |}.

Section Client.
Context {Interface Sockets Handle : Type} `{!Smoltcp Interface Sockets Handle}
  `{!SmoltcpView Sockets Handle} `{!SmoltcpLaws Interface Sockets Handle}.
Context (read_secret : option str → str → str → result str)
  (sha256 : bytes → bytes) (pki : bytes → option str) (networks : nat → Tls.network) (platform : option Platform)
  (attempt : nat → surroundings).

(** [run_tunnel(config, stop)] *)
Definition tunnel_mode (config : Config) (w : client) : result unit * client :=
  let a := attempt (tries w) in
  let '(r, h) := run_tunnel read_secret sha256 pki networks platform (forkpty a) (execvp a) (launch a)
                   (getfl a) (setfl a) (set_nonblocking a) (ticks a) config (host w) in
  (r, w <| host := h |> <| tries := S (tries w) |>).

(** [proxy::run(config, stop)] *)
Definition proxy_mode (config : Config) (w : client) : result unit * client :=
  let a := attempt (tries w) in
  let '(r, d) := ProxyMode.run_mode (Handle:=Handle) read_secret sha256 pki networks config (proxy_host a) (proxy_clock a)
                   (proxy_stops a) (dialing (host w)) in
  (r, w <| host := host w <| dialing := d |> |> <| tries := S (tries w) |>).

Definition look_at_flag (w : client) : bool * client :=
  match flags w with [] => (false, w) | b :: bs => (b, w <| flags := bs |>) end.

(** The program, on this world. *)
Definition client_main (environments : nat → environment) (set_handler : nat → option str) (version : str) (cli : Cli)
    (confirms : list (option bool)) (p : program client) : result unit * program client :=
  Program.main proxy_mode tunnel_mode look_at_flag (λ w, w) (λ w, w) read_secret environments set_handler version cli confirms p.

Lemma proxy_mode_settles config w : settled (host w) → keeps (λ w, settled (host w)) (proxy_mode config w).
Proof.
  intros [Hb Hp]. unfold proxy_mode.
  pose proof (run_mode_balanced (Handle:=Handle) read_secret sha256 pki networks config (proxy_host (attempt (tries w)))
    (proxy_clock (attempt (tries w))) (proxy_stops (attempt (tries w))) (dialing (host w)) 0 Hb) as H.
  destruct (ProxyMode.run_mode _ _ _ _ _ _ _ _ _) as [r d]. intros Hr. split; [by apply H|done].
Qed.

Lemma tunnel_mode_settles config w : settled (host w) → keeps (λ w, settled (host w)) (tunnel_mode config w).
Proof.
  intros H. unfold tunnel_mode. set (a := attempt (tries w)).
  pose proof (run_tunnel_settles read_secret sha256 pki networks platform (forkpty a) (execvp a) (launch a)
    (getfl a) (setfl a) (set_nonblocking a) (ticks a) config (host w) H) as Hk.
  by destruct (run_tunnel _ _ _ _ _ _ _ _ _ _ _ _ _ _) as [r h].
Qed.

(** ** Properties *)

(** C5: The program leaves nothing behind.  However often it tries, reconnects
    and is asked to run again, in whichever mode and with whatever outcome of
    each attempt: when it is over, every connection that was made to the
    gateway was dropped, and every PPP process that was started was put to its
    end: it got the signals it took until it was over, unless [waitpid] would
    not say. *)
Theorem client_settles environments set_handler version cli confirms p p' :
  settled (host (p_world p)) →
  client_main environments set_handler version cli confirms p = (Ok tt, p') →
  settled (host (p_world p')).
Proof.
  intros H E. pose proof (main_keeps proxy_mode tunnel_mode look_at_flag (λ w, w) (λ w, w) read_secret environments
    set_handler version cli (λ w, settled (host w))) as Hk.
  unfold client_main in E. specialize (Hk (λ config w Hw, ltac:(unfold mode; case_bool_decide;
    [by apply tunnel_mode_settles|by apply proxy_mode_settles]))).
  specialize (Hk ltac:(intros w Hw; unfold look_at_flag; by destruct (flags w)) (λ _ Hw, Hw) (λ _ Hw, Hw) confirms p H).
  rewrite E in Hk. by apply Hk.
Qed.
End Client.

(** ** A run of the program *)

(** Every attempt finds a process that has to be killed, and a user who asks to
    stop after a while. *)
Definition demo_surroundings : surroundings :=
  {| forkpty := None; execvp := λ _ _, true; launch := λ _, demo_pppd; getfl := None; setfl := None;
     set_nonblocking := Ok tt; ticks := demo_ticks; proxy_host := ProxyMode.demo_host;
     proxy_clock := midnight; proxy_stops := [true] |}.

Definition demo_options : Cli := no_options <| cli_gateway := Some "vpn.example" |> <| cli_username := Some "u" |>
  <| cli_password := Some "p" |> <| cli_insecure_ssl := true |> <| cli_no_dns := true |> <| cli_max_reconnects := Some 1 |>.

Definition demo_start : program client :=
  {| p_world := {| host := demo_tunnel_host; tries := 0; flags := [] |}; runs := 0; handlers := 0; printed := [] |}.

Definition demo_client : result unit * program client :=
  client_main (Handle:=nat) no_secret (λ l, l) demo_pki demo_vpn (Some Linux) (λ _, demo_surroundings)
    (λ _, demo_environment) one_handler "0.1.0" demo_options [Some true; Some false] demo_start.

(** The first attempt runs a tunnel until the user stops it, the second one is
    refused, and the user's wish to run again fails at the handler of Ctrl-C. *)
Example client_demo :
  let '(r, p) := demo_client in
  let w := host (p_world p) in
  r = Ok tt ∧ tries (p_world p) = 2%nat ∧ made (dialing w) = 4%nat ∧
  map signals (processes w) = [[(SIGTERM, 0); (SIGKILL, 5000)]] ∧
  printed p =
    ["Disconnected: authentication error: gateway did not return SVPNCOOKIE";
     "Disconnected: network configuration error: failed to install Ctrl-C handler: Ctrl-C error: Ctrl-C signal handler already registered"].
Proof. vm_compute. split_and!; reflexivity. Qed.

#[local] Strategy expand [demo_client].

Lemma client_settles_witness :
  let w := host (p_world (snd demo_client)) in
  made (dialing w) = 4%nat ∧ length (spawned w) = 1%nat ∧ settled w.
Proof.
  cbv zeta. split; [vm_compute; reflexivity|]. split; [vm_compute; reflexivity|].
  assert (fst demo_client = Ok tt) as E by (vm_compute; reflexivity).
  destruct demo_client as [r p] eqn:Erun. cbn [fst snd] in *. subst r.
  unfold demo_client in Erun.
  exact (client_settles (Interface:=unit) (Sockets:=toys) (Handle:=nat) no_secret (λ l, l) demo_pki demo_vpn (Some Linux) (λ _, demo_surroundings)
    (λ _, demo_environment) one_handler "0.1.0" demo_options [Some true; Some false] demo_start p (conj eq_refl (List.Forall2_nil _)) Erun).
Defined.
