(* ===== verification/Diagnostics.v ===== *)
(** * What [http.rs], [auth/login.rs] and [auth/portal.rs] write to the debug log

    The previews of requests and responses, and that the log of an exchange
    tells the names of cookies and nothing of their values.  A function that
    only logs is modelled by the list of its debug messages. *)

From S2P Require Import Prelude Stream RustStd Config Http Portal Login.

#[local] Open Scope string_scope.
#[local] Open Scope list_scope.
#[local] Open Scope Z_scope.

(** ** Requests *)

Definition request_header_preview (host method path : str) (hs : list header) (body_len : usize) : str :=
  let user_agent := default "openfortivpn-rs" (header_value_in hs "User-Agent") in
  let content_type := default "application/x-www-form-urlencoded" (header_value_in hs "Content-Type") in
  let cookie_names :=
    default [] (cookie_names_from_cookie_header <$> header_value_in hs "Cookie") in
  let cookie_preview :=
    match cookie_names with
    | [] => "<empty>"
    | _ => str_join "; " (map (λ name, name +:+ "=<redacted>") cookie_names)
    end in
  str_join " | "
    [method +:+ " " +:+ path +:+ " HTTP/1.1"; "Host: " +:+ host; "User-Agent: " +:+ user_agent; "Accept: */*";
     "Accept-Encoding: identity"; "Pragma: no-cache"; "Cache-Control: no-store, no-cache, must-revalidate";
     "If-Modified-Since: Sat, 1 Jan 2000 00:00:00 GMT"; "Content-Type: " +:+ content_type;
     "Cookie: " +:+ cookie_preview; "Content-Length: " +:+ print_uint body_len].

(** The messages of [do_http_request] before the request is sent. *)
Definition request_log (host method path : str) (hs : list header) (body_len : usize) : list str :=
  ["HTTP request: " +:+ method +:+ " " +:+ path;
   "HTTP request header preview: " +:+ request_header_preview host method path hs body_len]
  ++ match header_value_in hs "Cookie" with
     | Some cookie =>
         match cookie_names_from_cookie_header cookie with
         | [] => []
         | names => ["HTTP request cookies: " +:+ str_join ", " names]
         end
     | None => []
     end.

(** Those behind its response. *)
Definition response_log (method path : str) (response : HttpResponse) : list str :=
  ["HTTP response: " +:+ method +:+ " " +:+ path +:+ " -> " +:+ print_uint (status_code response) +:+ " "
     +:+ reason response]
  ++ match set_cookie_names response with
     | [] => []
     | names => ["HTTP response set-cookie names: " +:+ str_join ", " names]
     end.

(** ** Bodies *)

(** [chars]: the characters of UTF-8 text, each as its bytes. *)
Fixpoint chars_fuel (fuel : nat) (l : bytes) : list bytes :=
  match l, fuel with
  | [], _ | _, O => []
  | _, S fuel => let n := snd (utf8_char l) in take n l :: chars_fuel fuel (drop n l)
  end.
Definition chars (l : bytes) : list bytes := chars_fuel (length l) l.

(** [char::is_control]: C0, DEL and C1. *)
Definition is_control (c : bytes) : bool :=
  match c with
  | [b] => (b <? 32) || (b =? 127)
  | [a; b] => (a =? 0xc2) && in_range 0x80 0x9f b
  | _ => false
  end.

Definition is_line_white (c : bytes) : bool :=
  match c with [b] => (b =? 10) || (b =? 13) || (b =? 9) | _ => false end.

Definition body_preview (max_chars : nat) (self : HttpResponse) : option str :=
  body ← body_as_str self;
  let body := trim body in
  if str_is_empty body then None else
  let preview :=
    map (λ ch, if is_control ch && negb (is_line_white ch) then [32] else ch) (take max_chars (chars (as_bytes body))) in
  Some (string_of_bytes (concat (map (λ ch, if is_line_white ch then [32] else ch) preview))).

Definition log_http_error_context (path : str) (response : HttpResponse) : list str :=
  match header_names response with
  | [] => []
  | names => ["HTTP error response headers for " +:+ path +:+ ": " +:+ str_join ", " names]
  end
  ++ match body_preview 512 response with
     | Some preview => ["HTTP error response body preview for " +:+ path +:+ ": " +:+ preview]
     | None => []
     end.

Definition AUTH_MARKERS : list str :=
  ["ret="; "tokeninfo="; "reqid="; "polid="; "grp="; "portal="; "magic="; "peer="; "action="].

Definition log_auth_response_summary (path : str) (response : HttpResponse) : list str :=
  let body := default "" (body_as_str response) in
  let markers := map (trim_end_matches "="%char) (List.filter (λ key, str_contains key body) AUTH_MARKERS) in
  let cookie_names := set_cookie_names response in
  let parts :=
    match markers with [] => [] | _ => ["markers: " +:+ str_join ", " markers] end
    ++ match cookie_names with [] => [] | _ => ["set-cookie: " +:+ str_join ", " cookie_names] end
    ++ match body_preview 512 response with Some preview => ["body-preview: " +:+ preview] | None => [] end in
  match parts with
  | [] => []
  | _ => ["auth response summary for " +:+ path +:+ ": " +:+ str_join "; " parts]
  end.

(** ** Cookies as they are sent *)

Definition cookie_text (c : str * str) : str := fst c +:+ "=" +:+ snd c.
Definition cookies_text (l : list (str * str)) : str := str_join "; " (map cookie_text l).

Definition token_char (c : ascii) : bool := visible (u8_of_ascii c) && negb (Ascii.eqb c ";"%char).

Definition name_token_char (c : ascii) : bool := token_char c && negb (Ascii.eqb c "="%char).

(** A name and a value of visible characters without a semicolon, and a name
    without an equals sign. *)
Definition cookie_ok (c : str * str) : Prop :=
  fst c ≠ "" ∧ snd c ≠ "" ∧ all_chars name_token_char (fst c) = true ∧
  all_chars token_char (snd c) = true.

Lemma token_text s : all_chars token_char s = true → all_chars printable s = true ∧ no_outer_space s.
Proof.
  intros H. split; [by apply (chars_impl token_char printable)|].
  pose proof (all_chars_bytes token_char visible s ltac:(vm_compute; reflexivity) H) as Hb. split.
  - destruct s as [|c s]; [done|]. cbn in H. apply andb_true_iff in H as [Hc _]. rewrite starts_with_char.
    apply (char_impl token_char (λ c, negb (Ascii.eqb " " c))) in Hc; [|done]. by apply negb_true_iff.
  - rewrite ends_with_space. destruct (last (as_bytes s)) as [b|] eqn:E; [|done].
    apply last_Some in E as [l E]. rewrite E in Hb. apply Forall_app in Hb as [_ Hb]. apply Forall_inv in Hb.
    apply Z.eqb_neq. intros ->. discriminate.
Qed.

Lemma cookie_text_ok c : cookie_ok c →
  all_chars token_char (cookie_text c) = true ∧ named_cookie (cookie_text c) = Some (fst c).
Proof.
  intros (Hn & Hv & Cn & Cv). unfold cookie_text. change ("=" +:+ snd c) with (String "=" (snd c)). split.
  - rewrite all_chars_app, (chars_impl name_token_char token_char (fst c) eq_refl Cn). cbn [all_chars].
    by rewrite Cv.
  - unfold named_cookie.
    rewrite split_once_app by (by eapply chars_impl; [|exact Cn]).
    destruct (fst c), (snd c); done.
Qed.

Lemma token_no_semicolon s : all_chars token_char s = true → all_chars (λ c, negb (Ascii.eqb c ";"%char)) s = true.
Proof. by apply chars_impl. Qed.

Lemma cookie_names_pieces l : Forall cookie_ok l → l ≠ [] →
  omap (λ cookie, named_cookie (trim cookie)) (str_split ";"%char (String " " (cookies_text l))) = map fst l ∧
  omap (λ cookie, named_cookie (trim cookie)) (str_split ";"%char (cookies_text l)) = map fst l.
Proof.
  unfold cookies_text. induction 1 as [|c l Hc Hl IH]; [done|]. intros _.
  destruct (cookie_text_ok c Hc) as [Ht Hn]. destruct (token_text _ Ht) as [Hp Ho].
  pose proof (token_no_semicolon _ Ht) as Hs.
  assert (all_chars (λ c, negb (Ascii.eqb c ";"%char)) (String " " (cookie_text c)) = true) as Hs' by exact Hs.
  destruct l as [|d l]; cbn [map str_join].
  - rewrite !str_split_whole by done. cbn [omap list_omap]. by rewrite trim_leading_space, trim_printable, Hn by done.
  - destruct IH as [IH1 IH2]; [done|]. cbn [map str_join] in IH1, IH2.
    change ("; " +:+ ?s) with (String ";" (String " " s)).
    change (String " " (cookie_text c +:+ ?s)) with (String " " (cookie_text c) +:+ s).
    rewrite !str_split_app by done. cbn [omap list_omap].
    rewrite trim_leading_space, trim_printable, Hn by done. split; f_equal; exact IH1.
Qed.

(** The names of a cookie header are read back. *)
Lemma cookie_names_read l : Forall cookie_ok l → cookie_names_from_cookie_header (cookies_text l) = map fst l.
Proof.
  intros H. destruct l as [|c l]; [reflexivity|]. by apply (cookie_names_pieces (c :: l)).
Qed.

Lemma header_value_hidden hs1 hs2 name v v' : header_is name ("Cookie", v) = false →
  header_value_in (hs1 ++ ("Cookie", v) :: hs2) name = header_value_in (hs1 ++ ("Cookie", v') :: hs2) name.
Proof.
  intros Hn. unfold header_value_in, header_value.
  induction hs1 as [|h hs1 IH]; cbn [app List.find].
  - assert (header_is name ("Cookie", v') = false) as -> by exact Hn. by rewrite Hn.
  - by destruct (header_is name h).
Qed.

Lemma header_value_found hs1 hs2 v : header_value_in hs1 "Cookie" = None →
  header_value_in (hs1 ++ ("Cookie", v) :: hs2) "Cookie" = Some v.
Proof.
  unfold header_value_in, header_value. induction hs1 as [|h hs1 IH]; cbn [app List.find]; [done|].
  by destruct (header_is "Cookie" h).
Qed.

(** C40: The log of a request tells nothing of the values of its cookies: requests
    whose cookies have the same names are logged alike, whatever the values
    are, among them the cookie of the session. *)
Theorem request_log_hides_cookies host method path hs1 hs2 l l' n :
  header_value_in hs1 "Cookie" = None → Forall cookie_ok l → Forall cookie_ok l' → map fst l = map fst l' →
  request_log host method path (hs1 ++ ("Cookie", cookies_text l) :: hs2) n =
    request_log host method path (hs1 ++ ("Cookie", cookies_text l') :: hs2) n.
Proof.
  intros H1 Hl Hl' Hn. unfold request_log, request_header_preview. rewrite !header_value_found by done.
  cbn [fmap option_fmap option_map default].
  rewrite (header_value_hidden _ _ "User-Agent" _ (cookies_text l')), (header_value_hidden _ _ "Content-Type" _ (cookies_text l'))
    by reflexivity.
  by rewrite !cookie_names_read, Hn by done.
Qed.

(** ** The log of a response *)

(** A header that sets a cookie: attributes may follow the pair. *)
Definition set_cookie (c : str * str) (attributes : str) : header :=
  ("Set-Cookie", cookie_text c +:+ String ";" attributes).

Lemma set_cookie_name c attributes : cookie_ok c →
  cookie_name_from_set_cookie_header (snd (set_cookie c attributes)) = Some (fst c).
Proof.
  intros Hc. destruct (cookie_text_ok c Hc) as [Ht Hn]. destruct (token_text _ Ht) as [Hp Ho].
  unfold cookie_name_from_set_cookie_header, cookie_part, set_cookie. cbn [snd].
  rewrite split_once_app by (by apply token_no_semicolon). by rewrite trim_printable.
Qed.

(** Nor does the log of a response tell the values of the cookies it sets. *)
Lemma response_log_hides_cookies method path code why content hs (l l' : list (str * str)) attributes :
  Forall cookie_ok l → Forall cookie_ok l' → map fst l = map fst l' →
  let response l := {| status_code := code; reason := why; body := content;
                       headers := hs ++ map (λ c, set_cookie c attributes) l |} in
  response_log method path (response l) = response_log method path (response l').
Proof.
  intros Hl Hl' Hn response. unfold response_log. cbn [status_code reason].
  assert (∀ l, Forall cookie_ok l →
    set_cookie_names (response l) = omap cookie_name_from_set_cookie_header (map snd (List.filter (header_is "Set-Cookie") hs))
      ++ map fst l) as Hnames.
  { intros k Hk. unfold set_cookie_names, headers_of, response. cbn [headers].
    rewrite List.filter_app, map_app, omap_app. f_equal.
    induction Hk as [|c k Hc _ IH]; [done|]. cbn [map List.filter]. change (header_is _ (set_cookie c attributes)) with true.
    cbn [map omap list_omap]. by rewrite set_cookie_name, IH. }
  by rewrite !Hnames, Hn.
Qed.

(** ** Previews *)

Definition one_line (b : u8) : Prop := 32 <= b ∧ b ≠ 127.

(** The bytes of a character are one, or all above 127. *)
Definition charlike (ch : bytes) : Prop := (∃ b, ch = [b]) ∨ Forall (λ b, 128 <= b) ch.

Lemma utf8_char_bytes l : l ≠ [] → charlike (take (snd (utf8_char l)) l).
Proof.
  intros Hl. destruct l as [|a l]; [done|]. unfold utf8_char. cbn [nth]. unfold cont, in_range.
  destruct l as [|b [|c [|d l]]]; cbn [nth]; unfold charlike;
    repeat (match goal with |- context [if ?x then _ else _] => destruct x eqn:? end; zbool; cbn [snd take]);
    try (by left; eexists);
    right; repeat (constructor; [|]); try constructor;
    repeat (match goal with H : (if ?x then _ else _) = _ |- _ => destruct x end); lia.
Qed.

Lemma chars_charlike l : Forall charlike (chars l).
Proof.
  unfold chars. generalize (length l). intros fuel. revert l. induction fuel as [|fuel IH]; intros [|b l];
    cbn [chars_fuel]; try constructor; [|apply IH]. by apply utf8_char_bytes.
Qed.

Lemma chars_are_bytes l : is_bytes l → Forall is_bytes (chars l).
Proof.
  unfold chars. generalize (length l). intros fuel. revert l. induction fuel as [|fuel IH]; intros [|b l] Hl;
    cbn [chars_fuel]; try constructor; [by apply Forall_take|]. by apply IH, Forall_drop.
Qed.

(** A preview is one line of the log, whatever the gateway sent: it has no
    control character of ASCII in it. *)
Theorem body_preview_one_line max_chars response preview :
  body_preview max_chars response = Some preview → Forall one_line (as_bytes preview).
Proof.
  unfold body_preview. destruct (body_as_str response) as [text|]; [|done]. cbn [mbind option_bind].
  destruct (str_is_empty (trim text)); [done|]. intros [= <-]. rewrite map_map.
  set (f := λ ch, if is_line_white (if is_control ch && negb (is_line_white ch) then [32] else ch) then [32]
                  else if is_control ch && negb (is_line_white ch) then [32] else ch).
  assert (∀ ch, charlike ch → is_bytes ch → is_bytes (f ch) ∧ Forall one_line (f ch)) as Hf.
  { assert (is_bytes [32] ∧ Forall one_line [32]) as Hblank by (split; repeat constructor; cbv; congruence).
    intros ch Hch Hb. unfold f.
    destruct (is_control ch && negb (is_line_white ch)) eqn:Ec; [exact Hblank|].
    destruct (is_line_white ch) eqn:Ew; [exact Hblank|]. split; [done|].
    destruct Hch as [[b ->]|Hch].
    - cbn [negb] in Ec. rewrite andb_true_r in Ec. apply orb_false_iff in Ec as [E1%Z.ltb_ge E2%Z.eqb_neq].
      by constructor.
    - eapply Forall_impl; [exact Hch|]. intros b Hge. cbn in Hge. unfold one_line. lia. }
  assert (∀ l, Forall charlike l → Forall is_bytes l →
    is_bytes (concat (map f l)) ∧ Forall one_line (concat (map f l))) as Hl.
  { induction 1 as [|ch l Hch _ IH]; [split; constructor|]. intros Hb. apply Forall_cons in Hb as [Hb Hbs].
    destruct (Hf ch Hch Hb) as [H1 H2], (IH Hbs) as [H3 H4]. split; by apply Forall_app. }
  destruct (Hl (take max_chars (chars (as_bytes (trim text))))) as [H1 H2].
  - by apply Forall_take, chars_charlike.
  - by apply Forall_take, chars_are_bytes, as_bytes_range.
  - by rewrite as_bytes_of_bytes.
Qed.

(** ** Witnesses *)

Lemma request_log_hides_cookies_witness :
  request_log "vpn.example" "GET" "/remote/index" [("Cookie", "SVPNCOOKIE=secret; lang=en")] 0 =
    request_log "vpn.example" "GET" "/remote/index" [("Cookie", "SVPNCOOKIE=another; lang=de")] 0.
Proof.
  apply (request_log_hides_cookies "vpn.example" "GET" "/remote/index" [] []
    [("SVPNCOOKIE", "secret"); ("lang", "en")] [("SVPNCOOKIE", "another"); ("lang", "de")] 0);
    [reflexivity| | |reflexivity]; repeat constructor; (discriminate || reflexivity).
Defined.

Example request_preview_demo :
  last (request_log "vpn.example" "GET" "/" [("Cookie", "SVPNCOOKIE=secret")] 0) = Some "HTTP request cookies: SVPNCOOKIE".
Proof. vm_compute. reflexivity. Qed.

Example body_preview_demo :
  body_preview 512 {| status_code := 403; reason := "Forbidden"; headers := [];
    body := as_bytes ("<html>" +:+ String newline ("denied" +:+ String (ascii_of_u8 9) "</html>")) |} =
    Some "<html> denied </html>".
Proof. vm_compute. reflexivity. Qed.
