(* ===== verification/Conformance.v ===== *)
(** * The unit tests of the program, on the model

    The tests that stand in the source files under [#[cfg(test)]], evaluated on
    the definitions of this library, under the names they have there: the model
    of a function has the outcomes that the authors expect of the function.
    Tests that need the option parser, a socket of the system or the code of
    smoltcp and sha2 have no counterpart. *)

From S2P Require Import Prelude Stream RustStd Hdlc Packet Io Forward PppEngine Net NetStack Config Http Portal RouteTable.
From S2P Require Import NetPlan Dns Socks5 Runtime NetApply Login Pinentry Console Tls Session Pppd Saml Main Diagnostics.

#[local] Open Scope string_scope.
#[local] Open Scope list_scope.
#[local] Open Scope Z_scope.

(** ** Texts and streams *)

(** Text with a circumflex for every double quote. *)
Fixpoint quoting (s : str) : str :=
  match s with
  | "" => ""
  | String c s => String (if Ascii.eqb c "^"%char then ascii_of_u8 34 else c) (quoting s)
  end.

(** Lines, each with its end. *)
Definition unix_lines (l : list str) : str := foldr (λ s acc, s +:+ String newline acc) "" l.
Definition dos_lines (l : list str) : str := foldr (λ s acc, s +:+ crlf +:+ acc) "" l.

Definition text_of (l : bytes) : str := default "" (from_utf8 l).

(** A stream that answers what it is given and takes what is written. *)
Definition mock (reads : list str) : connection :=
  {| conn_r := map (λ s, RBytes (as_bytes s)) reads; conn_w := vec_writer [] |}.

Definition sent_text (c : connection) : str := text_of (written (conn_w c)).

Definition response_text (status : u16) (why : str) (hs : list header) (content : str) : str :=
  dos_lines (["HTTP/1.1 " +:+ print_uint status +:+ " " +:+ why; "Content-Length: " +:+ print_uint (str_len content)]
             ++ map (λ h, fst h +:+ ": " +:+ snd h) hs ++ [""]) +:+ content.

(** How often a text occurs. *)
Definition occurrences (pat s : str) : nat := pred (length (split_str pat s)).

(** The packet of the first frame. *)
Definition decode_first (buf : bytes) : result bytes :=
  let* '(n, first) := find_frame buf 0 in decode (take (Z.to_nat n) (drop (Z.to_nat first) buf)).

(** Evaluation of a test. *)
Ltac run_test := vm_compute; repeat (match goal with |- _ ∧ _ => split end); reflexivity.

(** ** [hdlc.rs] *)

Example encode_decode_round_trip :
  let packet := [0x80; 0x21; 0x01; 0x7d; 0x7e; 0x00; 0x1f; 0x20; 0xff] in
  let '(frame, _) := encode Hdlc.new packet in
  head frame = Some 0x7e ∧ last frame = Some 0x7e ∧
  decode_first frame = Ok packet.
Proof. run_test. Qed.

Example subsequent_frames_omit_initial_flag :
  let '(first, codec) := encode Hdlc.new [0x80; 0x21] in
  let '(second, _) := encode codec [0x80; 0x21] in
  head first = Some 0x7e ∧ bool_decide (head second = Some 0x7e) = false ∧ last second = Some 0x7e.
Proof. run_test. Qed.

Example detects_bad_checksum :
  let '(frame, _) := encode Hdlc.new [0x80; 0x21; 0x01] in
  let frame := alter (λ b, Z.lxor b 0x01) (length frame - 2)%nat frame in
  decode_first frame = Err HdlcBadChecksum.
Proof. run_test. Qed.

Example ignores_empty_frames :
  let '(encoded, _) := encode Hdlc.new [0x80; 0x21] in
  let buf := [0x7e; 0x7e] ++ encoded in
  decode_first buf = Ok [0x80; 0x21].
Proof. run_test. Qed.

(** ** [tunnel/packet.rs] *)

Example encodes_tls_packet_header_like_c_code :
  let packet := {| data := [0x80; 0x21; 0x01] |} in
  let encoded := [0x00; 0x09; 0x50; 0x50; 0x00; 0x03; 0x80; 0x21; 0x01] in
  encode_for_tls packet = Ok encoded ∧ decode_from_tls_frame encoded = Ok packet.
Proof. run_test. Qed.

Example rejects_bad_magic : is_ok (decode_from_tls_frame [0x00; 0x07; 0x50; 0x51; 0x00; 0x01; 0x00]) = false.
Proof. run_test. Qed.

Example detects_ipcp_negotiation_packets :
  is_end_negotiation {| data := [0x80; 0x21; 0x01; 0x00; 0x00; 0x04] |} = Ok true ∧
  is_ip_plus_dns {| data := [0x80; 0x21; 0x02; 0; 0; 0; 0x03; 0; 0; 0; 0; 0] |} = Ok true.
Proof. run_test. Qed.

Example extracts_ipcp_ipv4_address_option :
  ipcp_ipv4_address {| data := [0x80; 0x21; 0x02; 0x7a; 0x00; 0x0a; 0x03; 0x06; 10; 212; 134; 201] |} =
    Ok (Some (Ipv4 10 212 134 201)).
Proof. run_test. Qed.

(** ** [tunnel/io.rs] *)

Example sends_start_tunnel_request_like_c :
  let '(r, w) := send_start_tunnel_request "SVPNCOOKIE=abc" (vec_writer []) in
  r = Ok tt ∧
  text_of (written w) = dos_lines ["GET /remote/sslvpn-tunnel HTTP/1.1"; "Host: sslvpn"; "Cookie: SVPNCOOKIE=abc"; ""].
Proof. run_test. Qed.

Example reads_and_writes_tls_packet :
  let packet := {| data := [0x80; 0x21; 0x01] |} in
  let '(r, w) := write_tls_packet packet (vec_writer []) in
  r = Ok tt ∧ fst (read_tls_packet [RBytes (written w)]) = Ok packet.
Proof. run_test. Qed.

Example rejects_http_response_in_tunnel_stream :
  fst (read_tls_packet [RBytes (as_bytes (dos_lines ["HTTP/1.1 403 Forbidden"; ""]))]) = Err PermissionDenied.
Proof. run_test. Qed.

Example decodes_multiple_pppd_frames_and_keeps_partial_tail :
  let '(first, codec) := encode Hdlc.new [0x80; 0x21; 0x01] in
  let '(second, _) := encode codec [0x80; 0x21; 0x02] in
  let '(packets, decoder) := push_bytes {| buffer := [] |} (first ++ second ++ [0x7e; 0xff]) in
  packets = Ok [{| data := [0x80; 0x21; 0x01] |}; {| data := [0x80; 0x21; 0x02] |}] ∧ len (buffer decoder) = 3.
Proof. run_test. Qed.

(** ** [tunnel/forward.rs] *)

(** A writer that takes two bytes of every write. *)
Example write_queue_handles_partial_writes :
  let queue := push_chunk {| chunks := []; offset := 0 |} [1; 2; 3; 4] in
  let '(r, (queue, w)) := write_available queue {| written := []; w_script := [WAccept 2; WAccept 2] |} in
  r = Ok tt ∧ chunks queue = [] ∧ written w = [1; 2; 3; 4].
Proof. run_test. Qed.

Example tls_packet_stream_decoder_handles_partial_frames :
  let encoded := tls_frame [0x80; 0x21; 0x01] in
  let '(none, decoder) := tls_push_bytes {| tls_buffer := [] |} (take 3 encoded) in
  none = Ok [] ∧ fst (tls_push_bytes decoder (drop 3 encoded)) = Ok [{| data := [0x80; 0x21; 0x01] |}].
Proof. run_test. Qed.

(** ** [tunnel/ppp_engine.rs] *)

Definition control (protocol : u16) (code identifier : u8) (options : bytes) : PppPacket :=
  {| data := u16_to_be protocol ++ [code; identifier] ++ u16_to_be (PPP_CONTROL_HEADER_LEN + len options) ++ options |}.

(** [drain_outgoing], what is left behind, and a packet that is handled. *)
Definition drained (e : PppEngine) : PppEngine := set_outgoing [] e.
Definition handled_packet (p : PppPacket) (e : PppEngine) : PppEngine := snd (handle_incoming p e).

Definition lcp_ack : PppPacket := control PROTOCOL_LCP CODE_CONFIGURE_ACK 1 [LCP_OPTION_MRU; 4; 0x05; 0x4a].
Definition ipcp_nak : PppPacket := control PROTOCOL_IPCP CODE_CONFIGURE_NAK 2 [IPCP_OPTION_IP_ADDRESS; 6; 10; 0; 0; 42].

Definition awaiting_ipcp : PppEngine := handled_packet lcp_ack (drained (start PppEngine.new)).

Definition heads (n : nat) (e : PppEngine) : list bytes := map (λ p, take n (data p)) (outgoing e).
Definition options_of (e : PppEngine) : list bytes := map (λ p, drop 6 (data p)) (outgoing e).

Example start_sends_lcp_configure_request :
  let e := start PppEngine.new in
  heads 4 e = [[0xc0; 0x21; CODE_CONFIGURE_REQUEST; 1]] ∧ options_of e = [[LCP_OPTION_MRU; 4; 0x05; 0x4a]].
Proof. run_test. Qed.

Example acks_peer_lcp_configure_request :
  let request := control PROTOCOL_LCP CODE_CONFIGURE_REQUEST 7 [LCP_OPTION_MRU; 4; 0x05; 0x4a] in
  let '(events, e) := handle_incoming request PppEngine.new in
  events = Ok [] ∧
  heads 4 e = [[0xc0; 0x21; CODE_CONFIGURE_ACK; 7]; [0xc0; 0x21; CODE_CONFIGURE_REQUEST; 1]] ∧
  head (options_of e) = Some [LCP_OPTION_MRU; 4; 0x05; 0x4a].
Proof. run_test. Qed.

Example lcp_ack_starts_ipcp_request :
  heads 4 awaiting_ipcp = [[0x80; 0x21; CODE_CONFIGURE_REQUEST; 2]] ∧
  options_of awaiting_ipcp = [[IPCP_OPTION_IP_ADDRESS; 6; 0; 0; 0; 0]].
Proof. run_test. Qed.

Example ipcp_nak_updates_requested_ip_and_retries :
  let e := handled_packet ipcp_nak (drained awaiting_ipcp) in
  heads 4 e = [[0x80; 0x21; CODE_CONFIGURE_REQUEST; 3]] ∧ options_of e = [[IPCP_OPTION_IP_ADDRESS; 6; 10; 0; 0; 42]].
Proof. run_test. Qed.

Example ipcp_ack_opens_link :
  let ack := control PROTOCOL_IPCP CODE_CONFIGURE_ACK 3 [IPCP_OPTION_IP_ADDRESS; 6; 10; 0; 0; 42] in
  let '(events, e) := handle_incoming ack (drained (handled_packet ipcp_nak (drained awaiting_ipcp))) in
  events = Ok [Up (Ipv4 10 0 0 42) None []] ∧ local_ip e = Some (Ipv4 10 0 0 42) ∧ is_open e = true.
Proof. run_test. Qed.

Example echo_request_gets_echo_reply :
  let e := handled_packet (control PROTOCOL_LCP CODE_ECHO_REQUEST 9 ([0; 0; 0; 1] ++ as_bytes "ping")) PppEngine.new in
  heads 4 e = [[0xc0; 0x21; CODE_ECHO_REPLY; 9]] ∧ options_of e = [[0; 0; 0; 0] ++ as_bytes "ping"].
Proof. run_test. Qed.

Example unsupported_protocol_gets_protocol_reject :
  let e := handled_packet {| data := [0x80; 0xfd; 0x01; 0x02] |} PppEngine.new in
  heads 3 e = [[0xc0; 0x21; CODE_PROTOCOL_REJECT]] ∧ options_of e = [[0x80; 0xfd; 0x01; 0x02]].
Proof. run_test. Qed.

Example extracts_ipv4_payload_from_ppp_packet :
  fst (handle_incoming {| data := [0x00; 0x21; 0x45; 0x00; 0x00; 0x14] |} PppEngine.new) =
    Ok [Ipv4Packet [0x45; 0x00; 0x00; 0x14]].
Proof. run_test. Qed.

Example encodes_ipv4_payload_as_ppp_packet :
  encode_ipv4_packet [0x45; 0x00; 0x00; 0x14] = Ok {| data := [0x00; 0x21; 0x45; 0x00; 0x00; 0x14] |}.
Proof. run_test. Qed.

Example rejects_non_ipv4_payload : is_ok (encode_ipv4_packet [0x60; 0x00]) = false.
Proof. run_test. Qed.

(** ** [proxy/dns.rs] *)

Example builds_tcp_a_query :
  match build_tcp_query 0x1234 "internal.example" with
  | Ok query => take 4 query = [0x00; 0x22; 0x12; 0x34] ∧ is_Some (position_bytes [0x00; DNS_TYPE_A] query)
  | _ => False
  end.
Proof. vm_compute. split; [reflexivity|by eexists]. Qed.

Example parses_compressed_a_response :
  parse_tcp_response
    ([0x00; 0x32; 0x12; 0x34; 0x81; 0x80; 0x00; 0x01; 0x00; 0x01; 0x00; 0x00; 0x00; 0x00; 0x08] ++ as_bytes "internal"
     ++ [0x07] ++ as_bytes "example" ++ [0x00; 0x00; 0x01; 0x00; 0x01]
     ++ [0xc0; 0x0c; 0x00; 0x01; 0x00; 0x01; 0x00; 0x00; 0x00; 0x3c; 0x00; 0x04; 10; 32; 228; 1]) 0x1234 =
    Ok [Ipv4 10 32 228 1].
Proof. run_test. Qed.

(** ** [proxy/socks5.rs] *)

Example reads_ipv4_connect_request :
  let '(request, c) := read_connect_request
    {| conn_r := [RBytes [0x05; 0x01; 0x00; 0x05; 0x01; 0x00; 0x01; 10; 10; 0; 5; 0x01; 0xbb]]; conn_w := vec_writer [] |} in
  request = Ok {| Socks5.target := TargetIpv4 (Ipv4 10 10 0 5); Socks5.port := 443 |} ∧
  written (conn_w c) = [0x05; 0x00].
Proof. run_test. Qed.

Example reads_domain_connect_request :
  let '(request, c) := read_connect_request
    {| conn_r := [RBytes ([0x05; 0x01; 0x00; 0x05; 0x01; 0x00; 0x03; 7] ++ as_bytes "example" ++ [0x00; 0x50])];
       conn_w := vec_writer [] |} in
  request = Ok {| Socks5.target := TargetDomain "example"; Socks5.port := 80 |} ∧ written (conn_w c) = [0x05; 0x00].
Proof. run_test. Qed.

Example writes_success_response :
  written (conn_w (snd (write_success (Ipv4 127 0 0 1) 1080 (mock [])))) = [0x05; 0x00; 0x00; 0x01; 127; 0; 0; 1; 0x04; 0x38].
Proof. run_test. Qed.

(** ** [proxy/route_table.rs] *)

Definition corp_vpn (routes : list Ipv4Route) : VpnConfigXml :=
  {| raw_xml := ""; gateway := Some "10.212.134.200"; assigned_ip := Some "10.212.134.200"; dns_servers := ["10.0.0.10"];
     dns_suffix := Some "corp.example"; split_routes := routes |}.

Definition corp_route : Ipv4Route :=
  {| destination := "10.10.0.0"; mask := "255.255.0.0"; route_gateway := Some "10.212.134.200" |}.

(** Which of the addresses the table admits. *)
Definition admits (config : Config) (vpn : VpnConfigXml) (addrs : list Ipv4Addr) : result (list bool * Z) :=
  let* table := RouteTable.from_config config vpn in
  let* admitted := foldr (λ a acc, let* acc := acc in let* b := can_route table a in Ok (b :: acc)) (Ok []) addrs in
  Ok (admitted, len (RouteTable.routes table)).

Example split_routes_allow_only_matching_destinations :
  admits default_config (corp_vpn [corp_route]) [Ipv4 10 10 25 1; Ipv4 10 11 25 1] = Ok ([true; false], 1).
Proof. run_test. Qed.

Example default_route_allows_any_destination_when_no_split_routes :
  admits default_config (corp_vpn []) [Ipv4 10 10 25 1; Ipv4 8 8 8 8] = Ok ([true; true], 1).
Proof. run_test. Qed.

Example half_internet_routes_cover_full_ipv4_space :
  admits (default_config <| half_internet_routes := true |>) (corp_vpn []) [Ipv4 10 10 25 1; Ipv4 200 1 2 3] =
    Ok ([true; true], 2).
Proof. run_test. Qed.

Example no_routes_disables_proxy_routing :
  admits (default_config <| set_routes := false |>) (corp_vpn []) [Ipv4 10 10 25 1] = Ok ([false], 0).
Proof. run_test. Qed.

(** ** [proxy/runtime.rs] *)

Example queue_helpers_preserve_order :
  drain_chunk [1; 2; 3; 4] 3 = ([1; 2; 3], [4]) ∧ push_front_bytes [4] [8; 9] = [8; 9; 4].
Proof. run_test. Qed.

(** ** [auth/portal.rs] *)

Definition vpn_example : Config := default_config <| gateway_host := "vpn.example" |>.
Definition empty_ok : str := response_text 200 "OK" [] "".

Example requests_vpn_allocation_endpoints_with_cookie :
  let '(r, c) := request_vpn_allocation vpn_example "SVPNCOOKIE=abc" None (mock [empty_ok; empty_ok]) in
  r = Ok tt ∧ str_contains ("GET /remote/index HTTP/1.1" +:+ crlf) (sent_text c) = true ∧
  str_contains ("GET /remote/fortisslvpn HTTP/1.1" +:+ crlf) (sent_text c) = true ∧
  occurrences ("Cookie: SVPNCOOKIE=abc" +:+ crlf) (sent_text c) = 2%nat.
Proof. run_test. Qed.

Example follows_portal_redirect_instead_of_remote_index :
  let '(r, c) := request_vpn_allocation vpn_example "SVPNCOOKIE=abc" (Some "/sslvpn/portal.html") (mock [empty_ok; empty_ok]) in
  r = Ok tt ∧ str_contains ("GET /sslvpn/portal.html HTTP/1.1" +:+ crlf) (sent_text c) = true ∧
  str_contains ("GET /remote/index HTTP/1.1" +:+ crlf) (sent_text c) = false ∧
  str_contains ("GET /remote/fortisslvpn HTTP/1.1" +:+ crlf) (sent_text c) = true ∧
  occurrences ("Cookie: SVPNCOOKIE=abc" +:+ crlf) (sent_text c) = 2%nat.
Proof. run_test. Qed.

Example parses_basic_xml_values :
  let parsed := parse_vpn_config_xml ("<root><assigned-addr>10.0.0.2</assigned-addr><dns-server>1.1.1.1</dns-server>"
    +:+ "<dns-server>8.8.8.8</dns-server><dns-suffix>corp&amp;vpn</dns-suffix></root>") in
  gateway parsed = None ∧ assigned_ip parsed = Some "10.0.0.2" ∧ Portal.dns_servers parsed = ["1.1.1.1"; "8.8.8.8"] ∧
  dns_suffix parsed = Some "corp&vpn" ∧ split_routes parsed = [].
Proof. run_test. Qed.

Example parses_fortinet_xml_attributes :
  let parsed := parse_vpn_config_xml (quoting (str_join (String newline "                ")
    ["<root>"; "<assigned-addr ipv4=^10.212.134.200^/>"; "<dns ip=^10.0.0.10^/>"; "<dns ip='10.0.0.11'/>";
     "<dns domain=^corp.example^/>"; "<split-tunnel-info>"; "    <addr ip=^10.10.0.0^ mask=^255.255.0.0^/>";
     "    <addr ip=^192.168.1.0^ mask=^255.255.255.0^/>"; "</split-tunnel-info>"; "</root>"])) in
  gateway parsed = Some "10.212.134.200" ∧ assigned_ip parsed = Some "10.212.134.200" ∧
  Portal.dns_servers parsed = ["10.0.0.10"; "10.0.0.11"] ∧ dns_suffix parsed = Some "corp.example" ∧
  split_routes parsed =
    [corp_route; {| destination := "192.168.1.0"; mask := "255.255.255.0"; route_gateway := Some "10.212.134.200" |}].
Proof. run_test. Qed.

Example gets_raw_vpn_config :
  let xml := "<root><assigned-addr>10.0.0.2</assigned-addr></root>" in
  match fst (get_vpn_config vpn_example "SVPNCOOKIE=abc" (mock [response_text 200 "OK" [] xml])) with
  | Ok parsed => raw_xml parsed = xml ∧ assigned_ip parsed = Some "10.0.0.2" ∧ split_routes parsed = []
  | _ => False
  end.
Proof. run_test. Qed.

Example reports_endpoint_on_http_status_error :
  fst (get_vpn_config vpn_example "SVPNCOOKIE=abc" (mock [response_text 403 "Forbidden" [] ""])) =
    Err (HttpProtocol "/remote/fortisslvpn_xml: unexpected HTTP status: 403 Forbidden").
Proof. run_test. Qed.

(** ** [auth/saml.rs] *)

Example builds_authentication_url :
  let cfg := default_config <| gateway_host := "vpn.example.com" |> <| gateway_port := 8443 |> in
  authentication_url cfg = "https://vpn.example.com:8443/remote/saml/start?redirect=1" ∧
  authentication_url (cfg <| realm := Some "hello world" |>) =
    "https://vpn.example.com:8443/remote/saml/start?redirect=1&realm=hello%20world".
Proof. run_test. Qed.

Example parses_valid_callback_request :
  parse_callback_request (dos_lines ["GET /?id=abc-123 HTTP/1.1"; "Host: localhost"; ""]) = inl "abc-123".
Proof. run_test. Qed.

Example rejects_invalid_callback_request :
  parse_callback_request (dos_lines ["POST /?id=abc HTTP/1.1"]) = inr BadMethodOrPath ∧
  parse_callback_request (dos_lines ["GET /?id=a_b HTTP/1.1"]) = inr InvalidCharacter.
Proof. run_test. Qed.

Example receives_callback_over_loopback :
  let client := browser (dos_lines ["GET /?id=abc-123 HTTP/1.1"; "Host: localhost"; ""]) in
  let '(id, w) := wait_for_session_id_on_listener 1 2000
    {| accepts := [Accepted client (SocketAddrV4 (Ipv4 127 0 0 1) 4000)]; wait_clock := {| time := 0; delays := [] |}; served := [] |} in
  id = Ok "abc-123" ∧
  map (λ t, let response := sent_text (conn t) in
            (starts_with ("HTTP/1.1 200 OK" +:+ crlf) response, str_contains "SAML session id received" response)) (served w) =
    [(true, true)].
Proof. run_test. Qed.

(** ** [auth/login.rs] *)

Definition user_config : Config :=
  vpn_example <| username := "user" |> <| password := Some "pass" |>.

(** A login on a stream of responses: the session and what was sent. *)
Definition login (config : Config) (responses : list str) : result AuthSession * str :=
  let '(r, c) := authenticate no_secret config (mock responses) in (r, sent_text c).

Definition cookie_of (x : result AuthSession * str) : result str := let* s := fst x in Ok (session_cookie s).
Definition redirect_of (x : result AuthSession * str) : result (option str) := let* s := fst x in Ok (portal_redirect_path s).

Definition sets (cookie : str) : header := ("Set-Cookie", cookie +:+ "; Path=/").

Example builds_initial_password_login_body :
  initial_login_body (default_config <| username := "u ser" |> <| password := Some "p+ss" |> <| realm := Some "r/m" |>) =
    "username=u%20ser&credential=p%2Bss&realm=r%2Fm&ajax=1".
Proof. run_test. Qed.

Example extracts_value_until_separator :
  get_value ("ret=1&tokeninfo=ftm_push" +:+ crlf) "tokeninfo=" = Some "ftm_push".
Proof. run_test. Qed.

Example accepts_cookie_from_password_login :
  let x := login (user_config <| gateway_port := 8443 |>) [response_text 200 "OK" [sets "SVPNCOOKIE=abc"] "ret=1"] in
  cookie_of x = Ok "SVPNCOOKIE=abc" ∧ str_contains ("Host: vpn.example:8443" +:+ crlf) (snd x) = true ∧
  str_contains ("POST /remote/logincheck HTTP/1.1" +:+ crlf) (snd x) = true ∧
  ends_with "username=user&credential=pass&realm=&ajax=1" (snd x) = true.
Proof. run_test. Qed.

Example returns_all_cookies_from_login_response :
  cookie_of (login user_config [response_text 200 "OK" [sets "APSCOOKIE=xyz"; sets "SVPNCOOKIE=abc"] "ret=1"]) =
    Ok "APSCOOKIE=xyz; SVPNCOOKIE=abc".
Proof. run_test. Qed.

Example captures_portal_redirect_from_login_response :
  let x := login user_config
    [response_text 200 "OK" [sets "SVPNCOOKIE=abc"] "<script>document.location='/sslvpn/portal.html';</script>"] in
  cookie_of x = Ok "SVPNCOOKIE=abc" ∧ redirect_of x = Ok (Some "/sslvpn/portal.html").
Proof. run_test. Qed.

Example posts_hostcheck_action_after_cookie_when_requested :
  let x := login (user_config <| hostcheck := Some "ok" |> <| check_virtual_desktop := Some "0" |>)
    [response_text 200 "OK" [sets "APSCOOKIE=xyz"; sets "SVPNCOOKIE=abc"]
       (quoting "ret=1&action=^/remote/hostcheck_validate^"); empty_ok] in
  cookie_of x = Ok "APSCOOKIE=xyz; SVPNCOOKIE=abc" ∧
  str_contains ("POST /remote/hostcheck_validate HTTP/1.1" +:+ crlf) (snd x) = true ∧
  str_contains ("Cookie: APSCOOKIE=xyz; SVPNCOOKIE=abc" +:+ crlf) (snd x) = true ∧
  ends_with "hostcheck=ok&check_virtual_desktop=0" (snd x) = true.
Proof. run_test. Qed.

Example parses_action_url_like_original_hostcheck_helper :
  action_url (quoting "<html> action=^/remote/hostcheck_validate^ </html>") = Ok (Some "/remote/hostcheck_validate") ∧
  action_url "<form ACTION='/remote/check'>" = Ok (Some "/remote/check") ∧ action_url "ret=1" = Ok None.
Proof. run_test. Qed.

Example parses_portal_redirect_from_login_html :
  Login.portal_redirect "<script>document.location='/sslvpn/portal.html';</script>" = Ok (Some "/sslvpn/portal.html") ∧
  Login.portal_redirect (quoting "<script>window.location = ^/remote/portal^;</script>") = Ok (Some "/remote/portal") ∧
  Login.portal_redirect "<script>location.href='https://evil.example/'</script>" = Ok None.
Proof. run_test. Qed.

Example sends_second_factor_code_when_tokeninfo_present :
  let x := login (user_config <| otp := Some "123456" |>)
    [response_text 200 "OK" [] "ret=1&tokeninfo=sms&reqid=req&polid=pol&grp=grp&magic=mag";
     response_text 200 "OK" [sets "SVPNCOOKIE=otp"] "ret=1"] in
  cookie_of x = Ok "SVPNCOOKIE=otp" ∧ str_contains "code=123456&code2=&magic=mag" (snd x) = true.
Proof. run_test. Qed.

Example builds_otp_challenge_form_from_html :
  let cfg := vpn_example <| username := "user" |> <| realm := Some "realm/name" |> <| otp := Some "12 34" |> in
  let html := quoting (str_join (String newline "            ")
    ["<html><FORM METHOD=^post^ ACTION=^/remote/otpcheck^>"; "Please enter token:<br>";
     "<INPUT TYPE=^hidden^ NAME=^magic^ VALUE=^m+g^>"; "<INPUT TYPE=^password^ NAME=^token^>";
     "<INPUT TYPE=^submit^ NAME=^submit^ VALUE=^OK^>"; "</FORM></html>"]) in
  otp_challenge_form no_secret cfg html =
    Ok ("/remote/otpcheck", "magic=m%2Bg&token=12%2034&realm=realm%2Fname", "Please enter token:").
Proof. run_test. Qed.

Example accepts_cookie_after_401_otp_challenge :
  let page := quoting (str_join (String newline "            ")
    ["<form action=^/remote/otpcheck^>"; "Please enter OTP:<input type=^hidden^ name=^magic^ value=^abc^>";
     "<input type=^password^ name=^credential^>"; "</form>"]) in
  let x := login (user_config <| otp := Some "654321" |>)
    [response_text 401 "Authorization Required" [] page; response_text 200 "OK" [sets "SVPNCOOKIE=otp401"] "ret=1"] in
  cookie_of x = Ok "SVPNCOOKIE=otp401" ∧ str_contains ("POST /remote/logincheck HTTP/1.1" +:+ crlf) (snd x) = true ∧
  str_contains ("POST /remote/otpcheck HTTP/1.1" +:+ crlf) (snd x) = true ∧
  ends_with "magic=abc&credential=654321" (snd x) = true.
Proof. run_test. Qed.

Example uses_provided_cookie_without_network_io :
  login (default_config <| cookie := Some "SVPNCOOKIE=already" |>) [] =
    (Ok {| session_cookie := "SVPNCOOKIE=already"; portal_redirect_path := None |}, "").
Proof. run_test. Qed.

(** ** [user_input.rs], [tunnel/pppd.rs], [tunnel/interface.rs] *)

Example builds_secret_hint_like_c :
  secret_hint "user" (Some "realm") "vpn.example" "2fa" = "user_realm_vpn.example_2fa" ∧
  secret_hint "user" None "vpn.example" "password" = "user__vpn.example_password".
Proof. run_test. Qed.

Example builds_ppp_system_args :
  argv (build_ppp_command (default_config <| ppp_system := Some "fortivpn" |>) DEFAULT_PPP_PATH) =
    [DEFAULT_PPP_PATH; "-direct"; "fortivpn"].
Proof. run_test. Qed.

Example builds_ppp_direct_without_system_name :
  argv (build_ppp_command (default_config <| ppp_system := Some "" |>) DEFAULT_PPP_PATH) = [DEFAULT_PPP_PATH; "-direct"].
Proof. run_test. Qed.

(** Is [l'] in [l], all of it together? *)
Fixpoint has_window (l' l : list str) : bool :=
  bool_decide (take (length l') l = l') || match l with [] => false | _ :: l => has_window l' l end.

Example builds_default_pppd_args :
  let args := argv (build_pppd_command default_config DEFAULT_PPPD_PATH) in
  head args = Some DEFAULT_PPPD_PATH ∧
  forallb (λ w, has_window w args) [["230400"]; [":169.254.2.1"]; ["ipcp-accept-local"]; ["ipcp-accept-remote"]; ["logfd"; "2"]] =
    true.
Proof. run_test. Qed.

Example builds_call_mode_with_extra_options :
  let cfg := default_config <| pppd_call := Some "vpn" |> <| pppd_use_peerdns := true |>
    <| pppd_log := Some "/tmp/pppd.log" |> <| pppd_ifname := Some "ppp-openforti" |> in
  let args := argv (build_pppd_command cfg DEFAULT_PPPD_PATH) in
  take 3 args = [DEFAULT_PPPD_PATH; "call"; "vpn"] ∧
  forallb (λ w, has_window w args) [["usepeerdns"]; ["debug"; "logfile"; "/tmp/pppd.log"]; ["ifname"; "ppp-openforti"]] = true.
Proof. run_test. Qed.

Example matches_ppp_or_preferred_interface_names :
  map (λ '(name, preferred), matches_interface_name name preferred)
    [("ppp0", None); ("ppp0", Some "vpn0"); ("utun12", Some "utun12"); ("vpn-ppp", None); ("en0", None); ("en0", Some "utun")] =
    [true; true; true; true; false; false].
Proof. run_test. Qed.

(** ** [pinentry.rs] *)

(** A child with something to read. *)
Definition talking (answers : str) : Child :=
  {| child_stdin := vec_writer []; child_stdout := [RBytes (as_bytes answers)]; stdin_open := true; status := Ok None;
     killed := false; waits := 0 |}.
Definition no_text (l : bytes) : str := "".

Example uri_escape_matches_pinentry_expectations :
  Pinentry.uri_escape "user realm@example password" = "user%20realm%40example%20password" ∧
  Pinentry.uri_escape "abc-_.~XYZ09" = "abc-_.~XYZ09".
Proof. run_test. Qed.

Example uri_unescape_accepts_hex_and_double_percent :
  uri_unescape no_text "abc%20def" = Ok "abc def" ∧ uri_unescape no_text "abc%%def" = Ok "abc%def".
Proof. run_test. Qed.

Example reads_ok_and_data_responses :
  fst (read_pinentry_response no_text (talking (unix_lines ["OK"]))) = Ok None ∧
  fst (read_pinentry_response no_text (talking (unix_lines ["D secret%20value"]))) = Ok (Some "secret value").
Proof. run_test. Qed.

Example rejects_pinentry_errors :
  is_ok (fst (read_pinentry_response no_text (talking (unix_lines ["ERR 83886179 canceled"])))) = false ∧
  is_ok (fst (read_pinentry_response no_text (talking (unix_lines ["WHAT"])))) = false.
Proof. run_test. Qed.

(** ** [net_plan.rs] *)

Definition office_vpn (routes : list Ipv4Route) : VpnConfigXml :=
  {| raw_xml := ""; gateway := Some "10.212.134.200"; assigned_ip := Some "10.212.134.200";
     dns_servers := ["10.0.0.10"; "10.0.0.11"]; dns_suffix := Some "corp.example"; split_routes := routes |}.

Definition planned (config : Config) (routes : list Ipv4Route) (platform : Platform) (endpoint : option Ipv4Addr)
    : result (list NetworkAction) :=
  let* plan := plan_network_actions config (office_vpn routes) platform "ppp0" endpoint in Ok (actions plan).

Definition linux_route : NetworkAction := RunCommand "ip" ["route"; "add"; "10.10.0.0/16"; "via"; "10.212.134.200"; "dev"; "ppp0"].

Example plans_linux_routes_and_dns :
  planned default_config [corp_route] Linux None =
    Ok [linux_route; ConfigureDns Linux "ppp0" ["10.0.0.10"; "10.0.0.11"] (Some "corp.example")].
Proof. run_test. Qed.

Example plans_tunnel_endpoint_protection_before_routes :
  (let* l := planned default_config [corp_route] Linux (Some (Ipv4 203 0 113 10)) in Ok (take 2 l)) =
    Ok [DropWrongTunnelRoute Linux (Ipv4 203 0 113 10) "ppp0"; ProtectTunnelRoute Linux (Ipv4 203 0 113 10)].
Proof. run_test. Qed.

Example plans_macos_route_syntax :
  (let* l := planned default_config [corp_route] MacOs None in Ok (head l)) =
    Ok (Some (RunCommand "/sbin/route" ["add"; "-net"; "10.10.0.0"; "-netmask"; "255.255.0.0"; "10.212.134.200"])).
Proof. run_test. Qed.

Example respects_route_and_dns_switches :
  planned (default_config <| set_routes := false |> <| set_dns := false |>) [corp_route] Linux None = Ok [].
Proof. run_test. Qed.

Example plans_half_internet_routes :
  match planned (default_config <| half_internet_routes := true |> <| set_dns := false |>) [] Linux None with
  | Ok l => length l = 2%nat ∧ head l = Some (RunCommand "ip" ["route"; "add"; "0.0.0.0/1"; "dev"; "ppp0"])
  | _ => False
  end.
Proof. run_test. Qed.

Example plans_default_route_when_no_split_routes :
  planned (default_config <| set_dns := false |>) [] Linux None = Ok [ReplaceDefaultRoute Linux "ppp0"].
Proof. run_test. Qed.

Example split_routes_take_precedence_over_half_internet_routes :
  planned (default_config <| half_internet_routes := true |> <| set_dns := false |>) [corp_route] Linux None = Ok [linux_route].
Proof. run_test. Qed.

Example rejects_non_contiguous_netmask_prefix_conversion :
  ipv4_mask_to_prefix "255.0.255.0" = Ok None ∧ ipv4_mask_to_prefix "255.255.255.0" = Ok (Some 24).
Proof. run_test. Qed.

(** ** [logger.rs], [tls.rs] *)

Example verbosity_gates_messages :
  let l := Console.init true false LOG_WARN initial_logger in
  map (λ level, enabled level l) [LOG_ERROR; LOG_WARN; LOG_INFO] = [true; true; false].
Proof. run_test. Qed.

Example formats_lower_hex : bytes_to_lower_hex [0x00; 0xab; 0xcd; 0xff] = "00abcdff".
Proof. run_test. Qed.

Example rejects_unsupported_rustls_options :
  map (λ config, is_ok (reject_unsupported_rustls_options config))
    [default_config <| cipher_list := Some "DEFAULT" |>; default_config <| seclevel_1 := true |>;
     default_config <| min_tls := Some Tls10 |>; default_config] = [false; false; false; true].
Proof. run_test. Qed.

Example parses_proxy_urls_like_c :
  parse_proxy_url (λ s, s) "http://proxy.example:3128/" = Ok {| proxy_host := "proxy.example"; proxy_port := 3128 |} ∧
  parse_proxy_url (λ s, s) "proxy.example" = Ok {| proxy_host := "proxy.example"; proxy_port := 8080 |} ∧
  is_ok (parse_proxy_url (λ s, s) "socks5://proxy.example:1080") = false.
Proof. run_test. Qed.

Example sends_http_connect_to_proxy :
  let '(r, c) := establish_http_connect_proxy "vpn.example" 443
    (mock [dos_lines ["HTTP/1.1 200 OK"; "Proxy-Agent: test"; ""]]) in
  r = Ok tt ∧ starts_with ("CONNECT vpn.example:443 HTTP/1.1" +:+ crlf) (sent_text c) = true ∧
  str_contains ("Host: vpn.example:443" +:+ crlf) (sent_text c) = true.
Proof. run_test. Qed.

(** ** [http.rs] *)

Example url_encode_matches_c_rules :
  url_encode "abcXYZ09-_.~" = "abcXYZ09-_.~" ∧
  url_encode (string_of_bytes (as_bytes "a b+c/" ++ [0xc3; 0xa4])) = "a%20b%2Bc%2F%C3%A4" ∧
  url_encode (string_of_bytes [0]) = "%00".
Proof. run_test. Qed.

Example extracts_cookie_from_set_cookie_header :
  extract_svpn_cookie (dos_lines ["HTTP/1.1 200 OK"; "Set-Cookie: other=1; Path=/";
                                  "Set-Cookie: SVPNCOOKIE=abc123; Path=/; Secure"; ""]) = Ok (Some "SVPNCOOKIE=abc123").
Proof. run_test. Qed.

Example builds_cookie_header_from_all_set_cookie_headers :
  cookie_header {| status_code := 200; reason := "OK"; Http.body := [];
    headers := [("Set-Cookie", "APSCOOKIE=xyz; Path=/"); ("Set-Cookie", "SVPNCOOKIE=abc; Path=/; Secure")] |} =
    Some "APSCOOKIE=xyz; SVPNCOOKIE=abc".
Proof. run_test. Qed.

Example rejects_empty_cookie : extract_svpn_cookie_from_header "SVPNCOOKIE=; Path=/" = None.
Proof. run_test. Qed.

Example extracts_cookie_names_without_values_for_debug :
  cookie_names_from_cookie_header "APSCOOKIE=secret; SVPNCOOKIE=very-secret" = ["APSCOOKIE"; "SVPNCOOKIE"] ∧
  cookie_name_from_set_cookie_header "SVPNCOOKIE=very-secret; Path=/" = Some "SVPNCOOKIE".
Proof. run_test. Qed.

Example accepts_cookie_value_with_base64_padding :
  extract_svpn_cookie_from_header "SVPNCOOKIE=abc==; Path=/" = Some "SVPNCOOKIE=abc==".
Proof. run_test. Qed.

Example receives_response_with_content_length :
  match fst (http_receive [RBytes (as_bytes (response_text 200 "OK" [sets "SVPNCOOKIE=abc"] "hello" +:+ "extra"))]) with
  | Ok response => status_code response = 200 ∧ Http.body response = as_bytes "hello" ∧
      svpn_cookie response = Some "SVPNCOOKIE=abc"
  | _ => False
  end.
Proof. run_test. Qed.

Example receives_chunked_response_until_terminator :
  match fst (http_receive [RBytes (as_bytes (dos_lines ["HTTP/1.1 200 OK"; "Transfer-Encoding: chunked"; ""; "5"; "hello"; "0"; ""]
                                             +:+ "trailing"))]) with
  | Ok response => drop (length (Http.body response) - 7)%nat (Http.body response) = as_bytes (dos_lines [""; "0"; ""])
  | _ => False
  end.
Proof. run_test. Qed.

Example detects_permission_denied_marker :
  fst (http_receive [RBytes (as_bytes (response_text 200 "OK" [] "Permission denied"))]) = Err PermissionDenied.
Proof. run_test. Qed.

Example builds_request_header_preview_without_cookie_values :
  let preview := request_header_preview "vpn.example:54443" "GET" "/remote/index" [("Cookie", "SVPNCOOKIE=secret")] 0 in
  map (λ s, str_contains s preview)
    ["GET /remote/index HTTP/1.1"; "Host: vpn.example:54443"; "Cookie: SVPNCOOKIE=<redacted>"; "secret"] = [true; true; true; false].
Proof. run_test. Qed.

Example builds_sanitized_body_preview :
  let response := {| status_code := 403; reason := "Forbidden"; headers := [("Content-Type", "text/html")];
    Http.body := as_bytes ("<html>" +:+ String newline ("Permission denied" +:+ String (ascii_of_u8 9) "</html>")) |} in
  body_preview 512 response = Some "<html> Permission denied </html>" ∧ header_names response = ["Content-Type"].
Proof. run_test. Qed.

Example sends_get_request_like_original_c_template :
  let '(r, w) := http_send "vpn.example:54443" "GET" "/remote/index" [("Cookie", "SVPNCOOKIE=abc")] [] (vec_writer []) in
  r = Ok tt ∧ starts_with ("GET /remote/index HTTP/1.1" +:+ crlf) (text_of (written w)) = true ∧
  map (λ s, str_contains (s +:+ crlf) (text_of (written w)))
    ["Host: vpn.example:54443"; "Accept-Encoding: identity"; "Pragma: no-cache";
     "Cache-Control: no-store, no-cache, must-revalidate"; "If-Modified-Since: Sat, 1 Jan 2000 00:00:00 GMT";
     "Content-Type: application/x-www-form-urlencoded"; "Cookie: SVPNCOOKIE=abc"; "Content-Length: 0";
     "Connection: keep-alive"] = [true; true; true; true; true; true; true; true; false].
Proof. run_test. Qed.

Example sends_http_request :
  let '(r, c) := do_http_request "vpn.example" "POST" "/remote/logincheck"
    [("Content-Type", "application/x-www-form-urlencoded")] (as_bytes "username=a") (mock [response_text 204 "No Content" [] ""]) in
  (let* response := r in Ok (status_code response)) = Ok 204 ∧
  starts_with ("POST /remote/logincheck HTTP/1.1" +:+ crlf) (sent_text c) = true ∧
  str_contains ("Host: vpn.example" +:+ crlf) (sent_text c) = true ∧
  str_contains ("Content-Length: 10" +:+ crlf) (sent_text c) = true ∧
  ends_with (crlf +:+ crlf +:+ "username=a") (sent_text c) = true.
Proof. run_test. Qed.

(** ** [net_apply.rs] *)

Example parses_linux_route_get_for_tunnel_route_protection :
  parse_linux_route_get_for_host_route (unix_lines ["203.0.113.10 via 192.0.2.1 dev en0 src 192.0.2.55 uid 0"]) "203.0.113.10" =
    Some ["route"; "add"; "203.0.113.10/32"; "via"; "192.0.2.1"; "dev"; "en0"] ∧
  parse_linux_route_get_for_host_route (unix_lines ["203.0.113.10 dev ppp0 src 10.0.0.2 uid 0"]) "203.0.113.10" = None.
Proof. run_test. Qed.

Example parses_macos_route_get_for_tunnel_route_protection :
  parse_macos_route_get_for_host_route
    (unix_lines ["   route to: 203.0.113.10"; "destination: default"; "    gateway: 192.0.2.1"; "  interface: en0"]) "203.0.113.10" =
    Some ["add"; "-host"; "203.0.113.10"; "192.0.2.1"] ∧
  parse_macos_route_get_for_host_route (unix_lines ["   route to: 203.0.113.10"; "  interface: ppp0"]) "203.0.113.10" = None.
Proof. run_test. Qed.

Example parses_linux_default_route_for_restore :
  parse_linux_default_route (unix_lines ["default via 192.0.2.1 dev en0 proto dhcp"]) =
    Some ["route"; "add"; "default"; "via"; "192.0.2.1"; "dev"; "en0"; "proto"; "dhcp"] ∧
  parse_linux_default_route "" = None.
Proof. run_test. Qed.

Example parses_macos_default_route_for_restore :
  parse_macos_default_route (unix_lines ["   route to: default"; "destination: default"; "       mask: default";
                                         "    gateway: 192.0.2.1"; "  interface: en0"]) = Some ["add"; "default"; "192.0.2.1"] ∧
  parse_macos_default_route (unix_lines ["route to: default"]) = None.
Proof. run_test. Qed.

Example builds_linux_route_rollback_command :
  rollback_args_for_command "ip" ["route"; "add"; "10.10.0.0/16"; "via"; "10.212.134.200"; "dev"; "ppp0"] =
    Some ["route"; "del"; "10.10.0.0/16"; "via"; "10.212.134.200"; "dev"; "ppp0"].
Proof. run_test. Qed.

Example builds_macos_route_rollback_command :
  rollback_args_for_command "/sbin/route" ["add"; "-net"; "10.10.0.0"; "-netmask"; "255.255.0.0"; "10.212.134.200"] =
    Some ["delete"; "-net"; "10.10.0.0"; "-netmask"; "255.255.0.0"; "10.212.134.200"].
Proof. run_test. Qed.

Example leaves_unknown_commands_without_rollback : rollback_args_for_command "echo" ["hello"] = None.
Proof. run_test. Qed.

Example builds_dns_body_like_resolv_conf :
  build_resolvconf_body ["10.0.0.10"; "10.0.0.11"] (Some "corp.example") =
    unix_lines ["nameserver 10.0.0.10"; "nameserver 10.0.0.11"; "search corp.example"].
Proof. run_test. Qed.

Example prepends_vpn_dns_before_existing_resolv_conf :
  let original := as_bytes (unix_lines ["nameserver 1.1.1.1"]) in
  prepend_dns_lines_to_resolv_conf original (dns_lines_to_add original ["10.0.0.10"] None) =
    as_bytes (unix_lines ["nameserver 10.0.0.10"; "nameserver 1.1.1.1"]).
Proof. run_test. Qed.

Example does_not_add_dns_lines_that_already_exist :
  dns_lines_to_add (as_bytes (unix_lines ["nameserver 10.0.0.10"; "search corp.example"])) ["10.0.0.10"; "10.0.0.11"]
    (Some "corp.example") = ["nameserver 10.0.0.11"].
Proof. run_test. Qed.

Example replaces_semicolon_in_dns_search_like_c :
  build_resolvconf_body [] (Some "corp.example;dev.example") = unix_lines ["search corp.example dev.example"] ∧
  build_dns_lines [] (Some "corp.example;dev.example") = ["search corp.example dev.example"].
Proof. run_test. Qed.

Example builds_macos_scutil_dns_script :
  build_macos_scutil_dns_script "State:/Network/Service/openfortivpn-ppp0/DNS" "ppp0" ["10.0.0.10"; "10.0.0.11"]
    (Some "corp.example;dev.example") =
    unix_lines ["d.init"; "d.add InterfaceName ppp0"; "d.add ServerAddresses * 10.0.0.10 10.0.0.11";
      "d.add SearchDomains * corp.example dev.example"; "d.add SupplementalMatchDomains * corp.example dev.example";
      "set State:/Network/Service/openfortivpn-ppp0/DNS"].
Proof. run_test. Qed.

Example builds_macos_scutil_cleanup_script_and_key :
  macos_scutil_dns_key "ppp/0" = "State:/Network/Service/openfortivpn-ppp-0/DNS" ∧
  build_macos_scutil_remove_script "State:/Network/Service/openfortivpn-ppp0/DNS" =
    unix_lines ["remove State:/Network/Service/openfortivpn-ppp0/DNS"].
Proof. run_test. Qed.

Example removes_only_added_dns_lines_on_rollback :
  remove_added_dns_lines
    (as_bytes (unix_lines ["nameserver 10.0.0.10"; "search corp.example"; "nameserver 1.1.1.1"; "nameserver 10.0.0.10"]))
    ["nameserver 10.0.0.10"; "search corp.example"] =
    as_bytes (unix_lines ["nameserver 1.1.1.1"; "nameserver 10.0.0.10"]).
Proof. run_test. Qed.

(** ** [config.rs], [main.rs] *)

Example maps_cli_verbosity_like_c :
  map (λ '(v, q), cli_log_verbosity v q) [(0, 0); (1, 0); (9, 0); (0, 1); (0, 9)] = [3; 4; 6; 2; 0].
Proof. run_test. Qed.

Example parses_bool_like_c :
  map parse_bool [""; "true"; "false"; "1"; "0"] = [Ok false; Ok true; Ok false; Ok true; Ok false] ∧
  map (λ s, is_ok (parse_bool s)) ["2"; "yes"] = [false; false].
Proof. run_test. Qed.

Example parses_basic_config_file :
  match parse_config_file (str_join (String newline "            ")
    [""; "# comment"; "host = vpn-gateway"; "port = 8443"; "username = foo"; "password = bar"; "set-dns = 0";
     "trusted-cert = e46d4aff08ba6914e64daa85bc6112a422fa7ce16631bff0b592a28556f993db"; "max_recoonects = 2";
     "reconnect-delay = 5"; ""]) with
  | Ok cfg => gateway_host cfg = "vpn-gateway" ∧ gateway_port cfg = 8443 ∧ username cfg = "foo" ∧
      password cfg = Some "bar" ∧ set_dns cfg = false ∧ length (trusted_certs cfg) = 1%nat ∧
      max_reconnects cfg = 2 ∧ reconnect_delay cfg = Some 5
  | _ => False
  end.
Proof. run_test. Qed.

Example parses_legacy_persistent_as_reconnect_delay :
  (let* cfg := parse_config_file "persistent = 7" in Ok (reconnect_delay cfg)) = Ok (Some 7).
Proof. run_test. Qed.

Example parses_gateway_host_port :
  parse_gateway "host:8443" = Ok ("host", Some 8443) ∧ parse_gateway "host" = Ok ("host", None).
Proof. run_test. Qed.

Example prefixes_svpn_cookie_when_missing :
  svpn_cookie_with_prefix "abc" = "SVPNCOOKIE=abc" ∧ svpn_cookie_with_prefix "SVPNCOOKIE=abc" = "SVPNCOOKIE=abc".
Proof. run_test. Qed.

(** The options that the parser makes of [openfortivpn vpn.example]. *)
Example from_sources_does_not_load_default_config_path :
  (let* cfg := from_sources (λ _, Err (Network "no file")) (no_options <| cli_gateway := Some "vpn.example" |>) in
   Ok (gateway_host cfg)) = Ok "vpn.example".
Proof. run_test. Qed.

Example vpn_config_interface_addr_prefers_assigned_ip :
  map (λ assigned, vpn_config_interface_addr {| raw_xml := ""; gateway := Some "10.0.0.1"; assigned_ip := assigned;
         dns_servers := []; dns_suffix := None; split_routes := [] |}) [Some "10.0.0.2"; None] =
    [Some (Ipv4 10 0 0 2); Some (Ipv4 10 0 0 1)].
Proof. run_test. Qed.

(** ** [proxy/netstack.rs] *)

Example device_receives_queued_packets :
  let '(packet, device) := NetStack.receive (push_rx [0x45; 0x00; 0x00; 0x14] (new_device DEFAULT_PROXY_MTU)) in
  packet = Some [0x45; 0x00; 0x00; 0x14] ∧ rx_len device = 0.
Proof. run_test. Qed.

Example device_queues_transmitted_packets :
  let device := NetStack.transmit [0x45; 0x00; 0x00; 0x14] (new_device DEFAULT_PROXY_MTU) in
  tx_len device = 1 ∧ fst (pop_tx device) = Some [0x45; 0x00; 0x00; 0x14].
Proof. run_test. Qed.
